(* ===== verification/_CoqProject ===== *)
-Q . S2P
Prelude.v
Float64.v
Number.v
Decimal.v
Json.v
Hash.v
Identity.v
State.v
Object.v
Decay.v
Budget.v
Ledger.v
Cost.v
Policy.v
Scheduler.v
Explanation.v
Codec.v
Protocol.v
Transport.v
Socket.v
Wire.v
Messages.v
Persistence.v
ByteCodec.v
Fabric.v
Report.v
Typing.v
Storage.v
Coordinator.v
Authority.v
Settlement.v
Server.v
Worker.v
System.v
Network.v
Delivery.v
Quiet.v
Service.v
Console.v
Multiprocess.v
StaleExample.v
Examples.v
Tests.v
Float32.v
Cuda.v
Cli.v
