(* ===== verification/Prelude.v ===== *)
(** * Warmth Fabric: a verification library

    ** The program

    Warmth Fabric keeps track of how prepared ("warm") the parts of an
    inference stack are: model weights, adapters, kernels, engines.  An
    in-process facade ([WarmthFabric]) stores warmth objects, warms them through
    a backend operation under a budget, decays and invalidates them, plans and
    explains, and persists snapshots.  A distributed half has one coordinator
    that owns the metadata and the authority (an epoch and two generations),
    and workers that register over TCP frames, receive warm commands, run a
    hook and send results back; a result is accepted only from the registered
    boot of the worker, under the current authority, and for an attempt that is
    in flight.  A command line tool drives both halves.

    ** Files

    Shared: [Prelude] (machine integers as [Z] with [wrap], bytes, strings,
    enumerations, big-endian digits, tactics and hints), [Float64] (a [double]
    is its 64-bit pattern; comparison and arithmetic are those of the standard
    library's [SpecFloat]) and [Number] (what printf and [std::stod] do with
    numbers, on exact integers).

    One file per part of include/warmth and src:
    - [Json]: json.hpp.  [Value], its accessors and setters (module [Access]),
      [dump] and [parse], with the positions and messages of the parser's
      exceptions.
    - [Hash]: detail/hash.hpp.  [crc32], module [Sha256], [digest16].
    - [Identity]: identity.hpp, identity.cpp.  [Id128], [BasicGeneration].
    - [State]: warmth_state.hpp, warmth_dimensions.hpp.  [WarmthState],
      [transition_allowed], [WarmthDimensions], [composite_level].
    - [Object]: warmth_object.hpp.  The record [WarmthObject] and its setters;
      [transition] is guarded, [restore_state] is not.
    - [Decay]: time.hpp, decay.hpp, invalidation.hpp.
    - [Budget]: budget.hpp.  [BudgetTracker] with [reserve] and [release].
      [Ledger] states what a client that knows its own reservations can rely on;
      [Fabric] and [Coordinator] are both proved against it.
    - [Cost]: cost_model.hpp.  [Policy]: policy.hpp.  [Scheduler]: scheduler.hpp.
      [Explanation]: explanation.hpp (records, text and JSON documents).
    - [Codec]: encoders and decoders of bytes as writers and readers with the
      laws [reads] and [yields]; [ByteCodec]: the classes of persistence.cpp and
      protocol.hpp with their buffers and positions, proved to implement them.
    - [Protocol]: the frames of protocol.hpp, [write] and [read] on a stream of
      bytes; [Transport]: the loops of transport.cpp over what [recv] and [send]
      deliver, and the same frames on them; [Socket]: which object owns which
      descriptor, and the start and clean-up of Winsock (module [Winsock]); [Wire]: wire.hpp; [Messages]: messages.hpp, where the class
      [Message] is the contract of a payload type and every payload is an
      instance.
    - [Persistence]: persistence.hpp, persistence.cpp.  [encode_snapshot] and
      [decode_snapshot] with the error texts of the code.
    - [Fabric]: fabric.hpp, fabric.cpp.  A method is a function on the state,
      since it is one critical section.  [warm] releases the mutex around the
      backend call and is the composition of [warm_begin] and [warm_end];
      [fab_reach] interleaves these with all other methods.  A move leaves a
      [Husk] behind, which is an argument.  [Storage]: [save]
      and [recover] through files on a disk whose streams may fail.  [Typing]:
      the type invariant, over [fabric_step].  [Report]: the JSON documents of a
      fabric, read back.
    - [Coordinator]: coordinator.hpp, coordinator.cpp.  The members as a record;
      connections live in a heap, since a connection's thread and the worker
      table share them.  [handle_frame] dispatches to [handle_hello],
      [handle_report] and [handle_warm_result]; [issue_warm] is [issue_begin],
      the send and [issue_failed]; [coord_step] is one critical section of any
      thread, [coord_reach] what any interleaving can reach.  [Server]: the
      listener, one thread per connection, and [stop].
    - [Worker]: worker.hpp, worker.cpp.  [connect], [run], [handle_frame].
    - [Console], [Multiprocess], [Cli]: tools/warmth_cli.cpp.  A program runs on
      a console and can end, block, be aborted or be undefined ([Console]);
      [Cli.main] and its commands; [Multiprocess] is the restart proof that the
      tool offers on Windows, with the steps of all other threads and processes
      between its own.
    - [Float32], [Cuda]: cuda/warmth_cuda.cu.  The kernel as what one thread does
      to device memory, and the host program over a class of CUDA calls.
    - [Examples], [StaleExample]: examples/ and consumer/, with what they print.
    - [Tests]: tests/ and benchmarks/.  The harness of wtest.hpp, the cases of
      test_core.cpp, test_property.cpp, test_persistence.cpp and
      test_concurrency.cpp, and benchmark_warmth.cpp.

    [Authority] and [Settlement] hold the theorems about the coordinator and
    [System] those about a coordinator and a worker exchanging frames.
    [Network] composes one coordinator, any number of worker processes and
    strangers, and the frames in transit, into one state with one action per
    critical section, send and delivery; [Delivery] and [Quiet] are about it.
    [Service] is what a user of all this has to know, a table of jobs without
    connections, frames, epochs or budgets, and [service_of] reads it off a
    network.

    ** What is shown

    - The contract ([Service]): every run of the network is a run of the job
      service, in which each action causes only the events that belong to it; a
      job is executed and closed at most once, and an executable object was
      warmed by a job that was executed with success.
    - The two halves together ([System]): a command goes out, is carried out once, and its result settles the
      attempt and all bookkeeping; a roll of the epoch strands every worker
      connected before it.
    - The whole network ([Network]): in every interleaving, with connections
      breaking and workers coming back, a completed attempt was executed by its
      worker exactly once, and a ready object was warmed by a run of a hook.
      Without failures everything settles, in a bounded number of steps
      ([Quiet]); a lost command never does, and one can be lost although nothing
      fails ([Delivery]).  The restart proof of the tool, run on this network,
      never finds old warmth alive; what it does on failure is to abort
      ([Multiprocess]).
    - Authority and accounting ([Authority]): the accounting of attempts and
      reservations in every reachable state; an object becomes ready only by an
      accepted result (or when it is first announced as HOT); what was rolled
      never returns; a result is applied once; each handler on every branch.
    - Progress: answers to all attempts settle them in any order
      ([Settlement]); [stop] returns when it closed or lost every connection,
      and waits for ever for a silent one it does not know ([Server]); the loops
      of a connection and of a worker end on every stream.
    - The fabric: the budget is conserved under any interleaving of warms; every
      member keeps its type ([Typing]); a ready object has no invalidation
      reason; a restart through a file keeps exactly what recovery promises, and
      no file contents or stream failure can do harm ([Storage]); two defects
      stated as theorems ([warm_masks_invalidation], [snapshot_self_deadlock]).
    - Formats: round trips of identities, objects, messages, frames, snapshots
      and JSON; what a decoder accepts is well formed whatever the bytes are;
      the frame reader accepts exactly what the writer writes, however the
      socket cuts it up; damage is detected, by way of a theorem on bursts in
      the CRC; the positional byte readers implement the readers of [Codec].
    - The tests ([Tests]): the concurrency test passes on every schedule of its
      threads, the property test for every seed and length, and the other two as
      they are; each failure would print its line.
    - Resources: no descriptor leaks or is closed twice ([Socket]).
    - Algorithms: the table-driven CRC against the shift register; streaming
      SHA-256 against the block-wise hash; the plan order is unique, so
      [std::sort] may be any sorting algorithm; decay follows the state table and
      settles; the budget's accounting identity and admission.
    - The tool ([Cli]): exit codes, where it blocks, and the commands on objects.
    - The GPU validation ([Cuda]): the kernel adds the vectors in any order of
      its threads and stays in bounds; the host program never misjudges a device
      that keeps its promises on the cold path, and its rewarm check passes on a
      device that does nothing any more.

    ** Bounds and fuel

    [Sha256.update] loops with the length of its input as fuel, since each turn
    consumes at least a byte, and [pad_zeros] needs at most 64 turns; the
    streaming theorem shows both to be enough.  [process_connection] and
    [Worker.run] take a frame off the stream in each turn, so fuel above the
    length of the stream is enough ([process_connection_total],
    [worker_run_total]).  [read_exact] and [write_all] loop with the number of
    bytes wanted as fuel ([frame_read_refines]).  The JSON parser recurses with
    fuel above twice the length of the text, since any two nested calls take a
    character ([json_parse_typed]).  [Quiet.load] counts the steps a quiet network
    can still take.  In [Multiprocess] a poll has the turns of the code; a wait
    without a limit is cut at [horizon] turns and then counts as blocked, and
    the theorem holds for every horizon.  Theorems that assume room in the 64-bit
    counters ([room], [coord_room], [value _ < 2 ^ 64 - 1]) say so; without it
    the arithmetic wraps as the code's does.

    ** What is not modelled

    What the kernel does (sockets, files, clocks, random numbers): its answers
    are arguments, and of its own state only the table of descriptors, the bytes
    of a connection and the contents of files are kept.  A thread is the sequence
    of its critical sections; data races outside of them (on a connection that
    [stop] closes while its thread reads, on the vector of threads) have no
    meaning here.  The warm operation of the fabric and the hook of a worker are
    arguments, as in the code.  What Windows and the CUDA runtime answer are
    arguments too; the promises of the latter are a class ([Cuda.Lawful]) with
    an instance.  Threads of the kernel are atomic: each writes one element that
    no other reads or writes.  Left out: detail/macros.hpp, which has no code; the
    loopback test, whose calls are those of [StaleExample] and [Multiprocess]; the
    CUDA test, which starts the program of [Cuda]; and the getters that return a
    member, which are the projections of the records. *)

From Stdlib Require Import ZArith Lia Ascii String.
From stdpp Require Import base gmap sets list strings countable sorting.
Local Open Scope Z_scope.

(** ** Machine integers

    A [std::uintN_t] is a [Z]; the wrap-around of an operation is written out
    with [wrap].  [uint w z] says that [z] is a value of the [w]-bit type. *)
Definition wrap (w z : Z) : Z := z mod 2 ^ w.
Definition uint (w z : Z) : Prop := 0 <= z < 2 ^ w.

#[export] Instance uint_dec w z : Decision (uint w z).
Proof. unfold uint. apply _. Defined.

Declare Scope warmth_scope.
Delimit Scope warmth_scope with warmth.
Notation "'u8' z" := (wrap 8 z) (at level 9, z at level 9) : warmth_scope.
Notation "'u16' z" := (wrap 16 z) (at level 9, z at level 9) : warmth_scope.
Notation "'u32' z" := (wrap 32 z) (at level 9, z at level 9) : warmth_scope.
Notation "'u64' z" := (wrap 64 z) (at level 9, z at level 9) : warmth_scope.

(** Reading a 64-bit pattern as a signed [std::int64_t] (two's complement). *)
Definition s64 (z : Z) : Z := if decide (wrap 64 z < 2 ^ 63) then wrap 64 z else wrap 64 z - 2 ^ 64.
Definition sint64 (z : Z) : Prop := - 2 ^ 63 <= z < 2 ^ 63.

(** A byte sequence ([std::vector<std::uint8_t>], [std::span]). *)
Abbreviation bytes := (list Z).
Abbreviation bytes_ok := (Forall (uint 8)).

(** The characters of a [std::string] as bytes and back. *)
Definition byte_of_ascii (a : ascii) : Z := Z.of_N (N_of_ascii a).
Definition ascii_of_byte (b : Z) : ascii := ascii_of_N (Z.to_N b).
Definition string_bytes (s : string) : bytes := map byte_of_ascii (list_ascii_of_string s).
Definition bytes_string (bs : bytes) : string := string_of_list_ascii (map ascii_of_byte bs).

(** ** Enumerations with an underlying [std::uint8_t]

    [enum_code] is [static_cast<std::uint8_t>(e)]; [enum_of] is the cast back,
    defined on the enumerators only, as the validity switches of the code
    accept them. *)
Class UEnum (E : Type) := {
  enum_all : list E;
  enum_code : E -> Z;
  enum_complete : forall e, e ∈ enum_all;
  enum_inj : Inj (=) (=) enum_code;
  enum_u8 : forall e, uint 8 (enum_code e) }.

Definition enum_of {E} `{UEnum E} (z : Z) : option E :=
  List.find (fun e => enum_code e =? z) enum_all.
Definition enum_ok (E : Type) `{UEnum E} (z : Z) : bool :=
  match enum_of (E := E) z with Some _ => true | None => false end.

(** ** Positional digits, most significant first

    [be_digits k n v] is the loop [for i = n-1 .. 0] emitting the [k] low bits
    of [v >> (i * k)]; [be_value w k l] is the loop [acc = (acc << k) | d] on a
    [w]-bit accumulator. *)
Fixpoint be_digits (k : Z) (n : nat) (v : Z) : list Z :=
  match n with
  | O => []
  | S n => wrap k (Z.shiftr v (Z.of_nat n * k)) :: be_digits k n v
  end.

Definition be_value (w k : Z) (l : list Z) : Z :=
  fold_left (fun acc d => Z.lor (wrap w (Z.shiftl acc k)) d) l 0.

(** ** Tactics *)

(** The proof obligations of an instance of [UEnum]. *)
Ltac solve_enum_field :=
  cbn; intros;
  first
    [ match goal with e : _ |- _ => destruct e; cbn; set_solver end
    | intros [] []; cbn; intros; first [reflexivity | discriminate]
    | match goal with e : _ |- _ => destruct e; unfold uint; cbn; lia end ].

(** Case analysis on every [match]/[if] scrutinee that is in the way. *)
Ltac break_match :=
  match goal with
  | |- context [match ?x with _ => _ end] => destruct x eqn:?
  | |- context [if ?x then _ else _] => destruct x eqn:?
  end.
Ltac break_match_in H :=
  match type of H with
  | context [match ?x with _ => _ end] => destruct x eqn:?
  | context [if ?x then _ else _] => destruct x eqn:?
  end.

(** Turn boolean tests in the context into propositions. *)
Ltac bool_simpl :=
  repeat match goal with
  | H : (_ && _)%bool = true |- _ => apply andb_true_iff in H; destruct H
  | H : (_ || _)%bool = false |- _ => apply orb_false_iff in H; destruct H
  | H : negb _ = true |- _ => apply negb_true_iff in H
  | H : negb _ = false |- _ => apply negb_false_iff in H
  | H : (_ =? _) = true |- _ => apply Z.eqb_eq in H
  | H : (_ =? _) = false |- _ => apply Z.eqb_neq in H
  | H : (_ <? _) = true |- _ => apply Z.ltb_lt in H
  | H : (_ <? _) = false |- _ => apply Z.ltb_ge in H
  | H : (_ <=? _) = true |- _ => apply Z.leb_le in H
  | H : (_ <=? _) = false |- _ => apply Z.leb_gt in H
  | H : bool_decide _ = true |- _ => apply bool_decide_eq_true in H
  | H : bool_decide _ = false |- _ => apply bool_decide_eq_false in H
  end.

Create HintDb warmth discriminated.
Create Rewrite HintDb warmth.

(** ** Generic lemmas *)

Lemma wrap_uint w z : 0 <= w -> uint w (wrap w z).
Proof. intros. unfold uint, wrap. apply Z.mod_pos_bound. lia. Qed.

Lemma wrap_small w z : uint w z -> wrap w z = z.
Proof. intros. unfold wrap. by apply Z.mod_small. Qed.

Lemma wrap_wrap w z : wrap w (wrap w z) = wrap w z.
Proof. unfold wrap. apply Zmod_mod. Qed.

Lemma s64_wrap z : sint64 z -> s64 (wrap 64 z) = z.
Proof.
  unfold sint64, s64. intros Hz. rewrite wrap_wrap. unfold wrap.
  change (2 ^ 64) with (2 * 2 ^ 63) in *. set (m := 2 ^ 63) in *.
  assert (m = 2 ^ 63) by done. assert (0 < m) by lia.
  destruct (decide (0 <= z)).
  - rewrite Z.mod_small by lia. by rewrite decide_True by lia.
  - replace (z mod (2 * m)) with (z + 2 * m).
    + rewrite decide_False by lia. lia.
    + rewrite <- (Z_mod_plus_full z 1 (2 * m)). rewrite Z.mod_small; lia.
Qed.

(** A [w]-bit value is a non-negative one with no bit at or above [w]. *)
Lemma uint_bits w z : 0 <= w ->
  uint w z <-> 0 <= z /\ forall i, w <= i -> Z.testbit z i = false.
Proof.
  intros Hw. split.
  - intros Hz. split; [unfold uint in Hz; lia|]. intros i Hi.
    rewrite <- (wrap_small w z Hz). unfold wrap. apply Z.mod_pow2_bits_high. lia.
  - intros [H0 Hb]. replace z with (wrap w z); [by apply wrap_uint|].
    unfold wrap. apply Z.bits_inj'. intros i Hi.
    destruct (decide (i < w)).
    + apply Z.mod_pow2_bits_low. lia.
    + rewrite Z.mod_pow2_bits_high, Hb by lia. done.
Qed.

Lemma lxor_uint w x y : 0 <= w -> uint w x -> uint w y -> uint w (Z.lxor x y).
Proof.
  intros Hw [Hx Bx]%uint_bits [Hy By]%uint_bits; try done. apply uint_bits; [done|].
  split; [by apply Z.lxor_nonneg|]. intros i Hi. rewrite Z.lxor_spec, Bx, By by done. done.
Qed.

Lemma lor_uint w x y : 0 <= w -> uint w x -> uint w y -> uint w (Z.lor x y).
Proof.
  intros Hw [Hx Bx]%uint_bits [Hy By]%uint_bits; try done. apply uint_bits; [done|].
  split; [by apply Z.lor_nonneg|]. intros i Hi. rewrite Z.lor_spec, Bx, By by done. done.
Qed.

Lemma shiftr_uint w n z : 0 <= w -> 0 <= n -> uint (w + n) z -> uint w (Z.shiftr z n).
Proof.
  intros Hw Hn [Hz Bz]%uint_bits; [|lia]. apply uint_bits; [done|].
  split; [by apply Z.shiftr_nonneg|]. intros i Hi. rewrite Z.shiftr_spec by lia. apply Bz. lia.
Qed.

Lemma uint_le w w' z : 0 <= w <= w' -> uint w z -> uint w' z.
Proof. unfold uint. intros. pose proof (Z.pow_le_mono_r 2 w w'). lia. Qed.

Lemma byte_of_ascii_uint a : uint 8 (byte_of_ascii a).
Proof.
  unfold uint, byte_of_ascii. pose proof (N_ascii_bounded a).
  change (2 ^ 8) with (Z.of_N 256). lia.
Qed.

Lemma ascii_byte_ascii a : ascii_of_byte (byte_of_ascii a) = a.
Proof. unfold ascii_of_byte, byte_of_ascii. rewrite N2Z.id. apply ascii_N_embedding. Qed.

Lemma string_bytes_ok s : bytes_ok (string_bytes s).
Proof. unfold string_bytes. apply Forall_map, Forall_true. apply byte_of_ascii_uint. Qed.

Lemma bytes_string_bytes s : bytes_string (string_bytes s) = s.
Proof.
  unfold bytes_string, string_bytes. rewrite map_map.
  erewrite map_ext by apply ascii_byte_ascii.
  by rewrite map_id, string_of_list_ascii_of_string.
Qed.

(** *** Digits *)

Lemma lor_shiftl_add a d k : 0 <= k -> uint k d -> Z.lor (Z.shiftl a k) d = a * 2 ^ k + d.
Proof.
  intros Hk [Hd Hb]%uint_bits; [|done]. rewrite <- Z.shiftl_mul_pow2 by done.
  assert (Z.land (Z.shiftl a k) d = 0) as Hl.
  { apply Z.bits_inj'. intros i Hi. rewrite Z.land_spec, Z.bits_0.
    destruct (decide (i < k)); [by rewrite Z.shiftl_spec_low|].
    rewrite Hb by lia. apply andb_false_r. }
  by rewrite <- Z.lxor_lor, <- Z.add_nocarry_lxor.
Qed.

Lemma length_be_digits k n v : length (be_digits k n v) = n.
Proof. induction n; cbn; congruence. Qed.

Lemma be_digits_uint k n v : 0 <= k -> Forall (uint k) (be_digits k n v).
Proof. intros. induction n; constructor; [by apply wrap_uint|done]. Qed.

Lemma be_value_app w k l1 l2 acc :
  fold_left (fun acc d => Z.lor (wrap w (Z.shiftl acc k)) d) (l1 ++ l2) acc =
  fold_left (fun acc d => Z.lor (wrap w (Z.shiftl acc k)) d) l2
    (fold_left (fun acc d => Z.lor (wrap w (Z.shiftl acc k)) d) l1 acc).
Proof. apply fold_left_app. Qed.

(** Without overflow of the accumulator the loop computes the base-[2^k] value. *)
Fixpoint digits_sum (k : Z) (l : list Z) : Z :=
  match l with [] => 0 | d :: l => d * 2 ^ (Z.of_nat (length l) * k) + digits_sum k l end.

Lemma digits_sum_bound k l : 0 <= k -> Forall (uint k) l ->
  0 <= digits_sum k l < 2 ^ (Z.of_nat (length l) * k).
Proof.
  intros Hk. induction 1 as [|d l Hd Hl IH]; [done|]. cbn [digits_sum length].
  unfold uint in Hd. rewrite Nat2Z.inj_succ, Z.mul_succ_l, Z.pow_add_r by lia. nia.
Qed.

Lemma be_value_sum w k l acc : 0 <= k -> Forall (uint k) l -> 0 <= acc ->
  acc * 2 ^ (Z.of_nat (length l) * k) + digits_sum k l < 2 ^ w ->
  fold_left (fun acc d => Z.lor (wrap w (Z.shiftl acc k)) d) l acc =
  acc * 2 ^ (Z.of_nat (length l) * k) + digits_sum k l.
Proof.
  intros Hk Hl. revert acc. induction Hl as [|d l Hd Hl IH]; intros acc Ha Hb; cbn [fold_left digits_sum length] in *.
  - change (Z.of_nat 0 * k) with 0. lia.
  - pose proof (digits_sum_bound k l Hk Hl). set (e := Z.of_nat (length l) * k) in *.
    assert (0 < 2 ^ e) by (apply Z.pow_pos_nonneg; lia).
    assert (0 < 2 ^ k) by (apply Z.pow_pos_nonneg; lia).
    rewrite Nat2Z.inj_succ, Z.mul_succ_l, Z.pow_add_r in * by lia. fold e in Hb |- *.
    pose proof Hd as Hd'. unfold uint in Hd'.
    rewrite (wrap_small w) by (unfold uint; rewrite Z.shiftl_mul_pow2 by lia; nia).
    rewrite lor_shiftl_add by done. rewrite IH by nia. ring.
Qed.

Lemma be_digits_sum k n v : 0 < k -> digits_sum k (be_digits k n v) = v mod 2 ^ (Z.of_nat n * k).
Proof.
  intros Hk. induction n as [|n IH]; cbn [be_digits digits_sum]; [by rewrite Z.mod_1_r|].
  rewrite IH, length_be_digits, Nat2Z.inj_succ, Z.mul_succ_l. set (e := Z.of_nat n * k).
  assert (0 < 2 ^ e) by (apply Z.pow_pos_nonneg; lia). assert (0 < 2 ^ k) by (apply Z.pow_pos_nonneg; lia).
  unfold wrap. rewrite Z.shiftr_div_pow2 by lia. rewrite Z.pow_add_r by lia. rewrite Z.rem_mul_r by lia. ring.
Qed.

Lemma be_value_digits w k n v : 0 < k -> Z.of_nat n * k <= w -> uint (Z.of_nat n * k) v ->
  be_value w k (be_digits k n v) = v.
Proof.
  intros Hk Hw Hv. pose proof (be_digits_sum k n v Hk) as Hs. rewrite Z.mod_small in Hs by done.
  unfold be_value. rewrite be_value_sum; rewrite ?Hs; try lia.
  - apply be_digits_uint. lia.
  - pose proof (Z.pow_le_mono_r 2 (Z.of_nat n * k) w). unfold uint in Hv. lia.
Qed.

Lemma be_digits_mod k n v m : 0 <= k -> Z.of_nat n * k <= m ->
  be_digits k n (v mod 2 ^ m) = be_digits k n v.
Proof.
  intros Hk. induction n as [|n IH]; intros Hm; [done|]. cbn [be_digits]. rewrite IH by lia. f_equal.
  unfold wrap. apply Z.bits_inj'. intros i Hi. destruct (decide (i < k)).
  - rewrite !Z.mod_pow2_bits_low, !Z.shiftr_spec, Z.mod_pow2_bits_low by lia. done.
  - by rewrite !Z.mod_pow2_bits_high by lia.
Qed.

Lemma be_digits_of_sum k l : 0 < k -> Forall (uint k) l -> be_digits k (length l) (digits_sum k l) = l.
Proof.
  intros Hk. induction 1 as [|d l Hd Hl IH]; [done|]. cbn [length be_digits digits_sum].
  pose proof (digits_sum_bound k l ltac:(lia) Hl) as Hb. set (e := Z.of_nat (length l) * k) in *.
  assert (0 < 2 ^ e) by (apply Z.pow_pos_nonneg; lia). f_equal.
  - rewrite Z.shiftr_div_pow2 by lia. rewrite Z.div_add_l, Z.div_small, Z.add_0_r by lia. by apply wrap_small.
  - rewrite <- (be_digits_mod k (length l) _ e) by lia.
    rewrite Z.add_comm, Z.mod_add, Z.mod_small by lia. done.
Qed.

Lemma be_digits_value w k l : 0 < k -> Z.of_nat (length l) * k <= w -> Forall (uint k) l ->
  be_digits k (length l) (be_value w k l) = l /\ uint (Z.of_nat (length l) * k) (be_value w k l).
Proof.
  intros Hk Hw Hl. pose proof (digits_sum_bound k l ltac:(lia) Hl) as Hb.
  pose proof (Z.pow_le_mono_r 2 (Z.of_nat (length l) * k) w).
  unfold be_value. rewrite be_value_sum by (try done; lia). cbn [Z.mul Z.add].
  split; [by apply be_digits_of_sum|exact Hb].
Qed.

Section enum.
Context {E : Type} `{UEnum E}.

Lemma enum_of_code e : enum_of (enum_code e) = Some e.
Proof.
  unfold enum_of. destruct (List.find _ _) as [e'|] eqn:Hf.
  - apply find_some in Hf as [_ Hc]. apply Z.eqb_eq in Hc. apply enum_inj in Hc. by subst.
  - pose proof (find_none _ _ Hf e) as Hn. cbn in Hn. rewrite Z.eqb_refl in Hn.
    discriminate Hn. apply list_elem_of_In, enum_complete.
Qed.

Lemma enum_code_of z e : enum_of z = Some e -> enum_code e = z.
Proof. unfold enum_of. intros Hf. apply find_some in Hf as [_ Hc]. by apply Z.eqb_eq in Hc. Qed.

Lemma enum_ok_code e : enum_ok E (enum_code e) = true.
Proof. unfold enum_ok. by rewrite enum_of_code. Qed.

End enum.

#[export] Hint Rewrite @enum_of_code @bytes_string_bytes : warmth.
#[export] Hint Resolve wrap_uint byte_of_ascii_uint string_bytes_ok enum_u8 : warmth.
