(* ===== verification/Float64.v ===== *)
(** * IEEE 754 binary64: the C++ [double]

    A [double] is its 64-bit pattern, so that the [std::memcpy] between a
    [double] and a [std::uint64_t] is the identity and every pattern (signed
    zeros, NaN payloads) is kept by the encoders.  Comparison works on the
    sign-magnitude key of the pattern and is shown to agree with the standard
    library's [SpecFloat.SFcompare]; arithmetic is [SpecFloat]'s, rounding to
    nearest even, on the decoded pattern. *)

From Stdlib Require Import ZArith Lia String Floats.SpecFloat.
From stdpp Require Import base numbers decidable strings pretty.
From S2P Require Import Prelude.
Local Open Scope Z_scope.
Local Open Scope warmth_scope.

Abbreviation double := Z.

Definition d_sign (b : double) : bool := 2 ^ 63 <=? b.
Definition d_mag (b : double) : Z := if d_sign b then b - 2 ^ 63 else b.
Definition d_inf_mag : Z := 2047 * 2 ^ 52.

Definition isnan (b : double) : bool := d_inf_mag <? d_mag b.
Definition isinf (b : double) : bool := d_mag b =? d_inf_mag.
Definition isfinite (b : double) : bool := d_mag b <? d_inf_mag.

(** ** Comparisons *)
Definition d_key (b : double) : Z := if d_sign b then - d_mag b else d_mag b.

Definition dlt (a b : double) : bool := negb (isnan a) && negb (isnan b) && (d_key a <? d_key b).
Definition dle (a b : double) : bool := negb (isnan a) && negb (isnan b) && (d_key a <=? d_key b).
Definition deq (a b : double) : bool := negb (isnan a) && negb (isnan b) && (d_key a =? d_key b).
Definition dgt (a b : double) : bool := dlt b a.
Definition dge (a b : double) : bool := dle b a.
Definition dne (a b : double) : bool := negb (deq a b).

(** ** Decoding and encoding the pattern *)
Definition d_exp (b : double) : Z := d_mag b / 2 ^ 52.
Definition d_frac (b : double) : Z := d_mag b mod 2 ^ 52.

Definition sf_finite (s : bool) (m e : Z) : spec_float :=
  match m with Zpos p => S754_finite s p e | _ => S754_zero s end.

Definition to_sf (b : double) : spec_float :=
  if isnan b then S754_nan
  else if isinf b then S754_infinity (d_sign b)
  else if d_exp b =? 0 then sf_finite (d_sign b) (d_frac b) (-1074)
  else sf_finite (d_sign b) (2 ^ 52 + d_frac b) (d_exp b - 1075).

Definition with_sign (s : bool) (m : Z) : double := if s then 2 ^ 63 + m else m.

Definition of_sf (f : spec_float) : double :=
  match f with
  | S754_nan => d_inf_mag + 2 ^ 51
  | S754_infinity s => with_sign s d_inf_mag
  | S754_zero s => with_sign s 0
  | S754_finite s m e =>
      with_sign s (if Zpos m <? 2 ^ 52 then Zpos m else (e + 1075) * 2 ^ 52 + (Zpos m - 2 ^ 52))
  end.

(** ** Arithmetic (round to nearest, ties to even) *)
Definition dadd (a b : double) : double := of_sf (SFadd 53 1024 (to_sf a) (to_sf b)).
Definition dmul (a b : double) : double := of_sf (SFmul 53 1024 (to_sf a) (to_sf b)).
Definition ddiv (a b : double) : double := of_sf (SFdiv 53 1024 (to_sf a) (to_sf b)).

(** Conversion from an integer type, and decimal literals [n / m] (both
    exactly representable, so one division rounds the literal correctly). *)
Definition d_of_Z (z : Z) : double := of_sf (binary_normalize 53 1024 z 0 false).
Definition dlit (n m : Z) : double := ddiv (d_of_Z n) (d_of_Z m).
Definition dneg (b : double) : double := if d_sign b then b - 2 ^ 63 else b + 2 ^ 63.
Definition dzero : double := d_of_Z 0.
Definition done1 : double := d_of_Z 1.

(** ** Text

    [std::to_string] of an unsigned integer, and of a [double]: [printf]'s
    ["%f"], the exact value rounded half to even at six decimals. *)
Definition dec_string (z : Z) : string := pretty (Z.to_N z).

(** [n / 2^k] rounded to the nearest integer, ties to even. *)
Definition round_half_even (n k : Z) : Z :=
  if k <=? 0 then Z.shiftl n (- k)
  else
    let q := Z.shiftr n k in
    let r := n - Z.shiftl q k in
    let half := 2 ^ (k - 1) in
    if r <? half then q else if half <? r then q + 1 else if Z.even q then q else q + 1.

Fixpoint pad_left (n : nat) (s : string) : string :=
  match n with O => s | S n => pad_left n (if decide (String.length s < 6)%nat then String (Ascii.ascii_of_nat 48) s else s) end.

Definition d_to_string (b : double) : string :=
  let sign := if d_sign b then "-" else "" in
  match to_sf b with
  | S754_nan => sign +:+ "nan"
  | S754_infinity _ => sign +:+ "inf"
  | S754_zero _ => sign +:+ "0.000000"
  | S754_finite _ m e =>
      let n := round_half_even (Zpos m * 10 ^ 6) (- e) in
      sign +:+ dec_string (n / 10 ^ 6) +:+ "." +:+ pad_left 6 (dec_string (n mod 10 ^ 6))
  end.

(** ** Lemmas *)

Lemma dlt_irrefl a : dlt a a = false.
Proof. unfold dlt. rewrite Z.ltb_irrefl. by rewrite andb_false_r. Qed.

Lemma dlt_spec a b :
  dlt a b = true <-> isnan a = false /\ isnan b = false /\ d_key a < d_key b.
Proof. unfold dlt. rewrite !andb_true_iff, !negb_true_iff, Z.ltb_lt. tauto. Qed.

Lemma dle_spec a b :
  dle a b = true <-> isnan a = false /\ isnan b = false /\ d_key a <= d_key b.
Proof. unfold dle. rewrite !andb_true_iff, !negb_true_iff, Z.leb_le. tauto. Qed.

Lemma deq_spec a b :
  deq a b = true <-> isnan a = false /\ isnan b = false /\ d_key a = d_key b.
Proof. unfold deq. rewrite !andb_true_iff, !negb_true_iff, Z.eqb_eq. tauto. Qed.

Lemma dlt_trans a b c : dlt a b = true -> dlt b c = true -> dlt a c = true.
Proof. rewrite !dlt_spec. intros (? & ? & ?) (? & ? & ?). repeat split; auto; lia. Qed.

Lemma dlt_dle a b : dlt a b = true -> dle b a = false.
Proof.
  rewrite dlt_spec. intros (? & ? & ?). apply not_true_iff_false. rewrite dle_spec. lia.
Qed.

(** The key order is [SFcompare]'s order on the decoded patterns. *)
Section compare.
Variables a b : double.
Hypotheses (Ha : uint 64 a) (Hb : uint 64 b).

Lemma d_mag_parts (x : double) : uint 64 x ->
  0 <= d_frac x < 2 ^ 52 /\ 0 <= d_exp x /\ d_mag x = d_exp x * 2 ^ 52 + d_frac x.
Proof.
  intros Hx. unfold uint in Hx. unfold d_frac, d_exp.
  assert (0 <= d_mag x).
  { unfold d_mag, d_sign. case Z.leb_spec; lia. }
  pose proof (Z.mod_pos_bound (d_mag x) (2 ^ 52)). pose proof (Z.div_mod (d_mag x) (2 ^ 52)).
  pose proof (Z.div_pos (d_mag x) (2 ^ 52)). lia.
Qed.

Lemma sf_finite_shape (x : double) : uint 64 x -> isfinite x = true ->
  exists m e, to_sf x = sf_finite (d_sign x) m e /\ -1074 <= e /\ 0 <= m < 2 ^ 53 /\
    (m < 2 ^ 52 -> e = -1074) /\ d_mag x = (e + 1074) * 2 ^ 52 + m.
Proof.
  intros Hx Hf. pose proof (d_mag_parts x Hx) as (? & ? & Hm).
  unfold isfinite in Hf. apply Z.ltb_lt in Hf.
  assert (isnan x = false) as Hn by (apply Z.ltb_ge; lia).
  assert (isinf x = false) as Hi by (apply Z.eqb_neq; lia).
  unfold to_sf. rewrite Hn, Hi. case Z.eqb_spec; intros He.
  - exists (d_frac x), (-1074). repeat split; lia.
  - exists (2 ^ 52 + d_frac x), (d_exp x - 1075). repeat split; lia.
Qed.

Lemma SFcompare_finite s1 m1 e1 s2 m2 e2 :
  let v (s : bool) m e := let x := (e + 1074) * 2 ^ 52 + m in if s then - x else x in
  -1074 <= e1 -> 0 <= m1 < 2 ^ 53 -> (m1 < 2 ^ 52 -> e1 = -1074) ->
  -1074 <= e2 -> 0 <= m2 < 2 ^ 53 -> (m2 < 2 ^ 52 -> e2 = -1074) ->
  SFcompare (sf_finite s1 m1 e1) (sf_finite s2 m2 e2) = Some (v s1 m1 e1 ?= v s2 m2 e2).
Proof.
  intros v ?????? . unfold sf_finite.
  destruct m1 as [|p1|p1], m2 as [|p2|p2]; try lia; destruct s1, s2; cbn [SFcompare]; unfold v;
    f_equal; symmetry;
    try (apply Z.compare_eq_iff; lia); try (apply Z.compare_lt_iff; lia);
    try (apply Z.compare_gt_iff; lia);
    destruct (Z.compare_spec e1 e2); subst;
    try (apply Z.compare_eq_iff; lia); try (apply Z.compare_lt_iff; lia);
    try (apply Z.compare_gt_iff; lia);
    rewrite Pos.compare_cont_spec; unfold Pos.switch_Eq;
    destruct (Pos.compare_spec p1 p2); subst; cbn [CompOpp];
    try (apply Z.compare_eq_iff; lia); try (apply Z.compare_lt_iff; lia);
    try (apply Z.compare_gt_iff; lia).
Qed.

Lemma dlt_SFltb : dlt a b = SFltb (to_sf a) (to_sf b).
Proof.
  assert (forall x, isnan x = true -> to_sf x = S754_nan) as Hnan by (intros x Hx; unfold to_sf; by rewrite Hx).
  unfold dlt, SFltb.
  destruct (isnan a) eqn:Na; [by rewrite (Hnan a Na)|].
  destruct (isnan b) eqn:Nb; [rewrite (Hnan b Nb); by destruct (to_sf a)|].
  cbn [negb andb].
  assert (forall x, isnan x = false -> (isinf x = true /\ to_sf x = S754_infinity (d_sign x) /\ d_mag x = d_inf_mag)
     \/ (isfinite x = true /\ d_mag x < d_inf_mag)) as Hcase.
  { intros x Hx. unfold isnan, isfinite in *. apply Z.ltb_ge in Hx.
    destruct (isinf x) eqn:Hi; [left|right].
    - unfold to_sf, isnan. rewrite Hi. rewrite (proj2 (Z.ltb_ge _ _)) by lia.
      unfold isinf in Hi. apply Z.eqb_eq in Hi. auto.
    - unfold isinf in Hi. apply Z.eqb_neq in Hi. rewrite Z.ltb_lt. lia. }
  assert (forall x, isfinite x = true -> d_key x = if d_sign x then - d_mag x else d_mag x) as Hkey by done.
  destruct (Hcase a Na) as [(Ia & Ea & Ma)|(Fa & Ma)], (Hcase b Nb) as [(Ib & Eb & Mb)|(Fb & Mb)].
  - rewrite Ea, Eb. unfold d_key. rewrite Ma, Mb. by destruct (d_sign a), (d_sign b).
  - destruct (sf_finite_shape b Hb Fb) as (m & e & -> & ? & ? & ? & ?).
    rewrite Ea. unfold d_key. unfold sf_finite. assert (0 < d_inf_mag) by done.
    destruct m, (d_sign a), (d_sign b); cbn [SFcompare]; try lia; case Z.ltb_spec; try done; lia.
  - destruct (sf_finite_shape a Ha Fa) as (m & e & -> & ? & ? & ? & ?).
    rewrite Eb. unfold d_key. unfold sf_finite. assert (0 < d_inf_mag) by done.
    destruct m, (d_sign a), (d_sign b); cbn [SFcompare]; try lia; case Z.ltb_spec; try done; lia.
  - destruct (sf_finite_shape a Ha Fa) as (m & e & -> & ? & ? & ? & Hma).
    destruct (sf_finite_shape b Hb Fb) as (m' & e' & -> & ? & ? & ? & Hmb).
    rewrite SFcompare_finite by done. unfold d_key. rewrite Hma, Hmb. cbn zeta.
    unfold Z.ltb. by destruct (_ ?= _).
Qed.

End compare.

(** Sanity checks against values of the source. *)
Example dlit_half : dlit 1 2 = 0x3FE0000000000000. Proof. vm_compute. reflexivity. Qed.
Example dlit_third : dlit 3 10 = 0x3FD3333333333333. Proof. vm_compute. reflexivity. Qed.
Example d_of_300 : d_of_Z 300 = 0x4072C00000000000. Proof. vm_compute. reflexivity. Qed.
Example d_sum : dadd (dlit 1 10) (dlit 2 10) = 0x3FD3333333333334. Proof. vm_compute. reflexivity. Qed.
Example d_text : map d_to_string [dlit 1 10; dlit (-3) 2; dlit 999999999 1000; dlit 25 10000000; dzero]
  = ["0.100000"; "-1.500000"; "999999.999000"; "0.000003"; "0.000000"].
Proof. vm_compute. reflexivity. Qed.
