(* ===== verification/Number.v ===== *)
(** * Numbers as text: what json.hpp uses of the C and C++ library

    [printf]'s ["%lld"] and ["%.17g"], and [std::stod] on a decimal literal,
    both on exact integers: a finite [double] is a fraction, rounding is half
    to even.  [std::stod] throws when the result overflows, and when it is
    subnormal and inexact. *)

From Stdlib Require Import ZArith Lia Ascii String Floats.SpecFloat.
From stdpp Require Import base numbers decidable list strings pretty.
From S2P Require Import Prelude Float64.
Local Open Scope Z_scope.
Local Open Scope warmth_scope.

(** ** Printing *)

(** ["%lld"]. *)
Definition lld (z : Z) : string := pretty z.

(** [n / m] rounded to the nearest integer, ties to even. *)
Definition div_half_even (n m : Z) : Z :=
  let q := n / m in
  let r := 2 * (n mod m) in
  if r <? m then q else if m <? r then q + 1 else if Z.even q then q else q + 1.

(** [n / d] divided by [b^x], as a fraction again. *)
Definition scaled (b x n d : Z) : Z * Z := (n * b ^ Z.max (- x) 0, d * b ^ Z.max x 0).

(** [floor(log10(n / m))] for positive [n] and [m]. *)
Definition log10 (n m : Z) : Z :=
  if m <=? n then Z.of_nat (String.length (dec_string (n / m))) - 1
  else - Z.of_nat (String.length (dec_string ((m - 1) / n))).

Fixpoint zeros (n : nat) : string := match n with O => "" | S n => String "0" (zeros n) end.

(** Without the zeros at its end. *)
Fixpoint strip_zeros (s : string) : string :=
  match s with
  | EmptyString => ""
  | String c s =>
      match strip_zeros s with
      | EmptyString => if decide (c = "0"%char) then "" else String c ""
      | s => String c s
      end
  end.
Definition with_fraction (i f : string) : string :=
  match strip_zeros f with EmptyString => i | f => i +:+ "." +:+ f end.

(** ["%.<p>g"]: [p] significant digits [q] of exponent [x], in fixed notation
    for [-4 <= x < p] and else in scientific notation, without zeros at the end
    of the fraction. *)
Definition g_digits (p n m : Z) : Z * Z :=
  let x := log10 n m in
  let '(a, b) := scaled 10 (x - p + 1) n m in
  let q := div_half_even a b in
  if q =? 10 ^ p then (10 ^ (p - 1), x + 1) else (q, x).

Definition g_text (p q x : Z) : string :=
  let ds := dec_string q in
  let split i := with_fraction (String.substring 0 i ds) (String.substring i (Z.to_nat p) ds) in
  if (-4 <=? x) && (x <? p) then
    if 0 <=? x then split (Z.to_nat x + 1)%nat
    else with_fraction "0" (zeros (Z.to_nat (- x - 1)) +:+ ds)
  else
    split 1%nat +:+ "e" +:+ (if x <? 0 then "-" else "+") +:+
    (if Z.abs x <? 10 then "0" else "") +:+ dec_string (Z.abs x).

Definition g_format (p : Z) (d : double) : string :=
  let sign := if d_sign d then "-" else "" in
  match to_sf d with
  | S754_nan => sign +:+ "nan"
  | S754_infinity _ => sign +:+ "inf"
  | S754_zero _ => sign +:+ "0"
  | S754_finite _ m e =>
      let '(q, x) := g_digits p (Zpos m * 2 ^ Z.max e 0) (2 ^ Z.max (- e) 0) in sign +:+ g_text p q x
  end.

(** What json.hpp prints with. *)
Definition g17 : double -> string := g_format 17.

(** [static_cast<std::int64_t>]: truncation, for values in its range. *)
Definition d_trunc (d : double) : Z :=
  match to_sf d with
  | S754_finite s m e => let v := if 0 <=? e then Z.shiftl (Zpos m) e else Z.shiftr (Zpos m) (- e) in if s then - v else v
  | _ => 0
  end.

(** ** Reading *)
Definition is_digit (c : ascii) : bool := (48 <=? byte_of_ascii c) && (byte_of_ascii c <=? 57).
Definition peek (s : string) : ascii := match s with EmptyString => Ascii.zero | String c _ => c end.
Definition skip1 (s : string) : string := match s with EmptyString => "" | String _ s => s end.

(** The digits at the start, and the rest. *)
Fixpoint span_digits (s : string) : string * string :=
  match s with
  | EmptyString => ("", "")
  | String c s' => if is_digit c then let '(d, r) := span_digits s' in (String c d, r) else ("", s)
  end.
Fixpoint dec_value (acc : Z) (s : string) : Z :=
  match s with EmptyString => acc | String c s => dec_value (acc * 10 + (byte_of_ascii c - 48)) s end.

(** The literal as sign, coefficient and exponent of ten. *)
Definition decimal_of (tok : string) : bool * Z * Z :=
  let neg := bool_decide (peek tok = "-"%char) in
  let '(i, s) := span_digits (if neg then skip1 tok else tok) in
  let '(f, s) := if bool_decide (peek s = "."%char) then span_digits (skip1 s) else ("", s) in
  let e :=
    if bool_decide (peek s = "e"%char) || bool_decide (peek s = "E"%char) then
      let s := skip1 s in
      if bool_decide (peek s = "-"%char) then - dec_value 0 (span_digits (skip1 s)).1
      else dec_value 0 (span_digits (if bool_decide (peek s = "+"%char) then skip1 s else s)).1
    else 0 in
  (neg, dec_value 0 (i +:+ f), e - Z.of_nat (String.length f)).

(** [floor(log2(n / d))] for positive [n] and [d]. *)
Definition log2_ratio (n d : Z) : Z :=
  let l := Z.log2 n - Z.log2 d in
  let '(n', d') := scaled 2 l n d in if d' <=? n' then l else l - 1.

(** The magnitude of the [double] nearest to [n / d], ties to even: [q] units in
    the last place [2^e], which a subnormal has too; past the largest finite
    number it is at least that of infinity. *)
Definition round_ratio (n d : Z) : double :=
  let e := Z.max (-1074) (log2_ratio n d - 52) in
  let '(n', d') := scaled 2 e n d in (e + 1074) * 2 ^ 52 + div_half_even n' d'.

(** The magnitude nearest to [m * 10^k]. *)
Definition round_decimal (m k : Z) : double :=
  if 0 <? m then let '(n, d) := scaled 10 (- k) m 1 in round_ratio n d else 0.

Definition stod (tok : string) : option double :=
  let '(neg, m, k) := decimal_of tok in
  let r := round_decimal m k in
  let exact := if 0 <=? k then m * 10 ^ k * 2 ^ 1074 =? r else m * 2 ^ 1074 =? r * 10 ^ (- k) in
  if d_inf_mag <=? r then None
  else if (r <? 2 ^ 52) && negb exact then None
  else Some (with_sign neg r).

(** ** Lemmas: decimal digits *)

Definition all_digits (s : string) : Prop := Forall (fun c => is_digit c = true) (list_ascii_of_string s).

Lemma is_digit_range c : is_digit c = true <-> 48 <= byte_of_ascii c <= 57.
Proof. unfold is_digit. rewrite andb_true_iff, !Z.leb_le. done. Qed.

Lemma string_cons_app x (a b : string) : String x a +:+ b = String x (a +:+ b).
Proof. done. Qed.
Lemma string_app_assoc (a b c : string) : (a +:+ b) +:+ c = a +:+ (b +:+ c).
Proof. induction a as [|x a IH]; [done|]. by rewrite !string_cons_app, IH. Qed.
Lemma string_app_nil (a : string) : a +:+ "" = a.
Proof. induction a as [|x a IH]; [done|]. by rewrite string_cons_app, IH. Qed.
Lemma list_ascii_app a b : list_ascii_of_string (a +:+ b) = list_ascii_of_string a ++ list_ascii_of_string b.
Proof. induction a as [|x a IH]; [done|]. rewrite string_cons_app. cbn. by rewrite IH. Qed.

Lemma span_digits_app s r : all_digits s -> is_digit (peek r) = false -> span_digits (s +:+ r) = (s, r).
Proof.
  unfold all_digits. intros Hs Hr. induction s as [|c s IH].
  - destruct r as [|c r]; [done|]. cbn [peek] in Hr. cbn [span_digits]. change ("" +:+ ?r) with r. cbn [span_digits]. by rewrite Hr.
  - cbn [list_ascii_of_string] in Hs. apply Forall_cons in Hs as [Hc Hs].
    rewrite string_cons_app. cbn [span_digits]. by rewrite Hc, IH.
Qed.

Lemma dec_value_app acc s r : dec_value acc (s +:+ r) = dec_value (dec_value acc s) r.
Proof. revert acc. induction s as [|c s IH]; intros acc; [done|]. apply IH. Qed.

Lemma digit_char x : (x < 10)%N -> is_digit (pretty_N_char x) = true /\ byte_of_ascii (pretty_N_char x) - 48 = Z.of_N x.
Proof.
  intros H. assert (x = 0 \/ x = 1 \/ x = 2 \/ x = 3 \/ x = 4 \/ x = 5 \/ x = 6 \/ x = 7 \/ x = 8 \/ x = 9)%N as Hx by lia.
  by repeat destruct Hx as [->|Hx]; [..|subst].
Qed.

Lemma pretty_go_digits x s : (0 < x)%N ->
  exists c d, pretty_N_go x s = String c d +:+ s /\ all_digits (String c d) /\ c <> "0"%char /\
    dec_value 0 (String c d) = Z.of_N x.
Proof.
  revert s. induction (N.lt_wf_0 x) as [x _ IH]. intros s Hx. rewrite pretty_N_go_step by done.
  destruct (digit_char (x mod 10)) as [Hd Hv]; [by apply N.mod_lt|].
  destruct (decide (x / 10 = 0)%N) as [E|E].
  - rewrite E, pretty_N_go_0. exists (pretty_N_char (x mod 10)), "". split_and!; [done|by repeat constructor| |].
    + intros E'. apply (f_equal byte_of_ascii) in E'. change (byte_of_ascii "0") with 48 in E'.
      pose proof (N.div_mod x 10 ltac:(done)). lia.
    + cbn. rewrite Hv. pose proof (N.div_mod x 10 ltac:(done)). lia.
  - destruct (IH (x / 10)%N (N.div_lt x 10 Hx eq_refl) (String (pretty_N_char (x mod 10)) s)) as (c & d & -> & Ha & Hc & Hdv);
      [by apply N.neq_0_lt_0|].
    exists c, (d +:+ String (pretty_N_char (x mod 10)) ""). split_and!; [|..|done|].
    + by rewrite <- string_cons_app, string_app_assoc.
    + unfold all_digits in *. cbn [list_ascii_of_string] in Ha |- *. rewrite list_ascii_app. apply Forall_cons in Ha as [? ?].
      constructor; [done|]. apply Forall_app. split; [done|by repeat constructor].
    + rewrite <- string_cons_app, dec_value_app, Hdv. cbn [dec_value]. rewrite Hv.
      pose proof (N.div_mod x 10 ltac:(done)). lia.
Qed.

(** The text of an integer, read back. *)
Lemma lld_shape z : exists c d, lld z = (if z <? 0 then "-" else "") +:+ String c d /\
  all_digits (String c d) /\ (c = "0"%char -> d = "" /\ z = 0) /\ dec_value 0 (String c d) = Z.abs z.
Proof.
  assert (forall p, exists c d, pretty (Npos p) = String c d /\ all_digits (String c d) /\ c <> "0"%char /\
            dec_value 0 (String c d) = Zpos p) as Hpos.
  { intros p. destruct (pretty_go_digits (Npos p) "") as (c & d & E & H); [done|].
    exists c, d. rewrite string_app_nil in E. done. }
  destruct z as [|p|p].
  - exists "0"%char, "". split_and!; [done|by repeat constructor|done..].
  - destruct (Hpos p) as (c & d & E & ? & ? & ?). exists c, d. split_and!; [exact E|done..].
  - destruct (Hpos p) as (c & d & E & ? & ? & ?). exists c, d. split_and!; [|done..].
    change (lld (Zneg p)) with ("-" +:+ pretty (Npos p)). by rewrite E.
Qed.

(** ** Lemmas: rounding *)

Lemma div_half_even_near n d q : 0 < d -> 2 * Z.abs (n - q * d) < d -> div_half_even n d = q.
Proof.
  intros Hd Hq. unfold div_half_even. pose proof (Z.div_mod n d ltac:(lia)) as E. pose proof (Z.mod_pos_bound n d Hd).
  set (r := n mod d) in *. set (p := n / d) in *.
  assert (q = p /\ 2 * r < d \/ q = p + 1 /\ d < 2 * r) as [[-> Hr]|[-> Hr]].
  { assert (q = p \/ q = p + 1) as [-> | ->] by nia; [left|right]; split; nia. }
  - by rewrite (proj2 (Z.ltb_lt _ _)).
  - rewrite (proj2 (Z.ltb_ge _ _)), (proj2 (Z.ltb_lt _ _)) by lia. done.
Qed.

(** The error is half a unit at most. *)
Lemma div_half_even_error n d : 0 < d -> 2 * Z.abs (n - div_half_even n d * d) <= d.
Proof.
  intros Hd. unfold div_half_even. pose proof (Z.div_mod n d ltac:(lia)) as E. pose proof (Z.mod_pos_bound n d Hd).
  case Z.ltb_spec; intros; [nia|]. case Z.ltb_spec; intros; [nia|]. destruct (Z.even _); nia.
Qed.

Lemma div_half_even_nonneg n d : 0 <= n -> 0 < d -> 0 <= div_half_even n d.
Proof.
  intros Hn Hd. unfold div_half_even. pose proof (Z.div_pos n d Hn Hd). repeat case_match; lia.
Qed.

(** The scaled fraction over a common power. *)
Lemma scaled_common b x T n d : 0 < b -> 0 <= T -> 0 <= x + T ->
  exists c, 0 < c /\ n * b ^ T = (scaled b x n d).1 * c /\ d * b ^ (x + T) = (scaled b x n d).2 * c.
Proof.
  intros Hb HT Hx. exists (b ^ (T - Z.max (- x) 0)). cbn [scaled fst snd]. split; [apply Z.pow_pos_nonneg; lia|].
  rewrite <- !Z.mul_assoc, <- !Z.pow_add_r by lia. split; do 2 f_equal; lia.
Qed.

Lemma scaled_pos b x n d : 0 < b -> 0 < n -> 0 < d -> 0 < (scaled b x n d).1 /\ 0 < (scaled b x n d).2.
Proof.
  intros Hb Hn Hd. cbn [scaled fst snd]. pose proof (Z.pow_pos_nonneg b (Z.max (- x) 0)). pose proof (Z.pow_pos_nonneg b (Z.max x 0)). nia.
Qed.

(** The common power does not matter. *)
Lemma shift_le b x n d T U : 0 < b -> 0 <= T -> 0 <= x + T -> 0 <= U -> 0 <= x + U ->
  d * b ^ (x + T) <= n * b ^ T -> d * b ^ (x + U) <= n * b ^ U.
Proof.
  intros Hb HT HxT HU HxU H. assert (b ^ (x + T) * b ^ U = b ^ (x + U) * b ^ T) as E.
  { rewrite <- !Z.pow_add_r by lia. f_equal. lia. }
  assert (0 < b ^ T) as HpT by (apply Z.pow_pos_nonneg; lia). assert (0 < b ^ U) by (apply Z.pow_pos_nonneg; lia).
  apply (Z.mul_le_mono_pos_r _ _ _ HpT).
  replace (d * b ^ (x + U) * b ^ T) with (d * b ^ (x + T) * b ^ U) by (rewrite <- !Z.mul_assoc, E; done).
  replace (n * b ^ U * b ^ T) with (n * b ^ T * b ^ U) by ring. apply Z.mul_le_mono_nonneg_r; lia.
Qed.
Lemma shift_lt b x n d T U : 0 < b -> 0 <= T -> 0 <= x + T -> 0 <= U -> 0 <= x + U ->
  n * b ^ T < d * b ^ (x + T) -> n * b ^ U < d * b ^ (x + U).
Proof.
  intros Hb HT HxT HU HxU H. apply Z.nle_gt. intros Hle. apply (shift_le b x n d U T) in Hle; try done. lia.
Qed.

Lemma log2_ratio_spec n d T : 0 < n -> 0 < d -> Z.abs (log2_ratio n d) + 1 <= T ->
  d * 2 ^ (log2_ratio n d + T) <= n * 2 ^ T < d * 2 ^ (log2_ratio n d + 1 + T).
Proof.
  intros Hn Hd. unfold log2_ratio. set (l := Z.log2 n - Z.log2 d). set (U := Z.abs l + 2).
  assert (d * 2 ^ (l - 1 + U) <= n * 2 ^ U < d * 2 ^ (l + 1 + U)) as [Hl1 Hl2].
  { destruct (Z.log2_spec n Hn) as [Hn1 Hn2]. destruct (Z.log2_spec d Hd) as [Hd1 Hd2].
    assert (0 <= Z.log2 n) by apply Z.log2_nonneg. assert (0 <= Z.log2 d) by apply Z.log2_nonneg.
    assert (0 < 2 ^ (l - 1 + U)) by (apply Z.pow_pos_nonneg; lia). assert (0 < 2 ^ (l + 1 + U)) by (apply Z.pow_pos_nonneg; lia).
    assert (0 < 2 ^ U) by (apply Z.pow_pos_nonneg; lia). split.
    - apply Z.le_trans with (2 ^ Z.succ (Z.log2 d) * 2 ^ (l - 1 + U)); [nia|].
      rewrite <- Z.pow_add_r by lia. replace (Z.succ (Z.log2 d) + (l - 1 + U)) with (Z.log2 n + U) by lia.
      rewrite Z.pow_add_r by lia. nia.
    - apply Z.lt_le_trans with (2 ^ Z.succ (Z.log2 n) * 2 ^ U); [nia|].
      rewrite <- Z.pow_add_r by lia. replace (Z.succ (Z.log2 n) + U) with (Z.log2 d + (l + 1 + U)) by lia.
      rewrite Z.pow_add_r by lia. nia. }
  destruct (scaled_common 2 l U n d) as (c & Hc & En & Ed); [lia..|].
  destruct (scaled 2 l n d) as [n' d']. cbn [fst snd] in En, Ed.
  case Z.leb_spec; intros Hcmp HT; split.
  - apply (shift_le 2 l n d U T); [lia..|]. rewrite Ed, En. nia.
  - apply (shift_lt 2 (l + 1) n d U T); [lia..|done].
  - apply (shift_le 2 (l - 1) n d U T); [lia..|done].
  - replace (l - 1 + 1) with l by lia. apply (shift_lt 2 l n d U T); [lia..|]. rewrite Ed, En. nia.
Qed.

(** What is nearer to [m * 2^e] than to its neighbours is rounded to it. *)
Lemma round_ratio_near n d m e : 0 < n -> 0 < d -> 2 ^ 52 <= m < 2 ^ 53 -> -1074 <= e ->
  (let '(n', d') := scaled 2 e n d in 2 * Z.abs (n' - m * d') < d' /\ (m = 2 ^ 52 -> 4 * Z.abs (n' - m * d') < d')) ->
  round_ratio n d = (e + 1074) * 2 ^ 52 + m.
Proof.
  intros Hn Hd Hm He Hnear. unfold round_ratio. pose proof (scaled_pos 2 e n d ltac:(lia) Hn Hd) as [Hpn Hpd].
  set (L := log2_ratio n d). set (T := Z.abs L + Z.abs e + 60).
  pose proof (log2_ratio_spec n d T Hn Hd ltac:(lia)) as [HL1 HL2]. fold L in HL1, HL2.
  destruct (scaled_common 2 e T n d) as (c & Hc & En & Ed); [lia..|].
  destruct (scaled 2 e n d) as [n' d'] eqn:Es. cbn [fst snd] in *. destruct Hnear as [H1 H2].
  rewrite En in HL1, HL2. set (u := d * 2 ^ (e + T)) in *.
  assert (forall j, 0 <= j <= 53 -> d * 2 ^ (e + j + T) = 2 ^ j * u) as Hu.
  { intros j Hj. unfold u. replace (e + j + T) with (e + T + j) by lia. rewrite Z.pow_add_r by lia. ring. }
  assert (0 < c * d') by nia. assert (u = d' * c) as Eu by exact Ed.
  assert (L < e + 53) as Hlt.
  { apply Z.nle_gt. intros Hle. assert (2 ^ (e + 53 + T) <= 2 ^ (L + T)) by (apply Z.pow_le_mono_r; lia).
    pose proof (Hu 53 ltac:(lia)). nia. }
  assert (e + 51 <= L) as Hge.
  { apply Z.nlt_ge. intros Hle. assert (2 ^ (L + 1 + T) <= 2 ^ (e + 51 + T)) by (apply Z.pow_le_mono_r; lia).
    pose proof (Hu 51 ltac:(lia)). nia. }
  assert (L = e + 52 \/ L = e + 51) as [EL|EL] by lia.
  - replace (Z.max (-1074) (L - 52)) with e by lia. rewrite Es. rewrite (div_half_even_near n' d' m) by (done || lia). done.
  - assert (m = 2 ^ 52) as Em.
    { replace (L + 1 + T) with (e + 52 + T) in HL2 by lia. rewrite Hu in HL2 by lia. nia. }
    destruct (Z.eq_dec e (-1074)) as [->|Hne].
    + replace (Z.max (-1074) (L - 52)) with (-1074) by lia. rewrite Es. rewrite (div_half_even_near n' d' m) by (done || lia). done.
    + replace (Z.max (-1074) (L - 52)) with (e - 1) by lia. specialize (H2 Em).
      destruct (scaled_common 2 (e - 1) T n d) as (c2 & Hc2 & En2 & Ed2); [lia..|].
      pose proof (scaled_pos 2 (e - 1) n d ltac:(lia) Hn Hd) as [_ Hpd2].
      destruct (scaled 2 (e - 1) n d) as [n2 d2]. cbn [fst snd] in *.
      assert (u = 2 * (d2 * c2)) as Eu2.
      { rewrite <- Ed2. unfold u. replace (e + T) with (e - 1 + T + 1) by lia. rewrite Z.pow_add_r by lia. ring. }
      rewrite (div_half_even_near n2 d2 (2 ^ 53)); [rewrite Em; lia|done|].
      assert (4 * Z.abs (n' * c - m * (d' * c)) < d' * c) as H4 by nia.
      rewrite <- Eu, <- En, En2, Eu2 in H4. nia.
Qed.

(** ** Lemmas: integers as doubles *)

Lemma pow2_double a : 0 < a -> 2 ^ a = 2 * 2 ^ (a - 1).
Proof. intros Ha. rewrite <- (Z.pow_succ_r 2 (a - 1)) by lia. f_equal. lia. Qed.

Lemma digits2_bound p : 2 ^ (Zpos (digits2_pos p) - 1) <= Zpos p < 2 ^ Zpos (digits2_pos p).
Proof.
  assert (forall d q, 2 ^ (Zpos d - 1) <= Zpos q < 2 ^ Zpos d ->
            2 ^ (Zpos (Pos.succ d) - 1) <= 2 * Zpos q /\ 2 * Zpos q + 1 < 2 ^ Zpos (Pos.succ d)) as H.
  { intros d q Hq. rewrite (pow2_double (Zpos (Pos.succ d))) by lia.
    replace (Zpos (Pos.succ d) - 1) with (Zpos d) by lia. rewrite (pow2_double (Zpos d)) at 1 by lia.
    generalize dependent (2 ^ (Zpos d - 1)). generalize dependent (2 ^ Zpos d). intros. lia. }
  induction p as [p IH|p IH|]; cbn [digits2_pos]; [..|done]; specialize (H _ _ IH) as [H1 H2].
  - rewrite (Pos2Z.inj_xI p). split; [|exact H2]. eapply Z.le_trans; [exact H1|lia].
  - rewrite (Pos2Z.inj_xO p). split; [exact H1|]. eapply Z.le_lt_trans; [|exact H2]. lia.
Qed.

Lemma iter_xO p n : Zpos (Pos.iter xO p n) = Zpos p * 2 ^ Zpos n /\
  digits2_pos (Pos.iter xO p n) = (digits2_pos p + n)%positive.
Proof.
  induction n as [|n IH] using Pos.peano_ind.
  - cbn. split; lia.
  - rewrite Pos.iter_succ. destruct IH as [IH1 IH2]. split.
    + rewrite Pos2Z.inj_xO, IH1, Pos2Z.inj_succ, Z.pow_succ_r by lia. ring.
    + cbn [digits2_pos]. rewrite IH2. lia.
Qed.

(** A mantissa of 53 bits is not changed by rounding. *)
Lemma round_53 s m e : digits2_pos m = 53%positive -> -1074 <= e <= 0 ->
  binary_round_aux 53 1024 s (Zpos m) e loc_Exact = S754_finite s m e.
Proof.
  intros Hd He. unfold binary_round_aux.
  assert (shr_fexp 53 1024 (Zpos m) e loc_Exact = (Build_shr_record (Zpos m) false false, e)) as E.
  { unfold shr_fexp. cbn [Zdigits2]. rewrite Hd. unfold fexp, emin.
    replace (Z.max (53 + e - 53) (3 - 1024 - 53) - e) with 0 by lia. done. }
  rewrite E. cbn [shr_m loc_of_shr_record round_nearest_even]. rewrite E. cbn [shr_m].
  by rewrite (proj2 (Z.leb_le _ _)) by lia.
Qed.

Lemma small_shape p : Zpos p < 2 ^ 53 ->
  exists m e, (forall s, binary_round 53 1024 s p 0 = S754_finite s m e) /\ 2 ^ 52 <= Zpos m < 2 ^ 53 /\ -52 <= e <= 0 /\
    Zpos m = Zpos p * 2 ^ (- e).
Proof.
  intros Hp. pose proof (digits2_bound p) as [Hlo _]. set (D := digits2_pos p) in *.
  assert (Zpos D <= 53) as HD.
  { destruct (Z.le_gt_cases (Zpos D) 53) as [|H]; [done|].
    pose proof (Z.pow_le_mono_r 2 53 (Zpos D - 1)). lia. }
  unfold binary_round. fold D. unfold fexp, emin.
  replace (Z.max (Z.pos D + 0 - 53) (3 - 1024 - 53)) with (Z.pos D - 53) by lia. unfold shl_align.
  destruct (Z.pos D - 53 - 0) as [|q|q] eqn:Eq; [|lia|].
  - assert (D = 53%positive) as ED by lia. exists p, 0. pose proof (digits2_bound p). fold D in H. rewrite ED in H.
    split_and!; [intros s; by apply round_53|lia..].
  - destruct (iter_xO p q) as [Hv Hd]. fold D in Hd. assert (D + q = 53)%positive as ED by lia. rewrite ED in Hd.
    eexists _, _. split; [intros s; apply round_53; (done || lia)|].
    pose proof (digits2_bound (Pos.iter xO p q)) as Hb. rewrite Hd in Hb.
    replace (- (Z.pos D - 53)) with (Zpos q) by lia. split_and!; [lia..|exact Hv].
Qed.

Lemma d_of_Z_small z : 0 < z < 2 ^ 53 -> 2 ^ 52 <= d_of_Z z < d_inf_mag.
Proof.
  intros Hz. destruct z as [|p|p]; [lia| |lia]. unfold d_of_Z, binary_normalize.
  destruct (small_shape p) as (m & e & -> & Hm & He & _); [lia|]. cbn [of_sf with_sign].
  rewrite (proj2 (Z.ltb_ge _ _)) by lia. unfold d_inf_mag. lia.
Qed.

Lemma d_of_Z_neg z : 0 < z < 2 ^ 53 -> d_of_Z (- z) = with_sign true (d_of_Z z).
Proof.
  intros Hz. destruct z as [|p|p]; [lia| |lia]. unfold d_of_Z. change (- Zpos p) with (Zneg p).
  cbn [binary_normalize].
  destruct (small_shape p) as (m & e & H & _); [lia|]. rewrite !H. reflexivity.
Qed.

Lemma round_decimal_int p : Zpos p < 2 ^ 53 -> round_decimal (Zpos p) 0 = d_of_Z (Zpos p).
Proof.
  intros Hp. destruct (small_shape p Hp) as (m & e & E & Hm & He & Hv).
  transitivity ((e + 1074) * 2 ^ 52 + Zpos m).
  - change (round_decimal (Zpos p) 0) with (round_ratio (Zpos p * 1) (1 * 1)). rewrite Z.mul_1_r.
    apply round_ratio_near; [lia..|]. cbn [scaled]. replace (Z.max e 0) with 0 by lia. replace (Z.max (- e) 0) with (- e) by lia.
    rewrite <- Hv, Z.pow_0_r. lia.
  - unfold d_of_Z, binary_normalize. rewrite E. cbn [of_sf with_sign]. rewrite (proj2 (Z.ltb_ge _ _)) by lia. lia.
Qed.

(** [std::stod] on the text of an integer. *)
Lemma stod_lld z : Z.abs z < 2 ^ 53 -> stod (lld z) = Some (d_of_Z z).
Proof.
  intros Hz. destruct (lld_shape z) as (c & d & -> & Ha & Hc & Hv).
  assert (decimal_of ((if z <? 0 then "-" else "") +:+ String c d) = (z <? 0, Z.abs z, 0)) as E.
  { assert (is_digit c = true) as Hcd by by inversion Ha. apply is_digit_range in Hcd.
    assert (c <> "-"%char) as Hne by (intros ->; change (byte_of_ascii "-") with 45 in Hcd; lia).
    pose proof (span_digits_app (String c d) "" Ha eq_refl) as Hs. rewrite string_app_nil in Hs.
    unfold decimal_of. destruct (z <? 0).
    - change ("-" +:+ String c d) with (String "-" (String c d)). cbn [peek skip1]. rewrite bool_decide_true by done.
      rewrite Hs. cbn [peek]. rewrite !bool_decide_false by done. cbn [orb].
      rewrite string_app_nil, Hv. done.
    - change ("" +:+ String c d) with (String c d). cbn [peek]. rewrite bool_decide_false by done.
      rewrite Hs. cbn [peek]. rewrite !bool_decide_false by done. cbn [orb].
      rewrite string_app_nil, Hv. done. }
  unfold stod. rewrite E. destruct (Z.abs z) as [|p|p] eqn:Ez; [..|lia].
  - replace z with 0 by lia. done.
  - rewrite round_decimal_int by lia. cbn [Z.leb Z.compare].
    pose proof (d_of_Z_small (Zpos p) ltac:(lia)) as Hb.
    rewrite (proj2 (Z.leb_gt _ _)) by lia. rewrite (proj2 (Z.ltb_ge _ _)) by lia. cbn [andb].
    destruct (Z.ltb_spec z 0).
    + replace z with (- Zpos p) by lia. by rewrite d_of_Z_neg by lia.
    + replace z with (Zpos p) by lia. done.
Qed.

Lemma d_key_inj a b : uint 64 a -> uint 64 b -> d_key a = d_key b -> d_key a <> 0 -> a = b.
Proof.
  unfold uint, d_key, d_mag, d_sign. intros Ha Hb. destruct (Z.leb_spec (2 ^ 63) a), (Z.leb_spec (2 ^ 63) b); lia.
Qed.

(** ** How json.hpp prints a number

    "Print integers without decimal point where exact".  The conversion to
    [std::int64_t] comes first in the test, and its behaviour is undefined for
    a NaN, an infinity, and any value outside the range of that type. *)
Definition exact_integer (d : double) : bool :=
  deq d (d_of_Z (d_trunc d)) && dgt d (d_of_Z (- 10 ^ 15)) && dlt d (d_of_Z (10 ^ 15)).
Definition castable (d : double) : bool := isfinite d && (- 2 ^ 63 <=? d_trunc d) && (d_trunc d <? 2 ^ 63).
Definition number_chars (d : double) : string := if exact_integer d then lld (d_trunc d) else g17 d.
Definition number_text (d : double) : option string := if castable d then Some (number_chars d) else None.

Lemma d_trunc_small d : uint 64 d -> exact_integer d = true -> Z.abs (d_trunc d) < 2 ^ 53.
Proof.
  intros Hd He. unfold exact_integer, dgt in He. rewrite !andb_true_iff, !dlt_spec in He.
  change (d_key (d_of_Z (- 10 ^ 15))) with (- 4831355200913801216) in He.
  change (d_key (d_of_Z (10 ^ 15))) with 4831355200913801216 in He.
  assert (d_mag d < 4831355200913801216) as Hm by (unfold d_key in He; destruct (d_sign d); lia).
  destruct (sf_finite_shape d Hd) as (m & e & E & He1 & Hm1 & He2 & Hm2).
  { apply Z.ltb_lt. unfold d_inf_mag. lia. }
  assert (e < 0) as Hneg by lia. unfold d_trunc. rewrite E. unfold sf_finite. destruct m as [|p|p]; [done| |lia].
  rewrite (proj2 (Z.leb_gt _ _)) by lia. rewrite Z.shiftr_div_pow2 by lia.
  pose proof (Z.div_pos (Zpos p) (2 ^ (- e)) ltac:(lia) ltac:(apply Z.pow_pos_nonneg; lia)).
  pose proof (Z.div_le_upper_bound (Zpos p) (2 ^ (- e)) (Zpos p) ltac:(apply Z.pow_pos_nonneg; lia)) as Hle.
  assert (0 < 2 ^ (- e)) by (apply Z.pow_pos_nonneg; lia).
  destruct (d_sign d); nia.
Qed.

Lemma with_sign_uint s r : 0 <= r < 2 ^ 63 -> uint 64 (with_sign s r).
Proof. unfold uint, with_sign. destruct s; lia. Qed.

Lemma d_of_Z_uint z : Z.abs z < 2 ^ 53 -> uint 64 (d_of_Z z).
Proof.
  intros Hz. assert (forall s y, 0 < y < 2 ^ 53 -> uint 64 (with_sign s (d_of_Z y))) as Hu.
  { intros s y Hy. pose proof (d_of_Z_small y Hy) as Hb. apply with_sign_uint. unfold d_inf_mag in Hb. lia. }
  destruct (Z.lt_trichotomy z 0) as [H|[->|H]]; [|done|].
  - rewrite <- (Z.opp_involutive z), d_of_Z_neg by lia. apply Hu. lia.
  - apply (Hu false). lia.
Qed.

(** Every integer of this range but the negative zero is read back. *)
Lemma exact_integer_read d : uint 64 d -> exact_integer d = true -> d <> 2 ^ 63 -> stod (lld (d_trunc d)) = Some d.
Proof.
  intros Hd He Hz. pose proof (d_trunc_small d Hd He) as Hs. rewrite stod_lld by done. f_equal.
  unfold exact_integer in He. rewrite !andb_true_iff, deq_spec in He. destruct He as [[(_ & _ & Hk) _] _].
  destruct (decide (d_key d = 0)) as [H0|H0].
  - assert (d = 0) as ->; [|by vm_compute]. unfold d_key, d_mag, d_sign, uint in *. destruct (Z.leb_spec (2 ^ 63) d); lia.
  - symmetry. apply d_key_inj; try done. by apply d_of_Z_uint.
Qed.

(** *** What [std::stod] returns is a finite number *)

Lemma round_decimal_nonneg m k : 0 <= round_decimal m k.
Proof.
  unfold round_decimal. case Z.ltb_spec; intros Hm; [|done]. pose proof (scaled_pos 10 (- k) m 1 ltac:(lia) Hm ltac:(lia)) as [Hn Hd].
  destruct (scaled 10 (- k) m 1) as [n d]. cbn [fst snd] in *. unfold round_ratio. set (e := Z.max _ _).
  pose proof (scaled_pos 2 e n d ltac:(lia) Hn Hd) as [Hn' Hd']. destruct (scaled 2 e n d) as [n' d']. cbn [fst snd] in *.
  pose proof (div_half_even_nonneg n' d' ltac:(lia) Hd'). lia.
Qed.

Lemma stod_finite tok d : stod tok = Some d -> uint 64 d /\ isfinite d = true.
Proof.
  unfold stod. destruct (decimal_of tok) as [[neg m] k]. pose proof (round_decimal_nonneg m k) as H0.
  set (r := round_decimal m k) in *. destruct (Z.leb_spec d_inf_mag r) as [|H1]; [done|]. destruct (_ && _); [done|].
  intros [= <-]. change d_inf_mag with 9218868437227405312 in *. split; [apply with_sign_uint; lia|].
  unfold isfinite, d_mag, d_sign, with_sign. apply Z.ltb_lt. change d_inf_mag with 9218868437227405312.
  destruct neg; case Z.leb_spec; lia.
Qed.

(** *** Every integer below [10^15] in magnitude is exact *)

Lemma sf_finite_pattern s m e : 2 ^ 52 <= Zpos m < 2 ^ 53 -> -1074 <= e <= 971 ->
  to_sf (of_sf (S754_finite s m e)) = S754_finite s m e.
Proof.
  intros Hm He. cbn [of_sf]. rewrite (proj2 (Z.ltb_ge _ _)) by lia. set (f := Zpos m - 2 ^ 52).
  set (mag := (e + 1075) * 2 ^ 52 + f). assert (0 < mag < d_inf_mag) as Hmag by (unfold mag, f, d_inf_mag; lia).
  assert (d_mag (with_sign s mag) = mag /\ d_sign (with_sign s mag) = s) as [Em Es].
  { unfold d_mag, d_sign, with_sign. unfold d_inf_mag in Hmag. destruct s; case Z.leb_spec; lia. }
  unfold to_sf, isnan, isinf, d_exp, d_frac. rewrite Em, Es.
  rewrite (proj2 (Z.ltb_ge _ _)), (proj2 (Z.eqb_neq _ _)) by lia.
  assert (mag / 2 ^ 52 = e + 1075 /\ mag mod 2 ^ 52 = f) as [-> ->].
  { unfold mag. rewrite Z.div_add_l, (Z.add_comm _ f), Z.mod_add by lia.
    rewrite Z.div_small, Z.mod_small by (unfold f; lia). lia. }
  rewrite (proj2 (Z.eqb_neq _ _)) by lia. unfold f. replace (2 ^ 52 + (Zpos m - 2 ^ 52)) with (Zpos m) by lia.
  cbn [sf_finite]. f_equal. lia.
Qed.

(** The pattern of a small positive integer under either sign. *)
Lemma small_pattern p s : Zpos p < 2 ^ 53 ->
  exists m e, of_sf (binary_round 53 1024 s p 0) = of_sf (S754_finite s m e) /\
    to_sf (of_sf (S754_finite s m e)) = S754_finite s m e /\ -52 <= e <= 0 /\ 2 ^ 52 <= Zpos m < 2 ^ 53 /\
    Zpos m = Zpos p * 2 ^ (- e).
Proof.
  intros Hp. destruct (small_shape p Hp) as (m & e & E & Hm & He & Hv). exists m, e. rewrite E.
  split_and!; try done; try lia. apply sf_finite_pattern; lia.
Qed.

Lemma trunc_small s m e p : -52 <= e <= 0 -> Zpos m = Zpos p * 2 ^ (- e) ->
  (if 0 <=? e then Z.shiftl (Zpos m) e else Z.shiftr (Zpos m) (- e)) = Zpos p /\
  (let v := Zpos p in if s : bool then - v else v) = (if s then Zneg p else Zpos p).
Proof.
  intros He Hm. split; [|by destruct s]. destruct (Z.leb_spec 0 e).
  - replace e with 0 in * by lia. rewrite Z.shiftl_0_r. lia.
  - rewrite Z.shiftr_div_pow2, Hm by lia. apply Z.div_mul. pose proof (Z.pow_pos_nonneg 2 (- e)). lia.
Qed.

Lemma d_trunc_of_Z z : Z.abs z < 2 ^ 53 -> d_trunc (d_of_Z z) = z.
Proof.
  intros Hz. destruct z as [|p|p]; [done|..]; unfold d_trunc, d_of_Z; cbn [binary_normalize].
  - destruct (small_pattern p false) as (m & e & -> & -> & He & Hm & Hv); [lia|].
    by destruct (trunc_small false m e p He Hv) as [-> ?].
  - destruct (small_pattern p true) as (m & e & -> & -> & He & Hm & Hv); [lia|].
    by destruct (trunc_small true m e p He Hv) as [-> ?].
Qed.

(** The order of the patterns agrees with that of the integers at [10^15]. *)
Lemma small_below p : Zpos p < 10 ^ 15 -> d_of_Z (Zpos p) < 4831355200913801216.
Proof.
  intros Hp. unfold d_of_Z. cbn [binary_normalize].
  destruct (small_shape p) as (m & e & -> & Hm & He & Hv); [lia|]. cbn [of_sf with_sign].
  rewrite (proj2 (Z.ltb_ge _ _)) by lia. destruct (Z.lt_trichotomy e (-3)) as [H|[-> |H]].
  - lia.
  - change (2 ^ (- -3)) with 8 in Hv. lia.
  - exfalso. pose proof (Z.pow_le_mono_r 2 (- e) 2 ltac:(lia) ltac:(lia)). change (2 ^ 2) with 4 in *. nia.
Qed.

Lemma d_key_with_sign s r : 0 <= r < 2 ^ 63 -> d_key (with_sign s r) = if s then - r else r.
Proof. intros Hr. unfold d_key, d_mag, d_sign, with_sign. destruct s; case Z.leb_spec; lia. Qed.

Lemma isnan_with_sign s r : 0 <= r <= d_inf_mag -> isnan (with_sign s r) = false.
Proof.
  intros Hr. apply Z.ltb_ge. change d_inf_mag with 9218868437227405312 in *. unfold d_mag, d_sign, with_sign.
  destruct s; case Z.leb_spec; lia.
Qed.

Lemma exact_integer_of_Z z : Z.abs z < 10 ^ 15 -> exact_integer (d_of_Z z) = true.
Proof.
  intros Hz. destruct (decide (z = 0)) as [-> |H0]; [by vm_compute|].
  assert (exists s r, d_of_Z z = with_sign s r /\ 0 < r < 4831355200913801216) as (s & r & E & Hr).
  { destruct z as [|p|p]; [done|exists false|exists true]; exists (d_of_Z (Zpos p)).
    - split; [done|]. pose proof (small_below p). pose proof (d_of_Z_small (Zpos p)). lia.
    - split; [by apply (d_of_Z_neg (Zpos p)); lia|]. pose proof (small_below p). pose proof (d_of_Z_small (Zpos p)). lia. }
  unfold exact_integer, dgt. rewrite d_trunc_of_Z by lia. rewrite E.
  assert (isnan (with_sign s r) = false) as Hn by (apply isnan_with_sign; change d_inf_mag with 9218868437227405312; lia).
  rewrite !andb_true_iff, !dlt_spec, deq_spec.
  change (d_key (d_of_Z (- 10 ^ 15))) with (- 4831355200913801216).
  change (d_key (d_of_Z (10 ^ 15))) with 4831355200913801216.
  rewrite !d_key_with_sign, !Hn by lia. destruct s; repeat split; (done || lia).
Qed.
