(* ===== verification/Decimal.v ===== *)
(** * Seventeen digits are enough

    The decimal text that ["%.17g"] makes of a normal [double] is read back by
    [std::stod] as the same number: its shape, its value, and the rounding. *)

From Stdlib Require Import ZArith Lia Ascii String Floats.SpecFloat.
From stdpp Require Import base numbers decidable list strings pretty.
From S2P Require Import Prelude Float64 Number.
Local Open Scope Z_scope.
Local Open Scope warmth_scope.

(** ** Strings of digits *)
Definition len (s : string) : Z := Z.of_nat (String.length s).

Lemma len_app a b : len (a +:+ b) = len a + len b.
Proof. unfold len. induction a as [|x a IH]; [done|]. rewrite string_cons_app. cbn [String.length]. lia. Qed.
Lemma len_nonneg s : 0 <= len s.
Proof. unfold len. lia. Qed.
Lemma len_cons c s : len (String c s) = 1 + len s.
Proof. unfold len. cbn [String.length]. lia. Qed.

Lemma all_digits_app a b : all_digits (a +:+ b) <-> all_digits a /\ all_digits b.
Proof. unfold all_digits. by rewrite list_ascii_app, Forall_app. Qed.
Lemma all_digits_cons c s : all_digits (String c s) <-> is_digit c = true /\ all_digits s.
Proof. unfold all_digits. cbn [list_ascii_of_string]. by rewrite Forall_cons. Qed.

Lemma dec_value_acc acc s : dec_value acc s = acc * 10 ^ len s + dec_value 0 s.
Proof.
  revert acc. induction s as [|c s IH]; intros acc; [change (len "") with 0; cbn [dec_value]; lia|]. cbn [dec_value].
  rewrite IH, (IH (0 * 10 + _)), len_cons, Z.pow_add_r by (lia || apply len_nonneg). ring.
Qed.

Lemma dec_value_bound s : all_digits s -> 0 <= dec_value 0 s < 10 ^ len s.
Proof.
  induction s as [|c s IH]; [by vm_compute|]. rewrite all_digits_cons, is_digit_range. intros [Hc Hs]. specialize (IH Hs).
  cbn [dec_value]. rewrite dec_value_acc, len_cons, Z.pow_add_r by (lia || apply len_nonneg). nia.
Qed.

Lemma dec_value_lower c s : all_digits (String c s) -> c <> "0"%char -> 10 ^ len s <= dec_value 0 (String c s).
Proof.
  rewrite all_digits_cons, is_digit_range. intros [Hc Hs] Hne. pose proof (dec_value_bound s Hs). cbn [dec_value].
  assert (byte_of_ascii c <> 48) as Hb.
  { intros E. apply Hne. revert E. clear. destruct c as [[] [] [] [] [] [] [] []]; vm_compute; congruence. }
  rewrite dec_value_acc. assert (0 < 10 ^ len s) by (apply Z.pow_pos_nonneg; [lia|apply len_nonneg]). nia.
Qed.

Lemma dec_string_spec z : 0 < z -> exists c d, dec_string z = String c d /\ all_digits (String c d) /\ c <> "0"%char /\
  dec_value 0 (String c d) = z /\ 10 ^ len d <= z < 10 ^ (1 + len d).
Proof.
  intros Hz. unfold dec_string. destruct (Z.to_N z) as [|p] eqn:E; [lia|].
  destruct (pretty_go_digits (Npos p) "") as (c & d & Hp & Ha & Hc & Hv); [done|].
  change (pretty (Npos p)) with (pretty_N_go (Npos p) ""). rewrite Hp, string_app_nil. exists c, d.
  assert (dec_value 0 (String c d) = z) as Ev by (rewrite Hv; lia).
  pose proof (dec_value_lower c d Ha Hc). pose proof (dec_value_bound _ Ha) as Hb. rewrite len_cons in Hb. rewrite Ev in *. split_and!; first [done|lia].
Qed.

(** Zeros at the end, and without them. *)
Lemma zeros_app a b : zeros (a + b) = zeros a +:+ zeros b.
Proof. induction a as [|a IH]; [done|]. cbn [zeros Nat.add]. by rewrite IH. Qed.
Lemma len_zeros n : len (zeros n) = Z.of_nat n.
Proof. induction n as [|n IH]; [done|]. cbn [zeros]. rewrite len_cons, IH. lia. Qed.
Lemma zeros_digits n : all_digits (zeros n).
Proof. induction n as [|n IH]; [constructor|]. by constructor. Qed.
Lemma dec_value_zeros acc n : dec_value acc (zeros n) = acc * 10 ^ Z.of_nat n.
Proof.
  rewrite dec_value_acc, len_zeros. assert (dec_value 0 (zeros n) = 0) as ->; [|lia].
  induction n as [|n IH]; [done|exact IH].
Qed.

Lemma strip_zeros_spec s : exists n, s = strip_zeros s +:+ zeros n.
Proof.
  induction s as [|c s [n IH]]; [by exists 0%nat|]. cbn [strip_zeros].
  destruct (strip_zeros s) as [|x t] eqn:E.
  - change ("" +:+ zeros n) with (zeros n) in IH. subst s. case_decide as Hc.
    + exists (S n). by rewrite Hc.
    + by exists n.
  - exists n. rewrite string_cons_app. by rewrite <- IH.
Qed.
Lemma strip_zeros_digits s : all_digits s -> all_digits (strip_zeros s).
Proof. destruct (strip_zeros_spec s) as [n E]. intros H. rewrite E in H. by apply all_digits_app in H as [? _]. Qed.

(** Only a string of zeros loses everything. *)
Lemma strip_zeros_cons c s : c <> "0"%char -> strip_zeros (String c s) <> "".
Proof. intros Hc. cbn [strip_zeros]. destruct (strip_zeros s); [by rewrite decide_False|done]. Qed.
Lemma strip_zeros_app a b : strip_zeros b <> "" -> strip_zeros (a +:+ b) = a +:+ strip_zeros b.
Proof.
  intros Hb. induction a as [|c a IH]; [done|]. rewrite !string_cons_app. cbn [strip_zeros]. rewrite IH.
  destruct a as [|x a]; [|done]. change ("" +:+ strip_zeros b) with (strip_zeros b). by destruct (strip_zeros b).
Qed.

Lemma substring_split n m s : (n <= String.length s <= n + m)%nat -> String.substring 0 n s +:+ String.substring n m s = s.
Proof.
  revert s. induction n as [|n IH]; intros s Hn.
  - assert (forall s k, (String.length s <= k)%nat -> String.substring 0 k s = s) as H.
    { clear. intros s. induction s as [|c s IH]; intros [|k] Hk; cbn in *; try done; try lia. by rewrite IH by lia. }
    rewrite (H s m) by lia. by destruct s.
  - destruct s as [|c s]; cbn in Hn; [lia|]. cbn [String.substring]. rewrite string_cons_app, IH by lia. done.
Qed.
Lemma substring_length n s : (n <= String.length s)%nat -> String.length (String.substring 0 n s) = n.
Proof.
  revert s. induction n as [|n IH]; intros [|c s] Hn; cbn in *; try done; try lia. rewrite IH; lia.
Qed.

(** ** Literals

    An integer part, a fraction and an exponent, as a reader takes them apart. *)
Definition fraction (f : string) : string := match f with EmptyString => "" | f => "." +:+ f end.
Definition exponent (e : option (bool * string)) : string :=
  match e with None => "" | Some (neg, ds) => "e" +:+ (if neg : bool then "-" else "+") +:+ ds end.
Definition exponent_value (e : option (bool * string)) : Z :=
  match e with None => 0 | Some (neg, ds) => if neg : bool then - dec_value 0 ds else dec_value 0 ds end.
Definition literal (neg : bool) (i f : string) (e : option (bool * string)) : string :=
  (if neg then "-" else "") +:+ i +:+ fraction f +:+ exponent e.

Record literal_ok (i f : string) (e : option (bool * string)) : Prop := mkLit {
  li_int : all_digits i;
  li_first : i = "0" \/ exists c d, i = String c d /\ c <> "0"%char;
  li_frac : all_digits f;
  li_exp : forall neg ds, e = Some (neg, ds) -> all_digits ds /\ ds <> "" }.

Lemma exponent_peek e : is_digit (peek (exponent e)) = false /\ peek (exponent e) <> "."%char.
Proof. destruct e as [[neg ds]|]; done. Qed.
Lemma fraction_peek f e : is_digit (peek (fraction f +:+ exponent e)) = false.
Proof. destruct f as [|c f]; [apply exponent_peek|done]. Qed.
Lemma first_digit i f e : literal_ok i f e -> exists c d, i = String c d /\ is_digit c = true /\ c <> "-"%char.
Proof.
  intros [Hi Hc _ _]. destruct Hc as [->|(c & d & -> & _)]; [by exists "0"%char, ""|]. exists c, d.
  apply all_digits_cons in Hi as [Hi _]. split_and!; [done|done|]. by intros ->.
Qed.

Lemma decimal_of_literal neg i f e : literal_ok i f e ->
  decimal_of (literal neg i f e) = (neg, dec_value 0 (i +:+ f), exponent_value e - len f).
Proof.
  intros Hl. destruct (first_digit i f e Hl) as (c & d & Ei & Hcd & Hcm). destruct Hl as [Hi _ Hf He].
  assert (decimal_of (literal neg i f e) =
    let '(i', s) := span_digits (i +:+ fraction f +:+ exponent e) in
    let '(f', s) := if bool_decide (peek s = "."%char) then span_digits (skip1 s) else ("", s) in
    let e' :=
      if bool_decide (peek s = "e"%char) || bool_decide (peek s = "E"%char) then
        let s := skip1 s in
        if bool_decide (peek s = "-"%char) then - dec_value 0 (span_digits (skip1 s)).1
        else dec_value 0 (span_digits (if bool_decide (peek s = "+"%char) then skip1 s else s)).1
      else 0 in
    (neg, dec_value 0 (i' +:+ f'), e' - Z.of_nat (String.length f'))) as ->.
  { unfold decimal_of, literal. destruct neg.
    - change ("-" +:+ ?t) with (String "-" t). cbn [peek skip1]. by rewrite bool_decide_true.
    - change ("" +:+ ?t) with t. rewrite Ei, string_cons_app. cbn [peek]. by rewrite bool_decide_false. }
  rewrite (span_digits_app i) by (done || apply fraction_peek).
  assert ((if bool_decide (peek (fraction f +:+ exponent e) = "."%char) then span_digits (skip1 (fraction f +:+ exponent e))
           else ("", fraction f +:+ exponent e)) = (f, exponent e)) as ->.
  { destruct f as [|x f]; cbn [fraction].
    - change ("" +:+ exponent e) with (exponent e). by rewrite bool_decide_false by apply exponent_peek.
    - rewrite string_app_assoc. change ("." +:+ ?t) with (String "." t). cbn [peek skip1]. rewrite bool_decide_true by done.
      apply span_digits_app; [done|apply exponent_peek]. }
  cbn beta iota zeta. f_equal. unfold len. f_equal. destruct e as [[n ds]|]; [|done].
  destruct (He n ds eq_refl) as [Hds _]. pose proof (span_digits_app ds "" Hds eq_refl) as Hs. rewrite string_app_nil in Hs.
  cbn [exponent exponent_value]. change ("e" +:+ ?t) with (String "e" t). cbn [peek skip1]. rewrite bool_decide_true by done. cbn [orb].
  destruct n.
  - change ("-" +:+ ?t) with (String "-" t). cbn [peek skip1]. rewrite bool_decide_true by done. by rewrite Hs.
  - change ("+" +:+ ?t) with (String "+" t). cbn [peek skip1]. rewrite bool_decide_false, bool_decide_true by done. by rewrite Hs.
Qed.

(** ** What ["%.17g"] prints *)

Lemma log10_spec n m T : 0 < n -> 0 < m -> Z.abs (log10 n m) + 1 <= T ->
  m * 10 ^ (log10 n m + T) <= n * 10 ^ T < m * 10 ^ (log10 n m + 1 + T).
Proof.
  intros Hn Hm. unfold log10. case Z.leb_spec; intros Hmn.
  - assert (0 < n / m) as Hq by (apply Z.div_str_pos; lia).
    destruct (dec_string_spec (n / m) Hq) as (c & d & -> & _ & _ & _ & Hlo & Hhi). cbn [String.length].
    replace (Z.of_nat (S (String.length d)) - 1) with (len d) by (unfold len; lia). set (x := len d) in *.
    pose proof (Z.div_mod n m ltac:(lia)). pose proof (Z.mod_pos_bound n m Hm). pose proof (len_nonneg d) as Hx. fold x in Hx.
    intros HT. replace (1 + x) with (x + 1) in Hhi by lia. split.
    + apply (shift_le 10 x n m 0 T); [lia..|]. rewrite Z.add_0_r, Z.pow_0_r. nia.
    + apply (shift_lt 10 (x + 1) n m 0 T); [lia..|]. rewrite Z.add_0_r, Z.pow_0_r. nia.
  - assert (0 < (m - 1) / n) as Hq by (apply Z.div_str_pos; lia).
    destruct (dec_string_spec ((m - 1) / n) Hq) as (c & d & -> & _ & _ & _ & Hlo & Hhi). cbn [String.length].
    replace (Z.of_nat (S (String.length d))) with (1 + len d) by (unfold len; lia). set (x := len d) in *.
    pose proof (Z.div_mod (m - 1) n ltac:(lia)). pose proof (Z.mod_pos_bound (m - 1) n Hn). pose proof (len_nonneg d) as Hx. fold x in Hx.
    intros HT. split.
    + apply (shift_le 10 (- (1 + x)) n m (1 + x) T); [lia..|]. replace (- (1 + x) + (1 + x)) with 0 by lia. rewrite Z.pow_0_r. nia.
    + apply (shift_lt 10 (- (1 + x) + 1) n m (1 + x) T); [lia..|]. replace (- (1 + x) + 1 + (1 + x)) with 1 by lia.
      rewrite Z.pow_add_r by lia. rewrite Z.pow_add_r in Hhi by lia. nia.
Qed.

(** The digits are those of the nearest multiple of a power of ten that gives
    seventeen of them. *)
Lemma g_digits_spec n m : 0 < n -> 0 < m -> exists q x a b,
  scaled 10 (x - 16) n m = (a, b) /\ 0 < b /\ 10 ^ 16 * b <= a /\ 2 * Z.abs (a - q * b) <= b /\ 10 ^ 16 <= q <= 10 ^ 17 /\
  g_digits 17 n m = (if q =? 10 ^ 17 then (10 ^ 16, x + 1) else (q, x)).
Proof.
  intros Hn Hm. set (x := log10 n m). destruct (scaled 10 (x - 16) n m) as [a b] eqn:Es.
  pose proof (scaled_pos 10 (x - 16) n m ltac:(lia) Hn Hm) as [Ha Hb]. rewrite Es in Ha, Hb. cbn [fst snd] in Ha, Hb.
  set (T := Z.abs x + 20). pose proof (log10_spec n m T Hn Hm ltac:(lia)) as [H1 H2]. fold x in H1, H2.
  destruct (scaled_common 10 (x - 16) T n m) as (c & Hc & En & Em); [lia..|]. rewrite Es in En, Em. cbn [fst snd] in En, Em.
  replace (x + T) with (x - 16 + T + 16) in H1 by lia. replace (x + 1 + T) with (x - 16 + T + 17) in H2 by lia.
  rewrite Z.pow_add_r in H1, H2 by lia. rewrite Z.mul_assoc, Em, En in H1. rewrite Z.mul_assoc, Em, En in H2.
  assert (10 ^ 16 * b <= a) as Hlo by nia. assert (a < 10 ^ 17 * b) as Hhi by nia.
  set (q := div_half_even a b). pose proof (div_half_even_error a b Hb) as He. fold q in He.
  exists q, x, a, b. split_and!; [done|done|done|done|nia|nia|].
  unfold g_digits. fold x. replace (x - 17 + 1) with (x - 16) by lia. rewrite Es. by fold q.
Qed.

(** Splitting seventeen digits with the point after the first [k]. *)
Lemma split_digits q k : 10 ^ 16 <= q < 10 ^ 17 -> (1 <= k <= 17)%nat -> exists i f t,
  with_fraction (String.substring 0 k (dec_string q)) (String.substring k 17 (dec_string q)) = i +:+ fraction f /\
  literal_ok i f None /\ q = dec_value 0 (i +:+ f) * 10 ^ Z.of_nat t /\ len f = 17 - Z.of_nat k - Z.of_nat t.
Proof.
  intros Hq Hk. destruct (dec_string_spec q ltac:(lia)) as (c & d & E & Ha & Hc & Hv & Hlo & Hhi).
  assert (len d = 16) as Hl.
  { pose proof (len_nonneg d). assert (len d < 17) by (apply (Z.pow_lt_mono_r_iff 10); lia).
    assert (16 < 1 + len d) by (apply (Z.pow_lt_mono_r_iff 10); lia). lia. }
  assert (String.length (String c d) = 17%nat) as Hlen by (unfold len in Hl; cbn [String.length]; lia).
  rewrite E. set (i := String.substring 0 k (String c d)). set (f := String.substring k 17 (String c d)).
  assert (i +:+ f = String c d) as Es by (apply substring_split; lia).
  assert (len i = Z.of_nat k) as Hi by (unfold len, i; rewrite substring_length; lia).
  destruct (strip_zeros_spec f) as [t Et]. exists i, (strip_zeros f), t.
  assert (all_digits i /\ all_digits f) as [Hai Haf] by (apply all_digits_app; by rewrite Es).
  split_and!.
  - unfold with_fraction, fraction. destruct (strip_zeros f); [by rewrite string_app_nil|done].
  - constructor; [done| |by apply strip_zeros_digits|done]. right. unfold i. destruct k as [|k]; [lia|].
    cbn [String.substring]. by eexists _, _.
  - rewrite <- dec_value_zeros, <- dec_value_app, string_app_assoc, <- Et, Es. by rewrite Hv.
  - assert (len f = 17 - Z.of_nat k) as Hf by (pose proof (len_app i f); rewrite Es, len_cons in *; lia).
    rewrite Et, len_app, len_zeros in Hf. lia.
Qed.

(** The text is a literal whose value is that of the digits. *)
Lemma g_text_literal q x : 10 ^ 16 <= q < 10 ^ 17 -> exists i f e t,
  (forall neg, (if neg : bool then "-" else "") +:+ g_text 17 q x = literal neg i f e) /\ literal_ok i f e /\ 0 <= t /\
  q = dec_value 0 (i +:+ f) * 10 ^ t /\ exponent_value e - len f = x - 16 + t.
Proof.
  intros Hq. unfold g_text. change (Z.to_nat 17) with 17%nat. destruct (Z.leb_spec (-4) x) as [H4|H4]; cbn [andb].
  - destruct (Z.ltb_spec x 17) as [H17|H17].
    + destruct (Z.leb_spec 0 x) as [H0|H0].
      * destruct (split_digits q (Z.to_nat x + 1) Hq ltac:(lia)) as (i & f & t & E & Hl & Hv & Hf).
        exists i, f, None, (Z.of_nat t). split_and!; [|done|lia|done|cbn [exponent_value]; lia].
        intros neg. unfold literal. cbn [exponent]. by rewrite E, string_app_nil.
      * destruct (dec_string_spec q ltac:(lia)) as (c & d & E & Ha & Hc & Hv & Hlo & Hhi).
        assert (len d = 16) as Hl.
        { pose proof (len_nonneg d). assert (len d < 17) by (apply (Z.pow_lt_mono_r_iff 10); lia).
          assert (16 < 1 + len d) by (apply (Z.pow_lt_mono_r_iff 10); lia). lia. }
        rewrite E. destruct (strip_zeros_spec (String c d)) as [t Et]. pose proof (strip_zeros_cons c d Hc) as Hne.
        set (s := strip_zeros (String c d)) in *. set (k := Z.to_nat (- x - 1)).
        exists "0", (zeros k +:+ s), None, (Z.of_nat t).
        assert (len s + Z.of_nat t = 17) as Hls by (rewrite <- len_zeros, <- len_app, <- Et, len_cons; lia).
        split_and!.
        -- intros neg. unfold literal, with_fraction. rewrite strip_zeros_app by done. fold s. cbn [exponent]. rewrite string_app_nil.
           unfold fraction. destruct (zeros k +:+ s) eqn:Ez; [|done]. exfalso. apply Hne.
           apply (f_equal len) in Ez. rewrite len_app in Ez. pose proof (len_nonneg (zeros k)). pose proof (len_nonneg s).
           change (len "") with 0 in Ez. destruct s; [done|]. rewrite len_cons in *. pose proof (len_nonneg s). lia.
        -- constructor; [by repeat constructor|by left| |done]. apply all_digits_app. split; [apply zeros_digits|].
           by apply strip_zeros_digits.
        -- lia.
        -- change ("0" +:+ (zeros k +:+ s)) with (zeros (S k) +:+ s). rewrite dec_value_app, dec_value_zeros, Z.mul_0_l.
           rewrite <- dec_value_zeros, <- dec_value_app, <- Et. done.
        -- rewrite len_app, len_zeros. cbn [exponent_value]. lia.
    + clear H4. destruct (split_digits q 1 Hq ltac:(lia)) as (i & f & t & E & Hl & Hv & Hf).
      destruct (dec_string_spec (Z.abs x) ltac:(lia)) as (c & d & Ex & Ha & _ & Hvx & _).
      exists i, f, (Some (false, (if Z.abs x <? 10 then "0" else "") +:+ dec_string (Z.abs x))), (Z.of_nat t).
      rewrite Ex, (proj2 (Z.ltb_ge x 0)) by lia. rewrite (proj2 (Z.ltb_ge _ 10)) by lia. change ("" +:+ String c d) with (String c d).
      split_and!; [|constructor; try apply Hl|lia|done|].
      * intros neg. unfold literal. cbn [exponent]. rewrite E, string_app_assoc. done.
      * intros ? ? [= _ <-]. done.
      * cbn [exponent_value]. rewrite Hvx. lia.
  - destruct (split_digits q 1 Hq ltac:(lia)) as (i & f & t & E & Hl & Hv & Hf).
    destruct (dec_string_spec (Z.abs x) ltac:(lia)) as (c & d & Ex & Ha & _ & Hvx & _).
    set (ds := (if Z.abs x <? 10 then "0" else "") +:+ dec_string (Z.abs x)).
    assert (all_digits ds /\ ds <> "" /\ dec_value 0 ds = Z.abs x) as (Hd1 & Hd2 & Hd3).
    { unfold ds. rewrite Ex. case_match; [|done]. split_and!; [by constructor|done|exact Hvx]. }
    exists i, f, (Some (true, ds)), (Z.of_nat t). rewrite (proj2 (Z.ltb_lt x 0)) by lia.
    split_and!; [|constructor; try apply Hl|lia|done|].
    + intros neg. unfold literal, ds. cbn [exponent]. rewrite E, string_app_assoc. done.
    + by intros ? ? [= _ <-].
    + cbn [exponent_value]. rewrite Hd3. lia.
Qed.

(** Half a unit in the seventeenth digit is less than half a unit in the last
    binary place, and than a quarter at a power of two. *)
Lemma digits_near m n d a b q : 0 < m < 2 ^ 53 -> 0 < d -> 0 < b -> 10 ^ 16 * b <= a -> 2 * Z.abs (a - q * b) <= b ->
  n * a = m * q * b * d -> 2 * Z.abs (n - m * d) < d /\ (m = 2 ^ 52 -> 4 * Z.abs (n - m * d) < d).
Proof.
  intros Hm Hd Hb Ha Hq E. set (k := Z.abs (n - m * d)).
  assert (k * a = m * d * Z.abs (a - q * b)) as Ek.
  { replace (k * a) with (Z.abs ((n - m * d) * a)) by (rewrite Z.abs_mul, (Z.abs_eq a) by lia; done).
    assert ((n - m * d) * a = - (m * d * (a - q * b))) as -> by (rewrite Z.mul_sub_distr_r, E; ring).
    by rewrite Z.abs_opp, Z.abs_mul, (Z.abs_eq (m * d)) by nia. }
  assert (0 <= k) by apply Z.abs_nonneg.
  assert (2 * (k * a) <= m * d * b) as H1 by (rewrite Ek; nia).
  assert (2 * k * 10 ^ 16 * b <= m * d * b) as H2 by nia.
  assert (2 * k * 10 ^ 16 <= m * d) as H3 by (apply (Z.mul_le_mono_pos_r _ _ b); lia).
  split; [|intros ->]; nia.
Qed.

(** The literal's fraction against the digits. *)
Lemma same_value M q s x u v rn rd : 0 <= s -> q = M * 10 ^ s -> scaled 10 (x - 16) 1 1 = (u, v) ->
  scaled 10 (- (x - 16 + s)) M 1 = (rn, rd) -> rn * u = q * v * rd.
Proof.
  intros Hs -> E1 E2. unfold scaled in E1, E2. injection E1 as <- <-. injection E2 as <- <-.
  rewrite !Z.mul_1_l, <- !Z.mul_assoc, <- !Z.pow_add_r by lia. do 2 f_equal. lia.
Qed.

Lemma round_decimal_digits m e M q s x a b : 2 ^ 52 <= m < 2 ^ 53 -> -1074 <= e -> 0 < M -> 0 <= s -> q = M * 10 ^ s ->
  scaled 10 (x - 16) (m * 2 ^ Z.max e 0) (2 ^ Z.max (- e) 0) = (a, b) -> 10 ^ 16 * b <= a -> 2 * Z.abs (a - q * b) <= b ->
  round_decimal M (x - 16 + s) = (e + 1074) * 2 ^ 52 + m.
Proof.
  intros Hm He HM Hs Hq Eab Ha Hqb. unfold round_decimal. rewrite (proj2 (Z.ltb_lt 0 M)) by done.
  pose proof (scaled_pos 10 (- (x - 16 + s)) M 1 ltac:(lia) HM ltac:(lia)) as [Hrn Hrd].
  destruct (scaled 10 (- (x - 16 + s)) M 1) as [rn rd] eqn:Er. cbn [fst snd] in Hrn, Hrd.
  destruct (scaled 10 (x - 16) 1 1) as [u v] eqn:Euv. pose proof (same_value M q s x u v rn rd Hs Hq Euv Er) as Hv.
  set (P := 2 ^ Z.max e 0) in *. set (D := 2 ^ Z.max (- e) 0) in *.
  assert (0 < P /\ 0 < D) as [HP HD] by (split; apply Z.pow_pos_nonneg; lia).
  assert (a = m * P * u /\ b = D * v /\ 0 < v) as (-> & -> & Hvp).
  { unfold scaled in Euv, Eab. injection Euv as <- <-. injection Eab as <- <-. rewrite !Z.mul_1_l.
    split_and!; [done|done|apply Z.pow_pos_nonneg; lia]. }
  apply round_ratio_near; [lia..|]. unfold scaled. fold P D.
  apply (digits_near m _ _ (m * P * u) (D * v) q); [lia|nia|nia|done|done|]. 
  replace (rn * D * (m * P * u)) with (D * m * P * (rn * u)) by ring. rewrite Hv. ring.
Qed.

(** A normal number is read back from its seventeen digits. *)
Lemma g17_read_back d : uint 64 d -> isfinite d = true -> 2 ^ 52 <= d_mag d -> exists i f e,
  g17 d = literal (d_sign d) i f e /\ literal_ok i f e /\ stod (g17 d) = Some d.
Proof.
  intros Hd Hf Hn. destruct (sf_finite_shape d Hd Hf) as (m & e & E & He & Hm & Hsub & Hmag).
  assert (2 ^ 52 <= m) as Hm1 by (destruct (Z_lt_le_dec m (2 ^ 52)) as [H|H]; [specialize (Hsub H); lia|done]).
  destruct m as [|p|p]; [lia| |lia]. cbn [sf_finite] in E.
  destruct (g_digits_spec (Zpos p * 2 ^ Z.max e 0) (2 ^ Z.max (- e) 0)) as (q & x & a & b & Eab & Hb & Hab & Hq & Hq1 & Eg);
    [pose proof (Z.pow_pos_nonneg 2 (Z.max e 0)); nia|apply Z.pow_pos_nonneg; lia|].
  assert (exists q' x' k, g_digits 17 (Zpos p * 2 ^ Z.max e 0) (2 ^ Z.max (- e) 0) = (q', x') /\ 10 ^ 16 <= q' < 10 ^ 17 /\
    0 <= k /\ q = q' * 10 ^ k /\ x' = x + k) as (q' & x' & k & Egd & Hq' & Hk & Eq & Ex).
  { rewrite Eg. case Z.eqb_spec; intros H.
    - exists (10 ^ 16), (x + 1), 1. by split_and!.
    - exists q, x, 0. rewrite Z.pow_0_r. split_and!; first [done|lia]. }
  destruct (g_text_literal q' x' Hq') as (i & f & ex & t & Et & Hl & Ht & Ev & Eex).
  assert (g17 d = literal (d_sign d) i f ex) as Eg17.
  { unfold g17, g_format. rewrite E, Egd. apply Et. }
  exists i, f, ex. split_and!; [exact Eg17|exact Hl|]. rewrite Eg17. unfold stod. rewrite (decimal_of_literal _ _ _ _ Hl), Eex.
  set (M := dec_value 0 (i +:+ f)) in *.
  assert (0 < M) as HM.
  { assert (0 < 10 ^ t) by (apply Z.pow_pos_nonneg; lia). nia. }
  replace (x' - 16 + t) with (x - 16 + (t + k)) by lia.
  assert (2 ^ 52 <= Zpos p < 2 ^ 53 /\ -1074 <= e /\ 0 <= t + k) as (Hp & He1 & Htk) by lia.
  assert (q = M * 10 ^ (t + k)) as HqM by (rewrite (Z.pow_add_r 10 t k Ht Hk), Z.mul_assoc, <- Ev; exact Eq).
  rewrite (round_decimal_digits (Zpos p) e M q (t + k) x a b Hp He1 HM Htk HqM Eab Hab Hq).
  rewrite <- Hmag. rewrite (proj2 (Z.leb_gt _ _)) by (unfold isfinite in Hf; by apply Z.ltb_lt).
  rewrite (proj2 (Z.ltb_ge _ _)) by lia. cbn [andb]. f_equal.
  clear - Hd. unfold with_sign, d_mag, d_sign, uint in *. destruct (Z.leb_spec (2 ^ 63) d); lia.
Qed.

(** The magnitude of an integer but zero is that of a normal number. *)
Lemma d_of_Z_normal z : 0 < Z.abs z < 2 ^ 53 -> 2 ^ 52 <= d_mag (d_of_Z z).
Proof.
  intros Hz. assert (forall y s, 0 < y < 2 ^ 53 -> 2 ^ 52 <= d_mag (with_sign s (d_of_Z y))) as H.
  { intros y s Hy. pose proof (d_of_Z_small y Hy) as Hb. change d_inf_mag with 9218868437227405312 in Hb.
    unfold d_mag, d_sign, with_sign. destruct s; case Z.leb_spec; lia. }
  destruct (Z_lt_le_dec z 0).
  - rewrite <- (Z.opp_involutive z), d_of_Z_neg by lia. apply H. lia.
  - apply (H z false). lia.
Qed.
