(* ===== verification/Json.v ===== *)
(** * json.hpp: a JSON value, its printer and its parser

    [Value] with objects as lists sorted by key (the [std::map]), [dump] with
    its indentation, and the recursive-descent [Parser].  The parser's position
    is the rest of the text; an exception carries that rest and its message. *)

From Stdlib Require Import ZArith Lia Ascii String.
From stdpp Require Import base list numbers strings sorting.
From S2P Require Import Prelude Float64 Number Decimal.
Local Open Scope Z_scope.
Local Open Scope warmth_scope.

(** ** Values *)
Unset Elimination Schemes.
Inductive Value :=
  | Null
  | Bool (b : bool)
  | Number (d : double)
  | Str (s : string)
  | Array (l : list Value)
  | Object (l : list (string * Value)).
Set Elimination Schemes.

(** Induction with the hypothesis for every element. *)
Section Value_ind.
Context (P : Value -> Prop) (HNull : P Null) (HBool : forall b, P (Bool b)) (HNumber : forall d, P (Number d))
  (HStr : forall s, P (Str s)) (HArray : forall l, Forall P l -> P (Array l))
  (HObject : forall l, Forall (fun kv => P kv.2) l -> P (Object l)).
Fixpoint Value_ind (v : Value) : P v :=
  match v with
  | Null => HNull
  | Bool b => HBool b
  | Number d => HNumber d
  | Str s => HStr s
  | Array l =>
      HArray l ((fix go l : Forall P l := match l with [] => Forall_nil_2 _ | x :: l => Forall_cons_2 _ _ _ (Value_ind x) (go l) end) l)
  | Object l =>
      HObject l ((fix go l : Forall (fun kv => P kv.2) l :=
                    match l with [] => Forall_nil_2 _ | kv :: l => Forall_cons_2 _ kv _ (Value_ind kv.2) (go l) end) l)
  end.
End Value_ind.

(** [std::map::operator[]] and assignment. *)
Fixpoint map_set (k : string) (v : Value) (l : list (string * Value)) : list (string * Value) :=
  match l with
  | [] => [(k, v)]
  | (k', v') :: l' =>
      match String.compare k k' with
      | Lt => (k, v) :: l
      | Eq => (k, v) :: l'
      | Gt => (k', v') :: map_set k v l'
      end
  end.

(** [Value::set] on an object. *)
Definition set_key (k : string) (v : Value) (o : Value) : Value :=
  match o with Object l => Object (map_set k v l) | o => o end.

(** ** Printing *)
Definition char (n : nat) : ascii := ascii_of_nat n.
Definition quote : ascii := char 34.
Definition backslash : ascii := char 92.

(** [write_escaped], character by character: the case of the quote appends the
    quote itself. *)
Definition hex_char (n : Z) : ascii := if n <? 10 then ascii_of_byte (48 + n) else ascii_of_byte (87 + n).
Definition escape (c : ascii) : string :=
  let n := byte_of_ascii c in
  if n =? 34 then String quote ""
  else if n =? 92 then String backslash (String backslash "")
  else if n =? 8 then String backslash "b"
  else if n =? 12 then String backslash "f"
  else if n =? 10 then String backslash "n"
  else if n =? 13 then String backslash "r"
  else if n =? 9 then String backslash "t"
  else if n <? 32 then String backslash "u00" +:+ String (hex_char (n / 16)) (String (hex_char (n mod 16)) "")
  else String c "".
Fixpoint escape_all (s : string) : string :=
  match s with EmptyString => "" | String c s => escape c +:+ escape_all s end.
Definition write_escaped (s : string) : string := String quote (escape_all s +:+ String quote "").

(** A result of [int] arithmetic; overflow is undefined behaviour, as is what
    [number_text] says, and here [None]. *)
Definition to_int (z : Z) : option Z := if (- 2 ^ 31 <=? z) && (z <? 2 ^ 31) then Some z else None.

(** A new line and the indentation, when pretty-printing. *)
Fixpoint spaces (n : nat) : string := match n with O => "" | S n => String " " (spaces n) end.
Definition line (indent depth : Z) : option string :=
  if indent <? 0 then Some ""
  else n ← to_int (depth * indent); Some (String (char 10) (spaces (Z.to_nat n))).

Definition join (l : list string) : string := String.concat "," l.

Section each.
Context {A B : Type} (f : A -> option B).
Fixpoint each (l : list A) : option (list B) :=
  match l with [] => Some [] | x :: l => y ← f x; ys ← each l; Some (y :: ys) end.
End each.

Fixpoint write_value (indent depth : Z) (v : Value) : option string :=
  match v with
  | Null => Some "null"
  | Bool b => Some (if b then "true" else "false")
  | Number d => number_text d
  | Str s => Some (write_escaped s)
  | Array l =>
      items ← each (fun x =>
        deeper ← to_int (depth + 1); nl ← line indent deeper; t ← write_value indent deeper x; Some (nl +:+ t)) l;
      last ← (match l with [] => Some "" | _ => line indent depth end);
      Some ("[" +:+ join items +:+ last +:+ "]")
  | Object l =>
      items ← each (fun kx =>
        deeper ← to_int (depth + 1); nl ← line indent deeper; t ← write_value indent deeper kx.2;
        Some (nl +:+ write_escaped kx.1 +:+ ":" +:+ (if indent <? 0 then "" else " ") +:+ t)) l;
      last ← (match l with [] => Some "" | _ => line indent depth end);
      Some ("{" +:+ join items +:+ last +:+ "}")
  end.
Definition dump (indent : Z) (v : Value) : option string := write_value indent 0 v.

(** ** Parsing *)
Inductive presult (A : Type) :=
  | Parsed (a : A) (rest : string)
  | Failed (rest msg : string)
  | OutOfFuel.
Arguments Parsed {A} _ _.
Arguments Failed {A} _ _.
Arguments OutOfFuel {A}.

Definition parser (A : Type) : Type := string -> presult A.
Definition pret {A} (a : A) : parser A := fun s => Parsed a s.
Definition pfail {A} (msg : string) : parser A := fun s => Failed s msg.
Definition pbind {A B} (m : parser A) (k : A -> parser B) : parser B :=
  fun s => match m s with
           | Parsed a s => k a s
           | Failed s msg => Failed s msg
           | OutOfFuel => OutOfFuel
           end.
Declare Scope parser_scope.
Notation "x <- m ;; k" := (pbind m (fun x => k)) (at level 100, m at next level, right associativity) : parser_scope.
Local Open Scope parser_scope.

Definition is_ws (c : ascii) : bool :=
  let n := byte_of_ascii c in (n =? 32) || (n =? 9) || (n =? 10) || (n =? 13).
Fixpoint drop_ws (s : string) : string :=
  match s with EmptyString => "" | String c s' => if is_ws c then drop_ws s' else s end.
Definition skip_ws : parser unit := fun s => Parsed tt (drop_ws s).
Definition look : parser ascii := fun s => Parsed (peek s) s.
Definition take : parser ascii :=
  fun s => match s with EmptyString => Failed s "unexpected end" | String c s => Parsed c s end.

Fixpoint expect (lit : string) : parser unit :=
  match lit with
  | EmptyString => pret tt
  | String c lit => x <- take ;; if bool_decide (x = c) then expect lit else pfail "unexpected token"
  end.

Definition parse_hex1 : parser Z :=
  c <- take ;;
  let n := byte_of_ascii c in
  if (48 <=? n) && (n <=? 57) then pret (n - 48)
  else if (97 <=? n) && (n <=? 102) then pret (n - 87)
  else if (65 <=? n) && (n <=? 70) then pret (n - 55)
  else pfail "bad hex".
(** [v = (v << 4) | nv], four times from zero. *)
Definition parse_hex4 : parser Z :=
  a <- parse_hex1 ;; b <- parse_hex1 ;; c <- parse_hex1 ;; d <- parse_hex1 ;; pret (be_value 32 4 [a; b; c; d]).

Definition utf8_byte (z : Z) : ascii := ascii_of_byte (u8 z).
Definition append_utf8 (u : Z) : string :=
  let tail (k : Z) := utf8_byte (Z.lor 0x80 (Z.land (Z.shiftr u k) 0x3F)) in
  if u <? 0x80 then String (utf8_byte u) ""
  else if u <? 0x800 then String (utf8_byte (Z.lor 0xC0 (Z.shiftr u 6))) (String (tail 0) "")
  else if u <? 0x10000 then String (utf8_byte (Z.lor 0xE0 (Z.shiftr u 12))) (String (tail 6) (String (tail 0) ""))
  else String (utf8_byte (Z.lor 0xF0 (Z.shiftr u 18))) (String (tail 12) (String (tail 6) (String (tail 0) ""))).

(** The case [u] of an escape: one code unit, or a high surrogate and what
    follows it, computed on [unsigned]. *)
Definition parse_unicode : parser string :=
  cp <- parse_hex4 ;;
  if (0xD800 <=? cp) && (cp <=? 0xDBFF) then
    fun s => match s with
             | String b (String u s') =>
                 if bool_decide (b = backslash) && bool_decide (u = "u"%char) then
                   (lo <- parse_hex4 ;; pret (append_utf8 (u32 (0x10000 + Z.shiftl (cp - 0xD800) 10 + (lo - 0xDC00))))) s'
                 else Failed s "lone high surrogate"
             | _ => Failed s "lone high surrogate"
             end
  else pret (append_utf8 cp).

Definition parse_escape : parser string :=
  e <- take ;;
  let n := byte_of_ascii e in
  if (n =? 34) || (n =? 92) || (n =? 47) then pret (String e "")
  else if n =? 98 then pret (String (char 8) "")
  else if n =? 102 then pret (String (char 12) "")
  else if n =? 110 then pret (String (char 10) "")
  else if n =? 114 then pret (String (char 13) "")
  else if n =? 116 then pret (String (char 9) "")
  else if n =? 117 then parse_unicode
  else pfail "bad escape".

(** The loop of [parse_string] after the opening quote. *)
Fixpoint string_loop (fuel : nat) : parser string :=
  match fuel with
  | O => fun _ => OutOfFuel
  | S fuel =>
      c <- take ;;
      if bool_decide (c = quote) then pret ""
      else if bool_decide (c = backslash) then x <- parse_escape ;; r <- string_loop fuel ;; pret (x +:+ r)
      else if byte_of_ascii c <? 32 then pfail "control char in string"
      else r <- string_loop fuel ;; pret (String c r)
  end.
Definition parse_string : parser string := _ <- take ;; fun s => string_loop (S (String.length s)) s.

(** [parse_number]: the literal is scanned and handed to [std::stod]. *)
Definition scan_int (s : string) : presult string :=
  if bool_decide (peek s = "0"%char) then Parsed "0" (skip1 s)
  else if is_digit (peek s) then let '(d, r) := span_digits s in Parsed d r
  else Failed s "bad number".
Definition scan_frac (s : string) : presult string :=
  if bool_decide (peek s = "."%char) then
    let s := skip1 s in
    if is_digit (peek s) then let '(d, r) := span_digits s in Parsed ("." +:+ d) r else Failed s "bad fraction"
  else Parsed "" s.
Definition scan_exp (s : string) : presult string :=
  let e := peek s in
  if bool_decide (e = "e"%char) || bool_decide (e = "E"%char) then
    let s := skip1 s in
    let '(g, s) := if bool_decide (peek s = "+"%char) || bool_decide (peek s = "-"%char)
                   then (String (peek s) "", skip1 s) else ("", s) in
    if is_digit (peek s) then let '(d, r) := span_digits s in Parsed (String e (g +:+ d)) r else Failed s "bad exponent"
  else Parsed "" s.
Definition scan_sign (s : string) : presult string :=
  if bool_decide (peek s = "-"%char) then Parsed "-" (skip1 s) else Parsed "" s.
Definition parse_number : parser Value :=
  g <- scan_sign ;; i <- scan_int ;; f <- scan_frac ;; e <- scan_exp ;;
  match stod (g +:+ i +:+ f +:+ e) with Some d => pret (Number d) | None => pfail "bad number value" end.

(** [parse_value], and the loops of [parse_object] and [parse_array] after the
    opening bracket.  Two calls take at least a character, so fuel above twice
    the length of the text is enough. *)
Fixpoint parse_value (fuel : nat) : parser Value :=
  match fuel with
  | O => fun _ => OutOfFuel
  | S fuel =>
      _ <- skip_ws ;; c <- look ;;
      if bool_decide (c = "{"%char) then
        _ <- take ;; _ <- skip_ws ;; c <- look ;;
        if bool_decide (c = "}"%char) then _ <- take ;; pret (Object []) else parse_members fuel []
      else if bool_decide (c = "["%char) then
        _ <- take ;; _ <- skip_ws ;; c <- look ;;
        if bool_decide (c = "]"%char) then _ <- take ;; pret (Array []) else parse_elements fuel []
      else if bool_decide (c = quote) then s <- parse_string ;; pret (Str s)
      else if bool_decide (c = "t"%char) then _ <- expect "true" ;; pret (Bool true)
      else if bool_decide (c = "f"%char) then _ <- expect "false" ;; pret (Bool false)
      else if bool_decide (c = "n"%char) then _ <- expect "null" ;; pret Null
      else parse_number
  end
with parse_members (fuel : nat) (o : list (string * Value)) : parser Value :=
  match fuel with
  | O => fun _ => OutOfFuel
  | S fuel =>
      _ <- skip_ws ;; c <- look ;;
      if negb (bool_decide (c = quote)) then pfail "expected object key"
      else
        k <- parse_string ;; _ <- skip_ws ;; c <- take ;;
        if negb (bool_decide (c = ":"%char)) then pfail "expected colon"
        else
          v <- parse_value fuel ;;
          let o := map_set k v o in
          _ <- skip_ws ;; c <- take ;;
          if bool_decide (c = "}"%char) then pret (Object o)
          else if negb (bool_decide (c = ","%char)) then pfail "expected comma or closing brace"
          else parse_members fuel o
  end
with parse_elements (fuel : nat) (a : list Value) : parser Value :=
  match fuel with
  | O => fun _ => OutOfFuel
  | S fuel =>
      v <- parse_value fuel ;;
      let a := a ++ [v] in
      _ <- skip_ws ;; c <- take ;;
      if bool_decide (c = "]"%char) then pret (Array a)
      else if negb (bool_decide (c = ","%char)) then pfail "expected comma or closing bracket"
      else parse_elements fuel a
  end.

Definition parse_document (fuel : nat) : parser Value :=
  _ <- skip_ws ;; v <- parse_value fuel ;; _ <- skip_ws ;;
  fun s => match s with EmptyString => Parsed v s | _ => Failed s "trailing characters" end.

(** [Value::parse]: the value, or the text of the exception. *)
Definition parse (text : string) : option (Value + string) :=
  match parse_document (S (2 * String.length text)) text with
  | Parsed v _ => Some (inl v)
  | Failed rest msg =>
      Some (inr ("JSON parse error at offset " +:+ dec_string (Z.of_nat (String.length text - String.length rest)) +:+
                 ": " +:+ msg))
  | OutOfFuel => None
  end.

(** [Value::find]. *)
Definition find (k : string) (v : Value) : option Value :=
  match v with Object l => snd <$> List.find (fun kv => bool_decide (kv.1 = k)) l | _ => None end.

(** The rest of the class: the discriminator, the accessors, where [std::get]
    throws [bad_variant_access] on the wrong alternative ([None]), and the
    helpers that change an object or an array in place. *)
Module Access.
Inductive Kind := KNull | KBool | KNumber | KString | KArray | KObject.
#[export] Instance Kind_eq_dec : EqDecision Kind.
Proof. solve_decision. Defined.

Definition kind (v : Value) : Kind :=
  match v with Null => KNull | Bool _ => KBool | Number _ => KNumber | Str _ => KString | Array _ => KArray | Object _ => KObject end.
Definition has_kind (k : Kind) (v : Value) : bool := bool_decide (kind v = k).
Definition as_bool (v : Value) : option bool := match v with Bool b => Some b | _ => None end.
Definition as_number (v : Value) : option double := match v with Number d => Some d | _ => None end.
Definition as_string (v : Value) : option string := match v with Str s => Some s | _ => None end.
Definition as_array (v : Value) : option (list Value) := match v with Array l => Some l | _ => None end.
Definition as_object (v : Value) : option (list (string * Value)) := match v with Object l => Some l | _ => None end.
Definition object : Value := Object [].
Definition array : Value := Array [].
Definition set (key : string) (x v : Value) : option Value := l ← as_object v; Some (Object (map_set key x l)).
Definition push (x v : Value) : option Value := l ← as_array v; Some (Array (l ++ [x])).

(** An accessor throws exactly on the other alternatives. *)
Lemma access_kind v :
  (is_Some (as_bool v) <-> has_kind KBool v = true) /\ (is_Some (as_number v) <-> has_kind KNumber v = true) /\
  (is_Some (as_string v) <-> has_kind KString v = true) /\ (is_Some (as_array v) <-> has_kind KArray v = true) /\
  (is_Some (as_object v) <-> has_kind KObject v = true).
Proof. destruct v; cbn; split_and!; split; (done || by intros []). Qed.

Lemma map_set_find k k' x l : List.find (fun kv => bool_decide (kv.1 = k')) (map_set k x l) =
  if decide (k = k') then Some (k, x) else List.find (fun kv => bool_decide (kv.1 = k')) l.
Proof.
  induction l as [|[k0 x0] l IH]; cbn [map_set List.find fst]; [case_decide; by case_bool_decide|].
  destruct (String.compare k k0) eqn:E; cbn [List.find fst].
  - apply String.compare_eq_iff in E as ->. case_decide; by case_bool_decide.
  - case_decide; by case_bool_decide.
  - rewrite IH. case_decide as Hk; [subst k'|done]. case_bool_decide as H0; [|done]. subst k0.
    pose proof (String.compare_antisym k k) as E'. by rewrite E in E'.
Qed.

(** [set] on an object stores the member and keeps the others; on anything else
    it throws. *)
Lemma set_spec k x v :
  match set k x v with
  | Some v' => has_kind KObject v = true /\ forall k', find k' v' = if decide (k = k') then Some x else find k' v
  | None => has_kind KObject v = false
  end.
Proof.
  destruct v as [| | | | |l]; try done. split; [done|]. intros k'. unfold find. rewrite map_set_find. by case_decide.
Qed.
End Access.

Definition value_example : Value :=
  Object [("a", Array [Number (d_of_Z (-12)); Null; Str (String (char 10) "x")]); ("b", Object []); ("c", Number (dlit 1 10))].
Example dump_example : map (fun i => t ← dump i value_example; parse t) [-1; 0; 2] = replicate 3 (Some (inl value_example)).
Proof. vm_compute. reflexivity. Qed.
Example parse_examples : map parse ["[1,]"; "{"; " [ true , -0.5e1 ] "; "01"; "1e999"]
  = [Some (inr "JSON parse error at offset 3: bad number"); Some (inr "JSON parse error at offset 1: expected object key");
     Some (inl (Array [Bool true; Number (d_of_Z (-5))])); Some (inr "JSON parse error at offset 1: trailing characters");
     Some (inr "JSON parse error at offset 5: bad number value")].
Proof. vm_compute. reflexivity. Qed.

(** ** Well-formed values *)

(** The keys of an object are distinct and in the order of the [std::map]. *)
Definition key_lt (a b : string * Value) : Prop := String.compare a.1 b.1 = Lt.
Definition no_quote (s : string) : Prop := Forall (fun c => c <> quote) (list_ascii_of_string s).

(** A zero without sign or a normal number, of the range of [std::int64_t]. *)
Definition number_ok (d : double) : Prop := uint 64 d /\ castable d = true /\ (d = 0 \/ 2 ^ 52 <= d_mag d).
Lemma number_ok_zero : number_ok 0.
Proof. split_and!; [by vm_compute..|by left]. Qed.

(** What the parser can produce, and what the printer prints readably. *)
Unset Elimination Schemes.
Inductive value_wf : Value -> Prop :=
  | wf_null : value_wf Null
  | wf_bool b : value_wf (Bool b)
  | wf_number d : uint 64 d -> isfinite d = true -> value_wf (Number d)
  | wf_str s : value_wf (Str s)
  | wf_array l : Forall value_wf l -> value_wf (Array l)
  | wf_object l : Forall (fun kv => value_wf kv.2) l -> StronglySorted key_lt l -> value_wf (Object l).

Inductive readable : Value -> Prop :=
  | rd_null : readable Null
  | rd_bool b : readable (Bool b)
  | rd_number d : number_ok d -> readable (Number d)
  | rd_str s : no_quote s -> readable (Str s)
  | rd_array l : Forall readable l -> readable (Array l)
  | rd_object l : Forall (fun kv => no_quote kv.1 /\ readable kv.2) l -> StronglySorted key_lt l -> readable (Object l).
Set Elimination Schemes.

(** ** Lemmas: the text that is printed when printing is defined *)
Definition pad (indent depth : Z) : string :=
  if indent <? 0 then "" else String (char 10) (spaces (Z.to_nat (depth * indent))).

Fixpoint written (indent depth : Z) (v : Value) : string :=
  match v with
  | Null => "null"
  | Bool b => if b then "true" else "false"
  | Number d => number_chars d
  | Str s => write_escaped s
  | Array l =>
      "[" +:+ join (map (fun x => pad indent (depth + 1) +:+ written indent (depth + 1) x) l) +:+
      (if decide (l = []) then "" else pad indent depth) +:+ "]"
  | Object l =>
      "{" +:+ join (map (fun '(k, x) => pad indent (depth + 1) +:+ write_escaped k +:+ ":" +:+
                           (if indent <? 0 then "" else " ") +:+ written indent (depth + 1) x) l) +:+
      (match l with [] => "" | _ => pad indent depth end) +:+ "}"
  end.

(** How deep a value is nested, and its numbers. *)
Fixpoint height (v : Value) : Z :=
  match v with
  | Array l => 1 + foldr (fun x m => Z.max (height x) m) 0 l
  | Object l => 1 + foldr (fun kx m => Z.max (height kx.2) m) 0 l
  | _ => 0
  end.
Fixpoint castables (v : Value) : Prop :=
  match v with
  | Number d => castable d = true
  | Array l => foldr (fun x P => castables x /\ P) True l
  | Object l => foldr (fun kx P => castables kx.2 /\ P) True l
  | _ => True
  end.

Lemma to_int_some z : - 2 ^ 31 <= z < 2 ^ 31 -> to_int z = Some z.
Proof. intros Hz. unfold to_int. by rewrite (proj2 (Z.leb_le _ _)), (proj2 (Z.ltb_lt _ _)) by lia. Qed.

Lemma line_some i d : 0 <= d -> d * Z.max 1 i < 2 ^ 31 -> line i d = Some (pad i d).
Proof. intros Hd Hi. unfold line, pad. case Z.ltb_spec; intros H; [done|]. by rewrite to_int_some by nia. Qed.

Lemma each_some {A B} (f : A -> option B) (g : A -> B) l : Forall (fun x => f x = Some (g x)) l -> each f l = Some (map g l).
Proof. induction 1 as [|x l Hx Hl IH]; [done|]. cbn. by rewrite Hx, IH. Qed.

(** Printing is defined when the numbers can be cast and no indentation
    overflows; then it gives this text. *)
Lemma write_value_written v : forall i d, castables v -> 0 <= d -> (d + height v) * Z.max 1 i < 2 ^ 31 ->
  write_value i d v = Some (written i d v).
Proof.
  assert (forall i d h m, 0 <= d -> 0 <= m -> (d + (1 + Z.max h m)) * Z.max 1 i < 2 ^ 31 ->
    (d + 1 + h) * Z.max 1 i < 2 ^ 31 /\ (d + (1 + m)) * Z.max 1 i < 2 ^ 31 /\ d + 1 < 2 ^ 31 /\
    (d + 1) * Z.max 1 i < 2 ^ 31 /\ d * Z.max 1 i < 2 ^ 31) as Har by (intros; nia).
  assert (forall (A : Type) (f : A -> Value) l, 0 <= foldr (fun x m => Z.max (height (f x)) m) 0 l) as H0
    by (intros A f l; induction l; cbn; lia).
  induction v as [|b|x|s|l IH|l IH] using Value_ind; intros i d Hc Hd Hh; try done.
  - cbn in Hc |- *. unfold number_text. by rewrite Hc.
  - cbn [write_value written]. cbn [height castables] in Hc, Hh.
    rewrite (each_some _ (fun x => pad i (d + 1) +:+ written i (d + 1) x)).
    + destruct l as [|x l]; [done|]. cbn [foldr] in Hh. pose proof (H0 Value id l) as Hm. cbn [id] in Hm.
      apply Har in Hh as (_ & _ & _ & _ & Hh); [|done..]. cbn [mbind option_bind]. by rewrite line_some.
    + clear -IH Hc Hh Hd Har H0. induction IH as [|x l Hx Hl IHl]; [constructor|]. cbn [foldr] in Hc, Hh.
      pose proof (H0 Value id l) as Hm. cbn [id] in Hm.
      apply Har in Hh as (Hh1 & Hh2 & Hh3 & Hh4 & _); [|done..]. destruct Hc as [Hc1 Hc2]. constructor; [|by apply IHl].
      rewrite to_int_some by lia. cbn [mbind option_bind]. rewrite line_some by (lia || done). cbn [mbind option_bind].
      by rewrite Hx by (done || lia).
  - cbn [write_value written]. cbn [height castables] in Hc, Hh.
    rewrite (each_some _ (fun '(k, x) => pad i (d + 1) +:+ write_escaped k +:+ ":" +:+ (if i <? 0 then "" else " ") +:+ written i (d + 1) x)).
    + destruct l as [|x l]; [done|]. cbn [foldr] in Hh. pose proof (H0 (string * Value)%type snd l) as Hm.
      apply Har in Hh as (_ & _ & _ & _ & Hh); [|done..]. cbn [mbind option_bind]. by rewrite line_some.
    + clear -IH Hc Hh Hd Har H0. induction IH as [|[k x] l Hx Hl IHl]; [constructor|]. cbn [foldr snd] in Hc, Hh.
      pose proof (H0 (string * Value)%type snd l) as Hm.
      apply Har in Hh as (Hh1 & Hh2 & Hh3 & Hh4 & _); [|done..]. destruct Hc as [Hc1 Hc2]. constructor; [|by apply IHl].
      cbn [fst snd]. rewrite to_int_some by lia. cbn [mbind option_bind]. rewrite line_some by (lia || done). cbn [mbind option_bind].
      cbn [snd] in Hx. by rewrite Hx by (done || lia).
Qed.

Lemma readable_castables v : readable v -> castables v.
Proof.
  induction v as [|b|x|s|l IH|l IH] using Value_ind; intros Hv; inversion Hv as [| |? (_ & Hx & _)| |? Hl|? Hl _]; subst; try done.
  - cbn. clear Hv. induction IH as [|x l Hx Hl' IHl]; [done|]. apply Forall_cons in Hl as [? ?]. cbn. auto.
  - cbn. clear Hv. induction IH as [|x l Hx Hl' IHl]; [done|]. apply Forall_cons in Hl as [[? ?] ?]. cbn. auto.
Qed.

(** ** Lemmas: strings *)

Lemma escape_step c fuel r : c <> quote ->
  string_loop (S fuel) (escape c +:+ r) = (x <- string_loop fuel ;; pret (String c x)) r.
Proof.
  intros Hc. destruct c as [[] [] [] [] [] [] [] []];
    first [by destruct (Hc eq_refl) | reflexivity].
Qed.

Lemma escape_all_loop s fuel rest : no_quote s -> (String.length s < fuel)%nat ->
  string_loop fuel (escape_all s +:+ String quote rest) = Parsed s rest.
Proof.
  unfold no_quote. revert fuel. induction s as [|c s IH]; intros fuel Hs Hf; (destruct fuel as [|fuel]; [cbn in Hf; lia|]).
  - reflexivity.
  - cbn in Hs, Hf. apply Forall_cons in Hs as [Hc Hs]. cbn [escape_all]. rewrite string_app_assoc, escape_step by done.
    unfold pbind. rewrite IH by (done || lia). done.
Qed.

Lemma escape_length c : (1 <= String.length (escape c))%nat.
Proof. destruct c as [[] [] [] [] [] [] [] []]; vm_compute; lia. Qed.

Lemma length_append a b : String.length (a +:+ b) = (String.length a + String.length b)%nat.
Proof. induction a as [|x a IH]; [done|]. rewrite string_cons_app. cbn [String.length]. lia. Qed.

Lemma escape_all_length s : (String.length s <= String.length (escape_all s))%nat.
Proof.
  induction s as [|c s IH]; [done|]. cbn [escape_all String.length]. rewrite length_append.
  pose proof (escape_length c). lia.
Qed.

Lemma parse_string_written s rest : no_quote s -> parse_string (write_escaped s +:+ rest) = Parsed s rest.
Proof.
  intros Hs. unfold write_escaped, parse_string. rewrite string_cons_app, string_app_assoc. unfold pbind, take.
  change (String quote "" +:+ rest) with (String quote rest).
  apply escape_all_loop; [done|]. rewrite length_append. pose proof (escape_all_length s). lia.
Qed.

(** ** Lemmas: numbers *)

(** What may follow a value in a document: the end, a comma, a closing bracket
    or a new line. *)
Definition delim (rest : string) : Prop :=
  let c := peek rest in c = Ascii.zero \/ c = ","%char \/ c = "]"%char \/ c = "}"%char \/ c = char 10.

(** A scanner that stops before a delimiter takes the same with more to follow. *)
Definition extends {A} (m : parser A) : Prop :=
  forall s a r rest, delim rest -> m s = Parsed a r -> m (s +:+ rest) = Parsed a (r +:+ rest).

Lemma delim_spec rest : delim rest ->
  is_digit (peek rest) = false /\ peek rest <> "-"%char /\ peek rest <> "."%char /\ peek rest <> "e"%char /\
  peek rest <> "E"%char.
Proof. by intros [-> |[-> |[-> |[-> | ->]]]]. Qed.

Lemma span_extends s rest : is_digit (peek rest) = false ->
  span_digits (s +:+ rest) = ((span_digits s).1, (span_digits s).2 +:+ rest).
Proof.
  intros Hr. induction s as [|c s IH].
  - change ("" +:+ rest) with rest. destruct rest as [|c r]; [done|]. cbn [peek] in Hr. cbn [span_digits]. by rewrite Hr.
  - rewrite string_cons_app. cbn [span_digits]. destruct (is_digit c); [|done]. rewrite IH. by destruct (span_digits s).
Qed.

Lemma bind_extends {A B} (m : parser A) (k : A -> parser B) : extends m -> (forall a, extends (k a)) -> extends (pbind m k).
Proof.
  intros Hm Hk s b r rest Hd. unfold pbind. destruct (m s) as [a s1| |] eqn:E; [|done..]. intros Hb.
  rewrite (Hm s a s1 rest Hd E). by apply Hk.
Qed.

Lemma scan_sign_extends : extends scan_sign.
Proof.
  intros s a r rest Hd. unfold scan_sign. destruct s as [|c s].
  - change ("" +:+ rest) with rest. cbn [peek]. destruct (delim_spec rest Hd) as (? & ? & ? & ? & ?).
    rewrite !bool_decide_false by done. by intros [= <- <-].
  - rewrite string_cons_app. cbn [peek skip1]. case_bool_decide; by intros [= <- <-].
Qed.

Lemma digits_extends (d : string -> string) s a r rest : delim rest -> is_digit (peek s) = true ->
  (let '(x, y) := span_digits s in Parsed (d x) y) = Parsed a r ->
  is_digit (peek (s +:+ rest)) = true /\ (let '(x, y) := span_digits (s +:+ rest) in Parsed (d x) y) = Parsed a (r +:+ rest).
Proof.
  intros Hd Hs H. rewrite span_extends by by apply delim_spec. destruct s as [|c s]; [done|].
  split; [done|]. destruct (span_digits _) as [x y]. cbn [fst snd]. by injection H as <- <-.
Qed.

Lemma scan_int_extends : extends scan_int.
Proof.
  intros s a r rest Hd. unfold scan_int. destruct s as [|c s]; [done|]. rewrite string_cons_app.
  cbn [peek skip1]. case_bool_decide; [by intros [= <- <-]|]. destruct (is_digit c) eqn:Hc; [|done].
  rewrite <- string_cons_app. intros Hx. by apply (digits_extends (fun x => x) (String c s) a r rest Hd Hc) in Hx as [_ ?].
Qed.

Lemma scan_frac_extends : extends scan_frac.
Proof.
  intros s a r rest Hd. unfold scan_frac. destruct s as [|c s].
  - change ("" +:+ rest) with rest. cbn [peek]. destruct (delim_spec rest Hd) as (? & ? & ? & ? & ?).
    rewrite !bool_decide_false by done. by intros [= <- <-].
  - rewrite string_cons_app. cbn [peek skip1]. case_bool_decide; [|by intros [= <- <-]].
    destruct (is_digit (peek s)) eqn:Hs; [|done]. intros Hx.
    by apply (digits_extends (fun x => "." +:+ x) s a r rest Hd Hs) in Hx as [-> ?].
Qed.

Lemma scan_exp_extends : extends scan_exp.
Proof.
  intros s a r rest Hd. unfold scan_exp. destruct s as [|c s].
  - change ("" +:+ rest) with rest. cbn [peek].
    destruct (delim_spec rest Hd) as (? & ? & ? & ? & ?). rewrite !bool_decide_false by done. by intros [= <- <-].
  - rewrite string_cons_app. cbn [peek skip1]. destruct (_ || _); [|by intros [= <- <-]].
    destruct s as [|g s]; [done|]. rewrite string_cons_app. cbn [peek skip1]. destruct (_ || _).
    + destruct (is_digit (peek s)) eqn:Hs; [|done]. intros Hx.
      by apply (digits_extends (fun x => String c (String g "" +:+ x)) s a r rest Hd Hs) in Hx as [-> ?].
    + destruct (is_digit (peek (String g s))) eqn:Hs; [|done]. intros Hx. rewrite <- string_cons_app.
      by apply (digits_extends (fun x => String c ("" +:+ x)) (String g s) a r rest Hd Hs) in Hx as [-> ?].
Qed.

Lemma parse_number_extends : extends parse_number.
Proof.
  repeat (apply bind_extends; [first [apply scan_sign_extends|apply scan_int_extends|apply scan_frac_extends|apply scan_exp_extends]|intros ?]).
  intros s x r rest _. destruct (stod _); [|done]. by intros [= <- <-].
Qed.

Lemma parse_number_start s v r : parse_number s = Parsed v r -> peek s = "-"%char \/ is_digit (peek s) = true.
Proof.
  unfold parse_number, pbind, scan_sign. case_bool_decide; [by left|]. unfold scan_int.
  case_bool_decide as H0; [by rewrite H0; right|]. destruct (is_digit (peek s)); [by right|done].
Qed.

(** ** Lemmas: reading what was printed *)

Lemma drop_ws_spaces n s : drop_ws (spaces n +:+ s) = drop_ws s.
Proof. induction n as [|n IH]; [done|]. cbn [spaces]. rewrite string_cons_app. exact IH. Qed.
Lemma drop_ws_pad i d s : drop_ws (pad i d +:+ s) = drop_ws s.
Proof. unfold pad. destruct (i <? 0); [done|]. rewrite string_cons_app. apply drop_ws_spaces. Qed.
Lemma drop_ws_id s : is_ws (peek s) = false -> drop_ws s = s.
Proof. destruct s as [|c s]; [done|]. cbn [peek drop_ws]. by intros ->. Qed.

Lemma bind_skip {A} (k : unit -> parser A) s : pbind skip_ws k s = k tt (drop_ws s).
Proof. done. Qed.

Lemma parse_value_pad f i d s : parse_value f (pad i d +:+ s) = parse_value f s.
Proof. destruct f as [|f]; [done|]. cbn [parse_value]. by rewrite !bind_skip, drop_ws_pad. Qed.

Lemma delim_pad i d s : delim s -> delim (pad i d +:+ s).
Proof. unfold pad. destruct (i <? 0); [done|]. intros _. unfold delim. rewrite string_cons_app. cbn [peek]. tauto. Qed.

(** The text of [v] is read back, whatever delimiter follows. *)
Definition reads_back (i d : Z) (v : Value) : Prop :=
  forall fuel rest, delim rest -> (String.length (written i d v) < fuel)%nat ->
  parse_value fuel (written i d v +:+ rest) = Parsed v rest.

Definition item (i d : Z) (x : Value) : string := pad i d +:+ written i d x.
Definition member (i d : Z) (kv : string * Value) : string :=
  pad i d +:+ write_escaped kv.1 +:+ ":" +:+ (if i <? 0 then "" else " ") +:+ written i d kv.2.

Lemma join_cons x y l : join (x :: y :: l) = x +:+ "," +:+ join (y :: l).
Proof. done. Qed.

Lemma elements_written i d d' l : forall a fuel rest,
  l <> [] -> Forall (reads_back i d) l -> (String.length (join (map (item i d) l)) + 1 < fuel)%nat ->
  parse_elements fuel a (join (map (item i d) l) +:+ pad i d' +:+ "]" +:+ rest) = Parsed (Array (a ++ l)) rest.
Proof.
  induction l as [|x l IH]; intros a fuel rest Hl Hr Hf; [done|]. apply Forall_cons in Hr as [Hx Hr].
  destruct fuel as [|fuel]; [lia|]. cbn [parse_elements]. destruct l as [|y l].
  - change (join (map (item i d) [x])) with (item i d x) in *. unfold item in *. rewrite length_append in Hf.
    rewrite string_app_assoc. unfold pbind at 1. rewrite parse_value_pad, Hx by (lia || by apply delim_pad; right; right; left).
    rewrite bind_skip, drop_ws_pad. done.
  - cbn [map] in Hf |- *. rewrite join_cons in *. unfold item at 1. unfold item at 1 in Hf.
    rewrite !length_append in Hf. rewrite !string_app_assoc. unfold pbind at 1.
    rewrite parse_value_pad, Hx by (lia || by right; left). rewrite bind_skip, drop_ws_id by done.
    change ("," +:+ ?s) with (String "," s). unfold pbind, take. cbn [negb]. rewrite !bool_decide_false, bool_decide_true by done.
    cbn [negb]. rewrite (IH (a ++ [x])); [by rewrite <- app_assoc|done..|]. cbn [map] in *. change (String.length ",") with 1%nat in Hf. lia.
Qed.

Lemma map_set_last k v l : Forall (fun kv => key_lt kv (k, v)) l -> map_set k v l = l ++ [(k, v)].
Proof.
  induction 1 as [|[k' v'] l Hk Hl IH]; [done|]. unfold key_lt in Hk. cbn [fst] in Hk. cbn [map_set].
  rewrite String.compare_antisym, Hk. cbn [CompOpp app]. by rewrite IH.
Qed.

Lemma sorted_before o kv l : StronglySorted key_lt (o ++ kv :: l) -> Forall (fun kv' => key_lt kv' kv) o.
Proof.
  induction o as [|x o IH]; cbn [app]; intros Hs; constructor; apply StronglySorted_inv in Hs as [Hs Hx]; [|by apply IH].
  rewrite Forall_app, Forall_cons in Hx. by destruct Hx as (_ & ? & _).
Qed.

Lemma members_written i d d' l : forall o fuel rest,
  l <> [] -> Forall (fun kv => no_quote kv.1 /\ reads_back i d kv.2) l -> StronglySorted key_lt (o ++ l) ->
  (String.length (join (map (member i d) l)) + 1 < fuel)%nat ->
  parse_members fuel o (join (map (member i d) l) +:+ pad i d' +:+ "}" +:+ rest) = Parsed (Object (o ++ l)) rest.
Proof.
  induction l as [|[k x] l IH]; intros o fuel rest Hl Hr Hs Hf; [done|]. apply Forall_cons in Hr as [[Hk Hx] Hr].
  cbn [fst snd] in Hk, Hx. pose proof (map_set_last k x o (sorted_before _ _ _ Hs)) as Hset.
  assert (forall f s, parse_members (S f) o (member i d (k, x) +:+ s) =
    (v <- parse_value f ;; let o := map_set k v o in _ <- skip_ws ;; c <- take ;;
     if bool_decide (c = "}"%char) then pret (Object o)
     else if negb (bool_decide (c = ","%char)) then pfail "expected comma or closing brace"
     else parse_members f o) (written i d x +:+ s)) as Hstep.
  { intros f s. unfold member. cbn [fst snd parse_members]. rewrite !string_app_assoc, bind_skip, drop_ws_pad.
    rewrite drop_ws_id by done. unfold pbind at 1, look. cbn [peek write_escaped String.append].
    change (peek (write_escaped k +:+ ?t)) with quote. rewrite bool_decide_true by done. cbn [negb].
    unfold pbind at 1. rewrite parse_string_written by done. rewrite bind_skip, drop_ws_id by done.
    change (":" +:+ ?t) with (String ":" t). unfold pbind at 1, take. rewrite bool_decide_true by done. cbn [negb].
    unfold pbind at 1 4.
    destruct (i <? 0); [done|]. destruct f as [|f]; done. }
  destruct fuel as [|fuel]; [lia|].
  assert (String.length (written i d x) < fuel)%nat as Hlen.
  { destruct l as [|y l]; [change (join (map (member i d) [(k, x)])) with (member i d (k, x)) in Hf|
      cbn [map] in Hf; rewrite join_cons in Hf; rewrite length_append in Hf];
    unfold member in Hf; cbn [fst snd] in Hf; rewrite !length_append in Hf; lia. }
  destruct l as [|y l].
  - change (join (map (member i d) [(k, x)])) with (member i d (k, x)). rewrite Hstep. unfold pbind at 1.
    rewrite Hx by (done || by apply delim_pad; right; right; right; left). cbn zeta. rewrite Hset, bind_skip, drop_ws_pad. done.
  - cbn [map] in Hf |- *. rewrite join_cons in *. rewrite !string_app_assoc, Hstep. unfold pbind at 1.
    rewrite Hx by (done || by right; left). cbn zeta. rewrite Hset, bind_skip, drop_ws_id by done.
    change ("," +:+ ?s) with (String "," s). unfold pbind, take. rewrite bool_decide_false, bool_decide_true by done. cbn [negb].
    rewrite (IH (o ++ [(k, x)])); [by rewrite <- app_assoc|done..|by rewrite <- app_assoc|].
    rewrite !length_append in Hf. change (String.length ",") with 1%nat in Hf. cbn [map]. lia.
Qed.

Lemma write_array i d l : written i d (Array l) =
  "[" +:+ join (map (item i (d + 1)) l) +:+ (if decide (l = []) then "" else pad i d) +:+ "]".
Proof. done. Qed.
Lemma write_object i d l : written i d (Object l) =
  "{" +:+ join (map (member i (d + 1)) l) +:+ (if decide (l = []) then "" else pad i d) +:+ "}".
Proof.
  cbn [written]. do 2 f_equal; [|by destruct l].
  f_equal. apply map_ext. by intros [k x].
Qed.

(** ** Lemmas: numbers *)

(** The scanners take a literal apart. *)
Lemma scan_int_literal i f e r : literal_ok i f e -> is_digit (peek r) = false -> scan_int (i +:+ r) = Parsed i r.
Proof.
  intros [Hi Hc _ _] Hr. unfold scan_int. destruct Hc as [-> |(c & d & -> & Hc)]; [done|].
  pose proof (proj1 (all_digits_cons c d) Hi) as [Hcd _]. pose proof (span_digits_app _ r Hi Hr) as Hs.
  rewrite string_cons_app in *. cbn [peek]. by rewrite bool_decide_false, Hcd, Hs by done.
Qed.

Lemma digits_peek s r : all_digits s -> s <> "" -> is_digit (peek (s +:+ r)) = true.
Proof. destruct s as [|c s]; [done|]. rewrite all_digits_cons. by intros [Hc _] _. Qed.

Lemma scan_frac_literal f e : all_digits f -> scan_frac (fraction f +:+ exponent e) = Parsed (fraction f) (exponent e).
Proof.
  intros Hf. unfold scan_frac. destruct f as [|c f]; cbn [fraction].
  - change ("" +:+ exponent e) with (exponent e). by rewrite bool_decide_false by apply exponent_peek.
  - rewrite string_app_assoc. change ("." +:+ ?t) with (String "." t). cbn [peek skip1]. rewrite bool_decide_true by done.
    rewrite digits_peek by done. by rewrite span_digits_app by (done || apply exponent_peek).
Qed.

Lemma scan_exp_literal i f e : literal_ok i f e -> scan_exp (exponent e) = Parsed (exponent e) "".
Proof.
  intros [_ _ _ He]. destruct e as [[neg ds]|]; [|done]. destruct (He neg ds eq_refl) as [Hd Hne].
  pose proof (span_digits_app ds "" Hd eq_refl) as Hs. pose proof (digits_peek ds "" Hd Hne) as Hp. rewrite string_app_nil in Hs, Hp.
  unfold scan_exp. cbn [exponent]. change ("e" +:+ ?t) with (String "e" t). cbn [peek skip1]. rewrite bool_decide_true by done. cbn [orb].
  destruct neg.
  - change ("-" +:+ ?t) with (String "-" t). cbn [peek skip1]. rewrite orb_true_r by done. cbn [orb]. by rewrite Hp, Hs.
  - change ("+" +:+ ?t) with (String "+" t). cbn [peek skip1]. rewrite bool_decide_true by done. cbn [orb]. by rewrite Hp, Hs.
Qed.

Lemma parse_number_literal neg i f e d : literal_ok i f e -> stod (literal neg i f e) = Some d ->
  parse_number (literal neg i f e) = Parsed (Number d) "".
Proof.
  intros Hl Hd. set (sign := if neg then "-" else "").
  assert (scan_sign (literal neg i f e) = Parsed sign (i +:+ fraction f +:+ exponent e)) as Hs.
  { destruct (first_digit i f e Hl) as (c & t & -> & _ & Hc). unfold scan_sign, literal, sign. destruct neg; [done|].
    rewrite string_cons_app. change ("" +:+ ?t) with t. cbn [peek]. by rewrite bool_decide_false. }
  unfold parse_number, pbind. rewrite Hs. rewrite (scan_int_literal i f e) by (done || apply fraction_peek).
  rewrite scan_frac_literal by apply Hl. rewrite (scan_exp_literal i f e Hl).
  change (sign +:+ i +:+ fraction f +:+ exponent e) with (literal neg i f e). by rewrite Hd.
Qed.

Lemma parse_number_lld z d : stod (lld z) = Some d -> parse_number (lld z) = Parsed (Number d) "".
Proof.
  destruct (lld_shape z) as (c & t & E & Ha & Hc & _).
  assert (lld z = literal (z <? 0) (String c t) "" None) as ->; [by rewrite E; unfold literal; cbn; rewrite !string_app_nil|].
  apply parse_number_literal. constructor; [done| |constructor|done].
  destruct (decide (c = "0"%char)) as [E0|]; [|right; by eexists _, _]. left. destruct (Hc E0) as [-> _]. by subst.
Qed.

(** A zero or normal number is read back, whatever way it was printed. *)
Lemma number_ok_reads d : number_ok d -> parse_number (number_chars d) = Parsed (Number d) "".
Proof.
  intros (Hd & Hc & Hn). unfold number_chars. destruct (exact_integer d) eqn:He.
  - apply parse_number_lld, exact_integer_read; [done..|]. intros ->. destruct Hn as [Hn|Hn]; [done|]. by apply Hn.
  - assert (isfinite d = true) as Hf by (unfold castable in Hc; destruct (isfinite d); done).
    destruct Hn as [-> |Hn]; [done|]. destruct (g17_read_back d Hd Hf Hn) as (i & f & e & E & Hl & Hr).
    rewrite E in Hr |- *. by apply parse_number_literal.
Qed.

Lemma number_dispatch s c : peek s = "-"%char \/ is_digit (peek s) = true ->
  is_ws (peek s) = false /\ (c ∈ ["{"; "["; quote; "t"; "f"; "n"]%char -> peek s <> c).
Proof.
  intros H. split.
  - destruct H as [-> |H]; [done|]. apply is_digit_range in H. unfold is_ws.
    rewrite !(proj2 (Z.eqb_neq _ _)) by lia. done.
  - intros Hc E. rewrite E in H. rewrite !elem_of_cons, elem_of_nil in Hc.
    by destruct H as [-> |H]; destruct Hc as [?|[?|[?|[?|[?|[?|[]]]]]]]; subst.
Qed.

Lemma drop_ws_idem s : drop_ws (drop_ws s) = drop_ws s.
Proof.
  induction s as [|c s IH]; [done|]. cbn [drop_ws]. destruct (is_ws c) eqn:E; [done|]. cbn [drop_ws]. by rewrite E.
Qed.
Lemma parse_value_drop f s : parse_value f (drop_ws s) = parse_value f s.
Proof. destruct f as [|f]; [done|]. cbn [parse_value]. by rewrite !bind_skip, drop_ws_idem. Qed.
Lemma parse_elements_drop f a s : parse_elements f a (drop_ws s) = parse_elements f a s.
Proof. destruct f as [|f]; [done|]. cbn [parse_elements]. unfold pbind at 1 3. by rewrite parse_value_drop. Qed.
Lemma parse_members_drop f o s : parse_members f o (drop_ws s) = parse_members f o s.
Proof. destruct f as [|f]; [done|]. cbn [parse_members]. by rewrite !bind_skip, drop_ws_idem. Qed.

(** A list that is read does not start with its closing bracket. *)
Lemma elements_start f a s v r : parse_elements f a s = Parsed v r -> peek (drop_ws s) <> "]"%char.
Proof.
  destruct f as [|f]; [done|]. cbn [parse_elements]. unfold pbind at 1. destruct f as [|f]; [done|]. cbn [parse_value].
  rewrite bind_skip. intros H E. unfold pbind at 1, look in H. rewrite E in H. rewrite !bool_decide_false in H by done.
  destruct (parse_number (drop_ws s)) as [x y| |] eqn:Hp; [|done..]. apply parse_number_start in Hp. rewrite E in Hp.
  by destruct Hp.
Qed.
Lemma members_start f o s v r : parse_members f o s = Parsed v r -> peek (drop_ws s) <> "}"%char.
Proof.
  destruct f as [|f]; [done|]. cbn [parse_members]. rewrite bind_skip. intros H E. unfold pbind at 1, look in H.
  rewrite E in H. by rewrite bool_decide_false in H.
Qed.

Lemma readable_reads_back v : readable v -> forall i d, reads_back i d v.
Proof.
  induction v as [|b|x|s|l IH|l IH] using Value_ind; intros Hv i d fuel rest Hd Hf; inversion Hv; subst;
    (destruct fuel as [|fuel]; [lia|]).
  - done.
  - by destruct b.
  - pose proof (parse_number_extends _ _ _ _ Hd (number_ok_reads _ H0)) as Hp. change ("" +:+ rest) with rest in Hp.
    pose proof (parse_number_start _ _ _ Hp) as Hst.
    cbn [written parse_value]. rewrite bind_skip, drop_ws_id by by apply (number_dispatch _ quote).
    unfold pbind at 1, look. rewrite !bool_decide_false by (apply number_dispatch; [done|repeat constructor]). done.
  - cbn [written parse_value]. rewrite bind_skip, drop_ws_id by done. unfold pbind at 1, look.
    change (peek (write_escaped s +:+ rest)) with quote. rewrite !bool_decide_false, bool_decide_true by done.
    unfold pbind. by rewrite parse_string_written.
  - rewrite write_array in Hf |- *. cbn [parse_value]. rewrite bind_skip. destruct (decide (l = [])) as [-> |Hl]; [done|].
    rewrite !length_append in Hf. cbn [String.length] in Hf. rewrite !string_app_assoc. change ("[" +:+ ?s) with (String "[" s).
    assert (Forall (reads_back i (d + 1)) l) as Hr.
    { apply Forall_forall. intros x Hx. rewrite Forall_forall in IH, H0. by apply IH, H0. }
    pose proof (elements_written i (d + 1) d l [] fuel rest Hl Hr ltac:(lia)) as E. cbn [app] in E.
    pose proof (elements_start _ _ _ _ _ E). rewrite <- parse_elements_drop in E.
    rewrite drop_ws_id by done. unfold pbind at 1, look. cbn [peek]. rewrite bool_decide_false, bool_decide_true by done.
    unfold pbind at 1, take. rewrite bind_skip. unfold pbind at 1. by rewrite bool_decide_false.
  - rewrite write_object in Hf |- *. cbn [parse_value]. rewrite bind_skip. destruct (decide (l = [])) as [-> |Hl]; [done|].
    rewrite !length_append in Hf. cbn [String.length] in Hf. rewrite !string_app_assoc. change ("{" +:+ ?s) with (String "{" s).
    assert (Forall (fun kv => no_quote kv.1 /\ reads_back i (d + 1) kv.2) l) as Hr.
    { apply Forall_forall. intros x Hx. rewrite Forall_forall in IH, H0. destruct (H0 x Hx). split; [done|by apply IH]. }
    pose proof (members_written i (d + 1) d l [] fuel rest Hl Hr ltac:(done) ltac:(lia)) as E. cbn [app] in E.
    pose proof (members_start _ _ _ _ _ E). rewrite <- parse_members_drop in E.
    rewrite drop_ws_id by done. unfold pbind at 1, look. cbn [peek]. rewrite bool_decide_true by done.
    unfold pbind at 1, take. rewrite bind_skip. unfold pbind at 1. by rewrite bool_decide_false.
Qed.

(** ** Lemmas: the parser ends, and what it makes is well-formed *)

(** On texts that the fuel [n] is enough for, [m] ends; if it succeeds, it took
    at least [k] characters and its result satisfies [P]. *)
Definition safe {A} (k : nat) (P : A -> Prop) (n : nat) (m : parser A) : Prop :=
  forall s, (2 * String.length s < n)%nat ->
  match m s with
  | Parsed a r => P a /\ (String.length r + k <= String.length s)%nat
  | Failed _ _ => True
  | OutOfFuel => False
  end.

Lemma safe_weaken {A} k k' (P : A -> Prop) n n' m : safe k P n m -> (k' <= k)%nat -> (n' <= n)%nat -> safe k' P n' m.
Proof. intros H Hk Hn s Hs. specialize (H s ltac:(lia)). destruct (m s); [|done..]. destruct H. split; [done|lia]. Qed.

Lemma safe_bind {A B} k1 k2 (P : A -> Prop) (Q : B -> Prop) n (m : parser A) f :
  safe k1 P n m -> (forall a, P a -> safe k2 Q (n - 2 * k1) (f a)) -> safe (k1 + k2) Q n (pbind m f).
Proof.
  intros Hm Hf s Hs. unfold pbind. specialize (Hm s Hs). destruct (m s) as [a r| |]; [|done..]. destruct Hm as [Ha Hr].
  specialize (Hf a Ha r ltac:(lia)). destruct (f a r); [|done..]. destruct Hf. split; [done|lia].
Qed.

(** The same with what was taken before the end left out. *)
Lemma safe_bind0 {A B} k (P : A -> Prop) (Q : B -> Prop) n (m : parser A) f :
  safe k P n m -> (forall a, P a -> safe 0 Q (n - 2 * k) (f a)) -> safe k Q n (pbind m f).
Proof. intros Hm Hf. rewrite <- (Nat.add_0_r k). by eapply safe_bind. Qed.
Lemma safe_then {A B} k (P : A -> Prop) (Q : B -> Prop) n (m : parser A) f :
  safe 0 P n m -> (forall a, P a -> safe k Q n (f a)) -> safe k Q n (pbind m f).
Proof. intros Hm Hf. apply (safe_bind 0 k P Q n m f Hm). intros a Ha. rewrite Nat.sub_0_r. by apply Hf. Qed.

Lemma safe_ret {A} (P : A -> Prop) n a : P a -> safe 0 P n (pret a).
Proof. intros Ha s Hs. cbn. split; [done|lia]. Qed.
Lemma safe_fail {A} k (P : A -> Prop) n msg : safe k P n (pfail msg).
Proof. by intros s Hs. Qed.
Lemma safe_skip_ws n : safe 0 (fun _ => True) n skip_ws.
Proof.
  intros s _. cbn. split; [done|]. induction s as [|c s IH]; [done|]. cbn [drop_ws String.length].
  destruct (is_ws c); cbn [String.length]; lia.
Qed.
Lemma safe_look n : safe 0 (fun _ => True) n look.
Proof. intros s _. cbn. split; [done|lia]. Qed.
Lemma safe_take n : safe 1 (fun _ => True) n take.
Proof. intros [|c s] _; [done|]. cbn. split; [done|lia]. Qed.

Lemma safe_take0 n : safe 0 (fun _ => True) n take.
Proof. apply (safe_weaken 1 0 _ n n); [apply safe_take|lia..]. Qed.

Lemma safe_expect lit n : safe 0 (fun _ => True) n (expect lit).
Proof.
  revert n. induction lit as [|c lit IH]; intros n; cbn [expect]; [by apply safe_ret|].
  eapply safe_weaken; [eapply safe_bind0; [apply safe_take|]|lia|done]. intros x _. case_bool_decide; [apply IH|apply safe_fail].
Qed.
Lemma expect_takes c lit n : safe 1 (fun _ => True) n (expect (String c lit)).
Proof.
  cbn [expect]. eapply safe_bind0; [apply safe_take|]. intros x _. case_bool_decide; [apply safe_expect|apply safe_fail].
Qed.

Ltac safe_if := match goal with |- safe _ _ _ (if ?b then _ else _) => destruct b end.

Lemma safe_hex4 n : safe 0 (fun _ => True) n parse_hex4.
Proof.
  assert (forall n, safe 0 (fun _ => True) n parse_hex1) as H.
  { intros n'. eapply safe_weaken; [eapply safe_bind0; [apply safe_take|]|lia|done]. intros x _. cbn zeta.
    repeat safe_if; first [by apply safe_ret|apply safe_fail]. }
  do 4 (eapply safe_then; [apply H|intros ? _]). by apply safe_ret.
Qed.

Lemma safe_unicode n : safe 0 (fun _ => True) n parse_unicode.
Proof.
  eapply safe_then; [apply safe_hex4|]. intros cp _. safe_if; [|by apply safe_ret].
  intros [|b [|u s]] Hs; [done..|]. destruct (_ && _); [|done]. cbn [String.length] in Hs |- *.
  assert (safe 0 (fun _ => True) n (lo <- parse_hex4 ;; pret (append_utf8 (u32 (0x10000 + Z.shiftl (cp - 0xD800) 10 + (lo - 0xDC00))))))
    as H by (eapply safe_then; [apply safe_hex4|by intros; apply safe_ret]).
  specialize (H s ltac:(lia)). destruct (pbind _ _ s) as [x r| |]; [|done|done]. split; [done|lia].
Qed.

Lemma safe_escape n : safe 0 (fun _ => True) n parse_escape.
Proof.
  eapply safe_weaken; [eapply safe_bind0; [apply safe_take|]|lia|done]. intros e _. cbn zeta.
  repeat safe_if; first [by apply safe_ret|apply safe_unicode|apply safe_fail].
Qed.

Lemma safe_string_loop fuel : safe 1 (fun _ => True) (2 * fuel) (string_loop fuel).
Proof.
  induction fuel as [|fuel IH]; [intros s Hs; lia|]. cbn [string_loop].
  eapply safe_bind0; [apply safe_take|]. intros c _. replace (2 * S fuel - 2 * 1)%nat with (2 * fuel)%nat by lia.
  assert (safe 0 (fun _ => True) (2 * fuel) (string_loop fuel)) as IH0 by (eapply safe_weaken; [done|lia..]).
  case_bool_decide; [by apply safe_ret|]. case_bool_decide.
  - eapply safe_then; [apply safe_escape|]. intros x _. eapply safe_then; [exact IH0|]. intros. by apply safe_ret.
  - safe_if; [apply safe_fail|]. eapply safe_then; [exact IH0|]. intros. by apply safe_ret.
Qed.

Lemma safe_parse_string n : safe 1 (fun _ => True) n parse_string.
Proof.
  eapply safe_bind0; [apply safe_take|]. intros c _ s _.
  pose proof (safe_string_loop (S (String.length s)) s ltac:(lia)) as H. destruct (string_loop _ s); [|done|done].
  split; [done|lia].
Qed.

Lemma span_length s : (String.length (span_digits s).2 <= String.length s)%nat.
Proof. induction s as [|c s IH]; [done|]. cbn [span_digits]. destruct (is_digit c); [|done]. destruct (span_digits s). cbn in *. lia. Qed.
Lemma skip1_length s : (String.length (skip1 s) <= String.length s)%nat.
Proof. destruct s; cbn; lia. Qed.

Lemma span_taken s : is_digit (peek s) = true -> (String.length (span_digits s).2 + 1 <= String.length s)%nat.
Proof.
  destruct s as [|c s]; [done|]. cbn [peek span_digits]. intros ->. pose proof (span_length s). destruct (span_digits s).
  cbn in *. lia.
Qed.

Lemma safe_scan_sign n : safe 0 (fun _ => True) n scan_sign.
Proof. intros s _. unfold scan_sign. pose proof (skip1_length s). case_bool_decide; (split; [done|lia]). Qed.
Lemma safe_scan_int n : safe 1 (fun _ => True) n scan_int.
Proof.
  intros s _. unfold scan_int. case_bool_decide as H0.
  - destruct s as [|c s]; [done|]. cbn. split; [done|lia].
  - destruct (is_digit (peek s)) eqn:E; [|done]. apply span_taken in E. destruct (span_digits s). cbn in *. split; [done|lia].
Qed.
Lemma safe_scan_frac n : safe 0 (fun _ => True) n scan_frac.
Proof.
  intros s _. unfold scan_frac. pose proof (skip1_length s). case_bool_decide; [|split; [done|lia]].
  destruct (is_digit (peek (skip1 s))); [|done]. pose proof (span_length (skip1 s)). destruct (span_digits _). cbn in *.
  split; [done|lia].
Qed.
Lemma safe_scan_exp n : safe 0 (fun _ => True) n scan_exp.
Proof.
  intros s _. unfold scan_exp. pose proof (skip1_length s). destruct (_ || _); [|split; [done|lia]].
  set (s1 := skip1 s) in *. pose proof (skip1_length s1).
  assert (exists g s2, (if bool_decide (peek s1 = "+"%char) || bool_decide (peek s1 = "-"%char)
      then (String (peek s1) "", skip1 s1) else ("", s1)) = (g, s2) /\ (String.length s2 <= String.length s1)%nat)
    as (g & s2 & -> & ?) by (destruct (_ || _); by eexists _, _).
  destruct (is_digit (peek s2)); [|done]. pose proof (span_length s2). destruct (span_digits s2). cbn in *. split; [done|lia].
Qed.

Lemma safe_parse_number n : safe 1 value_wf n parse_number.
Proof.
  eapply safe_then; [apply safe_scan_sign|intros g _]. eapply safe_bind0; [apply safe_scan_int|intros i _].
  eapply safe_then; [apply safe_scan_frac|intros f _]. eapply safe_then; [apply safe_scan_exp|intros e _].
  destruct (stod _) as [d|] eqn:E; [|apply safe_fail]. apply safe_ret. apply stod_finite in E as [? ?]. by constructor.
Qed.

Lemma map_set_forall (P : string * Value -> Prop) k v l : Forall P l -> P (k, v) -> Forall P (map_set k v l).
Proof.
  intros Hl Hv. induction Hl as [|[k' v'] l Hk Hl IH]; cbn [map_set]; [by constructor|].
  destruct (String.compare k k'); repeat constructor; done.
Qed.

Lemma compare_lt_trans s1 : forall s2 s3, String.compare s1 s2 = Lt -> String.compare s2 s3 = Lt -> String.compare s1 s3 = Lt.
Proof.
  induction s1 as [|a s1 IH]; intros [|b s2] [|c s3]; cbn [String.compare]; try done.
  unfold Ascii.compare.
  destruct (N.compare_spec (N_of_ascii a) (N_of_ascii b)) as [Hab|Hab|Hab]; [| |done];
    destruct (N.compare_spec (N_of_ascii b) (N_of_ascii c)) as [Hbc|Hbc|Hbc]; try done;
    destruct (N.compare_spec (N_of_ascii a) (N_of_ascii c)); try lia; try done. apply IH.
Qed.

Lemma map_set_sorted k v l : StronglySorted key_lt l -> StronglySorted key_lt (map_set k v l).
Proof.
  induction l as [|[k' v'] l IH]; intros Hs; cbn [map_set]; [by repeat constructor|].
  apply StronglySorted_inv in Hs as [Hs Hk]. pose proof (String.compare_antisym k k') as Ha.
  destruct (String.compare k k') eqn:E.
  - apply String.compare_eq_iff in E as ->. by constructor.
  - constructor; [by constructor|]. constructor; [done|]. eapply Forall_impl; [exact Hk|].
    intros [k2 v2]. unfold key_lt. by apply compare_lt_trans.
  - constructor; [by apply IH|]. apply map_set_forall; [done|]. unfold key_lt. cbn [fst].
    by destruct (String.compare k' k).
Qed.

(** The three parsers, with the fuel each of them needs. *)
Lemma safe_parse n :
  safe 1 value_wf n (parse_value n) /\
  (forall o, Forall (fun kv => value_wf kv.2) o -> StronglySorted key_lt o -> safe 1 value_wf (n - 1) (parse_members n o)) /\
  (forall a, Forall value_wf a -> safe 1 value_wf (n - 1) (parse_elements n a)).
Proof.
  induction n as [|n (IHv & IHm & IHe)]; [by split_and!; intros; intros s Hs; lia|].
  rewrite Nat.sub_succ, Nat.sub_0_r. split_and!.
  - cbn [parse_value]. eapply safe_then; [apply safe_skip_ws|intros _ _]. eapply safe_then; [apply safe_look|intros c _].
    case_bool_decide.
    { eapply safe_bind0; [apply safe_take|intros ? _]. eapply safe_then; [apply safe_skip_ws|intros _ _].
      eapply safe_then; [apply safe_look|intros x _]. case_bool_decide.
      - eapply safe_weaken; [eapply safe_bind0; [apply safe_take|intros; apply safe_ret; by repeat constructor]|lia|done].
      - eapply safe_weaken; [by apply IHm; [|constructor]|lia..]. }
    case_bool_decide.
    { eapply safe_bind0; [apply safe_take|intros ? _]. eapply safe_then; [apply safe_skip_ws|intros _ _].
      eapply safe_then; [apply safe_look|intros x _]. case_bool_decide.
      - eapply safe_weaken; [eapply safe_bind0; [apply safe_take|intros; apply safe_ret; by repeat constructor]|lia|done].
      - eapply safe_weaken; [by apply IHe|lia..]. }
    case_bool_decide; [eapply safe_bind0; [apply safe_parse_string|intros; apply safe_ret; constructor]|].
    do 3 (case_bool_decide; [eapply safe_bind0; [apply expect_takes|intros; apply safe_ret; constructor]|]).
    apply safe_parse_number.
  - intros o Ho Hs. cbn [parse_members]. eapply safe_then; [apply safe_skip_ws|intros _ _].
    eapply safe_then; [apply safe_look|intros c _]. safe_if; [apply safe_fail|].
    eapply safe_bind0; [apply safe_parse_string|intros k _]. eapply safe_then; [apply safe_skip_ws|intros _ _].
    eapply safe_then; [apply safe_take0|intros x _]. safe_if; [apply safe_fail|].
    eapply safe_then; [apply (safe_weaken 1 0 _ n (n - 2 * 1)); [exact IHv|lia..]|].
    intros v Hv. cbn zeta. eapply safe_then; [apply safe_skip_ws|intros _ _].
    eapply safe_then; [apply safe_take0|intros y _].
    pose proof (map_set_forall (fun kv => value_wf kv.2) k v o Ho Hv). pose proof (map_set_sorted k v o Hs).
    case_bool_decide; [apply safe_ret; by constructor|]. safe_if; [apply safe_fail|].
    eapply safe_weaken; [by apply IHm|lia..].
  - intros a Ha. cbn [parse_elements]. eapply safe_bind0; [exact IHv|]. intros v Hv. cbn zeta.
    eapply safe_then; [apply safe_skip_ws|intros _ _].
    eapply safe_then; [apply safe_take0|intros y _].
    assert (Forall value_wf (a ++ [v])) by (apply Forall_app; by repeat constructor).
    case_bool_decide; [apply safe_ret; by constructor|]. safe_if; [apply safe_fail|].
    eapply safe_weaken; [by apply IHe|lia..].
Qed.

(** ** Lemmas: documents *)

Lemma parse_document_value n text v rest :
  parse_value n text = Parsed v rest ->
  parse_document n text = match drop_ws rest with EmptyString => Parsed v "" | r => Failed r "trailing characters" end.
Proof.
  intros H. unfold parse_document. rewrite bind_skip. unfold pbind at 1. rewrite parse_value_drop, H, bind_skip.
  by destruct (drop_ws rest).
Qed.

Lemma parse_document_safe n text : (2 * String.length text < n)%nat ->
  match parse_document n text with Parsed v _ => value_wf v | Failed _ _ => True | OutOfFuel => False end.
Proof.
  intros Hn. unfold parse_document. rewrite bind_skip. unfold pbind at 1. rewrite parse_value_drop.
  pose proof (proj1 (safe_parse n) text Hn) as H. destruct (parse_value n text) as [v r| |]; [|done..].
  rewrite bind_skip. destruct H as [Hv _]. by destruct (drop_ws r).
Qed.

Lemma escape_all_app a b : escape_all (a +:+ b) = escape_all a +:+ escape_all b.
Proof. induction a as [|c a IH]; [done|]. rewrite string_cons_app. cbn [escape_all]. by rewrite IH, string_app_assoc. Qed.

Lemma no_quote_or_split s : no_quote s \/ exists a b, s = a +:+ String quote b /\ no_quote a.
Proof.
  induction s as [|c s IH]; [by left; constructor|]. destruct (decide (c = quote)) as [-> |Hc].
  - right. exists "", s. by split; [|constructor].
  - destruct IH as [IH|(a & b & -> & Ha)]; [left; by constructor|]. right. exists (String c a), b.
    split; [done|by constructor].
Qed.

Lemma drop_ws_quote x r : drop_ws (x +:+ String quote r) <> "".
Proof.
  induction x as [|c x IH]; [done|]. rewrite string_cons_app. cbn [drop_ws]. by destruct (is_ws c).
Qed.

Lemma parse_value_quote n s : parse_value (S n) (String quote s) = (x <- parse_string ;; pret (Str x)) (String quote s).
Proof. done. Qed.

Lemma integer_castable z : Z.abs z < 2 ^ 53 -> castable (d_of_Z z) = true.
Proof.
  intros Hz. unfold castable. rewrite d_trunc_of_Z by done. rewrite !andb_true_iff, Z.leb_le, Z.ltb_lt. split; [|lia].
  split; [apply (stod_finite _ _ (stod_lld z Hz))|lia].
Qed.

Lemma integer_number_ok z : Z.abs z < 10 ^ 15 -> number_ok (d_of_Z z).
Proof.
  intros Hz. split_and!; [apply d_of_Z_uint; lia|apply integer_castable; lia|]. destruct (decide (z = 0)) as [-> |Hz0]; [by left|].
  right. apply d_of_Z_normal. lia.
Qed.

(** A value whose nesting, times the indentation, is an [int]. *)
Definition shallow (indent : Z) (v : Value) : Prop := height v * Z.max 1 indent < 2 ^ 31.

Lemma json_readable_parse v indent : readable v -> shallow indent v ->
  exists text, dump indent v = Some text /\ parse text = Some (inl v).
Proof.
  intros Hv Hs. exists (written indent 0 v). split.
  { apply write_value_written; [by apply readable_castables|done|exact Hs]. }
  unfold parse. rewrite (parse_document_value _ _ v ""); [done|].
  rewrite <- (string_app_nil (written indent 0 v)) at 2. apply readable_reads_back; [done|by left|lia].
Qed.

(** ** Properties *)

(** C30: the JSON round trip.  A value is printed, compact or with any
    indentation, and read back as itself, when
    - its strings and keys contain no double quote (see [json_string_roundtrip]),
    - the keys of its objects are those of a [std::map],
    - its numbers are the zero without sign or normal doubles of the range of
      [std::int64_t]: a negative zero is printed ["0"], an inexact subnormal is
      printed but [std::stod] throws on it, and beyond that range the cast in
      the printer is undefined,
    - its nesting times the indentation is an [int]: the printer computes that
      product, and its overflow is undefined. *)
Theorem json_roundtrip (v : Value) (indent : Z) : readable v -> shallow indent v ->
  exists text, dump indent v = Some text /\ parse text = Some (inl v).
Proof. apply json_readable_parse. Qed.

Lemma value_example_readable : readable value_example.
Proof.
  assert (forall d, (0 <=? d) && (d <? 2 ^ 64) && castable d && (2 ^ 52 <=? d_mag d) = true -> number_ok d) as Hok.
  { intros d. rewrite !andb_true_iff, !Z.leb_le, Z.ltb_lt. intros [[[? ?] ?] ?]. unfold number_ok, uint. split_and!; [lia..|done|by right]. }
  repeat first [apply rd_number, Hok; by vm_compute|constructor; try done].
Defined.

Lemma json_roundtrip_witness : exists text, dump 2 value_example = Some text /\ parse text = Some (inl value_example).
Proof. apply (json_roundtrip value_example 2 value_example_readable). vm_compute. reflexivity. Defined.

(** Whatever the text is, the parser ends, with an exception or with a value
    that is well typed: its numbers are finite doubles and the keys of each
    object are distinct and in order. *)
Theorem json_parse_typed (text : string) :
  exists r, parse text = Some r /\ match r with inl v => value_wf v | inr _ => True end.
Proof.
  unfold parse. pose proof (parse_document_safe (S (2 * String.length text)) text ltac:(lia)) as H.
  destruct (parse_document _ text); [eauto..|done].
Qed.

(** a string is read back exactly when it contains no double quote: the
    printer escapes every other special character, but not the quote, and with
    one the document does not parse as this string. *)
Theorem json_string_roundtrip (s : string) (indent : Z) :
  (exists text, dump indent (Str s) = Some text /\ parse text = Some (inl (Str s))) <-> no_quote s.
Proof.
  split; [|intros Hs; apply json_readable_parse; [by constructor|unfold shallow; cbn [height]; lia]].
  intros (text & Et & H). injection Et as <-.
  destruct (no_quote_or_split s) as [|(a & b & E & Ha)]; [done|]. exfalso.
  unfold parse in H. rewrite (parse_document_value _ _ (Str a) (escape_all b +:+ String quote "")) in H.
  - pose proof (drop_ws_quote (escape_all b) "") as Hd. by destruct (drop_ws _).
  - unfold write_escaped. rewrite E, parse_value_quote. unfold parse_string, pbind, take.
    rewrite escape_all_app. cbn [escape_all]. rewrite !string_app_assoc.
    change (escape quote +:+ ?r) with (String quote r). rewrite escape_all_loop; [done..|].
    rewrite length_append. pose proof (escape_all_length a). lia.
Qed.

(** integers up to fifteen digits lose nothing: they are printed as plain
    decimals, without point or exponent, and read back as the same double. *)
Theorem json_integers_exact (z indent : Z) :
  Z.abs z < 10 ^ 15 ->
  dump indent (Number (d_of_Z z)) = Some (lld z) /\ parse (lld z) = Some (inl (Number (d_of_Z z))) /\ d_trunc (d_of_Z z) = z.
Proof.
  intros Hz. pose proof (integer_number_ok z Hz) as Hok.
  assert (number_chars (d_of_Z z) = lld z) as E by (unfold number_chars; by rewrite exact_integer_of_Z, d_trunc_of_Z by lia).
  destruct (json_readable_parse (Number (d_of_Z z)) indent) as (t & Ht & Hp).
  { by constructor. } { unfold shallow. cbn [height]. lia. }
  assert (t = lld z) as ->. { unfold dump in Ht. cbn [write_value] in Ht. unfold number_text in Ht. rewrite (proj1 (proj2 Hok)) in Ht. congruence. }
  split_and!; [exact Ht|exact Hp|apply d_trunc_of_Z; lia].
Qed.

Lemma json_integers_exact_witness : dump 2 (Number (d_of_Z (-42))) = Some "-42" /\
  parse "-42" = Some (inl (Number (d_of_Z (-42)))).
Proof.
  assert (lld (-42) = "-42") as E by (vm_compute; reflexivity).
  destruct (json_integers_exact (-42) 2) as (H1 & H2 & _); [lia|]. rewrite E in H1, H2. split; [exact H1|exact H2].
Defined.
