(* ===== verification/Hash.v ===== *)
(** * detail/hash.hpp: CRC-32 and SHA-256

    Definitions of [crc32] (table driven) and of the class [Sha256] (streaming
    buffer, padding, compression) as written, the bitwise reference for the
    CRC and the block-wise specification of the hash. *)

From Stdlib Require Import ZArith Lia String.
From stdpp Require Import base list numbers.
From S2P Require Import Prelude.
Local Open Scope Z_scope.
Local Open Scope warmth_scope.

(** ** crc32 *)

(** One round of the inner loop of the table construction. *)
Definition crc_round (c : Z) : Z :=
  if Z.land c 1 =? 1 then Z.lxor 0xEDB88320 (Z.shiftr c 1) else Z.shiftr c 1.

Definition crc_table_entry (i : Z) : Z := Nat.iter 8 crc_round i.

Definition crc_table : list Z := Eval vm_compute in map (fun i => crc_table_entry (Z.of_nat i)) (seq 0 256).

Definition crc_update (c p : Z) : Z :=
  Z.lxor (nth (Z.to_nat (Z.land (Z.lxor c p) 0xFF)) crc_table 0) (Z.shiftr c 8).

Definition crc32_seed (data : bytes) (seed : Z) : Z :=
  Z.lxor (fold_left crc_update data seed) 0xFFFFFFFF.

Definition crc32 (data : bytes) : Z := crc32_seed data 0xFFFFFFFF.

(** The reference: eight shift-register rounds per byte, no table. *)
Definition crc_byte_ref (c p : Z) : Z := Nat.iter 8 crc_round (Z.lxor c p).
Definition crc32_ref (data : bytes) : Z :=
  Z.lxor (fold_left crc_byte_ref data 0xFFFFFFFF) 0xFFFFFFFF.

(** ** SHA-256 *)
Module Sha256.

(** [buf] is the filled prefix [buf_[0 .. bufLen_)]. *)
Record t := mk { state : list Z; total : Z; buf : bytes }.

Definition bufLen (h : t) : nat := length h.(buf).

Definition H0 : list Z :=
  [0x6a09e667; 0xbb67ae85; 0x3c6ef372; 0xa54ff53a;
   0x510e527f; 0x9b05688c; 0x1f83d9ab; 0x5be0cd19].

Definition reset : t := mk H0 0 [].

Definition K : list Z :=
  [0x428a2f98; 0x71374491; 0xb5c0fbcf; 0xe9b5dba5; 0x3956c25b] ++
  [0x59f111f1; 0x923f82a4; 0xab1c5ed5; 0xd807aa98; 0x12835b01] ++
  [0x243185be; 0x550c7dc3; 0x72be5d74; 0x80deb1fe; 0x9bdc06a7] ++
  [0xc19bf174; 0xe49b69c1; 0xefbe4786; 0x0fc19dc6; 0x240ca1cc] ++
  [0x2de92c6f; 0x4a7484aa; 0x5cb0a9dc; 0x76f988da; 0x983e5152] ++
  [0xa831c66d; 0xb00327c8; 0xbf597fc7; 0xc6e00bf3; 0xd5a79147] ++
  [0x06ca6351; 0x14292967; 0x27b70a85; 0x2e1b2138; 0x4d2c6dfc] ++
  [0x53380d13; 0x650a7354; 0x766a0abb; 0x81c2c92e; 0x92722c85] ++
  [0xa2bfe8a1; 0xa81a664b; 0xc24b8b70; 0xc76c51a3; 0xd192e819] ++
  [0xd6990624; 0xf40e3585; 0x106aa070; 0x19a4c116; 0x1e376c08] ++
  [0x2748774c; 0x34b0bcb5; 0x391c0cb3; 0x4ed8aa4a; 0x5b9cca4f] ++
  [0x682e6ff3; 0x748f82ee; 0x78a5636f; 0x84c87814; 0x8cc70208] ++
  [0x90befffa; 0xa4506ceb; 0xbef9a3f7; 0xc67178f2].

Definition rotr (x n : Z) : Z := Z.lor (Z.shiftr x n) (u32 (Z.shiftl x (32 - n))).

(** The message schedule [w], built left to right. *)
Definition schedule_word (p : bytes) (i : nat) : Z :=
  Z.lor (Z.lor (Z.lor (Z.shiftl (nth (i * 4) p 0) 24) (Z.shiftl (nth (i * 4 + 1) p 0) 16))
               (Z.shiftl (nth (i * 4 + 2) p 0) 8)) (nth (i * 4 + 3) p 0).

Definition schedule_next (w : list Z) (i : nat) : list Z :=
  let w15 := nth (i - 15) w 0 in
  let w2 := nth (i - 2) w 0 in
  let s0 := Z.lxor (Z.lxor (rotr w15 7) (rotr w15 18)) (Z.shiftr w15 3) in
  let s1 := Z.lxor (Z.lxor (rotr w2 17) (rotr w2 19)) (Z.shiftr w2 10) in
  w ++ [u32 (nth (i - 16) w 0 + s0 + nth (i - 7) w 0 + s1)].

Definition schedule (p : bytes) : list Z :=
  fold_left schedule_next (seq 16 48) (map (schedule_word p) (seq 0 16)).

(** One of the 64 rounds on the working variables [a .. h]. *)
Definition round (w : list Z) (v : list Z) (i : nat) : list Z :=
  match v with
  | [a; b; c; d; e; f; g; h] =>
      let s1 := Z.lxor (Z.lxor (rotr e 6) (rotr e 11)) (rotr e 25) in
      let ch := Z.lxor (Z.land e f) (Z.land (Z.lnot e) g) in
      let t1 := u32 (h + s1 + ch + nth i K 0 + nth i w 0) in
      let s0 := Z.lxor (Z.lxor (rotr a 2) (rotr a 13)) (rotr a 22) in
      let maj := Z.lxor (Z.lxor (Z.land a b) (Z.land a c)) (Z.land b c) in
      let t2 := u32 (s0 + maj) in
      [u32 (t1 + t2); a; b; c; u32 (d + t1); e; f; g]
  | _ => v
  end.

(** [transform(p, 1)]: one block. *)
Definition transform (st : list Z) (p : bytes) : list Z :=
  let w := schedule p in
  zip_with (fun x y => u32 (x + y)) st (fold_left (round w) (seq 0 64) st).

(** [update]: fill the buffer, compress whenever it is full.  Each turn of the
    loop consumes [n >= 1] bytes, so [length data] turns suffice. *)
Definition fill_size (bufLen len : nat) : nat :=
  if decide (len < 64 - bufLen)%nat then len else (64 - bufLen)%nat.

Fixpoint update_loop (fuel : nat) (st : list Z) (buf data : bytes) : list Z * bytes :=
  match fuel with
  | O => (st, buf)
  | S fuel =>
      match data with
      | [] => (st, buf)
      | _ =>
          let n := fill_size (length buf) (length data) in
          let buf' := buf ++ take n data in
          let data' := drop n data in
          if decide (length buf' = 64%nat) then update_loop fuel (transform st buf') [] data'
          else update_loop fuel st buf' data'
      end
  end.

Definition update (h : t) (data : bytes) : t :=
  let r := update_loop (length data) h.(state) h.(buf) data in
  mk r.1 (u64 (h.(total) + Z.of_nat (length data))) r.2.

(** [while (bufLen_ != 56) update(&zero, 1);] *)
Fixpoint pad_zeros (fuel : nat) (h : t) : t :=
  match fuel with
  | O => h
  | S fuel => if decide (bufLen h = 56%nat) then h else pad_zeros fuel (update h [0])
  end.

Definition be64 (x : Z) : bytes := map (fun i => u8 (Z.shiftr x (56 - Z.of_nat i * 8))) (seq 0 8).
Definition be32 (x : Z) : bytes := [u8 (Z.shiftr x 24); u8 (Z.shiftr x 16); u8 (Z.shiftr x 8); u8 x].

Definition finish (h : t) : bytes :=
  let bitLen := u64 (u64 h.(total) * 8) in
  let h := update h [0x80] in
  let h := pad_zeros 64 h in
  let h := update h (be64 bitLen) in
  concat (map be32 h.(state)).

Definition digest (data : bytes) : bytes := finish (update reset data).

(** ** The block-wise specification (FIPS 180-4) *)
Fixpoint blocks (n : nat) (m : bytes) : list bytes :=
  match n with O => [] | S n => take 64 m :: blocks n (drop 64 m) end.

Definition padding (len : nat) : bytes :=
  [0x80] ++ replicate ((119 - len mod 64) mod 64) 0 ++ be64 (u64 (Z.of_nat len * 8)).

Definition spec (m : bytes) : bytes :=
  let pm := m ++ padding (length m) in
  concat (map be32 (fold_left transform (blocks (length pm / 64) pm) H0)).

End Sha256.

(** The first 16 bytes of the SHA-256 digest. *)
Definition digest16 (data : bytes) : bytes := take 16 (Sha256.digest data).

Example crc32_check : crc32 (string_bytes "123456789"%string) = 0xCBF43926.
Proof. vm_compute. reflexivity. Qed.
Example sha256_abc : take 4 (Sha256.digest (string_bytes "abc"%string)) = [0xba; 0x78; 0x16; 0xbf].
Proof. vm_compute. reflexivity. Qed.
Example sha256_abc_spec : Sha256.digest (string_bytes "abc"%string) = Sha256.spec (string_bytes "abc"%string).
Proof. vm_compute. reflexivity. Qed.

(** ** CRC-32: lemmas *)

Lemma crc_round_alt c :
  crc_round c = Z.lxor (if Z.testbit c 0 then 0xEDB88320 else 0) (Z.shiftr c 1).
Proof.
  unfold crc_round. change 1 with (Z.ones 1) at 1. rewrite Z.land_ones by lia.
  change (2 ^ 1) with 2. rewrite Zmod_odd, Z.bit0_odd. destruct (Z.odd c); [done|].
  cbn. by destruct (Z.shiftr c 1).
Qed.

Lemma crc_round_lxor x y : crc_round (Z.lxor x y) = Z.lxor (crc_round x) (crc_round y).
Proof.
  rewrite !crc_round_alt, Z.lxor_spec, Z.shiftr_lxor.
  set (P := 0xEDB88320). apply Z.bits_inj'. intros i Hi. rewrite !Z.lxor_spec.
  destruct (Z.testbit x 0), (Z.testbit y 0); cbn [xorb]; rewrite ?Z.bits_0;
    destruct (Z.testbit P i), (Z.testbit (Z.shiftr x 1) i), (Z.testbit (Z.shiftr y 1) i); done.
Qed.

Lemma crc_round_uint c : uint 32 c -> uint 32 (crc_round c).
Proof.
  intros Hc. rewrite crc_round_alt. apply lxor_uint; [lia| |].
  - destruct (Z.testbit c 0); done.
  - apply shiftr_uint; [lia..|]. by apply (uint_le 32).
Qed.

(** Bit 31 of the result tells which branch was taken, so a round loses nothing. *)
Lemma crc_round_inj x y : uint 32 x -> uint 32 y -> crc_round x = crc_round y -> x = y.
Proof.
  intros [_ Bx]%uint_bits [_ By]%uint_bits; [|lia..]. rewrite !crc_round_alt. intros He.
  assert (Z.testbit x 0 = Z.testbit y 0) as H0.
  { apply (f_equal (fun z => Z.testbit z 31)) in He. rewrite !Z.lxor_spec, !Z.shiftr_spec in He by lia.
    rewrite (Bx (31 + 1)), (By (31 + 1)), !xorb_false_r in He by lia.
    destruct (Z.testbit x 0), (Z.testbit y 0); done. }
  rewrite H0 in He. apply (f_equal (Z.lxor (if Z.testbit y 0 then 0xEDB88320 else 0))) in He.
  rewrite <- !Z.lxor_assoc, !Z.lxor_nilpotent, !Z.lxor_0_l in He.
  apply Z.bits_inj'. intros i Hi. destruct (decide (i = 0)) as [->|Hne]; [done|].
  apply (f_equal (fun z => Z.testbit z (i - 1))) in He. rewrite !Z.shiftr_spec in He by lia.
  by replace (i - 1 + 1) with i in He by lia.
Qed.

Lemma crc_rounds_lxor n x y :
  Nat.iter n crc_round (Z.lxor x y) = Z.lxor (Nat.iter n crc_round x) (Nat.iter n crc_round y).
Proof. induction n as [|n IH]; [done|]. by rewrite !Nat.iter_succ, IH, crc_round_lxor. Qed.

Lemma crc_rounds_uint n c : uint 32 c -> uint 32 (Nat.iter n crc_round c).
Proof. intros. induction n; [done|]. rewrite Nat.iter_succ. by apply crc_round_uint. Qed.

Lemma crc_rounds_inj n x y :
  uint 32 x -> uint 32 y -> Nat.iter n crc_round x = Nat.iter n crc_round y -> x = y.
Proof.
  intros Hx Hy. induction n as [|n IH]; [done|]. rewrite !Nat.iter_succ. intros He.
  apply IH. apply crc_round_inj; [by apply crc_rounds_uint..|done].
Qed.

Lemma crc_rounds_shiftl n y : Nat.iter n crc_round (Z.shiftl y (Z.of_nat n)) = y.
Proof.
  induction n as [|n IH]; [apply Z.shiftl_0_r|].
  rewrite Nat.iter_succ_r. rewrite <- IH at 2. f_equal. rewrite crc_round_alt.
  rewrite Z.shiftl_spec_low, Z.lxor_0_l by lia. rewrite Z.shiftr_shiftl_l by lia. f_equal. lia.
Qed.

Lemma crc_byte_shiftl y : Nat.iter 8 crc_round (Z.shiftl y 8) = y.
Proof. exact (crc_rounds_shiftl 8 y). Qed.

Lemma crc_table_nth i : uint 8 i -> nth (Z.to_nat i) crc_table 0 = crc_table_entry i.
Proof.
  intros Hi. unfold uint in Hi. change (2 ^ 8) with 256 in Hi.
  transitivity (nth (Z.to_nat i) (map (fun i => crc_table_entry (Z.of_nat i)) (seq 0 256)) (crc_table_entry (Z.of_nat 0))).
  - f_equal.
  - rewrite (map_nth (fun i => crc_table_entry (Z.of_nat i))), seq_nth by lia. f_equal. lia.
Qed.

(** The table step is the bitwise step. *)
Lemma crc_update_ref c p : uint 8 p -> crc_update c p = crc_byte_ref c p.
Proof.
  intros Hp. unfold crc_update, crc_byte_ref.
  set (x := Z.lxor c p). change 0xFF with (Z.ones 8). rewrite Z.land_ones by lia.
  rewrite crc_table_nth by (apply (wrap_uint 8); lia).
  replace (Z.shiftr c 8) with (Z.shiftr x 8).
  - assert (x = Z.lxor (x mod 2 ^ 8) (Z.shiftl (Z.shiftr x 8) 8)) as Hx.
    { rewrite <- Z.ldiff_ones_r, <- Z.land_ones by lia. apply Z.bits_inj'. intros i Hi.
      rewrite Z.lxor_spec, Z.land_spec, Z.ldiff_spec.
      by destruct (Z.testbit x i), (Z.testbit (Z.ones 8) i). }
    rewrite Hx at 3. rewrite crc_rounds_lxor, crc_byte_shiftl. done.
  - unfold x. rewrite Z.shiftr_lxor. replace (Z.shiftr p 8) with 0; [apply Z.lxor_0_r|].
    rewrite Z.shiftr_div_pow2 by lia. symmetry. apply Z.div_small. exact Hp.
Qed.

Lemma crc_byte_ref_uint c p : uint 32 c -> uint 8 p -> uint 32 (crc_byte_ref c p).
Proof. intros. apply crc_rounds_uint, lxor_uint; [lia|done|]. by apply (uint_le 8). Qed.

Lemma crc_fold_uint data c : uint 32 c -> bytes_ok data -> uint 32 (fold_left crc_byte_ref data c).
Proof.
  intros Hc Hd. revert c Hc. induction Hd; intros c Hc; cbn; [done|].
  apply IHHd. by apply crc_byte_ref_uint.
Qed.

Lemma crc_fold_ref data c : bytes_ok data -> fold_left crc_update data c = fold_left crc_byte_ref data c.
Proof. intros Hd. revert c. induction Hd; intros c; cbn; [done|]. by rewrite crc_update_ref. Qed.

Lemma crc32_uint data : bytes_ok data -> uint 32 (crc32 data).
Proof.
  intros Hd. unfold crc32, crc32_seed. apply lxor_uint; [lia| |done].
  rewrite crc_fold_ref by done. by apply crc_fold_uint.
Qed.

(** A run of bytes acts as one word: little-endian packing. *)
Fixpoint le_pack (l : bytes) : Z :=
  match l with [] => 0 | b :: l => Z.lxor b (Z.shiftl (le_pack l) 8) end.

Lemma crc_fold_pack l c :
  fold_left crc_byte_ref l c = Nat.iter (8 * length l) crc_round (Z.lxor c (le_pack l)).
Proof.
  revert c. induction l as [|b l IH]; intros c; cbn [fold_left le_pack length].
  - by rewrite Z.lxor_0_r.
  - rewrite IH. replace (8 * S (length l))%nat with (8 * length l + 8)%nat by lia.
    rewrite Nat.iter_add. unfold crc_byte_ref.
    by rewrite <- Z.lxor_assoc, (crc_rounds_lxor 8 (Z.lxor c b)), crc_byte_shiftl.
Qed.

Lemma le_pack_uint l : bytes_ok l -> uint (8 * Z.of_nat (length l)) (le_pack l).
Proof.
  induction 1 as [|b l Hb Hl IH]; [done|]. cbn [le_pack length]. apply lxor_uint; [lia| |].
  - apply (uint_le 8); [lia|done].
  - apply uint_bits in IH as [H0 IH]; [|lia]. apply uint_bits; [lia|].
    split; [by apply Z.shiftl_nonneg|]. intros i Hi. rewrite Z.shiftl_spec by lia. apply IH. lia.
Qed.

Lemma le_pack_inj l l' :
  bytes_ok l -> bytes_ok l' -> length l = length l' -> le_pack l = le_pack l' -> l = l'.
Proof.
  intros Hl. revert l'. induction Hl as [|b l Hb Hl IH]; intros [|b' l'] Hl' Hlen; try done.
  cbn [le_pack]. intros He. inversion_clear Hl' as [|? ? Hb' Hl''].
  assert (forall c x, uint 8 c -> (Z.lxor c (Z.shiftl x 8)) mod 2 ^ 8 = c /\
                      Z.shiftr (Z.lxor c (Z.shiftl x 8)) 8 = x) as Hparts.
  { intros c x Hc8. pose proof (proj2 (proj1 (uint_bits 8 c ltac:(lia)) Hc8)) as Hc. split.
    - apply Z.bits_inj'. intros i Hi. destruct (decide (i < 8)).
      + rewrite Z.mod_pow2_bits_low, Z.lxor_spec, Z.shiftl_spec_low, xorb_false_r by lia. done.
      + rewrite Z.mod_pow2_bits_high, Hc by lia. done.
    - apply Z.bits_inj'. intros i Hi. rewrite Z.shiftr_spec, Z.lxor_spec, Z.shiftl_spec, Hc by lia.
      rewrite xorb_false_l. f_equal. lia. }
  destruct (Hparts b (le_pack l) Hb) as [E1 E2], (Hparts b' (le_pack l') Hb') as [E1' E2'].
  rewrite He in E1, E2. rewrite E1 in E1'. rewrite E2 in E2'. subst b'.
  f_equal. apply IH; [done|by inversion Hlen|done].
Qed.

Lemma lxor_cancel_r x y p : Z.lxor x p = Z.lxor y p -> x = y.
Proof.
  intros He. apply (f_equal (fun z => Z.lxor z p)) in He.
  by rewrite !Z.lxor_assoc, Z.lxor_nilpotent, !Z.lxor_0_r in He.
Qed.

Lemma crc_fold_inj data c c' : bytes_ok data -> uint 32 c -> uint 32 c' ->
  fold_left crc_byte_ref data c = fold_left crc_byte_ref data c' -> c = c'.
Proof.
  intros Hd. revert c c'. induction Hd as [|p data Hp Hd IH]; intros c c' Hc Hc' He; [done|].
  cbn [fold_left] in He. apply IH in He; [|by apply crc_byte_ref_uint..].
  apply (crc_rounds_inj 8) in He; [|apply lxor_uint; [lia|done|by apply (uint_le 8)]..].
  by apply lxor_cancel_r in He.
Qed.

(** An error burst of at most four consecutive bytes always changes the CRC. *)
Lemma crc32_burst pre x y post :
  bytes_ok pre -> bytes_ok x -> bytes_ok y -> bytes_ok post ->
  length x = length y -> (length x <= 4)%nat ->
  crc32 (pre ++ x ++ post) = crc32 (pre ++ y ++ post) -> x = y.
Proof.
  intros Hpre Hx Hy Hpost Hlen H4 He. unfold crc32, crc32_seed in He.
  apply lxor_cancel_r in He.
  rewrite !crc_fold_ref, !fold_left_app in He by (rewrite !Forall_app; done).
  set (c := fold_left crc_byte_ref pre 0xFFFFFFFF) in *.
  assert (uint 32 c) as Hc by by apply crc_fold_uint.
  apply crc_fold_inj in He; [|done|by apply crc_fold_uint..].
  rewrite !crc_fold_pack, <- Hlen in He.
  assert (forall l, bytes_ok l -> length l = length x -> uint 32 (Z.lxor c (le_pack l))) as Hu.
  { intros l Hl El. apply lxor_uint; [lia|done|].
    apply (uint_le (8 * Z.of_nat (length l))); [lia|]. by apply le_pack_uint. }
  apply crc_rounds_inj in He; [|by apply Hu..].
  rewrite !(Z.lxor_comm c) in He. apply lxor_cancel_r in He. by apply le_pack_inj.
Qed.

(** ** SHA-256: the streaming update is the byte-wise absorption *)
Section sha.
Import Sha256.
#[local] Opaque transform.

Definition push (s : list Z * bytes) (b : Z) : list Z * bytes :=
  let buf := s.2 ++ [b] in
  if decide (length buf = 64%nat) then (transform s.1 buf, []) else (s.1, buf).

Definition absorb (s : list Z * bytes) (data : bytes) : list Z * bytes := fold_left push data s.

Lemma absorb_app s a b : absorb s (a ++ b) = absorb (absorb s a) b.
Proof. apply fold_left_app. Qed.

Lemma absorb_fill st buf data :
  (length buf + length data <= 64)%nat -> (length buf < 64)%nat ->
  absorb (st, buf) data =
    if decide (length (buf ++ data) = 64%nat) then (transform st (buf ++ data), []) else (st, buf ++ data).
Proof.
  revert buf. induction data as [|b data IH]; intros buf Hlen Hbuf.
  - rewrite app_nil_r. rewrite decide_False by lia. done.
  - cbn [absorb fold_left]. unfold push at 2. cbn [fst snd length] in *.
    destruct (decide (length (buf ++ [b]) = 64%nat)) as [H64|H64]; rewrite length_app in H64; cbn in H64.
    + assert (data = []) as -> by (destruct data; [done|cbn in Hlen; lia]).
      rewrite decide_True by (rewrite length_app; cbn; lia). done.
    + fold (absorb (st, buf ++ [b]) data). rewrite IH by (rewrite length_app; cbn; lia).
      by rewrite <- app_assoc.
Qed.

Lemma update_loop_absorb fuel st buf data :
  (length buf < 64)%nat -> (length data <= fuel)%nat ->
  update_loop fuel st buf data = absorb (st, buf) data.
Proof.
  revert st buf data. induction fuel as [|fuel IH]; intros st buf data Hbuf Hf.
  - by destruct data; [|cbn in Hf; lia].
  - cbn [update_loop]. destruct data as [|b data]; [done|].
    set (n := fill_size (length buf) (length (b :: data))).
    assert (0 < n <= 64 - length buf /\ n <= length (b :: data))%nat as Hn.
    { unfold n, fill_size. destruct (decide _); cbn [length] in *; lia. }
    transitivity (absorb (st, buf) (take n (b :: data) ++ drop n (b :: data))); [|by rewrite take_drop].
    rewrite absorb_app.
    assert (length (take n (b :: data)) = n) as Ht by (rewrite length_take; lia).
    rewrite (absorb_fill st buf) by lia.
    assert (length (buf ++ take n (b :: data)) = (length buf + n)%nat) as Hl by (rewrite length_app; lia).
    assert (length (drop n (b :: data)) <= fuel)%nat by (rewrite length_drop; cbn [length] in *; lia).
    destruct (decide _); apply IH; cbn [length]; lia.
Qed.

Lemma push_buf_len s b : (length s.2 < 64)%nat ->
  length (push s b).2 = ((length s.2 + 1) mod 64)%nat.
Proof.
  intros Hs. unfold push. destruct (decide _) as [He|Hne]; rewrite length_app in *; cbn [length fst snd] in *.
  - by rewrite He.
  - rewrite length_app, Nat.mod_small; cbn [length]; lia.
Qed.

Lemma absorb_buf_mod s data : (length s.2 < 64)%nat ->
  length (absorb s data).2 = ((length s.2 + length data) mod 64)%nat.
Proof.
  revert s. induction data as [|b data IH]; intros s Hs; cbn [absorb fold_left].
  - rewrite Nat.add_0_r, Nat.mod_small; done.
  - fold (absorb (push s b) data). rewrite IH; rewrite push_buf_len by done.
    + rewrite Nat.Div0.add_mod_idemp_l. f_equal. cbn [length]. lia.
    + apply Nat.mod_upper_bound. lia.
Qed.

Lemma absorb_blocks n st m :
  length m = (64 * n)%nat -> absorb (st, []) m = (fold_left transform (blocks n m) st, []).
Proof.
  revert st m. induction n as [|n IH]; intros st m Hm.
  - by destruct m; [|cbn in Hm; lia].
  - rewrite <- (take_drop 64 m) at 1. rewrite absorb_app.
    rewrite absorb_fill by (cbn [length]; rewrite ?length_take; lia).
    rewrite decide_True by (cbn [app]; rewrite length_take; lia).
    rewrite IH by (rewrite length_drop; lia). done.
Qed.

(** The state, buffer and byte counter after any sequence of updates. *)
Lemma update_absorb h data : (bufLen h < 64)%nat ->
  ((update h data).(state), (update h data).(buf)) = absorb (h.(state), h.(buf)) data.
Proof.
  intros Hb. unfold update. cbn [state buf].
  rewrite <- (update_loop_absorb (length data)) by (unfold bufLen in Hb; lia).
  by destruct (update_loop _ _ _ _).
Qed.

Lemma update_bufLen h data : (bufLen h < 64)%nat ->
  bufLen (update h data) = ((bufLen h + length data) mod 64)%nat.
Proof.
  intros Hb. unfold bufLen in *. pose proof (update_absorb h data Hb) as He.
  apply (f_equal snd) in He. cbn [snd] in He. rewrite He. by rewrite absorb_buf_mod.
Qed.

Lemma updates_absorb chunks h : (bufLen h < 64)%nat ->
  let h' := fold_left update chunks h in
  (h'.(state), h'.(buf)) = absorb (h.(state), h.(buf)) (concat chunks) /\
  (bufLen h' < 64)%nat /\
  wrap 64 h'.(total) = wrap 64 (h.(total) + Z.of_nat (length (concat chunks))).
Proof.
  revert h. induction chunks as [|c chunks IH]; intros h Hb; cbn [fold_left concat].
  - split_and!; [done|done|]. cbn [length]. f_equal. lia.
  - assert (bufLen (update h c) < 64)%nat as Hb'.
    { rewrite update_bufLen by done. apply Nat.mod_upper_bound. lia. }
    destruct (IH (update h c) Hb') as (E & Hlt & Ht). cbn zeta. split_and!; [|done|].
    + rewrite E, absorb_app. f_equal. by apply update_absorb.
    + rewrite Ht. unfold update. cbn [total]. unfold wrap. rewrite length_app, Nat2Z.inj_add.
      rewrite Zplus_mod_idemp_l. f_equal. lia.
Qed.

(** The padding loop stops, having absorbed [(56 - bufLen) mod 64] zeros. *)
Lemma pad_zeros_absorb fuel h : (bufLen h < 64)%nat ->
  ((120 - bufLen h) mod 64 < fuel)%nat ->
  let h' := pad_zeros fuel h in
  (h'.(state), h'.(buf)) = absorb (h.(state), h.(buf)) (replicate ((120 - bufLen h) mod 64) 0) /\
  bufLen h' = 56%nat.
Proof.
  revert h. induction fuel as [|fuel IH]; intros h Hb Hf; [lia|]. cbn [pad_zeros].
  destruct (decide (bufLen h = 56%nat)) as [He|Hne].
  - rewrite He. done.
  - assert (bufLen (update h [0%Z]) = (bufLen h + 1) mod 64)%nat as Hu by by apply update_bufLen.
    assert ((120 - bufLen h) mod 64 = S ((120 - bufLen (update h [0%Z])) mod 64))%nat as Hs.
    { rewrite Hu. destruct (decide (bufLen h = 63%nat)) as [->|]; [done|].
      rewrite (Nat.mod_small (bufLen h + 1)) by lia.
      destruct (decide (bufLen h < 56)%nat).
      - replace (120 - bufLen h)%nat with (56 - bufLen h + 1 * 64)%nat by lia.
        replace (120 - (bufLen h + 1))%nat with (55 - bufLen h + 1 * 64)%nat by lia.
        rewrite !Nat.Div0.mod_add, !Nat.mod_small by lia. lia.
      - rewrite !Nat.mod_small by lia. lia. }
    destruct (IH (update h [0%Z])) as [E1 E2]; [rewrite Hu; apply Nat.mod_upper_bound; lia|lia|].
    cbn zeta in *. split; [|done]. rewrite E1, Hs. cbn [replicate].
    change (0 :: ?l) with ([0%Z] ++ l). rewrite absorb_app. f_equal. by apply update_absorb.
Qed.

Lemma absorbed_bufLen h m : (h.(state), h.(buf)) = absorb (H0, []) m ->
  bufLen h = (length m mod 64)%nat.
Proof.
  intros Hm. apply (f_equal snd) in Hm. unfold bufLen. change (buf h) with (state h, buf h).2.
  rewrite Hm, absorb_buf_mod by (cbn [snd length]; lia). done.
Qed.

Lemma absorbed_state h m : (h.(state), h.(buf)) = absorb (H0, []) m ->
  bufLen h = 0%nat -> h.(state) = fold_left transform (blocks (length m / 64) m) H0.
Proof.
  intros Hm H0b. rewrite (absorbed_bufLen h m Hm) in H0b.
  assert (length m = 64 * (length m / 64))%nat as Hlen.
  { rewrite (Nat.div_mod_eq (length m) 64) at 1. lia. }
  rewrite (absorb_blocks _ _ _ Hlen) in Hm. by inversion Hm.
Qed.

(** The number of zeros the padding loop adds, from the message length. *)
Lemma zeros_count r : (r < 64)%nat -> ((120 - (r + 1) mod 64) mod 64 = (119 - r) mod 64)%nat.
Proof.
  intros Hr. destruct (decide (r = 63%nat)) as [->|]; [done|].
  rewrite (Nat.mod_small (r + 1)) by lia. f_equal. lia.
Qed.

Lemma finish_absorbed h lenb : (bufLen h < 64)%nat -> length lenb = 8%nat ->
  let h' := update (pad_zeros 64 (update h [0x80%Z])) lenb in
  (h'.(state), h'.(buf)) = absorb (h.(state), h.(buf))
     ([0x80%Z] ++ replicate ((119 - bufLen h) mod 64) 0%Z ++ lenb) /\ bufLen h' = 0%nat.
Proof.
  intros Hb Hl. set (h1 := update h [0x80]).
  assert (bufLen h1 = (bufLen h + 1) mod 64)%nat as Hb1 by by apply update_bufLen.
  destruct (pad_zeros_absorb 64 h1) as [E2 Hb2].
  { rewrite Hb1. apply Nat.mod_upper_bound. lia. }
  { apply Nat.mod_upper_bound. lia. }
  cbn zeta. split.
  - rewrite update_absorb by lia. rewrite E2, Hb1, zeros_count by done. unfold h1.
    rewrite update_absorb by done. by rewrite <- !absorb_app, app_assoc.
  - rewrite update_bufLen, Hb2, Hl by lia. done.
Qed.

Lemma finish_spec h m : (bufLen h < 64)%nat ->
  (h.(state), h.(buf)) = absorb (H0, []) m -> wrap 64 h.(total) = wrap 64 (Z.of_nat (length m)) ->
  finish h = spec m.
Proof.
  intros Hb Hm Ht. unfold finish, spec. cbn zeta.
  assert (wrap 64 (wrap 64 (total h) * 8) = wrap 64 (Z.of_nat (length m) * 8)) as ->.
  { rewrite Ht. unfold wrap. by rewrite Zmult_mod_idemp_l. }
  destruct (finish_absorbed h (be64 (wrap 64 (Z.of_nat (length m) * 8))) Hb) as [E Hb0]; [done|].
  cbn zeta in E, Hb0. rewrite Hm, <- absorb_app, (absorbed_bufLen h m Hm) in E.
  by rewrite (absorbed_state _ _ E Hb0).
Qed.

Lemma round_length w v i : length v = 8%nat -> length (round w v i) = 8%nat.
Proof. by destruct v as [|? [|? [|? [|? [|? [|? [|? [|? [|]]]]]]]]]. Qed.

Lemma rounds_length w l v : length v = 8%nat -> length (fold_left (round w) l v) = 8%nat.
Proof. revert v. induction l as [|i l IH]; intros v Hv; [done|]. cbn. by apply IH, round_length. Qed.

#[local] Transparent transform.
Lemma transform_length st p : length st = 8%nat -> length (transform st p) = 8%nat.
Proof.
  intros Hst. unfold transform. cbn zeta.
  by rewrite length_zip_with, (rounds_length _ _ st), Hst.
Qed.
#[local] Opaque transform.

Lemma digest_is_spec m : digest m = spec m.
Proof.
  unfold digest. apply finish_spec.
  - rewrite update_bufLen by (cbn; lia). apply Nat.mod_upper_bound. lia.
  - apply update_absorb. cbn. lia.
  - cbn [update total reset]. apply wrap_wrap.
Qed.

Lemma digest_shape m : bytes_ok (digest m) /\ length (digest m) = 32%nat.
Proof.
  rewrite digest_is_spec. unfold spec. cbn zeta. set (bs := blocks _ _).
  assert (forall st, length st = 8%nat -> length (fold_left transform bs st) = 8%nat) as Hlen.
  { induction bs as [|b bs IH]; intros st Hst; [done|]. cbn. by apply IH, transform_length. }
  specialize (Hlen H0 eq_refl). revert Hlen. generalize (fold_left transform bs H0). intros st Hst.
  assert (forall l : list Z, bytes_ok (concat (map be32 l)) /\ length (concat (map be32 l)) = (4 * length l)%nat) as Hc.
  { intros l. induction l as [|x l [IH1 IH2]]; [by split|]. cbn [map concat]. split.
    - apply Forall_app. split; [|done]. unfold be32. repeat constructor; apply wrap_uint; lia.
    - rewrite length_app, IH2. cbn [be32 length]. lia. }
  destruct (Hc st) as [H1 H2]. split; [done|]. by rewrite H2, Hst.
Qed.

End sha.

Lemma digest16_shape m : bytes_ok (digest16 m) /\ length (digest16 m) = 16%nat.
Proof.
  unfold digest16. destruct (digest_shape m) as [H1 H2].
  split; [by apply Forall_take|]. rewrite length_take. lia.
Qed.

(** ** Properties *)

(** C38: the table-driven CRC-32 computes, on every byte sequence, the same
    value as the bitwise shift-register definition of the polynomial
    0xEDB88320. *)
Theorem crc32_is_bitwise (data : bytes) : bytes_ok data -> crc32 data = crc32_ref data.
Proof. intros Hd. unfold crc32, crc32_seed, crc32_ref. by rewrite crc_fold_ref. Qed.

Lemma crc32_is_bitwise_witness : crc32 [0x57; 0x46] = crc32_ref [0x57; 0x46].
Proof. apply (crc32_is_bitwise [0x57; 0x46]). by repeat constructor. Defined.

(** any corruption confined to four consecutive bytes (in particular any
    single corrupted byte) of a message changes its CRC-32, whatever
    surrounds it. *)
Theorem crc32_detects_burst (pre x y post : bytes) :
  bytes_ok pre -> bytes_ok x -> bytes_ok y -> bytes_ok post ->
  length x = length y -> (length x <= 4)%nat -> x <> y ->
  crc32 (pre ++ x ++ post) <> crc32 (pre ++ y ++ post).
Proof. intros ?????? Hne He. by apply Hne, (crc32_burst pre x y post). Qed.

Lemma crc32_detects_burst_witness :
  crc32 ([1; 2] ++ [3] ++ [4]) <> crc32 ([1; 2] ++ [9] ++ [4]).
Proof. apply (crc32_detects_burst [1; 2] [3] [9] [4]); by repeat constructor. Defined.

(** Feeding a message to [Sha256] in any pieces and finishing gives the
    block-wise hash of the whole message: buffering, padding and the length
    field are right for every split and every length. *)
Theorem sha256_streaming_spec (chunks : list bytes) :
  Sha256.finish (fold_left Sha256.update chunks Sha256.reset) = Sha256.spec (concat chunks).
Proof.
  destruct (updates_absorb chunks Sha256.reset) as (E & Hlt & Ht); [cbn; lia|].
  by apply finish_spec.
Qed.
