(* ===== verification/Identity.v ===== *)
(** * identity.hpp, identity.cpp: 128-bit identities and authority generations

    [Id128] with its byte and hexadecimal forms and its content derivation
    ([Id128::random] draws from the platform's entropy and is not modelled),
    and [BasicGeneration<Tag>], whose tag is a phantom parameter. *)

From Stdlib Require Import ZArith Lia Ascii String.
From stdpp Require Import base list numbers strings countable gmap fin_maps sorting.
From S2P Require Import Prelude Hash.
Local Open Scope Z_scope.
Local Open Scope warmth_scope.

(** ** Id128 *)
Record Id128 := mkId { hi_ : Z; lo_ : Z }.

#[export] Instance Id128_eq_dec : EqDecision Id128.
Proof. solve_decision. Defined.
#[export] Instance Id128_countable : Countable Id128.
Proof. apply (inj_countable' (fun i => (hi_ i, lo_ i)) (fun p => mkId p.1 p.2)). by intros []. Defined.
#[export] Instance Id128_inhabited : Inhabited Id128 := populate (mkId 0 0).

(** The value-initialised identity [Id128{}]. *)
Definition Id128_zero : Id128 := mkId 0 0.
Definition Id128_wf (i : Id128) : Prop := uint 64 (hi_ i) /\ uint 64 (lo_ i).

Definition is_valid (i : Id128) : bool := negb (hi_ i =? 0) || negb (lo_ i =? 0).

(** The defaulted [operator<=>]: member-wise, [hi_] first. *)
Definition id_lt (a b : Id128) : bool :=
  (hi_ a <? hi_ b) || ((hi_ a =? hi_ b) && (lo_ a <? lo_ b)).
Definition id_le (a b : Id128) : Prop := hi_ a < hi_ b \/ (hi_ a = hi_ b /\ lo_ a <= lo_ b).

#[export] Instance id_le_dec : RelDecision id_le.
Proof. intros a b. unfold id_le. apply _. Defined.

Definition to_bytes (i : Id128) : bytes := be_digits 8 8 (hi_ i) ++ be_digits 8 8 (lo_ i).

Definition from_bytes (b : bytes) : Id128 :=
  mkId (be_value 64 8 (take 8 b)) (be_value 64 8 (take 8 (drop 8 b))).

(** [random] on two outputs of the generator. *)
Definition random (hi lo : Z) : Id128 := mkId hi (if (hi =? 0) && (lo =? 0) then 1 else lo).

(** [hash_value], for unordered containers. *)
Definition hash_value (i : Id128) : Z :=
  let x := hi_ i in
  Z.lxor x (u64 (lo_ i + 0x9e3779b97f4a7c15 + u64 (Z.shiftl x 6) + Z.shiftr x 2)).

Definition derive (text : string) : Id128 := from_bytes (digest16 (string_bytes text)).

(** [snprintf("%.016llx%.016llx")]: sixteen lower-case digits for each half. *)
Definition hex_digit (d : Z) : ascii :=
  ascii_of_byte (if d <? 10 then 48 + d else 97 + (d - 10)).

Definition to_string (i : Id128) : string :=
  string_of_list_ascii (map hex_digit (be_digits 4 16 (hi_ i) ++ be_digits 4 16 (lo_ i))).

(** The lambda [nib]; [None] is its [-1]. *)
Definition nib (c : ascii) : option Z :=
  let c := byte_of_ascii c in
  if (48 <=? c) && (c <=? 57) then Some (c - 48)
  else if (97 <=? c) && (c <=? 102) then Some (c - 97 + 10)
  else if (65 <=? c) && (c <=? 70) then Some (c - 65 + 10)
  else None.

Definition strip_0x (s : list ascii) : list ascii :=
  match s with
  | c0 :: c1 :: rest =>
      if (byte_of_ascii c0 =? 48) && ((byte_of_ascii c1 =? 120) || (byte_of_ascii c1 =? 88)) then rest else s
  | _ => s
  end.

(** The loop reads digit [i] of both halves in each turn. *)
Fixpoint from_string_loop (his los : list ascii) (hi lo : Z) : option Id128 :=
  match his, los with
  | ch :: his, cl :: los =>
      match nib ch, nib cl with
      | Some nh, Some nl =>
          from_string_loop his los (Z.lor (u64 (Z.shiftl hi 4)) nh) (Z.lor (u64 (Z.shiftl lo 4)) nl)
      | _, _ => None
      end
  | _, _ => Some (mkId hi lo)
  end.

Definition from_string (s : string) : option Id128 :=
  let hex := strip_0x (list_ascii_of_string s) in
  if decide (length hex = 32%nat) then from_string_loop (take 16 hex) (drop 16 hex) 0 0 else None.

(** The iteration order of [std::map<Id128, ...>]. *)
Definition key_le {A} (a b : Id128 * A) : Prop := id_le a.1 b.1.
#[export] Instance key_le_dec {A} : RelDecision (@key_le A).
Proof. intros a b. unfold key_le. apply _. Defined.
Definition in_order {A} (m : gmap Id128 A) : list (Id128 * A) := merge_sort key_le (map_to_list m).

(** ** Authority generations *)
Inductive GenTag :=
  | WarmthGenerationTag | DependencyGenerationTag | PolicyGenerationTag | CoordinatorEpochTag
  | ReplicaGenerationTag | ModelGenerationTag | KernelGenerationTag | GraphGenerationTag | AttemptIdTag.

Record BasicGeneration (tag : GenTag) := Gen { value : Z }.
Arguments Gen {tag} _.
Arguments value {tag} _.

Abbreviation WarmthGeneration := (BasicGeneration WarmthGenerationTag).
Abbreviation DependencyGeneration := (BasicGeneration DependencyGenerationTag).
Abbreviation PolicyGeneration := (BasicGeneration PolicyGenerationTag).
Abbreviation CoordinatorEpoch := (BasicGeneration CoordinatorEpochTag).
Abbreviation AttemptId := (BasicGeneration AttemptIdTag).
Abbreviation WarmthObjectId := Id128.
Abbreviation WorkloadId := Id128.
Abbreviation ModelId := Id128.
Abbreviation ArtifactId := Id128.
Abbreviation ReplicaId := Id128.
Abbreviation EngineId := Id128.
Abbreviation NodeId := Id128.
Abbreviation WorkerId := Id128.
Abbreviation WorkerBootId := Id128.

#[export] Instance BasicGeneration_eq_dec tag : EqDecision (BasicGeneration tag).
Proof. solve_decision. Defined.
#[export] Instance BasicGeneration_countable tag : Countable (BasicGeneration tag).
Proof. apply (inj_countable' value Gen). by intros []. Defined.

Definition initial {tag} : BasicGeneration tag := Gen 0.
Definition generation_is_valid {tag} (g : BasicGeneration tag) : bool := negb (value g =? 0).
Definition gen_wf {tag} (g : BasicGeneration tag) : Prop := uint 64 (value g).

(** [next] saturates at the largest 64-bit value. *)
Definition next {tag} (g : BasicGeneration tag) : BasicGeneration tag :=
  Gen (if value g =? 2 ^ 64 - 1 then value g else value g + 1).

(** ** Lemmas *)

Lemma byte_ascii_byte b : uint 8 b -> byte_of_ascii (ascii_of_byte b) = b.
Proof.
  unfold uint, byte_of_ascii, ascii_of_byte. change (2 ^ 8) with 256. intros Hb.
  rewrite N_ascii_embedding; lia.
Qed.

Lemma length_to_bytes i : length (to_bytes i) = 16%nat.
Proof. unfold to_bytes. by rewrite length_app, !length_be_digits. Qed.

Lemma to_bytes_ok i : bytes_ok (to_bytes i).
Proof. unfold to_bytes. apply Forall_app. split; apply be_digits_uint; lia. Qed.

Lemma from_to_bytes i : Id128_wf i -> from_bytes (to_bytes i) = i.
Proof.
  intros [Hh Hl]. unfold from_bytes, to_bytes.
  rewrite take_app_length', drop_app_length' by (by rewrite length_be_digits).
  rewrite take_ge by (rewrite length_be_digits; lia).
  rewrite !be_value_digits by (try done; lia). by destruct i.
Qed.

Lemma from_bytes_wf b : bytes_ok b -> length b = 16%nat -> Id128_wf (from_bytes b).
Proof.
  intros Hb Hl.
  assert (forall l : bytes, bytes_ok l -> length l = 8%nat -> uint 64 (be_value 64 8 l)) as Hv.
  { intros l Hok Hlen. pose proof (be_digits_value 64 8 l) as Hd. rewrite Hlen in Hd. by apply Hd. }
  split; cbn; apply Hv.
  - by apply Forall_take.
  - rewrite length_take. lia.
  - by apply Forall_take, Forall_drop.
  - rewrite length_take, length_drop. lia.
Qed.

Lemma to_from_bytes b : bytes_ok b -> length b = 16%nat -> to_bytes (from_bytes b) = b.
Proof.
  intros Hb Hl. unfold to_bytes, from_bytes. cbn [hi_ lo_].
  assert (forall l : bytes, bytes_ok l -> length l = 8%nat -> be_digits 8 8 (be_value 64 8 l) = l) as Hv.
  { intros l Hok Hlen. pose proof (be_digits_value 64 8 l) as Hd. rewrite Hlen in Hd. by apply Hd. }
  rewrite !Hv; try (by apply Forall_take); try (by apply Forall_take, Forall_drop);
    try (rewrite ?length_take, ?length_drop; lia).
  rewrite (take_ge (drop 8 b)) by (rewrite length_drop; lia). apply take_drop.
Qed.

Lemma nib_hex_digit d : uint 4 d -> nib (hex_digit d) = Some d.
Proof.
  intros Hd. unfold uint in Hd. change (2 ^ 4) with 16 in Hd. unfold nib, hex_digit.
  rewrite byte_ascii_byte by (unfold uint; change (2 ^ 8) with 256; case Z.ltb_spec; lia).
  case (Z.ltb_spec d 10); intros.
  - rewrite (proj2 (Z.leb_le 48 _)), (proj2 (Z.leb_le _ 57)) by lia. cbn. f_equal. lia.
  - rewrite (proj2 (Z.leb_gt _ 57)) by lia. rewrite andb_false_r.
    rewrite (proj2 (Z.leb_le 97 _)), (proj2 (Z.leb_le _ 102)) by lia. cbn. f_equal. lia.
Qed.

Lemma from_string_loop_digits dh dl hi lo :
  Forall (uint 4) dh -> Forall (uint 4) dl -> length dh = length dl ->
  from_string_loop (map hex_digit dh) (map hex_digit dl) hi lo =
  Some (mkId (fold_left (fun acc d => Z.lor (wrap 64 (Z.shiftl acc 4)) d) dh hi)
             (fold_left (fun acc d => Z.lor (wrap 64 (Z.shiftl acc 4)) d) dl lo)).
Proof.
  intros Hh. revert dl hi lo. induction Hh as [|d dh Hd Hh IH]; intros dl hi lo Hl Hlen.
  - by destruct dl.
  - destruct Hl as [|d' dl Hd' Hl]; [done|]. cbn [map from_string_loop fold_left].
    rewrite !nib_hex_digit by done. apply IH; [done|by inversion Hlen].
Qed.

Lemma hex_digit_not_x d : uint 4 d -> (byte_of_ascii (hex_digit d) =? 120) || (byte_of_ascii (hex_digit d) =? 88) = false.
Proof.
  intros Hd. unfold uint in Hd. change (2 ^ 4) with 16 in Hd. unfold hex_digit.
  rewrite byte_ascii_byte by (unfold uint; change (2 ^ 8) with 256; case Z.ltb_spec; lia).
  case (Z.ltb_spec d 10); intros; rewrite !(proj2 (Z.eqb_neq _ _)) by lia; done.
Qed.

Lemma strip_hex l : Forall (uint 4) l -> strip_0x (map hex_digit l) = map hex_digit l.
Proof.
  intros Hl. destruct Hl as [|d l Hd Hl]; [done|]. destruct Hl as [|d' l Hd' Hl]; [done|].
  cbn [map strip_0x]. by rewrite hex_digit_not_x, andb_false_r.
Qed.

Lemma from_string_digits dh dl :
  Forall (uint 4) dh -> Forall (uint 4) dl -> length dh = 16%nat -> length dl = 16%nat ->
  from_string (string_of_list_ascii (map hex_digit (dh ++ dl))) =
  Some (mkId (be_value 64 4 dh) (be_value 64 4 dl)).
Proof.
  intros Hh Hl Eh El. unfold from_string. rewrite list_ascii_of_string_of_list_ascii.
  rewrite strip_hex by (by apply Forall_app). cbn zeta.
  rewrite decide_True by (rewrite length_map, length_app; lia).
  rewrite map_app, take_app_length', drop_app_length' by (by rewrite length_map).
  apply from_string_loop_digits; [done..|lia].
Qed.

Lemma be_value_u64_digits v : uint 64 v -> be_value 64 4 (be_digits 4 16 v) = v.
Proof. intros Hv. apply be_value_digits; [lia..|exact Hv]. Qed.

Lemma to_from_string i : Id128_wf i -> from_string (to_string i) = Some i.
Proof.
  intros [Hh Hl]. unfold to_string.
  rewrite from_string_digits; [|(apply be_digits_uint; lia)..|apply length_be_digits|apply length_be_digits].
  rewrite !be_value_u64_digits by done. by destruct i.
Qed.

(** Only one prefix is removed, and digits never look like one. *)
Lemma from_string_prefixed i c : Id128_wf i -> c = "x" \/ c = "X" -> from_string ("0" +:+ c +:+ to_string i) = Some i.
Proof.
  intros Hi Hc. rewrite <- (to_from_string i Hi). unfold from_string.
  assert (strip_0x (list_ascii_of_string ("0" +:+ c +:+ to_string i)) = list_ascii_of_string (to_string i)) as ->
    by (by destruct Hc as [-> | ->]).
  unfold to_string. rewrite list_ascii_of_string_of_list_ascii, strip_hex; [done|].
  apply Forall_app. split; apply be_digits_uint; lia.
Qed.

Lemma to_string_inj i j : Id128_wf i -> Id128_wf j -> to_string i = to_string j -> i = j.
Proof.
  intros Hi Hj He. apply to_from_string in Hi, Hj. rewrite He in Hi. congruence.
Qed.

Lemma random_valid hi lo : uint 64 hi -> uint 64 lo -> Id128_wf (random hi lo) /\ is_valid (random hi lo) = true.
Proof.
  unfold random, Id128_wf, is_valid, uint. cbn. intros Hh Hl.
  destruct (Z.eqb_spec hi 0), (Z.eqb_spec lo 0); cbn; split; repeat split; try lia; try done.
  all: rewrite ?orb_true_iff, ?negb_true_iff, ?Z.eqb_neq; try (by left); try (by right); lia.
Qed.

Lemma derive_wf s : Id128_wf (derive s).
Proof.
  unfold derive. destruct (digest16_shape (string_bytes s)). by apply from_bytes_wf.
Qed.

(** The defaulted comparison is a strict total order. *)
Lemma id_lt_irrefl a : id_lt a a = false.
Proof. unfold id_lt. by rewrite !Z.ltb_irrefl, andb_false_r. Qed.
Lemma id_lt_spec a b : id_lt a b = true <-> hi_ a < hi_ b \/ (hi_ a = hi_ b /\ lo_ a < lo_ b).
Proof. unfold id_lt. rewrite orb_true_iff, andb_true_iff, !Z.ltb_lt, Z.eqb_eq. done. Qed.
Lemma id_lt_trans a b c : id_lt a b = true -> id_lt b c = true -> id_lt a c = true.
Proof. rewrite !id_lt_spec. lia. Qed.
Lemma id_lt_total a b : a <> b -> id_lt a b = true \/ id_lt b a = true.
Proof.
  intros Hne. rewrite !id_lt_spec. destruct a as [h l], b as [h' l']; cbn.
  assert (h <> h' \/ l <> l') by (destruct (decide (h = h')), (decide (l = l')); subst; auto). lia.
Qed.

#[export] Instance id_le_trans : Transitive id_le.
Proof. intros a b c. unfold id_le. lia. Qed.
#[export] Instance id_le_total : Total id_le.
Proof. intros a b. unfold id_le. lia. Qed.
#[export] Instance id_le_antisymm : AntiSymm (=) id_le.
Proof. intros [h l] [h' l']. unfold id_le. cbn. intros. f_equal; lia. Qed.

Lemma next_wf {tag} (g : BasicGeneration tag) : gen_wf g -> gen_wf (next g).
Proof. unfold gen_wf, next, uint. cbn. case Z.eqb_spec; lia. Qed.

#[export] Hint Resolve to_bytes_ok next_wf : warmth.

(** ** Properties *)

(** identities survive both of their encodings.  The byte form has sixteen
    bytes and is a bijection with the well-formed identities; the text form has
    thirty-two digits and is read back, with or without a [0x] prefix; the
    content derivation gives a well-formed identity for every text; and the
    ordering that the maps iterate in is strict and total. *)
Theorem identity_roundtrip (i : Id128) (b : bytes) :
  Id128_wf i -> bytes_ok b -> length b = 16%nat ->
  length (to_bytes i) = 16%nat /\ from_bytes (to_bytes i) = i /\
  Id128_wf (from_bytes b) /\ to_bytes (from_bytes b) = b /\
  String.length (to_string i) = 32%nat /\ from_string (to_string i) = Some i /\
  from_string ("0x" +:+ to_string i) = Some i /\ from_string ("0X" +:+ to_string i) = Some i /\
  (forall text, Id128_wf (derive text)) /\
  (forall j, i = j \/ id_lt i j = true \/ id_lt j i = true) /\ id_lt i i = false.
Proof.
  intros Hi Hb Hl. pose proof (to_from_string i Hi) as Ht. split_and!; try done.
  - by apply from_to_bytes.
  - by apply from_bytes_wf.
  - by apply to_from_bytes.
  - apply (from_string_prefixed i "x"); auto.
  - apply (from_string_prefixed i "X"); auto.
  - apply derive_wf.
  - intros j. destruct (decide (i = j)); [by left|right]. by apply id_lt_total.
  - apply id_lt_irrefl.
Qed.

Lemma identity_roundtrip_witness :
  from_string ("0x" +:+ to_string (mkId 1 0xABCDEF)) = Some (mkId 1 0xABCDEF) /\
  to_string (mkId 1 0xABCDEF) = "00000000000000010000000000abcdef".
Proof.
  split; [|vm_compute; reflexivity].
  apply (identity_roundtrip (mkId 1 0xABCDEF) (to_bytes (mkId 1 0xABCDEF))).
  - apply (bool_decide_unpack _). vm_compute. exact I.
  - apply to_bytes_ok.
  - apply length_to_bytes.
Defined.
