(* ===== verification/State.v ===== *)
(** * warmth_state.hpp and warmth_dimensions.hpp

    The guarded state machine of a warmth object and its twelve readiness
    dimensions with the composite level derived from them. *)

From Stdlib Require Import ZArith Lia String.
From stdpp Require Import base list numbers strings sets relations.
From S2P Require Import Prelude.
Local Open Scope Z_scope.

(** ** WarmthState *)
Inductive WarmthState :=
  | COLD | DISCOVERED | PREPARING | PARTIALLY_WARM | WARM | HOT
  | STALE | INVALIDATED | EVICTED | FAILED.

#[export] Instance WarmthState_eq_dec : EqDecision WarmthState.
Proof. solve_decision. Defined.

Definition WarmthState_code (s : WarmthState) : Z :=
  match s with
  | COLD => 0 | DISCOVERED => 1 | PREPARING => 2 | PARTIALLY_WARM => 3 | WARM => 4
  | HOT => 5 | STALE => 6 | INVALIDATED => 7 | EVICTED => 8 | FAILED => 9
  end.

#[export] Program Instance WarmthState_enum : UEnum WarmthState := {
  enum_all := [COLD; DISCOVERED; PREPARING; PARTIALLY_WARM; WARM; HOT; STALE; INVALIDATED; EVICTED; FAILED];
  enum_code := WarmthState_code }.
Solve Obligations with solve_enum_field.

Definition is_execution_ready_state (state : Z) : bool :=
  (state =? WarmthState_code WARM) || (state =? WarmthState_code HOT).

Definition is_execution_ready (s : WarmthState) : bool :=
  is_execution_ready_state (WarmthState_code s).

Definition state_name (s : WarmthState) : string :=
  match s with
  | COLD => "COLD" | DISCOVERED => "DISCOVERED" | PREPARING => "PREPARING"
  | PARTIALLY_WARM => "PARTIALLY_WARM" | WARM => "WARM" | HOT => "HOT" | STALE => "STALE"
  | INVALIDATED => "INVALIDATED" | EVICTED => "EVICTED" | FAILED => "FAILED"
  end.

(** [WarmthLevel], with its underlying values. *)
Inductive WarmthLevel := L_NONE | L_DISCOVERED | L_PREPARING | L_PARTIAL | L_READY | L_HOT.

#[export] Instance WarmthLevel_eq_dec : EqDecision WarmthLevel.
Proof. solve_decision. Defined.

Definition WarmthLevel_code (l : WarmthLevel) : Z :=
  match l with
  | L_NONE => 0 | L_DISCOVERED => 1 | L_PREPARING => 2 | L_PARTIAL => 3 | L_READY => 4 | L_HOT => 5
  end.

Definition to_level (s : WarmthState) : WarmthLevel :=
  match s with
  | COLD => L_NONE
  | DISCOVERED => L_DISCOVERED
  | PREPARING => L_PREPARING
  | PARTIALLY_WARM => L_PARTIAL
  | WARM => L_READY
  | HOT => L_HOT
  | STALE | INVALIDATED | EVICTED | FAILED => L_NONE
  end.

Definition is_live_warm_state (s : WarmthState) : bool :=
  match s with PARTIALLY_WARM | WARM | HOT => true | _ => false end.

(** The explicit transition table. *)
Definition transition_allowed (from to : WarmthState) : bool :=
  match from with
  | COLD =>
      match to with COLD | DISCOVERED | PREPARING | EVICTED | INVALIDATED | FAILED => true | _ => false end
  | DISCOVERED =>
      match to with
      | COLD | DISCOVERED | PREPARING | PARTIALLY_WARM | WARM | INVALIDATED | EVICTED | FAILED => true
      | _ => false
      end
  | PREPARING =>
      match to with
      | DISCOVERED | PREPARING | PARTIALLY_WARM | WARM | HOT | STALE | INVALIDATED | EVICTED | FAILED => true
      | _ => false
      end
  | PARTIALLY_WARM =>
      match to with
      | PREPARING | PARTIALLY_WARM | WARM | STALE | INVALIDATED | EVICTED | FAILED | COLD => true
      | _ => false
      end
  | WARM =>
      match to with
      | HOT | WARM | PARTIALLY_WARM | STALE | INVALIDATED | EVICTED | FAILED | DISCOVERED => true
      | _ => false
      end
  | HOT =>
      match to with WARM | HOT | STALE | INVALIDATED | EVICTED | FAILED => true | _ => false end
  | STALE =>
      match to with
      | WARM | STALE | INVALIDATED | COLD | EVICTED | FAILED | DISCOVERED => true
      | _ => false
      end
  | INVALIDATED =>
      match to with COLD | DISCOVERED | PREPARING | INVALIDATED | FAILED | EVICTED => true | _ => false end
  | EVICTED =>
      match to with COLD | DISCOVERED | PREPARING | EVICTED => true | _ => false end
  | FAILED =>
      match to with COLD | DISCOVERED | INVALIDATED | FAILED => true | _ => false end
  end.

(** ** Dimensions *)
Inductive DimensionStatus := D_COLD | D_DISCOVERED | D_PARTIAL | D_READY | D_VALID | D_SUSPECT.

#[export] Instance DimensionStatus_eq_dec : EqDecision DimensionStatus.
Proof. solve_decision. Defined.

Definition DimensionStatus_code (d : DimensionStatus) : Z :=
  match d with
  | D_COLD => 0 | D_DISCOVERED => 1 | D_PARTIAL => 2 | D_READY => 3 | D_VALID => 4 | D_SUSPECT => 5
  end.

#[export] Program Instance DimensionStatus_enum : UEnum DimensionStatus := {
  enum_all := [D_COLD; D_DISCOVERED; D_PARTIAL; D_READY; D_VALID; D_SUSPECT];
  enum_code := DimensionStatus_code }.
Solve Obligations with solve_enum_field.

Definition dimension_score (d : DimensionStatus) : Z :=
  match d with
  | D_COLD => 0 | D_DISCOVERED => 1 | D_PARTIAL => 2 | D_READY => 3 | D_VALID => 4 | D_SUSPECT => 1
  end.

Definition dimension_status_name (d : DimensionStatus) : string :=
  match d with
  | D_COLD => "COLD" | D_DISCOVERED => "DISCOVERED" | D_PARTIAL => "PARTIAL"
  | D_READY => "READY" | D_VALID => "VALID" | D_SUSPECT => "SUSPECT"
  end.

Inductive CompositeLevel := C_COLD | C_DISCOVERED | C_PARTIAL | C_READY | C_HOT.

#[export] Instance CompositeLevel_eq_dec : EqDecision CompositeLevel.
Proof. solve_decision. Defined.

Definition CompositeLevel_code (l : CompositeLevel) : Z :=
  match l with C_COLD => 0 | C_DISCOVERED => 1 | C_PARTIAL => 2 | C_READY => 3 | C_HOT => 4 end.

Definition composite_name (l : CompositeLevel) : string :=
  match l with
  | C_COLD => "COLD" | C_DISCOVERED => "DISCOVERED" | C_PARTIAL => "PARTIAL"
  | C_READY => "READY" | C_HOT => "HOT"
  end.

Record WarmthDimensions := mkDims {
  artifact_availability : DimensionStatus;
  artifact_validation : DimensionStatus;
  model_residency : DimensionStatus;
  adapter_residency : DimensionStatus;
  tokenizer_readiness : DimensionStatus;
  cuda_context_readiness : DimensionStatus;
  kernel_readiness : DimensionStatus;
  graph_readiness : DimensionStatus;
  allocator_readiness : DimensionStatus;
  prefix_kv_reuse : DimensionStatus;
  engine_readiness : DimensionStatus;
  local_dependency_readiness : DimensionStatus }.

#[export] Instance WarmthDimensions_eq_dec : EqDecision WarmthDimensions.
Proof. solve_decision. Defined.

Definition dims_default : WarmthDimensions :=
  mkDims D_COLD D_COLD D_COLD D_COLD D_COLD D_COLD D_COLD D_COLD D_COLD D_COLD D_COLD D_COLD.

Definition dims_all (d : WarmthDimensions) : list DimensionStatus :=
  [artifact_availability d; artifact_validation d; model_residency d; adapter_residency d;
   tokenizer_readiness d; cuda_context_readiness d; kernel_readiness d; graph_readiness d;
   allocator_readiness d; prefix_kv_reuse d; engine_readiness d; local_dependency_readiness d].

Definition component_count : nat := 12.

Definition ready_count (d : WarmthDimensions) : nat :=
  fold_left (fun n s => if 3 <=? dimension_score s then S n else n) (dims_all d) O.

Definition valid_count (d : WarmthDimensions) : nat :=
  fold_left (fun n s => if decide (s = D_VALID) then S n else n) (dims_all d) O.

Definition raw_score (d : WarmthDimensions) : Z :=
  fold_left (fun n s => wrap 32 (n + dimension_score s)) (dims_all d) 0.

Definition composite_level (d : WarmthDimensions) : CompositeLevel :=
  let total := component_count in
  let ready := ready_count d in
  let valid := valid_count d in
  if decide (valid = total) then C_HOT
  else if decide (ready = total) then C_READY
  else if decide (ready = 0)%nat then
    let score := raw_score d in
    if 12 <=? score then C_PARTIAL else if 0 <? score then C_DISCOVERED else C_COLD
  else if decide (total <= ready * 2)%nat then C_PARTIAL
  else C_DISCOVERED.

Definition all_ready (d : WarmthDimensions) : bool := bool_decide (ready_count d = component_count).

Definition any_suspect (d : WarmthDimensions) : bool :=
  existsb (fun s => bool_decide (s = D_SUSPECT)) (dims_all d).

(** ** Lemmas: the state machine *)

Lemma is_execution_ready_spec s : is_execution_ready s = true <-> s = WARM \/ s = HOT.
Proof. destruct s; cbn; (split; [intros H; first [discriminate H|auto] | by intros [|]]). Qed.

(** One guarded transition. *)
Definition allowed (s t : WarmthState) : Prop := transition_allowed s t = true.

(** Not warm, not on the way to being warm. *)
Definition is_dead (s : WarmthState) : bool :=
  match s with COLD | INVALIDATED | EVICTED | FAILED => true | _ => false end.

(** A run of guarded transitions that visits exactly the listed states. *)
Inductive run : WarmthState -> list WarmthState -> WarmthState -> Prop :=
  | run_nil s : run s [] s
  | run_cons s t l u : allowed s t -> run t l u -> run s (t :: l) u.

Lemma run_dead_prefix s l u : run s l u -> is_dead s = true -> is_execution_ready u = true ->
  DISCOVERED ∈ l \/ PREPARING ∈ l.
Proof.
  induction 1 as [s|s t l u Hst Hr IH]; intros Hs Hu.
  - destruct s; done.
  - unfold allowed in Hst. destruct (is_dead t) eqn:Ht.
    + destruct (IH eq_refl Hu) as [|]; [left|right]; set_solver.
    + destruct s, t; try done; set_solver.
Qed.

(** ** Lemmas: counting over the twelve dimensions *)

Lemma fold_count {A} (p : A -> bool) l n :
  fold_left (fun n s => if p s then S n else n) l n = (n + length (List.filter p l))%nat.
Proof. revert n. induction l as [|a l IH]; intros n; cbn; [lia|]. rewrite IH. destruct (p a); cbn; lia. Qed.

Lemma filter_full {A} (p : A -> bool) l : length (List.filter p l) = length l <-> Forall (fun a => p a = true) l.
Proof.
  induction l as [|a l IH]; cbn; [done|]. rewrite Forall_cons, <- IH.
  pose proof (List.filter_length_le p l).
  destruct (p a); cbn; split; intros; destruct_and?; try split; try done; lia.
Qed.

Lemma filter_empty {A} (p : A -> bool) l : length (List.filter p l) = 0%nat <-> Forall (fun a => p a = false) l.
Proof.
  induction l as [|a l IH]; cbn; [done|]. rewrite Forall_cons, <- IH.
  destruct (p a); cbn; split; intros; destruct_and?; try split; done.
Qed.

Definition usable (s : DimensionStatus) : bool := 3 <=? dimension_score s.

Lemma ready_count_filter d : ready_count d = length (List.filter usable (dims_all d)).
Proof. apply (fold_count usable). Qed.

Lemma valid_count_filter d :
  valid_count d = length (List.filter (fun s => bool_decide (s = D_VALID)) (dims_all d)).
Proof.
  transitivity (fold_left (fun n s => if bool_decide (s = D_VALID) then S n else n) (dims_all d) 0%nat).
  - unfold valid_count. generalize 0%nat.
    induction (dims_all d) as [|a l IH]; intros n; [done|]. cbn. rewrite IH. by destruct a.
  - exact (fold_count (fun s => bool_decide (s = D_VALID)) (dims_all d) 0).
Qed.

Lemma dimension_score_range s : 0 <= dimension_score s <= 4.
Proof. destruct s; cbn; lia. Qed.

(** No wrap-around: the sum of twelve scores is at most 48. *)
Lemma raw_score_sum d : raw_score d = fold_right Z.add 0 (map dimension_score (dims_all d)).
Proof.
  unfold raw_score.
  assert (forall l n, (length l <= 12)%nat -> 0 <= n -> n + 4 * Z.of_nat (length l) <= 48 ->
    fold_left (fun n s => wrap 32 (n + dimension_score s)) l n = n + fold_right Z.add 0 (map dimension_score l)) as H.
  { induction l as [|s l IH]; intros n Hl H0 Hn; cbn [fold_left map fold_right length] in *; [lia|].
    pose proof (dimension_score_range s). rewrite wrap_small by (unfold uint; lia). rewrite IH by lia. lia. }
  by rewrite H by (cbn; lia).
Qed.

Lemma raw_score_zero d : raw_score d = 0 <-> Forall (fun s => s = D_COLD) (dims_all d).
Proof.
  rewrite raw_score_sum. generalize (dims_all d). induction l as [|s l IH]; cbn; [done|].
  rewrite Forall_cons, <- IH. clear IH.
  assert (0 <= fold_right Z.add 0 (map dimension_score l)).
  { induction l as [|t l IH]; cbn; [lia|]. pose proof (dimension_score_range t). lia. }
  pose proof (dimension_score_range s). destruct s; cbn in *; split; try (intros []; done); try lia.
  intros. split; [done|lia].
Qed.

(** ** Properties *)

(** an object in a dead state (COLD, INVALIDATED, EVICTED, FAILED) becomes
    execution-ready only along a run that passes through DISCOVERED or
    PREPARING: no sequence of guarded transitions revives it directly. *)
Theorem dead_needs_preparation (s u : WarmthState) (l : list WarmthState) :
  run s l u -> is_dead s = true -> is_execution_ready u = true -> DISCOVERED ∈ l \/ PREPARING ∈ l.
Proof. apply run_dead_prefix. Qed.

Lemma dead_needs_preparation_witness : DISCOVERED ∈ [DISCOVERED; WARM; HOT] \/ PREPARING ∈ [DISCOVERED; WARM; HOT].
Proof.
  apply (dead_needs_preparation EVICTED HOT); [|reflexivity..].
  repeat (econstructor; [reflexivity|]). constructor.
Defined.

(** the composite level is HOT exactly when all twelve dimensions are
    VALID, READY exactly when all are usable but not all VALID, and COLD
    exactly when all are COLD. *)
Theorem composite_level_spec (d : WarmthDimensions) :
  (composite_level d = C_HOT <-> Forall (fun s => s = D_VALID) (dims_all d)) /\
  (composite_level d = C_READY <->
     Forall (fun s => s = D_READY \/ s = D_VALID) (dims_all d) /\ ~ Forall (fun s => s = D_VALID) (dims_all d)) /\
  (composite_level d = C_COLD <-> Forall (fun s => s = D_COLD) (dims_all d)).
Proof.
  assert (valid_count d = component_count <-> Forall (fun s => s = D_VALID) (dims_all d)) as Hv.
  { rewrite valid_count_filter. change component_count with (length (dims_all d)). rewrite filter_full.
    apply Forall_proper; [|done]. intros s. apply bool_decide_eq_true. }
  assert (ready_count d = component_count <-> Forall (fun s => s = D_READY \/ s = D_VALID) (dims_all d)) as Hr.
  { rewrite ready_count_filter. change component_count with (length (dims_all d)). rewrite filter_full.
    apply Forall_proper; [|done]. intros s. destruct s; cbn; split; intros; destruct_or?; try done; auto. }
  assert (ready_count d = 0%nat <-> Forall (fun s => usable s = false) (dims_all d)) as Hz
    by (rewrite ready_count_filter; apply filter_empty).
  assert (Forall (fun s => s = D_COLD) (dims_all d) -> Forall (fun s => usable s = false) (dims_all d)) as Hcu
    by (intros H; eapply Forall_impl; [exact H|]; by intros ? ->).
  assert (Forall (fun s => s = D_VALID) (dims_all d) -> Forall (fun s => s = D_COLD) (dims_all d) -> False) as Hvc
    by (unfold dims_all; rewrite !Forall_cons; intros [-> _] [? _]; done).
  assert (Forall (fun s => s = D_READY \/ s = D_VALID) (dims_all d) -> Forall (fun s => s = D_COLD) (dims_all d) -> False) as Hrc
    by (unfold dims_all; rewrite !Forall_cons; intros [[-> | ->] _] [? _]; done).
  pose proof (raw_score_zero d) as Hs.
  assert (0 <= raw_score d) as Hs0.
  { rewrite raw_score_sum. generalize (dims_all d). induction l as [|t l IH]; cbn; [lia|].
    pose proof (dimension_score_range t). lia. }
  unfold composite_level.
  destruct (decide (valid_count d = component_count)); [split_and!; split; try done; tauto|].
  destruct (decide (ready_count d = component_count)); [split_and!; split; try done; tauto|].
  destruct (decide (ready_count d = 0%nat)) as [E0|].
  - case (Z.leb_spec 12 (raw_score d)); intros.
    + split_and!; split; try done; try tauto. intros ?%Hs. lia.
    + case (Z.ltb_spec 0 (raw_score d)); intros; (split_and!; split; try done; try tauto).
      * intros ?%Hs. lia.
      * intros _. apply Hs. lia.
  - destruct (decide (component_count <= ready_count d * 2)%nat); split_and!; split; try done; tauto.
Qed.

(** the composite level is not monotone in its components: with all twelve
    dimensions PARTIAL the composite is PARTIAL, and improving one of them to
    READY lowers it to DISCOVERED. *)
Theorem composite_level_not_monotone :
  exists d d' : WarmthDimensions,
    Forall2 (fun s s' => dimension_score s <= dimension_score s') (dims_all d) (dims_all d') /\
    CompositeLevel_code (composite_level d') < CompositeLevel_code (composite_level d).
Proof.
  exists (mkDims D_PARTIAL D_PARTIAL D_PARTIAL D_PARTIAL D_PARTIAL D_PARTIAL
                 D_PARTIAL D_PARTIAL D_PARTIAL D_PARTIAL D_PARTIAL D_PARTIAL),
         (mkDims D_READY D_PARTIAL D_PARTIAL D_PARTIAL D_PARTIAL D_PARTIAL
                 D_PARTIAL D_PARTIAL D_PARTIAL D_PARTIAL D_PARTIAL D_PARTIAL).
  split; [|by vm_compute]. repeat (constructor; [cbn; lia|]). constructor.
Qed.
