(* ===== verification/Object.v ===== *)
(** * warmth_object.hpp: one preparedness unit

    The enumerations of the header, the class [WarmthObject] with its private
    members as record fields, its accessors' setters and its guarded
    transition.  [dep_gens_] is an unordered map, so a finite map. *)

From Stdlib Require Import ZArith Lia String.
From stdpp Require Import base list numbers strings gmap countable sets.
From S2P Require Import Prelude Float64 Hash Identity State.
Local Open Scope Z_scope.
Local Open Scope warmth_scope.

Inductive WarmthCategory :=
  | MODEL_WEIGHTS | ADAPTERS | TOKENIZER_RUNTIME | KV_PREFIX_STATE | KERNEL_ARTIFACTS
  | LOADED_KERNEL_MODULES | EXECUTION_GRAPHS | ALLOCATOR_POOLS | CUDA_CONTEXT_DEVICE
  | ENGINE_RUNTIME_PROCESS | PERSISTENT_RUNTIME_CACHE | APPLICATION_DEFINED.

#[export] Instance WarmthCategory_eq_dec : EqDecision WarmthCategory.
Proof. solve_decision. Defined.

Definition WarmthCategory_code (e : WarmthCategory) : Z :=
  match e with
  | MODEL_WEIGHTS => 0 | ADAPTERS => 1 | TOKENIZER_RUNTIME => 2 | KV_PREFIX_STATE => 3
  | KERNEL_ARTIFACTS => 4 | LOADED_KERNEL_MODULES => 5 | EXECUTION_GRAPHS => 6
  | ALLOCATOR_POOLS => 7 | CUDA_CONTEXT_DEVICE => 8 | ENGINE_RUNTIME_PROCESS => 9
  | PERSISTENT_RUNTIME_CACHE => 10 | APPLICATION_DEFINED => 11
  end.

#[export] Program Instance WarmthCategory_enum : UEnum WarmthCategory := {
  enum_all := [MODEL_WEIGHTS; ADAPTERS; TOKENIZER_RUNTIME; KV_PREFIX_STATE; KERNEL_ARTIFACTS;
    LOADED_KERNEL_MODULES; EXECUTION_GRAPHS; ALLOCATOR_POOLS; CUDA_CONTEXT_DEVICE;
    ENGINE_RUNTIME_PROCESS; PERSISTENT_RUNTIME_CACHE; APPLICATION_DEFINED];
  enum_code := WarmthCategory_code }.
Solve Obligations with solve_enum_field.

Definition category_name (e : WarmthCategory) : string :=
  match e with
  | MODEL_WEIGHTS => "MODEL_WEIGHTS"
  | ADAPTERS => "ADAPTERS"
  | TOKENIZER_RUNTIME => "TOKENIZER_RUNTIME"
  | KV_PREFIX_STATE => "KV_PREFIX_STATE"
  | KERNEL_ARTIFACTS => "KERNEL_ARTIFACTS"
  | LOADED_KERNEL_MODULES => "LOADED_KERNEL_MODULES"
  | EXECUTION_GRAPHS => "EXECUTION_GRAPHS"
  | ALLOCATOR_POOLS => "ALLOCATOR_POOLS"
  | CUDA_CONTEXT_DEVICE => "CUDA_CONTEXT_DEVICE"
  | ENGINE_RUNTIME_PROCESS => "ENGINE_RUNTIME_PROCESS"
  | PERSISTENT_RUNTIME_CACHE => "PERSISTENT_RUNTIME_CACHE"
  | APPLICATION_DEFINED => "APPLICATION_DEFINED"
  end.

Inductive ResidencyState :=
  | R_NONE | R_STORAGE_ONLY | R_HOST_ONLY | R_DEVICE_RESIDENT | R_MIRRORED.

#[export] Instance ResidencyState_eq_dec : EqDecision ResidencyState.
Proof. solve_decision. Defined.

Definition ResidencyState_code (e : ResidencyState) : Z :=
  match e with
  | R_NONE => 0 | R_STORAGE_ONLY => 1 | R_HOST_ONLY => 2 | R_DEVICE_RESIDENT => 3
  | R_MIRRORED => 4
  end.

#[export] Program Instance ResidencyState_enum : UEnum ResidencyState := {
  enum_all := [R_NONE; R_STORAGE_ONLY; R_HOST_ONLY; R_DEVICE_RESIDENT; R_MIRRORED];
  enum_code := ResidencyState_code }.
Solve Obligations with solve_enum_field.

Definition residency_name (e : ResidencyState) : string :=
  match e with
  | R_NONE => "NONE"
  | R_STORAGE_ONLY => "STORAGE_ONLY"
  | R_HOST_ONLY => "HOST_ONLY"
  | R_DEVICE_RESIDENT => "DEVICE_RESIDENT"
  | R_MIRRORED => "MIRRORED"
  end.

Inductive Lifecycle :=
  | LC_NOT_STARTED | LC_ADMITTED | LC_PREPARING | LC_READY | LC_COOLING | LC_EVICTING
  | LC_TERMINATED.

#[export] Instance Lifecycle_eq_dec : EqDecision Lifecycle.
Proof. solve_decision. Defined.

Definition Lifecycle_code (e : Lifecycle) : Z :=
  match e with
  | LC_NOT_STARTED => 0 | LC_ADMITTED => 1 | LC_PREPARING => 2 | LC_READY => 3 | LC_COOLING => 4
  | LC_EVICTING => 5 | LC_TERMINATED => 6
  end.

#[export] Program Instance Lifecycle_enum : UEnum Lifecycle := {
  enum_all := [LC_NOT_STARTED; LC_ADMITTED; LC_PREPARING; LC_READY; LC_COOLING; LC_EVICTING; LC_TERMINATED];
  enum_code := Lifecycle_code }.
Solve Obligations with solve_enum_field.

Definition lifecycle_name (e : Lifecycle) : string :=
  match e with
  | LC_NOT_STARTED => "NOT_STARTED"
  | LC_ADMITTED => "ADMITTED"
  | LC_PREPARING => "PREPARING"
  | LC_READY => "READY"
  | LC_COOLING => "COOLING"
  | LC_EVICTING => "EVICTING"
  | LC_TERMINATED => "TERMINATED"
  end.

Inductive DimensionIndex :=
  | ArtifactAvailability | ArtifactValidation | ModelResidency | AdapterResidency
  | TokenizerReadiness | CudaContextReadiness | KernelReadiness | GraphReadiness
  | AllocatorReadiness | PrefixKvReuse | EngineReadiness | LocalDependencyReadiness.

#[export] Instance DimensionIndex_eq_dec : EqDecision DimensionIndex.
Proof. solve_decision. Defined.

Definition DimensionIndex_code (e : DimensionIndex) : Z :=
  match e with
  | ArtifactAvailability => 0 | ArtifactValidation => 1 | ModelResidency => 2
  | AdapterResidency => 3 | TokenizerReadiness => 4 | CudaContextReadiness => 5
  | KernelReadiness => 6 | GraphReadiness => 7 | AllocatorReadiness => 8 | PrefixKvReuse => 9
  | EngineReadiness => 10 | LocalDependencyReadiness => 11
  end.

#[export] Program Instance DimensionIndex_enum : UEnum DimensionIndex := {
  enum_all := [ArtifactAvailability; ArtifactValidation; ModelResidency; AdapterResidency;
    TokenizerReadiness; CudaContextReadiness; KernelReadiness; GraphReadiness; AllocatorReadiness;
    PrefixKvReuse; EngineReadiness; LocalDependencyReadiness];
  enum_code := DimensionIndex_code }.
Solve Obligations with solve_enum_field.

Definition dimension_name (e : DimensionIndex) : string :=
  match e with
  | ArtifactAvailability => "artifact_availability"
  | ArtifactValidation => "artifact_validation"
  | ModelResidency => "model_residency"
  | AdapterResidency => "adapter_residency"
  | TokenizerReadiness => "tokenizer_readiness"
  | CudaContextReadiness => "cuda_context_readiness"
  | KernelReadiness => "kernel_readiness"
  | GraphReadiness => "graph_readiness"
  | AllocatorReadiness => "allocator_readiness"
  | PrefixKvReuse => "prefix_kv_reuse"
  | EngineReadiness => "engine_readiness"
  | LocalDependencyReadiness => "local_dependency_readiness"
  end.

Inductive Provenance :=
  | P_LOCAL | P_COORDINATOR | P_DERIVED | P_REPORTED | P_MEASURED.

#[export] Instance Provenance_eq_dec : EqDecision Provenance.
Proof. solve_decision. Defined.

Definition Provenance_code (e : Provenance) : Z :=
  match e with
  | P_LOCAL => 0 | P_COORDINATOR => 1 | P_DERIVED => 2 | P_REPORTED => 3 | P_MEASURED => 4
  end.

#[export] Program Instance Provenance_enum : UEnum Provenance := {
  enum_all := [P_LOCAL; P_COORDINATOR; P_DERIVED; P_REPORTED; P_MEASURED];
  enum_code := Provenance_code }.
Solve Obligations with solve_enum_field.

Definition provenance_name (e : Provenance) : string :=
  match e with
  | P_LOCAL => "LOCAL"
  | P_COORDINATOR => "COORDINATOR"
  | P_DERIVED => "DERIVED"
  | P_REPORTED => "REPORTED"
  | P_MEASURED => "MEASURED"
  end.

Inductive DependencyKind :=
  | DK_MODEL | DK_ADAPTER_SET | DK_MASK_TOKENIZER | DK_KERNEL_SET | DK_GRAPH_SET | DK_RUNTIME
  | DK_COMPILER | DK_COMPUTE_CAPABILITY | DK_DEVICE | DK_POLICY | DK_REPLICA | DK_WORKER_BOOT.

#[export] Instance DependencyKind_eq_dec : EqDecision DependencyKind.
Proof. solve_decision. Defined.

Definition DependencyKind_code (e : DependencyKind) : Z :=
  match e with
  | DK_MODEL => 0 | DK_ADAPTER_SET => 1 | DK_MASK_TOKENIZER => 2 | DK_KERNEL_SET => 3
  | DK_GRAPH_SET => 4 | DK_RUNTIME => 5 | DK_COMPILER => 6 | DK_COMPUTE_CAPABILITY => 7
  | DK_DEVICE => 8 | DK_POLICY => 9 | DK_REPLICA => 10 | DK_WORKER_BOOT => 11
  end.

#[export] Program Instance DependencyKind_enum : UEnum DependencyKind := {
  enum_all := [DK_MODEL; DK_ADAPTER_SET; DK_MASK_TOKENIZER; DK_KERNEL_SET; DK_GRAPH_SET; DK_RUNTIME;
    DK_COMPILER; DK_COMPUTE_CAPABILITY; DK_DEVICE; DK_POLICY; DK_REPLICA; DK_WORKER_BOOT];
  enum_code := DependencyKind_code }.
Solve Obligations with solve_enum_field.

Definition dependency_name (e : DependencyKind) : string :=
  match e with
  | DK_MODEL => "model"
  | DK_ADAPTER_SET => "adapter_set"
  | DK_MASK_TOKENIZER => "tokenizer"
  | DK_KERNEL_SET => "kernel_set"
  | DK_GRAPH_SET => "graph_set"
  | DK_RUNTIME => "runtime"
  | DK_COMPILER => "compiler"
  | DK_COMPUTE_CAPABILITY => "compute_capability"
  | DK_DEVICE => "device"
  | DK_POLICY => "policy"
  | DK_REPLICA => "replica"
  | DK_WORKER_BOOT => "worker_boot"
  end.

#[export] Instance DependencyKind_countable : Countable DependencyKind.
Proof. exact (inj_countable enum_code enum_of enum_of_code). Defined.

(** ** WarmthObject *)
Record WarmthObject := mkObject {
  id_ : WarmthObjectId;
  category_ : WarmthCategory;
  workload_ : WorkloadId;
  node_ : NodeId;
  device_ : string;
  backend_ : string;
  logical_owner_ : string;
  model_ : option ModelId;
  artifact_ : option ArtifactId;
  replica_ : option ReplicaId;
  engine_ : option EngineId;
  state_ : WarmthState;
  state_change_reason_ : string;
  dims_ : WarmthDimensions;
  last_prepared_ : Z;
  last_used_ : Z;
  estimated_cost_bytes_ : Z;
  measured_cost_bytes_ : Z;
  estimated_ttr_ms_ : double;
  observed_ttr_ms_ : double;
  residency_ : ResidencyState;
  lifecycle_ : Lifecycle;
  confidence_ : double;
  freshness_ : double;
  warmth_gen_ : WarmthGeneration;
  dep_gens_ : gmap DependencyKind DependencyGeneration;
  invalidation_reason_ : option string;
  provenance_ : Provenance }.

(** The constructor; every other member has its default initialiser. *)
Definition new_object (id : WarmthObjectId) (category : WarmthCategory) (workload : WorkloadId)
    (node : NodeId) (device backend : string) : WarmthObject :=
  mkObject id category workload node device backend "" None None None None
    COLD "" dims_default 0 0 0 0 dzero dzero R_NONE LC_NOT_STARTED dzero dzero
    initial ∅ None P_LOCAL.

(** Field updates. *)
Definition put_logical_owner_ (v : string) (o : WarmthObject) : WarmthObject :=
  mkObject (id_ o) (category_ o) (workload_ o) (node_ o) (device_ o) (backend_ o) v (model_ o)
    (artifact_ o) (replica_ o) (engine_ o) (state_ o) (state_change_reason_ o) (dims_ o)
    (last_prepared_ o) (last_used_ o) (estimated_cost_bytes_ o) (measured_cost_bytes_ o)
    (estimated_ttr_ms_ o) (observed_ttr_ms_ o) (residency_ o) (lifecycle_ o) (confidence_ o)
    (freshness_ o) (warmth_gen_ o) (dep_gens_ o) (invalidation_reason_ o) (provenance_ o).
Definition put_model_ (v : option ModelId) (o : WarmthObject) : WarmthObject :=
  mkObject (id_ o) (category_ o) (workload_ o) (node_ o) (device_ o) (backend_ o)
    (logical_owner_ o) v (artifact_ o) (replica_ o) (engine_ o) (state_ o)
    (state_change_reason_ o) (dims_ o) (last_prepared_ o) (last_used_ o) (estimated_cost_bytes_ o)
    (measured_cost_bytes_ o) (estimated_ttr_ms_ o) (observed_ttr_ms_ o) (residency_ o)
    (lifecycle_ o) (confidence_ o) (freshness_ o) (warmth_gen_ o) (dep_gens_ o)
    (invalidation_reason_ o) (provenance_ o).
Definition put_artifact_ (v : option ArtifactId) (o : WarmthObject) : WarmthObject :=
  mkObject (id_ o) (category_ o) (workload_ o) (node_ o) (device_ o) (backend_ o)
    (logical_owner_ o) (model_ o) v (replica_ o) (engine_ o) (state_ o) (state_change_reason_ o)
    (dims_ o) (last_prepared_ o) (last_used_ o) (estimated_cost_bytes_ o) (measured_cost_bytes_ o)
    (estimated_ttr_ms_ o) (observed_ttr_ms_ o) (residency_ o) (lifecycle_ o) (confidence_ o)
    (freshness_ o) (warmth_gen_ o) (dep_gens_ o) (invalidation_reason_ o) (provenance_ o).
Definition put_replica_ (v : option ReplicaId) (o : WarmthObject) : WarmthObject :=
  mkObject (id_ o) (category_ o) (workload_ o) (node_ o) (device_ o) (backend_ o)
    (logical_owner_ o) (model_ o) (artifact_ o) v (engine_ o) (state_ o) (state_change_reason_ o)
    (dims_ o) (last_prepared_ o) (last_used_ o) (estimated_cost_bytes_ o) (measured_cost_bytes_ o)
    (estimated_ttr_ms_ o) (observed_ttr_ms_ o) (residency_ o) (lifecycle_ o) (confidence_ o)
    (freshness_ o) (warmth_gen_ o) (dep_gens_ o) (invalidation_reason_ o) (provenance_ o).
Definition put_engine_ (v : option EngineId) (o : WarmthObject) : WarmthObject :=
  mkObject (id_ o) (category_ o) (workload_ o) (node_ o) (device_ o) (backend_ o)
    (logical_owner_ o) (model_ o) (artifact_ o) (replica_ o) v (state_ o) (state_change_reason_ o)
    (dims_ o) (last_prepared_ o) (last_used_ o) (estimated_cost_bytes_ o) (measured_cost_bytes_ o)
    (estimated_ttr_ms_ o) (observed_ttr_ms_ o) (residency_ o) (lifecycle_ o) (confidence_ o)
    (freshness_ o) (warmth_gen_ o) (dep_gens_ o) (invalidation_reason_ o) (provenance_ o).
Definition put_state_ (v : WarmthState) (o : WarmthObject) : WarmthObject :=
  mkObject (id_ o) (category_ o) (workload_ o) (node_ o) (device_ o) (backend_ o)
    (logical_owner_ o) (model_ o) (artifact_ o) (replica_ o) (engine_ o) v
    (state_change_reason_ o) (dims_ o) (last_prepared_ o) (last_used_ o) (estimated_cost_bytes_ o)
    (measured_cost_bytes_ o) (estimated_ttr_ms_ o) (observed_ttr_ms_ o) (residency_ o)
    (lifecycle_ o) (confidence_ o) (freshness_ o) (warmth_gen_ o) (dep_gens_ o)
    (invalidation_reason_ o) (provenance_ o).
Definition put_state_change_reason_ (v : string) (o : WarmthObject) : WarmthObject :=
  mkObject (id_ o) (category_ o) (workload_ o) (node_ o) (device_ o) (backend_ o)
    (logical_owner_ o) (model_ o) (artifact_ o) (replica_ o) (engine_ o) (state_ o) v (dims_ o)
    (last_prepared_ o) (last_used_ o) (estimated_cost_bytes_ o) (measured_cost_bytes_ o)
    (estimated_ttr_ms_ o) (observed_ttr_ms_ o) (residency_ o) (lifecycle_ o) (confidence_ o)
    (freshness_ o) (warmth_gen_ o) (dep_gens_ o) (invalidation_reason_ o) (provenance_ o).
Definition put_dims_ (v : WarmthDimensions) (o : WarmthObject) : WarmthObject :=
  mkObject (id_ o) (category_ o) (workload_ o) (node_ o) (device_ o) (backend_ o)
    (logical_owner_ o) (model_ o) (artifact_ o) (replica_ o) (engine_ o) (state_ o)
    (state_change_reason_ o) v (last_prepared_ o) (last_used_ o) (estimated_cost_bytes_ o)
    (measured_cost_bytes_ o) (estimated_ttr_ms_ o) (observed_ttr_ms_ o) (residency_ o)
    (lifecycle_ o) (confidence_ o) (freshness_ o) (warmth_gen_ o) (dep_gens_ o)
    (invalidation_reason_ o) (provenance_ o).
Definition put_last_prepared_ (v : Z) (o : WarmthObject) : WarmthObject :=
  mkObject (id_ o) (category_ o) (workload_ o) (node_ o) (device_ o) (backend_ o)
    (logical_owner_ o) (model_ o) (artifact_ o) (replica_ o) (engine_ o) (state_ o)
    (state_change_reason_ o) (dims_ o) v (last_used_ o) (estimated_cost_bytes_ o)
    (measured_cost_bytes_ o) (estimated_ttr_ms_ o) (observed_ttr_ms_ o) (residency_ o)
    (lifecycle_ o) (confidence_ o) (freshness_ o) (warmth_gen_ o) (dep_gens_ o)
    (invalidation_reason_ o) (provenance_ o).
Definition put_last_used_ (v : Z) (o : WarmthObject) : WarmthObject :=
  mkObject (id_ o) (category_ o) (workload_ o) (node_ o) (device_ o) (backend_ o)
    (logical_owner_ o) (model_ o) (artifact_ o) (replica_ o) (engine_ o) (state_ o)
    (state_change_reason_ o) (dims_ o) (last_prepared_ o) v (estimated_cost_bytes_ o)
    (measured_cost_bytes_ o) (estimated_ttr_ms_ o) (observed_ttr_ms_ o) (residency_ o)
    (lifecycle_ o) (confidence_ o) (freshness_ o) (warmth_gen_ o) (dep_gens_ o)
    (invalidation_reason_ o) (provenance_ o).
Definition put_estimated_cost_bytes_ (v : Z) (o : WarmthObject) : WarmthObject :=
  mkObject (id_ o) (category_ o) (workload_ o) (node_ o) (device_ o) (backend_ o)
    (logical_owner_ o) (model_ o) (artifact_ o) (replica_ o) (engine_ o) (state_ o)
    (state_change_reason_ o) (dims_ o) (last_prepared_ o) (last_used_ o) v
    (measured_cost_bytes_ o) (estimated_ttr_ms_ o) (observed_ttr_ms_ o) (residency_ o)
    (lifecycle_ o) (confidence_ o) (freshness_ o) (warmth_gen_ o) (dep_gens_ o)
    (invalidation_reason_ o) (provenance_ o).
Definition put_measured_cost_bytes_ (v : Z) (o : WarmthObject) : WarmthObject :=
  mkObject (id_ o) (category_ o) (workload_ o) (node_ o) (device_ o) (backend_ o)
    (logical_owner_ o) (model_ o) (artifact_ o) (replica_ o) (engine_ o) (state_ o)
    (state_change_reason_ o) (dims_ o) (last_prepared_ o) (last_used_ o) (estimated_cost_bytes_ o)
    v (estimated_ttr_ms_ o) (observed_ttr_ms_ o) (residency_ o) (lifecycle_ o) (confidence_ o)
    (freshness_ o) (warmth_gen_ o) (dep_gens_ o) (invalidation_reason_ o) (provenance_ o).
Definition put_estimated_ttr_ms_ (v : double) (o : WarmthObject) : WarmthObject :=
  mkObject (id_ o) (category_ o) (workload_ o) (node_ o) (device_ o) (backend_ o)
    (logical_owner_ o) (model_ o) (artifact_ o) (replica_ o) (engine_ o) (state_ o)
    (state_change_reason_ o) (dims_ o) (last_prepared_ o) (last_used_ o) (estimated_cost_bytes_ o)
    (measured_cost_bytes_ o) v (observed_ttr_ms_ o) (residency_ o) (lifecycle_ o) (confidence_ o)
    (freshness_ o) (warmth_gen_ o) (dep_gens_ o) (invalidation_reason_ o) (provenance_ o).
Definition put_observed_ttr_ms_ (v : double) (o : WarmthObject) : WarmthObject :=
  mkObject (id_ o) (category_ o) (workload_ o) (node_ o) (device_ o) (backend_ o)
    (logical_owner_ o) (model_ o) (artifact_ o) (replica_ o) (engine_ o) (state_ o)
    (state_change_reason_ o) (dims_ o) (last_prepared_ o) (last_used_ o) (estimated_cost_bytes_ o)
    (measured_cost_bytes_ o) (estimated_ttr_ms_ o) v (residency_ o) (lifecycle_ o) (confidence_ o)
    (freshness_ o) (warmth_gen_ o) (dep_gens_ o) (invalidation_reason_ o) (provenance_ o).
Definition put_residency_ (v : ResidencyState) (o : WarmthObject) : WarmthObject :=
  mkObject (id_ o) (category_ o) (workload_ o) (node_ o) (device_ o) (backend_ o)
    (logical_owner_ o) (model_ o) (artifact_ o) (replica_ o) (engine_ o) (state_ o)
    (state_change_reason_ o) (dims_ o) (last_prepared_ o) (last_used_ o) (estimated_cost_bytes_ o)
    (measured_cost_bytes_ o) (estimated_ttr_ms_ o) (observed_ttr_ms_ o) v (lifecycle_ o)
    (confidence_ o) (freshness_ o) (warmth_gen_ o) (dep_gens_ o) (invalidation_reason_ o)
    (provenance_ o).
Definition put_lifecycle_ (v : Lifecycle) (o : WarmthObject) : WarmthObject :=
  mkObject (id_ o) (category_ o) (workload_ o) (node_ o) (device_ o) (backend_ o)
    (logical_owner_ o) (model_ o) (artifact_ o) (replica_ o) (engine_ o) (state_ o)
    (state_change_reason_ o) (dims_ o) (last_prepared_ o) (last_used_ o) (estimated_cost_bytes_ o)
    (measured_cost_bytes_ o) (estimated_ttr_ms_ o) (observed_ttr_ms_ o) (residency_ o) v
    (confidence_ o) (freshness_ o) (warmth_gen_ o) (dep_gens_ o) (invalidation_reason_ o)
    (provenance_ o).
Definition put_confidence_ (v : double) (o : WarmthObject) : WarmthObject :=
  mkObject (id_ o) (category_ o) (workload_ o) (node_ o) (device_ o) (backend_ o)
    (logical_owner_ o) (model_ o) (artifact_ o) (replica_ o) (engine_ o) (state_ o)
    (state_change_reason_ o) (dims_ o) (last_prepared_ o) (last_used_ o) (estimated_cost_bytes_ o)
    (measured_cost_bytes_ o) (estimated_ttr_ms_ o) (observed_ttr_ms_ o) (residency_ o)
    (lifecycle_ o) v (freshness_ o) (warmth_gen_ o) (dep_gens_ o) (invalidation_reason_ o)
    (provenance_ o).
Definition put_freshness_ (v : double) (o : WarmthObject) : WarmthObject :=
  mkObject (id_ o) (category_ o) (workload_ o) (node_ o) (device_ o) (backend_ o)
    (logical_owner_ o) (model_ o) (artifact_ o) (replica_ o) (engine_ o) (state_ o)
    (state_change_reason_ o) (dims_ o) (last_prepared_ o) (last_used_ o) (estimated_cost_bytes_ o)
    (measured_cost_bytes_ o) (estimated_ttr_ms_ o) (observed_ttr_ms_ o) (residency_ o)
    (lifecycle_ o) (confidence_ o) v (warmth_gen_ o) (dep_gens_ o) (invalidation_reason_ o)
    (provenance_ o).
Definition put_warmth_gen_ (v : WarmthGeneration) (o : WarmthObject) : WarmthObject :=
  mkObject (id_ o) (category_ o) (workload_ o) (node_ o) (device_ o) (backend_ o)
    (logical_owner_ o) (model_ o) (artifact_ o) (replica_ o) (engine_ o) (state_ o)
    (state_change_reason_ o) (dims_ o) (last_prepared_ o) (last_used_ o) (estimated_cost_bytes_ o)
    (measured_cost_bytes_ o) (estimated_ttr_ms_ o) (observed_ttr_ms_ o) (residency_ o)
    (lifecycle_ o) (confidence_ o) (freshness_ o) v (dep_gens_ o) (invalidation_reason_ o)
    (provenance_ o).
Definition put_dep_gens_ (v : gmap DependencyKind DependencyGeneration) (o : WarmthObject) : WarmthObject :=
  mkObject (id_ o) (category_ o) (workload_ o) (node_ o) (device_ o) (backend_ o)
    (logical_owner_ o) (model_ o) (artifact_ o) (replica_ o) (engine_ o) (state_ o)
    (state_change_reason_ o) (dims_ o) (last_prepared_ o) (last_used_ o) (estimated_cost_bytes_ o)
    (measured_cost_bytes_ o) (estimated_ttr_ms_ o) (observed_ttr_ms_ o) (residency_ o)
    (lifecycle_ o) (confidence_ o) (freshness_ o) (warmth_gen_ o) v (invalidation_reason_ o)
    (provenance_ o).
Definition put_invalidation_reason_ (v : option string) (o : WarmthObject) : WarmthObject :=
  mkObject (id_ o) (category_ o) (workload_ o) (node_ o) (device_ o) (backend_ o)
    (logical_owner_ o) (model_ o) (artifact_ o) (replica_ o) (engine_ o) (state_ o)
    (state_change_reason_ o) (dims_ o) (last_prepared_ o) (last_used_ o) (estimated_cost_bytes_ o)
    (measured_cost_bytes_ o) (estimated_ttr_ms_ o) (observed_ttr_ms_ o) (residency_ o)
    (lifecycle_ o) (confidence_ o) (freshness_ o) (warmth_gen_ o) (dep_gens_ o) v (provenance_ o).
Definition put_provenance_ (v : Provenance) (o : WarmthObject) : WarmthObject :=
  mkObject (id_ o) (category_ o) (workload_ o) (node_ o) (device_ o) (backend_ o)
    (logical_owner_ o) (model_ o) (artifact_ o) (replica_ o) (engine_ o) (state_ o)
    (state_change_reason_ o) (dims_ o) (last_prepared_ o) (last_used_ o) (estimated_cost_bytes_ o)
    (measured_cost_bytes_ o) (estimated_ttr_ms_ o) (observed_ttr_ms_ o) (residency_ o)
    (lifecycle_ o) (confidence_ o) (freshness_ o) (warmth_gen_ o) (dep_gens_ o)
    (invalidation_reason_ o) v.

(** The setters of the class. *)
Definition set_model (m : ModelId) := put_model_ (Some m).
Definition set_artifact (a : ArtifactId) := put_artifact_ (Some a).
Definition set_replica (r : ReplicaId) := put_replica_ (Some r).
Definition set_engine (e : EngineId) := put_engine_ (Some e).
Definition set_logical_owner (s : string) := put_logical_owner_ s.
Definition mark_prepared (t : Z) := put_last_prepared_ t.
Definition mark_used (t : Z) := put_last_used_ t.
Definition set_estimated_cost_bytes (b : Z) := put_estimated_cost_bytes_ b.
Definition set_measured_cost_bytes (b : Z) := put_measured_cost_bytes_ b.
Definition set_estimated_ttr_ms (ms : double) := put_estimated_ttr_ms_ ms.
Definition set_observed_ttr_ms (ms : double) := put_observed_ttr_ms_ ms.
Definition set_residency (r : ResidencyState) := put_residency_ r.
Definition set_lifecycle (l : Lifecycle) := put_lifecycle_ l.
Definition set_warmth_generation (g : WarmthGeneration) := put_warmth_gen_ g.
Definition set_dependency_generation (k : DependencyKind) (g : DependencyGeneration) (o : WarmthObject) :=
  put_dep_gens_ (<[k := g]> (dep_gens_ o)) o.
Definition set_invalidation_reason (reason : string) := put_invalidation_reason_ (Some reason).
Definition clear_invalidation_reason := put_invalidation_reason_ None.
Definition set_provenance (p : Provenance) := put_provenance_ p.
Definition set_dimensions (d : WarmthDimensions) := put_dims_ d.

Definition clamp_unit (v : double) : double :=
  if dlt v dzero then dzero else if dgt v done1 then done1 else v.
Definition set_confidence (c : double) := put_confidence_ (clamp_unit c).
Definition set_freshness (f : double) := put_freshness_ (clamp_unit f).

Definition level (o : WarmthObject) : WarmthLevel := to_level (state_ o).
Definition execution_ready (o : WarmthObject) : bool := is_execution_ready (state_ o).
Definition object_composite_level (o : WarmthObject) : CompositeLevel := composite_level (dims_ o).

(** The trusted restoration and the guarded transition: an invalid transition
    reports [false] and leaves the object unchanged. *)
Definition restore_state (to : WarmthState) (reason : string) (o : WarmthObject) : WarmthObject :=
  put_state_change_reason_ reason (put_state_ to o).

Definition transition (to : WarmthState) (reason : string) (o : WarmthObject) : bool * WarmthObject :=
  if transition_allowed (state_ o) to then (true, put_state_change_reason_ reason (put_state_ to o))
  else (false, o).

(** [(void) o.transition(to, reason)]. *)
Definition transition_ (to : WarmthState) (reason : string) (o : WarmthObject) : WarmthObject :=
  (transition to reason o).2.

Definition dims_set (idx : DimensionIndex) (status : DimensionStatus) (d : WarmthDimensions) : WarmthDimensions :=
  match idx with
| ArtifactAvailability => mkDims status (artifact_validation d) (model_residency d)
      (adapter_residency d) (tokenizer_readiness d) (cuda_context_readiness d)
      (kernel_readiness d) (graph_readiness d) (allocator_readiness d) (prefix_kv_reuse d)
      (engine_readiness d) (local_dependency_readiness d)
| ArtifactValidation => mkDims (artifact_availability d) status (model_residency d)
      (adapter_residency d) (tokenizer_readiness d) (cuda_context_readiness d)
      (kernel_readiness d) (graph_readiness d) (allocator_readiness d) (prefix_kv_reuse d)
      (engine_readiness d) (local_dependency_readiness d)
| ModelResidency => mkDims (artifact_availability d) (artifact_validation d) status
      (adapter_residency d) (tokenizer_readiness d) (cuda_context_readiness d)
      (kernel_readiness d) (graph_readiness d) (allocator_readiness d) (prefix_kv_reuse d)
      (engine_readiness d) (local_dependency_readiness d)
| AdapterResidency => mkDims (artifact_availability d) (artifact_validation d) (model_residency d)
      status (tokenizer_readiness d) (cuda_context_readiness d) (kernel_readiness d)
      (graph_readiness d) (allocator_readiness d) (prefix_kv_reuse d) (engine_readiness d)
      (local_dependency_readiness d)
| TokenizerReadiness => mkDims (artifact_availability d) (artifact_validation d)
      (model_residency d) (adapter_residency d) status (cuda_context_readiness d)
      (kernel_readiness d) (graph_readiness d) (allocator_readiness d) (prefix_kv_reuse d)
      (engine_readiness d) (local_dependency_readiness d)
| CudaContextReadiness => mkDims (artifact_availability d) (artifact_validation d)
      (model_residency d) (adapter_residency d) (tokenizer_readiness d) status
      (kernel_readiness d) (graph_readiness d) (allocator_readiness d) (prefix_kv_reuse d)
      (engine_readiness d) (local_dependency_readiness d)
| KernelReadiness => mkDims (artifact_availability d) (artifact_validation d) (model_residency d)
      (adapter_residency d) (tokenizer_readiness d) (cuda_context_readiness d) status
      (graph_readiness d) (allocator_readiness d) (prefix_kv_reuse d) (engine_readiness d)
      (local_dependency_readiness d)
| GraphReadiness => mkDims (artifact_availability d) (artifact_validation d) (model_residency d)
      (adapter_residency d) (tokenizer_readiness d) (cuda_context_readiness d)
      (kernel_readiness d) status (allocator_readiness d) (prefix_kv_reuse d) (engine_readiness d)
      (local_dependency_readiness d)
| AllocatorReadiness => mkDims (artifact_availability d) (artifact_validation d)
      (model_residency d) (adapter_residency d) (tokenizer_readiness d) (cuda_context_readiness d)
      (kernel_readiness d) (graph_readiness d) status (prefix_kv_reuse d) (engine_readiness d)
      (local_dependency_readiness d)
| PrefixKvReuse => mkDims (artifact_availability d) (artifact_validation d) (model_residency d)
      (adapter_residency d) (tokenizer_readiness d) (cuda_context_readiness d)
      (kernel_readiness d) (graph_readiness d) (allocator_readiness d) status (engine_readiness d)
      (local_dependency_readiness d)
| EngineReadiness => mkDims (artifact_availability d) (artifact_validation d) (model_residency d)
      (adapter_residency d) (tokenizer_readiness d) (cuda_context_readiness d)
      (kernel_readiness d) (graph_readiness d) (allocator_readiness d) (prefix_kv_reuse d) status
      (local_dependency_readiness d)
| LocalDependencyReadiness => mkDims (artifact_availability d) (artifact_validation d)
      (model_residency d) (adapter_residency d) (tokenizer_readiness d) (cuda_context_readiness d)
      (kernel_readiness d) (graph_readiness d) (allocator_readiness d) (prefix_kv_reuse d)
      (engine_readiness d) status
  end.

Definition dims_get (idx : DimensionIndex) (d : WarmthDimensions) : DimensionStatus :=
  match idx with
  | ArtifactAvailability => artifact_availability d
  | ArtifactValidation => artifact_validation d
  | ModelResidency => model_residency d
  | AdapterResidency => adapter_residency d
  | TokenizerReadiness => tokenizer_readiness d
  | CudaContextReadiness => cuda_context_readiness d
  | KernelReadiness => kernel_readiness d
  | GraphReadiness => graph_readiness d
  | AllocatorReadiness => allocator_readiness d
  | PrefixKvReuse => prefix_kv_reuse d
  | EngineReadiness => engine_readiness d
  | LocalDependencyReadiness => local_dependency_readiness d
  end.

Definition set_dimension (idx : DimensionIndex) (status : DimensionStatus) (o : WarmthObject) : WarmthObject :=
  put_dims_ (dims_set idx status (dims_ o)) o.
Definition dimension (o : WarmthObject) (idx : DimensionIndex) : DimensionStatus := dims_get idx (dims_ o).

(** ** The type invariant

    Every member holds a value of its C++ type; the two unit-interval members
    were stored through [clamp_unit]; strings fit the 32-bit length prefix of
    the encoders. *)
Definition short (s : string) : Prop := uint 32 (Z.of_nat (String.length s)).
Definition unit_clamped (v : double) : Prop := clamp_unit v = v.
Definition opt_id_wf (o : option Id128) : Prop := match o with Some i => Id128_wf i | None => True end.

Record object_wf (o : WarmthObject) : Prop := {
  wf_id : Id128_wf (id_ o);
  wf_workload : Id128_wf (workload_ o);
  wf_node : Id128_wf (node_ o);
  wf_device : short (device_ o);
  wf_backend : short (backend_ o);
  wf_owner : short (logical_owner_ o);
  wf_model : opt_id_wf (model_ o);
  wf_artifact : opt_id_wf (artifact_ o);
  wf_replica : opt_id_wf (replica_ o);
  wf_engine : opt_id_wf (engine_ o);
  wf_reason : short (state_change_reason_ o);
  wf_last_prepared : sint64 (last_prepared_ o);
  wf_last_used : sint64 (last_used_ o);
  wf_est_bytes : uint 64 (estimated_cost_bytes_ o);
  wf_meas_bytes : uint 64 (measured_cost_bytes_ o);
  wf_est_ttr : uint 64 (estimated_ttr_ms_ o);
  wf_obs_ttr : uint 64 (observed_ttr_ms_ o);
  wf_confidence : uint 64 (confidence_ o);
  wf_freshness : uint 64 (freshness_ o);
  wf_confidence_unit : unit_clamped (confidence_ o);
  wf_freshness_unit : unit_clamped (freshness_ o);
  wf_warmth_gen : gen_wf (warmth_gen_ o);
  wf_dep_gens : map_Forall (fun _ g => gen_wf g) (dep_gens_ o);
  wf_inv : match invalidation_reason_ o with Some s => short s | None => True end }.

(** A concrete object, as a test would build one. *)
Definition sample_object : WarmthObject :=
  new_object (mkId 0 1) MODEL_WEIGHTS (mkId 0 2) (mkId 0 3) "cuda:0" "cuda".

(** ** Lemmas *)

Lemma transition_alt to r o :
  transition_ to r o = if transition_allowed (state_ o) to then put_state_change_reason_ r (put_state_ to o) else o.
Proof. unfold transition_, transition. by destruct (transition_allowed _ _). Qed.

Lemma transition_state to r o :
  state_ (transition_ to r o) = if transition_allowed (state_ o) to then to else state_ o.
Proof. rewrite transition_alt. by destruct (transition_allowed _ _). Qed.

Section transition_frame.
Variables (to : WarmthState) (r : string) (o : WarmthObject).
Local Ltac frame := rewrite transition_alt; by destruct (transition_allowed _ _).
Lemma transition_id : id_ (transition_ to r o) = id_ o. Proof. frame. Qed.
Lemma transition_dims : dims_ (transition_ to r o) = dims_ o. Proof. frame. Qed.
Lemma transition_residency : residency_ (transition_ to r o) = residency_ o. Proof. frame. Qed.
Lemma transition_inv : invalidation_reason_ (transition_ to r o) = invalidation_reason_ o. Proof. frame. Qed.
Lemma transition_provenance : provenance_ (transition_ to r o) = provenance_ o. Proof. frame. Qed.
Lemma transition_warmth_gen : warmth_gen_ (transition_ to r o) = warmth_gen_ o. Proof. frame. Qed.
End transition_frame.

Create Rewrite HintDb object.
#[export] Hint Rewrite transition_id transition_dims transition_residency transition_inv
  transition_provenance transition_warmth_gen : object.

Lemma dims_get_set_eq i s d : dims_get i (dims_set i s d) = s.
Proof. by destruct i. Qed.

Lemma dims_get_set_ne i j s d : i <> j -> dims_get j (dims_set i s d) = dims_get j d.
Proof. by destruct i, j. Qed.

Lemma dims_get_all d : map (fun i => dims_get i d) enum_all = dims_all d.
Proof. done. Qed.

Lemma dims_ext d d' : (forall i, dims_get i d = dims_get i d') -> d = d'.
Proof.
  intros H. destruct d, d'.
  f_equal; [exact (H ArtifactAvailability) | exact (H ArtifactValidation) | exact (H ModelResidency)
    | exact (H AdapterResidency) | exact (H TokenizerReadiness) | exact (H CudaContextReadiness)
    | exact (H KernelReadiness) | exact (H GraphReadiness) | exact (H AllocatorReadiness)
    | exact (H PrefixKvReuse) | exact (H EngineReadiness) | exact (H LocalDependencyReadiness)].
Qed.

Lemma clamp_unit_cases v : clamp_unit v = dzero \/ clamp_unit v = done1 \/ clamp_unit v = v.
Proof. unfold clamp_unit. destruct (dlt v dzero), (dgt v done1); auto. Qed.

Lemma clamp_unit_idem v : clamp_unit (clamp_unit v) = clamp_unit v.
Proof.
  unfold clamp_unit. destruct (dlt v dzero) eqn:Hl; [by vm_compute|].
  destruct (dgt v done1) eqn:Hg; [by vm_compute|]. by rewrite Hl, Hg.
Qed.

Lemma clamp_unit_uint v : uint 64 v -> uint 64 (clamp_unit v).
Proof. intros Hv. destruct (clamp_unit_cases v) as [-> | [-> | ->]]; [done..|exact Hv]. Qed.

(** The stored value lies in [0, 1], unless a NaN was given. *)
Lemma clamp_unit_range v : isnan v = false ->
  dle dzero (clamp_unit v) = true /\ dle (clamp_unit v) done1 = true.
Proof.
  intros Hn. unfold clamp_unit. destruct (dlt v dzero) eqn:Hl; [by vm_compute|].
  destruct (dgt v done1) eqn:Hg; [by vm_compute|].
  assert (forall a b, isnan a = false -> isnan b = false -> dlt a b = false -> dle b a = true) as H.
  { intros a b Ha Hb. unfold dlt, dle. rewrite Ha, Hb. cbn. rewrite Z.ltb_ge, Z.leb_le. done. }
  split; [by apply H|by apply (H done1)].
Qed.

(** Every setter keeps the type invariant. *)
Section preserve.
Variable o : WarmthObject.
Hypothesis Ho : object_wf o.
Local Ltac keep := destruct Ho; constructor; try done.

Lemma put_state_wf s : object_wf (put_state_ s o). Proof. keep. Qed.
Lemma put_reason_wf s : short s -> object_wf (put_state_change_reason_ s o). Proof. keep. Qed.
Lemma put_dims_wf d : object_wf (put_dims_ d o). Proof. keep. Qed.
Lemma mark_prepared_wf t : sint64 t -> object_wf (mark_prepared t o). Proof. keep. Qed.
Lemma mark_used_wf t : sint64 t -> object_wf (mark_used t o). Proof. keep. Qed.
Lemma set_estimated_cost_bytes_wf b : uint 64 b -> object_wf (set_estimated_cost_bytes b o). Proof. keep. Qed.
Lemma set_measured_cost_bytes_wf b : uint 64 b -> object_wf (set_measured_cost_bytes b o). Proof. keep. Qed.
Lemma set_estimated_ttr_ms_wf b : uint 64 b -> object_wf (set_estimated_ttr_ms b o). Proof. keep. Qed.
Lemma set_observed_ttr_ms_wf b : uint 64 b -> object_wf (set_observed_ttr_ms b o). Proof. keep. Qed.
Lemma set_residency_wf r : object_wf (set_residency r o). Proof. keep. Qed.
Lemma set_lifecycle_wf r : object_wf (set_lifecycle r o). Proof. keep. Qed.
Lemma set_provenance_wf r : object_wf (set_provenance r o). Proof. keep. Qed.
Lemma set_warmth_generation_wf g : gen_wf g -> object_wf (set_warmth_generation g o). Proof. keep. Qed.
Lemma set_dependency_generation_wf k g : gen_wf g -> object_wf (set_dependency_generation k g o).
Proof. intros Hg. keep. by apply map_Forall_insert_2. Qed.
Lemma set_invalidation_reason_wf s : short s -> object_wf (set_invalidation_reason s o). Proof. keep. Qed.
Lemma clear_invalidation_reason_wf : object_wf (clear_invalidation_reason o). Proof. keep. Qed.
Lemma set_logical_owner_wf s : short s -> object_wf (set_logical_owner s o). Proof. keep. Qed.
Lemma set_model_wf i : Id128_wf i -> object_wf (set_model i o). Proof. keep. Qed.
Lemma set_artifact_wf i : Id128_wf i -> object_wf (set_artifact i o). Proof. keep. Qed.
Lemma set_replica_wf i : Id128_wf i -> object_wf (set_replica i o). Proof. keep. Qed.
Lemma set_engine_wf i : Id128_wf i -> object_wf (set_engine i o). Proof. keep. Qed.
Lemma set_confidence_wf v : uint 64 v -> object_wf (set_confidence v o).
Proof. intros Hv. keep; [by apply clamp_unit_uint|apply clamp_unit_idem]. Qed.
Lemma set_freshness_wf v : uint 64 v -> object_wf (set_freshness v o).
Proof. intros Hv. keep; [by apply clamp_unit_uint|apply clamp_unit_idem]. Qed.
End preserve.

#[export] Hint Resolve put_state_wf put_reason_wf put_dims_wf mark_prepared_wf mark_used_wf
  set_estimated_cost_bytes_wf set_measured_cost_bytes_wf set_estimated_ttr_ms_wf set_observed_ttr_ms_wf
  set_residency_wf set_lifecycle_wf set_provenance_wf set_warmth_generation_wf
  set_dependency_generation_wf set_invalidation_reason_wf clear_invalidation_reason_wf
  set_logical_owner_wf set_model_wf set_artifact_wf set_replica_wf set_engine_wf
  set_confidence_wf set_freshness_wf : warmth.

Lemma new_object_wf id c wl nd dev be :
  Id128_wf id -> Id128_wf wl -> Id128_wf nd -> short dev -> short be ->
  object_wf (new_object id c wl nd dev be).
Proof. intros. by constructor. Qed.

Lemma sample_object_wf : object_wf sample_object.
Proof. by apply new_object_wf; apply (bool_decide_unpack _); vm_compute. Qed.

Lemma transition_wf to r o : object_wf o -> short r -> object_wf (transition_ to r o).
Proof. intros. rewrite transition_alt. destruct (transition_allowed _ _); auto with warmth. Qed.

Lemma restore_state_wf to r o : object_wf o -> short r -> object_wf (restore_state to r o).
Proof. intros. unfold restore_state. auto with warmth. Qed.

#[export] Hint Resolve new_object_wf transition_wf restore_state_wf : warmth.

(** ** Properties *)

(** the guarded transition succeeds exactly on the edges of the table; on
    success the object is in the requested state with the given reason and
    nothing else changed, on failure the object is untouched. *)
Theorem transition_guarded (to : WarmthState) (r : string) (o : WarmthObject) :
  transition to r o =
    (transition_allowed (state_ o) to,
     if transition_allowed (state_ o) to then restore_state to r o else o) /\
  dims_ (transition to r o).2 = dims_ o /\
  invalidation_reason_ (transition to r o).2 = invalidation_reason_ o /\
  residency_ (transition to r o).2 = residency_ o.
Proof. unfold transition, restore_state. by destruct (transition_allowed _ _). Qed.

(** setting one dimension changes that dimension and no other. *)
Theorem set_dimension_independent (i j : DimensionIndex) (s : DimensionStatus) (o : WarmthObject) :
  dimension (set_dimension i s o) j = if decide (i = j) then s else dimension o j.
Proof.
  unfold dimension, set_dimension. cbn [dims_ put_dims_].
  destruct (decide (i = j)) as [->|Hne]; [apply dims_get_set_eq|by apply dims_get_set_ne].
Qed.
