(* ===== verification/Decay.v ===== *)
(** * time.hpp, decay.hpp, invalidation.hpp

    The deterministic decay function with its policy, and the invalidation
    trigger.  A [Timestamp] is a signed 64-bit count of milliseconds;
    [end - start] is computed without overflow (overflow is undefined in the
    source). *)

From Stdlib Require Import ZArith Lia String.
From stdpp Require Import base list numbers strings.
From S2P Require Import Prelude Float64 Hash Identity State Object.
Local Open Scope Z_scope.

(** Seconds between two wall-clock timestamps, zero when reversed. *)
Definition elapsed_seconds (start end_ : Z) : double :=
  let d := end_ - start in
  if d <=? 0 then dzero else ddiv (d_of_Z d) (d_of_Z 1000).

Inductive DecayReason :=
  | IDLE_ELAPSED | MEMORY_PRESSURE | RESOURCE_RECLAMATION | PROCESS_RESTART | DEVICE_RESET
  | DEPENDENCY_GENERATION_CHANGE | ARTIFACT_REPLACEMENT | ADAPTER_CHANGE | RUNTIME_UPGRADE
  | KERNEL_INVALIDATION | GRAPH_INVALIDATION | TOPOLOGY_CHANGE | DR_POLICY_GENERATION_CHANGE.

Definition decay_reason_name (r : DecayReason) : string :=
  match r with
  | IDLE_ELAPSED => "IDLE_ELAPSED"
  | MEMORY_PRESSURE => "MEMORY_PRESSURE"
  | RESOURCE_RECLAMATION => "RESOURCE_RECLAMATION"
  | PROCESS_RESTART => "PROCESS_RESTART"
  | DEVICE_RESET => "DEVICE_RESET"
  | DEPENDENCY_GENERATION_CHANGE => "DEPENDENCY_GENERATION_CHANGE"
  | ARTIFACT_REPLACEMENT => "ARTIFACT_REPLACEMENT"
  | ADAPTER_CHANGE => "ADAPTER_CHANGE"
  | RUNTIME_UPGRADE => "RUNTIME_UPGRADE"
  | KERNEL_INVALIDATION => "KERNEL_INVALIDATION"
  | GRAPH_INVALIDATION => "GRAPH_INVALIDATION"
  | TOPOLOGY_CHANGE => "TOPOLOGY_CHANGE"
  | DR_POLICY_GENERATION_CHANGE => "POLICY_GENERATION_CHANGE"
  end.

Record DecayPolicy := mkDecayPolicy {
  hot_to_warm_idle_seconds : double;
  warm_to_stale_idle_seconds : double;
  stale_to_invalidated_seconds : double;
  warm_to_partial_idle_seconds : double;
  partial_to_cold_idle_seconds : double;
  decay_on_memory_pressure : bool;
  decay_on_process_restart : bool;
  decay_on_device_reset : bool;
  decay_on_dependency_change : bool;
  decay_on_policy_change : bool }.

Definition decay_policy_default : DecayPolicy :=
  mkDecayPolicy (d_of_Z 300) (d_of_Z 1200) (d_of_Z 600) (d_of_Z 1800) (d_of_Z 3600)
    true true true true true.

Record DecayResult := mkDecayResult { dr_changed : bool; dr_state : WarmthState; dr_reason : DecayReason }.

(** [out.changed = true; out.state = s; out.reason = r]. *)
Definition decayed (s : WarmthState) (r : DecayReason) : DecayResult := mkDecayResult true s r.
(** [out.state = s] on the default result. *)
Definition undecayed (s : WarmthState) : DecayResult := mkDecayResult false s IDLE_ELAPSED.

(** The common shape of the three external triggers. *)
Definition decay_to_stale (s : WarmthState) (r : DecayReason) : DecayResult :=
  if decide (s = STALE) then undecayed STALE else decayed STALE r.

(** [threshold > 0.0 && idle >= threshold]. *)
Definition idle_over (threshold idle : double) : bool := dgt threshold dzero && dge idle threshold.

Definition decay_idle (s : WarmthState) (p : DecayPolicy) (idle : double) : DecayResult :=
  match s with
  | HOT =>
      if idle_over (hot_to_warm_idle_seconds p) idle then decayed WARM IDLE_ELAPSED else undecayed s
  | WARM =>
      if idle_over (warm_to_stale_idle_seconds p) idle then decayed STALE IDLE_ELAPSED
      else if dgt (warm_to_partial_idle_seconds p) dzero &&
              dlt (warm_to_partial_idle_seconds p) (warm_to_stale_idle_seconds p) &&
              dge idle (warm_to_partial_idle_seconds p)
      then decayed PARTIALLY_WARM IDLE_ELAPSED else undecayed s
  | PARTIALLY_WARM =>
      if idle_over (partial_to_cold_idle_seconds p) idle then decayed COLD IDLE_ELAPSED else undecayed s
  | STALE =>
      if idle_over (stale_to_invalidated_seconds p) idle then decayed INVALIDATED IDLE_ELAPSED else undecayed s
  | _ => undecayed s
  end.

Definition decay_object (obj : WarmthObject) (policy : DecayPolicy) (now : Z)
    (memory_pressure dependency_changed device_reset process_restart : bool) : DecayResult :=
  let s := state_ obj in
  match s with
  | COLD | DISCOVERED | EVICTED | FAILED | INVALIDATED => undecayed s
  | _ =>
      if dependency_changed then decay_to_stale s DEPENDENCY_GENERATION_CHANGE
      else if device_reset && decay_on_device_reset policy then decay_to_stale s DEVICE_RESET
      else if process_restart && decay_on_process_restart policy then decay_to_stale s PROCESS_RESTART
      else
        let baseline := if last_used_ obj =? 0 then last_prepared_ obj else last_used_ obj in
        let idle := elapsed_seconds baseline now in
        if memory_pressure && decay_on_memory_pressure policy then
          match s with
          | HOT => decayed WARM MEMORY_PRESSURE
          | WARM => decayed PARTIALLY_WARM MEMORY_PRESSURE
          | PARTIALLY_WARM => decayed COLD MEMORY_PRESSURE
          | _ => decay_idle s policy idle
          end
        else decay_idle s policy idle
  end.

(** ** Invalidation *)
Inductive InvalidationReason :=
  | MODEL_REVISION_CHANGE | ADAPTER_SET_CHANGE | TOKENIZER_CHANGE | KERNEL_GENERATION_CHANGE
  | GRAPH_GENERATION_CHANGE | RUNTIME_COMPILER_CHANGE | COMPUTE_CAPABILITY_CHANGE
  | CUDA_DRIVER_RUNTIME_CHANGE | DEVICE_CHANGE | POLICY_GENERATION_CHANGE
  | REPLICA_GENERATION_CHANGE | PROCESS_BOOT_CHANGE | DEPENDENCY_CORRUPTION | INTEGRITY_FAILURE.

Definition invalidation_reason_name (r : InvalidationReason) : string :=
  match r with
  | MODEL_REVISION_CHANGE => "MODEL_REVISION_CHANGE"
  | ADAPTER_SET_CHANGE => "ADAPTER_SET_CHANGE"
  | TOKENIZER_CHANGE => "TOKENIZER_CHANGE"
  | KERNEL_GENERATION_CHANGE => "KERNEL_GENERATION_CHANGE"
  | GRAPH_GENERATION_CHANGE => "GRAPH_GENERATION_CHANGE"
  | RUNTIME_COMPILER_CHANGE => "RUNTIME_COMPILER_CHANGE"
  | COMPUTE_CAPABILITY_CHANGE => "COMPUTE_CAPABILITY_CHANGE"
  | CUDA_DRIVER_RUNTIME_CHANGE => "CUDA_DRIVER_RUNTIME_CHANGE"
  | DEVICE_CHANGE => "DEVICE_CHANGE"
  | POLICY_GENERATION_CHANGE => "POLICY_GENERATION_CHANGE"
  | REPLICA_GENERATION_CHANGE => "REPLICA_GENERATION_CHANGE"
  | PROCESS_BOOT_CHANGE => "PROCESS_BOOT_CHANGE"
  | DEPENDENCY_CORRUPTION => "DEPENDENCY_CORRUPTION"
  | INTEGRITY_FAILURE => "INTEGRITY_FAILURE"
  end.

Definition invalidation_reason_text (r : InvalidationReason) : string := invalidation_reason_name r.

Inductive InvalidationSeverity := SOFT | HARD.
Definition invalidation_severity_name (s : InvalidationSeverity) : string := match s with SOFT => "SOFT" | HARD => "HARD" end.

Record InvalidateResult := mkInvalidateResult {
  ir_changed : bool; ir_state : WarmthState; ir_reason : InvalidationReason; ir_severity : InvalidationSeverity }.

Definition evaluate_invalidation (s : WarmthState) : InvalidateResult :=
  if decide (s = INVALIDATED) then mkInvalidateResult false INVALIDATED MODEL_REVISION_CHANGE HARD
  else mkInvalidateResult true INVALIDATED INTEGRITY_FAILURE HARD.

(** ** Lemmas *)

(** The possible outcomes of one decay. *)
Inductive decay_step : WarmthState -> WarmthState -> Prop :=
  | ds_hot_warm : decay_step HOT WARM
  | ds_warm_partial : decay_step WARM PARTIALLY_WARM
  | ds_partial_cold : decay_step PARTIALLY_WARM COLD
  | ds_stale_inv : decay_step STALE INVALIDATED
  | ds_hot_stale : decay_step HOT STALE
  | ds_warm_stale : decay_step WARM STALE
  | ds_partial_stale : decay_step PARTIALLY_WARM STALE
  | ds_preparing_stale : decay_step PREPARING STALE.

Create HintDb decay.
#[export] Hint Constructors decay_step : decay.

Lemma decay_object_step o p now mp dc dr pr :
  let r := decay_object o p now mp dc dr pr in
  (dr_changed r = true /\ decay_step (state_ o) (dr_state r)) \/
  (dr_changed r = false /\ dr_state r = state_ o).
Proof.
  cbn zeta. unfold decay_object, decay_to_stale, decay_idle.
  destruct (state_ o); cbn; repeat break_match; cbn; subst; auto with decay; try discriminate.
Qed.

(** How far a state can still decay. *)
Definition decay_rank (s : WarmthState) : nat :=
  match s with HOT => 4 | WARM => 3 | PARTIALLY_WARM => 2 | PREPARING => 2 | STALE => 1 | _ => 0 end%nat.

Lemma decay_step_rank s t : decay_step s t -> (decay_rank t < decay_rank s)%nat.
Proof. destruct 1; cbn; lia. Qed.

Lemma decay_step_allowed s t : decay_step s t -> transition_allowed s t = true.
Proof. by destruct 1. Qed.

Lemma decay_step_not_ready s t : decay_step s t -> is_execution_ready t = true -> s = HOT /\ t = WARM.
Proof. by destruct 1. Qed.

(** One turn of the decay loop on one object: [if (res.changed) o.transition(...)]. *)
Definition decay_apply (p : DecayPolicy) (now : Z) (mp dc dr pr : bool) (o : WarmthObject) : WarmthObject :=
  let res := decay_object o p now mp dc dr pr in
  if dr_changed res then transition_ (dr_state res) (decay_reason_name (dr_reason res)) o else o.

Lemma decay_apply_state p now mp dc dr pr o :
  state_ (decay_apply p now mp dc dr pr o) = dr_state (decay_object o p now mp dc dr pr).
Proof.
  unfold decay_apply. destruct (decay_object_step o p now mp dc dr pr) as [[-> Hs]|[-> ->]]; [|done].
  by rewrite transition_state, (decay_step_allowed _ _ Hs).
Qed.

Lemma decay_apply_fix p now mp dc dr pr o :
  state_ (decay_apply p now mp dc dr pr o) = state_ o -> decay_apply p now mp dc dr pr o = o.
Proof.
  rewrite decay_apply_state. unfold decay_apply.
  destruct (decay_object_step o p now mp dc dr pr) as [[-> Hs]|[-> ->]]; [|done].
  intros He. rewrite He in Hs. apply decay_step_rank in Hs. lia.
Qed.

Lemma decay_iter_rank p now mp dc dr pr n o :
  let o' := Nat.iter n (decay_apply p now mp dc dr pr) o in
  decay_apply p now mp dc dr pr o' = o' \/ (decay_rank (state_ o') + n <= decay_rank (state_ o))%nat.
Proof.
  cbn zeta. induction n as [|n IH]; [right; cbn; lia|]. rewrite Nat.iter_succ.
  set (o' := Nat.iter n _ o) in *. destruct IH as [He|Hr]; [left; by rewrite !He|].
  destruct (decay_object_step o' p now mp dc dr pr) as [[Hc Hs]|[Hc Hs]].
  - right. rewrite decay_apply_state. apply decay_step_rank in Hs. lia.
  - left. assert (decay_apply p now mp dc dr pr o' = o') as E by (unfold decay_apply; by rewrite Hc). by rewrite !E.
Qed.

Lemma elapsed_zero start end_ : end_ <= start -> elapsed_seconds start end_ = dzero.
Proof. intros. unfold elapsed_seconds. by rewrite (proj2 (Z.leb_le _ _)) by lia. Qed.

Lemma idle_over_zero t : idle_over t dzero = false.
Proof.
  unfold idle_over, dgt, dge. destruct (dlt dzero t) eqn:H; [|done]. by rewrite dlt_dle.
Qed.

(** ** Properties *)

(** Every decay result is one the guarded transition accepts, so the
    decay loops never lose a result; a decay strictly lowers the rank of the
    state and makes an object execution-ready only by lowering HOT to WARM. *)
Theorem decay_follows_table (o : WarmthObject) (p : DecayPolicy) (now : Z) (mp dc dr pr : bool) :
  let r := decay_object o p now mp dc dr pr in
  (dr_changed r = true ->
     transition_allowed (state_ o) (dr_state r) = true /\
     (decay_rank (dr_state r) < decay_rank (state_ o))%nat /\
     (is_execution_ready (dr_state r) = true -> state_ o = HOT)) /\
  (dr_changed r = false -> dr_state r = state_ o).
Proof.
  cbn zeta. destruct (decay_object_step o p now mp dc dr pr) as [[-> Hs]|[-> ->]]; [|done].
  split; [|done]. intros _. split_and!.
  - by apply decay_step_allowed.
  - by apply decay_step_rank.
  - intros Hr. by destruct (decay_step_not_ready _ _ Hs Hr).
Qed.

(** repeated decay under fixed inputs settles: after at most four turns the
    object no longer changes. *)
Theorem decay_settles (o : WarmthObject) (p : DecayPolicy) (now : Z) (mp dc dr pr : bool) (n : nat) :
  (4 <= n)%nat ->
  let o' := Nat.iter n (decay_apply p now mp dc dr pr) o in
  decay_apply p now mp dc dr pr o' = o'.
Proof.
  intros Hn. cbn zeta. destruct (decay_iter_rank p now mp dc dr pr n o) as [He|Hr]; [done|].
  set (o' := Nat.iter n _ o) in *.
  assert (decay_rank (state_ o) <= 4)%nat by (destruct (state_ o); cbn; lia).
  assert (decay_rank (state_ o') = 0)%nat as H0 by lia. apply decay_apply_fix.
  rewrite decay_apply_state.
  destruct (decay_object_step o' p now mp dc dr pr) as [[_ Hs]|[_ Hs]]; [|done].
  apply decay_step_rank in Hs. lia.
Qed.

Lemma decay_settles_witness :
  let o := put_state_ HOT sample_object in
  let o' := Nat.iter 4 (decay_apply decay_policy_default 0 true false false false) o in
  decay_apply decay_policy_default 0 true false false false o' = o' /\ state_ o' = COLD.
Proof.
  split; [|vm_compute; reflexivity].
  apply (decay_settles _ decay_policy_default 0 true false false false 4). lia.
Defined.

(** an object used at or after the given time does not decay by idling,
    under any policy: with no external trigger and no memory pressure the
    result is unchanged. *)
Theorem decay_fresh_object (o : WarmthObject) (p : DecayPolicy) (now : Z) :
  last_used_ o <> 0 -> now <= last_used_ o ->
  decay_object o p now false false false false = undecayed (state_ o).
Proof.
  intros Hu Hn. unfold decay_object. rewrite (proj2 (Z.eqb_neq _ _) Hu). cbn.
  rewrite elapsed_zero by done. unfold decay_idle. rewrite !idle_over_zero.
  assert (dgt (warm_to_partial_idle_seconds p) dzero && dlt (warm_to_partial_idle_seconds p) (warm_to_stale_idle_seconds p)
    && dge dzero (warm_to_partial_idle_seconds p) = false) as ->.
  { pose proof (idle_over_zero (warm_to_partial_idle_seconds p)) as H. unfold idle_over in H.
    destruct (dgt _ _), (dge _ _); cbn in *; try done; by destruct (dlt _ _). }
  by destruct (state_ o).
Qed.

Lemma decay_fresh_object_witness :
  let o := mark_used 500 (put_state_ HOT sample_object) in
  decay_object o decay_policy_default 400 false false false false = undecayed HOT.
Proof. apply (decay_fresh_object (mark_used 500 (put_state_ HOT sample_object))); cbn; lia. Defined.

(** [decay_on_dependency_change] is not consulted: a dependency change
    makes every object that can decay STALE under every policy, the ones that
    switch this trigger off included. *)
Theorem decay_dependency_flag_ignored (o : WarmthObject) (p : DecayPolicy) (now : Z) (mp dr pr : bool) :
  decay_on_dependency_change p = false -> is_live_warm_state (state_ o) = true ->
  decay_object o p now mp true dr pr = decayed STALE DEPENDENCY_GENERATION_CHANGE.
Proof. intros _ Hl. unfold decay_object, decay_to_stale. by destruct (state_ o). Qed.

Lemma decay_dependency_flag_ignored_witness :
  let o := put_state_ WARM sample_object in
  decay_object o (mkDecayPolicy dzero dzero dzero dzero dzero false false false false false) 0 false true false false
  = decayed STALE DEPENDENCY_GENERATION_CHANGE.
Proof. apply decay_dependency_flag_ignored; reflexivity. Defined.
