(* ===== verification/Budget.v ===== *)
(** * budget.hpp: reservations and accounting

    [BudgetLimits], and [BudgetTracker] with its reservation table, its usage
    counters keyed by the kind's code and its 64-bit id counter. *)

From Stdlib Require Import ZArith Lia String.
From stdpp Require Import base list numbers strings gmap fin_maps sets.
From S2P Require Import Prelude.
Local Open Scope Z_scope.
Local Open Scope warmth_scope.

Inductive WarmthBudgetKind :=
  | DEVICE_MEMORY | PINNED_HOST_MEMORY | HOST_MEMORY | STORAGE_FOOTPRINT
  | CONCURRENT_WARMING_OPS | TRANSFER_BANDWIDTH | ACTIVE_ENGINES | WARM_REPLICAS.

#[export] Instance WarmthBudgetKind_eq_dec : EqDecision WarmthBudgetKind.
Proof. solve_decision. Defined.

Definition WarmthBudgetKind_code (k : WarmthBudgetKind) : Z :=
  match k with
  | DEVICE_MEMORY => 0 | PINNED_HOST_MEMORY => 1 | HOST_MEMORY => 2 | STORAGE_FOOTPRINT => 3
  | CONCURRENT_WARMING_OPS => 4 | TRANSFER_BANDWIDTH => 5 | ACTIVE_ENGINES => 6 | WARM_REPLICAS => 7
  end.

#[export] Program Instance WarmthBudgetKind_enum : UEnum WarmthBudgetKind := {
  enum_all := [DEVICE_MEMORY; PINNED_HOST_MEMORY; HOST_MEMORY; STORAGE_FOOTPRINT;
               CONCURRENT_WARMING_OPS; TRANSFER_BANDWIDTH; ACTIVE_ENGINES; WARM_REPLICAS];
  enum_code := WarmthBudgetKind_code }.
Solve Obligations with solve_enum_field.

Definition budget_kind_name (k : WarmthBudgetKind) : string :=
  match k with
  | DEVICE_MEMORY => "device_memory"
  | PINNED_HOST_MEMORY => "pinned_host_memory"
  | HOST_MEMORY => "host_memory"
  | STORAGE_FOOTPRINT => "storage_footprint"
  | CONCURRENT_WARMING_OPS => "concurrent_warming_ops"
  | TRANSFER_BANDWIDTH => "transfer_bandwidth"
  | ACTIVE_ENGINES => "active_engines"
  | WARM_REPLICAS => "warm_replicas"
  end.

Record BudgetLimits := mkLimits {
  device_memory_bytes : Z;
  pinned_host_memory_bytes : Z;
  host_memory_bytes : Z;
  storage_footprint_bytes : Z;
  concurrent_warming_ops : Z;
  transfer_bandwidth_bps : Z;
  active_engines : Z;
  warm_replicas : Z }.

Definition limits_default : BudgetLimits := mkLimits 0 0 0 0 0 0 0 0.

Definition limits_set (kind : WarmthBudgetKind) (v : Z) (l : BudgetLimits) : BudgetLimits :=
  let '(mkLimits a b c d e f g h) := l in
  match kind with
  | DEVICE_MEMORY => mkLimits v b c d e f g h
  | PINNED_HOST_MEMORY => mkLimits a v c d e f g h
  | HOST_MEMORY => mkLimits a b v d e f g h
  | STORAGE_FOOTPRINT => mkLimits a b c v e f g h
  | CONCURRENT_WARMING_OPS => mkLimits a b c d v f g h
  | TRANSFER_BANDWIDTH => mkLimits a b c d e v g h
  | ACTIVE_ENGINES => mkLimits a b c d e f v h
  | WARM_REPLICAS => mkLimits a b c d e f g v
  end.

Definition limits_get (kind : WarmthBudgetKind) (l : BudgetLimits) : Z :=
  match kind with
  | DEVICE_MEMORY => device_memory_bytes l
  | PINNED_HOST_MEMORY => pinned_host_memory_bytes l
  | HOST_MEMORY => host_memory_bytes l
  | STORAGE_FOOTPRINT => storage_footprint_bytes l
  | CONCURRENT_WARMING_OPS => concurrent_warming_ops l
  | TRANSFER_BANDWIDTH => transfer_bandwidth_bps l
  | ACTIVE_ENGINES => active_engines l
  | WARM_REPLICAS => warm_replicas l
  end.

Definition limits_wf (l : BudgetLimits) : Prop := forall k, uint 64 (limits_get k l).

Inductive BudgetError := BE_NONE | LIMIT_EXCEEDED | UNKNOWN_RESERVATION | DOUBLE_RELEASE | BE_OVERFLOW.
Definition budget_error_name (e : BudgetError) : string :=
  match e with
  | BE_NONE => "NONE"
  | LIMIT_EXCEEDED => "LIMIT_EXCEEDED"
  | UNKNOWN_RESERVATION => "UNKNOWN_RESERVATION"
  | DOUBLE_RELEASE => "DOUBLE_RELEASE"
  | BE_OVERFLOW => "OVERFLOW"
  end.

(** [struct Res]. *)
Record Res := mkRes { res_kind : WarmthBudgetKind; res_amount : Z; res_tag : string }.

Record BudgetTracker := mkTracker {
  limits_ : BudgetLimits;
  reservations_ : gmap Z Res;
  usage_ : gmap Z Z;
  next_id_ : Z }.

Definition budget_new (limits : BudgetLimits) : BudgetTracker := mkTracker limits ∅ ∅ 1.

Definition set_limit (kind : WarmthBudgetKind) (v : Z) (t : BudgetTracker) : BudgetTracker :=
  mkTracker (limits_set kind v (limits_ t)) (reservations_ t) (usage_ t) (next_id_ t).

Definition usage (t : BudgetTracker) (kind : WarmthBudgetKind) : Z :=
  default 0 (usage_ t !! enum_code kind).

Definition fits (t : BudgetTracker) (kind : WarmthBudgetKind) (amount : Z) : bool :=
  let u := usage t kind in
  let lim := limits_get kind (limits_ t) in
  if lim =? 0 then true else (amount <=? lim) && (u <=? lim - amount).

Definition can_reserve := fits.

(** [next_id_++], skipping 0 when the counter wraps. *)
Definition next_id (t : BudgetTracker) : Z * BudgetTracker :=
  let bump v := mkTracker (limits_ t) (reservations_ t) (usage_ t) v in
  let v := next_id_ t in
  let n := u64 (v + 1) in
  if v =? 0 then (n, bump (u64 (n + 1))) else (v, bump n).

(** The id (0 on failure), the [*error] out-parameter and the new tracker.
    [emplace] keeps an existing entry; [usage_[key] += amount] wraps. *)
Definition reserve (kind : WarmthBudgetKind) (amount : Z) (tag : string) (t : BudgetTracker)
  : Z * BudgetError * BudgetTracker :=
  if amount =? 0 then (0, BE_NONE, t)
  else
    let lim := limits_get kind (limits_ t) in
    if negb (lim =? 0) && (lim <? amount) then (0, LIMIT_EXCEEDED, t)
    else if negb (fits t kind amount) then (0, LIMIT_EXCEEDED, t)
    else
      let '(id, t) := next_id t in
      let rs := match reservations_ t !! id with
                | Some _ => reservations_ t
                | None => <[id := mkRes kind amount tag]> (reservations_ t)
                end in
      let us := <[enum_code kind := u64 (usage t kind + amount)]> (usage_ t) in
      (id, BE_NONE, mkTracker (limits_ t) rs us (next_id_ t)).

Definition release (id : Z) (t : BudgetTracker) : BudgetError * BudgetTracker :=
  if id =? 0 then (UNKNOWN_RESERVATION, t)
  else
    match reservations_ t !! id with
    | None => (DOUBLE_RELEASE, t)
    | Some r =>
        let u := usage t (res_kind r) in
        let u' := if u <=? res_amount r then 0 else u - res_amount r in
        (BE_NONE, mkTracker (limits_ t) (delete id (reservations_ t))
                    (<[enum_code (res_kind r) := u']> (usage_ t)) (next_id_ t))
    end.

(** [budget_.release(id);] with the result dropped. *)
Definition release_ (id : Z) (t : BudgetTracker) : BudgetTracker := (release id t).2.

Definition any_usage (t : BudgetTracker) : bool := bool_decide (usage_ t <> ∅).
Definition outstanding (t : BudgetTracker) : nat := size (reservations_ t).
Definition balanced (t : BudgetTracker) : bool := bool_decide (reservations_ t = ∅).

(** ** The accounting invariant *)

(** What the outstanding reservations of a kind add up to. *)
Definition res_share (k : WarmthBudgetKind) (r : Res) : Z :=
  if decide (res_kind r = k) then res_amount r else 0.
Definition reserved (k : WarmthBudgetKind) (m : gmap Z Res) : Z :=
  map_fold (fun _ r acc => res_share k r + acc) 0 m.

(** The part of the invariant that says which ids are live: it holds whatever
    the amounts are. *)
Definition ids_fresh (t : BudgetTracker) : Prop :=
  0 < next_id_ t < 2 ^ 64 /\ forall id r, reservations_ t !! id = Some r -> 0 < id < next_id_ t.

Record budget_inv (t : BudgetTracker) : Prop := {
  bi_ids : ids_fresh t;
  bi_usage : forall k, usage t k = reserved k (reservations_ t);
  bi_amount : forall id r, reservations_ t !! id = Some r -> 0 < res_amount r;
  bi_range : forall k, 0 <= usage t k < 2 ^ 64 }.

(** One client call; [BReserve]'s side condition is that an unlimited kind does
    not overflow its 64-bit counter and that ids are not exhausted. *)
Inductive budget_op :=
  | BReserve (kind : WarmthBudgetKind) (amount : Z) (tag : string)
  | BRelease (id : Z)
  | BSetLimit (kind : WarmthBudgetKind) (v : Z).

Definition budget_apply (op : budget_op) (t : BudgetTracker) : BudgetTracker :=
  match op with
  | BReserve k a tag => (reserve k a tag t).2
  | BRelease id => release_ id t
  | BSetLimit k v => set_limit k v t
  end.

Definition op_fine (op : budget_op) (t : BudgetTracker) : Prop :=
  match op with
  | BReserve k a _ => 0 <= a /\ usage t k + a < 2 ^ 64 /\ next_id_ t + 1 < 2 ^ 64
  | _ => True
  end.

Inductive budget_reach (l : BudgetLimits) : BudgetTracker -> Prop :=
  | br_new : budget_reach l (budget_new l)
  | br_step op t : budget_reach l t -> op_fine op t -> budget_reach l (budget_apply op t).

(** ** Lemmas *)

Lemma kind_code_ne (k k' : WarmthBudgetKind) : k <> k' -> enum_code k <> enum_code k'.
Proof. intros Hne He. by apply Hne, enum_inj. Qed.

Lemma usage_insert l rs us n k k' v :
  usage (mkTracker l rs (<[enum_code k := v]> us) n) k' =
    if decide (k = k') then v else default 0 (us !! enum_code k').
Proof.
  unfold usage. cbn [usage_]. destruct (decide (k = k')) as [->|Hne].
  - by rewrite lookup_insert_eq.
  - rewrite lookup_insert_ne; [done|]. by apply kind_code_ne.
Qed.

Lemma reserved_insert k m id r : m !! id = None -> reserved k (<[id := r]> m) = res_share k r + reserved k m.
Proof. intros Hn. unfold reserved. rewrite map_fold_insert_L; [done| |done]. intros. lia. Qed.

Lemma reserved_delete k m id r : m !! id = Some r -> reserved k m = res_share k r + reserved k (delete id m).
Proof.
  intros Hs. rewrite <- (insert_delete_id m id r Hs) at 1.
  apply reserved_insert, lookup_delete_eq.
Qed.

Lemma reserved_nonneg k m : (forall id r, m !! id = Some r -> 0 < res_amount r) -> 0 <= reserved k m.
Proof.
  induction m as [|id r m Hn IH] using map_ind; intros H; [done|].
  rewrite reserved_insert by done.
  assert (0 < res_amount r) by (apply (H id); by rewrite lookup_insert_eq).
  assert (0 <= reserved k m).
  { apply IH. intros i s Hs. apply (H i). rewrite lookup_insert_ne; [done|congruence]. }
  unfold res_share. destruct (decide _); lia.
Qed.

Lemma next_id_fresh t : ids_fresh t -> next_id_ t + 1 < 2 ^ 64 ->
  next_id t = (next_id_ t, mkTracker (limits_ t) (reservations_ t) (usage_ t) (next_id_ t + 1)) /\
  reservations_ t !! next_id_ t = None.
Proof.
  intros [Hn Hids] Hw. unfold next_id. rewrite (proj2 (Z.eqb_neq _ _)) by lia.
  rewrite wrap_small by (unfold uint; lia). split; [done|].
  destruct (_ !! _) as [r|] eqn:Hl; [|done]. apply Hids in Hl. lia.
Qed.

(** The counter of reservations. *)
Lemma release_next id b : next_id_ (release_ id b) = next_id_ b.
Proof. unfold release_, release. destruct (id =? 0); [done|]. by destruct (_ !! id). Qed.

Lemma reserve_next kind amount tag b : 0 < next_id_ b -> next_id_ b + 1 < 2 ^ 64 ->
  next_id_ b <= next_id_ (reserve kind amount tag b).2 <= next_id_ b + 1.
Proof.
  intros Hp Hlt. unfold reserve. destruct (amount =? 0); [cbn; lia|]. destruct (_ && _); [cbn; lia|]. destruct (negb _); [cbn; lia|].
  unfold next_id. rewrite (proj2 (Z.eqb_neq (next_id_ b) 0)) by lia. cbn. rewrite wrap_small by (unfold uint; lia). lia.
Qed.

(** When [reserve] rejects, and what it rejects with. *)
Definition over_limit (t : BudgetTracker) (k : WarmthBudgetKind) (a : Z) : Prop :=
  limits_get k (limits_ t) <> 0 /\ limits_get k (limits_ t) < usage t k + a.

Lemma fits_spec t k a : 0 <= usage t k -> fits t k a = true <-> ~ over_limit t k a.
Proof.
  intros Hu. unfold fits, over_limit. cbn zeta.
  case (Z.eqb_spec (limits_get k (limits_ t)) 0); intros; [split; [lia|done]|].
  rewrite andb_true_iff, !Z.leb_le. lia.
Qed.

Lemma reserve_fail t k a tag : 0 <= usage t k -> a = 0 \/ over_limit t k a ->
  (reserve k a tag t).1.1 = 0 /\ (reserve k a tag t).2 = t.
Proof.
  intros Hu Hf. unfold reserve. case (Z.eqb_spec a 0); intros; [done|].
  destruct Hf as [|Hf]; [done|]. cbn zeta. destruct (negb _ && _); [done|].
  destruct (fits t k a) eqn:Hfit; [|done]. apply fits_spec in Hfit; tauto.
Qed.

Lemma reserve_ok t k a tag : ids_fresh t -> next_id_ t + 1 < 2 ^ 64 -> 0 <= usage t k ->
  a <> 0 -> ~ over_limit t k a ->
  reserve k a tag t =
    (next_id_ t, BE_NONE,
     mkTracker (limits_ t) (<[next_id_ t := mkRes k a tag]> (reservations_ t))
       (<[enum_code k := wrap 64 (usage t k + a)]> (usage_ t)) (next_id_ t + 1)) /\
  reservations_ t !! next_id_ t = None.
Proof.
  intros Hids Hw Hu Ha Hf. destruct (next_id_fresh t Hids Hw) as [Hn Hfresh].
  split; [|done]. unfold reserve. rewrite (proj2 (Z.eqb_neq a 0)) by done. cbn zeta.
  assert (fits t k a = true) as Hfit by by apply fits_spec.
  replace (negb (limits_get k (limits_ t) =? 0) && (limits_get k (limits_ t) <? a)) with false.
  - rewrite Hfit. cbn [negb]. rewrite Hn. cbn [reservations_ usage_ limits_ next_id_]. by rewrite Hfresh.
  - symmetry. apply andb_false_iff. unfold over_limit in Hf.
    rewrite negb_false_iff, Z.eqb_eq, Z.ltb_ge. lia.
Qed.

Lemma release_spec t id r : id <> 0 -> reservations_ t !! id = Some r ->
  release id t = (BE_NONE, mkTracker (limits_ t) (delete id (reservations_ t))
     (<[enum_code (res_kind r) :=
         if usage t (res_kind r) <=? res_amount r then 0 else usage t (res_kind r) - res_amount r]> (usage_ t))
     (next_id_ t)).
Proof. intros Hid Hr. unfold release. by rewrite (proj2 (Z.eqb_neq id 0)), Hr by done. Qed.

Lemma release_reservations t id : ids_fresh t -> reservations_ (release_ id t) = delete id (reservations_ t).
Proof.
  intros [_ Hids]. unfold release_, release. destruct (Z.eqb_spec id 0) as [->|].
  - cbn. rewrite delete_id; [done|]. destruct (_ !! _) eqn:Hl; [|done]. apply Hids in Hl. lia.
  - destruct (_ !! id) eqn:Hl; [done|]. by rewrite delete_id.
Qed.

Lemma release_next_id t id : next_id_ (release_ id t) = next_id_ t.
Proof. unfold release_, release. destruct (id =? 0); [done|]. by destruct (_ !! id). Qed.

Lemma release_limits t id : limits_ (release_ id t) = limits_ t.
Proof. unfold release_, release. destruct (id =? 0); [done|]. by destruct (_ !! id). Qed.

Lemma release_ids_fresh t id : ids_fresh t -> ids_fresh (release_ id t).
Proof.
  intros Hf. pose proof Hf as [Hn Hids]. split; [by rewrite release_next_id|].
  intros i r. rewrite release_reservations, release_next_id by done.
  intros [_ Hl]%lookup_delete_Some. by apply Hids in Hl.
Qed.

(** Releases of different ids commute on the reservation table. *)
Lemma release_unknown t id : reservations_ t !! id = None -> release_ id t = t.
Proof. intros Hl. unfold release_, release. destruct (id =? 0); [done|]. by rewrite Hl. Qed.

Lemma budget_new_inv l : budget_inv (budget_new l).
Proof.
  constructor; try done.
Qed.

Lemma reserve_inv t k a tag : budget_inv t -> op_fine (BReserve k a tag) t ->
  budget_inv (reserve k a tag t).2.
Proof.
  intros Hi (Ha & Hov & Hw). pose proof Hi as [Hids Hu Ham Hr]. pose proof (Hr k) as Hrk.
  destruct (decide (a = 0 \/ over_limit t k a)) as [Hf|Hf].
  { apply reserve_fail with (tag := tag) in Hf as [_ ->]; [done|lia]. }
  destruct (reserve_ok t k a tag) as [-> Hfresh]; try done; [lia|tauto|tauto|]. cbn [snd].
  assert (0 < a) by (destruct (decide (a = 0)); [tauto|lia]).
  rewrite wrap_small by (unfold uint; lia). destruct Hids as [Hn Hids]. constructor.
  - split; [cbn; lia|]. intros id r. cbn [reservations_ next_id_].
    intros [[<- _]|[_ Hl]]%lookup_insert_Some; [lia|]. apply Hids in Hl. lia.
  - intros k'. rewrite usage_insert. cbn [reservations_]. rewrite reserved_insert by done.
    unfold res_share. cbn [res_kind res_amount]. fold (usage t k').
    destruct (decide (k = k')) as [->|]; rewrite <- Hu; lia.
  - intros id r. cbn [reservations_]. intros [[_ <-]|[_ Hl]]%lookup_insert_Some; [cbn; lia|by apply Ham in Hl].
  - intros k'. rewrite usage_insert. fold (usage t k'). destruct (decide _); [lia|done].
Qed.

Lemma release_inv t id : budget_inv t -> budget_inv (release_ id t).
Proof.
  intros Hi. pose proof Hi as [Hids Hu Ham Hr].
  destruct (reservations_ t !! id) as [r|] eqn:Hl; [|by rewrite release_unknown].
  assert (0 < id) by (destruct Hids as [_ Hids]; apply Hids in Hl; lia).
  unfold release_. rewrite (release_spec t id r) by (done || lia). cbn [snd].
  pose proof (reserved_delete (res_kind r) _ _ _ Hl) as Hd. rewrite <- Hu in Hd.
  assert (0 < res_amount r) by by apply (Ham id).
  assert (forall k, 0 <= reserved k (delete id (reservations_ t))) as Hnn.
  { intros k. apply reserved_nonneg. intros i s [_ Hs]%lookup_delete_Some. by apply (Ham i). }
  pose proof (Hnn (res_kind r)). unfold res_share in Hd. rewrite decide_True in Hd by done.
  assert ((if usage t (res_kind r) <=? res_amount r then 0 else usage t (res_kind r) - res_amount r)
          = reserved (res_kind r) (delete id (reservations_ t))) as ->.
  { case Z.leb_spec; lia. }
  pose proof (Hr (res_kind r)). destruct Hids as [Hn Hids]. constructor.
  - split; [done|]. intros i s. cbn. intros [_ Hs]%lookup_delete_Some. by apply (Hids i s).
  - intros k. rewrite usage_insert. cbn [reservations_]. fold (usage t k).
    destruct (decide (res_kind r = k)) as [->|Hne]; [done|].
    rewrite Hu, (reserved_delete k _ _ _ Hl). unfold res_share. by rewrite decide_False.
  - intros i s. cbn. intros [_ Hs]%lookup_delete_Some. by apply (Ham i).
  - intros k. rewrite usage_insert. fold (usage t k). destruct (decide _) as [<-|]; [lia|done].
Qed.

Lemma set_limit_inv t k v : budget_inv t -> budget_inv (set_limit k v t).
Proof. intros [Hids Hu Ham Hr]. by constructor. Qed.

Lemma budget_reach_inv l t : budget_reach l t -> budget_inv t.
Proof.
  induction 1 as [|[k a tag|id|k v] t Ht IH Hop]; cbn [budget_apply].
  - apply budget_new_inv.
  - by apply reserve_inv.
  - by apply release_inv.
  - by apply set_limit_inv.
Qed.

(** [op_fine] is decidable, so that it evaluates at a concrete tracker. *)
#[export] Instance op_fine_dec op t : Decision (op_fine op t).
Proof. destruct op; apply _. Defined.

#[export] Hint Resolve budget_new_inv release_inv set_limit_inv release_ids_fresh : warmth.

(** ** Properties *)

(** the accounting identity over any sequence of calls: the usage of every
    kind is what the outstanding reservations of that kind add up to; in
    particular a balanced tracker has no usage left at all. *)
Theorem budget_accounting (l : BudgetLimits) (t : BudgetTracker) :
  budget_reach l t ->
  (forall k, usage t k = reserved k (reservations_ t)) /\
  (balanced t = true -> forall k, usage t k = 0).
Proof.
  intros Ht%budget_reach_inv. split; [apply Ht|]. unfold balanced. rewrite bool_decide_eq_true.
  intros He k. rewrite (bi_usage t Ht), He. done.
Qed.

Definition budget_example : BudgetTracker :=
  budget_apply (BReserve CONCURRENT_WARMING_OPS 1 "b")
    (budget_apply (BReserve DEVICE_MEMORY 100 "a") (budget_new limits_default)).

Lemma budget_accounting_witness :
  usage budget_example DEVICE_MEMORY = reserved DEVICE_MEMORY (reservations_ budget_example) /\
  usage budget_example DEVICE_MEMORY = 100.
Proof.
  split; [|vm_compute; reflexivity]. apply (budget_accounting limits_default).
  apply br_step; [apply br_step; [apply br_new|]|]; apply (bool_decide_unpack _); vm_compute; exact I.
Defined.

(** admission: [reserve] fails (id 0, tracker untouched) exactly when the
    amount is zero or the request would push a limited kind over its limit;
    an accepted request adds exactly its amount to the usage of its kind and
    to no other. *)
Theorem reserve_admission (t : BudgetTracker) (k : WarmthBudgetKind) (a : Z) (tag : string) :
  budget_inv t -> op_fine (BReserve k a tag) t ->
  let '(id, _, t') := reserve k a tag t in
  (id = 0 <-> a = 0 \/ over_limit t k a) /\
  (id = 0 -> t' = t) /\
  (id <> 0 -> reservations_ t !! id = None /\ reservations_ t' = <[id := mkRes k a tag]> (reservations_ t) /\
     forall k', usage t' k' = usage t k' + (if decide (k = k') then a else 0)).
Proof.
  intros Hi (Ha & Hov & Hw). pose proof (bi_range t Hi k). pose proof (bi_ids t Hi) as Hids.
  destruct (decide (a = 0 \/ over_limit t k a)) as [Hf|Hf].
  - pose proof (reserve_fail t k a tag ltac:(lia) Hf) as [E1 E2].
    destruct (reserve k a tag t) as [[id e] t']. cbn in *. subst. split_and!; try done.
  - destruct (reserve_ok t k a tag) as [-> Hfresh]; try done; [lia|tauto|tauto|].
    destruct Hids as [Hn _]. split_and!; try done; [split; [lia|tauto]|lia|].
    intros _. split_and!; [done|done|]. intros k'. rewrite usage_insert. fold (usage t k').
    destruct (decide (k = k')) as [->|]; [apply wrap_small; unfold uint|]; lia.
Qed.

Lemma reserve_admission_witness :
  let '(id, _, t') := reserve DEVICE_MEMORY 30 "" (set_limit DEVICE_MEMORY 50 (budget_new limits_default)) in
  id = 1 /\ usage t' DEVICE_MEMORY = 30.
Proof.
  pose proof (reserve_admission (set_limit DEVICE_MEMORY 50 (budget_new limits_default)) DEVICE_MEMORY 30 ""
    (set_limit_inv _ _ _ (budget_new_inv _)) ltac:(apply (bool_decide_unpack _); vm_compute; exact I)) as H.
  vm_compute in H |- *. destruct H as (_ & _ & H). split; [reflexivity|].
  destruct (H ltac:(discriminate)) as (_ & _ & Hu). exact (Hu DEVICE_MEMORY).
Defined.

(** a reservation is released once: the first [release] gives the amount
    back, a second one reports DOUBLE_RELEASE and changes nothing. *)
Theorem release_once (t : BudgetTracker) (id : Z) (r : Res) :
  budget_inv t -> reservations_ t !! id = Some r ->
  (release id t).1 = BE_NONE /\
  (forall k, usage (release_ id t) k = usage t k - res_share k r) /\
  release id (release_ id t) = (DOUBLE_RELEASE, release_ id t).
Proof.
  intros Hi Hl. pose proof (release_inv t id Hi) as Hi'.
  assert (0 < id) by (destruct (bi_ids t Hi) as [_ Hids]; apply Hids in Hl; lia).
  pose proof (release_reservations t id (bi_ids t Hi)) as Hrs. split_and!.
  - by rewrite (release_spec t id r) by (done || lia).
  - intros k. rewrite (bi_usage _ Hi'), Hrs, (bi_usage t Hi), (reserved_delete k _ _ _ Hl). lia.
  - unfold release at 1. rewrite (proj2 (Z.eqb_neq _ _)) by lia. by rewrite Hrs, lookup_delete_eq.
Qed.

Lemma release_once_witness :
  (release 1 budget_example).1 = BE_NONE /\ usage (release_ 1 budget_example) DEVICE_MEMORY = 0.
Proof.
  assert (budget_inv budget_example) as Hi.
  { apply (budget_reach_inv limits_default).
    apply br_step; [apply br_step; [apply br_new|]|]; apply (bool_decide_unpack _); vm_compute; exact I. }
  destruct (release_once budget_example 1 (mkRes DEVICE_MEMORY 100 "a") Hi ltac:(vm_compute; reflexivity)) as (H1 & H2 & _).
  split; [exact H1|]. specialize (H2 DEVICE_MEMORY). vm_compute in H2 |- *. exact H2.
Defined.

(** for an unlimited kind the 64-bit usage counter wraps silently: two
    reservations of 2^63 bytes are accepted, no OVERFLOW is ever reported, and
    the usage reads 0 with both outstanding. *)
Theorem unlimited_usage_wraps :
  let r1 := reserve DEVICE_MEMORY (2 ^ 63) "" (budget_new limits_default) in
  let r2 := reserve DEVICE_MEMORY (2 ^ 63) "" r1.2 in
  r1.1 = (1, BE_NONE) /\ r2.1 = (2, BE_NONE) /\
  outstanding r2.2 = 2%nat /\ usage r2.2 DEVICE_MEMORY = 0.
Proof. vm_compute. auto. Qed.

(** [any_usage] reports whether a counter was ever touched, not whether
    anything is in use: after reserving and releasing, the tracker is balanced
    with zero usage and [any_usage] is still true. *)
Theorem any_usage_sticky (t : BudgetTracker) (id : Z) (r : Res) :
  reservations_ t !! id = Some r -> id <> 0 -> any_usage (release_ id t) = true.
Proof.
  intros Hl Hid. unfold release_. rewrite (release_spec t id r) by done. unfold any_usage. cbn [snd usage_].
  apply bool_decide_eq_true. apply insert_non_empty.
Qed.

Lemma any_usage_sticky_witness :
  let t := release_ 2 (release_ 1 budget_example) in
  any_usage t = true /\ balanced t = true /\ usage t DEVICE_MEMORY = 0.
Proof.
  cbn zeta. split; [|vm_compute; auto].
  apply (any_usage_sticky (release_ 1 budget_example) 2 (mkRes CONCURRENT_WARMING_OPS 1 "b")); [vm_compute; reflexivity|lia].
Defined.
