(* ===== verification/Ledger.v ===== *)
(** * What the clients of the budget tracker rely on

    The fabric and the coordinator hold reservations for the operations they
    have in flight.  [holds b l] says that the tracker's table is exactly the
    list [l] of reservations its client knows about; [reserve] and [release]
    act on that list, and everything a client observes is a function of it. *)

From Stdlib Require Import ZArith Lia String.
From stdpp Require Import base list numbers strings gmap fin_maps.
From S2P Require Import Prelude Budget.
Local Open Scope Z_scope.

Abbreviation ledger := (list (Z * Res)).

Record holds (b : BudgetTracker) (l : ledger) : Prop := {
  h_inv : budget_inv b;
  h_keys : NoDup l.*1;
  h_table : reservations_ b = list_to_map l }.

Definition ledger_sum (k : WarmthBudgetKind) (l : ledger) : Z :=
  fold_right (fun e acc => res_share k e.2 + acc) 0 l.

(** A kind is within its limit, if it has one. *)
Definition within_limit (b : BudgetTracker) (k : WarmthBudgetKind) : Prop :=
  limits_get k (limits_ b) = 0 \/ usage b k <= limits_get k (limits_ b).

Lemma reserved_ledger k l : NoDup l.*1 -> reserved k (list_to_map l) = ledger_sum k l.
Proof.
  induction l as [|[id r] l IH]; intros Hnd; [done|]. apply NoDup_cons in Hnd as [Hid Hnd].
  cbn [list_to_map foldr fold_right ledger_sum fst snd]. rewrite reserved_insert; [by rewrite IH|].
  by apply not_elem_of_list_to_map_1.
Qed.

Lemma ledger_sum_app k l1 l2 : ledger_sum k (l1 ++ l2) = ledger_sum k l1 + ledger_sum k l2.
Proof. induction l1 as [|e l1 IH]; [done|]. cbn [ledger_sum fold_right app]. fold (ledger_sum k). rewrite <- Z.add_assoc. f_equal. exact IH. Qed.

Lemma holds_new limits : holds (budget_new limits) [].
Proof. split; [apply budget_new_inv|constructor|done]. Qed.

Lemma holds_perm b l l' : l ≡ₚ l' -> holds b l -> holds b l'.
Proof.
  intros Hp [Hi Hk Ht]. split; [done|by rewrite <- Hp|].
  rewrite Ht. by apply list_to_map_proper.
Qed.

Lemma holds_set_limit b l k v : holds b l -> holds (set_limit k v b) l.
Proof. intros [Hi Hk Ht]. split; [by apply set_limit_inv|done|done]. Qed.

Section client.
Variables (b : BudgetTracker) (l : ledger).
Hypothesis Hb : holds b l.

Lemma holds_fresh id : is_Some (reservations_ b !! id) <-> id ∈ l.*1.
Proof.
  rewrite (h_table _ _ Hb). split.
  - intros [r Hr]. apply elem_of_list_to_map_2 in Hr. apply list_elem_of_fmap. by exists (id, r).
  - intros Hin. destruct (list_to_map l !! id) eqn:E; [by eexists|]. by apply not_elem_of_list_to_map_2 in E.
Qed.

Lemma holds_ids_pos id : id ∈ l.*1 -> 0 < id < next_id_ b.
Proof. intros [r Hr]%holds_fresh. by apply (bi_ids _ (h_inv _ _ Hb)) in Hr. Qed.

(** Reserving adds an entry with a new id, or changes nothing. *)
Lemma holds_reserve k a tag : op_fine (BReserve k a tag) b -> 0 < a ->
  let '(id, _, b') := reserve k a tag b in
  (id = 0 /\ b' = b /\ over_limit b k a) \/
  (0 < id /\ id ∉ l.*1 /\ holds b' ((id, mkRes k a tag) :: l) /\
   next_id_ b' = next_id_ b + 1 /\ limits_ b' = limits_ b /\
   forall k', within_limit b k' -> within_limit b' k').
Proof.
  intros Hf Ha. pose proof Hf as (_ & Hov & Hw). pose proof (h_inv _ _ Hb) as Hi.
  pose proof (bi_range _ Hi k). pose proof (reserve_inv b k a tag Hi Hf) as Hi'.
  destruct (decide (over_limit b k a)) as [Ho|Ho].
  - pose proof (reserve_fail b k a tag ltac:(lia) (or_intror Ho)) as [E1 E2].
    destruct (reserve k a tag b) as [[id e] b']. cbn in *. subst. by left.
  - destruct (reserve_ok b k a tag) as [E Hfresh]; try done; [apply Hi|lia|lia|].
    rewrite E in *. cbn [snd] in Hi'. right. pose proof (bi_ids _ Hi) as [Hn _].
    assert (next_id_ b ∉ l.*1) as Hni.
    { rewrite <- holds_fresh, Hfresh. by intros [? ?]. }
    split_and!; try done; [lia| |].
    + split; [done|apply NoDup_cons; split; [done|apply (h_keys _ _ Hb)]|].
      cbn [reservations_]. by rewrite (h_table _ _ Hb).
    + intros k'. unfold within_limit. rewrite usage_insert. cbn [limits_]. fold (usage b k').
      unfold over_limit in Ho. rewrite wrap_small by (unfold uint; lia).
      destruct (decide (k = k')) as [<-|]; lia.
Qed.

(** Releasing an entry removes it. *)
Lemma holds_usage k : usage b k = ledger_sum k l.
Proof. rewrite (bi_usage _ (h_inv _ _ Hb)), (h_table _ _ Hb). apply reserved_ledger, (h_keys _ _ Hb). Qed.

Lemma holds_outstanding : outstanding b = length l.
Proof. unfold outstanding. rewrite (h_table _ _ Hb). rewrite map_size_list_to_map; [done|apply (h_keys _ _ Hb)]. Qed.

Lemma holds_balanced : balanced b = true <-> l = [].
Proof.
  unfold balanced. rewrite bool_decide_eq_true, (h_table _ _ Hb). split; [|by intros ->].
  destruct l as [|[id r] l']; [done|]. cbn. intros He. by apply insert_non_empty in He.
Qed.
End client.

Lemma holds_release b id r l : holds b ((id, r) :: l) -> holds (release_ id b) l.
Proof.
  intros Hb. pose proof Hb as [Hi Hk Ht]. apply NoDup_cons in Hk as [Hid Hk].
  split; [by apply release_inv|done|]. rewrite release_reservations, Ht by apply Hi. cbn.
  rewrite delete_insert_id; [done|]. by apply not_elem_of_list_to_map_1.
Qed.

(** Releasing an id that is not held changes nothing. *)
Lemma holds_release_unknown b id l : holds b l -> id ∉ l.*1 -> release_ id b = b.
Proof.
  intros Hb Hid. apply release_unknown. destruct (reservations_ b !! id) eqn:E; [|done].
  destruct Hid. by apply (holds_fresh b l Hb).
Qed.

(** Limits are respected by every call. *)
Lemma holds_release_within b id r l k : holds b ((id, r) :: l) -> within_limit b k -> within_limit (release_ id b) k.
Proof.
  intros Hb. apply holds_release in Hb as Hb'. unfold within_limit. rewrite release_limits, (holds_usage _ _ Hb'), (holds_usage _ _ Hb).
  assert (0 < res_amount r).
  { apply (bi_amount _ (h_inv _ _ Hb) id). rewrite (h_table _ _ Hb). apply lookup_insert_eq. }
  change (ledger_sum k ((id, r) :: l)) with (res_share k r + ledger_sum k l).
  unfold res_share. destruct (decide _); lia.
Qed.

#[export] Hint Resolve holds_new holds_set_limit : warmth.
