(* ===== verification/Cost.v ===== *)
(** * cost_model.hpp: the readiness cost estimate

    [CostBreakdown], [ReadinessCost] and [cost_model::estimate]; the 64-bit
    sums wrap and the time is accumulated in [double]s in the order of the
    code. *)

From Stdlib Require Import ZArith Lia String.
From stdpp Require Import base list numbers strings sets.
From S2P Require Import Prelude Float64 State Object.
Local Open Scope Z_scope.
Local Open Scope warmth_scope.

Inductive CostKind := CK_UNKNOWN | CK_ESTIMATED | CK_MEASURED | CK_REPORTED | CK_DERIVED.

Definition cost_kind_name (k : CostKind) : string :=
  match k with
  | CK_UNKNOWN => "UNKNOWN"
  | CK_ESTIMATED => "ESTIMATED"
  | CK_MEASURED => "MEASURED"
  | CK_REPORTED => "REPORTED"
  | CK_DERIVED => "DERIVED"
  end.

Record CostBreakdown := mkCost {
  bytes_to_transfer : Z;
  bytes_resident : Z;
  artifacts_to_validate : Z;
  kernels_to_prepare : Z;
  graphs_to_prepare : Z;
  context_init_steps : Z;
  adapter_activation_bytes : Z;
  tokenizer_init_steps : Z;
  prefix_kv_bytes : Z;
  allocator_init_steps : Z;
  engine_startup_ms : Z;
  sync_cost_ms : Z;
  dependency_checks : Z }.

Definition cost_zero : CostBreakdown := mkCost 0 0 0 0 0 0 0 0 0 0 0 0 0.

Definition total_bytes (c : CostBreakdown) : Z :=
  u64 (bytes_to_transfer c + bytes_resident c + adapter_activation_bytes c + prefix_kv_bytes c).

Definition is_zero (c : CostBreakdown) : bool :=
  (bytes_to_transfer c =? 0) && (bytes_resident c =? 0) && (artifacts_to_validate c =? 0) &&
  (kernels_to_prepare c =? 0) && (graphs_to_prepare c =? 0) && (context_init_steps c =? 0) &&
  (adapter_activation_bytes c =? 0) && (tokenizer_init_steps c =? 0) && (prefix_kv_bytes c =? 0) &&
  (allocator_init_steps c =? 0) && (engine_startup_ms c =? 0) && (sync_cost_ms c =? 0) &&
  (dependency_checks c =? 0).

Record ReadinessCost := mkReadinessCost {
  cost_kind : CostKind;
  estimated : CostBreakdown;
  measured : CostBreakdown;
  expected_ttfu_ms : double;
  observed_ttfu_ms : double }.

Definition has_measurement (c : ReadinessCost) : bool :=
  negb (is_zero (measured c)) || dgt (observed_ttfu_ms c) dzero.

(** [s == a || s == b || ...]. *)
Definition status_in (l : list DimensionStatus) (s : DimensionStatus) : bool := bool_decide (s ∈ l).

(** [const bool cold], [partial] and [warm] of [estimate]. *)
Definition cost_cold (st : WarmthState) : bool := bool_decide (st ∈ [COLD; DISCOVERED; EVICTED; INVALIDATED]).
Definition cost_warm (st : WarmthState) : bool := bool_decide (st ∈ [WARM; HOT]).

(** The integer part of [estimate]: the fields of [cost.estimated]. *)
Definition estimate_breakdown (obj : WarmthObject) (model_bytes : Z) : CostBreakdown :=
  let d := dims_ obj in
  let st := state_ obj in
  let cold := cost_cold st in
  let partial := bool_decide (st = PARTIALLY_WARM) in
  let warm := cost_warm st in
  let bytes := if model_bytes =? 0 then Z.shiftl 1 30 else model_bytes in
  let transfer := if status_in [D_COLD; D_DISCOVERED] (artifact_availability d) then bytes else 0 in
  let transfer := if status_in [D_COLD] (model_residency d) then u64 (transfer + bytes) else transfer in
  let validate := if status_in [D_COLD; D_DISCOVERED; D_PARTIAL] (artifact_validation d) then 1 else 0 in
  let kernels := if status_in [D_COLD; D_DISCOVERED] (kernel_readiness d) then 1 else 0 in
  let graphs := if status_in [D_COLD; D_DISCOVERED] (graph_readiness d) then 1 else 0 in
  let context := if status_in [D_COLD; D_DISCOVERED] (cuda_context_readiness d) then 1 else 0 in
  let adapter := if status_in [D_COLD; D_DISCOVERED] (adapter_residency d) then Z.shiftl 1 28 else 0 in
  let tokenizer := if status_in [D_COLD] (tokenizer_readiness d) then 1 else 0 in
  let allocator := if status_in [D_COLD] (allocator_readiness d) then 1 else 0 in
  let prefix := if status_in [D_PARTIAL] (prefix_kv_reuse d) then Z.shiftl 1 26 else 0 in
  let engine := if status_in [D_COLD; D_DISCOVERED] (engine_readiness d) then (if cold then 900 else 200) else 0 in
  let checks := if negb (all_ready d) then 1 else 0 in
  let checks := if any_suspect d then u64 (checks + 1) else checks in
  let sync := if 0 <? checks then (if warm then 2 else if partial then 60 else 250) else 0 in
  mkCost transfer 0 validate kernels graphs context adapter tokenizer prefix allocator engine sync checks.

(** [40e9 * 0.9]: the product of two [double] literals. *)
Definition transfer_rate : double := dmul (d_of_Z 40000000000) (dlit 9 10).

(** [if (n > 0) ttf += ms]. *)
Definition add_if (n ms : Z) (ttf : double) : double := if 0 <? n then dadd ttf (d_of_Z ms) else ttf.

(** The time part of [estimate]: the accumulation of [ttf]. *)
Definition estimate_ttfu (c : CostBreakdown) (cold : bool) : double :=
  let ttf := dzero in
  let ttf := if 0 <? bytes_to_transfer c
             then dadd ttf (ddiv (d_of_Z (bytes_to_transfer c)) transfer_rate) else ttf in
  let ttf := add_if (context_init_steps c) 1200 ttf in
  let ttf := add_if (kernels_to_prepare c) 600 ttf in
  let ttf := add_if (graphs_to_prepare c) 400 ttf in
  let ttf := add_if (adapter_activation_bytes c) 300 ttf in
  let ttf := add_if (tokenizer_init_steps c) 30 ttf in
  let ttf := add_if (allocator_init_steps c) 150 ttf in
  let ttf := add_if (prefix_kv_bytes c) 200 ttf in
  let ttf := dadd ttf (d_of_Z (engine_startup_ms c)) in
  let ttf := dadd ttf (d_of_Z (sync_cost_ms c)) in
  if cold then dadd ttf (d_of_Z 3000) else ttf.

Definition estimate (obj : WarmthObject) (model_bytes : Z) : ReadinessCost :=
  let c := estimate_breakdown obj model_bytes in
  mkReadinessCost CK_ESTIMATED c cost_zero (estimate_ttfu c (cost_cold (state_ obj))) dzero.

(** ** Lemmas *)

Lemma all_ready_usable d : all_ready d = true <-> Forall (fun s => usable s = true) (dims_all d).
Proof.
  unfold all_ready. rewrite bool_decide_eq_true, ready_count_filter. apply (filter_full usable (dims_all d)).
Qed.

(** A usable status is none of those that cost something. *)
Lemma usable_not_in l s : usable s = true ->
  status_in l D_READY = false -> status_in l D_VALID = false -> status_in l s = false.
Proof. by destruct s. Qed.

Lemma usable_not_suspect d : Forall (fun s => usable s = true) (dims_all d) -> any_suspect d = false.
Proof.
  intros H. apply not_true_iff_false. unfold any_suspect. rewrite existsb_exists. intros (s & Hs & He).
  apply bool_decide_eq_true in He. subst. rewrite Forall_forall in H.
  apply list_elem_of_In, H in Hs. done.
Qed.

Lemma estimate_breakdown_ready o mb : all_ready (dims_ o) = true -> estimate_breakdown o mb = cost_zero.
Proof.
  intros Hr. pose proof (proj1 (all_ready_usable _) Hr) as Hu. unfold estimate_breakdown.
  rewrite Hr, (usable_not_suspect _ Hu). unfold dims_all in Hu. rewrite !Forall_cons in Hu. decompose [and] Hu.
  rewrite !usable_not_in by done. reflexivity.
Qed.

(** ** Properties *)

(** the estimate is zero exactly for an object whose twelve dimensions are
    all usable, whatever the model size; such an object costs no time at all
    when its state is not a cold one, and the 3000 ms restart penalty when it
    is. *)
Theorem estimate_zero_iff_ready (o : WarmthObject) (mb : Z) :
  (is_zero (estimated (estimate o mb)) = true <-> all_ready (dims_ o) = true) /\
  (all_ready (dims_ o) = true ->
     expected_ttfu_ms (estimate o mb) = if cost_cold (state_ o) then d_of_Z 3000 else dzero).
Proof.
  split; [split|].
  - intros Hz. destruct (all_ready (dims_ o)) eqn:Hr; [done|]. exfalso.
    cbn [estimate estimated] in Hz. unfold estimate_breakdown in Hz. rewrite Hr in Hz. unfold is_zero in Hz.
    apply andb_true_iff in Hz as [_ Hz]. apply Z.eqb_eq in Hz. cbn [dependency_checks negb] in Hz.
    destruct (any_suspect _); discriminate.
  - intros Hr. cbn [estimate estimated]. by rewrite estimate_breakdown_ready.
  - intros Hr. cbn [estimate expected_ttfu_ms]. rewrite estimate_breakdown_ready by done.
    destruct (cost_cold _); vm_compute; reflexivity.
Qed.

(** the transfer estimate wraps: for a model of 2^63 bytes that is neither
    available nor resident the two contributions cancel, and an object with
    everything still to fetch is estimated to transfer nothing. *)
Theorem estimate_transfer_wraps :
  bytes_to_transfer (estimated (estimate sample_object (2 ^ 63))) = 0 /\
  bytes_to_transfer (estimated (estimate sample_object (2 ^ 62))) = 2 ^ 63.
Proof. vm_compute. auto. Qed.
