(* ===== verification/Policy.v ===== *)
(** * policy.hpp: the warming policy *)

From Stdlib Require Import ZArith String.
From stdpp Require Import base list numbers.
From S2P Require Import Prelude Float64 Identity Decay Budget.
Local Open Scope Z_scope.

Record WarmthPolicy := mkPolicy {
  generation : PolicyGeneration;
  decay : DecayPolicy;
  budgets : BudgetLimits;
  weight_predicted_reuse : double;
  weight_arrival_probability : double;
  weight_latency_class : double;
  weight_priority : double;
  weight_tenant_fairness : double;
  weight_warming_cost : double;
  weight_memory_cost : double;
  weight_transfer_cost : double;
  weight_eviction_risk : double;
  weight_dependency_availability : double;
  weight_current_partial_warmth : double;
  weight_expected_benefit : double }.

(** The default member initialisers, with the given generation. *)
Definition defaults (gen : PolicyGeneration) : WarmthPolicy :=
  mkPolicy gen decay_policy_default limits_default
    (dlit 1 1) (dlit 2 1) (dlit 3 2) (dlit 3 1) (dlit 1 1) (dlit (-1) 1) (dlit (-1) 1) (dlit (-3) 2)
    (dlit (-1) 1) (dlit 2 1) (dlit 2 1) (dlit 5 2).

Definition policy_with_generation (gen : PolicyGeneration) (p : WarmthPolicy) : WarmthPolicy :=
  mkPolicy gen (decay p) (budgets p) (weight_predicted_reuse p) (weight_arrival_probability p)
    (weight_latency_class p) (weight_priority p) (weight_tenant_fairness p) (weight_warming_cost p)
    (weight_memory_cost p) (weight_transfer_cost p) (weight_eviction_risk p)
    (weight_dependency_availability p) (weight_current_partial_warmth p) (weight_expected_benefit p).

(** The doubles of a policy in the order in which [policy_weights] lists them
    and the persistence writes them. *)
Definition policy_weights (p : WarmthPolicy) : list double :=
  [weight_predicted_reuse p; weight_arrival_probability p; weight_latency_class p; weight_priority p;
   weight_tenant_fairness p; weight_warming_cost p; weight_memory_cost p; weight_transfer_cost p;
   weight_eviction_risk p; weight_dependency_availability p; weight_current_partial_warmth p;
   weight_expected_benefit p].
