(* ===== verification/Scheduler.v ===== *)
(** * scheduler.hpp: warming plans

    Preferences, their score, and [PlanBuilder]: the deterministic order
    (descending score, then ascending id) and the plan built from it. *)

From Stdlib Require Import ZArith Lia String.
From stdpp Require Import base list numbers strings sorting.
From S2P Require Import Prelude Float64 Identity Policy.
Local Open Scope Z_scope.

Inductive WarmthAction :=
  | VALIDATE_ARTIFACT | LOAD_MODEL | TRANSFER_HOST_DEVICE | ACTIVATE_ADAPTER | INIT_TOKENIZER
  | INIT_CUDA_CONTEXT | LOAD_MODULE | PREPARE_KERNEL | CAPTURE_GRAPH | INSTANTIATE_GRAPH
  | PREPARE_ALLOCATOR | WARMUP_EXECUTION | ACQUIRE_PREFIX_KV | INIT_ENGINE.

#[export] Instance WarmthAction_eq_dec : EqDecision WarmthAction.
Proof. solve_decision. Defined.

Definition WarmthAction_code (a : WarmthAction) : Z :=
  match a with
  | VALIDATE_ARTIFACT => 0 | LOAD_MODEL => 1 | TRANSFER_HOST_DEVICE => 2 | ACTIVATE_ADAPTER => 3
  | INIT_TOKENIZER => 4 | INIT_CUDA_CONTEXT => 5 | LOAD_MODULE => 6 | PREPARE_KERNEL => 7
  | CAPTURE_GRAPH => 8 | INSTANTIATE_GRAPH => 9 | PREPARE_ALLOCATOR => 10 | WARMUP_EXECUTION => 11
  | ACQUIRE_PREFIX_KV => 12 | INIT_ENGINE => 13
  end.

#[export] Program Instance WarmthAction_enum : UEnum WarmthAction := {
  enum_all := [VALIDATE_ARTIFACT; LOAD_MODEL; TRANSFER_HOST_DEVICE; ACTIVATE_ADAPTER; INIT_TOKENIZER;
    INIT_CUDA_CONTEXT; LOAD_MODULE; PREPARE_KERNEL; CAPTURE_GRAPH; INSTANTIATE_GRAPH;
    PREPARE_ALLOCATOR; WARMUP_EXECUTION; ACQUIRE_PREFIX_KV; INIT_ENGINE];
  enum_code := WarmthAction_code }.
Solve Obligations with solve_enum_field.

Definition action_name (a : WarmthAction) : string :=
  match a with
  | VALIDATE_ARTIFACT => "VALIDATE_ARTIFACT"
  | LOAD_MODEL => "LOAD_MODEL"
  | TRANSFER_HOST_DEVICE => "TRANSFER_HOST_DEVICE"
  | ACTIVATE_ADAPTER => "ACTIVATE_ADAPTER"
  | INIT_TOKENIZER => "INIT_TOKENIZER"
  | INIT_CUDA_CONTEXT => "INIT_CUDA_CONTEXT"
  | LOAD_MODULE => "LOAD_MODULE"
  | PREPARE_KERNEL => "PREPARE_KERNEL"
  | CAPTURE_GRAPH => "CAPTURE_GRAPH"
  | INSTANTIATE_GRAPH => "INSTANTIATE_GRAPH"
  | PREPARE_ALLOCATOR => "PREPARE_ALLOCATOR"
  | WARMUP_EXECUTION => "WARMUP_EXECUTION"
  | ACQUIRE_PREFIX_KV => "ACQUIRE_PREFIX_KV"
  | INIT_ENGINE => "INIT_ENGINE"
  end.

Record WarmthPreference := mkPref {
  predicted_reuse : double;
  arrival_probability : double;
  latency_class : double;
  priority : double;
  tenant_fairness : double;
  warming_cost_normalized : double;
  memory_cost_normalized : double;
  transfer_cost_normalized : double;
  eviction_risk : double;
  dependency_availability : double;
  current_partial_warmth : double;
  expected_benefit : double;
  available_capacity : double;
  pref_id : WarmthObjectId }.

Definition pref_default : WarmthPreference :=
  let half := dlit 1 2 in
  mkPref dzero dzero dzero dzero dzero half half half dzero done1 dzero dzero done1 Id128_zero.

Definition clamp01 (v : double) : double := if dlt v dzero then dzero else if dgt v done1 then done1 else v.

(** The terms in the order of the code, each paired with its weight. *)
Definition preference_terms (p : WarmthPreference) : list double :=
  [predicted_reuse p; arrival_probability p; latency_class p; priority p; tenant_fairness p;
   warming_cost_normalized p; memory_cost_normalized p; transfer_cost_normalized p; eviction_risk p;
   dependency_availability p; current_partial_warmth p; expected_benefit p].

Definition preference_score (p : WarmthPreference) (w : list double) : double :=
  fold_left (fun s '(wi, v) => dadd s (dmul wi (clamp01 v))) (combine w (preference_terms p)) dzero.

Record PlanStep := mkStep {
  step_object : WarmthObjectId;
  step_action : WarmthAction;
  step_score : double;
  step_estimated_cost_ms : double;
  rationale : string }.

Record WarmthPlan := mkPlan {
  plan_workload : WorkloadId;
  plan_replica : ReplicaId;
  steps : list PlanStep;
  policy_generation : PolicyGeneration;
  tie_break : string }.

(** [PlanBuilder::Candidate]. *)
Record Candidate := mkCand {
  cand_id : WarmthObjectId;
  preference : WarmthPreference;
  cand_cost_ms : double;
  suggested_action : WarmthAction }.

(** [std::sort] with a comparator.  Its behaviour is defined only if on the
    elements the comparator is a strict weak order: irreflexive and transitive,
    and so is being incomparable.  Then it leaves a permutation with no later
    element [lt] an earlier one; merge sort produces one. *)
Section std_sort.
Context {A : Type} (lt : A -> A -> bool).

Definition incomparable (a b : A) : bool := negb (lt a b) && negb (lt b a).
Definition strict_weak (l : list A) : bool :=
  forallb (fun a => negb (lt a a) &&
    forallb (fun b => forallb (fun c =>
      implb (lt a b && lt b c) (lt a c) && implb (incomparable a b && incomparable b c) (incomparable a c)) l) l) l.

Definition not_after (a b : A) : Prop := lt b a = false.
#[global] Instance not_after_dec : RelDecision not_after.
Proof. intros a b. unfold not_after. apply _. Defined.

Definition std_sort (l : list A) : option (list A) :=
  if strict_weak l then Some (merge_sort not_after l) else None.

Lemma strict_weak_spec l : strict_weak l = true <->
  (forall a, a ∈ l -> lt a a = false) /\
  (forall a b c, a ∈ l -> b ∈ l -> c ∈ l -> lt a b = true -> lt b c = true -> lt a c = true) /\
  (forall a b c, a ∈ l -> b ∈ l -> c ∈ l -> incomparable a b = true -> incomparable b c = true -> incomparable a c = true).
Proof.
  unfold strict_weak. rewrite forallb_forall. split.
  - intros H. assert (forall a b c, a ∈ l -> b ∈ l -> c ∈ l -> lt a a = false /\
      (lt a b && lt b c = true -> lt a c = true) /\
      (incomparable a b && incomparable b c = true -> incomparable a c = true)) as Ha.
    { intros a b c Ha Hb Hc. specialize (H a (proj1 (list_elem_of_In _ _) Ha)).
      apply andb_true_iff in H as [H1%negb_true_iff H]. rewrite forallb_forall in H.
      specialize (H b (proj1 (list_elem_of_In _ _) Hb)). rewrite forallb_forall in H.
      specialize (H c (proj1 (list_elem_of_In _ _) Hc)). apply andb_true_iff in H as [H2 H3].
      split; [done|]. by split; apply implb_true_iff. }
    split_and!; [intros a Hin; by apply (Ha a a a)|..]; intros a b c Hin1 Hin2 Hin3 E1 E2; apply (Ha a b c); by rewrite ?E1, ?E2.
  - intros (H1 & H2 & H3) a Ha%list_elem_of_In. apply andb_true_iff. split; [by apply negb_true_iff, H1|].
    apply forallb_forall. intros b Hb%list_elem_of_In. apply forallb_forall. intros c Hc%list_elem_of_In.
    apply andb_true_iff. split; apply implb_true_iff; intros [? ?]%andb_true_iff; [by apply (H2 a b c)|by apply (H3 a b c)].
Qed.

(** Not coming after is transitive then. *)
Lemma not_after_trans l a b c : strict_weak l = true -> a ∈ l -> b ∈ l -> c ∈ l ->
  not_after a b -> not_after b c -> not_after a c.
Proof.
  intros (_ & Ht & Hi)%strict_weak_spec Ha Hb Hc. unfold not_after. intros Hba Hcb.
  apply not_true_iff_false. intros Hca. destruct (lt a b) eqn:Hab; [by rewrite (Ht c a b) in Hcb|].
  destruct (lt b c) eqn:Hbc; [by rewrite (Ht b c a) in Hba|].
  assert (incomparable a c = true) as E by (apply (Hi a b c); unfold incomparable; try done; by rewrite ?Hab, ?Hba, ?Hbc, ?Hcb).
  unfold incomparable in E. by rewrite Hca, andb_false_r in E.
Qed.

Lemma std_sort_permutation l l' : std_sort l = Some l' -> l' ≡ₚ l.
Proof. unfold std_sort. destruct (strict_weak l); [|done]. intros [= <-]. apply merge_sort_Permutation. Qed.

Lemma std_sort_sorted `{!Total not_after} l l' : std_sort l = Some l' -> StronglySorted not_after l'.
Proof.
  intros E. pose proof (std_sort_permutation l l' E) as Hp. revert E. unfold std_sort.
  destruct (strict_weak l) eqn:Hs; [|done]. intros [= El].
  assert (Sorted not_after l') as Hl by (rewrite <- El; apply Sorted_merge_sort, _).
  assert (forall a, a ∈ l' -> a ∈ l) as Hsub by (intros a; by rewrite Hp). clear El Hp.
  induction Hl as [|a l' Hl IH Hd]; [constructor|]. constructor; [apply IH; intros; apply Hsub; by right|].
  apply Forall_forall. intros b Hb. specialize (IH ltac:(intros; apply Hsub; by right)).
  destruct Hd as [|c l' Hac]; [by apply not_elem_of_nil in Hb|]. apply elem_of_cons in Hb as [->|Hb]; [done|].
  apply StronglySorted_inv in IH as [_ Hc]. rewrite Forall_forall in Hc.
  apply (not_after_trans l a c b Hs); [apply Hsub; by left|apply Hsub; right; by left|apply Hsub; by do 2 right|done|by apply Hc].
Qed.
End std_sort.

Section plan_builder.
Variable policy : WarmthPolicy.

Definition cand_score (c : Candidate) : double := preference_score (preference c) (policy_weights policy).

(** The comparator handed to [std::sort]. *)
Definition before (a b : Candidate) : bool :=
  let sa := cand_score a in
  let sb := cand_score b in
  if dne sa sb then dgt sa sb else id_lt (cand_id a) (cand_id b).

Definition sort (candidates : list Candidate) : option (list Candidate) := std_sort before candidates.

Definition plan_step (c : Candidate) : PlanStep :=
  mkStep (cand_id c) (suggested_action c) (cand_score c) (cand_cost_ms c)
    ("reuse=" +:+ d_to_string (predicted_reuse (preference c)) +:+
     " prob=" +:+ d_to_string (arrival_probability (preference c)) +:+
     " priority=" +:+ d_to_string (priority (preference c)) +:+
     " benefit=" +:+ d_to_string (expected_benefit (preference c))).

(** [None]: the behaviour is undefined. *)
Definition build (workload : WorkloadId) (replica : ReplicaId) (candidates : list Candidate) : option WarmthPlan :=
  sorted ← sort candidates;
  Some (mkPlan workload replica (map plan_step sorted) (generation policy) "score_desc_then_id_asc").

(** ** Lemmas: the comparator is a strict order on candidates with scores *)

Definition scored (c : Candidate) : Prop := isnan (cand_score c) = false.

#[export] Instance scored_dec c : Decision (scored c).
Proof. unfold scored. apply _. Defined.

Lemma before_spec a b : scored a -> scored b ->
  before a b = true <->
    d_key (cand_score b) < d_key (cand_score a) \/
    (d_key (cand_score a) = d_key (cand_score b) /\ id_lt (cand_id a) (cand_id b) = true).
Proof.
  unfold scored, before, dne, deq, dgt, dlt. intros -> ->. cbn [negb andb].
  destruct (Z.eqb_spec (d_key (cand_score a)) (d_key (cand_score b))) as [->|Hne]; cbn [negb].
  - split; [tauto|]. intros [?|?]; [lia|tauto].
  - rewrite Z.ltb_lt. split; [tauto|]. intros [?|[? _]]; [done|lia].
Qed.

(** The order the comparator induces, as a total preorder on keys. *)
Definition ranked (a b : Candidate) : Prop :=
  d_key (cand_score b) < d_key (cand_score a) \/
  (d_key (cand_score a) = d_key (cand_score b) /\ id_lt (cand_id b) (cand_id a) = false).

Lemma ranked_spec a b : scored a -> scored b -> not_after before a b <-> ranked a b.
Proof.
  intros Ha Hb. unfold not_after, ranked. rewrite <- !not_true_iff_false, (before_spec b a), !id_lt_spec by done. lia.
Qed.

#[local] Instance ranked_trans : Transitive ranked.
Proof.
  intros a b c. unfold ranked. rewrite <- !not_true_iff_false, !id_lt_spec. lia.
Qed.

#[local] Instance not_after_total : Total (not_after before).
Proof.
  intros a b. unfold not_after, before, dne, deq, dgt, dlt.
  destruct (isnan (cand_score a)), (isnan (cand_score b)); cbn [negb andb]; auto.
  rewrite (Z.eqb_sym (d_key (cand_score b))).
  destruct (Z.eqb_spec (d_key (cand_score a)) (d_key (cand_score b))); cbn [negb].
  - rewrite <- !not_true_iff_false, !id_lt_spec. lia.
  - rewrite !Z.ltb_ge. lia.
Qed.

Lemma Sorted_impl {A} (P : A -> Prop) (R R' : relation A) l :
  (forall a b, P a -> P b -> R a b -> R' a b) -> Forall P l -> Sorted R l -> Sorted R' l.
Proof.
  intros Hi HP. induction 1 as [|a l Hl IH Hd]; [constructor|].
  apply Forall_cons in HP as [Ha HP]. constructor; [by apply IH|].
  destruct Hd; constructor. apply Forall_cons in HP as [? _]. by apply Hi.
Qed.

Lemma StronglySorted_lookup {A} (R : relation A) l : StronglySorted R l ->
  forall i j a b, (i < j)%nat -> l !! i = Some a -> l !! j = Some b -> R a b.
Proof.
  induction 1 as [|x l Hl IH Hx]; intros [|i] [|j] a b Hij Ha Hb; try done; try lia; cbn in *.
  - simplify_eq. rewrite Forall_forall in Hx. apply Hx. by eapply list_elem_of_lookup_2.
  - apply (IH i j); [lia|done..].
Qed.

(** What the comparator says of two candidates, the second not before the first. *)
Lemma not_before_scores a b : not_after before a b ->
  dlt (cand_score a) (cand_score b) = false /\
  (deq (cand_score a) (cand_score b) = true -> id_lt (cand_id b) (cand_id a) = false).
Proof.
  unfold not_after, before. cbn zeta. generalize (cand_score a) (cand_score b). intros x y. unfold dne, dgt.
  destruct (deq y x) eqn:E; cbn [negb]; intros H.
  - split; [|done]. apply deq_spec in E. apply not_true_iff_false. rewrite dlt_spec. lia.
  - split; [done|]. intros E'%deq_spec. apply not_true_iff_false in E. destruct E. apply deq_spec. intuition congruence.
Qed.

(** Where no score is a NaN the comparator is a strict weak order. *)
Lemma scored_strict_weak cs : Forall scored cs -> strict_weak before cs = true.
Proof.
  rewrite Forall_forall. intros Hs. apply strict_weak_spec. split_and!.
  - intros a Ha%Hs. apply not_true_iff_false. rewrite before_spec, id_lt_spec by done. lia.
  - intros a b c Ha%Hs Hb%Hs Hc%Hs. rewrite !before_spec, !id_lt_spec by done. lia.
  - intros a b c Ha%Hs Hb%Hs Hc%Hs. unfold incomparable. rewrite !andb_true_iff, !negb_true_iff, <- !not_true_iff_false.
    rewrite !before_spec, !id_lt_spec by done. lia.
Qed.

Lemma sort_scored cs : Forall scored cs -> sort cs = Some (merge_sort (not_after before) cs).
Proof. intros Hs. unfold sort, std_sort. by rewrite scored_strict_weak. Qed.

Lemma sort_some cs : Forall scored cs -> exists l, sort cs = Some l /\ l ≡ₚ cs /\ StronglySorted (not_after before) l.
Proof.
  intros Hs. pose proof (sort_scored cs Hs) as E. eexists. split; [exact E|].
  split; [by apply (std_sort_permutation before)|by apply (std_sort_sorted before cs)].
Qed.

Lemma sorted_unique l1 l2 : Forall scored l2 -> NoDup (map cand_id l2) -> l1 ≡ₚ l2 ->
  Sorted (not_after before) l1 -> Sorted (not_after before) l2 -> l1 = l2.
Proof.
  intros Hs Hnd Hp H1 H2. assert (Forall scored l1) as Hs1 by by rewrite Hp.
  assert (forall a b, scored a -> scored b -> not_after before a b -> ranked a b) as Hi by (intros; by apply ranked_spec).
  apply (Sorted_unique_strong ranked); [|by apply (Sorted_impl scored (not_after before))..|done].
  intros a b Ha Hb. rewrite Hp in Ha. unfold ranked. rewrite <- !not_true_iff_false, !id_lt_spec. intros Hab Hba.
  assert (cand_id a = cand_id b) as He.
  { destruct (decide (cand_id a = cand_id b)) as [|Hne]; [done|].
    apply id_lt_total in Hne. rewrite !id_lt_spec in Hne. lia. }
  apply list_elem_of_lookup in Ha as [i Hi'], Hb as [j Hj].
  assert (i = j) as ->; [|congruence].
  apply (NoDup_lookup _ i j (cand_id a) Hnd); rewrite list_lookup_fmap; [by rewrite Hi'|by rewrite Hj, He].
Qed.

End plan_builder.

(** ** Properties *)

(** the order of a plan is fully determined: for candidates with distinct
    ids and scores that are numbers, whatever [std::sort] does, there is only
    one permutation it can produce; so a plan does not depend on the order in
    which the candidates are listed. *)
Theorem plan_order_determined (p : WarmthPolicy) (w : WorkloadId) (r : ReplicaId) (cs cs' : list Candidate) :
  Forall (scored p) cs -> NoDup (map cand_id cs) -> cs' ≡ₚ cs ->
  exists l0, sort p cs = Some l0 /\ l0 ≡ₚ cs /\ StronglySorted (not_after (before p)) l0 /\
    (forall l, l ≡ₚ cs -> Sorted (not_after (before p)) l -> l = l0) /\ build p w r cs' = build p w r cs.
Proof.
  intros Hs Hnd Hp. destruct (sort_some p cs Hs) as (l0 & E & Hpc & Hsc).
  destruct (sort_some p cs') as (l1 & E1 & Hp1 & Hs1); [by rewrite Hp|]. exists l0.
  assert (forall l, l ≡ₚ cs -> Sorted (not_after (before p)) l -> l = l0) as Hu.
  { intros l Hl Hsl. apply (sorted_unique p); rewrite ?Hpc; try done. by apply StronglySorted_Sorted. }
  split_and!; try done. unfold build. rewrite E, E1, (Hu l1); [done|by rewrite Hp1|by apply StronglySorted_Sorted].
Qed.

(** Three candidates of equal and different scores. *)
Definition cand_example (i : Z) (reuse : double) : Candidate :=
  mkCand (mkId 0 i) (mkPref reuse dzero dzero dzero dzero dzero dzero dzero dzero dzero dzero dzero dzero Id128_zero)
    dzero INIT_ENGINE.
Definition cands_example : list Candidate :=
  [cand_example 3 (dlit 1 2); cand_example 1 (dlit 1 4); cand_example 2 (dlit 1 2)].

Lemma plan_order_determined_witness :
  let p := defaults initial in
  (fun pl => map (fun s => lo_ (step_object s)) (steps pl)) <$> build p Id128_zero Id128_zero cands_example = Some [2; 3; 1] /\
  build p Id128_zero Id128_zero (rev cands_example) = build p Id128_zero Id128_zero cands_example.
Proof.
  split; [vm_compute; reflexivity|].
  destruct (plan_order_determined (defaults initial) Id128_zero Id128_zero cands_example (rev cands_example))
    as (l & _ & _ & _ & _ & E); [..|exact E].
  - apply (bool_decide_unpack _). vm_compute. exact I.
  - apply (bool_decide_unpack _). vm_compute. exact I.
  - symmetry. apply Permutation_rev.
Defined.

(** A NaN among the scores: the other two are ordered, neither with the NaN, and
    sorting the three is undefined. *)
Example nan_plan_undefined :
  build (defaults initial) Id128_zero Id128_zero
    [cand_example 3 (dlit 1 2); cand_example 2 (0x7FF8 * 2 ^ 48); cand_example 1 (dlit 1 4)] = None.
Proof. vm_compute. reflexivity. Qed.

(** C39: building a plan.  If no candidate has a NaN for a score, the behaviour of
    [std::sort] on the candidates is defined and a plan is built.  And whenever
    one is built, it holds every candidate once, with its id, action and cost,
    and no candidate is listed after one with a lower score, or after one with
    the same score and a greater id.  (Scores can be NaN, since [clamp01] lets a
    NaN through; sorting them is undefined as soon as two others compare.) *)
Theorem plan_complete_and_ranked (p : WarmthPolicy) (w : WorkloadId) (r : ReplicaId) (cs : list Candidate) :
  (Forall (scored p) cs -> is_Some (build p w r cs)) /\
  forall pl, build p w r cs = Some pl ->
    map (fun s => (step_object s, step_action s, step_estimated_cost_ms s)) (steps pl) ≡ₚ
      map (fun c => (cand_id c, suggested_action c, cand_cost_ms c)) cs /\
    forall i j a b, (i < j)%nat -> steps pl !! i = Some a -> steps pl !! j = Some b ->
      dlt (step_score a) (step_score b) = false /\
      (deq (step_score a) (step_score b) = true -> id_lt (step_object b) (step_object a) = false).
Proof.
  unfold build. split.
  { intros Hs. destruct (sort_some p cs Hs) as (l & -> & _). by eexists. }
  intros pl. destruct (sort p cs) as [l|] eqn:E; [|done]. intros [= <-]. cbn [steps]. split.
  - rewrite map_map. cbn [plan_step step_object step_action step_estimated_cost_ms].
    by rewrite (std_sort_permutation _ _ _ E).
  - intros i j a b Hij. rewrite !list_lookup_fmap, !fmap_Some. intros (ca & Ha & ->) (cb & Hb & ->).
    pose proof (StronglySorted_lookup _ _ (std_sort_sorted _ (Total0 := not_after_total p) _ _ E) i j ca cb Hij Ha Hb) as Hab.
    cbn [plan_step step_score step_object]. by apply not_before_scores.
Qed.

Lemma plan_complete_and_ranked_witness :
  exists pl, build (defaults initial) Id128_zero Id128_zero cands_example = Some pl /\
    map step_object (steps pl) = [mkId 0 2; mkId 0 3; mkId 0 1].
Proof.
  destruct (proj1 (plan_complete_and_ranked (defaults initial) Id128_zero Id128_zero cands_example)) as [pl Hpl].
  - apply (bool_decide_unpack _). vm_compute. exact I.
  - exists pl. split; [exact Hpl|]. vm_compute in Hpl. injection Hpl as <-. reflexivity.
Defined.
