(* ===== verification/Explanation.v ===== *)
(** * explanation.hpp: explanations, as text and as JSON

    The explanation records, their human-readable rendering and the JSON
    documents made of them. *)

From Stdlib Require Import ZArith Lia Ascii String.
From stdpp Require Import base list numbers strings pretty.
From S2P Require Import Prelude Float64 Number Json Identity State Object Cost Scheduler.
Local Open Scope Z_scope.

Record DimensionReadiness := mkDimReadiness { index : DimensionIndex; status : DimensionStatus }.

Record ReadinessExplanation := mkReadiness {
  re_object : WarmthObjectId;
  re_category : WarmthCategory;
  re_state : WarmthState;
  re_composite : CompositeLevel;
  re_dimensions : list DimensionReadiness;
  re_cost : ReadinessCost;
  re_execution_ready : bool;
  re_invalidation_reason : string;
  re_decay_reason : string;
  re_policy_generation : PolicyGeneration;
  re_residency : string;
  re_chosen_action : string;
  re_alternatives : list string;
  re_tie_break : string;
  re_priority : string;
  re_deadline : string;
  re_fairness : string;
  re_budget_constraints : string;
  re_missing_preparation : string;
  re_measured_warm_start_ms : double;
  re_measured_cold_start_ms : double }.

Record PlanExplanation := mkPlanExpl {
  pe_workload : WorkloadId;
  pe_replica : ReplicaId;
  pe_policy_generation : PolicyGeneration;
  pe_tie_break : string;
  pe_steps : list PlanStep }.

Definition newline : string := String (ascii_of_nat 10) EmptyString.
Definition concat_strings (l : list string) : string := fold_right String.append "" l.
(** [if (!v.empty()) s += name + v + newline]. *)
Definition line_if (name v : string) : string := if decide (v = "") then "" else name +:+ v +:+ newline.

Definition readiness_to_text (e : ReadinessExplanation) : string :=
  "object: " +:+ to_string (re_object e) +:+ newline +:+
  "state: " +:+ state_name (re_state e) +:+ newline +:+
  "composite: " +:+ composite_name (re_composite e) +:+ newline +:+
  "execution_ready: " +:+ (if re_execution_ready e then "true" else "false") +:+ newline +:+
  concat_strings (map (fun d => "  dimension " +:+ dimension_name (index d) +:+ " = " +:+
    dimension_status_name (status d) +:+ newline) (re_dimensions e)) +:+
  "expected_ttfu_ms: " +:+ d_to_string (expected_ttfu_ms (re_cost e)) +:+ newline +:+
  "bytes_to_transfer: " +:+ dec_string (bytes_to_transfer (estimated (re_cost e))) +:+ newline +:+
  line_if "invalidation_reason: " (re_invalidation_reason e) +:+
  line_if "decay_reason: " (re_decay_reason e) +:+
  line_if "chosen_action: " (re_chosen_action e) +:+
  line_if "missing_preparation: " (re_missing_preparation e).

Definition plan_to_text (p : PlanExplanation) : string :=
  "workload: " +:+ to_string (pe_workload p) +:+ newline +:+
  "replica: " +:+ to_string (pe_replica p) +:+ newline +:+
  "policy_generation: " +:+ dec_string (value (pe_policy_generation p)) +:+ newline +:+
  "tie_break: " +:+ pe_tie_break p +:+ newline +:+
  concat_strings (map (fun st => "  " +:+ to_string (step_object st) +:+ " " +:+ action_name (step_action st) +:+
    " score=" +:+ d_to_string (step_score st) +:+ " cost_ms=" +:+ d_to_string (step_estimated_cost_ms st) +:+
    " (" +:+ rationale st +:+ ")" +:+ newline) (pe_steps p)).

(** ** JSON *)

(** The calls of [set] on a new object, in order. *)
Definition object_of (l : list (string * Value)) : Value := fold_left (fun o kv => set_key kv.1 kv.2 o) l (Object []).
(** [static_cast<std::int64_t>] of an unsigned count, stored as a [double]. *)
Definition int_value (n : Z) : Value := Number (d_of_Z (s64 n)).
(** [if (!v.empty()) o.set(name, v)]. *)
Definition set_if_any (name v : string) : list (string * Value) := if decide (v = "") then [] else [(name, Str v)].

Definition dimension_json (d : DimensionReadiness) : Value :=
  object_of [("name", Str (dimension_name (index d))); ("status", Str (dimension_status_name (status d)))].

Definition cost_json (c : ReadinessCost) : Value :=
  let e := estimated c in
  object_of
    [("kind", Str (cost_kind_name (cost_kind c)));
     ("bytes_to_transfer", int_value (bytes_to_transfer e));
     ("bytes_resident", int_value (bytes_resident (measured c)));
     ("artifacts_to_validate", int_value (artifacts_to_validate e));
     ("kernels_to_prepare", int_value (kernels_to_prepare e));
     ("graphs_to_prepare", int_value (graphs_to_prepare e));
     ("context_init_steps", int_value (context_init_steps e));
     ("adapter_activation_bytes", int_value (adapter_activation_bytes e));
     ("tokenizer_init_steps", int_value (tokenizer_init_steps e));
     ("prefix_kv_bytes", int_value (prefix_kv_bytes e));
     ("allocator_init_steps", int_value (allocator_init_steps e));
     ("engine_startup_ms", int_value (engine_startup_ms e));
     ("sync_cost_ms", int_value (sync_cost_ms e));
     ("dependency_checks", int_value (dependency_checks e));
     ("expected_ttfu_ms", Number (expected_ttfu_ms c));
     ("observed_ttfu_ms", Number (observed_ttfu_ms c))].

Definition readiness_to_json (e : ReadinessExplanation) : Value :=
  object_of
    ([("object", Str (to_string (re_object e)));
      ("state", Str (state_name (re_state e)));
      ("category", Str (category_name (re_category e)));
      ("composite", Str (composite_name (re_composite e)));
      ("execution_ready", Bool (re_execution_ready e));
      ("dimensions", Array (map dimension_json (re_dimensions e)));
      ("cost", cost_json (re_cost e));
      ("residency", Str (re_residency e));
      ("chosen_action", Str (re_chosen_action e));
      ("tie_break", Str (re_tie_break e));
      ("priority", Str (re_priority e));
      ("deadline", Str (re_deadline e));
      ("fairness", Str (re_fairness e));
      ("budget_constraints", Str (re_budget_constraints e));
      ("missing_preparation", Str (re_missing_preparation e));
      ("measured_warm_start_ms", Number (re_measured_warm_start_ms e));
      ("measured_cold_start_ms", Number (re_measured_cold_start_ms e))] ++
     set_if_any "invalidation_reason" (re_invalidation_reason e) ++
     set_if_any "decay_reason" (re_decay_reason e) ++
     [("alternatives", Array (map Str (re_alternatives e)))]).

Definition step_json (s : PlanStep) : Value :=
  object_of
    [("object", Str (to_string (step_object s))); ("action", Str (action_name (step_action s)));
     ("score", Number (step_score s)); ("estimated_cost_ms", Number (step_estimated_cost_ms s));
     ("rationale", Str (rationale s))].

Definition plan_to_json (p : PlanExplanation) : Value :=
  object_of
    [("workload", Str (to_string (pe_workload p))); ("replica", Str (to_string (pe_replica p)));
     ("policy_generation", int_value (value (pe_policy_generation p))); ("tie_break", Str (pe_tie_break p));
     ("steps", Array (map step_json (pe_steps p)))].

(** ** Lemmas *)

#[export] Instance no_quote_dec s : Decision (no_quote s).
Proof. unfold no_quote. apply _. Defined.

Lemma no_quote_app a b : no_quote a -> no_quote b -> no_quote (a +:+ b).
Proof. unfold no_quote. rewrite list_ascii_app, Forall_app. done. Qed.

(** A literal, or a name out of a table. *)
Ltac literal := repeat match goal with x : _ |- _ => clear x end; apply (bool_decide_unpack _); vm_compute; exact I.
Ltac named e := destruct e; literal.

Lemma state_name_text s : no_quote (state_name s). Proof. named s. Qed.
Lemma category_name_text c : no_quote (category_name c). Proof. named c. Qed.
Lemma composite_name_text c : no_quote (composite_name c). Proof. named c. Qed.
Lemma dimension_name_text i : no_quote (dimension_name i). Proof. named i. Qed.
Lemma dimension_status_name_text s : no_quote (dimension_status_name s). Proof. named s. Qed.
Lemma cost_kind_name_text k : no_quote (cost_kind_name k). Proof. named k. Qed.
Lemma action_name_text a : no_quote (action_name a). Proof. named a. Qed.
Lemma residency_name_text r : no_quote (residency_name r). Proof. named r. Qed.
#[export] Hint Resolve state_name_text category_name_text composite_name_text dimension_name_text
  dimension_status_name_text cost_kind_name_text action_name_text residency_name_text no_quote_app : no_quote.

Lemma to_string_text i : no_quote (to_string i).
Proof.
  unfold no_quote, to_string. rewrite list_ascii_of_string_of_list_ascii. apply Forall_map.
  eapply Forall_impl; [apply Forall_app; split; by apply be_digits_uint|]. intros d Hd E.
  apply nib_hex_digit in Hd. by rewrite E in Hd.
Qed.
#[export] Hint Resolve to_string_text : no_quote.

(** An object made by [set] calls on readable parts is readable. *)
Lemma object_of_readable l : Forall (fun kv => no_quote kv.1 /\ readable kv.2) l -> readable (object_of l).
Proof.
  intros Hl. unfold object_of.
  assert (readable (Object [])) as H0 by (constructor; constructor). revert H0. generalize (@nil (string * Value)).
  induction Hl as [|[k v] l Hkv Hl IH]; intros o Ho; [done|]. cbn [fold_left set_key]. apply IH.
  inversion Ho as [| | | | |? H1 H2]; subst. constructor; [by apply map_set_forall|by apply map_set_sorted].
Qed.

(** The counts that a [double] holds exactly. *)
Lemma int_value_readable n : 0 <= n < 10 ^ 15 -> readable (int_value n).
Proof.
  intros Hn. constructor. unfold s64. rewrite wrap_small by (unfold uint; lia). rewrite decide_True by lia.
  apply integer_number_ok. lia.
Qed.

(** *** Numbers as text *)

Lemma digits_text s : all_digits s -> no_quote s.
Proof. intros H. eapply Forall_impl; [exact H|]. intros c Hc ->. done. Qed.

Lemma dec_string_text z : no_quote (dec_string z).
Proof.
  unfold dec_string. destruct (Z.to_N z) as [|p]; [literal|].
  destruct (pretty_go_digits (Npos p) "") as (c & d & E & Hd & _); [done|]. change (pretty (Npos p)) with (pretty_N_go (Npos p) "").
  rewrite E, string_app_nil. by apply digits_text.
Qed.

Lemma pad_left_text n s : no_quote s -> no_quote (pad_left n s).
Proof.
  revert s. induction n as [|n IH]; intros s Hs; cbn [pad_left]; [done|]. apply IH. case_decide; [|done].
  unfold no_quote. cbn [list_ascii_of_string]. by constructor.
Qed.
#[export] Hint Resolve dec_string_text pad_left_text : no_quote.
#[export] Hint Extern 1 (no_quote (String _ _)) => literal : no_quote.

Lemma d_to_string_text d : no_quote (d_to_string d).
Proof.
  unfold d_to_string. assert (no_quote (if d_sign d then "-" else "")) as Hs by (destruct (d_sign d); literal).
  destruct (to_sf d); repeat apply no_quote_app; auto with no_quote.
Qed.
#[export] Hint Resolve d_to_string_text : no_quote.

(** *** Which explanations have a readable document *)

(** A count that a [double] holds exactly. *)
Definition count_ok (n : Z) : Prop := 0 <= n < 10 ^ 15.

Definition counts (c : ReadinessCost) : list Z :=
  let e := estimated c in
  [bytes_to_transfer e; bytes_resident (measured c); artifacts_to_validate e; kernels_to_prepare e; graphs_to_prepare e;
   context_init_steps e; adapter_activation_bytes e; tokenizer_init_steps e; prefix_kv_bytes e; allocator_init_steps e;
   engine_startup_ms e; sync_cost_ms e; dependency_checks e].
Definition texts (e : ReadinessExplanation) : list string :=
  [re_invalidation_reason e; re_decay_reason e; re_residency e; re_chosen_action e; re_tie_break e; re_priority e;
   re_deadline e; re_fairness e; re_budget_constraints e; re_missing_preparation e] ++ re_alternatives e.
Definition measures (e : ReadinessExplanation) : list double :=
  [expected_ttfu_ms (re_cost e); observed_ttfu_ms (re_cost e); re_measured_warm_start_ms e; re_measured_cold_start_ms e].

Record explanation_ok (e : ReadinessExplanation) : Prop := mkExplOk {
  eo_texts : Forall no_quote (texts e);
  eo_counts : Forall count_ok (counts (re_cost e));
  eo_measures : Forall number_ok (measures e) }.

(** Takes apart [Forall P [x1; ...; xn]]. *)
Ltac forall_split := repeat match goal with H : Forall _ (_ :: _) |- _ => apply Forall_cons in H as [? H] end.
(** A readable member of a document, by its kind. *)
Ltac member :=
  first [apply rd_str; auto with no_quote | apply int_value_readable; done | apply rd_number; done | apply rd_bool].

Lemma dimension_json_readable d : readable (dimension_json d).
Proof. apply object_of_readable. repeat constructor; [literal|auto with no_quote..|literal|auto with no_quote]. Qed.

Lemma cost_json_readable c : Forall count_ok (counts c) -> number_ok (expected_ttfu_ms c) -> number_ok (observed_ttfu_ms c) ->
  readable (cost_json c).
Proof.
  intros Hc H1 H2. unfold counts in Hc. forall_split. apply object_of_readable.
  repeat (apply Forall_cons; split; [split; [literal|member]|]). constructor.
Qed.

Lemma set_if_any_readable name v : no_quote name -> no_quote v ->
  Forall (fun kv => no_quote kv.1 /\ readable kv.2) (set_if_any name v).
Proof. intros Hn Hv. unfold set_if_any. case_decide; repeat constructor; done. Qed.

Lemma array_readable {A} (f : A -> Value) l : Forall (fun x => readable (f x)) l -> readable (Array (map f l)).
Proof. intros Hl. constructor. by apply Forall_map. Qed.

Lemma readiness_to_json_readable e : explanation_ok e -> readable (readiness_to_json e).
Proof.
  intros [Ht Hc Hm]. unfold texts in Ht. apply Forall_app in Ht as [Ht Ha]. unfold measures in Hm. forall_split.
  apply object_of_readable. apply Forall_app. split; [|apply Forall_app; split; [|apply Forall_app; split]].
  - repeat (apply Forall_cons; split; [split; [literal|first
      [apply array_readable, Forall_forall; intros; apply dimension_json_readable | apply cost_json_readable; done | member]]|]).
    constructor.
  - apply set_if_any_readable; [literal|done].
  - apply set_if_any_readable; [literal|done].
  - apply Forall_singleton. split; [literal|]. apply array_readable. eapply Forall_impl; [exact Ha|]. intros a. apply rd_str.
Qed.

Record plan_ok (p : PlanExplanation) : Prop := mkPlanOk {
  po_tie : no_quote (pe_tie_break p);
  po_generation : count_ok (value (pe_policy_generation p));
  po_steps : Forall (fun s => no_quote (rationale s) /\ number_ok (step_score s) /\ number_ok (step_estimated_cost_ms s))
    (pe_steps p) }.

Lemma step_json_readable s : no_quote (rationale s) -> number_ok (step_score s) -> number_ok (step_estimated_cost_ms s) ->
  readable (step_json s).
Proof.
  intros. apply object_of_readable. repeat (apply Forall_cons; split; [split; [literal|member]|]). constructor.
Qed.

Lemma plan_to_json_readable p : plan_ok p -> readable (plan_to_json p).
Proof.
  intros [Ht Hg Hs]. apply object_of_readable.
  repeat (apply Forall_cons; split; [split; [literal|try member]|]); [|constructor].
  apply array_readable. eapply Forall_impl; [exact Hs|]. intros s (? & ? & ?). by apply step_json_readable.
Qed.

(** *** How deep the documents are nested *)

Lemma height_object_of n l : 0 <= n -> Forall (fun kv => height kv.2 <= n) l -> height (object_of l) <= 1 + n.
Proof.
  intros Hn Hl. unfold object_of.
  assert (forall l, Forall (fun kv : string * Value => height kv.2 <= n) l -> foldr (fun (kx : string * Value) m => Z.max (height kx.2) m) 0 l <= n) as Hf
    by (induction 1; cbn; lia).
  assert (exists o, fold_left (fun o kv => set_key kv.1 kv.2 o) l (Object []) = Object o /\ Forall (fun kv : string * Value => height kv.2 <= n) o)
    as (o & -> & Ho); [|cbn [height]; specialize (Hf o Ho); lia].
  assert (Forall (fun kv : string * Value => height kv.2 <= n) []) as H0 by constructor. revert H0.
  generalize (@nil (string * Value)). induction Hl as [|[k v] l Hkv Hl IH]; intros o Ho; [by exists o|].
  cbn [fold_left set_key]. apply IH. by apply map_set_forall.
Qed.

Lemma height_array {A} n (f : A -> Value) l : 0 <= n -> (forall x, height (f x) <= n) -> height (Array (map f l)) <= 1 + n.
Proof. intros Hn Hf. cbn [height]. induction l as [|x l IH]; cbn [map foldr]; [lia|]. specialize (Hf x). lia. Qed.

(** Member by member. *)
Ltac members := repeat (apply Forall_cons; split; [cbn [snd]; try (cbn; lia)|]); try apply Forall_nil_2.

Lemma readiness_to_json_height e : height (readiness_to_json e) <= 3.
Proof.
  apply (height_object_of 2); [done|]. apply Forall_app. split; [|apply Forall_app; split; [|apply Forall_app; split]].
  - members.
    + apply (height_array 1); [done|]. intros d. apply (height_object_of 0); [done|]. members.
    + eapply Z.le_trans; [apply (height_object_of 0); [done|]; members|done].
  - unfold set_if_any. case_decide; members.
  - unfold set_if_any. case_decide; members.
  - members. eapply Z.le_trans; [by apply (height_array 0)|done].
Qed.

Lemma plan_to_json_height p : height (plan_to_json p) <= 3.
Proof.
  apply (height_object_of 2); [done|]. members. apply (height_array 1); [done|]. intros s. apply (height_object_of 0); [done|]. members.
Qed.

Lemma shallow_bound indent v n : height v <= n -> n * Z.max 1 indent < 2 ^ 31 -> shallow indent v.
Proof. unfold shallow. nia. Qed.
