(* ===== verification/Codec.v ===== *)
(** * Readers and their laws

    A reader takes the bytes that are left and returns a value with the bytes
    it left over, or an error text.  This is the decoding state of
    [WireDecoder] and [ByteReader]: the span from the read position on (their
    [ok_] flags are never consulted by a caller); [ByteCodec] has the classes with
    their positions and proves that they implement these readers.  The decoders that
    return a plain [false] fail with the empty text.

    Two laws carry the proofs about every format: [reads r bs a], [r] takes
    exactly [bs] off any stream that starts with it and yields [a]; and
    [yields r P], whatever [r] accepts satisfies [P]. *)

From Stdlib Require Import ZArith Lia String.
From stdpp Require Import base list numbers strings.
From S2P Require Import Prelude Float64 Identity.
Local Open Scope Z_scope.
Local Open Scope warmth_scope.

Inductive result (A : Type) := Ok (a : A) | Err (e : string).
Arguments Ok {A} _.
Arguments Err {A} _.

Definition reader (A : Type) : Type := bytes -> result (A * bytes).

Definition rret {A} (a : A) : reader A := fun s => Ok (a, s).
Definition rfail {A} (e : string) : reader A := fun _ => Err e.
Definition rbind {A B} (r : reader A) (k : A -> reader B) : reader B :=
  fun s => match r s with Ok (a, s) => k a s | Err e => Err e end.

(** [if (!r(x)) { err = e; return false; }] and [if (!b) { err = e; ... }]. *)
Definition or_fail {A} (r : reader A) (e : string) : reader A :=
  fun s => match r s with Ok p => Ok p | Err _ => Err e end.
Definition guard (b : bool) (e : string) : reader unit := if b then rret tt else rfail e.

Declare Scope reader_scope.
Delimit Scope reader_scope with reader.
Notation "x <- r ;; k" := (rbind r (fun x => k)) (at level 100, r at next level, right associativity) : reader_scope.
Notation "'ensure' b 'or' e ;; k" := (rbind (guard b e) (fun _ => k))
  (at level 100, b at next level, e at next level, right associativity) : reader_scope.
Notation "r 'orelse' e" := (or_fail r e) (at level 60, e at next level) : reader_scope.
Local Open Scope reader_scope.

(** ** Primitive writers and readers (big-endian) *)
Definition put_u8 (v : Z) : bytes := [v].
Definition put_u16 (v : Z) : bytes := be_digits 8 2 v.
Definition put_u32 (v : Z) : bytes := be_digits 8 4 v.
Definition put_u64 (v : Z) : bytes := be_digits 8 8 v.
Definition put_id (i : Id128) : bytes := to_bytes i.
(** The [double] is its bit pattern; the wire encoder writes any of them. *)
Definition put_f64 (d : double) : bytes := put_u64 d.
Definition put_str (s : string) : bytes := put_u32 (u32 (Z.of_nat (String.length s))) ++ string_bytes s.

(** A flag, written as [b ? 1 : 0]. *)
Definition put_bool (b : bool) : bytes := put_u8 (if b then 1 else 0).

Definition take_bytes (n : nat) : reader bytes :=
  fun s => if decide (length s < n)%nat then Err "" else Ok (take n s, drop n s).

Definition get_u8 : reader Z :=
  fun s => match s with [] => Err "" | b :: s => Ok (b, s) end.
Definition get_u16 : reader Z := a <- get_u8 ;; b <- get_u8 ;; rret (be_value 16 8 [a; b]).
Definition get_u32 : reader Z := b <- take_bytes 4 ;; rret (be_value 32 8 b).
Definition get_u64 : reader Z := b <- take_bytes 8 ;; rret (be_value 64 8 b).
Definition get_id : reader Id128 := b <- take_bytes 16 ;; rret (from_bytes b).
Definition get_f64 : reader double := get_u64.
(** [len > remaining()] and the copy of [len] bytes. *)
Definition get_str : reader string :=
  len <- get_u32 ;; b <- take_bytes (Z.to_nat len) ;; rret (bytes_string b).

(** A byte that must be the code of an enumerator: the validity switch of the
    code, then the cast; with the error texts for a missing and a wrong byte. *)
Definition get_enum (E : Type) `{UEnum E} (truncated invalid : string) : reader E :=
  c <- get_u8 orelse truncated ;; match enum_of c with Some e => rret e | None => rfail invalid end.

(** [for (i = 0; i < n; ++i) { item(i); v.push_back(...); }]. *)
Fixpoint get_many {A} (n : nat) (item : nat -> reader A) (i : nat) : reader (list A) :=
  match n with
  | O => rret []
  | S n => a <- item i ;; l <- get_many n item (S i) ;; rret (a :: l)
  end.

(** ** The laws *)
Definition reads {A} (r : reader A) (bs : bytes) (a : A) : Prop := forall rest, r (bs ++ rest) = Ok (a, rest).

Definition yields {A} (r : reader A) (P : A -> Prop) : Prop :=
  forall s a rest, bytes_ok s -> r s = Ok (a, rest) -> P a /\ exists bs, s = bs ++ rest.

Section laws.
Context {A B : Type}.
Implicit Types (r : reader A) (k : A -> reader B).

Lemma reads_ret (a : A) : reads (rret a) [] a.
Proof. done. Qed.

Lemma reads_bind r k bs1 bs2 a b : reads r bs1 a -> reads (k a) bs2 b -> reads (rbind r k) (bs1 ++ bs2) b.
Proof. intros Hr Hk rest. unfold rbind. by rewrite <- app_assoc, Hr. Qed.

(** A step along what was written, whatever the continuation does. *)
Lemma reads_then r k bs a rest : reads r bs a -> rbind r k (bs ++ rest) = k a rest.
Proof. intros Hr. unfold rbind. by rewrite Hr. Qed.

Lemma reads_conv r bs a a' : reads r bs a -> a = a' -> reads r bs a'.
Proof. by intros ? <-. Qed.

(** A step that reads nothing. *)
Lemma reads_bind_nil r k bs a b : reads r [] a -> reads (k a) bs b -> reads (rbind r k) bs b.
Proof. apply (reads_bind r k []). Qed.

Lemma reads_last r k bs a b : reads r bs a -> reads (k a) [] b -> reads (rbind r k) bs b.
Proof. rewrite <- (app_nil_r bs) at 2. apply reads_bind. Qed.

Lemma reads_or_fail r e bs a : reads r bs a -> reads (or_fail r e) bs a.
Proof. intros Hr rest. unfold or_fail. by rewrite Hr. Qed.

Lemma reads_guard b e : b = true -> reads (guard b e) [] tt.
Proof. by intros ->. Qed.

Lemma yields_ret (a : A) (P : A -> Prop) : P a -> yields (rret a) P.
Proof. intros HP s ? ? _ [= <- <-]. split; [done|by exists []]. Qed.

Lemma yields_fail e (P : A -> Prop) : yields (rfail e) P.
Proof. by intros ????. Qed.

Lemma yields_bind r k (P : A -> Prop) (Q : B -> Prop) :
  yields r P -> (forall a, P a -> yields (k a) Q) -> yields (rbind r k) Q.
Proof.
  intros Hr Hk s b rest Hs. unfold rbind. destruct (r s) as [[a mid]|] eqn:E; [|done]. intros Hb.
  destruct (Hr _ _ _ Hs E) as [HP [bs1 ->]]. apply Forall_app in Hs as [Hs1 Hs2].
  destruct (Hk a HP _ _ _ Hs2 Hb) as [HQ [bs2 ->]]. split; [done|]. exists (bs1 ++ bs2). by rewrite app_assoc.
Qed.

Lemma yields_or_fail r e P : yields r P -> yields (or_fail r e) P.
Proof.
  intros Hr s a rest Hs. unfold or_fail. destruct (r s) as [[]|] eqn:E; [|done].
  intros [= -> ->]. by apply (Hr s).
Qed.

Lemma yields_weaken r (P Q : A -> Prop) : yields r P -> (forall a, P a -> Q a) -> yields r Q.
Proof. intros Hr HPQ s a rest Hs E. destruct (Hr _ _ _ Hs E). auto. Qed.

Lemma rbind_ok r k s b rest : rbind r k s = Ok (b, rest) ->
  exists a mid, r s = Ok (a, mid) /\ k a mid = Ok (b, rest).
Proof. unfold rbind. destruct (r s) as [[a mid]|]; [eauto|done]. Qed.

Lemma or_fail_ok r e s p : or_fail r e s = Ok p -> r s = Ok p.
Proof. unfold or_fail. by destruct (r s). Qed.
End laws.

Lemma yields_guard b e : yields (guard b e) (fun _ => b = true).
Proof. destruct b; [by apply yields_ret|apply yields_fail]. Qed.

Lemma guard_ok b e s u rest : guard b e s = Ok (u, rest) -> b = true /\ rest = s.
Proof. destruct b; cbn; [|done]. by intros [= _ ->]. Qed.

Lemma app_split_at {A} (bs rest l1 l2 : list A) n : bs = l1 ++ l2 -> length l1 = n -> take n bs = l1 /\ drop n bs = l2.
Proof. intros -> <-. by rewrite take_app_length, drop_app_length. Qed.

Lemma take_bytes_reads bs : reads (take_bytes (length bs)) bs bs.
Proof.
  intros rest. unfold take_bytes. rewrite decide_False by (rewrite length_app; lia).
  by rewrite take_app_length, drop_app_length.
Qed.

Lemma take_bytes_ok n s bs rest : take_bytes n s = Ok (bs, rest) -> s = bs ++ rest /\ length bs = n.
Proof.
  unfold take_bytes. destruct (decide _); [done|]. intros [= <- <-].
  rewrite take_drop, length_take. split; [done|lia].
Qed.

Lemma take_bytes_yields n : yields (take_bytes n) (fun bs => bytes_ok bs /\ length bs = n).
Proof.
  intros s bs rest Hs [-> <-]%take_bytes_ok. apply Forall_app in Hs as [Hs _]. eauto.
Qed.

Lemma get_u8_reads v : reads get_u8 (put_u8 v) v.
Proof. done. Qed.

(** *** Fixed-width integers: [n] digits of 8 bits on a [w]-bit accumulator *)
Definition get_be (w : Z) (n : nat) : reader Z := b <- take_bytes n ;; rret (be_value w 8 b).

Lemma get_be_reads w n v : Z.of_nat n * 8 <= w -> uint (Z.of_nat n * 8) v -> reads (get_be w n) (be_digits 8 n v) v.
Proof.
  intros Hw Hv. unfold get_be. rewrite <- (length_be_digits 8 n v) at 1.
  eapply reads_last; [apply take_bytes_reads|]. rewrite be_value_digits by (done || lia). apply reads_ret.
Qed.

Lemma get_be_ok w n s v rest : Z.of_nat n * 8 <= w -> bytes_ok s -> get_be w n s = Ok (v, rest) ->
  s = be_digits 8 n v ++ rest /\ uint (Z.of_nat n * 8) v.
Proof.
  intros Hw Hs (bs & mid & [-> Hl]%take_bytes_ok & [= <- <-])%rbind_ok.
  apply Forall_app in Hs as [Hs _].
  pose proof (be_digits_value w 8 bs ltac:(lia) ltac:(lia) Hs) as [Hd Hu]. rewrite Hl in Hd, Hu.
  by rewrite Hd.
Qed.

Lemma get_be_yields w n : Z.of_nat n * 8 <= w -> yields (get_be w n) (uint (Z.of_nat n * 8)).
Proof. intros Hw s v rest Hs H. destruct (get_be_ok w n s v rest Hw Hs H) as [-> ?]. eauto. Qed.

Lemma get_u16_alt s : get_u16 s = get_be 16 2 s.
Proof. by destruct s as [|a [|b s]]. Qed.

Lemma get_u16_reads v : uint 16 v -> reads get_u16 (put_u16 v) v.
Proof. intros Hv rest. rewrite get_u16_alt. by apply (get_be_reads 16 2). Qed.
Lemma get_u32_reads v : uint 32 v -> reads get_u32 (put_u32 v) v.
Proof. intros Hv. by apply (get_be_reads 32 4). Qed.
Lemma get_u64_reads v : uint 64 v -> reads get_u64 (put_u64 v) v.
Proof. intros Hv. by apply (get_be_reads 64 8). Qed.
Lemma get_f64_reads v : uint 64 v -> reads get_f64 (put_f64 v) v.
Proof. apply get_u64_reads. Qed.

Lemma get_id_reads i : Id128_wf i -> reads get_id (put_id i) i.
Proof.
  intros Hi. unfold get_id. change 16%nat with (length (put_id i)).
  eapply reads_last; [apply take_bytes_reads|]. unfold put_id. rewrite from_to_bytes by done. apply reads_ret.
Qed.

Lemma length_string_bytes s : length (string_bytes s) = String.length s.
Proof.
  unfold string_bytes. rewrite length_map. induction s as [|a s IH]; [done|]. cbn. by rewrite IH.
Qed.

Lemma get_str_reads s : uint 32 (Z.of_nat (String.length s)) -> reads get_str (put_str s) s.
Proof.
  intros Hs. unfold get_str, put_str. rewrite wrap_small by done.
  eapply reads_bind; [by apply get_u32_reads|].
  rewrite Nat2Z.id, <- length_string_bytes. eapply reads_last; [apply take_bytes_reads|].
  rewrite bytes_string_bytes. apply reads_ret.
Qed.

Lemma get_enum_reads {E} `{UEnum E} (e : E) e1 e2 : reads (get_enum E e1 e2) (put_u8 (enum_code e)) e.
Proof. eapply reads_last; [apply reads_or_fail, get_u8_reads|]. by rewrite enum_of_code. Qed.

Lemma get_many_reads {A C} (item : nat -> reader A) (put : C -> bytes) (f : C -> A) (l : list C) i :
  (forall j c, l !! j = Some c -> reads (item (i + j)%nat) (put c) (f c)) ->
  reads (get_many (length l) item i) (concat (map put l)) (map f l).
Proof.
  revert i. induction l as [|c l IH]; intros i Hc; cbn [length get_many map concat]; [apply reads_ret|].
  eapply reads_bind; [rewrite <- (Nat.add_0_r i); by apply (Hc 0%nat)|].
  eapply reads_last; [|apply reads_ret]. apply IH. intros j c' Hj.
  replace (S i + j)%nat with (i + S j)%nat by lia. by apply Hc.
Qed.

(** *** What the readers accept is well formed *)
Lemma get_u8_yields : yields get_u8 (uint 8).
Proof. intros [|b s] v rest Hs; [done|]. intros [= <- <-]. inversion Hs; subst. split; [done|by exists [b]]. Qed.
Lemma get_u16_yields : yields get_u16 (uint 16).
Proof. intros s v rest Hs. rewrite get_u16_alt. by apply (get_be_yields 16 2). Qed.
Lemma get_u32_yields : yields get_u32 (uint 32).
Proof. by apply (get_be_yields 32 4). Qed.
Lemma get_u64_yields : yields get_u64 (uint 64).
Proof. by apply (get_be_yields 64 8). Qed.
Lemma get_f64_yields : yields get_f64 (uint 64).
Proof. apply get_u64_yields. Qed.

Lemma get_id_yields : yields get_id Id128_wf.
Proof.
  eapply yields_bind; [apply take_bytes_yields|]. intros bs [Hb Hl]. by apply yields_ret, from_bytes_wf.
Qed.

Lemma length_bytes_string bs : String.length (bytes_string bs) = length bs.
Proof. unfold bytes_string. induction bs as [|b bs IH]; [done|]. cbn. by rewrite IH. Qed.

Lemma get_str_yields : yields get_str (fun s => uint 32 (Z.of_nat (String.length s))).
Proof.
  eapply yields_bind; [apply get_u32_yields|]. intros len Hlen. cbn beta in Hlen.
  eapply yields_bind; [apply take_bytes_yields|]. intros bs [_ Hl]. apply yields_ret.
  rewrite length_bytes_string, Hl, Z2Nat.id; [done|]. unfold uint in Hlen. lia.
Qed.

Lemma get_enum_yields {E} `{UEnum E} e1 e2 : yields (get_enum E e1 e2) (fun _ => True).
Proof.
  eapply yields_bind; [apply yields_or_fail, get_u8_yields|]. intros c _. destruct (enum_of c); [by apply yields_ret|apply yields_fail].
Qed.

Lemma get_many_yields {A} (item : nat -> reader A) (P : A -> Prop) n i :
  (forall j, (i <= j < i + n)%nat -> yields (item j) P) ->
  yields (get_many n item i) (fun l => Forall P l /\ length l = n).
Proof.
  revert i. induction n as [|n IH]; intros i Hi; cbn [get_many]; [by apply yields_ret|].
  eapply yields_bind; [apply Hi; lia|]. intros a Ha.
  eapply yields_bind; [apply IH; intros; apply Hi; lia|]. intros l [Hl Hn]. apply yields_ret.
  split; [by constructor|cbn; lia].
Qed.

(** *** What the writers write are bytes *)
Lemma put_u8_bytes v : uint 8 v -> bytes_ok (put_u8 v).
Proof. by constructor. Qed.
Lemma put_u32_bytes v : bytes_ok (put_u32 v).
Proof. by apply be_digits_uint. Qed.
Lemma put_u64_bytes v : bytes_ok (put_u64 v).
Proof. by apply be_digits_uint. Qed.
Lemma put_f64_bytes v : bytes_ok (put_f64 v).
Proof. apply put_u64_bytes. Qed.
Lemma put_id_bytes i : bytes_ok (put_id i).
Proof. apply to_bytes_ok. Qed.
Lemma put_str_bytes s : bytes_ok (put_str s).
Proof. apply Forall_app. split; [apply put_u32_bytes|apply string_bytes_ok]. Qed.
Lemma put_bool_bytes b : bytes_ok (put_bool b).
Proof. destruct b; by apply put_u8_bytes. Qed.
Lemma put_enum_bytes {E} `{UEnum E} (e : E) : bytes_ok (put_u8 (enum_code e)).
Proof. apply put_u8_bytes, enum_u8. Qed.
Lemma concat_bytes {A} (put : A -> bytes) (P : A -> Prop) l :
  Forall P l -> (forall a, P a -> bytes_ok (put a)) -> bytes_ok (concat (map put l)).
Proof. intros Hl Hp. induction Hl; [constructor|]. apply Forall_app. auto. Qed.

Create HintDb put_bytes discriminated.
#[export] Hint Resolve put_u8_bytes put_u32_bytes put_u64_bytes put_f64_bytes put_id_bytes put_str_bytes
  put_enum_bytes put_bool_bytes : put_bytes.
(** Bytes of a concatenation of written fields. *)
Ltac solve_bytes := rewrite ?Forall_app; split_and?; eauto with put_bytes.

Create HintDb reads discriminated.
#[export] Hint Resolve reads_ret reads_guard get_u8_reads get_u16_reads get_u32_reads get_u64_reads get_f64_reads
  get_id_reads get_str_reads get_enum_reads reads_or_fail : reads.
Create HintDb yields discriminated.
#[export] Hint Resolve get_u8_yields get_u16_yields get_u32_yields get_u64_yields get_f64_yields get_id_yields
  get_str_yields get_enum_yields yields_or_fail yields_guard yields_fail : yields.

(** Step through a decoder along the pieces the encoder wrote. *)
Ltac reads_step :=
  first
    [ eapply reads_bind_nil; [by apply reads_guard|]
    | eapply reads_bind; [solve [eauto with reads]|]
    | eapply reads_last; [solve [eauto with reads]|] ].
(** Step through a decoder keeping what each field is known to satisfy. *)
Ltac yields_step :=
  eapply yields_bind; [solve [eauto with yields]|]; cbn beta; intros.
