(* ===== verification/Protocol.v ===== *)
(** * protocol.hpp: frames

    [FrameWriter] and [FrameReader] over the byte stream of a connection: the
    writer's sends appear in order in the stream, a read fails on a stream
    that ends early.  [WireEncoder] and [WireDecoder] are in Codec. *)

From Stdlib Require Import ZArith Lia String.
From stdpp Require Import base list numbers strings.
From S2P Require Import Prelude Hash Codec.
Local Open Scope Z_scope.
Local Open Scope warmth_scope.
Local Open Scope reader_scope.

Definition kFrameMagic : Z := 0x5746524D.
Definition kFrameVersion : Z := 1.
Definition kMaxPayload : Z := 16 * 1024 * 1024.

Inductive MessageType :=
  | HELLO | HELLO_ACK | REPORT | WARM_TOPIC | WARM_RESULT | PING | PONG | SHUTDOWN | ERROR | READY.

#[export] Instance MessageType_eq_dec : EqDecision MessageType.
Proof. solve_decision. Defined.

(** The enumeration's underlying type is 16 bits wide; its values are small. *)
Definition MessageType_code (t : MessageType) : Z :=
  match t with
  | HELLO => 1 | HELLO_ACK => 2 | REPORT => 3 | WARM_TOPIC => 4 | WARM_RESULT => 5
  | PING => 6 | PONG => 7 | SHUTDOWN => 8 | ERROR => 9 | READY => 10
  end.

#[export] Program Instance MessageType_enum : UEnum MessageType := {
  enum_all := [HELLO; HELLO_ACK; REPORT; WARM_TOPIC; WARM_RESULT; PING; PONG; SHUTDOWN; ERROR; READY];
  enum_code := MessageType_code }.
Solve Obligations with solve_enum_field.

Definition known_type (t : Z) : bool := enum_ok MessageType t.

Definition message_type_name (t : MessageType) : string :=
  match t with
  | HELLO => "HELLO"
  | HELLO_ACK => "HELLO_ACK"
  | REPORT => "REPORT"
  | WARM_TOPIC => "WARM_TOPIC"
  | WARM_RESULT => "WARM_RESULT"
  | PING => "PING"
  | PONG => "PONG"
  | SHUTDOWN => "SHUTDOWN"
  | ERROR => "ERROR"
  | READY => "READY"
  end.

Record Frame := mkFrame { type : MessageType; flags : Z; payload : bytes }.

Definition frame_wf (f : Frame) : Prop := uint 8 (flags f) /\ bytes_ok (payload f).

(** [FrameWriter::write]: the bytes sent, [None] when it refuses to send. *)
Definition write (f : Frame) : option bytes :=
  let p := payload f in
  let size := Z.of_nat (length p) in
  if kMaxPayload <? size then None
  else
    let header := put_u32 kFrameMagic ++ put_u8 kFrameVersion ++ put_u8 (flags f) ++
                  put_u16 (enum_code (type f)) ++ put_u32 (u32 size) in
    Some (header ++ p ++ put_u32 (crc32 p)).

(** [FrameReader::read]. *)
Definition read : reader Frame :=
  header <- take_bytes 12 ;;
  let magic := be_value 32 8 (take 4 header) in
  ensure magic =? kFrameMagic or "" ;;
  ensure nth 4 header 0 =? kFrameVersion or "" ;;
  let type := be_value 16 8 (take 2 (drop 6 header)) in
  match enum_of type with
  | None => rfail ""
  | Some type =>
      let len := be_value 32 8 (take 4 (drop 8 header)) in
      ensure len <=? kMaxPayload or "" ;;
      payload <- take_bytes (Z.to_nat len) ;;
      cb <- take_bytes 4 ;;
      ensure be_value 32 8 cb =? crc32 payload or "" ;;
      rret (mkFrame type (nth 5 header 0) payload)
  end.

(** On a connection whose other side stays silent but open: whether [read], with
    these bytes before it, asks for one more and waits. *)
Definition awaits (s : bytes) : bool :=
  let len := be_value 32 8 (take 4 (drop 8 s)) in
  bool_decide (length s < 12)%nat ||
  ((be_value 32 8 (take 4 s) =? kFrameMagic) && (nth 4 s 0 =? kFrameVersion) &&
   known_type (be_value 16 8 (take 2 (drop 6 s))) && (len <=? kMaxPayload) &&
   bool_decide (length s < 12 + Z.to_nat len + 4)%nat).

(** A sequence of frames written to, and read from, one connection. *)
Fixpoint write_all (fs : list Frame) : option bytes :=
  match fs with
  | [] => Some []
  | f :: fs => match write f, write_all fs with Some b, Some bs => Some (b ++ bs) | _, _ => None end
  end.
Definition read_frames (n : nat) : reader (list Frame) := get_many n (fun _ => read) 0.

(** ** Lemmas *)

Lemma be_value_u32 v : uint 32 v -> be_value 32 8 (put_u32 v) = v.
Proof. by apply (be_value_digits 32 8 4). Qed.
Lemma be_value_u16 v : uint 16 v -> be_value 16 8 (put_u16 v) = v.
Proof. by apply (be_value_digits 16 8 2). Qed.

Definition header_bytes (f : Frame) : bytes :=
  put_u32 kFrameMagic ++ put_u8 kFrameVersion ++ put_u8 (flags f) ++
  put_u16 (enum_code (type f)) ++ put_u32 (Z.of_nat (length (payload f))).

Lemma write_some f : Z.of_nat (length (payload f)) <= kMaxPayload ->
  write f = Some (header_bytes f ++ payload f ++ put_u32 (crc32 (payload f))).
Proof.
  intros Hl. unfold write. rewrite (proj2 (Z.ltb_ge _ _)) by lia. unfold header_bytes.
  rewrite (wrap_small 32 (Z.of_nat _)); [done|].
  unfold uint. change kMaxPayload with 16777216 in Hl. lia.
Qed.

Lemma write_ok f bs : write f = Some bs ->
  Z.of_nat (length (payload f)) <= kMaxPayload /\
  bs = header_bytes f ++ payload f ++ put_u32 (crc32 (payload f)).
Proof.
  intros E. assert (Z.of_nat (length (payload f)) <= kMaxPayload) as Hl.
  { unfold write in E. destruct (Z.ltb_spec kMaxPayload (Z.of_nat (length (payload f)))); [done|lia]. }
  split; [done|]. rewrite write_some in E by done. congruence.
Qed.

(** The reader on a stream that starts with a header, some payload of the
    announced length and a checksum field [c]. *)
Lemma read_layout f p c rest : uint 32 c -> Z.of_nat (length (payload f)) <= kMaxPayload ->
  length p = length (payload f) ->
  read (header_bytes f ++ p ++ put_u32 c ++ rest) =
    if c =? crc32 p then Ok (mkFrame (type f) (flags f) p, rest) else Err "".
Proof.
  intros Hc Hl Hp. unfold read, rbind at 1.
  change 12%nat with (length (header_bytes f)) at 1. rewrite take_bytes_reads.
  change (take 4 (header_bytes f)) with (put_u32 kFrameMagic).
  change (nth 4 (header_bytes f) 0) with kFrameVersion.
  change (nth 5 (header_bytes f) 0) with (flags f).
  change (take 2 (drop 6 (header_bytes f))) with (put_u16 (enum_code (type f))).
  change (take 4 (drop 8 (header_bytes f))) with (put_u32 (Z.of_nat (length (payload f)))).
  cbn zeta. rewrite (be_value_u32 kFrameMagic), !Z.eqb_refl by done.
  rewrite be_value_u16, enum_of_code by by destruct (type f).
  change kMaxPayload with 16777216 in Hl |- *. rewrite be_value_u32 by (unfold uint; lia).
  rewrite (proj2 (Z.leb_le _ _)) by lia. cbn [guard]. unfold rbind, rret. rewrite Nat2Z.id, <- Hp.
  rewrite take_bytes_reads. change 4%nat with (length (put_u32 c)). rewrite take_bytes_reads.
  rewrite be_value_u32 by done. by destruct (c =? crc32 p).
Qed.

Lemma read_write f bs : frame_wf f -> write f = Some bs -> reads read bs f.
Proof.
  intros [_ Hp] [Hl ->]%write_ok rest. rewrite <- !app_assoc, read_layout by (done || by apply crc32_uint).
  rewrite Z.eqb_refl. by destruct f.
Qed.

Lemma list_12 {A} (l : list A) : length l = 12%nat -> exists a b c d e f g h i j k m, l = [a; b; c; d; e; f; g; h; i; j; k; m].
Proof. intros H. do 12 (destruct l as [|? l]; [discriminate H|]). destruct l; [|discriminate H]. by repeat eexists. Qed.

Lemma take_bytes_long n s : (n <= length s)%nat -> take_bytes n s = Ok (take n s, drop n s).
Proof. intros H. unfold take_bytes. rewrite decide_False by lia. done. Qed.
Lemma take_bytes_short n s : (length s < n)%nat -> take_bytes n s = Err "".
Proof. intros H. unfold take_bytes. by rewrite decide_True. Qed.

(** Where [read] does not wait, what comes later makes no difference; where it
    does, the end of the stream is a failure. *)
Lemma awaits_spec s more :
  if awaits s then read s = Err ""
  else read (s ++ more) = match read s with Ok (f, rest) => Ok (f, rest ++ more) | Err e => Err e end.
Proof.
  destruct (decide (length s < 12)%nat) as [Hl|Hl].
  { unfold awaits. rewrite bool_decide_true by done. cbn [orb]. unfold read, rbind at 1. by rewrite take_bytes_short. }
  assert (exists h r, s = h ++ r /\ length h = 12%nat) as (h & r & -> & Hh).
  { exists (take 12 s), (drop 12 s). split; [by rewrite take_drop|]. rewrite length_take. lia. }
  unfold awaits. rewrite bool_decide_false by done. cbn [orb]. rewrite length_app, Hh, <- app_assoc.
  assert (forall t, take_bytes 12 (h ++ t) = Ok (h, t)) as Ht by (intros t; rewrite <- Hh; apply take_bytes_reads).
  apply list_12 in Hh as (a & b & c & d & v & fl & t1 & t2 & l1 & l2 & l3 & l4 & ->).
  unfold read, rbind, known_type, enum_ok. rewrite !Ht. cbn [app take drop nth]. rewrite !take_0. cbn zeta. unfold guard, rret, rfail.
  destruct (_ =? kFrameMagic); [|done]. destruct (v =? kFrameVersion); [|done]. cbn [andb].
  destruct (enum_of (be_value 16 8 [t1; t2])) as [t|]; cbn [andb]; [|done].
  set (len := be_value 32 8 [l1; l2; l3; l4]). destruct (len <=? kMaxPayload); [|done]. cbn [andb]. set (n := Z.to_nat len).
  case_bool_decide as Hn.
  - destruct (decide (length r < n)%nat); [by rewrite take_bytes_short|]. rewrite take_bytes_long by lia.
    by rewrite take_bytes_short by (rewrite length_drop; lia).
  - rewrite (take_bytes_long n), (take_bytes_long n r) by (rewrite ?length_app; lia).
    rewrite !take_bytes_long by (rewrite ?length_drop, ?length_app; lia).
    rewrite (take_app_le r), !(drop_app_le r), (take_app_le (drop n r)), (drop_app_le (drop n r))  by (rewrite ?length_drop; lia).
    by destruct (_ =? crc32 _).
Qed.
Lemma be_value_put w l n : length l = n -> Z.of_nat n * 8 <= w -> bytes_ok l ->
  l = be_digits 8 n (be_value w 8 l) /\ uint (Z.of_nat n * 8) (be_value w 8 l).
Proof.
  intros <- Hw Hl. destruct (be_digits_value w 8 l ltac:(lia) Hw Hl) as [-> Hu]. done.
Qed.

(** The reader accepts nothing the writer would not write. *)
Lemma read_sound s f rest : bytes_ok s -> read s = Ok (f, rest) ->
  frame_wf f /\ exists bs, write f = Some bs /\ s = bs ++ rest.
Proof.
  intros Hs (h & s1 & [-> Hh]%take_bytes_ok & H)%rbind_ok. apply Forall_app in Hs as [Hb Hs].
  apply list_12 in Hh as (a & b & c & d & v & fl & t1 & t2 & l1 & l2 & l3 & l4 & ->).
  cbn [take drop nth] in H. cbn zeta in H.
  apply rbind_ok in H as (? & ? & [Hm ->]%guard_ok & H). apply rbind_ok in H as (? & ? & [Hv ->]%guard_ok & H).
  bool_simpl. rewrite !Forall_cons in Hb. decompose [and] Hb.
  destruct (be_value_put 32 [a; b; c; d] 4) as [Em _]; [done..|by rewrite !Forall_cons|]. rewrite Hm in Em.
  destruct (be_value_put 16 [t1; t2] 2) as [Et _]; [done..|by rewrite !Forall_cons|].
  destruct (be_value_put 32 [l1; l2; l3; l4] 4) as [El Hlu]; [done..|by rewrite !Forall_cons|].
  set (len := be_value 32 8 [l1; l2; l3; l4]) in *.
  destruct (enum_of (be_value 16 8 [t1; t2])) as [t|] eqn:Ht; [|done]. apply enum_code_of in Ht. rewrite <- Ht in Et.
  apply rbind_ok in H as (? & ? & [Hmax ->]%guard_ok & H).
  apply rbind_ok in H as (p & s2 & [-> Hp]%take_bytes_ok & H). apply Forall_app in Hs as [Hpb Hs].
  apply rbind_ok in H as (cb & s3 & [-> Hcb]%take_bytes_ok & H). apply Forall_app in Hs as [Hcbb Hs].
  apply rbind_ok in H as (? & ? & [Hc ->]%guard_ok & [= <- <-]). bool_simpl.
  destruct (be_value_put 32 cb 4) as [Ec _]; [done..|]. rewrite Hc in Ec.
  assert (Z.of_nat (length p) = len) as Hpl by (unfold uint in Hlu; lia).
  split; [by split|]. eexists. split; [apply write_some; cbn; lia|].
  unfold header_bytes. cbn [flags type payload]. rewrite Hpl. unfold put_u32, put_u16, put_u8.
  rewrite <- Em, <- Et, <- El, <- Ec, <- Hv. rewrite <- !app_assoc. reflexivity.
Qed.

Lemma read_yields : yields read frame_wf.
Proof. intros s f rest Hs H. destruct (read_sound s f rest Hs H) as (? & bs & _ & ->). eauto. Qed.

Lemma read_truncated f bs pre suf : frame_wf f -> write f = Some bs -> bytes_ok bs -> bs = pre ++ suf -> suf <> [] ->
  exists e, read pre = Err e.
Proof.
  intros Hf Hw Hb -> Hsuf. apply Forall_app in Hb as [Hpre _].
  destruct (read pre) as [[f' r]|e] eqn:E; [|eauto]. exfalso.
  apply read_sound in E as (Hf' & bs' & Hw' & ->); [|done].
  pose proof (read_write f _ Hf Hw []) as H1. pose proof (read_write f' _ Hf' Hw' (r ++ suf)) as H2.
  rewrite app_nil_r, <- app_assoc in H1. rewrite H1 in H2. injection H2 as _ Hr.
  symmetry in Hr. by apply app_eq_nil in Hr as [_ ?].
Qed.

(** A frame takes at least sixteen bytes off the stream. *)
Lemma read_consumes s f rest : read s = Ok (f, rest) -> (length rest + 16 <= length s)%nat.
Proof.
  unfold read. intros (h & s1 & Hh & H)%rbind_ok. apply take_bytes_ok in Hh as [-> Hl].
  apply rbind_ok in H as (u1 & s2 & [_ ->]%guard_ok & H). apply rbind_ok in H as (u2 & s3 & [_ ->]%guard_ok & H).
  destruct (enum_of _) as [t|]; [|done]. apply rbind_ok in H as (u3 & s4 & [_ ->]%guard_ok & H).
  apply rbind_ok in H as (p & s5 & Hp & H). apply take_bytes_ok in Hp as [-> Hp].
  apply rbind_ok in H as (cb & s6 & Hc & H). apply take_bytes_ok in Hc as [-> Hc].
  apply rbind_ok in H as (u4 & s7 & [_ ->]%guard_ok & H). injection H as _ ->. rewrite !length_app. lia.
Qed.

Lemma header_bytes_ok f : uint 8 (flags f) -> bytes_ok (header_bytes f).
Proof.
  intros Hf. unfold header_bytes, put_u32, put_u16, put_u8. rewrite !Forall_app, !Forall_singleton.
  split_and!; try done; by apply be_digits_uint.
Qed.

Lemma write_bytes_ok f bs : frame_wf f -> write f = Some bs -> bytes_ok bs.
Proof.
  intros [Hf Hp] [_ ->]%write_ok. rewrite !Forall_app. split_and!; [by apply header_bytes_ok|done|by apply be_digits_uint].
Qed.

#[export] Hint Resolve read_yields : yields.

(** ** Properties *)

(** any sequence of frames written to a connection is read back, frame by
    frame, whatever follows in the stream. *)
Theorem frame_stream_roundtrip (fs : list Frame) (bs : bytes) :
  Forall frame_wf fs -> write_all fs = Some bs -> reads (read_frames (length fs)) bs fs.
Proof.
  intros Hfs. unfold read_frames. generalize 0%nat. revert bs.
  induction Hfs as [|f fs Hf Hfs IH]; intros bs i Hw; cbn in Hw |- *; [by injection Hw as <-|].
  destruct (write f) as [b|] eqn:Eb; [|done]. destruct (write_all fs) as [bs'|]; [|done]. injection Hw as <-.
  eapply reads_bind; [by eapply read_write|]. eapply reads_last; [by apply IH|]. apply reads_ret.
Qed.

Definition frames_example : list Frame := [mkFrame PING 0 [1; 2; 3]; mkFrame SHUTDOWN 7 []].

Lemma frame_stream_roundtrip_witness : exists bs,
  write_all frames_example = Some bs /\ read_frames 2 (bs ++ [9; 9]) = Ok (frames_example, [9; 9]).
Proof.
  eexists. split; [vm_compute; reflexivity|].
  apply (frame_stream_roundtrip frames_example); [by repeat constructor|vm_compute; reflexivity].
Defined.

(** C16: the reader accepts exactly what the writer writes: a frame is read from
    a stream if and only if the stream starts with the writer's encoding of
    that frame; so every malformed header, length or checksum is rejected, and
    so is every proper prefix of a frame. *)
Theorem frame_reader_exact (s : bytes) (f : Frame) (rest : bytes) :
  bytes_ok s ->
  (read s = Ok (f, rest) <-> frame_wf f /\ exists bs, write f = Some bs /\ s = bs ++ rest) /\
  (forall suf, frame_wf f -> write f = Some (s ++ suf) -> suf <> [] -> exists e, read s = Err e).
Proof.
  intros Hs. split; [split|].
  - by apply read_sound.
  - intros (Hf & bs & Hw & ->). by apply read_write.
  - intros suf Hf Hw Hsuf. apply (read_truncated f (s ++ suf) s suf); try done. by apply (write_bytes_ok f).
Qed.

Lemma frame_reader_exact_witness :
  exists e, read [0x57; 0x46; 0x52; 0x4D; 1; 0; 0; 6; 0; 0; 0; 0; 0; 0; 0] = Err e.
Proof.
  destruct (frame_reader_exact [0x57; 0x46; 0x52; 0x4D; 1; 0; 0; 6; 0; 0; 0; 0; 0; 0; 0] (mkFrame PING 0 []) [])
    as [_ H]; [by repeat constructor|].
  apply (H [0]); [by repeat constructor|vm_compute; reflexivity|done].
Defined.

(** a frame whose payload was damaged in up to four consecutive bytes, or
    whose checksum field was changed, is rejected. *)
Theorem frame_corruption_rejected (f : Frame) (pre x y post rest : bytes) (c : Z) :
  frame_wf f -> Z.of_nat (length (payload f)) <= kMaxPayload -> payload f = pre ++ x ++ post ->
  bytes_ok y -> length y = length x -> (length x <= 4)%nat -> uint 32 c ->
  (x <> y /\ c = crc32 (payload f)) \/ (x = y /\ c <> crc32 (payload f)) ->
  read (header_bytes f ++ (pre ++ y ++ post) ++ put_u32 c ++ rest) = Err "".
Proof.
  intros [Hf Hp] Hl Ep Hy Hlen H4 Hc Hcase. rewrite Ep, !Forall_app in Hp. destruct Hp as (? & ? & ?).
  rewrite read_layout by (try done; rewrite Ep, !length_app; lia).
  case Z.eqb_spec; [|done]. intros Hcrc. exfalso. rewrite Ep in Hcase.
  destruct Hcase as [[Hne ->]|[<- Hne]]; [|done].
  by apply Hne, (crc32_burst pre x y post).
Qed.

Lemma frame_corruption_rejected_witness :
  read (header_bytes (mkFrame PING 0 [1; 2; 3]) ++ ([1] ++ [9] ++ [3]) ++ put_u32 (crc32 [1; 2; 3]) ++ []) = Err "".
Proof.
  apply (frame_corruption_rejected (mkFrame PING 0 [1; 2; 3]) [1] [2] [9] [3] []);
    [by repeat constructor|done|done|by repeat constructor|done|cbn; lia|vm_compute; by split|].
  left. done.
Defined.
