(* ===== verification/Transport.v ===== *)
(** * transport.hpp, transport.cpp: exact reads and writes over a socket

    The loops of [TcpConnection::read_exact] and [write_all] over what the
    kernel's [recv] and [send] answer, and the frame reader and writer on such
    a connection.  [Protocol] works on the byte stream as a whole; the theorems
    say that the loops implement it however the stream is cut up. *)

From Stdlib Require Import ZArith Lia String.
From stdpp Require Import base list numbers strings.
From S2P Require Import Prelude Hash Codec Protocol.
Local Open Scope Z_scope.
Local Open Scope warmth_scope.

(** A connection: the segments that [recv] will deliver, one per call as far as
    they are asked for, then the end of the stream or an error; how many bytes
    [send] will accept in each call, zero or less being its failure; and the
    bytes that were handed to the kernel so far. *)
Record TcpConnection := mkTcp {
  valid : bool;
  incoming : list bytes;
  accepts_next : list Z;
  wire : bytes }.

(** [::recv]: the bytes delivered; none at the end of the stream and on errors. *)
Definition recv (n : nat) (c : TcpConnection) : bytes * TcpConnection :=
  match incoming c with
  | [] => ([], c)
  | seg :: q =>
      let q := if decide (length seg <= n)%nat then q else drop n seg :: q in
      (take n seg, mkTcp (valid c) q (accepts_next c) (wire c))
  end.

(** [::send]: the number of bytes accepted. *)
Definition send (data : bytes) (c : TcpConnection) : Z * TcpConnection :=
  match accepts_next c with
  | [] => (-1, c)
  | k :: ks =>
      let k := Z.min k (Z.of_nat (length data)) in
      (k, mkTcp (valid c) (incoming c) ks (if k <=? 0 then wire c else wire c ++ take (Z.to_nat k) data))
  end.

(** The loop of [read_exact]: [out] holds the [got] bytes read so far. *)
Fixpoint read_loop (fuel n : nat) (out : bytes) (c : TcpConnection) : option (bool * bytes * TcpConnection) :=
  if decide (n <= length out)%nat then Some (true, out, c)
  else
    match fuel with
    | O => None
    | S fuel =>
        match recv (n - length out) c with
        | ([], c) => Some (false, out, c)
        | (b, c) => read_loop fuel n (out ++ b) c
        end
    end.

Definition read_exact (n : nat) (c : TcpConnection) : option (bool * bytes * TcpConnection) :=
  if valid c then read_loop n n [] c else Some (false, [], c).

(** The loop of [write_all] on the bytes that are still to be sent. *)
Fixpoint write_loop (fuel : nat) (data : bytes) (c : TcpConnection) : option (bool * TcpConnection) :=
  match data with
  | [] => Some (true, c)
  | _ =>
      match fuel with
      | O => None
      | S fuel =>
          let '(k, c) := send data c in
          if k <=? 0 then Some (false, c) else write_loop fuel (drop (Z.to_nat k) data) c
      end
  end.

Definition write_all (data : bytes) (c : TcpConnection) : option (bool * TcpConnection) :=
  if valid c then write_loop (length data) data c else Some (false, c).

Definition close (c : TcpConnection) : TcpConnection := mkTcp false (incoming c) (accepts_next c) (wire c).

(** Sequencing: [None] is running out of fuel, [Some (None, _)] is [return false]. *)
Definition io (A : Type) : Type := TcpConnection -> option (option A * TcpConnection).
Definition io_ret {A} (a : A) : io A := fun c => Some (Some a, c).
Definition io_fail {A} : io A := fun c => Some (None, c).
Definition io_bind {A B} (m : io A) (k : A -> io B) : io B :=
  fun c => match m c with
           | None => None
           | Some (None, c) => Some (None, c)
           | Some (Some a, c) => k a c
           end.
Declare Scope io_scope.
Notation "x <- m ;; k" := (io_bind m (fun x => k)) (at level 100, m at next level, right associativity) : io_scope.
Local Open Scope io_scope.

(** [if (!conn_.read_exact(out, n)) return false;] and its sibling. *)
Definition need (n : nat) : io bytes :=
  fun c => match read_exact n c with
           | None => None
           | Some (ok, out, c) => Some (if ok then Some out else None, c)
           end.
Definition put (data : bytes) : io unit :=
  fun c => match write_all data c with
           | None => None
           | Some (ok, c) => Some (if ok then Some tt else None, c)
           end.
Definition check (b : bool) : io unit := if b then io_ret tt else io_fail.

(** [FrameReader::read] and [FrameWriter::write] on a connection. *)
Definition read_frame : io Frame :=
  header <- need 12 ;;
  let magic := be_value 32 8 (take 4 header) in
  _ <- check (magic =? kFrameMagic) ;;
  _ <- check (nth 4 header 0 =? kFrameVersion) ;;
  match enum_of (be_value 16 8 (take 2 (drop 6 header))) with
  | None => io_fail
  | Some type =>
      let len := be_value 32 8 (take 4 (drop 8 header)) in
      _ <- check (len <=? kMaxPayload) ;;
      payload <- need (Z.to_nat len) ;;
      cb <- need 4 ;;
      _ <- check (be_value 32 8 cb =? crc32 payload) ;;
      io_ret (mkFrame type (nth 5 header 0) payload)
  end.

Definition write_frame (f : Frame) : io unit :=
  let p := payload f in
  let size := Z.of_nat (length p) in
  _ <- check (negb (kMaxPayload <? size)) ;;
  _ <- put (put_u32 kFrameMagic ++ put_u8 kFrameVersion ++ put_u8 (flags f) ++
            put_u16 (enum_code (type f)) ++ put_u32 (u32 size)) ;;
  _ <- (if decide (p = []) then io_ret tt else put p) ;;
  put (put_u32 (crc32 p)).

(** ** Lemmas: reading *)

(** Each call of [recv] delivers something until the stream ends. *)
Definition segmented (c : TcpConnection) : Prop := valid c = true /\ Forall (fun seg => seg <> []) (incoming c).
Definition stream (c : TcpConnection) : bytes := concat (incoming c).

Lemma recv_spec n c : segmented c -> (0 < n)%nat ->
  let '(b, c') := recv n c in
  segmented c' /\ stream c = b ++ stream c' /\ (length b <= n)%nat /\ (b = [] -> stream c = []).
Proof.
  intros [Hv Hs] Hn. unfold recv, segmented, stream. destruct (incoming c) as [|seg q] eqn:E.
  { rewrite E. split_and!; (done || cbn; lia). }
  apply Forall_cons in Hs as [Hseg Hq]. cbn [incoming valid concat]. rewrite length_take.
  assert (take n seg = [] -> False) as Hne by (destruct seg; [done|]; destruct n; [lia|done]).
  case_decide as Hd.
  - rewrite take_ge by done. split_and!; [done..|lia|by intros ->].
  - split_and!; [done| |by cbn [concat]; rewrite app_assoc, take_drop|lia|by intros ?%Hne].
    constructor; [|done]. intros H%(f_equal length). rewrite length_drop in H. cbn in H. lia.
Qed.

(** The loop takes exactly the bytes that are missing, or fails because the
    stream ends before. *)
Lemma read_loop_spec fuel n out c : segmented c -> (n <= length out + fuel)%nat -> (length out <= n)%nat ->
  exists ok out' c', read_loop fuel n out c = Some (ok, out', c') /\
    if ok then segmented c' /\ length out' = n /\ out ++ stream c = out' ++ stream c'
    else (length (out ++ stream c) < n)%nat.
Proof.
  revert out c. induction fuel as [|fuel IH]; intros out c Hc Hf Hn; cbn [read_loop]; case_decide as Hd.
  - exists true, out, c. split; [done|]. split_and!; [done|lia|done].
  - lia.
  - exists true, out, c. split; [done|]. split_and!; [done|lia|done].
  - pose proof (recv_spec (n - length out) c Hc ltac:(lia)) as Hr. destruct (recv _ c) as [b c1].
    destruct Hr as (Hc1 & -> & Hl & He). destruct b as [|x b].
    + exists false, out, c1. split; [done|]. rewrite (He eq_refl), app_nil_r. lia.
    + destruct (IH (out ++ x :: b) c1) as (ok & out' & c' & -> & H); [done|rewrite length_app; cbn [length] in *; lia..|].
      exists ok, out', c'. split; [done|]. by rewrite app_assoc.
Qed.

(** What a step over the connection and a reader of the stream have in common. *)
Definition implements {A} (m : io A) (r : reader A) : Prop :=
  forall c, segmented c ->
    match m c with
    | None => False
    | Some (Some a, c') => segmented c' /\ r (stream c) = Ok (a, stream c')
    | Some (None, _) => exists e, r (stream c) = Err e
    end.

Lemma need_implements n : implements (need n) (take_bytes n).
Proof.
  intros c Hc. unfold need, read_exact. rewrite (proj1 Hc).
  destruct (read_loop_spec n n [] c Hc ltac:(cbn; lia) ltac:(cbn; lia)) as (ok & out & c' & -> & H).
  unfold take_bytes. destruct ok.
  - destruct H as (Hc' & Hl & E). cbn [app] in E. split; [done|].
    rewrite E, decide_False by (rewrite length_app; lia). rewrite <- Hl, take_app_length, drop_app_length. done.
  - cbn [app] in H. rewrite decide_True by done. eauto.
Qed.

Lemma bind_implements {A B} (m : io A) (r : reader A) (k : A -> io B) (k' : A -> reader B) :
  implements m r -> (forall a, implements (k a) (k' a)) -> implements (io_bind m k) (rbind r k').
Proof.
  intros Hm Hk c Hc. specialize (Hm c Hc). unfold io_bind, rbind. destruct (m c) as [[[a|] c']|]; [|..|done].
  - destruct Hm as [Hc' ->]. by apply Hk.
  - destruct Hm as [e ->]. eauto.
Qed.

Lemma check_implements b e : implements (check b) (guard b e).
Proof. intros c Hc. destruct b; cbn; eauto. Qed.
Lemma ret_implements {A} (a : A) : implements (io_ret a) (rret a).
Proof. by intros c Hc. Qed.
Lemma fail_implements {A} e : implements (A := A) io_fail (rfail e).
Proof. intros c Hc. cbn. eauto. Qed.

Lemma read_frame_implements : implements read_frame read.
Proof.
  unfold read_frame, read. apply bind_implements; [apply need_implements|]. intros h.
  do 2 (apply bind_implements; [apply check_implements|intros _]).
  destruct (enum_of _); [|apply fail_implements].
  apply bind_implements; [apply check_implements|intros _].
  do 2 (apply bind_implements; [apply need_implements|intros ?]).
  apply bind_implements; [apply check_implements|intros _]. apply ret_implements.
Qed.

(** ** Lemmas: writing *)

(** A step that sends exactly [bs] or, failing, a proper prefix of it. *)
Definition emits (m : io unit) (bs : bytes) : Prop :=
  forall c, valid c = true ->
    match m c with
    | None => False
    | Some (Some _, c') => valid c' = true /\ wire c' = wire c ++ bs
    | Some (None, c') => exists pre suf, bs = pre ++ suf /\ suf <> [] /\ wire c' = wire c ++ pre
    end.

Lemma write_loop_spec fuel data c : (length data <= fuel)%nat ->
  match write_loop fuel data c with
  | None => False
  | Some (true, c') => valid c' = valid c /\ wire c' = wire c ++ data
  | Some (false, c') => exists pre suf, data = pre ++ suf /\ suf <> [] /\ wire c' = wire c ++ pre
  end.
Proof.
  revert data c. induction fuel as [|fuel IH]; intros [|x data] c Hf; cbn [write_loop]; try (by rewrite app_nil_r);
    [cbn in Hf; lia|].
  destruct (send (x :: data) c) as [k c1] eqn:E. unfold send in E. destruct (accepts_next c) as [|k0 ks].
  - injection E as <- <-. cbn. exists [], (x :: data). by rewrite app_nil_r.
  - injection E as <- <-. set (k := Z.min k0 _). case Z.leb_spec; intros Hk.
    + exists [], (x :: data). by rewrite app_nil_r.
    + specialize (IH (drop (Z.to_nat k) (x :: data)) (mkTcp (valid c) (incoming c) ks (wire c ++ take (Z.to_nat k) (x :: data)))).
      destruct (write_loop _ _ _) as [[[] c']|]; cbn [valid wire] in IH.
      * destruct IH as [-> ->]; [rewrite length_drop; cbn [length] in *; lia|]. by rewrite <- app_assoc, take_drop.
      * destruct IH as (pre & suf & E & Hs & ->); [rewrite length_drop; cbn [length] in *; lia|].
        exists (take (Z.to_nat k) (x :: data) ++ pre), suf. rewrite <- !app_assoc, <- E, take_drop. done.
      * apply IH. rewrite length_drop. cbn [length] in *. lia.
Qed.

Lemma put_emits data : emits (put data) data.
Proof.
  intros c Hv. unfold put, write_all. rewrite Hv. pose proof (write_loop_spec (length data) data c ltac:(lia)) as H.
  destruct (write_loop _ _ _) as [[[] c']|]; [|done..]. by rewrite Hv in H.
Qed.

Lemma nothing_emits : emits (io_ret tt) [].
Proof. intros c Hv. cbn. by rewrite app_nil_r. Qed.

Lemma bind_emits (m : io unit) (k : unit -> io unit) bs bs' :
  emits m bs -> (forall u, emits (k u) bs') -> emits (io_bind m k) (bs ++ bs').
Proof.
  intros Hm Hk c Hv. specialize (Hm c Hv). unfold io_bind. destruct (m c) as [[[u|] c1]|]; [|..|done].
  - destruct Hm as [Hv1 Hw]. specialize (Hk u c1 Hv1). destruct (k u c1) as [[[[]|] c2]|]; [|..|done].
    + destruct Hk as [? ->]. rewrite Hw, app_assoc. done.
    + destruct Hk as (pre & suf & -> & Hs & ->). exists (bs ++ pre), suf. by rewrite Hw, !app_assoc.
  - destruct Hm as (pre & suf & -> & Hs & ->). exists pre, (suf ++ bs').
    rewrite <- app_assoc. split_and!; try done. by intros [? _]%app_eq_nil.
Qed.

Lemma check_emits (k : unit -> io unit) bs : emits (k tt) bs -> emits (io_bind (check true) k) bs.
Proof. done. Qed.

Lemma write_frame_emits f bs : write f = Some bs -> emits (write_frame f) bs.
Proof.
  unfold write, write_frame. destruct (kMaxPayload <? _); [done|]. intros E. apply (inj Some) in E as <-.
  refine (check_emits _ _ (bind_emits _ _ _ _ (put_emits _) (fun _ => bind_emits _ _ _ _ _ (fun _ => put_emits _)))).
  case_decide as Hp; [rewrite Hp; apply nothing_emits|apply put_emits].
Qed.

Lemma write_frame_refused f c : write f = None -> write_frame f c = Some (None, c).
Proof. unfold write, write_frame. by destruct (kMaxPayload <? _). Qed.

(** ** Properties *)

(** C29: the frame reader on a socket implements the reader on the stream: however
    the kernel cuts the stream into segments, the loops end, a frame is
    delivered exactly when the stream starts with one, and what is left on
    the connection is what is left of the stream. *)
Theorem frame_read_refines (c : TcpConnection) :
  segmented c ->
  exists r c', read_frame c = Some (r, c') /\
    match r with
    | Some f => segmented c' /\ read (stream c) = Ok (f, stream c')
    | None => exists e, read (stream c) = Err e
    end.
Proof.
  intros Hc. pose proof (read_frame_implements c Hc) as H. destruct (read_frame c) as [[[f|] c']|]; eauto; done.
Qed.

Definition tcp_example : TcpConnection :=
  mkTcp true [[0x57; 0x46; 0x52]; [0x4D; 1; 0; 0; 6; 0; 0; 0; 0; 0]; [0; 0]; [0; 7; 8]] [] [].

Lemma frame_read_refines_witness : exists c',
  read_frame tcp_example = Some (Some (mkFrame PING 0 []), c') /\ stream c' = [7; 8].
Proof.
  destruct (frame_read_refines tcp_example) as (r & c' & E & H); [by repeat constructor|].
  vm_compute in E. injection E as <- <-. eexists. split; [by vm_compute|done].
Defined.

(** a frame is delivered exactly when its send succeeded.  Both loops end,
    whatever [send] and [recv] do; if the writer reports success, a peer that
    receives what was sent reads this frame and nothing is left; if the writer
    reports failure, the peer reads no frame, not even a damaged one. *)
Theorem frame_transfer (f : Frame) (c d : TcpConnection) :
  frame_wf f -> valid c = true -> wire c = [] ->
  exists sent c', write_frame f c = Some (sent, c') /\
    (segmented d -> stream d = wire c' ->
     exists got d', read_frame d = Some (got, d') /\
       match sent with
       | Some _ => got = Some f /\ stream d' = []
       | None => got = None
       end).
Proof.
  intros Hf Hv Hw. destruct (write f) as [bs|] eqn:E.
  - pose proof (write_frame_emits f bs E c Hv) as H. destruct (write_frame f c) as [[[[]|] c']|]; [| |done];
      eexists _, _; (split; [done|]); intros Hd Es;
      pose proof (read_frame_implements d Hd) as Hr; rewrite Es in Hr.
    + destruct H as [_ Hw']. pose proof (read_write f bs Hf E []) as Hrw. rewrite app_nil_r in Hrw.
      rewrite Hw', Hw in Hr. cbn [app] in Hr. rewrite Hrw in Hr.
      destruct (read_frame d) as [[[g|] d']|]; [|by destruct Hr|done]. destruct Hr as [_ [= <- Hd']]. eauto.
    + destruct H as (pre & suf & -> & Hs & Hw'). rewrite Hw', Hw in Hr. cbn [app] in Hr.
      destruct (read_truncated f (pre ++ suf) pre suf Hf E (write_bytes_ok _ _ Hf E) eq_refl Hs) as [e He].
      rewrite He in Hr. destruct (read_frame d) as [[[g|] d']|]; [by destruct Hr|eauto|done].
  - rewrite write_frame_refused by done. eexists _, _. split; [done|]. intros Hd Es.
    pose proof (read_frame_implements d Hd) as Hr. rewrite Es in Hr. rewrite Hw in Hr.
    destruct (read_frame d) as [[[g|] d']|]; [|eauto|done]. by destruct Hr.
Qed.

Lemma frame_transfer_witness : exists c' d',
  write_frame (mkFrame PING 0 [9]) (mkTcp true [] [5; 1; 100; 100; 2; 100] []) = Some (Some tt, c') /\
  read_frame (mkTcp true [take 3 (wire c'); drop 3 (wire c')] [] []) = Some (Some (mkFrame PING 0 [9]), d').
Proof.
  destruct (frame_transfer (mkFrame PING 0 [9]) (mkTcp true [] [5; 1; 100; 100; 2; 100] [])
              (mkTcp true [take 3 (header_bytes (mkFrame PING 0 [9])); drop 3 (header_bytes (mkFrame PING 0 [9]) ++ [9] ++ put_u32 (crc32 [9]))] [] []))
    as (sent & c' & E & H); [by repeat constructor|done..|].
  vm_compute in E. injection E as <- <-.
  destruct H as (got & d' & Er & [-> _]); [by repeat constructor|by vm_compute|].
  eexists _, d'. split; [by vm_compute|]. exact Er.
Defined.
