(* ===== verification/Socket.v ===== *)
(** * transport.hpp, transport.cpp: who owns a socket

    [TcpConnection] and [TcpListener] each own at most one descriptor: they get
    it from [socket] or [accept], hand it over by moving, and give it back on
    [close], on a failed set-up and in the destructor.  Here the objects live in
    a store, the kernel knows which descriptors are open, and what a system call
    answers is an argument.  Using or closing a descriptor that is not open is
    recorded as [misuse].  Also the start and the end of the socket layer of
    Windows.  What goes over a connection is in [Transport]. *)

From Stdlib Require Import ZArith Lia String.
From stdpp Require Import base list numbers strings gmap fin_maps sets relations.
From S2P Require Import Prelude.
Local Open Scope Z_scope.

Definition invalid_socket : Z := -1.

(** An object of one of the two classes with its members. *)
Inductive SocketObject :=
  | TcpConnection (sock_ : Z)
  | TcpListener (sock_ port_ : Z).
Definition sock (o : SocketObject) : Z := match o with TcpConnection s => s | TcpListener s _ => s end.
Definition with_sock (s : Z) (o : SocketObject) : SocketObject :=
  match o with TcpConnection _ => TcpConnection s | TcpListener _ p => TcpListener s p end.

Record Net := mkNet {
  descriptors : gset Z;
  misuse : bool;
  store : gmap positive SocketObject }.
Definition net_new : Net := mkNet ∅ false ∅.

Definition sock_at (n : Net) (l : positive) : Z := match store n !! l with Some o => sock o | None => invalid_socket end.
Definition place (l : positive) (o : SocketObject) (n : Net) : Net := mkNet (descriptors n) (misuse n) (<[l := o]> (store n)).
(** [sock_ = s]. *)
Definition set_sock (l : positive) (s : Z) (n : Net) : Net :=
  mkNet (descriptors n) (misuse n) (alter (with_sock s) l (store n)).

(** ** System calls

    Not code of the repository: only what POSIX says of their effect on the
    process's table of descriptors, so that uses of it can be judged. *)
Definition sys_use (fd : Z) (n : Net) : Net :=
  mkNet (descriptors n) (misuse n || negb (bool_decide (fd ∈ descriptors n))) (store n).
Definition sys_close (fd : Z) (n : Net) : Net :=
  mkNet (descriptors n ∖ {[fd]}) (misuse n || negb (bool_decide (fd ∈ descriptors n))) (store n).
(** [socket] and [accept]: a new descriptor, or [invalid_socket]. *)
Definition sys_new (s : Z) (n : Net) : Net :=
  mkNet (if decide (s = invalid_socket) then descriptors n else {[s]} ∪ descriptors n) (misuse n) (store n).

(** ** Connections *)
Definition valid (l : positive) (n : Net) : bool := negb (sock_at n l =? invalid_socket).

Definition conn_close (l : positive) (n : Net) : Net :=
  if negb (valid l n) then n
  else
    let n := sys_close (sock_at n l) (sys_use (sock_at n l) n) in
    set_sock l invalid_socket n.

Definition destroy_conn (l : positive) (n : Net) : Net :=
  let n := conn_close l n in mkNet (descriptors n) (misuse n) (delete l (store n)).

(** [TcpConnection(TcpConnection&& o)]. *)
Definition move_construct (l src : positive) (n : Net) : Net :=
  let n := place l (TcpConnection (sock_at n src)) n in set_sock src invalid_socket n.
(** [operator=(TcpConnection&& o)]. *)
Definition move_assign (l src : positive) (n : Net) : Net :=
  if decide (l = src) then n
  else
    let n := conn_close l n in
    let n := set_sock l (sock_at n src) n in
    set_sock src invalid_socket n.

(** [write_all] and [read_exact]: a [send] or [recv] on the descriptor. *)
Definition transfer (l : positive) (n : Net) : Net := if valid l n then sys_use (sock_at n l) n else n.

(** The answers [connect] gets: the socket, and whether it connects. *)
Definition connect (l : positive) (s : Z) (connects : bool) (n : Net) : Net :=
  let n := sys_new s n in
  if decide (s = invalid_socket) then place l (TcpConnection invalid_socket) n
  else
    let n := sys_use s n in
    if negb connects then place l (TcpConnection invalid_socket) (sys_close s n)
    else place l (TcpConnection s) n.

(** ** Listeners *)
Definition listener_close (l : positive) (n : Net) : Net :=
  if decide (sock_at n l = invalid_socket) then n
  else set_sock l invalid_socket (sys_close (sock_at n l) n).

Definition destroy_listener (l : positive) (n : Net) : Net :=
  let n := listener_close l n in mkNet (descriptors n) (misuse n) (delete l (store n)).

Record ListenAnswers := mkListenAnswers { ans_socket : Z; binds : bool; listens : bool; bound_port : Z }.

Definition listen (l : positive) (a : ListenAnswers) (n : Net) : bool * Net :=
  let n := listener_close l n in
  let n := set_sock l (ans_socket a) (sys_new (ans_socket a) n) in
  if decide (sock_at n l = invalid_socket) then (false, n)
  else
    let n := sys_use (sock_at n l) n in                              (* setsockopt *)
    let n := sys_use (sock_at n l) n in                              (* bind *)
    if negb (binds a) then (false, listener_close l n)
    else
      let n := sys_use (sock_at n l) n in                            (* listen *)
      if negb (listens a) then (false, listener_close l n)
      else
        let n := sys_use (sock_at n l) n in                          (* getsockname *)
        (true, place l (TcpListener (sock_at n l) (bound_port a)) n).

(** [accept]: the connection, if there is one, is placed at [dst]. *)
Definition accept (l dst : positive) (s : Z) (n : Net) : bool * Net :=
  if decide (sock_at n l = invalid_socket) then (false, n)
  else
    let n := sys_new s (sys_use (sock_at n l) n) in
    if decide (s = invalid_socket) then (false, n) else (true, place dst (TcpConnection s) n).

Definition port (l : positive) (n : Net) : option Z :=
  match store n !! l with Some (TcpListener _ p) => Some p | _ => None end.

(** ** Addresses

    [inet_pton] is a parameter: [None] for a text it does not read, in which
    case the address stays what it was.  The results are the four bytes. *)
Definition INADDR_ANY : list Z := [0; 0; 0; 0].
Definition INADDR_LOOPBACK : list Z := [127; 0; 0; 1].
Definition listen_address (inet_pton : string -> option (list Z)) (host : string) : list Z :=
  if decide (host = "localhost" \/ host = "127.0.0.1" \/ host = "")%string then INADDR_LOOPBACK
  else default INADDR_ANY (inet_pton host).
Definition connect_address (inet_pton : string -> option (list Z)) (host : string) : list Z :=
  default INADDR_ANY (inet_pton host).

(** ** Steps of any thread

    A new object lives at an unused place, and the kernel answers [socket] and
    [accept] with a descriptor that is not in use.  An object returned by value
    is constructed in its place. *)
Definition answer_ok (s : Z) (n : Net) : Prop := s ∉ descriptors n.
Definition is_conn (l : positive) (n : Net) : Prop := exists s, store n !! l = Some (TcpConnection s).
Definition is_listener (l : positive) (n : Net) : Prop := exists s p, store n !! l = Some (TcpListener s p).

Inductive net_step : Net -> Net -> Prop :=
  | ns_conn l n : store n !! l = None -> net_step n (place l (TcpConnection invalid_socket) n)
  | ns_listener l n : store n !! l = None -> net_step n (place l (TcpListener invalid_socket 0) n)
  | ns_connect l s ok n : store n !! l = None -> answer_ok s n -> net_step n (connect l s ok n)
  | ns_accept l dst s n : is_listener l n -> store n !! dst = None -> answer_ok s n -> net_step n (accept l dst s n).2
  | ns_listen l a n : is_listener l n -> answer_ok (ans_socket a) n -> net_step n (listen l a n).2
  | ns_transfer l n : is_conn l n -> net_step n (transfer l n)
  | ns_close l n : is_conn l n -> net_step n (conn_close l n)
  | ns_listener_close l n : is_listener l n -> net_step n (listener_close l n)
  | ns_move_construct l src n : store n !! l = None -> is_conn src n -> net_step n (move_construct l src n)
  | ns_move_assign l src n : is_conn l n -> is_conn src n -> net_step n (move_assign l src n)
  | ns_destroy l n : is_conn l n -> net_step n (destroy_conn l n)
  | ns_destroy_listener l n : is_listener l n -> net_step n (destroy_listener l n).

Definition net_reach : Net -> Prop := rtc net_step net_new.

(** ** Ownership

    The open descriptors are exactly those held by the objects, each held once. *)
Record owned (n : Net) : Prop := mkOwned {
  no_misuse : misuse n = false;
  held : forall fd, fd ∈ descriptors n <-> fd <> invalid_socket /\ exists l, sock_at n l = fd;
  held_once : forall l l', sock_at n l = sock_at n l' -> sock_at n l <> invalid_socket -> l = l' }.

Lemma sock_at_place l o n l' : sock_at (place l o n) l' = if decide (l = l') then sock o else sock_at n l'.
Proof.
  unfold sock_at, place. cbn. destruct (decide (l = l')) as [<-|Hne]; [by rewrite lookup_insert_eq|by rewrite lookup_insert_ne].
Qed.

Lemma sock_at_set l s n l' : is_Some (store n !! l) ->
  sock_at (set_sock l s n) l' = if decide (l = l') then s else sock_at n l'.
Proof.
  intros [o Ho]. unfold sock_at, set_sock. cbn. destruct (decide (l = l')) as [<-|Hne].
  - rewrite lookup_alter_eq, Ho. by destruct o.
  - by rewrite lookup_alter_ne.
Qed.

Lemma sock_at_none l n : store n !! l = None -> sock_at n l = invalid_socket.
Proof. unfold sock_at. by intros ->. Qed.

(** The ways a step changes who holds what: the holders [f] of the new state
    in terms of those of the old one. *)
Lemma owned_same n n' : owned n -> descriptors n' = descriptors n -> misuse n' = misuse n ->
  (forall l, sock_at n' l = sock_at n l) -> owned n'.
Proof.
  intros [Hm Hh Ho] Hd Hmu Hs. split; [by rewrite Hmu| |].
  - intros fd. rewrite Hd, Hh. by setoid_rewrite Hs.
  - intros l l'. rewrite !Hs. apply Ho.
Qed.

Lemma owned_release n n' l : owned n -> sock_at n l <> invalid_socket ->
  descriptors n' = descriptors n ∖ {[sock_at n l]} -> misuse n' = misuse n ->
  (forall l', sock_at n' l' = if decide (l = l') then invalid_socket else sock_at n l') -> owned n'.
Proof.
  intros [Hm Hh Ho] Hl Hd Hmu Hs. split; [by rewrite Hmu| |].
  - intros fd. rewrite Hd, elem_of_difference, elem_of_singleton, Hh. split.
    + intros [[Hfd [k Hk]] Hne]. split; [done|]. exists k. rewrite Hs, decide_False; [done|]. by intros <-.
    + intros [Hfd [k Hk]]. rewrite Hs in Hk. destruct (decide (l = k)) as [->|Hne]; [by subst|].
      split; [eauto|]. intros E. apply Hne, Ho; [by rewrite Hk, E|done].
  - intros k k'. rewrite !Hs. destruct (decide (l = k)), (decide (l = k')); try done. apply Ho.
Qed.

Lemma owned_acquire n n' l fd : owned n -> sock_at n l = invalid_socket -> fd <> invalid_socket -> fd ∉ descriptors n ->
  descriptors n' = {[fd]} ∪ descriptors n -> misuse n' = misuse n ->
  (forall l', sock_at n' l' = if decide (l = l') then fd else sock_at n l') -> owned n'.
Proof.
  intros [Hm Hh Ho] Hl Hfd Hnew Hd Hmu Hs.
  assert (forall k, sock_at n k <> fd) as Hfree by (intros k Hk; apply Hnew, Hh; eauto).
  split; [by rewrite Hmu| |].
  - intros x. rewrite Hd, elem_of_union, elem_of_singleton, Hh. split.
    + intros [->|[Hx [k Hk]]]; (split; [done|]); [exists l; by rewrite Hs, decide_True|].
      exists k. rewrite Hs, decide_False; [done|]. intros <-. congruence.
    + intros [Hx [k Hk]]. rewrite Hs in Hk. destruct (decide (l = k)); [by left|right; eauto].
  - intros k k'. rewrite !Hs. destruct (decide (l = k)) as [<-|], (decide (l = k')) as [<-|]; try done; [|by intros ?%Hfree|apply Ho].
    intros E. by destruct (Hfree k').
Qed.

Lemma owned_move n n' l src : owned n -> l <> src -> sock_at n l = invalid_socket ->
  descriptors n' = descriptors n -> misuse n' = misuse n ->
  (forall l', sock_at n' l' = if decide (src = l') then invalid_socket else if decide (l = l') then sock_at n src else sock_at n l') ->
  owned n'.
Proof.
  intros [Hm Hh Ho] Hne Hl Hd Hmu Hs. split; [by rewrite Hmu| |].
  - intros fd. rewrite Hd, Hh. split; intros [Hfd [k Hk]]; (split; [done|]).
    + destruct (decide (src = k)) as [->|].
      * exists l. by rewrite Hs, decide_False, decide_True by done.
      * exists k. rewrite Hs, !decide_False; [done| |done]. intros <-. congruence.
    + rewrite Hs in Hk. destruct (decide (src = k)); [by subst|]. destruct (decide (l = k)); eauto.
  - intros k k'. rewrite !Hs.
    destruct (decide (src = k)) as [|Hk]; [done|]. destruct (decide (src = k')) as [|Hk']; [by intros ->|].
    destruct (decide (l = k)) as [<-|], (decide (l = k')) as [<-|]; [done|..|apply Ho].
    + intros E Hv. by destruct Hk'; apply Ho.
    + intros E Hv. destruct Hk. by apply Ho; [|rewrite <- E].
Qed.

Lemma held_open n l : owned n -> sock_at n l <> invalid_socket -> sock_at n l ∈ descriptors n.
Proof. intros Ho Hl. apply (held n Ho). eauto. Qed.

Lemma sys_use_open fd n : fd ∈ descriptors n -> sys_use fd n = n.
Proof. intros H. unfold sys_use. rewrite bool_decide_true by done. cbn. rewrite orb_false_r. by destruct n. Qed.

Lemma sys_close_open fd n : fd ∈ descriptors n -> sys_close fd n = mkNet (descriptors n ∖ {[fd]}) (misuse n) (store n).
Proof. intros H. unfold sys_close. rewrite bool_decide_true by done. cbn. by rewrite orb_false_r. Qed.

Lemma valid_true l n : valid l n = true <-> sock_at n l <> invalid_socket.
Proof. unfold valid. rewrite negb_true_iff. apply Z.eqb_neq. Qed.

Lemma stored_valid l n : sock_at n l <> invalid_socket -> is_Some (store n !! l).
Proof. unfold sock_at. destruct (store n !! l); [eauto|done]. Qed.

(** *** The operations *)

(** Both ways of closing: the descriptor is given back, once. *)
Lemma release_owned l n : owned n -> sock_at n l <> invalid_socket ->
  let n' := set_sock l invalid_socket (sys_close (sock_at n l) n) in owned n' /\ sock_at n' l = invalid_socket.
Proof.
  intros Ho Hl. cbn zeta. pose proof (held_open n l Ho Hl) as Hin. rewrite sys_close_open by done.
  assert (forall l', sock_at (set_sock l invalid_socket (mkNet (descriptors n ∖ {[sock_at n l]}) (misuse n) (store n))) l' =
    if decide (l = l') then invalid_socket else sock_at n l') as Hs.
  { intros l'. rewrite sock_at_set; [done|]. by apply stored_valid. }
  split; [by eapply owned_release|]. by rewrite Hs, decide_True.
Qed.

Lemma conn_close_owned l n : owned n -> owned (conn_close l n) /\ sock_at (conn_close l n) l = invalid_socket.
Proof.
  intros Ho. unfold conn_close, valid. rewrite negb_involutive. destruct (Z.eqb_spec (sock_at n l) invalid_socket) as [E|Hne]; [done|].
  rewrite sys_use_open by by apply held_open. by apply release_owned.
Qed.

Lemma listener_close_owned l n : owned n -> owned (listener_close l n) /\ sock_at (listener_close l n) l = invalid_socket.
Proof. intros Ho. unfold listener_close. destruct (decide _); [done|]. by apply release_owned. Qed.

(** Closing touches neither the other objects nor the kinds of objects. *)
Lemma conn_close_store l n k : k <> l -> store (conn_close l n) !! k = store n !! k.
Proof. intros Hk. unfold conn_close. destruct (negb _); [done|]. by apply lookup_alter_ne. Qed.
Lemma conn_close_is l n : is_conn l n -> is_conn l (conn_close l n).
Proof.
  intros [s Hs]. unfold conn_close. destruct (negb _); [by exists s|]. exists invalid_socket. cbn.
  by rewrite lookup_alter_eq, Hs.
Qed.
Lemma listener_close_is l n : is_listener l n -> is_listener l (listener_close l n).
Proof.
  intros (s & p & Hs). unfold listener_close. destruct (decide _); [by exists s, p|]. exists invalid_socket, p. cbn.
  by rewrite lookup_alter_eq, Hs.
Qed.
Lemma listener_close_descriptors l n : descriptors (listener_close l n) ⊆ descriptors n.
Proof. unfold listener_close. destruct (decide _); [done|]. cbn. set_solver. Qed.

Lemma destroyed_owned l n : owned n -> sock_at n l = invalid_socket ->
  owned (mkNet (descriptors n) (misuse n) (delete l (store n))).
Proof.
  intros Ho Hl. apply (owned_same n); [done..|]. intros k. unfold sock_at in *. cbn.
  destruct (decide (l = k)) as [<-|Hne]; [by rewrite lookup_delete_eq|by rewrite lookup_delete_ne].
Qed.

Lemma place_invalid_owned l o n : owned n -> sock_at n l = invalid_socket -> sock o = invalid_socket -> owned (place l o n).
Proof.
  intros Ho Hl Hso. apply (owned_same n); [done..|]. intros k. rewrite sock_at_place. destruct (decide _) as [<-|]; congruence.
Qed.

(** A new descriptor that goes to an object without one. *)
Lemma place_new_owned l o n : owned n -> sock_at n l = invalid_socket -> sock o <> invalid_socket -> answer_ok (sock o) n ->
  owned (place l o (sys_new (sock o) n)).
Proof.
  intros Ho Hl Hs Ha. eapply (owned_acquire n _ l (sock o)); try done.
  - cbn. by rewrite decide_False.
  - intros k. by rewrite sock_at_place.
Qed.

Lemma sys_new_invalid n : sys_new invalid_socket n = n.
Proof. by destruct n. Qed.

Lemma sys_use_new s n : s <> invalid_socket -> sys_use s (sys_new s n) = sys_new s n.
Proof. intros Hs. apply sys_use_open. cbn. rewrite decide_False by done. set_solver. Qed.

(** A descriptor that is closed before anyone held it leaves no trace. *)
Lemma sys_close_new s n : s <> invalid_socket -> answer_ok s n -> sys_close s (sys_new s n) = n.
Proof.
  intros Hs Ha. unfold answer_ok in Ha. rewrite sys_close_open by (cbn; rewrite decide_False by done; set_solver). cbn.
  rewrite decide_False by done. destruct n as [d m t]. cbn in *. f_equal. apply leibniz_equiv. set_solver.
Qed.

Lemma connect_owned l s ok n : owned n -> store n !! l = None -> answer_ok s n -> owned (connect l s ok n).
Proof.
  intros Ho Hl%sock_at_none Ha. unfold connect. destruct (decide (s = invalid_socket)) as [->|Hs].
  - rewrite sys_new_invalid. by apply place_invalid_owned.
  - rewrite sys_use_new by done. destruct ok; cbn [negb]; [by apply (place_new_owned l (TcpConnection s))|].
    rewrite sys_close_new by done. by apply place_invalid_owned.
Qed.

Lemma accept_owned l dst s n : owned n -> store n !! dst = None -> answer_ok s n -> owned (accept l dst s n).2.
Proof.
  intros Ho Hd%sock_at_none Ha. unfold accept. destruct (decide (sock_at n l = invalid_socket)) as [|Hl]; [done|].
  rewrite sys_use_open by by apply held_open. destruct (decide (s = invalid_socket)) as [->|Hs].
  - by rewrite sys_new_invalid.
  - by apply (place_new_owned dst (TcpConnection s)).
Qed.

Lemma listen_socket_owned l s n : owned n -> is_listener l n -> sock_at n l = invalid_socket -> answer_ok s n ->
  let n' := set_sock l s (sys_new s n) in owned n' /\ sock_at n' l = s.
Proof.
  intros Ho (s0 & p & Hl) Hs0 Ha. cbn zeta.
  assert (forall k, sock_at (set_sock l s (sys_new s n)) k = if decide (l = k) then s else sock_at n k) as Hk.
  { intros k. rewrite sock_at_set by eauto. done. }
  split; [|by rewrite Hk, decide_True]. destruct (decide (s = invalid_socket)) as [->|Hs].
  - apply (owned_same n); [done..|]. intros k. rewrite Hk. destruct (decide _) as [<-|]; done.
  - eapply (owned_acquire n _ l s); try done. cbn. by rewrite decide_False.
Qed.

Lemma listen_owned l a n : owned n -> is_listener l n -> answer_ok (ans_socket a) n -> owned (listen l a n).2.
Proof.
  intros Ho Hl Ha. unfold listen. destruct (listener_close_owned l n Ho) as [Ho1 Hs1].
  pose proof (listener_close_is l n Hl) as Hl1. pose proof (listener_close_descriptors l n) as Hd1.
  destruct (listen_socket_owned l (ans_socket a) (listener_close l n)) as [Ho2 Hs2]; [done..|unfold answer_ok in *; set_solver|].
  set (n2 := set_sock l (ans_socket a) _) in *.
  destruct (decide (sock_at n2 l = invalid_socket)) as [|Hv]; [done|]. cbn zeta.
  rewrite !(sys_use_open (sock_at n2 l) n2) by by apply held_open.
  destruct (binds a); cbn [negb]; [|by apply listener_close_owned].
  destruct (listens a); cbn [negb]; [|by apply listener_close_owned].
  cbn [snd]. apply (owned_same n2); [done..|]. intros k. rewrite sock_at_place. by destruct (decide _) as [<-|].
Qed.

Lemma move_owned l src n n1 : owned n -> l <> src -> sock_at n l = invalid_socket -> is_Some (store n1 !! src) ->
  descriptors n1 = descriptors n -> misuse n1 = misuse n ->
  (forall k, sock_at n1 k = if decide (l = k) then sock_at n src else sock_at n k) ->
  owned (set_sock src invalid_socket n1).
Proof.
  intros Ho Hne Hl Hsrc Hd Hm Hk. apply (owned_move n _ l src); try done. intros k.
  rewrite sock_at_set by done. by rewrite Hk.
Qed.

Lemma net_step_owned n n' : net_step n n' -> owned n -> owned n'.
Proof.
  intros H Ho. destruct H as [l n Hl|l n Hl|l s ok n Hl Ha|l dst s n Hl Hd Ha|l a n Hl Ha|l n Hl|l n Hl|l n Hl
    |l src n Hl [s Hs]|l src n Hl [s Hs]|l n Hl|l n Hl].
  - by apply place_invalid_owned; [|apply sock_at_none|].
  - by apply place_invalid_owned; [|apply sock_at_none|].
  - by apply connect_owned.
  - by apply accept_owned.
  - by apply listen_owned.
  - unfold transfer. destruct (valid l n) eqn:Hv; [|done]. apply valid_true in Hv. by rewrite sys_use_open by by apply held_open.
  - by apply conn_close_owned.
  - by apply listener_close_owned.
  - assert (l <> src) as Hne by (intros ->; congruence). apply (move_owned l src n); try done.
    + by apply sock_at_none.
    + cbn. rewrite lookup_insert_ne by done. eauto.
    + intros k. by rewrite sock_at_place.
  - unfold move_assign. destruct (decide (l = src)) as [|Hne]; [done|]. destruct (conn_close_owned l n Ho) as [Ho1 Hl1].
    apply (move_owned l src (conn_close l n)); try done.
    + cbn. rewrite lookup_alter_ne, conn_close_store, Hs by done. eauto.
    + intros k. apply sock_at_set. destruct (conn_close_is l n Hl) as [? ->]. eauto.
  - destruct (conn_close_owned l n Ho). by apply destroyed_owned.
  - destruct (listener_close_owned l n Ho). by apply destroyed_owned.
Qed.

Lemma net_reach_owned n : net_reach n -> owned n.
Proof.
  intros H. assert (owned net_new) as Hi.
  { split; [done| |].
    - intros fd. split; [intros Hfd; set_solver|]. intros [Hfd [l <-]]. by destruct Hfd.
    - intros l l' _ []. done. }
  revert Hi. unfold net_reach in H. induction H as [|n1 n2 n3 H12 _ IH]; [done|]. intros Hi. by eapply IH, net_step_owned.
Qed.

(** ** Properties *)

(** C26: sockets are neither leaked nor closed twice.  Whatever objects are
    created, connected, moved, closed and destroyed in whatever order, and
    whichever system calls fail: no operation ever uses or closes a descriptor
    that is not open, every open descriptor is held by exactly one object, what
    an object holds is open, and once all objects are destroyed nothing is
    open. *)
Theorem sockets_owned (n : Net) : net_reach n ->
  misuse n = false /\
  (forall fd, fd ∈ descriptors n -> exists l, sock_at n l = fd /\ forall l', sock_at n l' = fd -> l' = l) /\
  (forall l, valid l n = true -> sock_at n l ∈ descriptors n) /\
  (store n = ∅ -> descriptors n = ∅).
Proof.
  intros [Hm Hh Ho]%net_reach_owned. split_and!; [done|..].
  - intros fd [Hfd [l Hl]]%Hh. exists l. split; [done|]. intros l' Hl'. by apply Ho; rewrite Hl'.
  - intros l Hl%valid_true. apply Hh. eauto.
  - intros Hs. apply leibniz_equiv. intros fd. split; [|set_solver]. intros [Hfd [l Hl]]%Hh.
    destruct Hfd. rewrite <- Hl. apply sock_at_none. by rewrite Hs.
Qed.

(** A listener accepts a connection, which is moved; a connect fails. *)
Definition net_listening : Net :=
  (listen 1 (mkListenAnswers 3 true true 4000) (place 1 (TcpListener invalid_socket 0) net_new)).2.
Definition net_accepted : Net := (accept 1 2 4 net_listening).2.
Definition net_example : Net := destroy_conn 2 (move_construct 4 2 (connect 3 5 false net_accepted)).

Lemma net_example_reach : net_reach net_example.
Proof.
  unfold net_reach.
  eapply rtc_l; [by apply (ns_listener 1)|].
  eapply rtc_l; [apply (ns_listen 1 (mkListenAnswers 3 true true 4000)); [by exists invalid_socket, 0|
    apply (bool_decide_unpack _); vm_compute; exact I]|].
  eapply rtc_l; [apply (ns_accept 1 2 4); [exists 3, 4000; vm_compute; reflexivity|vm_compute; reflexivity|
    apply (bool_decide_unpack _); vm_compute; exact I]|].
  eapply rtc_l; [apply (ns_connect 3 5 false); [vm_compute; reflexivity|apply (bool_decide_unpack _); vm_compute; exact I]|].
  eapply rtc_l; [apply (ns_move_construct 4 2); [vm_compute; reflexivity|exists 4; vm_compute; reflexivity]|].
  apply rtc_once. apply ns_destroy. exists invalid_socket. vm_compute. reflexivity.
Qed.

Lemma sockets_owned_witness : misuse net_example = false /\ 4 ∈ descriptors net_example /\ sock_at net_example 4 = 4.
Proof.
  destruct (sockets_owned net_example net_example_reach) as (Hm & _ & Hv & _).
  split; [exact Hm|]. split; [|vm_compute; reflexivity]. apply (Hv 4%positive). vm_compute. reflexivity.
Defined.

(** A host name that is not an address binds every interface; [localhost] is
    known to [listen] but not to [connect]. *)
Lemma unknown_host_binds_all inet_pton host :
  host <> "localhost"%string -> host <> ""%string -> host <> "127.0.0.1"%string -> inet_pton host = None ->
  listen_address inet_pton host = INADDR_ANY.
Proof. intros ? ? ? Hp. unfold listen_address. rewrite Hp. rewrite decide_False by tauto. done. Qed.

Lemma localhost_differs inet_pton : inet_pton "localhost"%string = None ->
  listen_address inet_pton "localhost" = INADDR_LOOPBACK /\ connect_address inet_pton "localhost" = INADDR_ANY.
Proof. intros Hp. unfold connect_address. by rewrite Hp. Qed.

(** ** The socket layer of Windows

    [socket_init] and [socket_cleanup] with the flag [g_ws_initialized], and how
    often [WSAStartup] has succeeded without its [WSACleanup]. *)
Module Winsock.
Record State := mkState { initialized : bool; startups : Z; starting : nat }.
Definition fresh : State := mkState false 0 0.

(** [socket_init] by one thread alone; [ok]: [WSAStartup] returns 0. *)
Definition socket_init (ok : bool) (s : State) : bool * State :=
  if initialized s then (true, s)
  else if ok then (true, mkState true (startups s + 1) (starting s)) else (false, s).
Definition socket_cleanup (s : State) : State :=
  if initialized s then mkState false (startups s - 1) (starting s) else s.

(** By several threads: one that has found the flag unset goes on to start the
    layer ([starting] counts them); the exchange of the flag is atomic. *)
Inductive step : State -> State -> Prop :=
  | st_load s : initialized s = false -> step s (mkState false (startups s) (S (starting s)))
  | st_start s k ok : starting s = S k ->
      step s (mkState (if ok : bool then true else initialized s) (startups s + Z.b2z ok) k)
  | st_cleanup s : step s (socket_cleanup s).

(** One thread: as many startups as the flag says, so repeating a call changes
    nothing. *)
Definition balanced (s : State) : Prop := startups s = Z.b2z (initialized s).

Lemma init_idempotent ok ok' s : balanced s -> let '(r, s') := socket_init ok s in
  balanced s' /\ (r = true -> socket_init ok' s' = (true, s')) /\ balanced (socket_cleanup s') /\
  socket_cleanup (socket_cleanup s') = socket_cleanup s'.
Proof.
  destruct s as [i n k]. unfold balanced, socket_init, socket_cleanup. cbn. intros ->.
  destruct i; [done|]. by destruct ok.
Qed.

(** Several threads: the layer is never given back more often than it was
    started, and it is started while the flag is set ... *)
Lemma never_overcleaned s : rtc step fresh s -> Z.b2z (initialized s) <= startups s.
Proof.
  intros H. apply (rtc_ind_r (R := step) (fun s => Z.b2z (initialized s) <= startups s) fresh); [done| |exact H].
  clear. intros y z _ H Hy. destruct H as [s E|s k ok E|s]; cbn in *.
  - rewrite E in Hy. exact Hy.
  - destruct ok, (initialized s); cbn in *; lia.
  - unfold socket_cleanup. destruct (initialized s) eqn:E; cbn in *; [lia|by rewrite E].
Qed.

(** ... but two that start it at the same time leave it started for good. *)
Lemma race_leaks : exists s, rtc step fresh s /\ initialized s = false /\ starting s = 0%nat /\ startups s = 1.
Proof.
  exists (mkState false 1 0). split; [|done].
  eapply rtc_l; [by apply st_load|]. eapply rtc_l; [by apply st_load|].
  eapply rtc_l; [by apply (st_start _ 1 true)|]. eapply rtc_l; [by apply (st_start _ 0 true)|].
  apply rtc_once. apply (st_cleanup (mkState true 2 0)).
Qed.
End Winsock.
