(* ===== verification/Wire.v ===== *)
(** * wire.hpp: warmth objects on the wire

    [encode_object] and [decode_object]; the pieces that the persistence codec
    repeats with error texts take those texts as arguments. *)

From Stdlib Require Import ZArith Lia String.
From stdpp Require Import base list numbers strings gmap fin_maps sorting.
From S2P Require Import Prelude Float64 Identity State Object Codec.
Local Open Scope Z_scope.
Local Open Scope warmth_scope.
Local Open Scope reader_scope.

(** ** Encoding *)

(** The lambda [opt]: an absent or an invalid id is written as absent. *)
Definition put_opt (id : option Id128) : bytes :=
  match id with
  | Some i => if is_valid i then put_u8 1 ++ put_id i else put_u8 0
  | None => put_u8 0
  end.

(** The dependency generations, sorted by the code of their kind. *)
Definition dep_le (a b : DependencyKind * DependencyGeneration) : Prop := enum_code a.1 <= enum_code b.1.
#[export] Instance dep_le_dec : RelDecision dep_le.
Proof. intros a b. unfold dep_le. apply _. Defined.

Definition sorted_deps (dg : gmap DependencyKind DependencyGeneration) : list (DependencyKind * DependencyGeneration) :=
  merge_sort dep_le (map_to_list dg).

Definition put_dep (kv : DependencyKind * DependencyGeneration) : bytes :=
  put_u8 (enum_code kv.1) ++ put_u64 (value kv.2).

Definition put_dims (o : WarmthObject) : bytes :=
  concat (map (fun i => put_u8 (enum_code (dimension o i))) enum_all).

Definition put_invalidation (r : option string) : bytes :=
  match r with
  | Some s => if decide (s = "") then put_u8 0 else put_u8 1 ++ put_str s
  | None => put_u8 0
  end.

Definition encode_object (o : WarmthObject) : bytes :=
  put_id (id_ o) ++
  put_u8 (enum_code (category_ o)) ++
  put_id (workload_ o) ++
  put_id (node_ o) ++
  put_str (device_ o) ++
  put_str (backend_ o) ++
  put_str (logical_owner_ o) ++
  put_opt (model_ o) ++ put_opt (artifact_ o) ++ put_opt (replica_ o) ++ put_opt (engine_ o) ++
  put_u8 (enum_code (state_ o)) ++
  put_str (state_change_reason_ o) ++
  put_dims o ++
  put_u64 (u64 (last_prepared_ o)) ++
  put_u64 (u64 (last_used_ o)) ++
  put_u64 (estimated_cost_bytes_ o) ++
  put_u64 (measured_cost_bytes_ o) ++
  put_f64 (estimated_ttr_ms_ o) ++
  put_f64 (observed_ttr_ms_ o) ++
  put_u8 (enum_code (residency_ o)) ++
  put_u8 (enum_code (lifecycle_ o)) ++
  put_f64 (confidence_ o) ++
  put_f64 (freshness_ o) ++
  put_u64 (value (warmth_gen_ o)) ++
  put_u32 (u32 (Z.of_nat (size (dep_gens_ o)))) ++
  concat (map put_dep (sorted_deps (dep_gens_ o))) ++
  put_invalidation (invalidation_reason_ o) ++
  put_u8 (enum_code (provenance_ o)).

(** ** Decoding *)

(** The lambda [read_opt]. *)
Definition read_opt (e_flag e_value e_id : string) : reader (option Id128) :=
  present <- get_u8 orelse e_flag ;;
  if present =? 0 then rret None
  else ensure present =? 1 or e_value ;; v <- get_id orelse e_id ;; rret (Some v).

(** The conditional setters [if (model) obj.set_model(...)]. *)
Definition set_if {A} (set : A -> WarmthObject -> WarmthObject) (v : option A) (o : WarmthObject) : WarmthObject :=
  match v with Some a => set a o | None => o end.

Fixpoint read_dims (idx : list DimensionIndex) (e_byte e_value : string) (obj : WarmthObject) : reader WarmthObject :=
  match idx with
  | [] => rret obj
  | i :: idx => d <- get_enum DimensionStatus e_byte e_value ;; read_dims idx e_byte e_value (set_dimension i d obj)
  end.

Fixpoint read_deps (n : nat) (seen : gset Z) (e_kind e_value e_dup e_gen : string) (obj : WarmthObject)
  : reader WarmthObject :=
  match n with
  | O => rret obj
  | S n =>
      k <- get_enum DependencyKind e_kind e_value ;;
      ensure bool_decide (enum_code k ∉ seen) or e_dup ;;
      g <- get_u64 orelse e_gen ;;
      read_deps n ({[enum_code k]} ∪ seen) e_kind e_value e_dup e_gen (set_dependency_generation k (Gen g) obj)
  end.

Definition read_invalidation (e_flag e_str e_value : string) (obj : WarmthObject) : reader WarmthObject :=
  hasInv <- get_u8 orelse e_flag ;;
  if hasInv =? 1 then inv <- get_str orelse e_str ;; rret (set_invalidation_reason inv obj)
  else ensure hasInv =? 0 or e_value ;; rret obj.

Definition decode_object : reader WarmthObject :=
  id <- get_id ;;
  cat <- get_u8 ;;
  workload <- get_id ;; node <- get_id ;;
  match enum_of cat with
  | None => rfail ""
  | Some cat =>
    device <- get_str ;; backend <- get_str ;; owner <- get_str ;;
    model <- read_opt "" "" "" ;; artifact <- read_opt "" "" "" ;;
    replica <- read_opt "" "" "" ;; engine <- read_opt "" "" "" ;;
    st <- get_enum WarmthState "" "" ;;
    reason <- get_str ;;
    let obj := new_object id cat workload node device backend in
    let obj := set_logical_owner owner obj in
    let obj := set_if set_model model obj in
    let obj := set_if set_artifact artifact obj in
    let obj := set_if set_replica replica obj in
    let obj := set_if set_engine engine obj in
    let obj := restore_state st reason obj in
    obj <- read_dims enum_all "" "" obj ;;
    lp <- get_u64 ;; lu <- get_u64 ;;
    let obj := mark_used (s64 lu) (mark_prepared (s64 lp) obj) in
    ecb <- get_u64 ;; mcb <- get_u64 ;; ettr <- get_f64 ;; ottr <- get_f64 ;;
    let obj := set_measured_cost_bytes mcb (set_estimated_cost_bytes ecb obj) in
    let obj := set_observed_ttr_ms ottr (set_estimated_ttr_ms ettr obj) in
    res <- get_enum ResidencyState "" "" ;;
    lc <- get_enum Lifecycle "" "" ;;
    conf <- get_f64 ;; fresh <- get_f64 ;;
    let obj := set_lifecycle lc (set_residency res obj) in
    let obj := set_freshness fresh (set_confidence conf obj) in
    wg <- get_u64 ;;
    let obj := set_warmth_generation (Gen wg) obj in
    nd <- get_u32 ;;
    ensure nd <=? 64 or "" ;;
    obj <- read_deps (Z.to_nat nd) ∅ "" "" "" "" obj ;;
    obj <- read_invalidation "" "" "" obj ;;
    prov <- get_enum Provenance "" "" ;;
    rret (set_provenance prov obj)
  end.

(** What an object looks like after the round trip: an id that is not valid and
    an empty reason come back as absent; everything else is unchanged. *)
Definition valid_only (i : option Id128) : option Id128 :=
  match i with Some i => if is_valid i then Some i else None | None => None end.
Definition nonempty_only (s : option string) : option string :=
  match s with Some s => if decide (s = "") then None else Some s | None => None end.

Definition wire_norm (o : WarmthObject) : WarmthObject :=
  put_invalidation_reason_ (nonempty_only (invalidation_reason_ o))
    (put_engine_ (valid_only (engine_ o)) (put_replica_ (valid_only (replica_ o))
      (put_artifact_ (valid_only (artifact_ o)) (put_model_ (valid_only (model_ o)) o)))).

(** ** Lemmas *)

Lemma put_opt_reads i e1 e2 e3 : opt_id_wf i -> reads (read_opt e1 e2 e3) (put_opt i) (valid_only i).
Proof.
  intros Hi. unfold read_opt, put_opt, valid_only.
  assert (reads (get_u8 orelse e1) (put_u8 0) 0) as H0 by eauto with reads.
  destruct i as [i|]; [destruct (is_valid i)|].
  2, 3: eapply reads_last; [exact H0|apply reads_ret].
  eapply reads_bind; [eauto with reads|]. cbn beta. rewrite (proj2 (Z.eqb_neq 1 0)) by done.
  eapply reads_bind_nil; [by apply reads_guard|].
  eapply reads_last; [apply reads_or_fail, get_id_reads, Hi|apply reads_ret].
Qed.

Lemma put_invalidation_reads r e1 e2 e3 obj : match r with Some s => short s | None => True end ->
  reads (read_invalidation e1 e2 e3 obj) (put_invalidation r)
    match nonempty_only r with Some s => set_invalidation_reason s obj | None => obj end.
Proof.
  intros Hr. unfold read_invalidation, put_invalidation, nonempty_only.
  assert (forall v, reads (get_u8 orelse e1) (put_u8 v) v) as H0 by eauto with reads.
  destruct r as [s|]; [destruct (decide (s = ""))|].
  1, 3: eapply reads_last; [apply H0|]; eapply reads_bind_nil; [by apply reads_guard|apply reads_ret].
  eapply reads_bind; [apply H0|]. cbn beta. rewrite Z.eqb_refl.
  eapply reads_last; [by apply reads_or_fail, get_str_reads|apply reads_ret].
Qed.

Lemma read_dims_reads idx f e1 e2 obj :
  reads (read_dims idx e1 e2 obj) (concat (map (fun i => put_u8 (enum_code (f i))) idx))
    (fold_left (fun o i => set_dimension i (f i) o) idx obj).
Proof.
  revert obj. induction idx as [|i idx IH]; intros obj; cbn [read_dims map concat fold_left]; [apply reads_ret|].
  eapply reads_bind; [apply get_enum_reads|apply IH].
Qed.

Lemma dims_fold o obj :
  fold_left (fun o' i => set_dimension i (dimension o i) o') enum_all obj = put_dims_ (dims_ o) obj.
Proof. destruct obj as [?????????????[]]. by destruct o as [?????????????[]]. Qed.

Lemma read_deps_reads l seen e1 e2 e3 e4 obj :
  NoDup l.*1 -> Forall (fun kv => enum_code kv.1 ∉ seen /\ gen_wf kv.2) l ->
  reads (read_deps (length l) seen e1 e2 e3 e4 obj) (concat (map put_dep l))
    (fold_left (fun o kv => set_dependency_generation kv.1 kv.2 o) l obj).
Proof.
  revert seen obj. induction l as [|[k g] l IH]; intros seen obj Hnd Hl;
    cbn [length read_deps map concat fold_left]; [apply reads_ret|].
  apply NoDup_cons in Hnd as [Hk Hnd]. apply Forall_cons in Hl as [[Hs Hg] Hl]. cbn [fst snd] in *.
  unfold put_dep at 1. rewrite <- app_assoc. eapply reads_bind; [apply get_enum_reads|].
  eapply reads_bind_nil; [by apply reads_guard, bool_decide_eq_true|].
  eapply reads_bind; [by apply reads_or_fail, get_u64_reads|]. destruct g as [g]. apply IH; [done|].
  apply Forall_forall. intros [k' g'] Hkv. rewrite Forall_forall in Hl. destruct (Hl _ Hkv) as [Hs' ?].
  split; [|done]. cbn [fst]. intros [He%elem_of_singleton|?]%elem_of_union; [|done].
  apply enum_inj in He. subst. apply Hk, list_elem_of_fmap. by exists (k, g').
Qed.

Lemma sorted_deps_perm dg : sorted_deps dg ≡ₚ map_to_list dg.
Proof. apply merge_sort_Permutation. Qed.

Lemma sorted_deps_nodup dg : NoDup (sorted_deps dg).*1.
Proof. rewrite sorted_deps_perm. apply NoDup_fst_map_to_list. Qed.

Lemma length_sorted_deps dg : length (sorted_deps dg) = size dg.
Proof. rewrite sorted_deps_perm. apply length_map_to_list. Qed.

Lemma set_deps_fold l obj :
  fold_left (fun o kv => set_dependency_generation kv.1 kv.2 o) l obj =
  put_dep_gens_ (fold_left (fun m kv => <[kv.1 := kv.2]> m) l (dep_gens_ obj)) obj.
Proof. revert obj. induction l as [|kv l IH]; intros obj; cbn; [by destruct obj|]. by rewrite IH. Qed.

Lemma sorted_deps_map dg : fold_left (fun m kv => <[kv.1 := kv.2]> m) (sorted_deps dg) ∅ = dg.
Proof.
  rewrite <- fold_left_rev_right. trans (list_to_map (M:=gmap DependencyKind DependencyGeneration) (rev (sorted_deps dg))).
  { generalize (rev (sorted_deps dg)). intros l. induction l as [|[k g] l IH]; [done|]. cbn. by rewrite IH. }
  rewrite <- (list_to_map_to_list dg) at 2. apply list_to_map_proper.
  - rewrite <- Permutation_rev. apply sorted_deps_nodup.
  - rewrite <- Permutation_rev. apply sorted_deps_perm.
Qed.

(** There are only twelve kinds, so the count fits its limits. *)
Lemma deps_size (dg : gmap DependencyKind DependencyGeneration) : (size dg <= 12)%nat.
Proof.
  rewrite <- length_sorted_deps, <- (length_fmap fst).
  change 12%nat with (length (enum_all (E := DependencyKind))).
  apply submseteq_length, NoDup_submseteq; [apply sorted_deps_nodup|]. intros k _. apply enum_complete.
Qed.

Lemma sorted_deps_wf dg : map_Forall (fun _ g => gen_wf g) dg ->
  Forall (fun kv => enum_code kv.1 ∉ (∅ : gset Z) /\ gen_wf kv.2) (sorted_deps dg).
Proof.
  intros Hd. rewrite sorted_deps_perm. apply Forall_forall. intros [k g] Hkv%elem_of_map_to_list.
  split; [apply not_elem_of_empty|]. by apply (Hd k).
Qed.

Lemma deps_count_reads (dg : gmap DependencyKind DependencyGeneration) : reads get_u32 (put_u32 (u32 (Z.of_nat (size dg)))) (Z.of_nat (size dg)) /\
  (Z.of_nat (size dg) <=? 64) = true.
Proof.
  pose proof (deps_size dg). assert (uint 32 (Z.of_nat (size dg))) by (unfold uint; lia).
  rewrite wrap_small by done. split; [by apply get_u32_reads|]. apply Z.leb_le. lia.
Qed.

Lemma time_reads t : sint64 t -> reads get_u64 (put_u64 (u64 t)) (u64 t) /\ s64 (u64 t) = t.
Proof. intros Ht. split; [apply get_u64_reads; by apply wrap_uint|by apply s64_wrap]. Qed.

#[export] Hint Resolve put_opt_reads put_invalidation_reads : reads.

Lemma put_dims_reads o e1 e2 obj : reads (read_dims enum_all e1 e2 obj) (put_dims o) (put_dims_ (dims_ o) obj).
Proof. rewrite <- dims_fold. apply read_dims_reads. Qed.

Lemma put_deps_reads (dg : gmap DependencyKind DependencyGeneration) e1 e2 e3 e4 obj :
  map_Forall (fun _ g => gen_wf g) dg ->
  reads (read_deps (Z.to_nat (Z.of_nat (size dg))) ∅ e1 e2 e3 e4 obj) (concat (map put_dep (sorted_deps dg)))
    (put_dep_gens_ (fold_left (fun m kv => <[kv.1 := kv.2]> m) (sorted_deps dg) (dep_gens_ obj)) obj).
Proof.
  intros Hd. rewrite Nat2Z.id, <- length_sorted_deps, <- set_deps_fold.
  apply read_deps_reads; [apply sorted_deps_nodup|by apply sorted_deps_wf].
Qed.

Lemma set_if_shape m a r e id c wl nd dev be own :
  set_if set_engine e (set_if set_replica r (set_if set_artifact a (set_if set_model m
    (set_logical_owner own (new_object id c wl nd dev be))))) =
  put_engine_ e (put_replica_ r (put_artifact_ a (put_model_ m (set_logical_owner own (new_object id c wl nd dev be))))).
Proof. by destruct m, a, r, e. Qed.

(** Setting a member to the value it has. *)
Lemma wire_norm_shape o : object_wf o ->
  let obj := new_object (id_ o) (category_ o) (workload_ o) (node_ o) (device_ o) (backend_ o) in
  let obj := set_logical_owner (logical_owner_ o) obj in
  let obj := put_engine_ (valid_only (engine_ o)) (put_replica_ (valid_only (replica_ o))
               (put_artifact_ (valid_only (artifact_ o)) (put_model_ (valid_only (model_ o)) obj))) in
  let obj := restore_state (state_ o) (state_change_reason_ o) obj in
  let obj := put_dims_ (dims_ o) obj in
  let obj := mark_used (last_used_ o) (mark_prepared (last_prepared_ o) obj) in
  let obj := set_measured_cost_bytes (measured_cost_bytes_ o) (set_estimated_cost_bytes (estimated_cost_bytes_ o) obj) in
  let obj := set_observed_ttr_ms (observed_ttr_ms_ o) (set_estimated_ttr_ms (estimated_ttr_ms_ o) obj) in
  let obj := set_lifecycle (lifecycle_ o) (set_residency (residency_ o) obj) in
  let obj := set_freshness (freshness_ o) (set_confidence (confidence_ o) obj) in
  let obj := set_warmth_generation (Gen (value (warmth_gen_ o))) obj in
  let obj := put_dep_gens_ (dep_gens_ o) obj in
  let obj := match nonempty_only (invalidation_reason_ o) with
             | Some s => set_invalidation_reason s obj | None => obj end in
  set_provenance (provenance_ o) obj = wire_norm o.
Proof.
  intros Ho. pose proof (wf_confidence_unit o Ho) as Hc. pose proof (wf_freshness_unit o Ho) as Hf.
  unfold unit_clamped in *. cbn zeta. unfold set_confidence, set_freshness. rewrite Hc, Hf. unfold wire_norm.
  generalize (valid_only (model_ o)) (valid_only (artifact_ o)) (valid_only (replica_ o)) (valid_only (engine_ o)).
  intros m a r e. clear Ho Hc Hf.
  destruct (nonempty_only (invalidation_reason_ o)); by destruct o as [????????????????????????[?]???].
Qed.

Lemma decode_encode_object o : object_wf o -> reads decode_object (encode_object o) (wire_norm o).
Proof.
  intros Ho. pose proof (deps_count_reads (dep_gens_ o)) as [Hc1 Hc2].
  pose proof (time_reads _ (wf_last_prepared o Ho)) as [Hp1 Hp2].
  pose proof (time_reads _ (wf_last_used o Ho)) as [Hu1 Hu2].
  rewrite <- wire_norm_shape by done. destruct Ho. unfold short, gen_wf in *. unfold decode_object, encode_object.
  eapply reads_conv.
  - repeat reads_step. rewrite enum_of_code. do 9 reads_step. cbn zeta. rewrite set_if_shape.
    eapply reads_bind; [apply put_dims_reads|]. do 2 reads_step. rewrite Hp2, Hu2. do 11 reads_step.
    eapply reads_bind; [by apply put_deps_reads|]. do 2 reads_step. apply reads_ret.
  - cbn zeta. by rewrite sorted_deps_map.
Qed.

(** *** What the decoder accepts *)
Lemma read_opt_yields e1 e2 e3 : yields (read_opt e1 e2 e3) opt_id_wf.
Proof.
  unfold read_opt. yields_step. destruct (_ =? 0); [by apply yields_ret|].
  yields_step. yields_step. by apply yields_ret.
Qed.

(** The loops keep whatever their setter keeps. *)
Lemma read_dims_yields (P : WarmthObject -> Prop) idx e1 e2 obj :
  (forall i d o, P o -> P (set_dimension i d o)) -> P obj -> yields (read_dims idx e1 e2 obj) P.
Proof.
  intros Hset. revert obj. induction idx as [|i idx IH]; intros obj Ho; [by apply yields_ret|].
  cbn [read_dims]. yields_step. apply IH. by apply Hset.
Qed.

Lemma read_deps_yields (P : WarmthObject -> Prop) n seen e1 e2 e3 e4 obj :
  (forall k g o, gen_wf g -> P o -> P (set_dependency_generation k g o)) -> P obj ->
  yields (read_deps n seen e1 e2 e3 e4 obj) P.
Proof.
  intros Hset. revert seen obj. induction n as [|n IH]; intros seen obj Ho; [by apply yields_ret|].
  cbn [read_deps]. yields_step. yields_step. yields_step. apply IH. by apply Hset.
Qed.

Lemma read_invalidation_yields (P : WarmthObject -> Prop) e1 e2 e3 obj :
  (forall s o, short s -> P o -> P (set_invalidation_reason s o)) -> P obj ->
  yields (read_invalidation e1 e2 e3 obj) P.
Proof.
  intros Hset Ho. unfold read_invalidation. yields_step. destruct (_ =? 1).
  - yields_step. apply yields_ret. by apply Hset.
  - yields_step. by apply yields_ret.
Qed.

Lemma s64_range z : sint64 (s64 z).
Proof.
  unfold sint64, s64. pose proof (wrap_uint 64 z ltac:(lia)) as Hw. unfold uint in Hw.
  change (2 ^ 64) with (2 * 2 ^ 63) in *. destruct (decide _); lia.
Qed.

#[export] Hint Resolve read_opt_yields : yields.
#[export] Hint Resolve s64_range : warmth.

Lemma base_object_wf id cat wl nd dev be own m a r e st reason :
  Id128_wf id -> Id128_wf wl -> Id128_wf nd -> short dev -> short be -> short own ->
  opt_id_wf m -> opt_id_wf a -> opt_id_wf r -> opt_id_wf e -> short reason ->
  object_wf (restore_state st reason (set_if set_engine e (set_if set_replica r (set_if set_artifact a
    (set_if set_model m (set_logical_owner own (new_object id cat wl nd dev be))))))).
Proof.
  intros. apply restore_state_wf; [|done]. rewrite set_if_shape.
  destruct (new_object_wf id cat wl nd dev be); [done..|]. by constructor.
Qed.

(** The four groups of plain setters between the loops. *)
Lemma set_times_wf o lp lu : object_wf o -> object_wf (mark_used (s64 lu) (mark_prepared (s64 lp) o)).
Proof. auto with warmth. Qed.
Lemma set_costs_wf o ecb mcb ettr ottr : object_wf o -> uint 64 ecb -> uint 64 mcb -> uint 64 ettr -> uint 64 ottr ->
  object_wf (set_observed_ttr_ms ottr (set_estimated_ttr_ms ettr
    (set_measured_cost_bytes mcb (set_estimated_cost_bytes ecb o)))).
Proof. auto with warmth. Qed.
Lemma set_units_wf o res lc conf fresh wg : object_wf o -> uint 64 conf -> uint 64 fresh -> uint 64 wg ->
  object_wf (set_warmth_generation (Gen wg) (set_freshness fresh (set_confidence conf
    (set_lifecycle lc (set_residency res o))))).
Proof. intros. apply set_warmth_generation_wf; auto with warmth. Qed.

Lemma decode_object_yields : yields decode_object object_wf.
Proof.
  unfold decode_object. do 4 yields_step. destruct (enum_of _) as [cat|]; [|apply yields_fail].
  do 9 yields_step. cbn zeta.
  eapply yields_bind; [apply (read_dims_yields object_wf); [by intros; apply put_dims_wf|apply base_object_wf; assumption]|].
  cbn beta. intros obj Hobj. do 13 yields_step.
  eapply yields_bind.
  { apply (read_deps_yields object_wf); [auto with warmth|].
    apply set_units_wf; [apply set_costs_wf; [by apply set_times_wf|..]|..]; assumption. }
  cbn beta. intros obj' Hobj'.
  eapply yields_bind; [apply (read_invalidation_yields object_wf); [auto with warmth|done]|]. cbn beta. intros obj'' Hobj''.
  yields_step. apply yields_ret. by apply set_provenance_wf.
Qed.

Lemma put_opt_bytes i : bytes_ok (put_opt i).
Proof.
  assert (bytes_ok (put_u8 0) /\ bytes_ok (put_u8 1)) as [? ?] by (split; by apply put_u8_bytes).
  unfold put_opt. repeat break_match; solve_bytes.
Qed.

Lemma put_invalidation_bytes r : bytes_ok (put_invalidation r).
Proof.
  assert (bytes_ok (put_u8 0) /\ bytes_ok (put_u8 1)) as [? ?] by (split; by apply put_u8_bytes).
  unfold put_invalidation. repeat break_match; solve_bytes.
Qed.

Lemma encode_object_bytes o : bytes_ok (encode_object o).
Proof.
  unfold encode_object. pose proof put_opt_bytes. pose proof put_invalidation_bytes. solve_bytes.
  - eapply (concat_bytes _ (fun _ => True)); [by apply Forall_true|eauto with put_bytes].
  - eapply (concat_bytes _ (fun _ => True)); [by apply Forall_true|]. intros kv _. unfold put_dep. solve_bytes.
Qed.

#[export] Hint Resolve encode_object_bytes : put_bytes.
#[export] Hint Resolve decode_encode_object : reads.
#[export] Hint Resolve decode_object_yields : yields.

(** The normal form, member by member. *)
Section norm.
Variable o : WarmthObject.
Lemma wire_norm_inv : invalidation_reason_ (wire_norm o) = nonempty_only (invalidation_reason_ o). Proof. reflexivity. Qed.
Lemma wire_norm_model : model_ (wire_norm o) = valid_only (model_ o). Proof. reflexivity. Qed.
Lemma wire_norm_artifact : artifact_ (wire_norm o) = valid_only (artifact_ o). Proof. reflexivity. Qed.
Lemma wire_norm_replica : replica_ (wire_norm o) = valid_only (replica_ o). Proof. reflexivity. Qed.
Lemma wire_norm_engine : engine_ (wire_norm o) = valid_only (engine_ o). Proof. reflexivity. Qed.
Lemma wire_norm_again :
  wire_norm o = put_invalidation_reason_ (nonempty_only (invalidation_reason_ o))
    (put_engine_ (valid_only (engine_ o)) (put_replica_ (valid_only (replica_ o))
      (put_artifact_ (valid_only (artifact_ o)) (put_model_ (valid_only (model_ o)) (wire_norm o))))).
Proof. reflexivity. Qed.
End norm.

(** ** Properties *)

(** the wire round trip: for a well-formed object the decoder takes exactly
    the encoder's bytes and rebuilds the object, up to ids that are not valid
    and empty reasons, which come back as absent; encoding what was decoded
    gives the same bytes again. *)
Theorem wire_object_roundtrip (o : WarmthObject) :
  object_wf o ->
  reads decode_object (encode_object o) (wire_norm o) /\
  wire_norm (wire_norm o) = wire_norm o /\
  encode_object (wire_norm o) = encode_object o.
Proof.
  intros Ho. split; [by apply decode_encode_object|].
  assert (forall i, valid_only (valid_only i) = valid_only i /\ put_opt (valid_only i) = put_opt i) as Hi.
  { intros [i|]; [|done]. cbn. destruct (is_valid i) eqn:E; cbn; by rewrite ?E. }
  assert (nonempty_only (nonempty_only (invalidation_reason_ o)) = nonempty_only (invalidation_reason_ o) /\
    put_invalidation (nonempty_only (invalidation_reason_ o)) = put_invalidation (invalidation_reason_ o)) as [Hs1 Hs2].
  { destruct (invalidation_reason_ o) as [s|]; [|done]. cbn. destruct (decide (s = "")) eqn:E; cbn; by rewrite ?E. }
  pose proof (Hi (model_ o)) as [Hm1 Hm2]. pose proof (Hi (artifact_ o)) as [Ha1 Ha2].
  pose proof (Hi (replica_ o)) as [Hr1 Hr2]. pose proof (Hi (engine_ o)) as [He1 He2]. clear Hi Ho.
  split.
  - unfold wire_norm at 1. by rewrite wire_norm_inv, wire_norm_model, wire_norm_artifact, wire_norm_replica,
      wire_norm_engine, Hs1, Hm1, Ha1, Hr1, He1, <- wire_norm_again.
  - unfold encode_object at 1. rewrite wire_norm_inv, wire_norm_model, wire_norm_artifact, wire_norm_replica,
      wire_norm_engine, Hs2, Hm2, Ha2, Hr2, He2. reflexivity.
Qed.

Lemma wire_object_roundtrip_witness :
  decode_object (encode_object (set_model (mkId 0 0) (set_invalidation_reason "r" sample_object)) ++ [7])
    = Ok (set_invalidation_reason "r" sample_object, [7]).
Proof.
  apply (wire_object_roundtrip (set_model (mkId 0 0) (set_invalidation_reason "r" sample_object))).
  apply set_model_wf; [apply set_invalidation_reason_wf; [apply sample_object_wf|]|]; by apply (bool_decide_unpack _); vm_compute.
Defined.
