(* ===== verification/Messages.v ===== *)
(** * messages.hpp: the message payloads

    Every payload type is an instance of [Message]: its encoder, its decoder,
    the values the encoder is used with, and the two laws that the coordinator
    and the worker rely on. *)

From Stdlib Require Import ZArith Lia String.
From stdpp Require Import base list numbers strings.
From S2P Require Import Prelude Float64 Identity Object Codec Protocol Wire.
Local Open Scope Z_scope.
Local Open Scope warmth_scope.
Local Open Scope reader_scope.

Definition kProtocolVersion : Z := 1.

Record Hello := mkHello {
  protocol_version : Z;
  hello_worker : WorkerId;
  hello_boot : WorkerBootId;
  hello_node : NodeId;
  epoch_guess : Z;
  hello_backend : string;
  devices : list string;
  actions : list Z;
  observed : list WarmthObject }.

Record HelloAck := mkHelloAck {
  accepted : bool;
  ack_reason : string;
  ack_epoch : Z;
  ack_warmth_gen : Z;
  ack_dep_gen : Z;
  ack_policy_gen : Z }.

Record ReportPayload := mkReport {
  report_boot : WorkerBootId;
  report_epoch : Z;
  report_warmth_gen : Z;
  report_dep_gen : Z;
  report_objects : list WarmthObject }.

(** [action] is the byte of the [WarmthAction]: the decoders cast whatever
    byte arrives. *)
Record WarmCmd := mkCmd { cmd_object : WarmthObjectId; cmd_action : Z; cmd_attempt : Z }.

Record WarmTopic := mkTopic { topic_epoch : Z; topic_warmth_gen : Z; cmds : list WarmCmd }.

Record WarmResult := mkResult {
  result_boot : WorkerBootId;
  result_epoch : Z;
  result_warmth_gen : Z;
  result_dep_gen : Z;
  result_object : WarmthObjectId;
  result_action : Z;
  result_attempt : Z;
  success : bool;
  duration_ms : double;
  result_bytes : Z;
  error : string }.

Record ErrorPayload := mkError { message : string }.

(** ** Encoders *)
(** The element count, as [static_cast<std::uint32_t>(v.size())]. *)
Definition put_count {A} (l : list A) : bytes := put_u32 (u32 (Z.of_nat (length l))).

Definition encode_hello (h : Hello) : bytes :=
  put_u32 (protocol_version h) ++
  put_id (hello_worker h) ++ put_id (hello_boot h) ++ put_id (hello_node h) ++
  put_u64 (epoch_guess h) ++
  put_str (hello_backend h) ++
  put_count (devices h) ++ concat (map put_str (devices h)) ++
  put_count (actions h) ++ concat (map put_u8 (actions h)) ++
  put_count (observed h) ++ concat (map encode_object (observed h)).

Definition encode_hello_ack (a : HelloAck) : bytes :=
  put_bool (accepted a) ++ put_str (ack_reason a) ++
  put_u64 (ack_epoch a) ++ put_u64 (ack_warmth_gen a) ++ put_u64 (ack_dep_gen a) ++ put_u64 (ack_policy_gen a).

Definition encode_report (p : ReportPayload) : bytes :=
  put_id (report_boot p) ++ put_u64 (report_epoch p) ++ put_u64 (report_warmth_gen p) ++
  put_u64 (report_dep_gen p) ++ put_count (report_objects p) ++ concat (map encode_object (report_objects p)).

Definition put_cmd (c : WarmCmd) : bytes := put_id (cmd_object c) ++ put_u8 (cmd_action c) ++ put_u64 (cmd_attempt c).
Definition encode_warm_topic (t : WarmTopic) : bytes :=
  put_u64 (topic_epoch t) ++ put_u64 (topic_warmth_gen t) ++ put_count (cmds t) ++ concat (map put_cmd (cmds t)).

Definition encode_warm_result (r : WarmResult) : bytes :=
  put_id (result_boot r) ++ put_u64 (result_epoch r) ++ put_u64 (result_warmth_gen r) ++ put_u64 (result_dep_gen r) ++
  put_id (result_object r) ++ put_u8 (result_action r) ++ put_u64 (result_attempt r) ++
  put_bool (success r) ++ put_f64 (duration_ms r) ++ put_u64 (result_bytes r) ++ put_str (error r).

Definition encode_error (e : ErrorPayload) : bytes := put_str (message e).

(** ** Decoders *)
Definition get_bool : reader bool := b <- get_u8 ;; rret (negb (b =? 0)).

(** A count within its limit, then so many items. *)
Definition get_list {A} (limit : Z) (item : reader A) : reader (list A) :=
  n <- get_u32 ;; ensure n <=? limit or "" ;; get_many (Z.to_nat n) (fun _ => item) 0.

Definition decode_hello : reader Hello :=
  version <- get_u32 ;;
  worker <- get_id ;; boot <- get_id ;; node <- get_id ;;
  epoch <- get_u64 ;;
  backend <- get_str ;;
  devices <- get_list 4096 get_str ;;
  actions <- get_list 64 get_u8 ;;
  observed <- get_list 4096 decode_object ;;
  rret (mkHello version worker boot node epoch backend devices actions observed).

Definition decode_hello_ack : reader HelloAck :=
  acc <- get_bool ;; reason <- get_str ;;
  epoch <- get_u64 ;; wg <- get_u64 ;; dg <- get_u64 ;; pg <- get_u64 ;;
  rret (mkHelloAck acc reason epoch wg dg pg).

Definition decode_report : reader ReportPayload :=
  boot <- get_id ;; epoch <- get_u64 ;; wg <- get_u64 ;; dg <- get_u64 ;;
  objects <- get_list 8192 decode_object ;;
  rret (mkReport boot epoch wg dg objects).

Definition get_cmd : reader WarmCmd :=
  object <- get_id ;; act <- get_u8 ;; attempt <- get_u64 ;; rret (mkCmd object act attempt).
Definition decode_warm_topic : reader WarmTopic :=
  epoch <- get_u64 ;; wg <- get_u64 ;; cmds <- get_list 4096 get_cmd ;; rret (mkTopic epoch wg cmds).

Definition decode_warm_result : reader WarmResult :=
  boot <- get_id ;; epoch <- get_u64 ;; wg <- get_u64 ;; dg <- get_u64 ;;
  object <- get_id ;; act <- get_u8 ;; attempt <- get_u64 ;;
  ok <- get_bool ;; duration <- get_f64 ;; nbytes <- get_u64 ;; error <- get_str ;;
  rret (mkResult boot epoch wg dg object act attempt ok duration nbytes error).

Definition decode_error : reader ErrorPayload := m <- get_str ;; rret (mkError m).

(** ** The contract of a payload type *)
Class Message (M : Type) := {
  encode : M -> bytes;
  decode : reader M;
  (** what may be sent, and what a decoder may deliver *)
  message_ok : M -> Prop;
  (** what arrives for what was sent *)
  message_norm : M -> M;
  message_reads : forall m, message_ok m -> reads decode (encode m) (message_norm m);
  message_yields : yields decode message_ok;
  message_bytes : forall m, message_ok m -> bytes_ok (encode m) }.

Definition hello_ok (h : Hello) : Prop :=
  uint 32 (protocol_version h) /\ Id128_wf (hello_worker h) /\ Id128_wf (hello_boot h) /\ Id128_wf (hello_node h) /\
  uint 64 (epoch_guess h) /\ short (hello_backend h) /\
  (Forall short (devices h) /\ Z.of_nat (length (devices h)) <= 4096) /\
  (Forall (uint 8) (actions h) /\ Z.of_nat (length (actions h)) <= 64) /\
  (Forall object_wf (observed h) /\ Z.of_nat (length (observed h)) <= 4096).
Definition hello_norm (h : Hello) : Hello :=
  mkHello (protocol_version h) (hello_worker h) (hello_boot h) (hello_node h) (epoch_guess h) (hello_backend h)
    (devices h) (actions h) (map wire_norm (observed h)).

Definition hello_ack_ok (a : HelloAck) : Prop :=
  short (ack_reason a) /\ uint 64 (ack_epoch a) /\ uint 64 (ack_warmth_gen a) /\ uint 64 (ack_dep_gen a) /\
  uint 64 (ack_policy_gen a).

Definition report_ok (p : ReportPayload) : Prop :=
  Id128_wf (report_boot p) /\ uint 64 (report_epoch p) /\ uint 64 (report_warmth_gen p) /\ uint 64 (report_dep_gen p) /\
  (Forall object_wf (report_objects p) /\ Z.of_nat (length (report_objects p)) <= 8192).
Definition report_norm (p : ReportPayload) : ReportPayload :=
  mkReport (report_boot p) (report_epoch p) (report_warmth_gen p) (report_dep_gen p)
    (map wire_norm (report_objects p)).

Definition cmd_ok (c : WarmCmd) : Prop := Id128_wf (cmd_object c) /\ uint 8 (cmd_action c) /\ uint 64 (cmd_attempt c).
Definition warm_topic_ok (t : WarmTopic) : Prop :=
  uint 64 (topic_epoch t) /\ uint 64 (topic_warmth_gen t) /\
  (Forall cmd_ok (cmds t) /\ Z.of_nat (length (cmds t)) <= 4096).

Definition warm_result_ok (r : WarmResult) : Prop :=
  Id128_wf (result_boot r) /\ uint 64 (result_epoch r) /\ uint 64 (result_warmth_gen r) /\ uint 64 (result_dep_gen r) /\
  Id128_wf (result_object r) /\ uint 8 (result_action r) /\ uint 64 (result_attempt r) /\
  uint 64 (duration_ms r) /\ uint 64 (result_bytes r) /\ short (error r).

(** ** Lemmas *)

Lemma get_bool_reads b : reads get_bool (put_bool b) b.
Proof. by destruct b. Qed.
Lemma get_bool_yields : yields get_bool (fun _ => True).
Proof. unfold get_bool. yields_step. by apply yields_ret. Qed.

Lemma get_list_reads {A} (item : reader A) (put : A -> bytes) (f : A -> A) limit (l : list A) :
  limit < 2 ^ 32 -> Z.of_nat (length l) <= limit -> (forall a, a ∈ l -> reads item (put a) (f a)) ->
  reads (get_list limit item) (put_count l ++ concat (map put l)) (map f l).
Proof.
  intros Hm Hl Hi. unfold get_list, put_count. rewrite wrap_small by (unfold uint; lia).
  eapply reads_bind; [apply get_u32_reads; unfold uint; lia|].
  eapply reads_bind_nil; [apply reads_guard, Z.leb_le, Hl|]. rewrite Nat2Z.id.
  apply get_many_reads. intros j a Ha. by apply Hi, (list_elem_of_lookup_2 _ j).
Qed.

Lemma get_list_yields {A} (item : reader A) (P : A -> Prop) limit :
  yields item P -> yields (get_list limit item) (fun l => Forall P l /\ Z.of_nat (length l) <= limit).
Proof.
  intros Hi. unfold get_list. yields_step. yields_step. bool_simpl.
  eapply yields_weaken; [by apply get_many_yields|]. intros l [Hl Hn]. split; [done|].
  match goal with H : uint 32 _ |- _ => unfold uint in H end. lia.
Qed.

#[export] Hint Resolve get_bool_reads : reads.
#[export] Hint Resolve get_bool_yields get_list_yields : yields.

Lemma cmd_reads c : cmd_ok c -> reads get_cmd (put_cmd c) c.
Proof. intros (? & ? & ?). unfold get_cmd, put_cmd. repeat reads_step. by destruct c. Qed.
Lemma cmd_yields : yields get_cmd cmd_ok.
Proof. unfold get_cmd. repeat yields_step. by apply yields_ret. Qed.
#[export] Hint Resolve cmd_yields : yields.

Lemma get_list_reads_same {A} (item : reader A) (put : A -> bytes) limit (l : list A) (P : A -> Prop) :
  limit < 2 ^ 32 -> Forall P l /\ Z.of_nat (length l) <= limit -> (forall a, P a -> reads item (put a) a) ->
  reads (get_list limit item) (put_count l ++ concat (map put l)) l.
Proof.
  intros Hm [Hl Hn] Hi. rewrite Forall_forall in Hl. rewrite <- (map_id l) at 3.
  apply get_list_reads; auto.
Qed.

Lemma get_objects_reads limit l : limit < 2 ^ 32 -> Forall object_wf l /\ Z.of_nat (length l) <= limit ->
  reads (get_list limit decode_object) (put_count l ++ concat (map encode_object l)) (map wire_norm l).
Proof.
  intros Hm [Hl Hn]. rewrite Forall_forall in Hl. apply get_list_reads; [done..|]. intros. by apply decode_encode_object, Hl.
Qed.

(** The list fields of an encoding: count and items are one step. *)
Ltac list_step lemma :=
  first [ rewrite app_assoc; eapply reads_bind; [eapply lemma; [done|eassumption|auto with reads]|]
        | eapply reads_last; [eapply lemma; [done|eassumption|auto with reads]|] ].

#[export] Program Instance Hello_message : Message Hello := {
  encode := encode_hello; decode := decode_hello; message_ok := hello_ok; message_norm := hello_norm }.
Next Obligation.
  intros h (? & ? & ? & ? & ? & ? & Hd & Ha & Ho). unfold decode_hello, encode_hello.
  do 6 reads_step. list_step @get_list_reads_same. list_step @get_list_reads_same.
  eapply reads_last; [by apply get_objects_reads|]. apply reads_ret.
Qed.
Next Obligation. unfold decode_hello. repeat yields_step. by apply yields_ret. Qed.
Next Obligation.
  intros h (? & ? & ? & ? & ? & ? & Hd & [Ha _] & Ho). unfold encode_hello, put_count. solve_bytes.
  - apply (concat_bytes _ (fun _ => True)); [by apply Forall_true|eauto with put_bytes].
  - by apply (concat_bytes _ (uint 8)); [|eauto with put_bytes].
  - apply (concat_bytes _ (fun _ => True)); [by apply Forall_true|eauto with put_bytes].
Qed.

#[export] Program Instance HelloAck_message : Message HelloAck := {
  encode := encode_hello_ack; decode := decode_hello_ack; message_ok := hello_ack_ok; message_norm := fun a => a }.
Next Obligation.
  intros a (? & ? & ? & ? & ?). unfold decode_hello_ack, encode_hello_ack. repeat reads_step. by destruct a.
Qed.
Next Obligation. unfold decode_hello_ack. repeat yields_step. by apply yields_ret. Qed.
Next Obligation. intros a _. unfold encode_hello_ack. solve_bytes. Qed.

#[export] Program Instance ReportPayload_message : Message ReportPayload := {
  encode := encode_report; decode := decode_report; message_ok := report_ok; message_norm := report_norm }.
Next Obligation.
  intros p (? & ? & ? & ? & Ho). unfold decode_report, encode_report. do 4 reads_step.
  eapply reads_last; [by apply get_objects_reads|]. apply reads_ret.
Qed.
Next Obligation. unfold decode_report. repeat yields_step. by apply yields_ret. Qed.
Next Obligation.
  intros p _. unfold encode_report, put_count. solve_bytes.
  apply (concat_bytes _ (fun _ => True)); [by apply Forall_true|eauto with put_bytes].
Qed.

#[export] Program Instance WarmTopic_message : Message WarmTopic := {
  encode := encode_warm_topic; decode := decode_warm_topic; message_ok := warm_topic_ok; message_norm := fun t => t }.
Next Obligation.
  intros t (? & ? & Hc). unfold decode_warm_topic, encode_warm_topic. do 2 reads_step.
  eapply reads_last; [eapply get_list_reads_same; [done|exact Hc|apply cmd_reads]|]. by destruct t.
Qed.
Next Obligation. unfold decode_warm_topic. repeat yields_step. by apply yields_ret. Qed.
Next Obligation.
  intros t (_ & _ & Hc & _). unfold encode_warm_topic, put_count. solve_bytes.
  apply (concat_bytes _ cmd_ok); [done|]. intros c (_ & Ha & _). unfold put_cmd. solve_bytes.
Qed.

#[export] Program Instance WarmResult_message : Message WarmResult := {
  encode := encode_warm_result; decode := decode_warm_result; message_ok := warm_result_ok; message_norm := fun r => r }.
Next Obligation.
  intros r (? & ? & ? & ? & ? & ? & ? & ? & ? & ?). unfold decode_warm_result, encode_warm_result.
  unfold short in *. repeat reads_step. by destruct r.
Qed.
Next Obligation. unfold decode_warm_result. repeat yields_step. apply yields_ret. by split_and!. Qed.
Next Obligation. intros r (_ & _ & _ & _ & _ & Ha & _). unfold encode_warm_result. solve_bytes. Qed.

#[export] Program Instance ErrorPayload_message : Message ErrorPayload := {
  encode := encode_error; decode := decode_error; message_ok := fun e => short (message e); message_norm := fun e => e }.
Next Obligation.
  intros e He. eapply reads_last; [apply get_str_reads, He|]. by destruct e.
Qed.
Next Obligation. unfold decode_error. repeat yields_step. by apply yields_ret. Qed.
Next Obligation. intros e _. apply put_str_bytes. Qed.

(** ** A message in a frame *)

(** The frame that the coordinator and the worker make of an encoded payload. *)
Definition send (t : MessageType) (p : bytes) : option bytes := write (mkFrame t 0 p).

(** What one payload type promises on the wire.  A message within its limits,
    sent in a frame of any type, arrives in a frame of that type with nothing
    left over, and is decoded to what was sent (objects in normal form),
    whatever follows on the connection; and of any bytes whatever, the decoder
    delivers only messages within the limits. *)
Definition transfers {M} (enc : M -> bytes) (dec : reader M) (ok : M -> Prop) (norm : M -> M) : Prop :=
  (forall t m bs rest, ok m -> send t (enc m) = Some bs ->
    exists f, read (bs ++ rest) = Ok (f, rest) /\ type f = t /\ dec (payload f) = Ok (norm m, [])) /\
  (forall bs m rest, bytes_ok bs -> dec bs = Ok (m, rest) -> ok m).

Lemma message_transfers {M} `{Message M} : transfers encode decode message_ok message_norm.
Proof.
  split.
  - intros t m bs rest Hm Hs. exists (mkFrame t 0 (encode m)). split_and!; [|done|].
    + apply (read_write (mkFrame t 0 (encode m)) bs); [|exact Hs]. split; [done|by apply message_bytes].
    + pose proof (message_reads m Hm []) as Hr. by rewrite app_nil_r in Hr.
  - intros bs m rest Hb Hd. by apply (message_yields bs m rest Hb Hd).
Qed.

Definition hello_example : Hello :=
  mkHello 1 (mkId 0 1) (mkId 0 2) (mkId 0 3) 0 "cuda" ["cuda:0"] [1; 2] [sample_object].

Lemma hello_example_ok : hello_ok hello_example.
Proof.
  unfold hello_ok, short. cbn [protocol_version hello_worker hello_boot hello_node epoch_guess hello_backend
    devices actions observed hello_example]. split_and!; try (by apply (bool_decide_unpack _); vm_compute).
  apply Forall_singleton, sample_object_wf.
Qed.

(** ** Properties *)

(** C35: the six payloads of the protocol.  Each of HELLO, its acknowledgement,
    the report, the warm topic, the warm result and the error text is read back
    from its frame as it was sent (objects in normal form), when its numbers
    have their widths, its texts fit a length prefix and its lists are within
    the decoder's limits (4096 devices, 64 actions and 4096 objects in a HELLO,
    8192 objects in a report, 4096 commands in a topic); and whatever bytes a
    peer sends, none of the six decoders delivers a payload beyond these. *)
Theorem messages_roundtrip :
  transfers encode_hello decode_hello hello_ok hello_norm /\
  transfers encode_hello_ack decode_hello_ack hello_ack_ok (fun a => a) /\
  transfers encode_report decode_report report_ok report_norm /\
  transfers encode_warm_topic decode_warm_topic warm_topic_ok (fun t => t) /\
  transfers encode_warm_result decode_warm_result warm_result_ok (fun r => r) /\
  transfers encode_error decode_error (fun e => short (message e)) (fun e => e).
Proof.
  split_and!; [exact (message_transfers (M := Hello))|exact (message_transfers (M := HelloAck))
    |exact (message_transfers (M := ReportPayload))|exact (message_transfers (M := WarmTopic))
    |exact (message_transfers (M := WarmResult))|exact (message_transfers (M := ErrorPayload))].
Qed.

Lemma messages_roundtrip_witness : exists bs f,
  send HELLO (encode_hello hello_example) = Some bs /\ read (bs ++ [1]) = Ok (f, [1]) /\
  decode_hello (payload f) = Ok (hello_norm hello_example, []).
Proof.
  destruct (proj1 (proj1 messages_roundtrip) HELLO hello_example
              (default [] (send HELLO (encode_hello hello_example))) [1] hello_example_ok) as (f & Hr & _ & Hd).
  - vm_compute. reflexivity.
  - eexists _, f. split_and!; [|exact Hr|exact Hd]. vm_compute. reflexivity.
Defined.
