(* ===== verification/Persistence.v ===== *)
(** * persistence.hpp, persistence.cpp: snapshots

    [encode_snapshot] and [decode_snapshot] with every error text.  A writer
    that throws on a NaN or an infinity has no result ([None]).  The file around
    the bytes is in [Storage]. *)

From Stdlib Require Import ZArith Lia String.
From stdpp Require Import base list numbers strings gmap fin_maps.
From S2P Require Import Prelude Float64 Hash Identity State Object Decay Budget Policy Codec Wire.
Local Open Scope Z_scope.
Local Open Scope warmth_scope.
Local Open Scope reader_scope.

Definition kMagic : Z := 0x57465442.
Definition kVersion : Z := 1.

Record Snapshot := mkSnapshot {
  format_version : Z;
  snap_epoch : CoordinatorEpoch;
  warmth_generation : WarmthGeneration;
  dependency_generation : DependencyGeneration;
  snap_policy_generation : PolicyGeneration;
  policy : WarmthPolicy;
  objects : list WarmthObject }.

(** ** Writing *)

(** Output that may have been abandoned by an exception. *)
Definition writer : Type := option bytes.
Definition wapp (a b : writer) : writer :=
  match a, b with Some x, Some y => Some (x ++ y) | _, _ => None end.
Notation "a '+++' b" := (wapp a b) (at level 60, right associativity) : reader_scope.

Definition w_f64 (d : double) : writer := if isnan d || isinf d then None else Some (put_u64 d).
Fixpoint w_each {A} (f : A -> writer) (l : list A) : writer :=
  match l with [] => Some [] | a :: l => f a +++ w_each f l end.

Definition write_object (o : WarmthObject) : writer :=
  Some (put_id (id_ o) ++
    put_u8 (enum_code (category_ o)) ++
    put_id (workload_ o) ++ put_id (node_ o) ++
    put_str (device_ o) ++ put_str (backend_ o) ++ put_str (logical_owner_ o) ++
    put_opt (model_ o) ++ put_opt (artifact_ o) ++ put_opt (replica_ o) ++ put_opt (engine_ o) ++
    put_u8 (enum_code (state_ o)) ++ put_str (state_change_reason_ o) ++
    put_dims o ++
    put_u64 (u64 (last_prepared_ o)) ++ put_u64 (u64 (last_used_ o)) ++
    put_u64 (estimated_cost_bytes_ o) ++ put_u64 (measured_cost_bytes_ o)) +++
  w_f64 (estimated_ttr_ms_ o) +++ w_f64 (observed_ttr_ms_ o) +++
  Some (put_u8 (enum_code (residency_ o)) ++ put_u8 (enum_code (lifecycle_ o))) +++
  w_f64 (confidence_ o) +++ w_f64 (freshness_ o) +++
  Some (put_u64 (value (warmth_gen_ o)) ++
    put_u32 (u32 (Z.of_nat (size (dep_gens_ o)))) ++
    concat (map put_dep (sorted_deps (dep_gens_ o))) ++
    put_invalidation (invalidation_reason_ o) ++
    put_u8 (enum_code (provenance_ o))).

Definition decay_doubles (d : DecayPolicy) : list double :=
  [hot_to_warm_idle_seconds d; warm_to_stale_idle_seconds d; stale_to_invalidated_seconds d;
   warm_to_partial_idle_seconds d; partial_to_cold_idle_seconds d].
Definition decay_flags (d : DecayPolicy) : list bool :=
  [decay_on_memory_pressure d; decay_on_process_restart d; decay_on_device_reset d;
   decay_on_dependency_change d; decay_on_policy_change d].
Definition budget_fields (b : BudgetLimits) : list Z :=
  [device_memory_bytes b; pinned_host_memory_bytes b; host_memory_bytes b; storage_footprint_bytes b;
   concurrent_warming_ops b; transfer_bandwidth_bps b; active_engines b; warm_replicas b].

Definition write_policy (p : WarmthPolicy) : writer :=
  Some (put_u64 (value (generation p))) +++
  w_each w_f64 (decay_doubles (decay p)) +++
  Some (concat (map put_bool (decay_flags (decay p)))) +++
  Some (concat (map put_u64 (budget_fields (budgets p)))) +++
  w_each w_f64 (policy_weights p).

Definition write_payload (s : Snapshot) : writer :=
  Some (put_u64 (value (snap_epoch s)) ++ put_u64 (value (warmth_generation s)) ++
        put_u64 (value (dependency_generation s)) ++ put_u64 (value (snap_policy_generation s))) +++
  write_policy (policy s) +++
  Some (put_u32 (u32 (Z.of_nat (length (objects s))))) +++
  w_each write_object (objects s).

(** The header in front of a payload. *)
Definition snapshot_header (payload : bytes) : bytes :=
  put_u32 kMagic ++ put_u32 kVersion ++ put_u32 (u32 (Z.of_nat (length payload))) ++ put_u32 (crc32 payload).

Definition encode_snapshot (s : Snapshot) : writer :=
  match write_payload s with
  | Some payload => Some (snapshot_header payload ++ payload)
  | None => None
  end.

(** ** Reading *)

Definition r_f64 : reader double :=
  d <- get_u64 ;; ensure negb (isnan d) && negb (isinf d) or "" ;; rret d.

Definition read_object (snap_wgen : Z) : reader WarmthObject :=
  id <- get_id orelse "truncated object id" ;;
  cat <- get_enum WarmthCategory "truncated category" "invalid category enum" ;;
  workload <- get_id orelse "truncated workload" ;;
  node <- get_id orelse "truncated node" ;;
  device <- get_str orelse "truncated string" ;;
  backend <- get_str orelse "truncated string" ;;
  owner <- get_str orelse "truncated string" ;;
  let opt := read_opt "truncated optional" "invalid optional flag" "truncated optional id" in
  model <- opt ;; artifact <- opt ;; replica <- opt ;; engine <- opt ;;
  st <- get_enum WarmthState "truncated state" "invalid state enum" ;;
  reason <- get_str orelse "truncated state reason" ;;
  let obj := new_object id cat workload node device backend in
  let obj := set_logical_owner owner obj in
  let obj := set_if set_model model obj in
  let obj := set_if set_artifact artifact obj in
  let obj := set_if set_replica replica obj in
  let obj := set_if set_engine engine obj in
  let obj := restore_state st reason obj in
  obj <- read_dims enum_all "truncated dimension" "invalid dimension enum" obj ;;
  lp <- get_u64 orelse "truncated last_prepared" ;;
  lu <- get_u64 orelse "truncated last_used" ;;
  let obj := mark_used (s64 lu) (mark_prepared (s64 lp) obj) in
  ecb <- get_u64 orelse "truncated cost" ;; mcb <- get_u64 orelse "truncated cost" ;;
  ettr <- r_f64 orelse "truncated cost" ;; ottr <- r_f64 orelse "truncated cost" ;;
  let obj := set_measured_cost_bytes mcb (set_estimated_cost_bytes ecb obj) in
  let obj := set_observed_ttr_ms ottr (set_estimated_ttr_ms ettr obj) in
  res <- get_enum ResidencyState "truncated residency" "invalid residency enum" ;;
  lc <- get_enum Lifecycle "truncated lifecycle" "invalid lifecycle enum" ;;
  conf <- r_f64 orelse "truncated confidence" ;; fresh <- r_f64 orelse "truncated confidence" ;;
  let obj := set_lifecycle lc (set_residency res obj) in
  let obj := set_freshness fresh (set_confidence conf obj) in
  wgen <- get_u64 orelse "truncated warmth generation" ;;
  let obj := set_warmth_generation (Gen wgen) obj in
  nd <- get_u32 orelse "truncated dependency count" ;;
  ensure nd <=? 64 or "dependency count too large" ;;
  obj <- read_deps (Z.to_nat nd) ∅ "truncated dep kind" "invalid dependency kind" "duplicate dependency kind"
           "truncated dep generation" obj ;;
  obj <- read_invalidation "truncated invalidation flag" "truncated invalidation" "invalid invalidation flag" obj ;;
  prov <- get_enum Provenance "truncated provenance" "invalid provenance enum" ;;
  let obj := set_provenance prov obj in
  ensure wgen <=? snap_wgen or "invalid generation relation" ;;
  rret obj.

(** [flags[i] > 1] is refused; the missing byte leaves the text empty. *)
Definition read_flag : reader Z := f <- get_u8 ;; ensure f <=? 1 or "invalid policy flag" ;; rret f.

Definition policy_of (gen : Z) (v flags b w : list Z) : WarmthPolicy :=
  let n l i := nth i l 0 in
  let flag i := negb (n flags i =? 0) in
  mkPolicy (Gen gen)
    (mkDecayPolicy (n v 0%nat) (n v 1%nat) (n v 2%nat) (n v 3%nat) (n v 4%nat)
       (flag 0%nat) (flag 1%nat) (flag 2%nat) (flag 3%nat) (flag 4%nat))
    (mkLimits (n b 0%nat) (n b 1%nat) (n b 2%nat) (n b 3%nat) (n b 4%nat) (n b 5%nat) (n b 6%nat) (n b 7%nat))
    (n w 0%nat) (n w 1%nat) (n w 2%nat) (n w 3%nat) (n w 4%nat) (n w 5%nat) (n w 6%nat) (n w 7%nat)
    (n w 8%nat) (n w 9%nat) (n w 10%nat) (n w 11%nat).

Definition read_policy : reader WarmthPolicy :=
  gen <- get_u64 orelse "truncated policy gen" ;;
  v <- get_many 5 (fun _ => r_f64 orelse "truncated decay") 0 ;;
  flags <- get_many 5 (fun _ => read_flag) 0 ;;
  b <- get_many 8 (fun _ => get_u64 orelse "truncated budgets") 0 ;;
  w <- get_many 12 (fun _ => r_f64 orelse "truncated weights") 0 ;;
  rret (policy_of gen v flags b w).

(** [return fail(p + err)]. *)
Definition err_prefix {A} (p : string) (r : reader A) : reader A :=
  fun s => match r s with Ok x => Ok x | Err e => Err (p +:+ e) end.

Fixpoint read_objects (n : nat) (i : Z) (ids : gset string) (snap_wgen : Z) : reader (list WarmthObject) :=
  match n with
  | O => rret []
  | S n =>
      o <- err_prefix ("object " +:+ dec_string i +:+ ": ") (read_object snap_wgen) ;;
      let idstr := to_string (id_ o) in
      ensure bool_decide (idstr ∉ ids) or "duplicate object id" ;;
      l <- read_objects n (i + 1) ({[idstr]} ∪ ids) snap_wgen ;;
      rret (o :: l)
  end.

Definition read_payload : reader Snapshot :=
  epoch <- get_u64 orelse "truncated authority" ;;
  wgen <- get_u64 orelse "truncated authority" ;;
  dgen <- get_u64 orelse "truncated authority" ;;
  pgen <- get_u64 orelse "truncated authority" ;;
  policy <- err_prefix "policy: " read_policy ;;
  ensure value (generation policy) =? pgen or "invalid generation relation (policy)" ;;
  n <- get_u32 orelse "truncated object count" ;;
  ensure n <=? 1000000 or "object count too large" ;;
  objects <- read_objects (Z.to_nat n) 0 ∅ wgen ;;
  rret (mkSnapshot 1 (Gen epoch) (Gen wgen) (Gen dgen) (Gen pgen) policy objects).

(** The header fields read in front of the payload. *)
Definition read_header : reader (Z * Z) :=
  magic <- get_u32 orelse "bad magic" ;;
  ensure magic =? kMagic or "bad magic" ;;
  version <- get_u32 orelse "incompatible version" ;;
  ensure version =? kVersion or "incompatible version" ;;
  payload_size <- get_u32 orelse "truncated payload size" ;;
  checksum <- get_u32 orelse "truncated checksum" ;;
  rret (payload_size, checksum).

Definition decode_snapshot (bs : bytes) : result Snapshot :=
  if decide (length bs < 16)%nat then Err "truncated header"
  else
    match read_header bs with
    | Err e => Err e
    | Ok ((payload_size, checksum), payload) =>
        let have := Z.of_nat (length bs) - 16 in
        if negb (payload_size =? have) then
          Err (if have <? payload_size then "truncated payload" else "trailing garbage")
        else if negb (crc32 payload =? checksum) then Err "checksum mismatch"
        else
          match read_payload payload with
          | Err e => Err e
          | Ok (snap, rest) => if decide (length rest = 0%nat) then Ok snap else Err "trailing garbage"
          end
    end.

(** ** Lemmas *)

Definition finite (d : double) : Prop := isnan d = false /\ isinf d = false.
Definition finite_object (o : WarmthObject) : Prop :=
  finite (estimated_ttr_ms_ o) /\ finite (observed_ttr_ms_ o) /\ finite (confidence_ o) /\ finite (freshness_ o).

#[export] Instance finite_dec d : Decision (finite d).
Proof. unfold finite. apply _. Defined.
#[export] Instance finite_object_dec o : Decision (finite_object o).
Proof. unfold finite_object. apply _. Defined.

Lemma w_f64_spec d : w_f64 d = if decide (finite d) then Some (put_f64 d) else None.
Proof.
  unfold w_f64. destruct (decide _) as [[-> ->]|Hn]; [done|].
  destruct (isnan d) eqn:E1, (isinf d) eqn:E2; try done. by destruct Hn.
Qed.

Lemma wapp_none w : w +++ None = None.
Proof. by destruct w. Qed.

(** The persistent layout is the wire layout, for objects without NaN or
    infinity; nothing is written for the others. *)
Lemma write_object_wire o : write_object o = if decide (finite_object o) then Some (encode_object o) else None.
Proof.
  unfold write_object. rewrite !w_f64_spec. destruct (decide (finite_object o)) as [(? & ? & ? & ?)|Hn].
  - rewrite !decide_True by done. cbn [wapp]. f_equal. unfold encode_object. by rewrite <- !app_assoc.
  - unfold finite_object in Hn.
    repeat (destruct (decide (finite _)); [|by rewrite ?wapp_none]). by destruct Hn.
Qed.

Lemma r_f64_reads d : uint 64 d -> finite d -> reads r_f64 (put_f64 d) d.
Proof.
  intros Hd [Hn Hi]. unfold r_f64. eapply reads_last; [by apply get_u64_reads|].
  eapply reads_bind_nil; [apply reads_guard; by rewrite Hn, Hi|apply reads_ret].
Qed.

Lemma r_f64_yields : yields r_f64 (fun d => uint 64 d /\ finite d).
Proof. unfold r_f64. do 2 yields_step. bool_simpl. by apply yields_ret. Qed.

Lemma err_prefix_reads {A} p (r : reader A) bs a : reads r bs a -> reads (err_prefix p r) bs a.
Proof. intros Hr rest. unfold err_prefix. by rewrite Hr. Qed.

Lemma err_prefix_yields {A} p (r : reader A) P : yields r P -> yields (err_prefix p r) P.
Proof.
  intros Hr s a rest Hs. unfold err_prefix. destruct (r s) as [[]|] eqn:E; [|done]. intros [= -> ->]. by apply (Hr s).
Qed.

#[export] Hint Resolve r_f64_reads err_prefix_reads : reads.
#[export] Hint Resolve r_f64_yields err_prefix_yields : yields.

Lemma read_object_reads wgen o : object_wf o -> finite_object o -> value (warmth_gen_ o) <= wgen ->
  reads (read_object wgen) (encode_object o) (wire_norm o).
Proof.
  intros Ho (? & ? & ? & ?) Hg. pose proof (deps_count_reads (dep_gens_ o)) as [Hc1 Hc2].
  pose proof (time_reads _ (wf_last_prepared o Ho)) as [Hp1 Hp2].
  pose proof (time_reads _ (wf_last_used o Ho)) as [Hu1 Hu2].
  rewrite <- wire_norm_shape by done. destruct Ho. unfold short, gen_wf in *. unfold read_object, encode_object.
  eapply reads_conv.
  - do 7 reads_step. cbn zeta. do 6 reads_step. rewrite set_if_shape.
    eapply reads_bind; [apply put_dims_reads|]. do 2 reads_step. rewrite Hp2, Hu2. do 11 reads_step.
    eapply reads_bind; [by apply put_deps_reads|]. do 2 reads_step.
    eapply reads_bind_nil; [by apply reads_guard, Z.leb_le|]. apply reads_ret.
  - cbn zeta. by rewrite sorted_deps_map.
Qed.

Lemma clamp_unit_finite v : finite v -> finite (clamp_unit v).
Proof. intros Hv. destruct (clamp_unit_cases v) as [-> | [-> | ->]]; [by vm_compute..|done]. Qed.

(** What every object of a decoded snapshot satisfies. *)
Definition stored_object (wgen : Z) (o : WarmthObject) : Prop :=
  object_wf o /\ finite_object o /\ value (warmth_gen_ o) <= wgen.

Lemma read_object_yields wgen : yields (read_object wgen) (stored_object wgen).
Proof.
  unfold read_object. do 7 yields_step. cbn zeta. do 6 yields_step.
  eapply yields_bind; [apply (read_dims_yields object_wf); [by intros; apply put_dims_wf|apply base_object_wf; assumption]|].
  cbn beta. intros obj Hobj. do 13 yields_step. destruct_and?.
  set (P o := object_wf o /\ finite_object o /\ value (warmth_gen_ o) = a22).
  eapply yields_bind.
  { apply (read_deps_yields P); [by intros k g o Hg (? & ? & ?); split; auto with warmth|].
    split; [apply set_units_wf; [apply set_costs_wf; [by apply set_times_wf|..]|..]; assumption|].
    split; [|done]. split_and!; try done; by apply clamp_unit_finite. }
  cbn beta. intros obj' Hobj'.
  eapply yields_bind.
  { apply (read_invalidation_yields P); [by intros s o Hs (? & ? & ?); split; auto with warmth|done]. }
  cbn beta. intros obj'' (? & ? & ?). yields_step. yields_step. bool_simpl. apply yields_ret.
  split; [by apply set_provenance_wf|]. split; [done|]. cbn. lia.
Qed.

#[export] Hint Resolve read_object_yields : yields.

(** *** The policy *)

(** Values of the members' types; the doubles are finite when written. *)
Definition policy_wf (p : WarmthPolicy) : Prop :=
  gen_wf (generation p) /\ Forall (uint 64) (decay_doubles (decay p)) /\
  Forall (uint 64) (budget_fields (budgets p)) /\ Forall (uint 64) (policy_weights p).
Definition finite_policy (p : WarmthPolicy) : Prop :=
  Forall finite (decay_doubles (decay p)) /\ Forall finite (policy_weights p).

Lemma w_each_f64 l : w_each w_f64 l = if decide (Forall finite l) then Some (concat (map put_f64 l)) else None.
Proof.
  induction l as [|d l IH]; [done|]. cbn [w_each]. rewrite IH, w_f64_spec.
  destruct (decide (finite d)), (decide (Forall finite l)); cbn [wapp];
    (rewrite decide_True by by constructor) || (rewrite decide_False by by inversion 1); done.
Qed.

(** The bytes of a policy whose doubles are finite. *)
Definition policy_bytes (p : WarmthPolicy) : bytes :=
  put_u64 (value (generation p)) ++ concat (map put_f64 (decay_doubles (decay p))) ++
  concat (map put_bool (decay_flags (decay p))) ++ concat (map put_u64 (budget_fields (budgets p))) ++
  concat (map put_f64 (policy_weights p)).

Lemma write_policy_spec p : write_policy p = if decide (finite_policy p) then Some (policy_bytes p) else None.
Proof.
  unfold write_policy. rewrite !w_each_f64. unfold finite_policy.
  destruct (decide (Forall finite (decay_doubles (decay p)))), (decide (Forall finite (policy_weights p)));
    (rewrite decide_True by tauto) || (rewrite decide_False by tauto); done.
Qed.

Lemma read_flag_reads (b : bool) : reads read_flag (put_bool b) (if b then 1 else 0).
Proof. by destruct b. Qed.

Lemma read_flag_yields : yields read_flag (fun _ => True).
Proof. unfold read_flag. do 2 yields_step. by apply yields_ret. Qed.

Lemma policy_of_fields p :
  policy_of (value (generation p)) (map (fun d => d) (decay_doubles (decay p)))
    (map (fun b : bool => if b then 1 else 0) (decay_flags (decay p)))
    (map (fun d => d) (budget_fields (budgets p))) (map (fun d => d) (policy_weights p)) = p.
Proof. destruct p as [[g] [????? [] [] [] [] []] [????????]]. all: reflexivity. Qed.

Lemma read_policy_reads p : policy_wf p -> finite_policy p -> reads read_policy (policy_bytes p) p.
Proof.
  intros (Hg & Hd & Hb & Hw) (Hfd & Hfw). eapply reads_conv; [|apply policy_of_fields].
  rewrite Forall_forall in Hd, Hb, Hw, Hfd, Hfw. unfold read_policy, policy_bytes.
  assert (forall A (l : list A) j a, l !! j = Some a -> a ∈ l) as Hin by (intros; by eapply list_elem_of_lookup_2).
  reads_step.
  eapply reads_bind; [apply (get_many_reads _ put_f64 (fun d => d) (decay_doubles (decay p))); intros j d Hj;
    apply Hin in Hj; eauto with reads|].
  eapply reads_bind; [apply (get_many_reads _ put_bool (fun b : bool => if b then 1 else 0) (decay_flags (decay p))); intros j d Hj; apply read_flag_reads|].
  eapply reads_bind; [apply (get_many_reads _ put_u64 (fun d => d) (budget_fields (budgets p))); intros j d Hj;
    apply Hin in Hj; eauto with reads|].
  eapply reads_last; [apply (get_many_reads _ put_f64 (fun d => d) (policy_weights p)); intros j d Hj;
    apply Hin in Hj; eauto with reads|]. apply reads_ret.
Qed.

Lemma list_5 {A} (l : list A) : length l = 5%nat -> exists a b c d e, l = [a; b; c; d; e].
Proof. intros H. do 5 (destruct l as [|? l]; [discriminate H|]). destruct l; [|discriminate H]. by repeat eexists. Qed.
Lemma list_8 {A} (l : list A) : length l = 8%nat -> exists a b c d e f g h, l = [a; b; c; d; e; f; g; h].
Proof. intros H. do 8 (destruct l as [|? l]; [discriminate H|]). destruct l; [|discriminate H]. by repeat eexists. Qed.

Lemma policy_of_wf gen v flags b w :
  uint 64 gen -> Forall (fun d => uint 64 d /\ finite d) v /\ length v = 5%nat ->
  Forall (uint 64) b /\ length b = 8%nat -> Forall (fun d => uint 64 d /\ finite d) w /\ length w = 12%nat ->
  policy_wf (policy_of gen v flags b w) /\ finite_policy (policy_of gen v flags b w).
Proof.
  intros Hg [Hv Hvl] [Hb Hbl] [Hw Hwl].
  apply list_5 in Hvl as (?&?&?&?&?&->). apply list_8 in Hbl as (?&?&?&?&?&?&?&?&->).
  assert (exists l1 l2, w = l1 ++ l2 /\ length l1 = 5%nat /\ length l2 = 7%nat) as (l1 & l2 & -> & H1 & H2).
  { exists (take 5 w), (drop 5 w). rewrite take_drop, length_take, length_drop. split_and!; [done|lia|lia]. }
  apply list_5 in H1 as (?&?&?&?&?&->).
  do 7 (destruct l2 as [|? l2]; [discriminate H2|]). destruct l2; [|discriminate H2].
  rewrite Forall_and in Hv, Hw. destruct Hv, Hw. split; [split_and!|split]; done.
Qed.

Lemma read_policy_yields : yields read_policy (fun p => policy_wf p /\ finite_policy p).
Proof.
  unfold read_policy. yields_step.
  eapply yields_bind; [apply get_many_yields; intros; eauto with yields|]. cbn beta. intros v Hv.
  eapply yields_bind; [apply get_many_yields; intros; apply read_flag_yields|]. cbn beta. intros flags Hflags.
  eapply yields_bind; [apply get_many_yields; intros; eauto with yields|]. cbn beta. intros b Hb.
  eapply yields_bind; [apply get_many_yields; intros; eauto with yields|]. cbn beta. intros w Hw.
  apply yields_ret. by apply policy_of_wf.
Qed.

(** *** The object table *)

Lemma wire_norm_id o : id_ (wire_norm o) = id_ o.
Proof. reflexivity. Qed.

Lemma read_objects_reads wgen l i ids :
  Forall (stored_object wgen) l -> NoDup (map id_ l) -> Forall (fun o => to_string (id_ o) ∉ ids) l ->
  reads (read_objects (length l) i ids wgen) (concat (map encode_object l)) (map wire_norm l).
Proof.
  intros Hl. revert i ids. induction Hl as [|o l (Ho & Hf & Hg) Hl IH]; intros i ids Hnd Hids;
    cbn [length read_objects map concat]; [apply reads_ret|].
  cbn [map] in Hnd. apply NoDup_cons in Hnd as [Hno Hnd]. apply Forall_cons in Hids as [Hid Hids].
  eapply reads_bind; [by apply err_prefix_reads, read_object_reads|]. cbn zeta. rewrite wire_norm_id.
  eapply reads_bind_nil; [by apply reads_guard, bool_decide_eq_true|].
  eapply reads_last; [|apply reads_ret]. apply IH; [done|].
  rewrite Forall_forall in Hids, Hl |- *. intros o' Ho'. rewrite not_elem_of_union, not_elem_of_singleton.
  split; [|by apply Hids]. intros He. apply to_string_inj in He; [|apply (wf_id o')|apply (wf_id o)]; [|by apply Hl|done].
  apply Hno. rewrite <- He. by apply (list_elem_of_fmap_2 id_).
Qed.

Lemma read_objects_yields wgen n i ids :
  yields (read_objects n i ids wgen)
    (fun l => Forall (stored_object wgen) l /\ NoDup (map id_ l) /\ Forall (fun o => to_string (id_ o) ∉ ids) l /\
              length l = n).
Proof.
  revert i ids. induction n as [|n IH]; intros i ids; cbn [read_objects].
  { apply yields_ret. split_and!; constructor. }
  yields_step. cbn zeta. yields_step. bool_simpl.
  eapply yields_bind; [apply IH|]. cbn beta. intros l (Hl & Hnd & Hids & Hn). apply yields_ret.
  rewrite Forall_forall in Hids. split_and!.
  - by constructor.
  - cbn [map]. apply NoDup_cons. split; [|done]. intros (o & He & Ho)%list_elem_of_fmap. apply Hids in Ho.
    rewrite <- He in Ho. apply Ho. apply elem_of_union. left. by apply elem_of_singleton.
  - constructor; [done|]. apply Forall_forall. intros o Ho. apply Hids in Ho.
    intros Hin. apply Ho. apply elem_of_union. by right.
  - cbn. by rewrite Hn.
Qed.

(** *** The snapshot *)

Record snapshot_wf (s : Snapshot) : Prop := {
  sw_version : format_version s = 1;
  sw_epoch : gen_wf (snap_epoch s);
  sw_warmth : gen_wf (warmth_generation s);
  sw_dependency : gen_wf (dependency_generation s);
  sw_policy_gen : generation (policy s) = snap_policy_generation s;
  sw_policy : policy_wf (policy s);
  sw_objects : Forall (fun o => object_wf o /\ value (warmth_gen_ o) <= value (warmth_generation s)) (objects s);
  sw_ids : NoDup (map id_ (objects s));
  sw_count : Z.of_nat (length (objects s)) <= 1000000 }.

Definition finite_snapshot (s : Snapshot) : Prop := finite_policy (policy s) /\ Forall finite_object (objects s).
#[export] Instance finite_snapshot_dec s : Decision (finite_snapshot s).
Proof. unfold finite_snapshot, finite_policy. apply _. Defined.

Definition snapshot_norm (s : Snapshot) : Snapshot :=
  mkSnapshot (format_version s) (snap_epoch s) (warmth_generation s) (dependency_generation s)
    (snap_policy_generation s) (policy s) (map wire_norm (objects s)).

Definition payload_bytes (s : Snapshot) : bytes :=
  put_u64 (value (snap_epoch s)) ++ put_u64 (value (warmth_generation s)) ++
  put_u64 (value (dependency_generation s)) ++ put_u64 (value (snap_policy_generation s)) ++
  policy_bytes (policy s) ++ put_u32 (u32 (Z.of_nat (length (objects s)))) ++ concat (map encode_object (objects s)).

Lemma w_each_objects l :
  w_each write_object l = if decide (Forall finite_object l) then Some (concat (map encode_object l)) else None.
Proof.
  induction l as [|o l IH]; [done|]. cbn [w_each]. rewrite IH, write_object_wire.
  destruct (decide (finite_object o)), (decide (Forall finite_object l)); cbn [wapp];
    (rewrite decide_True by by constructor) || (rewrite decide_False by by inversion 1); done.
Qed.

Lemma write_payload_spec s : write_payload s = if decide (finite_snapshot s) then Some (payload_bytes s) else None.
Proof.
  unfold write_payload. rewrite write_policy_spec, w_each_objects. unfold finite_snapshot.
  destruct (decide (finite_policy (policy s))), (decide (Forall finite_object (objects s)));
    (rewrite decide_True by tauto) || (rewrite decide_False by tauto); [|done..].
  cbn [wapp]. unfold payload_bytes. by rewrite <- !app_assoc.
Qed.

Lemma read_payload_reads s : snapshot_wf s -> finite_snapshot s -> reads read_payload (payload_bytes s) (snapshot_norm s).
Proof.
  intros [Hv He Hw Hd Hpg Hp Ho Hids Hn] [Hfp Hfo]. unfold read_payload, payload_bytes, snapshot_norm, gen_wf in *.
  assert (uint 64 (value (snap_policy_generation s))) by (rewrite <- Hpg; apply Hp).
  assert (uint 32 (Z.of_nat (length (objects s)))) by (unfold uint; lia). rewrite wrap_small by done.
  do 4 reads_step. eapply reads_bind; [by apply err_prefix_reads, read_policy_reads|].
  eapply reads_bind_nil; [apply reads_guard, Z.eqb_eq; by rewrite Hpg|].
  reads_step. eapply reads_bind_nil; [by apply reads_guard, Z.leb_le|]. rewrite Nat2Z.id.
  eapply reads_last.
  - apply read_objects_reads; [|done|apply Forall_true; intros; apply not_elem_of_empty].
    rewrite Forall_forall in Ho, Hfo |- *. intros o Hin. destruct (Ho o Hin). split_and!; auto.
  - rewrite Hv. destruct (snap_epoch s), (warmth_generation s), (dependency_generation s), (snap_policy_generation s).
    apply reads_ret.
Qed.

(** A policy of another generation than the authority metadata is refused. *)
Lemma read_payload_mismatch s rest :
  gen_wf (snap_epoch s) -> gen_wf (warmth_generation s) -> gen_wf (dependency_generation s) ->
  gen_wf (snap_policy_generation s) -> policy_wf (policy s) -> finite_policy (policy s) ->
  generation (policy s) <> snap_policy_generation s ->
  read_payload (payload_bytes s ++ rest) = Err "invalid generation relation (policy)".
Proof.
  unfold gen_wf. intros He Hw Hd Hp Hpw Hpf Hne. unfold read_payload, payload_bytes. rewrite <- !app_assoc.
  rewrite (reads_then _ _ _ _ _ (reads_or_fail _ _ _ _ (get_u64_reads _ He))),
    (reads_then _ _ _ _ _ (reads_or_fail _ _ _ _ (get_u64_reads _ Hw))),
    (reads_then _ _ _ _ _ (reads_or_fail _ _ _ _ (get_u64_reads _ Hd))),
    (reads_then _ _ _ _ _ (reads_or_fail _ _ _ _ (get_u64_reads _ Hp))).
  rewrite (reads_then _ _ _ _ _ (err_prefix_reads _ _ _ _ (read_policy_reads _ Hpw Hpf))).
  unfold rbind at 1. rewrite (proj2 (Z.eqb_neq _ _)); [done|].
  intros Hv. apply Hne. destruct (generation (policy s)), (snap_policy_generation s). cbn in Hv. congruence.
Qed.

Lemma read_payload_yields : yields read_payload (fun s => snapshot_wf s /\ finite_snapshot s).
Proof.
  unfold read_payload. do 4 yields_step.
  eapply yields_bind; [apply err_prefix_yields, read_policy_yields|]. cbn beta. intros p [Hp Hfp].
  do 3 yields_step. bool_simpl.
  eapply yields_bind; [apply read_objects_yields|]. cbn beta. intros l (Hl & Hnd & _ & Hn). apply yields_ret.
  match goal with H : uint 32 _ |- _ => unfold uint in H end.
  split; [constructor; cbn; try done|split; [done|]]; cbn.
  - destruct (generation p). by subst.
  - eapply Forall_impl; [exact Hl|]. by intros o (? & ? & ?).
  - lia.
  - eapply Forall_impl; [exact Hl|]. by intros o (? & ? & ?).
Qed.

(** The decoder on a stream with a given size and checksum field. *)
Lemma decode_layout n c p : uint 32 n -> uint 32 c ->
  decode_snapshot (put_u32 kMagic ++ put_u32 kVersion ++ put_u32 n ++ put_u32 c ++ p) =
    if n =? Z.of_nat (length p) then
      if crc32 p =? c then
        match read_payload p with
        | Err e => Err e
        | Ok (snap, rest) => if decide (length rest = 0%nat) then Ok snap else Err "trailing garbage"
        end
      else Err "checksum mismatch"
    else Err (if Z.of_nat (length p) <? n then "truncated payload" else "trailing garbage").
Proof.
  intros Hn Hc. unfold decode_snapshot.
  assert (forall l : bytes, length (put_u32 kMagic ++ put_u32 kVersion ++ put_u32 n ++ put_u32 c ++ l) = (16 + length l)%nat)
    as Hlen by done.
  rewrite Hlen, decide_False by lia.
  assert (reads read_header (put_u32 kMagic ++ put_u32 kVersion ++ put_u32 n ++ put_u32 c) (n, c)) as Hh.
  { assert (uint 32 kMagic) by done. assert (uint 32 kVersion) by done.
    unfold read_header. do 6 reads_step. apply reads_ret. }
  specialize (Hh p). rewrite <- !app_assoc in Hh. rewrite Hh. cbn zeta.
  replace (Z.of_nat (16 + length p) - 16) with (Z.of_nat (length p)) by lia.
  destruct (n =? Z.of_nat (length p)); [|done]. by destruct (crc32 p =? c).
Qed.

Lemma encode_snapshot_spec s :
  encode_snapshot s = if decide (finite_snapshot s) then Some (snapshot_header (payload_bytes s) ++ payload_bytes s) else None.
Proof. unfold encode_snapshot. rewrite write_payload_spec. by destruct (decide _). Qed.

(** *** Damaged encodings *)

Lemma payload_bytes_ok s : bytes_ok (payload_bytes s).
Proof.
  unfold payload_bytes, policy_bytes.
  assert (forall {A} (put : A -> bytes) l, (forall a, bytes_ok (put a)) -> bytes_ok (concat (map put l))) as Hc.
  { intros A put l Hp. apply (concat_bytes _ (fun _ => True)); [by apply Forall_true|auto]. }
  solve_bytes; apply Hc; eauto with put_bytes.
Qed.

Lemma snapshot_header_app p l : snapshot_header p ++ l =
  put_u32 kMagic ++ put_u32 kVersion ++ put_u32 (u32 (Z.of_nat (length p))) ++ put_u32 (crc32 p) ++ l.
Proof. unfold snapshot_header. by rewrite <- !app_assoc. Qed.

(** The decoder behind a header made for [p], on other payload bytes [q]. *)
Lemma decode_header p q : bytes_ok p -> Z.of_nat (length p) < 2 ^ 32 ->
  decode_snapshot (snapshot_header p ++ q) =
    if decide (length q = length p) then
      if crc32 q =? crc32 p then
        match read_payload q with
        | Err e => Err e
        | Ok (snap, rest) => if decide (length rest = 0%nat) then Ok snap else Err "trailing garbage"
        end
      else Err "checksum mismatch"
    else Err (if decide (length q < length p)%nat then "truncated payload" else "trailing garbage").
Proof.
  intros Hb Hp. rewrite snapshot_header_app, wrap_small by (unfold uint; lia).
  rewrite decode_layout; [|unfold uint; lia|by apply crc32_uint].
  destruct (decide (length q = length p)) as [->|Hne]; [by rewrite Z.eqb_refl|].
  rewrite (proj2 (Z.eqb_neq _ _)) by lia. do 2 f_equal.
  destruct (decide _); case Z.ltb_spec; done || lia.
Qed.

Lemma decode_short bs : (length bs < 16)%nat -> decode_snapshot bs = Err "truncated header".
Proof. intros Hb. unfold decode_snapshot. by rewrite decide_True. Qed.

Lemma app_prefix {A} (a b c : list A) : (length a <= length c)%nat -> forall d, a ++ b = c ++ d -> exists e, c = a ++ e.
Proof.
  revert c. induction a as [|x a IH]; intros c Hl d He; [by exists c|].
  destruct c as [|y c]; cbn in Hl; [lia|]. cbn in He. injection He as -> He.
  destruct (IH c ltac:(lia) d He) as [e ->]. by exists e.
Qed.

(** The decoder yields well-formed, finite snapshots. *)
Lemma decode_snapshot_yields bs s : bytes_ok bs -> decode_snapshot bs = Ok s -> snapshot_wf s /\ finite_snapshot s.
Proof.
  intros Hb. unfold decode_snapshot. destruct (decide _); [done|].
  destruct (read_header bs) as [[[sz c] p]|] eqn:Eh; [|done]. cbn zeta. intros H.
  assert (yields read_header (fun _ => True)) as Hy.
  { unfold read_header. do 6 yields_step. by apply yields_ret. }
  destruct (Hy bs _ p Hb Eh) as [_ [hd ->]]. apply Forall_app in Hb as [_ Hp].
  repeat case_match; try done. injection H as ->.
  by eapply read_payload_yields.
Qed.

(** A finite snapshot is read back from its encoding. *)
Lemma decode_encode_snapshot s bs : snapshot_wf s -> Z.of_nat (length (payload_bytes s)) < 2 ^ 32 ->
  encode_snapshot s = Some bs -> decode_snapshot bs = Ok (snapshot_norm s).
Proof.
  intros Hs Hl. rewrite encode_snapshot_spec. destruct (decide (finite_snapshot s)) as [Hf|Hf]; [|done].
  intros <-%(inj Some). rewrite decode_header by (done || apply payload_bytes_ok).
  rewrite decide_True, Z.eqb_refl by done.
  pose proof (read_payload_reads s Hs Hf []) as Hr. rewrite app_nil_r in Hr. by rewrite Hr.
Qed.

(** ** Properties *)

(** C13: the snapshot round trip.  Encoding throws exactly when a double of the
    policy or of an object is a NaN or an infinity; it checks nothing else.  What
    it returns is decoded to the same snapshot, with its objects in normal form,
    if the values have their types, the relations hold that the decoder checks
    (format version 1, distinct ids, no object of a later warmth generation, a
    policy of the snapshot's policy generation, at most a million objects) and
    the payload is below 2^32 bytes, so that its length is not cut off. *)
Theorem snapshot_roundtrip (s : Snapshot) :
  (encode_snapshot s = None <-> ~ finite_snapshot s) /\
  (snapshot_wf s -> Z.of_nat (length (payload_bytes s)) < 2 ^ 32 ->
   forall bs, encode_snapshot s = Some bs -> decode_snapshot bs = Ok (snapshot_norm s)).
Proof.
  split; [|by intros Hs Hl bs; apply decode_encode_snapshot].
  rewrite encode_snapshot_spec. by destruct (decide (finite_snapshot s)).
Qed.

Definition snapshot_example : Snapshot :=
  mkSnapshot 1 (Gen 3) (Gen 7) (Gen 2) (Gen 5) (defaults (Gen 5)) [set_warmth_generation (Gen 6) sample_object].

Lemma snapshot_example_wf : snapshot_wf snapshot_example.
Proof.
  constructor; try (by apply (bool_decide_unpack _); vm_compute); try done.
  apply Forall_singleton. split; [|by vm_compute].
  apply set_warmth_generation_wf; [apply sample_object_wf|by apply (bool_decide_unpack _); vm_compute].
Qed.

Lemma snapshot_roundtrip_witness : exists bs,
  encode_snapshot snapshot_example = Some bs /\ decode_snapshot bs = Ok snapshot_example.
Proof.
  eexists. split; [vm_compute; reflexivity|].
  apply (snapshot_roundtrip snapshot_example); [apply snapshot_example_wf|vm_compute; reflexivity|vm_compute; reflexivity].
Defined.

(** C14: whatever bytes are loaded, a snapshot that the decoder accepts is well
    formed: its policy generation agrees with the authority metadata, object
    ids are distinct, no object has a later warmth generation than the
    snapshot, every member is in the range of its type and no double is a NaN
    or an infinity. *)
Theorem decode_snapshot_sound (bs : bytes) (s : Snapshot) :
  bytes_ok bs -> decode_snapshot bs = Ok s -> snapshot_wf s /\ finite_snapshot s.
Proof.
  apply decode_snapshot_yields.
Qed.

Lemma decode_snapshot_sound_witness : snapshot_wf snapshot_example /\ finite_snapshot snapshot_example.
Proof.
  apply (decode_snapshot_sound (snapshot_header (payload_bytes snapshot_example) ++ payload_bytes snapshot_example)).
  - apply (bool_decide_unpack _). vm_compute. exact I.
  - vm_compute. reflexivity.
Defined.

(** A damaged snapshot is rejected: every proper prefix as truncated, every
    extension as trailing garbage, and a change of up to four consecutive
    payload bytes as a checksum mismatch. *)
Theorem snapshot_damage_rejected (s : Snapshot) (bs : bytes) :
  encode_snapshot s = Some bs -> Z.of_nat (length (payload_bytes s)) < 2 ^ 32 ->
  (forall pre suf, bs = pre ++ suf -> suf <> [] ->
     decode_snapshot pre = Err "truncated header" \/ decode_snapshot pre = Err "truncated payload") /\
  (forall extra, extra <> [] -> decode_snapshot (bs ++ extra) = Err "trailing garbage") /\
  (forall pre x y post, payload_bytes s = pre ++ x ++ post -> bytes_ok y -> length y = length x ->
     (length x <= 4)%nat -> x <> y ->
     decode_snapshot (snapshot_header (payload_bytes s) ++ pre ++ y ++ post) = Err "checksum mismatch").
Proof.
  rewrite encode_snapshot_spec. destruct (decide _); [|done]. intros <-%(inj Some) Hl.
  pose proof (payload_bytes_ok s) as Hb. set (p := payload_bytes s) in *. split_and!.
  - intros pre suf He Hsuf. destruct (decide (length pre < 16)%nat) as [Hlt|Hge]; [left; by apply decode_short|right].
    destruct (app_prefix (snapshot_header p) p pre) with (d := suf) as [q ->]; [cbn; lia|done|].
    rewrite <- app_assoc in He. apply app_inv_head in He.
    assert (0 < length suf)%nat by (destruct suf; [done|cbn; lia]).
    assert (length p = length q + length suf)%nat by (rewrite He, length_app; done).
    rewrite decode_header by done. rewrite decide_False, decide_True by lia. done.
  - intros extra He. rewrite <- app_assoc, decode_header by done.
    assert (0 < length extra)%nat by (destruct extra; [done|cbn; lia]).
    rewrite !decide_False by (rewrite length_app; lia). done.
  - intros pre x y post Ep Hy Hlen H4 Hne. rewrite decode_header by done.
    rewrite decide_True by (rewrite Ep, !length_app; lia).
    rewrite Ep in Hb. rewrite !Forall_app in Hb. destruct Hb as (? & ? & ?).
    case Z.eqb_spec; [|done]. intros Hcrc. exfalso. apply Hne. rewrite Ep in Hcrc.
    symmetry in Hcrc. by apply crc32_burst in Hcrc.
Qed.

Lemma snapshot_damage_rejected_witness : exists bs,
  encode_snapshot snapshot_example = Some bs /\
  decode_snapshot (bs ++ [0]) = Err "trailing garbage" /\
  (decode_snapshot (take 40 bs) = Err "truncated header" \/ decode_snapshot (take 40 bs) = Err "truncated payload").
Proof.
  eexists. split; [vm_compute; reflexivity|].
  pose proof (snapshot_damage_rejected snapshot_example _ ltac:(vm_compute; reflexivity) ltac:(vm_compute; reflexivity))
    as (Ht & Hg & _).
  split; [by apply Hg|]. eapply Ht; [symmetry; apply take_drop|vm_compute; done].
Defined.
