(* ===== verification/ByteCodec.v ===== *)
(** * The byte codecs of persistence.cpp and protocol.hpp, as they are written

    [ByteWriter] appends to a growing buffer and [ByteReader] moves a position
    over a span; [WireEncoder] and [WireDecoder] are their twins for messages.
    The rest of the development uses the writers and readers of [Codec], which
    return the bytes of a field and consume the front of what is left.  Here the
    classes are modelled with their members ([buf_]; [s_], [i_], [ok_]), shift by
    shift, and proved to implement those: a cursor at position [i_] stands for the
    reader's input [drop i_ s_].  The validity switches of persistence.cpp, which
    list their enumerators, accept exactly the codes [enum_of] knows.  (The
    methods [u8] to [u64] are called [w_u8] and [r_u8] and so on, since the names
    are taken by the notations for wrapping, and [take] is [take_].) *)

From Stdlib Require Import ZArith Lia String.
From stdpp Require Import base list numbers strings.
From S2P Require Import Prelude Float64 Identity State Object Codec Persistence.
Local Open Scope Z_scope.
Local Open Scope warmth_scope.

(** ** Writers: a method maps the buffer to the buffer after it *)
Module ByteWriter.

Definition w_u8 (v : Z) (buf_ : bytes) : bytes := buf_ ++ [v].
Definition w_u16 (v : Z) (buf_ : bytes) : bytes :=
  let buf_ := w_u8 (u8 (Z.shiftr v 8)) buf_ in
  w_u8 (u8 (Z.shiftr v 0)) buf_.
Definition w_u32 (v : Z) (buf_ : bytes) : bytes :=
  let buf_ := w_u8 (u8 (Z.shiftr v 24)) buf_ in
  let buf_ := w_u8 (u8 (Z.shiftr v 16)) buf_ in
  let buf_ := w_u8 (u8 (Z.shiftr v 8)) buf_ in
  w_u8 (u8 (Z.shiftr v 0)) buf_.
(** [for (int i = 7; i >= 0; --i)]. *)
Definition w_u64 (v : Z) (buf_ : bytes) : bytes :=
  fold_left (fun buf_ i => w_u8 (u8 (Z.shiftr v (i * 8))) buf_) [7; 6; 5; 4; 3; 2; 1; 0] buf_.
(** [None]: [std::invalid_argument]. *)
Definition w_finite_f64 (d : double) (buf_ : bytes) : option bytes :=
  if isnan d || isinf d then None else Some (w_u64 d buf_).
Definition w_bytes (s : bytes) (buf_ : bytes) : bytes := buf_ ++ s.
Definition w_length_and_bytes (s : bytes) (buf_ : bytes) : bytes :=
  w_bytes s (w_u32 (u32 (Z.of_nat (length s))) buf_).
Definition w_str (s : string) (buf_ : bytes) : bytes := w_length_and_bytes (string_bytes s) buf_.

(** [WireEncoder::f64] and [WireEncoder::id]; its other methods are those above. *)
Definition w_any_f64 (d : double) (buf_ : bytes) : bytes := w_u64 d buf_.
Definition w_id (i : Id128) (buf_ : bytes) : bytes := buf_ ++ to_bytes i.

End ByteWriter.

(** ** Readers: a method returns the value read ([None] for [false]) and the
    cursor after it, which a failed call may have moved too *)
Module ByteReader.

Record cursor := mkCursor { s_ : bytes; i_ : Z; ok_ : bool }.

Definition op (A : Type) : Type := cursor -> option A * cursor.
Definition obind {A B} (m : op A) (k : A -> op B) : op B :=
  fun c => match m c with (Some a, c) => k a c | (None, c) => (None, c) end.
Definition oret {A} (a : A) : op A := fun c => (Some a, c).
Definition ofail {A} : op A := fun c => (None, c).

Definition cursor_at_start (s : bytes) : cursor := mkCursor s 0 true.
Definition remaining (c : cursor) : Z := u64 (Z.of_nat (length (s_ c)) - i_ c).

Definition advance (n : Z) (c : cursor) : cursor := mkCursor (s_ c) (u64 (i_ c + n)) (ok_ c).
Definition take_ (n : Z) : op unit := fun c =>
  if remaining c <? n then (None, mkCursor (s_ c) (i_ c) false) else (Some tt, advance n c).

(** [s_[i_ - n + k]] for [k] from 0 to [n - 1]. *)
Definition at_ (c : cursor) (j : Z) : Z := nth (Z.to_nat (u64 j)) (s_ c) 0.
Definition taken (n : nat) (c : cursor) : bytes :=
  map (fun k => at_ c (i_ c - Z.of_nat n + Z.of_nat k)) (seq 0 n).
Definition block (n : nat) : op bytes :=
  obind (take_ (Z.of_nat n)) (fun _ c => (Some (taken n c), c)).

Definition r_u8 : op Z := obind (take_ 1) (fun _ c => (Some (at_ c (i_ c - 1)), c)).
(** [static_cast<std::uint16_t>((a << 8) | b)], computed in [int]. *)
Definition r_u16 : op Z :=
  obind r_u8 (fun a => obind r_u8 (fun b => oret (u16 (Z.lor (Z.shiftl a 8) b)))).
Definition r_u32 : op Z :=
  obind (block 4) (fun b =>
    let b k := nth k b 0 in
    oret (Z.lor (Z.lor (Z.lor (u32 (Z.shiftl (b 0%nat) 24)) (u32 (Z.shiftl (b 1%nat) 16)))
                       (u32 (Z.shiftl (b 2%nat) 8))) (b 3%nat))).
Definition r_u64 : op Z :=
  obind (block 8) (fun b => oret (fold_left (fun v d => Z.lor (u64 (Z.shiftl v 8)) d) b 0)).
Definition r_finite_f64 : op double :=
  obind r_u64 (fun d => if negb (isnan d) && negb (isinf d) then oret d else ofail).
Definition r_bytes (n : Z) : op bytes := block (Z.to_nat n).
(** The length check does not go through [take]: [ok_] stays as it is. *)
Definition r_length_and_bytes : op bytes :=
  obind r_u32 (fun len c => if remaining c <? len then (None, c) else r_bytes len c).
Definition r_str : op string := obind r_length_and_bytes (fun b => oret (bytes_string b)).

(** The methods of [WireDecoder] that differ. *)
Definition r_any_f64 : op double := r_u64.
Definition r_id : op Id128 := obind (block 16) (fun b => oret (from_bytes b)).
Definition peek_u8 (c : cursor) : option Z :=
  if Z.of_nat (length (s_ c)) <=? i_ c then None else Some (at_ c (i_ c)).
(** [out.assign(s_.data() + i_, len); i_ += len]. *)
Definition r_wire_str : op string :=
  obind r_u32 (fun len c =>
    if remaining c <? len then (None, c)
    else let out := bytes_string (map (fun k => at_ c (i_ c + Z.of_nat k)) (seq 0 (Z.to_nat len))) in
         (Some out, advance len c)).

End ByteReader.
Import ByteReader.

(** ** The validity switches *)
Definition one_of {E} `{UEnum E} (l : list E) (b : Z) : bool := existsb (fun e => enum_code e =? b) l.

Definition state_ok : Z -> bool :=
  one_of [COLD; DISCOVERED; PREPARING; PARTIALLY_WARM; WARM; HOT; STALE; INVALIDATED; EVICTED; FAILED].
Definition dim_ok : Z -> bool := one_of [D_COLD; D_DISCOVERED; D_PARTIAL; D_READY; D_VALID; D_SUSPECT].
Definition category_ok : Z -> bool :=
  one_of [MODEL_WEIGHTS; ADAPTERS; TOKENIZER_RUNTIME; KV_PREFIX_STATE; KERNEL_ARTIFACTS; LOADED_KERNEL_MODULES;
          EXECUTION_GRAPHS; ALLOCATOR_POOLS; CUDA_CONTEXT_DEVICE; ENGINE_RUNTIME_PROCESS;
          PERSISTENT_RUNTIME_CACHE; APPLICATION_DEFINED].
Definition residency_ok : Z -> bool := one_of [R_NONE; R_STORAGE_ONLY; R_HOST_ONLY; R_DEVICE_RESIDENT; R_MIRRORED].
Definition lifecycle_ok : Z -> bool :=
  one_of [LC_NOT_STARTED; LC_ADMITTED; LC_PREPARING; LC_READY; LC_COOLING; LC_EVICTING; LC_TERMINATED].
Definition provenance_ok : Z -> bool := one_of [P_LOCAL; P_COORDINATOR; P_DERIVED; P_REPORTED; P_MEASURED].
Definition dep_kind_ok : Z -> bool :=
  one_of [DK_MODEL; DK_ADAPTER_SET; DK_MASK_TOKENIZER; DK_KERNEL_SET; DK_GRAPH_SET; DK_RUNTIME; DK_COMPILER;
          DK_COMPUTE_CAPABILITY; DK_DEVICE; DK_POLICY; DK_REPLICA; DK_WORKER_BOOT].

(** ** The cursor implements the readers

    [view c] is what a reader of [Codec] would be given.  A method realises a
    reader when, wherever it is called, it yields the reader's value and leaves
    the cursor at the reader's rest of the same span; where the reader fails it
    returns [false]. *)
Definition view (c : cursor) : bytes := drop (Z.to_nat (i_ c)) (s_ c).

Definition in_bounds (c : cursor) : Prop :=
  bytes_ok (s_ c) /\ 0 <= i_ c <= Z.of_nat (length (s_ c)) /\ Z.of_nat (length (s_ c)) < 2 ^ 64.

Definition realises {A} (m : op A) (r : reader A) : Prop := forall c, in_bounds c ->
  match r (view c) with
  | Ok (a, rest) => exists c', m c = (Some a, c') /\ in_bounds c' /\ s_ c' = s_ c /\ ok_ c' = ok_ c /\ view c' = rest
  | Err _ => fst (m c) = None
  end.

Lemma length_view c : in_bounds c -> Z.of_nat (length (view c)) = Z.of_nat (length (s_ c)) - i_ c.
Proof. intros (_ & Hi & _). unfold view. rewrite length_drop. lia. Qed.

Lemma view_bytes c : in_bounds c -> bytes_ok (view c).
Proof. intros (Hs & _). by apply Forall_drop. Qed.

Lemma remaining_view c : in_bounds c -> remaining c = Z.of_nat (length (view c)).
Proof.
  intros Hc. rewrite length_view by done. destruct Hc as (_ & Hi & Hl).
  apply wrap_small. unfold uint. lia.
Qed.

Lemma nth_seq_take (s : bytes) i n : (i + n <= length s)%nat ->
  map (fun k => nth (i + k) s 0) (seq 0 n) = take n (drop i s).
Proof.
  revert s. induction i as [|i IH]; intros s Hn.
  - rewrite drop_0. revert s Hn. induction n as [|n IHn]; intros [|b s] Hn; try done; [cbn in Hn; lia|].
    cbn [seq map take]. rewrite <- seq_shift, map_map. f_equal. apply IHn. cbn in Hn. lia.
  - destruct s as [|b s]; [cbn in Hn; lia|]. apply IH. cbn in Hn. lia.
Qed.

Lemma slice c n : in_bounds c -> (n <= length (view c))%nat ->
  map (fun k => at_ c (i_ c + Z.of_nat k)) (seq 0 n) = take n (view c).
Proof.
  intros Hc Hn. pose proof (length_view c Hc). destruct Hc as (_ & Hi & Hl). unfold view.
  rewrite <- nth_seq_take by lia. apply map_ext_in. intros k Hk%in_seq. unfold at_.
  rewrite wrap_small by (unfold uint; lia). f_equal. lia.
Qed.

Lemma advance_in_bounds c n : in_bounds c -> (n <= length (view c))%nat ->
  in_bounds (advance (Z.of_nat n) c) /\ i_ (advance (Z.of_nat n) c) = i_ c + Z.of_nat n /\
  view (advance (Z.of_nat n) c) = drop n (view c).
Proof.
  intros Hc Hn. pose proof (length_view c Hc). destruct Hc as (Hs & Hi & Hl).
  assert (i_ (advance (Z.of_nat n) c) = i_ c + Z.of_nat n) as Ei.
  { cbn. apply wrap_small. unfold uint. lia. }
  split_and!; [|done|].
  - unfold in_bounds. rewrite Ei. cbn [s_ advance]. split_and!; [done|lia..].
  - unfold view. rewrite Ei, drop_drop. f_equal. lia.
Qed.

(** *** Sequencing *)
Lemma realises_ret {A} (a : A) : realises (oret a) (rret a).
Proof. intros c Hc. by exists c. Qed.

Lemma realises_fail {A} e : realises (A := A) ofail (rfail e).
Proof. by intros c Hc. Qed.

Lemma realises_ext {A} (m m' : op A) r r' :
  (forall c, in_bounds c -> m c = m' c) -> (forall s, r s = r' s) -> realises m' r' -> realises m r.
Proof. intros Hm Hr H c Hc. rewrite Hm, Hr by done. by apply H. Qed.

Lemma realises_bind {A B} (m : op A) (k : A -> op B) r k' (P : A -> Prop) :
  realises m r -> yields r P -> (forall a, P a -> realises (k a) (k' a)) -> realises (obind m k) (rbind r k').
Proof.
  intros Hm Hy Hk c Hc. specialize (Hm c Hc). pose proof (Hy (view c)) as HP. unfold rbind, obind.
  destruct (r (view c)) as [[a rest]|e]; cbn beta iota in *.
  - destruct Hm as (c1 & -> & Hf & Hs & Ho & <-).
    destruct (HP a (view c1)) as [Ha _]; [by apply view_bytes|done|].
    specialize (Hk a Ha c1 Hf). destruct (k' a (view c1)) as [[b rest]|]; [|done].
    destruct Hk as (c2 & -> & Hf2 & Hs2 & Ho2 & Hv2). exists c2. by rewrite Hs2, Ho2.
  - destruct (m c) as [[a|] c']; [done|]. done.
Qed.

(** A step whose result is only passed on. *)
Lemma realises_map {A B} (m : op A) r (f g : A -> B) (P : A -> Prop) :
  realises m r -> yields r P -> (forall a, P a -> f a = g a) ->
  realises (obind m (fun a => oret (f a))) (rbind r (fun a => rret (g a))).
Proof.
  intros Hm Hy Hfg. eapply realises_bind; [done..|]. intros a Ha. cbn beta. rewrite Hfg by done. apply realises_ret.
Qed.

(** *** The primitive reads *)
Lemma realises_block n : realises (block n) (take_bytes n).
Proof.
  intros c Hc. unfold block, obind, take_, take_bytes. rewrite remaining_view by done.
  destruct (decide _) as [Hn|Hn].
  - by rewrite (proj2 (Z.ltb_lt _ _)) by lia.
  - rewrite (proj2 (Z.ltb_ge _ _)) by lia. destruct (advance_in_bounds c n Hc) as (Hf & Hi & Hv); [lia|].
    eexists. split_and!; [|exact Hf|done|done|exact Hv]. f_equal. f_equal.
    rewrite <- slice by (done || lia). unfold taken. rewrite Hi. apply map_ext. intros k.
    unfold at_. cbn [s_ advance]. by rewrite Z.add_simpl_r.
Qed.

Lemma realises_u8 : realises r_u8 get_u8.
Proof.
  apply realises_ext with (m' := obind (block 1) (fun b => oret (nth 0 b 0)))
    (r' := rbind (take_bytes 1) (fun b => rret (nth 0 b 0))).
  - intros c _. unfold r_u8, block, obind, oret, taken, take_. change (Z.of_nat 1) with 1. cbn [map seq nth].
    destruct (remaining c <? 1); [done|]. by rewrite Z.add_0_r.
  - by intros [|b s].
  - eapply realises_map; [apply realises_block|apply take_bytes_yields|done].
Qed.

Lemma shift_or_u16 a b : uint 8 a -> uint 8 b -> u16 (Z.lor (Z.shiftl a 8) b) = be_value 16 8 [a; b].
Proof.
  intros Ha Hb. unfold be_value. rewrite be_value_sum; [|lia|by rewrite !Forall_cons|lia|unfold uint in *; cbn; lia].
  rewrite lor_shiftl_add by done. unfold uint in *. cbn. rewrite wrap_small by (unfold uint; lia). lia.
Qed.

Lemma shift_or_shift x y k n : 0 <= k -> 0 <= n ->
  Z.lor (Z.shiftl x (k + n)) (Z.shiftl y n) = Z.shiftl (Z.lor (Z.shiftl x k) y) n.
Proof. intros. by rewrite Z.shiftl_lor, Z.shiftl_shiftl. Qed.

Lemma shift_or_u32 a b c d : bytes_ok [a; b; c; d] ->
  Z.lor (Z.lor (Z.lor (u32 (Z.shiftl a 24)) (u32 (Z.shiftl b 16))) (u32 (Z.shiftl c 8))) d = be_value 32 8 [a; b; c; d].
Proof.
  intros H. assert (forall x n, uint 8 x -> 0 <= n <= 24 -> u32 (Z.shiftl x n) = Z.shiftl x n) as Hw.
  { intros x n Hx Hn. apply wrap_small. unfold uint in *. rewrite Z.shiftl_mul_pow2 by lia.
    pose proof (Z.pow_le_mono_r 2 n 24). nia. }
  pose proof H as Hs. rewrite !Forall_cons in H. destruct H as (Ha & Hb & Hc & Hd & _).
  unfold be_value. rewrite be_value_sum; [|lia|done|lia|unfold uint in *; cbn; lia].
  rewrite !Hw by (done || lia).
  change (Z.shiftl a 24) with (Z.shiftl a (8 + 16)). rewrite shift_or_shift by done.
  change (Z.shiftl (Z.lor (Z.shiftl a 8) b) 16) with (Z.shiftl (Z.lor (Z.shiftl a 8) b) (8 + 8)).
  rewrite shift_or_shift, !lor_shiftl_add by done. cbn. lia.
Qed.

Lemma realises_u16 : realises r_u16 get_u16.
Proof.
  eapply realises_bind; [apply realises_u8|apply get_u8_yields|]. intros a Ha.
  eapply realises_map; [apply realises_u8|apply get_u8_yields|]. intros b Hb. by apply shift_or_u16.
Qed.

Lemma realises_u32 : realises r_u32 get_u32.
Proof.
  eapply realises_map; [apply (realises_block 4)|apply take_bytes_yields|].
  intros [|a [|b [|c [|d [|? ?]]]]] [Hb Hl]; try done. by apply shift_or_u32.
Qed.

Lemma realises_u64 : realises r_u64 get_u64.
Proof. eapply realises_map; [apply (realises_block 8)|apply take_bytes_yields|done]. Qed.

Lemma realises_f64 : realises r_finite_f64 Persistence.r_f64.
Proof.
  eapply realises_bind; [apply realises_u64|apply get_u64_yields|]. intros d _. cbn beta.
  destruct (negb _ && negb _); [|apply realises_fail]. apply (realises_ret d).
Qed.

(** [len > remaining()] in front of a block is the failure of the block itself. *)
Lemma realises_bytes len : 0 <= len -> realises
  (fun c => if remaining c <? len then (None, c) else r_bytes len c) (take_bytes (Z.to_nat len)).
Proof.
  intros Hn c Hc. pose proof (realises_block (Z.to_nat len) c Hc) as H. rewrite remaining_view by done.
  destruct (Z.ltb_spec (Z.of_nat (length (view c))) len) as [Hl|Hl]; [|exact H].
  unfold take_bytes. by rewrite decide_True by lia.
Qed.

Definition get_length_and_bytes : reader bytes := rbind get_u32 (fun len => take_bytes (Z.to_nat len)).

Lemma realises_length_and_bytes : realises r_length_and_bytes get_length_and_bytes.
Proof.
  eapply realises_bind; [apply realises_u32|apply get_u32_yields|]. intros len [? _]. by apply realises_bytes.
Qed.

Lemma get_str_alt s : get_str s = rbind get_length_and_bytes (fun b => rret (bytes_string b)) s.
Proof. unfold get_str, get_length_and_bytes, rbind. by destruct (get_u32 s) as [[]|]. Qed.

Lemma get_length_and_bytes_yields : yields get_length_and_bytes (fun _ => True).
Proof.
  eapply yields_bind; [apply get_u32_yields|]. intros len _.
  eapply yields_weaken; [apply take_bytes_yields|done].
Qed.

Lemma realises_str : realises r_str get_str.
Proof.
  eapply realises_ext; [done|apply get_str_alt|].
  eapply realises_map; [apply realises_length_and_bytes|apply get_length_and_bytes_yields|done].
Qed.

Lemma realises_wire_str : realises r_wire_str get_str.
Proof.
  eapply realises_bind; [apply realises_u32|apply get_u32_yields|]. intros len [Hn _] c Hc.
  pose proof (realises_bytes len Hn c Hc) as H. unfold rbind, take_bytes in *. rewrite remaining_view by done.
  rewrite remaining_view in H by done.
  destruct (decide _) as [Hl|Hl]; [by rewrite (proj2 (Z.ltb_lt _ _)) by lia|].
  rewrite (proj2 (Z.ltb_ge _ _)) by lia. cbn zeta. rewrite slice by (done || lia).
  destruct (advance_in_bounds c (Z.to_nat len) Hc) as (Hf & _ & Hv); [lia|]. rewrite Z2Nat.id in * by done.
  by exists (advance len c).
Qed.

Lemma realises_id : realises r_id get_id.
Proof. eapply realises_map; [apply (realises_block 16)|apply take_bytes_yields|done]. Qed.

(** [peek_u8] is what [u8] would read. *)
Lemma peek_is_next c : in_bounds c -> peek_u8 c = fst (r_u8 c).
Proof.
  intros Hc. unfold peek_u8, r_u8, obind, take_. pose proof (remaining_view c Hc) as Hr.
  rewrite length_view in Hr by done. destruct Hc as (_ & Hi & Hl). rewrite Hr.
  destruct (Z.leb_spec (Z.of_nat (length (s_ c))) (i_ c)).
  - by rewrite (proj2 (Z.ltb_lt _ _)) by lia.
  - rewrite (proj2 (Z.ltb_ge _ _)) by lia. cbn [fst]. unfold at_. cbn [i_ s_ advance]. do 2 f_equal.
    rewrite (wrap_small 64 (i_ c + 1)) by (unfold uint; lia). by rewrite Z.add_simpl_r.
Qed.

(** *** Writers *)
Lemma w_u16_app v buf : ByteWriter.w_u16 v buf = buf ++ put_u16 v.
Proof. unfold ByteWriter.w_u16, ByteWriter.w_u8. by rewrite <- !app_assoc. Qed.
Lemma w_u32_app v buf : ByteWriter.w_u32 v buf = buf ++ put_u32 v.
Proof. unfold ByteWriter.w_u32, ByteWriter.w_u8. by rewrite <- !app_assoc. Qed.
Lemma w_u64_app v buf : ByteWriter.w_u64 v buf = buf ++ put_u64 v.
Proof. unfold ByteWriter.w_u64, ByteWriter.w_u8. cbn [fold_left]. by rewrite <- !app_assoc. Qed.
Lemma w_f64_app d buf : ByteWriter.w_finite_f64 d buf = wapp (Some buf) (Persistence.w_f64 d).
Proof. unfold ByteWriter.w_finite_f64, Persistence.w_f64. rewrite w_u64_app. by destruct (isnan d || isinf d). Qed.
Lemma w_str_app s buf : ByteWriter.w_str s buf = buf ++ put_str s.
Proof.
  unfold ByteWriter.w_str, ByteWriter.w_length_and_bytes, ByteWriter.w_bytes, put_str.
  by rewrite w_u32_app, length_string_bytes, <- app_assoc.
Qed.

(** *** Switches *)
Lemma one_of_enum {E} `{UEnum E} (l : list E) b : l = enum_all -> one_of l b = enum_ok E b.
Proof.
  intros ->. unfold one_of, enum_ok, enum_of.
  induction enum_all as [|e l IH]; [done|]. cbn. by destruct (enum_code e =? b).
Qed.

(** ** Properties *)

(** C32: every method of [ByteReader] and [WireDecoder] that a decoder calls (that
    is, all but [peek_u8] and the public [length_and_bytes]), with its position, its
    bounds checks and its shifts and ors, implements the reader of [Codec] (or
    [Persistence]) that the decoders of this development are written in: from
    any position it gives the same value, stops at the same place in the same
    span with [ok_] as it was, and fails exactly when the reader fails. *)
Theorem byte_readers_realise :
  realises r_u8 get_u8 /\ realises r_u16 get_u16 /\ realises r_u32 get_u32 /\ realises r_u64 get_u64 /\
  realises r_finite_f64 Persistence.r_f64 /\ realises r_str get_str /\
  (forall n, realises (r_bytes n) (take_bytes (Z.to_nat n))) /\
  realises r_any_f64 get_f64 /\ realises r_id get_id /\ realises r_wire_str get_str.
Proof.
  split_and!; try apply realises_u64.
  - apply realises_u8.
  - apply realises_u16.
  - apply realises_u32.
  - apply realises_f64.
  - apply realises_str.
  - intros n. apply realises_block.
  - apply realises_id.
  - apply realises_wire_str.
Qed.

(** Every method of [ByteWriter] and [WireEncoder] appends to the buffer
    exactly the bytes of the writer of [Codec] (or [Persistence]) that the
    encoders are written in, [f64] throwing where that has no result; and each
    validity switch accepts exactly the bytes that are codes of its type. *)
Theorem byte_writers_append :
  (forall v buf, ByteWriter.w_u8 v buf = buf ++ put_u8 v /\ ByteWriter.w_u16 v buf = buf ++ put_u16 v /\
     ByteWriter.w_u32 v buf = buf ++ put_u32 v /\ ByteWriter.w_u64 v buf = buf ++ put_u64 v) /\
  (forall d buf, ByteWriter.w_finite_f64 d buf = wapp (Some buf) (Persistence.w_f64 d) /\
     ByteWriter.w_any_f64 d buf = buf ++ put_f64 d) /\
  (forall s buf, ByteWriter.w_str s buf = buf ++ put_str s) /\
  (forall i buf, ByteWriter.w_id i buf = buf ++ put_id i) /\
  (forall b, state_ok b = enum_ok WarmthState b /\ dim_ok b = enum_ok DimensionStatus b /\
     category_ok b = enum_ok WarmthCategory b /\ residency_ok b = enum_ok ResidencyState b /\
     lifecycle_ok b = enum_ok Lifecycle b /\ provenance_ok b = enum_ok Provenance b /\
     dep_kind_ok b = enum_ok DependencyKind b).
Proof.
  split_and!; intros; split_and?;
    eauto using w_u16_app, w_u32_app, w_u64_app, w_f64_app, w_str_app; by apply one_of_enum.
Qed.

(** A failed read clears [ok_], except that of a string whose length is more
    than what is left: the position has then moved past the length. *)
Example ok_flag_cleared : r_u32 (cursor_at_start [1]) = (None, mkCursor [1] 0 false).
Proof. reflexivity. Qed.
Example ok_flag_kept : r_str (cursor_at_start [0; 0; 0; 9; 65]) = (None, mkCursor [0; 0; 0; 9; 65] 4 true).
Proof. reflexivity. Qed.
Example reads_in_place : r_str (mkCursor [7; 0; 0; 0; 2; 104; 105] 1 true) =
  (Some "hi"%string, mkCursor [7; 0; 0; 0; 2; 104; 105] 7 true).
Proof. reflexivity. Qed.
