(* ===== verification/Fabric.v ===== *)
(** * fabric.hpp, fabric.cpp: the in-process facade

    Every method is one critical section of the fabric's mutex, so it is a
    function on the state; [warm], which releases the mutex around the backend
    operation, is split into its two critical sections.  [snapshot] and
    [objects], which both take the mutex, are programs of a small locking
    monad.  [now_ms()] is an argument. *)

From Stdlib Require Import ZArith Lia String.
From stdpp Require Import base list numbers strings gmap fin_maps sorting.
From S2P Require Import Prelude Float64 Identity State Object Decay Budget Ledger Cost Policy Scheduler Explanation Codec Wire Persistence.
Local Open Scope Z_scope.
Local Open Scope warmth_scope.

(** [WarmthFabric::Config]. *)
Record Config := mkConfig {
  cfg_workload : WorkloadId;
  cfg_node : NodeId;
  cfg_device : string;
  cfg_backend : string;
  cfg_policy : WarmthPolicy;
  default_model_bytes : Z }.

Record Generations := mkGens {
  g_warmth : WarmthGeneration;
  g_dependency : DependencyGeneration;
  g_policy : PolicyGeneration }.

(** [WarmOperation]: success, duration and bytes of one backend operation. *)
Definition WarmOperation : Type := WarmthAction -> bool * double * Z.

Record WarmthFabric := mkFabric {
  cfg_ : Config;
  objects_ : gmap WarmthObjectId WarmthObject;
  budget_ : BudgetTracker;
  gen_ : Generations;
  op_ : option WarmOperation }.

Definition kDefaultWarmBytes : Z := Z.shiftl 1 30.

Definition synthetic_warm : WarmOperation := fun action =>
  (true, dadd (dlit 1 2) (dmul (dlit 1 4) (d_of_Z (enum_code action))), Z.shiftl 1 28).

Definition make_warm (why : string) (o : WarmthObject) : WarmthObject :=
  if decide (state_ o = WARM \/ state_ o = HOT) then o
  else
    let o := match transition PREPARING why o with
             | (true, o) => o
             | (false, o) => transition_ PREPARING why (transition_ COLD why o)
             end in
    clear_invalidation_reason (transition_ WARM why o).

Definition fabric_new (cfg : Config) : WarmthFabric :=
  mkFabric cfg ∅ (budget_new (budgets (cfg_policy cfg)))
    (mkGens (Gen 1) (Gen 1) (generation (cfg_policy cfg))) None.

(** A move leaves the strings, the containers and the function of its source in a
    state that the standard library does not specify; the numbers are copied. *)
Record Husk := mkHusk {
  husk_device : string;
  husk_backend : string;
  husk_objects : gmap WarmthObjectId WarmthObject;
  husk_reservations : gmap Z Res;
  husk_usage : gmap Z Z;
  husk_op : option WarmOperation }.

Definition moved_from (k : Husk) (o : WarmthFabric) : WarmthFabric :=
  mkFabric
    (mkConfig (cfg_workload (cfg_ o)) (cfg_node (cfg_ o)) (husk_device k) (husk_backend k) (cfg_policy (cfg_ o))
       (default_model_bytes (cfg_ o)))
    (husk_objects k)
    (mkTracker (limits_ (budget_ o)) (husk_reservations k) (husk_usage k) (next_id_ (budget_ o)))
    (gen_ o) (husk_op k).

(** Both moves, on the fabrics of a program by their addresses.  Neither takes
    the mutex. *)
Definition fabric_move (this o : nat) (k : Husk) (fs : gmap nat WarmthFabric) : gmap nat WarmthFabric :=
  match fs !! o with
  | Some f => <[this := f]> (<[o := moved_from k f]> fs)
  | None => fs
  end.
Definition fabric_move_assign (this o : nat) (k : Husk) (fs : gmap nat WarmthFabric) : gmap nat WarmthFabric :=
  if decide (this = o) then fs else fabric_move this o k fs.

(** Updates of one member. *)
Definition with_objects (f : WarmthFabric) m := mkFabric (cfg_ f) m (budget_ f) (gen_ f) (op_ f).
Definition with_budget (f : WarmthFabric) b := mkFabric (cfg_ f) (objects_ f) b (gen_ f) (op_ f).
Definition with_gens (f : WarmthFabric) g := mkFabric (cfg_ f) (objects_ f) (budget_ f) g (op_ f).
Definition put_object (o : WarmthObject) (f : WarmthFabric) : WarmthFabric :=
  with_objects f (<[id_ o := o]> (objects_ f)).

(** A handler that starts with [auto* o = find_locked(id); if (!o) return false;]
    and works on [*o] in place. *)
Definition on_object (id : WarmthObjectId) (h : WarmthObject -> bool * WarmthObject) (f : WarmthFabric)
  : bool * WarmthFabric :=
  match objects_ f !! id with
  | None => (false, f)
  | Some o => let '(r, o) := h o in (r, with_objects f (<[id := o]> (objects_ f)))
  end.

Definition register_object (category : WarmthCategory) (logical_owner : string) (model : option ModelId)
    (artifact : option ArtifactId) (replica : option ReplicaId) (engine : option EngineId) (f : WarmthFabric)
  : WarmthObjectId * WarmthFabric :=
  let id := derive (logical_owner +:+ "|" +:+ category_name category) in
  let c := cfg_ f in
  let o := new_object id category (cfg_workload c) (cfg_node c) (cfg_device c) (cfg_backend c) in
  let o := set_logical_owner logical_owner o in
  let o := set_if set_model model o in
  let o := set_if set_artifact artifact o in
  let o := set_if set_replica replica o in
  let o := set_if set_engine engine o in
  let o := set_warmth_generation (g_warmth (gen_ f)) o in
  (id, with_objects f (<[id := o]> (objects_ f))).

Definition upsert (obj : WarmthObject) (f : WarmthFabric) : WarmthFabric := put_object obj f.
Definition get (id : WarmthObjectId) (f : WarmthFabric) : option WarmthObject := objects_ f !! id.
Definition object_count (f : WarmthFabric) : nat := size (objects_ f).

Definition object_ids (f : WarmthFabric) : list WarmthObjectId := map fst (in_order (objects_ f)).

Definition fab_transition (id : WarmthObjectId) (to : WarmthState) (reason : string) : WarmthFabric -> bool * WarmthFabric :=
  on_object id (transition to reason).
Definition fab_set_dimension (id : WarmthObjectId) (i : DimensionIndex) (s : DimensionStatus)
  : WarmthFabric -> bool * WarmthFabric := on_object id (fun o => (true, set_dimension i s o)).
Definition fab_set_dimensions (id : WarmthObjectId) (d : WarmthDimensions) : WarmthFabric -> bool * WarmthFabric :=
  on_object id (fun o => (true, set_dimensions d o)).
Definition fab_mark_used (id : WarmthObjectId) (now : Z) : WarmthFabric -> bool * WarmthFabric :=
  on_object id (fun o => (true, mark_used now o)).

(** The device-local dimensions that do not survive. *)
Definition drop_ephemeral (o : WarmthObject) : WarmthObject :=
  set_dimension GraphReadiness D_COLD (set_dimension KernelReadiness D_COLD (set_dimension CudaContextReadiness D_COLD o)).

Definition invalidate_object (reason : InvalidationReason) (o : WarmthObject) : bool * WarmthObject :=
  if negb (transition_allowed (state_ o) INVALIDATED) then (false, o)
  else
    let o := set_invalidation_reason (invalidation_reason_text reason) o in
    let o := transition_ INVALIDATED "invalidation" o in
    (true, drop_ephemeral o).
Definition invalidate (id : WarmthObjectId) (reason : InvalidationReason) : WarmthFabric -> bool * WarmthFabric :=
  on_object id (invalidate_object reason).

Definition demote_object (o : WarmthObject) : bool * WarmthObject :=
  match state_ o with
  | HOT => transition WARM "demote" o
  | WARM => transition PARTIALLY_WARM "demote" o
  | PARTIALLY_WARM => transition COLD "demote" o
  | _ => (false, o)
  end.
Definition demote (id : WarmthObjectId) : WarmthFabric -> bool * WarmthFabric := on_object id demote_object.

Definition evict_object (o : WarmthObject) : bool * WarmthObject :=
  match transition EVICTED "evict" o with
  | (false, o) => (false, o)
  | (true, o) =>
      let o := if decide (residency_ o = R_DEVICE_RESIDENT \/ residency_ o = R_MIRRORED)
               then set_residency R_HOST_ONLY o else o in
      (true, set_dimension AllocatorReadiness D_COLD (drop_ephemeral o))
  end.
Definition evict (id : WarmthObjectId) : WarmthFabric -> bool * WarmthFabric := on_object id evict_object.

(** ** warm *)

(** Phase 1: [None] is the early [return false]; otherwise the ids of the two
    reservations, the second of which may be 0. *)
Definition warm_begin (id : WarmthObjectId) (f : WarmthFabric) : option (Z * Z) * WarmthFabric :=
  match objects_ f !! id with
  | None => (None, f)
  | Some o =>
      let '(reservation, _, b) := reserve DEVICE_MEMORY kDefaultWarmBytes "warm" (budget_ f) in
      if reservation =? 0 then (None, with_budget f b)
      else
        let '(op_reservation, _, b) := reserve CONCURRENT_WARMING_OPS 1 "warm" b in
        if negb (transition_allowed (state_ o) PREPARING) then
          let b := release_ reservation b in
          let b := if op_reservation =? 0 then b else release_ op_reservation b in
          (None, with_budget f b)
        else
          let o := transition_ PREPARING "warming" o in
          (Some (reservation, op_reservation), with_budget (with_objects f (<[id := o]> (objects_ f))) b)
  end.

(** Phase 2: the operation, outside the lock. *)
Definition warm_run (action : WarmthAction) (f : WarmthFabric) : bool * double * Z :=
  default synthetic_warm (op_ f) action.

(** Phase 3 on the object; [t1] and [t2] are the two readings of the clock. *)
Definition warm_result (success : bool) (duration : double) (nbytes t1 t2 : Z) (o : WarmthObject)
  : bool * WarmthObject :=
  if success then
    let o := transition_ WARM "warm_completed" o in
    let o := clear_invalidation_reason o in
    let o := set_measured_cost_bytes nbytes o in
    let o := set_observed_ttr_ms duration o in
    let o := mark_used t2 (mark_prepared t1 o) in
    let o := set_provenance P_MEASURED o in
    (true, set_residency R_DEVICE_RESIDENT o)
  else (false, transition_ FAILED "warming_hook_failed" o).

Definition warm_end (id : WarmthObjectId) (rs : Z * Z) (r : bool * double * Z) (t1 t2 : Z) (f : WarmthFabric)
  : bool * WarmthFabric :=
  let '(reservation, op_reservation) := rs in
  let '(success, duration, nbytes) := r in
  let b := release_ reservation (budget_ f) in
  let b := if op_reservation =? 0 then b else release_ op_reservation b in
  on_object id (warm_result success duration nbytes t1 t2) (with_budget f b).

(** The whole call, when nothing runs in between. *)
Definition warm (id : WarmthObjectId) (action : WarmthAction) (t1 t2 : Z) (f : WarmthFabric) : bool * WarmthFabric :=
  match warm_begin id f with
  | (None, f) => (false, f)
  | (Some rs, f) => warm_end id rs (warm_run action f) t1 t2 f
  end.

Definition dims_all_valid : WarmthDimensions :=
  mkDims D_VALID D_VALID D_VALID D_VALID D_VALID D_VALID D_VALID D_VALID D_VALID D_VALID D_VALID D_VALID.

Definition warm_to_ready_object (o : WarmthObject) : bool * WarmthObject :=
  let o := set_dimensions dims_all_valid o in
  let o := make_warm "warm_to_ready" o in
  let o := set_provenance P_MEASURED (set_residency R_DEVICE_RESIDENT o) in
  (execution_ready o, o).
Definition warm_to_ready (id : WarmthObjectId) : WarmthFabric -> bool * WarmthFabric := on_object id warm_to_ready_object.

Definition budgets_balanced (f : WarmthFabric) : bool := balanced (budget_ f).
Definition budget_usage (kind : WarmthBudgetKind) (f : WarmthFabric) : Z := usage (budget_ f) kind.
Definition outstanding_reservations (f : WarmthFabric) : nat := outstanding (budget_ f).

Definition bump_dependency_generation (f : WarmthFabric) : WarmthFabric :=
  let g := gen_ f in with_gens f (mkGens (g_warmth g) (next (g_dependency g)) (g_policy g)).
Definition bump_warmth_generation (f : WarmthFabric) : WarmthFabric :=
  let g := gen_ f in with_gens f (mkGens (next (g_warmth g)) (g_dependency g) (g_policy g)).

(** The loop visits every object once and each turn touches only its own. *)
Definition fab_decay (now : Z) (memory_pressure dependency_changed device_reset process_restart : bool)
    (f : WarmthFabric) : WarmthFabric :=
  with_objects f
    (decay_apply (decay (cfg_policy (cfg_ f))) now memory_pressure dependency_changed device_reset process_restart
       <$> objects_ f).

(** ** Planning and explanations *)

Definition default_action_for (o : WarmthObject) (cost : ReadinessCost) : WarmthAction :=
  let cold i := bool_decide (dimension o i = D_COLD) in
  if cold ModelResidency && (0 <? bytes_to_transfer (estimated cost)) then TRANSFER_HOST_DEVICE
  else if cold KernelReadiness then PREPARE_KERNEL
  else if cold GraphReadiness then INSTANTIATE_GRAPH
  else if cold CudaContextReadiness then INIT_CUDA_CONTEXT
  else if cold EngineReadiness then INIT_ENGINE
  else if cold AllocatorReadiness then PREPARE_ALLOCATOR
  else INIT_ENGINE.

Definition fab_preference (o : WarmthObject) : WarmthPreference :=
  let half := dlit 1 2 in
  mkPref half
    (if execution_ready o then dlit 8 10 else dlit 3 10)
    (if decide (category_ o = EXECUTION_GRAPHS) then dlit 9 10 else half)
    (if decide (category_ o = MODEL_WEIGHTS) then dlit 8 10 else half)
    half half half
    (if decide (dimension o ModelResidency = D_COLD) then dlit 7 10 else dlit 2 10)
    (if decide (state_ o = PARTIALLY_WARM) then dlit 4 10 else dlit 2 10)
    (if decide (dimension o LocalDependencyReadiness = D_VALID) then done1 else half)
    (if decide (level o = L_PARTIAL) then dlit 6 10 else dzero)
    (if execution_ready o then dlit 9 10 else if decide (state_ o = PARTIALLY_WARM) then half else dlit 3 10)
    done1 (id_ o).

Definition fab_candidate (f : WarmthFabric) (o : WarmthObject) : Candidate :=
  let cost := estimate o (default_model_bytes (cfg_ f)) in
  mkCand (id_ o) (fab_preference o) (expected_ttfu_ms cost) (default_action_for o cost).

(** [None]: the behaviour is undefined. *)
Definition plan (f : WarmthFabric) : option WarmthPlan :=
  build (cfg_policy (cfg_ f)) (cfg_workload (cfg_ f)) Id128_zero
    (map (fun kv => fab_candidate f kv.2) (in_order (objects_ f))).

Definition missing_text (o : WarmthObject) : string :=
  let d := dims_ o in
  let need s name := if decide (s = D_VALID) then "" else name in
  let s := need (model_residency d) " model_weights" +:+ need (kernel_readiness d) " kernels" +:+
           need (graph_readiness d) " graphs" +:+ need (cuda_context_readiness d) " cuda_context" +:+
           need (allocator_readiness d) " allocator" +:+ need (engine_readiness d) " engine" in
  if decide (s = "") then "none" else s.

(** [None] is the default-constructed explanation of an unknown object. *)
Definition explain (id : WarmthObjectId) (f : WarmthFabric) : option ReadinessExplanation :=
  o ← objects_ f !! id;
  let cost := estimate o (default_model_bytes (cfg_ f)) in
  Some (mkReadiness (id_ o) (category_ o) (state_ o) (object_composite_level o)
    (map (fun i => mkDimReadiness i (dimension o i)) enum_all) cost (execution_ready o)
    (default "" (invalidation_reason_ o)) "" (g_policy (gen_ f)) (residency_name (residency_ o))
    (action_name (default_action_for o cost)) [] "score_desc_then_id_asc" "" "" "" "" (missing_text o)
    (observed_ttr_ms_ o) dzero).

Definition explain_plan (f : WarmthFabric) : option PlanExplanation :=
  p ← plan f; Some (mkPlanExpl (plan_workload p) (plan_replica p) (policy_generation p) (tie_break p) (steps p)).

Definition cost_of (id : WarmthObjectId) (f : WarmthFabric) : ReadinessCost :=
  match objects_ f !! id with
  | None => mkReadinessCost CK_ESTIMATED cost_zero cost_zero dzero dzero
  | Some o => estimate o (default_model_bytes (cfg_ f))
  end.

(** ** The mutex

    A program that may take the (non-recursive) mutex: given whether the
    calling thread holds it already, it gives its result, or [None] when it
    blocks for ever. *)
Definition locked (A : Type) : Type := bool -> WarmthFabric -> option (A * WarmthFabric).
Definition lock_guard {A} (body : locked A) : locked A := fun held f => if held then None else body true f.

Definition objects : locked (list WarmthObject) :=
  lock_guard (fun _ f => Some (map snd (in_order (objects_ f)), f)).

(** The assignments of [snapshot], given what [objects] returned; the method
    itself never gets that far (see [snapshot_self_deadlock]). *)
Definition snapshot_of (objs : list WarmthObject) (f : WarmthFabric) : Snapshot :=
  mkSnapshot 1 (Gen 1) (g_warmth (gen_ f)) (g_dependency (gen_ f)) (g_policy (gen_ f)) (cfg_policy (cfg_ f)) objs.

Definition snapshot : locked Snapshot :=
  lock_guard (fun held f =>
    match objects held f with
    | Some (objs, f) => Some (snapshot_of objs f, f)
    | None => None
    end).

(** ** Recovery *)
Definition recover_object (o : WarmthObject) : WarmthObject :=
  let o := if is_execution_ready (state_ o) || bool_decide (state_ o = HOT)
           then transition_ DISCOVERED "restart_revalidation" o else o in
  let o := set_invalidation_reason "restart_revalidation_required" o in
  let o := set_dimension AllocatorReadiness D_COLD (drop_ephemeral o) in
  set_provenance P_REPORTED o.

(** From a snapshot that was loaded ([Storage] has the loading). *)
Definition recover (snap : Snapshot) (f : WarmthFabric) : WarmthFabric :=
  let c := cfg_ f in
  mkFabric
    (mkConfig (cfg_workload c) (cfg_node c) (cfg_device c) (cfg_backend c) (policy snap) (default_model_bytes c))
    (fold_left (fun m o => let o := recover_object o in <[id_ o := o]> m) (Persistence.objects snap) ∅)
    (budget_new (budgets (policy snap)))
    (mkGens (next (warmth_generation snap)) (next (dependency_generation snap)) (next (snap_policy_generation snap)))
    (op_ f).

(** ** Concurrent histories

    The atomic calls, and the interleavings of any number of [warm] calls with
    them: a pending warm is one that is between its two critical sections. *)
Inductive call :=
  | CRegister (category : WarmthCategory) (owner : string) (m : option ModelId) (a : option ArtifactId)
      (r : option ReplicaId) (e : option EngineId)
  | CUpsert (o : WarmthObject)
  | CTransition (id : WarmthObjectId) (to : WarmthState) (reason : string)
  | CSetDimension (id : WarmthObjectId) (i : DimensionIndex) (s : DimensionStatus)
  | CSetDimensions (id : WarmthObjectId) (d : WarmthDimensions)
  | CMarkUsed (id : WarmthObjectId) (now : Z)
  | CInvalidate (id : WarmthObjectId) (reason : InvalidationReason)
  | CDemote (id : WarmthObjectId)
  | CEvict (id : WarmthObjectId)
  | CWarmToReady (id : WarmthObjectId)
  | CDecay (now : Z) (mp dc dr pr : bool)
  | CBumpDependency
  | CBumpWarmth
  | CRecover (snap : Snapshot).

Definition apply_call (c : call) (f : WarmthFabric) : WarmthFabric :=
  match c with
  | CRegister cat owner m a r e => (register_object cat owner m a r e f).2
  | CUpsert o => upsert o f
  | CTransition id to reason => (fab_transition id to reason f).2
  | CSetDimension id i s => (fab_set_dimension id i s f).2
  | CSetDimensions id d => (fab_set_dimensions id d f).2
  | CMarkUsed id now => (fab_mark_used id now f).2
  | CInvalidate id reason => (invalidate id reason f).2
  | CDemote id => (demote id f).2
  | CEvict id => (evict id f).2
  | CWarmToReady id => (warm_to_ready id f).2
  | CDecay now mp dc dr pr => fab_decay now mp dc dr pr f
  | CBumpDependency => bump_dependency_generation f
  | CBumpWarmth => bump_warmth_generation f
  | CRecover snap => recover snap f
  end.

Record pending := mkPending { p_id : WarmthObjectId; p_res : Z; p_op : Z }.

(** The counters have room for two more reservations. *)
Definition room (b : BudgetTracker) : Prop :=
  next_id_ b + 2 < 2 ^ 64 /\ usage b DEVICE_MEMORY + kDefaultWarmBytes < 2 ^ 64 /\
  usage b CONCURRENT_WARMING_OPS + 1 < 2 ^ 64.
#[export] Instance room_dec b : Decision (room b).
Proof. unfold room. apply _. Defined.

(** A recovery starts from a snapshot that was decoded, and no warm is in flight:
    it replaces the tracker in which the warms in flight hold their reservations
    (see [recover_breaks_accounting]). *)
Definition call_ok (c : call) : Prop := match c with CRecover snap => snapshot_wf snap | _ => True end.
Definition call_fits (c : call) (ps : list pending) : Prop :=
  call_ok c /\ match c with CRecover _ => ps = [] | _ => True end.

(** [allow c] says which atomic calls occur in the histories considered. *)
Inductive fab_reach (allow : call -> Prop) (cfg : Config) : WarmthFabric -> list pending -> Prop :=
  | fr_new : fab_reach allow cfg (fabric_new cfg) []
  | fr_call f ps c : fab_reach allow cfg f ps -> allow c -> call_fits c ps -> fab_reach allow cfg (apply_call c f) ps
  | fr_begin f ps id res op f' :
      fab_reach allow cfg f ps -> room (budget_ f) -> warm_begin id f = (Some (res, op), f') ->
      fab_reach allow cfg f' (mkPending id res op :: ps)
  | fr_refused f ps id f' :
      fab_reach allow cfg f ps -> room (budget_ f) -> warm_begin id f = (None, f') -> fab_reach allow cfg f' ps
  | fr_end f ps1 p ps2 r t1 t2 :
      fab_reach allow cfg f (ps1 ++ p :: ps2) ->
      fab_reach allow cfg (warm_end (p_id p) (p_res p, p_op p) r t1 t2 f).2 (ps1 ++ ps2).

(** ** Lemmas: the budget *)

(** The reservations that a pending warm holds. *)
Definition warm_entries (p : pending) : ledger :=
  (p_res p, mkRes DEVICE_MEMORY kDefaultWarmBytes "warm") ::
  if p_op p =? 0 then [] else [(p_op p, mkRes CONCURRENT_WARMING_OPS 1 "warm")].
Definition warm_ledger (ps : list pending) : ledger := concat (map warm_entries ps).

Lemma on_object_budget id h f : budget_ (on_object id h f).2 = budget_ f.
Proof. unfold on_object. destruct (_ !! _) as [o|]; [|done]. by destruct (h o). Qed.

Lemma on_object_gens id h f : gen_ (on_object id h f).2 = gen_ f.
Proof. unfold on_object. destruct (_ !! _) as [o|]; [|done]. by destruct (h o). Qed.

Lemma on_object_dom id h f : dom (objects_ (on_object id h f).2) = dom (objects_ f).
Proof.
  unfold on_object. destruct (objects_ f !! id) as [o|] eqn:Ho; [|done]. destruct (h o) as [r o'].
  cbn [snd with_objects objects_]. rewrite dom_insert_L. apply elem_of_dom_2 in Ho. set_solver.
Qed.

Lemma on_object_cfg id h f : cfg_ (on_object id h f).2 = cfg_ f.
Proof. unfold on_object. destruct (_ !! _) as [o|]; [|done]. by destruct (h o). Qed.

(** A call other than a recovery leaves the budget and the configuration alone. *)
Lemma apply_call_budget c f : (forall snap, c <> CRecover snap) ->
  budget_ (apply_call c f) = budget_ f /\ cfg_ (apply_call c f) = cfg_ f.
Proof.
  intros Hc. destruct c; cbn [apply_call]; try (split; [apply on_object_budget|apply on_object_cfg]); try done.
  by destruct (Hc snap).
Qed.

Lemma is_recovery c : (exists snap, c = CRecover snap) \/ ~ exists snap, c = CRecover snap.
Proof. destruct c; try (right; by intros [? ?]). left. by eexists. Qed.

Lemma policy_limits_wf p : policy_wf p -> limits_wf (budgets p).
Proof.
  intros (_ & _ & H & _). unfold budget_fields in H. repeat apply Forall_cons in H as [? H]. by intros [].
Qed.

(** A fabric that is moved keeps its history, the warms in progress included;
    assigning a fabric to itself changes nothing. *)
Lemma fabric_move_reach allow cfg f ps this o k fs : fab_reach allow cfg f ps -> fs !! o = Some f ->
  exists f', fabric_move this o k fs !! this = Some f' /\ fab_reach allow cfg f' ps.
Proof. intros Hf Ho. exists f. unfold fabric_move. by rewrite Ho, lookup_insert_eq. Qed.

Lemma fabric_move_assign_self o k fs : fabric_move_assign o o k fs = fs.
Proof. unfold fabric_move_assign. by rewrite decide_True. Qed.

(** A warm that began before the move and ends on the source, which is left
    without objects and reservations, releases and changes nothing there: the
    amounts stay taken in the fabric it was moved to. *)
Lemma warm_end_after_move k f id ro r t1 t2 : husk_objects k = ∅ -> husk_reservations k = ∅ ->
  warm_end id ro r t1 t2 (moved_from k f) = (false, moved_from k f).
Proof.
  intros Ho Hr. destruct ro as [res op], r as [[su d] nb]. unfold warm_end.
  assert (forall i, release_ i (budget_ (moved_from k f)) = budget_ (moved_from k f)) as E.
  { intros i. unfold release_, release. destruct (i =? 0); [done|]. cbn [moved_from budget_ reservations_].
    by rewrite Hr, lookup_empty. }
  rewrite !E. destruct (op =? 0); cbn zeta; unfold on_object; cbn [with_budget moved_from objects_]; by rewrite Ho, lookup_empty.
Qed.

Lemma kDefault_pos : 0 < kDefaultWarmBytes.
Proof. reflexivity. Qed.

(** What phase 1 does to the budget. *)
Lemma warm_begin_budget id f l : holds (budget_ f) l -> room (budget_ f) ->
  match warm_begin id f with
  | (None, f') => holds (budget_ f') l /\ objects_ f' = objects_ f
  | (Some (res, op), f') =>
      holds (budget_ f') (warm_entries (mkPending id res op) ++ l) /\ 0 < res /\
      exists o, objects_ f !! id = Some o /\ transition_allowed (state_ o) PREPARING = true /\
        objects_ f' = <[id := transition_ PREPARING "warming" o]> (objects_ f)
  end /\ gen_ (warm_begin id f).2 = gen_ f /\ cfg_ (warm_begin id f).2 = cfg_ f /\
  limits_ (budget_ (warm_begin id f).2) = limits_ (budget_ f) /\
  forall k, within_limit (budget_ f) k -> within_limit (budget_ (warm_begin id f).2) k.
Proof.
  intros Hb (Hn & Hu & Hc). unfold warm_begin. destruct (objects_ f !! id) as [o|] eqn:Ho; [|done].
  assert (op_fine (BReserve DEVICE_MEMORY kDefaultWarmBytes "warm") (budget_ f)) as Hf1 by (split_and!; [done|lia|lia]).
  pose proof (holds_reserve _ _ Hb DEVICE_MEMORY kDefaultWarmBytes "warm" Hf1 kDefault_pos) as H1.
  destruct (reserve DEVICE_MEMORY _ _ _) as [[res e1] b1].
  destruct H1 as [(-> & -> & _)|(Hres & Hfresh & Hb1 & Hn1 & Hl1 & Hw1)]; [by destruct f|].
  rewrite (proj2 (Z.eqb_neq res 0)) by lia.
  assert (usage b1 CONCURRENT_WARMING_OPS = usage (budget_ f) CONCURRENT_WARMING_OPS) as Hu1
    by by rewrite (holds_usage _ _ Hb1), (holds_usage _ _ Hb).
  assert (op_fine (BReserve CONCURRENT_WARMING_OPS 1 "warm") b1) as Hf2 by (split_and!; [done|lia|lia]).
  pose proof (holds_reserve _ _ Hb1 CONCURRENT_WARMING_OPS 1 "warm" Hf2 ltac:(lia)) as H2.
  destruct (reserve CONCURRENT_WARMING_OPS _ _ b1) as [[op e2] b2].
  destruct H2 as [(-> & -> & _)|(Hop & Hfresh2 & Hb2 & Hn2 & Hl2 & Hw2)].
  - cbn [Z.eqb]. destruct (transition_allowed (state_ o) PREPARING) eqn:Ht; cbn [negb snd with_budget with_objects budget_].
    + split_and!; try done. by exists o.
    + split_and!; try done; [by eapply holds_release|by rewrite release_limits|].
      intros k Hk. eapply holds_release_within; [done|by apply Hw1].
  - rewrite (proj2 (Z.eqb_neq op 0)) by lia.
    assert (holds b2 ((res, mkRes DEVICE_MEMORY kDefaultWarmBytes "warm") ::
                      (op, mkRes CONCURRENT_WARMING_OPS 1 "warm") :: l)) as Hb2'
      by (eapply holds_perm; [apply perm_swap|exact Hb2]).
    destruct (transition_allowed (state_ o) PREPARING) eqn:Ht; cbn [negb snd with_budget with_objects budget_].
    + split_and!; try done; [|by exists o|by rewrite Hl2|by auto]. unfold warm_entries. cbn [p_res p_op].
      by rewrite (proj2 (Z.eqb_neq op 0)) by lia.
    + apply holds_release in Hb2' as Hb3. apply holds_release in Hb3 as Hb4.
      split_and!; try done; [by rewrite !release_limits, Hl2|].
      intros k Hk. eapply holds_release_within; [done|]. eapply holds_release_within; [done|]. auto.
Qed.

Lemma warm_end_budget p r t1 t2 f l : holds (budget_ f) (warm_entries p ++ l) ->
  holds (budget_ (warm_end (p_id p) (p_res p, p_op p) r t1 t2 f).2) l /\
  limits_ (budget_ (warm_end (p_id p) (p_res p, p_op p) r t1 t2 f).2) = limits_ (budget_ f) /\
  forall k, within_limit (budget_ f) k ->
    within_limit (budget_ (warm_end (p_id p) (p_res p, p_op p) r t1 t2 f).2) k.
Proof.
  intros Hb. destruct r as [[s d] n]. unfold warm_end. rewrite on_object_budget. cbn [with_budget budget_].
  unfold warm_entries in Hb. apply holds_release in Hb as Hb1.
  assert (forall k, within_limit (budget_ f) k -> within_limit (release_ (p_res p) (budget_ f)) k) as Hw
    by (intros; by eapply holds_release_within).
  destruct (p_op p =? 0); [split_and!; [done|by rewrite release_limits|done]|].
  split_and!; [by apply holds_release in Hb1|by rewrite !release_limits|].
  intros k Hk. eapply holds_release_within; [done|auto].
Qed.

Lemma warm_ledger_middle ps1 p ps2 : warm_ledger (ps1 ++ p :: ps2) ≡ₚ warm_entries p ++ warm_ledger (ps1 ++ ps2).
Proof.
  unfold warm_ledger. rewrite !map_app, !concat_app. cbn [map concat].
  rewrite !app_assoc. by rewrite (Permutation_app_comm (concat _) (warm_entries p)).
Qed.

Lemma warm_end_cfg id rs r t1 t2 f : cfg_ (warm_end id rs r t1 t2 f).2 = cfg_ f.
Proof. destruct rs, r as [[? ?] ?]. unfold warm_end. by rewrite on_object_cfg. Qed.

Lemma new_within limits k : limits_wf limits -> within_limit (budget_new limits) k.
Proof. intros H. right. specialize (H k). unfold uint in H. change (usage (budget_new limits) k) with 0. apply H. Qed.

Lemma fab_reach_holds allow cfg f ps : fab_reach allow cfg f ps ->
  holds (budget_ f) (warm_ledger ps) /\ limits_ (budget_ f) = budgets (cfg_policy (cfg_ f)) /\
  (limits_wf (budgets (cfg_policy cfg)) -> forall k, within_limit (budget_ f) k).
Proof.
  induction 1 as [|f ps c H (IH & Hl & Hp) _ [Hok Hc]|f ps id res op f' H (IH & Hl & Hp) Hr Hw|f ps id f' H (IH & Hl & Hp) Hr Hw
    |f ps1 p ps2 r t1 t2 H (IH & Hl & Hp)].
  - split_and!; [apply holds_new|done|]. intros Hlim k. by apply new_within.
  - destruct (is_recovery c) as [[snap ->]|Hne].
    + rewrite Hc. split_and!; [apply holds_new|done|]. intros _ k. apply new_within, policy_limits_wf, (sw_policy _ Hok).
    + destruct (apply_call_budget c f) as [-> ->]; [|done]. intros snap ->. destruct Hne. by exists snap.
  - pose proof (warm_begin_budget id f _ IH Hr) as Hb. rewrite Hw in Hb. destruct Hb as ((? & ? & _) & _ & Hcf & Hl' & Hk).
    cbn in Hcf, Hl', Hk. rewrite Hcf. split_and!; [done|congruence|auto].
  - pose proof (warm_begin_budget id f _ IH Hr) as Hb. rewrite Hw in Hb. destruct Hb as ((? & _) & _ & Hcf & Hl' & Hk).
    cbn in Hcf, Hl', Hk. rewrite Hcf. split_and!; [done|congruence|auto].
  - eapply holds_perm in IH; [|apply warm_ledger_middle].
    eapply (warm_end_budget p r t1 t2) in IH as (? & Hl' & Hk). rewrite warm_end_cfg. split_and!; [done|congruence|auto].
Qed.

Lemma warm_ledger_sum k ps : ledger_sum k (warm_ledger ps) =
  match k with
  | DEVICE_MEMORY => kDefaultWarmBytes * Z.of_nat (length ps)
  | CONCURRENT_WARMING_OPS => Z.of_nat (length (List.filter (fun p => negb (p_op p =? 0)) ps))
  | _ => 0
  end.
Proof.
  induction ps as [|p ps IH]; [by destruct k|].
  change (warm_ledger (p :: ps)) with (warm_entries p ++ warm_ledger ps). rewrite ledger_sum_app, IH. cbn [List.filter length].
  unfold warm_entries, ledger_sum, res_share. generalize kDefaultWarmBytes. intros n.
  destruct (p_op p =? 0), k; cbn -[Z.of_nat Z.mul]; rewrite ?Nat2Z.inj_succ; repeat case_decide; try done; lia.
Qed.

Lemma warm_ledger_empty ps : warm_ledger ps = [] <-> ps = [].
Proof. destruct ps as [|p ps]; [done|]. by split. Qed.

(** ** Lemmas: the objects *)

(** An invariant of the stored objects, each under its key. *)
Definition stored (P : WarmthObjectId -> WarmthObject -> Prop) (f : WarmthFabric) : Prop := map_Forall P (objects_ f).

Lemma on_object_stored P id h f :
  (forall o, P id o -> P id (h o).2) -> stored P f -> stored P (on_object id h f).2.
Proof.
  intros Hh Hf. unfold on_object. destruct (objects_ f !! id) as [o|] eqn:Ho; [|done].
  specialize (Hh o (Hf id o Ho)). destruct (h o) as [r o']. cbn. by apply map_Forall_insert_2.
Qed.

Lemma decay_stored P now mp dc dr pr f :
  (forall id o, P id o -> P id (decay_apply (decay (cfg_policy (cfg_ f))) now mp dc dr pr o)) ->
  stored P f -> stored P (fab_decay now mp dc dr pr f).
Proof.
  intros Hd Hf id o. cbn. rewrite lookup_fmap, fmap_Some. intros (o' & Ho & ->). apply Hd. by apply Hf.
Qed.

(** Histories keep an invariant that every handler keeps. *)
Section history.
Variables (P : WarmthObjectId -> WarmthObject -> Prop) (allow : call -> Prop) (cfg : Config).
Hypotheses (P_call : forall c f, allow c -> call_ok c -> stored P f -> stored P (apply_call c f))
  (P_begin : forall id o, P id o -> transition_allowed (state_ o) PREPARING = true -> P id (transition_ PREPARING "warming" o))
  (P_end : forall id o s d n t1 t2, P id o -> P id (warm_result s d n t1 t2 o).2).

Lemma fab_reach_stored f ps : fab_reach allow cfg f ps -> stored P f.
Proof.
  intros H. induction H as [|f ps c H IH Hc [Hok _]|f ps id res op f' H IH Hr Hw|f ps id f' H IH Hr Hw|f ps1 p ps2 r t1 t2 H IH].
  - apply map_Forall_empty.
  - by apply P_call.
  - destruct (fab_reach_holds _ _ _ _ H) as (Hb & _).
    pose proof (warm_begin_budget id f _ Hb Hr) as Hs. rewrite Hw in Hs. destruct Hs as ((_ & _ & o & Ho & Ht & E) & _).
    unfold stored. rewrite E. apply map_Forall_insert_2; [|done]. apply P_begin; [by apply IH|done].
  - destruct (fab_reach_holds _ _ _ _ H) as (Hb & _).
    pose proof (warm_begin_budget id f _ Hb Hr) as Hs. rewrite Hw in Hs. destruct Hs as ((_ & E) & _).
    unfold stored. by rewrite E.
  - destruct r as [[s d] n]. apply on_object_stored; [|done]. intros o Ho. by apply P_end.
Qed.
End history.

(** *** Recovery *)

Lemma recover_object_state o :
  state_ (recover_object o) = if decide (state_ o = WARM) then DISCOVERED else state_ o.
Proof.
  change (state_ (recover_object o)) with
    (state_ (if is_execution_ready (state_ o) || bool_decide (state_ o = HOT)
             then transition_ DISCOVERED "restart_revalidation" o else o)).
  destruct (state_ o) eqn:E; try exact E; 
    trans (state_ (transition_ DISCOVERED "restart_revalidation" o)); try reflexivity;
    rewrite transition_state, E; reflexivity.
Qed.

Lemma recover_object_id o : id_ (recover_object o) = id_ o.
Proof.
  change (id_ (recover_object o)) with
    (id_ (if is_execution_ready (state_ o) || bool_decide (state_ o = HOT)
          then transition_ DISCOVERED "restart_revalidation" o else o)).
  destruct (_ || _); [apply transition_id|done].
Qed.

Lemma recover_fold l (m : gmap WarmthObjectId WarmthObject) : NoDup (map id_ l) ->
  forall id, fold_left (fun m o => let o := recover_object o in <[id_ o := o]> m) l m !! id =
    match List.find (fun o => bool_decide (id_ o = id)) l with
    | Some o => Some (recover_object o) | None => m !! id end.
Proof.
  revert m. induction l as [|o l IH]; intros m Hnd id; [done|]. cbn [map] in Hnd. apply NoDup_cons in Hnd as [Hid Hnd].
  cbn [fold_left List.find]. rewrite IH by done. rewrite recover_object_id.
  destruct (bool_decide_reflect (id_ o = id)) as [<-|Hne].
  - destruct (List.find _ l) as [o'|] eqn:Hf; [|by rewrite lookup_insert_eq].
    apply find_some in Hf as [Hin He]. apply bool_decide_eq_true in He. destruct Hid.
    rewrite <- He. apply (list_elem_of_fmap_2 id_). by apply list_elem_of_In.
  - destruct (List.find _ l); [done|]. by rewrite lookup_insert_ne.
Qed.

(** *** Keys are ids *)
Definition keyed (id : WarmthObjectId) (o : WarmthObject) : Prop := id_ o = id.

Lemma decay_apply_id p now mp dc dr pr o : id_ (decay_apply p now mp dc dr pr o) = id_ o.
Proof. unfold decay_apply. destruct (dr_changed _); [apply transition_id|done]. Qed.

Lemma make_warm_id why o : id_ (make_warm why o) = id_ o.
Proof.
  unfold make_warm. destruct (decide _); [done|]. cbn. unfold transition.
  destruct (transition_allowed (state_ o) PREPARING); cbn; by rewrite ?transition_id.
Qed.

Lemma demote_object_id o : id_ (demote_object o).2 = id_ o.
Proof. unfold demote_object. by destruct (state_ o); try apply (transition_id _ "demote"). Qed.

Lemma evict_object_id o : id_ (evict_object o).2 = id_ o.
Proof. unfold evict_object, transition. destruct (transition_allowed _ _); [|done]. by destruct (decide _). Qed.

Lemma invalidate_object_id reason o : id_ (invalidate_object reason o).2 = id_ o.
Proof.
  unfold invalidate_object. destruct (negb _); [done|].
  change (id_ (transition_ INVALIDATED "invalidation" (set_invalidation_reason (invalidation_reason_text reason) o)) = id_ o).
  by rewrite transition_id.
Qed.

Lemma warm_to_ready_object_id o : id_ (warm_to_ready_object o).2 = id_ o.
Proof.
  change (id_ (make_warm "warm_to_ready" (set_dimensions dims_all_valid o)) = id_ o). by rewrite make_warm_id.
Qed.

Lemma warm_result_id s d n t1 t2 o : id_ (warm_result s d n t1 t2 o).2 = id_ o.
Proof.
  unfold warm_result. destruct s; [|apply transition_id].
  change (id_ (transition_ WARM "warm_completed" o) = id_ o). apply transition_id.
Qed.

Lemma apply_call_keyed c f : call_ok c -> stored keyed f -> stored keyed (apply_call c f).
Proof.
  intros Hok Hf. unfold keyed in *. destruct c; cbn [apply_call]; try done; try (apply on_object_stored; [|done]; intros o' <-).
  - apply map_Forall_insert_2; [|done]. cbn. by destruct m, a, r, e.
  - by apply map_Forall_insert_2.
  - apply transition_id.
  - done.
  - done.
  - done.
  - apply invalidate_object_id.
  - apply demote_object_id.
  - apply evict_object_id.
  - apply warm_to_ready_object_id.
  - apply decay_stored; [|done]. intros id o <-. apply decay_apply_id.
  - intros id o. cbn [recover objects_]. rewrite recover_fold by apply (sw_ids _ Hok).
    destruct (List.find _ _) as [o'|] eqn:E; [|by rewrite lookup_empty]. intros [= <-].
    apply find_some in E as [_ Hk%bool_decide_eq_true]. by rewrite recover_object_id.
Qed.

Lemma fab_reach_keyed allow cfg f ps : fab_reach allow cfg f ps -> stored keyed f.
Proof.
  apply fab_reach_stored; [by intros; apply apply_call_keyed| |]; unfold keyed.
  - intros id o <- _. apply transition_id.
  - intros id o s d n t1 t2 <-. apply warm_result_id.
Qed.

(** *** A ready object carries no invalidation *)
Definition clean (_ : WarmthObjectId) (o : WarmthObject) : Prop :=
  execution_ready o = true -> invalidation_reason_ o = None.

(** The calls that follow the lifecycle: not the unguarded store of a whole
    object, not the raw transition, which leaves the reason to its caller, and not
    a recovery, which keeps HOT objects ready with the reason set. *)
Definition lifecycle_call (c : call) : Prop :=
  match c with CUpsert _ | CTransition _ _ _ | CRecover _ => False | _ => True end.

Lemma clean_not_ready id o : execution_ready o = false -> clean id o.
Proof. unfold clean. by intros ->. Qed.

Lemma clean_none id o : invalidation_reason_ o = None -> clean id o.
Proof. by intros ? ?. Qed.

(** A guarded transition to a state that is not ready, or from a ready one. *)
Lemma transition_clean id to r o :
  clean id o -> (is_execution_ready to = true -> execution_ready o = true) -> clean id (transition_ to r o).
Proof.
  intros Hc Hto. unfold clean, execution_ready in *. rewrite transition_state, transition_inv.
  destruct (transition_allowed _ _); auto.
Qed.

Lemma decay_apply_clean id p now mp dc dr pr o : clean id o -> clean id (decay_apply p now mp dc dr pr o).
Proof.
  intros Hc. unfold decay_apply. destruct (decay_object_step o p now mp dc dr pr) as [[-> Hs]|[-> _]]; [|done].
  apply transition_clean; [done|]. intros Hr. destruct (decay_step_not_ready _ _ Hs Hr) as [E _].
  unfold execution_ready. by rewrite E.
Qed.

Lemma make_warm_clean id why o : clean id o -> clean id (make_warm why o).
Proof. intros Hc. unfold make_warm. destruct (decide _); [done|]. by apply clean_none. Qed.

Lemma demote_object_clean id o : clean id o -> clean id (demote_object o).2.
Proof.
  intros Hc. unfold demote_object. destruct (state_ o) eqn:E; try done;
    apply (transition_clean id _ "demote"); try done; intros _; unfold execution_ready; by rewrite E.
Qed.

Lemma evict_object_clean id o : clean id o -> clean id (evict_object o).2.
Proof.
  intros Hc. unfold evict_object, transition. destruct (transition_allowed _ _); [|done].
  apply clean_not_ready. by destruct (decide _).
Qed.

Lemma invalidate_object_clean id reason o : clean id o -> clean id (invalidate_object reason o).2.
Proof.
  intros Hc. unfold invalidate_object. destruct (transition_allowed (state_ o) INVALIDATED) eqn:E; [|done]. cbn [negb].
  apply clean_not_ready. unfold execution_ready, drop_ephemeral.
  change (is_execution_ready (state_ (transition_ INVALIDATED "invalidation"
    (set_invalidation_reason (invalidation_reason_text reason) o))) = false).
  rewrite transition_state.
  change (state_ (set_invalidation_reason (invalidation_reason_text reason) o)) with (state_ o). by rewrite E.
Qed.

Lemma warm_result_clean id s d n t1 t2 o : clean id o -> clean id (warm_result s d n t1 t2 o).2.
Proof.
  intros Hc. unfold warm_result. destruct s; [by apply clean_none|]. by apply transition_clean.
Qed.

Lemma apply_call_clean c f : lifecycle_call c -> stored clean f -> stored clean (apply_call c f).
Proof.
  intros Hl Hf. destruct c; cbn [apply_call]; try done; try (apply on_object_stored; [|done]; intros o' Ho').
  - apply map_Forall_insert_2; [|done]. apply clean_not_ready. by destruct m, a, r, e.
  - done.
  - done.
  - done.
  - by apply invalidate_object_clean.
  - by apply demote_object_clean.
  - by apply evict_object_clean.
  - exact (make_warm_clean id "warm_to_ready" (set_dimensions dims_all_valid o') Ho').
  - apply decay_stored; [|done]. intros. by apply decay_apply_clean.
Qed.

Lemma fab_reach_clean cfg f ps : fab_reach lifecycle_call cfg f ps -> stored clean f.
Proof.
  apply fab_reach_stored; [by intros; apply apply_call_clean|by intros; apply transition_clean|by intros; apply warm_result_clean].
Qed.

(** ** Properties *)

(** C15: no reservation leaks, whatever the interleaving: in every history of
    atomic calls and overlapping warms, with recoveries while no warm is in
    flight, each warm in flight holds exactly one gibibyte of device memory, the
    tracker is balanced exactly when no warm is in flight, the tracker has the
    limits of the policy in force, and a limit on device memory is never
    exceeded. *)
Theorem fabric_budget_conserved (allow : call -> Prop) (cfg : Config) (f : WarmthFabric) (ps : list pending) :
  limits_wf (budgets (cfg_policy cfg)) -> fab_reach allow cfg f ps ->
  budget_usage DEVICE_MEMORY f = kDefaultWarmBytes * Z.of_nat (length ps) /\
  budget_usage CONCURRENT_WARMING_OPS f = Z.of_nat (length (List.filter (fun p => negb (p_op p =? 0)) ps)) /\
  (budgets_balanced f = true <-> ps = []) /\
  limits_ (budget_ f) = budgets (cfg_policy (cfg_ f)) /\
  (limits_get DEVICE_MEMORY (budgets (cfg_policy (cfg_ f))) <> 0 ->
   kDefaultWarmBytes * Z.of_nat (length ps) <= limits_get DEVICE_MEMORY (budgets (cfg_policy (cfg_ f)))).
Proof.
  intros Hlim H. destruct (fab_reach_holds _ _ _ _ H) as (Hb & Hl & Hw). unfold budget_usage, budgets_balanced.
  rewrite !(holds_usage _ _ Hb), !warm_ledger_sum. split_and!; [done|done| |done|].
  - rewrite (holds_balanced _ _ Hb). apply warm_ledger_empty.
  - intros Hne. specialize (Hw Hlim DEVICE_MEMORY). unfold within_limit in Hw.
    rewrite Hl, (holds_usage _ _ Hb), warm_ledger_sum in Hw. destruct Hw; [done|lia].
Qed.

(** A fabric with one registered object and one warm in flight. *)
Definition cfg_example : Config :=
  mkConfig (mkId 0 2) (mkId 0 3) "cuda:0" "cuda" (defaults (Gen 1)) (Z.shiftl 1 30).
Definition fabric_registered : WarmthFabric :=
  apply_call (CRegister MODEL_WEIGHTS "m" None None None None) (fabric_new cfg_example).
Definition id_example : WarmthObjectId := derive ("m|" +:+ category_name MODEL_WEIGHTS).
Definition fabric_warming : WarmthFabric := (warm_begin id_example fabric_registered).2.

Lemma fabric_warming_reach :
  fab_reach lifecycle_call cfg_example fabric_warming [mkPending id_example 1 2].
Proof.
  apply (fr_begin _ _ fabric_registered); [apply fr_call; [apply fr_new|exact I|by split]| |vm_compute; reflexivity].
  apply (bool_decide_unpack _). by vm_compute.
Qed.

Lemma limits_default_wf : limits_wf limits_default.
Proof. intros []; done. Qed.

Lemma fabric_budget_conserved_witness :
  budget_usage DEVICE_MEMORY fabric_warming = 2 ^ 30 /\ budgets_balanced fabric_warming = false.
Proof.
  destruct (fabric_budget_conserved lifecycle_call cfg_example fabric_warming [mkPending id_example 1 2]
    limits_default_wf fabric_warming_reach) as (Hu & _ & Hb & _).
  split; [exact Hu|]. apply not_true_iff_false. by rewrite Hb.
Defined.

(** what a recovery does to a warm in flight.  A warm begins and holds the
    reservations 1 and 2; the fabric recovers; another warm begins and is given
    the same numbers by the new tracker.  When the first warm ends it releases
    those of the second: the tracker is balanced while a warm is in flight. *)
Theorem recover_breaks_accounting :
  let f1 := recover snapshot_example fabric_warming in
  let '(rs, f2) := warm_begin (mkId 0 1) f1 in
  let f3 := (warm_end id_example (1, 2) (true, dzero, 0) 5 6 f2).2 in
  rs = Some (1, 2) /\ budgets_balanced f2 = false /\ budgets_balanced f3 = true /\ budget_usage DEVICE_MEMORY f3 = 0.
Proof. vm_compute. split_and!; reflexivity. Qed.

(** an execution-ready object never carries an invalidation reason: in
    every history of lifecycle calls and overlapping warms, an object that was
    invalidated is ready again only after a preparation that cleared the
    reason; and every stored object sits under its own id. *)
Theorem ready_not_invalidated (cfg : Config) (f : WarmthFabric) (ps : list pending) (id : WarmthObjectId) (o : WarmthObject) :
  fab_reach lifecycle_call cfg f ps -> get id f = Some o ->
  id_ o = id /\ (execution_ready o = true -> invalidation_reason_ o = None).
Proof.
  intros H Ho. split; [by apply (fab_reach_keyed _ _ _ _ H)|]. exact (fab_reach_clean _ _ _ H id o Ho).
Qed.

Lemma ready_not_invalidated_witness :
  let f := (warm_end id_example (1, 2) (true, dzero, 0) 5 6 fabric_warming).2 in
  exists o, get id_example f = Some o /\ execution_ready o = true /\ invalidation_reason_ o = None.
Proof.
  assert (fab_reach lifecycle_call cfg_example
    (warm_end id_example (1, 2) (true, dzero, 0) 5 6 fabric_warming).2 []) as H
    by exact (fr_end _ _ fabric_warming [] (mkPending id_example 1 2) [] (true, dzero, 0) 5 6 fabric_warming_reach).
  eexists. split; [vm_compute; reflexivity|]. split; [reflexivity|].
  apply (ready_not_invalidated cfg_example _ [] id_example _ H); [vm_compute; reflexivity|reflexivity].
Defined.

(** [snapshot] never returns: it takes the mutex and then calls
    [objects], which takes the same non-recursive mutex; [objects] alone
    returns. *)
Theorem snapshot_self_deadlock (held : bool) (f : WarmthFabric) :
  snapshot held f = None /\ objects false f = Some (map snd (in_order (objects_ f)), f).
Proof. by destruct held. Qed.

(** an invalidation that arrives while an object is being warmed is lost:
    the guarded transition to WARM fails, but the completion still clears the
    reason, marks the object device-resident and reports success. *)
Theorem warm_masks_invalidation (id : WarmthObjectId) (reason : InvalidationReason) (o : WarmthObject)
    (rs : Z * Z) (d : double) (n t1 t2 : Z) (f : WarmthFabric) :
  get id f = Some o -> state_ o = PREPARING ->
  let f1 := (invalidate id reason f).2 in
  let '(ok, f2) := warm_end id rs (true, d, n) t1 t2 f1 in
  (exists o1, get id f1 = Some o1 /\ state_ o1 = INVALIDATED /\ invalidation_reason_ o1 = Some (invalidation_reason_text reason)) /\
  ok = true /\
  (exists o2, get id f2 = Some o2 /\ state_ o2 = INVALIDATED /\ invalidation_reason_ o2 = None /\
     residency_ o2 = R_DEVICE_RESIDENT).
Proof.
  intros Ho Hs. unfold get in Ho.
  assert (objects_ (invalidate id reason f).2 = <[id := (invalidate_object reason o).2]> (objects_ f)) as E1.
  { unfold invalidate, on_object. rewrite Ho. by destruct (invalidate_object reason o). }
  assert (state_ (invalidate_object reason o).2 = INVALIDATED /\
    invalidation_reason_ (invalidate_object reason o).2 = Some (invalidation_reason_text reason)) as [S1 R1].
  { unfold invalidate_object, transition_, transition.
    change (state_ (set_invalidation_reason (invalidation_reason_text reason) o)) with (state_ o). by rewrite Hs. }
  cbn zeta. set (o1 := (invalidate_object reason o).2) in *. set (f1 := (invalidate id reason f).2) in *.
  unfold warm_end. destruct rs as [r1 r2]. unfold on_object. cbn [with_budget objects_].
  assert (objects_ f1 !! id = Some o1) as G1 by (rewrite E1; apply lookup_insert_eq). rewrite G1.
  cbn [warm_result]. split_and!; [by exists o1|done|].
  eexists. split; [apply lookup_insert_eq|].
  unfold transition_, transition. rewrite S1. done.
Qed.

Lemma warm_masks_invalidation_witness :
  let f1 := (invalidate id_example INTEGRITY_FAILURE fabric_warming).2 in
  (warm_end id_example (1, 2) (true, dzero, 0) 5 6 f1).1 = true.
Proof.
  pose proof (warm_masks_invalidation id_example INTEGRITY_FAILURE
    (transition_ PREPARING "warming" (default sample_object (get id_example fabric_registered))) (1, 2) dzero 0 5 6
    fabric_warming ltac:(vm_compute; reflexivity) ltac:(vm_compute; reflexivity)) as H.
  cbn zeta in H |- *. destruct (warm_end _ _ _ _ _ _) as [ok f2]. apply H.
Defined.

(** recovery starts a new era: all three generations move past those of the
    snapshot, no reservation survives, and each object of the snapshot is
    stored under its id with its device-local dimensions cold and the
    revalidation reason set; an object that was WARM is DISCOVERED, every other
    state is kept, so that HOT objects, whose transition to DISCOVERED the
    table refuses, are execution-ready after the restart. *)
Theorem recover_new_era (snap : Snapshot) (f : WarmthFabric) :
  snapshot_wf snap ->
  let f' := recover snap f in
  (value (warmth_generation snap) < 2 ^ 64 - 1 -> value (warmth_generation snap) < value (g_warmth (gen_ f'))) /\
  budgets_balanced f' = true /\ limits_ (budget_ f') = budgets (policy snap) /\
  (forall id, get id f' = recover_object <$> List.find (fun o => bool_decide (id_ o = id)) (Persistence.objects snap)) /\
  (forall o, let o' := recover_object o in
     state_ o' = (if decide (state_ o = WARM) then DISCOVERED else state_ o) /\
     (execution_ready o' = true <-> state_ o = HOT) /\
     invalidation_reason_ o' = Some "restart_revalidation_required" /\
     Forall (fun i => dimension o' i = D_COLD) [CudaContextReadiness; KernelReadiness; GraphReadiness; AllocatorReadiness]).
Proof.
  intros Hs. cbn zeta. split_and!; try done.
  - intros Hlt. unfold recover. cbn [gen_ g_warmth]. unfold next. cbn [value].
    rewrite (proj2 (Z.eqb_neq _ _)) by lia. lia.
  - intros id. unfold get, recover. cbn [objects_]. rewrite recover_fold by apply (sw_ids _ Hs).
    by destruct (List.find _ _).
  - intros o. pose proof (recover_object_state o) as E. split_and!; [exact E| |reflexivity|by repeat constructor].
    unfold execution_ready. rewrite E. destruct (state_ o); cbn; split; done.
Qed.

Lemma recover_new_era_witness :
  let f' := recover snapshot_example (fabric_new cfg_example) in
  value (g_warmth (gen_ f')) = 8 /\ budgets_balanced f' = true.
Proof.
  destruct (recover_new_era snapshot_example (fabric_new cfg_example) snapshot_example_wf) as (_ & Hb & _).
  split; [vm_compute; reflexivity|exact Hb].
Defined.

(** a snapshot taken after a recovery cannot be loaded again: recovery
    moves the policy generation of the authority metadata forward and keeps
    the generation inside the policy, and the decoder refuses the pair. *)
Theorem recovered_snapshot_rejected (snap : Snapshot) (f : WarmthFabric) (objs : list WarmthObject) :
  snapshot_wf snap -> value (snap_policy_generation snap) < 2 ^ 64 - 1 ->
  let s := snapshot_of objs (recover snap f) in
  finite_snapshot s -> Z.of_nat (length (payload_bytes s)) < 2 ^ 32 ->
  exists bs, encode_snapshot s = Some bs /\ decode_snapshot bs = Err "invalid generation relation (policy)".
Proof.
  intros Hs Hlt s Hf Hlen. rewrite encode_snapshot_spec, decide_True by done. eexists. split; [done|].
  rewrite decode_header by (done || apply payload_bytes_ok). rewrite decide_True, Z.eqb_refl by done.
  destruct Hs as [_ _ Hw Hd Hpg Hp _ _ _].
  pose proof (read_payload_mismatch s []) as Hm. rewrite app_nil_r in Hm. rewrite Hm; [done|done|..].
  - apply next_wf, Hw.
  - apply next_wf, Hd.
  - apply next_wf. rewrite <- Hpg. apply Hp.
  - exact Hp.
  - apply Hf.
  - change (generation (policy snap) <> next (snap_policy_generation snap)). rewrite Hpg. unfold next.
    destruct (snap_policy_generation snap) as [v]. cbn [value] in *. rewrite (proj2 (Z.eqb_neq _ _)) by lia.
    intros [= Hv]. lia.
Qed.

Lemma recovered_snapshot_rejected_witness : exists bs,
  encode_snapshot (snapshot_of [] (recover snapshot_example (fabric_new cfg_example))) = Some bs /\
  decode_snapshot bs = Err "invalid generation relation (policy)".
Proof.
  apply (recovered_snapshot_rejected snapshot_example (fabric_new cfg_example) [] snapshot_example_wf).
  - vm_compute. reflexivity.
  - apply (bool_decide_unpack _). vm_compute. exact I.
  - vm_compute. reflexivity.
Defined.

(** the limit on concurrent warmings is not enforced: with a limit of one,
    two warms of different objects are both admitted, the second without a
    reservation of its own. *)
Theorem concurrent_limit_not_enforced :
  let limits := limits_set CONCURRENT_WARMING_OPS 1 limits_default in
  let p := defaults (Gen 1) in
  let p := mkPolicy (generation p) (decay p) limits (weight_predicted_reuse p) (weight_arrival_probability p)
    (weight_latency_class p) (weight_priority p) (weight_tenant_fairness p) (weight_warming_cost p)
    (weight_memory_cost p) (weight_transfer_cost p) (weight_eviction_risk p) (weight_dependency_availability p)
    (weight_current_partial_warmth p) (weight_expected_benefit p) in
  let '(a, f) := register_object MODEL_WEIGHTS "a" None None None None
    (fabric_new (mkConfig Id128_zero Id128_zero "cuda:0" "cuda" p 0)) in
  let '(b, f) := register_object MODEL_WEIGHTS "b" None None None None f in
  let '(ra, f) := warm_begin a f in
  let '(rb, f) := warm_begin b f in
  ra = Some (1, 2) /\ rb = Some (3, 0) /\
  state_ <$> get a f = Some PREPARING /\ state_ <$> get b f = Some PREPARING.
Proof. vm_compute. auto. Qed.
