(* ===== verification/Report.v ===== *)
(** * fabric.cpp with explanation.hpp: the documents the fabric reports

    An explanation or a plan of the fabric, printed as JSON and parsed again:
    what a program that reads the document finds in it. *)

From Stdlib Require Import ZArith Lia String.
From stdpp Require Import base list numbers strings gmap fin_maps sorting.
From S2P Require Import Prelude Float64 Number Json Identity State Object Decay Budget Cost Policy Scheduler Explanation Codec Wire Persistence Fabric.
Local Open Scope Z_scope.
Local Open Scope warmth_scope.

(** ** Lemmas *)

Lemma missing_text_text o : no_quote (missing_text o).
Proof.
  unfold missing_text. assert (forall a b : string, no_quote b -> no_quote a -> no_quote (if decide (b = "") then a else b)) as H
    by (intros; by case_decide). apply H; [|literal]. repeat apply no_quote_app; case_decide; literal.
Qed.
#[export] Hint Resolve missing_text_text : no_quote.

(** The counts of an estimate are exact as doubles for models of up to [2^48]
    bytes. *)
Lemma estimate_counts o mb : 0 <= mb < 2 ^ 48 -> Forall count_ok (counts (estimate o mb)).
Proof.
  intros Hmb. unfold counts, estimate, estimate_breakdown, count_ok. cbn -[Z.shiftl Z.pow wrap].
  set (bytes := if mb =? 0 then Z.shiftl 1 30 else mb).
  assert (0 <= bytes < 2 ^ 48) as Hb by (subst bytes; case_match; [by vm_compute|done]).
  repeat (apply Forall_cons; split; [|]); try apply Forall_nil_2; repeat case_match; rewrite ?wrap_small;
    try (change (Z.shiftl 1 28) with 268435456); try (change (Z.shiftl 1 26) with 67108864); unfold uint; lia.
Qed.

Definition reason_text (o : WarmthObject) : string := default "" (invalidation_reason_ o).

Lemma explain_ok f id o e : explain id f = Some e -> objects_ f !! id = Some o ->
  0 <= default_model_bytes (cfg_ f) < 2 ^ 48 -> no_quote (reason_text o) ->
  number_ok (expected_ttfu_ms (re_cost e)) -> number_ok (observed_ttr_ms_ o) -> explanation_ok e.
Proof.
  unfold explain. intros He Ho Hmb Hr Ht Hm. rewrite Ho in He. injection He as <-. constructor.
  - unfold texts. cbn -[missing_text default_action_for estimate].
    repeat (apply Forall_cons; split; [solve [exact Hr | auto with no_quote | literal]|]). constructor.
  - by apply estimate_counts.
  - cbn in Ht. repeat (apply Forall_cons; split; [first [done|apply number_ok_zero]|]). constructor.
Qed.

(** What a reader of the document looks up. *)
Definition member_of (v : Value) (kx : string * Value) : Prop := find kx.1 v = Some kx.2.

Lemma readiness_members e :
  Forall (member_of (readiness_to_json e))
    [("object", Str (to_string (re_object e))); ("state", Str (state_name (re_state e)));
     ("execution_ready", Bool (re_execution_ready e)); ("dimensions", Array (map dimension_json (re_dimensions e)));
     ("cost", cost_json (re_cost e)); ("chosen_action", Str (re_chosen_action e));
     ("missing_preparation", Str (re_missing_preparation e))] /\
  find "invalidation_reason" (readiness_to_json e) =
    (if decide (re_invalidation_reason e = "") then None else Some (Str (re_invalidation_reason e))).
Proof.
  unfold member_of, readiness_to_json, set_if_any.
  split; [repeat (apply Forall_cons; split)|]; try apply Forall_nil_2; repeat case_decide; reflexivity.
Qed.

Lemma plan_members p :
  Forall (member_of (plan_to_json p))
    [("workload", Str (to_string (pe_workload p))); ("replica", Str (to_string (pe_replica p)));
     ("tie_break", Str (pe_tie_break p)); ("steps", Array (map step_json (pe_steps p)))].
Proof. unfold member_of. repeat (apply Forall_cons; split; [reflexivity|]). constructor. Qed.

Lemma explain_plan_ok f p : plan f = Some p -> count_ok (value (generation (cfg_policy (cfg_ f)))) ->
  Forall (fun s => number_ok (step_score s) /\ number_ok (step_estimated_cost_ms s)) (steps p) ->
  exists e, explain_plan f = Some e /\ plan_ok e /\ pe_workload e = cfg_workload (cfg_ f) /\ pe_steps e = steps p.
Proof.
  intros Hp Hg Hs. unfold explain_plan. rewrite Hp. unfold plan, build in Hp. destruct (sort _ _) as [l|]; [|done].
  injection Hp as <-. eexists. split; [reflexivity|]. split; [|done]. cbn [steps] in Hs. constructor; [literal|done|]. cbn [pe_steps steps].
  apply Forall_map. apply Forall_map in Hs. eapply Forall_impl; [exact Hs|]. intros c [? ?]. split; [|done].
  cbn [plan_step rationale]. repeat apply no_quote_app; auto with no_quote.
Qed.

(** ** Properties *)

(** the JSON explanation of an object.  With a model size below [2^48] and
    no double quote in the invalidation reason, the document parses, and its
    reader finds the object's id, state and readiness, its twelve dimensions,
    its estimate, the chosen action and what is missing, and the invalidation
    reason exactly if there is one. *)
Theorem explain_json (f : WarmthFabric) (id : WarmthObjectId) (o : WarmthObject) (indent : Z) :
  let cost := estimate o (default_model_bytes (cfg_ f)) in
  objects_ f !! id = Some o -> 0 <= default_model_bytes (cfg_ f) < 2 ^ 48 -> no_quote (reason_text o) ->
  number_ok (expected_ttfu_ms cost) -> number_ok (observed_ttr_ms_ o) -> 3 * Z.max 1 indent < 2 ^ 31 ->
  exists e text v, explain id f = Some e /\ dump indent (readiness_to_json e) = Some text /\ parse text = Some (inl v) /\
    Forall (member_of v)
      [("object", Str (to_string (id_ o))); ("state", Str (state_name (state_ o)));
       ("execution_ready", Bool (execution_ready o));
       ("dimensions", Array (map (fun i => dimension_json (mkDimReadiness i (dimension o i))) enum_all));
       ("cost", cost_json cost); ("chosen_action", Str (action_name (default_action_for o cost)));
       ("missing_preparation", Str (missing_text o))] /\
    find "invalidation_reason" v = (if decide (reason_text o = "") then None else Some (Str (reason_text o))).
Proof.
  intros cost Ho Hmb Hr Ht Hm Hi. assert (exists e, explain id f = Some e) as [e He] by (unfold explain; rewrite Ho; eauto).
  pose proof (explain_ok f id o e He Ho Hmb Hr) as Hok. destruct (readiness_members e) as [H1 H2].
  pose proof He as He'. unfold explain in He'. rewrite Ho in He'. injection He' as <-.
  destruct (json_readable_parse _ indent (readiness_to_json_readable _ (Hok Ht Hm))) as (text & Et & Ep).
  { eapply shallow_bound; [apply readiness_to_json_height|done]. }
  eexists _, text, _.
  split_and!; [exact He|exact Et|exact Ep|exact H1|exact H2].
Qed.

Lemma explain_json_witness : exists e text v,
  explain id_example fabric_registered = Some e /\ dump 2 (readiness_to_json e) = Some text /\ parse text = Some (inl v) /\
  find "state" v = Some (Str "COLD") /\ find "invalidation_reason" v = None.
Proof.
  destruct (explain_json fabric_registered id_example
    (default sample_object (objects_ fabric_registered !! id_example)) 2) as (e & text & v & H1 & H2 & H3 & H4 & H5).
  - vm_compute. reflexivity.
  - split; vm_compute; congruence.
  - apply (bool_decide_unpack _). vm_compute. exact I.
  - unfold number_ok, uint. vm_compute. repeat split; first [done|by left|by right].
  - unfold number_ok, uint. vm_compute. repeat split; first [done|by left|by right].
  - vm_compute. reflexivity.
  - exists e, text, v. apply Forall_cons in H4 as [_ H4]. apply Forall_cons in H4 as [H4 _].
    split; [exact H1|split; [exact H2|split; [exact H3|split; [|rewrite H5; vm_compute; reflexivity]]]].
    unfold member_of in H4. cbn [fst snd] in H4. rewrite H4. vm_compute. reflexivity.
Defined.

(** the JSON plan.  Where a plan is built, its document parses, and its reader
    finds the workload and the steps of the plan, in its order, with the object,
    the action and the score and cost of each, one for every object. *)
Theorem explain_plan_json (f : WarmthFabric) (p : WarmthPlan) (indent : Z) :
  plan f = Some p -> count_ok (value (generation (cfg_policy (cfg_ f)))) ->
  Forall (fun s => number_ok (step_score s) /\ number_ok (step_estimated_cost_ms s)) (steps p) -> 3 * Z.max 1 indent < 2 ^ 31 ->
  exists e text v, explain_plan f = Some e /\ dump indent (plan_to_json e) = Some text /\ parse text = Some (inl v) /\
    Forall (member_of v)
      [("workload", Str (to_string (cfg_workload (cfg_ f)))); ("steps", Array (map step_json (steps p)))] /\
    length (steps p) = object_count f.
Proof.
  intros Hp Hg Hs Hi. destruct (explain_plan_ok f p Hp Hg Hs) as (e & He & Hok & Hw & Hst).
  destruct (json_readable_parse (plan_to_json e) indent) as (text & Et & Ep).
  { by apply plan_to_json_readable. } { eapply shallow_bound; [apply plan_to_json_height|done]. }
  exists e, text, (plan_to_json e). split_and!; [done..| |].
  - pose proof (plan_members e) as H. rewrite Hw, Hst in H. forall_split. repeat (apply Forall_cons; split; [done|]). constructor.
  - unfold plan, build in Hp. destruct (sort _ _) as [l|] eqn:El; [|done]. injection Hp as <-. cbn [steps].
    rewrite length_map, (Permutation_length (std_sort_permutation _ _ _ El)).
    rewrite length_map. unfold in_order. rewrite (Permutation_length (merge_sort_Permutation _ _)). apply length_map_to_list.
Qed.

Lemma explain_plan_json_witness :
  exists e text v, explain_plan fabric_registered = Some e /\ dump 2 (plan_to_json e) = Some text /\ parse text = Some (inl v) /\
    find "workload" v = Some (Str (to_string (mkId 0 2))).
Proof.
  assert (exists p s, plan fabric_registered = Some p /\ steps p = [s] /\ number_ok (step_score s) /\
      number_ok (step_estimated_cost_ms s)) as (p & s & Hp & E & H).
  { eexists _, _. split; [vm_compute; reflexivity|]. split; [reflexivity|].
    unfold number_ok, uint. vm_compute. repeat split; first [done|by left|by right]. }
  destruct (explain_plan_json fabric_registered p 2 Hp) as (e & text & v & H1 & H2 & H3 & H4 & _).
  - split; vm_compute; congruence.
  - rewrite E. constructor; [exact H|constructor].
  - vm_compute. reflexivity.
  - exists e, text, v. split_and!; [done..|]. apply Forall_cons in H4 as [H4 _]. exact H4.
Defined.
