(* ===== verification/Typing.v ===== *)
(** * The type invariant of the fabric

    Every member of a fabric holds a value of its C++ type, whatever sequence of
    calls, warms and recoveries it has gone through: a step is one critical
    section, with any arguments of their types.  [fabric_typed false] says just
    this.  [fabric_typed true] says more, namely what a snapshot must satisfy:
    finite doubles, and no object of a generation ahead of the fabric's.  No
    method checks that; it holds of the histories whose stored objects and
    measurements satisfy it. *)

From Stdlib Require Import ZArith Lia String.
From stdpp Require Import base list numbers strings gmap fin_maps relations.
From S2P Require Import Prelude Float64 Identity State Object Decay Budget Ledger Cost Policy Scheduler Explanation Codec Wire Persistence Fabric.
Local Open Scope Z_scope.
Local Open Scope warmth_scope.

(** ** The invariant *)

(** A stored object, under the generation [g] of the fabric; [strict] adds what a
    snapshot needs. *)
Record object_typed (strict : bool) (g : Z) (id : WarmthObjectId) (o : WarmthObject) : Prop := mkObjTyped {
  ot_key : id_ o = id;
  ot_wf : object_wf o;
  ot_finite : strict = true -> finite_object o;
  ot_gen : strict = true -> value (warmth_gen_ o) <= g }.

Record config_typed (strict : bool) (c : Config) : Prop := mkCfgTyped {
  ct_workload : Id128_wf (cfg_workload c);
  ct_node : Id128_wf (cfg_node c);
  ct_device : short (cfg_device c);
  ct_backend : short (cfg_backend c);
  ct_policy : policy_wf (cfg_policy c);
  ct_finite : strict = true -> finite_policy (cfg_policy c) }.

Record fabric_typed (strict : bool) (f : WarmthFabric) : Prop := mkFabTyped {
  ft_config : config_typed strict (cfg_ f);
  ft_warmth : gen_wf (g_warmth (gen_ f));
  ft_positive : 1 <= value (g_warmth (gen_ f));
  ft_dependency : gen_wf (g_dependency (gen_ f));
  ft_policy : gen_wf (g_policy (gen_ f));
  ft_objects : stored (object_typed strict (value (g_warmth (gen_ f)))) f }.

(** Arguments of their types; the texts are shorter than 2^32 bytes.  In a strict
    history an object that is stored whole has finite doubles and is not ahead
    of the fabric.  A recovery starts from a snapshot that was decoded
    ([decode_snapshot_sound] says what that guarantees), also while warms are
    in flight. *)
Definition call_typed (strict : bool) (c : call) (f : WarmthFabric) : Prop :=
  match c with
  | CRegister _ owner m a r e => short owner /\ opt_id_wf m /\ opt_id_wf a /\ opt_id_wf r /\ opt_id_wf e
  | CUpsert o => object_typed strict (value (g_warmth (gen_ f))) (id_ o) o
  | CTransition _ _ reason => short reason
  | CMarkUsed _ now => sint64 now
  | CRecover snap => snapshot_wf snap /\ finite_snapshot snap
  | _ => True
  end.

(** One critical section of any thread. *)
Inductive fabric_step (strict : bool) : WarmthFabric -> WarmthFabric -> Prop :=
  | fs_call c f : call_typed strict c f -> fabric_step strict f (apply_call c f)
  | fs_begin id f : fabric_step strict f (warm_begin id f).2
  | fs_end id rs s d n t1 t2 f : uint 64 d -> (strict = true -> finite d) -> uint 64 n -> sint64 t1 -> sint64 t2 ->
      fabric_step strict f (warm_end id rs (s, d, n) t1 t2 f).2.

(** ** Lemmas: what the handlers do to one object *)

(** A text out of a table or a literal. *)
Ltac short_text := solve [assumption | apply (bool_decide_unpack _); vm_compute; exact I].

Section handlers.
Variables (strict : bool) (g : Z) (id : WarmthObjectId).
Notation typed := (object_typed strict g id).

Lemma transition_typed to r o : short r -> typed o -> typed (transition_ to r o).
Proof.
  intros Hr [? ? ? ?]. constructor; [by rewrite transition_id|by apply transition_wf| |by rewrite transition_warmth_gen].
  rewrite transition_alt. by destruct (transition_allowed _ _).
Qed.
Lemma transition_pair_typed to r o : short r -> typed o -> typed (transition to r o).2.
Proof. apply transition_typed. Qed.

Lemma set_dims_typed d o : typed o -> typed (put_dims_ d o).
Proof. intros [? ? ? ?]. constructor; try done. by apply put_dims_wf. Qed.
Lemma set_residency_typed r o : typed o -> typed (set_residency r o).
Proof. intros [? ? ? ?]. constructor; try done. by apply set_residency_wf. Qed.
Lemma set_provenance_typed r o : typed o -> typed (set_provenance r o).
Proof. intros [? ? ? ?]. constructor; try done. by apply set_provenance_wf. Qed.
Lemma set_reason_typed r o : short r -> typed o -> typed (set_invalidation_reason r o).
Proof. intros ? [? ? ? ?]. constructor; try done. by apply set_invalidation_reason_wf. Qed.
Lemma clear_reason_typed o : typed o -> typed (clear_invalidation_reason o).
Proof. intros [? ? ? ?]. constructor; try done. by apply clear_invalidation_reason_wf. Qed.
Lemma set_bytes_typed n o : uint 64 n -> typed o -> typed (set_measured_cost_bytes n o).
Proof. intros ? [? ? ? ?]. constructor; try done. by apply set_measured_cost_bytes_wf. Qed.
Lemma set_ttr_typed d o : uint 64 d -> (strict = true -> finite d) -> typed o -> typed (set_observed_ttr_ms d o).
Proof.
  intros ? Hd [? ? Hf ?]. constructor; [done|by apply set_observed_ttr_ms_wf| |done].
  intros E. specialize (Hd E). by destruct (Hf E) as (? & ? & ? & ?).
Qed.
Lemma mark_used_typed t o : sint64 t -> typed o -> typed (mark_used t o).
Proof. intros ? [? ? ? ?]. constructor; try done. by apply mark_used_wf. Qed.
Lemma mark_prepared_typed t o : sint64 t -> typed o -> typed (mark_prepared t o).
Proof. intros ? [? ? ? ?]. constructor; try done. by apply mark_prepared_wf. Qed.
End handlers.

Create HintDb typed.
#[export] Hint Resolve transition_typed transition_pair_typed set_dims_typed set_residency_typed set_provenance_typed
  set_reason_typed clear_reason_typed set_bytes_typed set_ttr_typed mark_used_typed mark_prepared_typed : typed.
#[export] Hint Extern 1 (short _) => short_text : typed.
#[export] Hint Extern 1 (object_typed _ _ _ (set_dimension _ _ _)) => apply set_dims_typed : typed.
#[export] Hint Extern 1 (object_typed _ _ _ (set_dimensions _ _)) => apply set_dims_typed : typed.

Section operations.
Variables (strict : bool) (g : Z) (id : WarmthObjectId).
Notation typed := (object_typed strict g id).

Lemma drop_ephemeral_typed o : typed o -> typed (drop_ephemeral o).
Proof. unfold drop_ephemeral. auto with typed. Qed.
#[local] Hint Resolve drop_ephemeral_typed : typed.

Lemma reason_short r : short (invalidation_reason_text r).
Proof. destruct r; short_text. Qed.
Lemma decay_reason_short r : short (decay_reason_name r).
Proof. destruct r; short_text. Qed.
#[local] Hint Resolve reason_short decay_reason_short : typed.

Lemma invalidate_typed r o : typed o -> typed (invalidate_object r o).2.
Proof. intros. unfold invalidate_object. destruct (negb _); cbn [snd]; auto with typed. Qed.

Lemma demote_typed o : typed o -> typed (demote_object o).2.
Proof. intros. unfold demote_object. destruct (state_ o); auto with typed. Qed.

Lemma evict_typed o : typed o -> typed (evict_object o).2.
Proof.
  intros Ho. unfold evict_object. pose proof (transition_pair_typed strict g id EVICTED "evict" o ltac:(short_text) Ho) as H.
  destruct (transition EVICTED "evict" o) as [[] o']; cbn [snd] in *; [|done]. case_decide; auto with typed.
Qed.

Lemma make_warm_typed why o : short why -> typed o -> typed (make_warm why o).
Proof.
  intros Hw Ho. unfold make_warm. case_decide; [done|].
  pose proof (transition_pair_typed strict g id PREPARING why o Hw Ho) as Ht.
  destruct (transition PREPARING why o) as [[] o']; cbn [snd] in Ht; auto with typed.
Qed.

Lemma warm_to_ready_typed o : typed o -> typed (warm_to_ready_object o).2.
Proof. intros. unfold warm_to_ready_object. cbn [snd]. auto using make_warm_typed with typed. Qed.

Lemma warm_result_typed s d n t1 t2 o : uint 64 d -> (strict = true -> finite d) -> uint 64 n -> sint64 t1 -> sint64 t2 ->
  typed o -> typed (warm_result s d n t1 t2 o).2.
Proof. intros. unfold warm_result. destruct s; cbn [snd]; auto 10 with typed. Qed.

Lemma decay_typed p now mp dc dr pr o : typed o -> typed (decay_apply p now mp dc dr pr o).
Proof. intros. unfold decay_apply. destruct (dr_changed _); auto with typed. Qed.

Lemma recover_typed o : typed o -> typed (recover_object o).
Proof.
  intros. unfold recover_object. cbn zeta. destruct (_ || _); auto 8 with typed.
Qed.
End operations.

#[export] Hint Resolve invalidate_typed demote_typed evict_typed warm_to_ready_typed warm_result_typed decay_typed
  recover_typed : typed.

Lemma object_typed_le strict g g' id o : g <= g' -> object_typed strict g id o -> object_typed strict g' id o.
Proof. intros ? [? ? ? Hg]. constructor; [done..|]. intros E. specialize (Hg E). lia. Qed.

Lemma next_le {tag} (x : BasicGeneration tag) : value x <= value (next x).
Proof. unfold next. cbn. case Z.eqb_spec; lia. Qed.

(** ** Lemmas: the fabric *)

(** A step that keeps the configuration and the generations. *)
Lemma typed_objects strict f f' : fabric_typed strict f -> cfg_ f' = cfg_ f -> gen_ f' = gen_ f ->
  stored (object_typed strict (value (g_warmth (gen_ f)))) f' -> fabric_typed strict f'.
Proof. intros [? ? ? ? ? ?] Hc Hg Ho. by constructor; rewrite ?Hc, ?Hg. Qed.

Lemma on_object_typed strict f id h : fabric_typed strict f ->
  (forall g o, object_typed strict g id o -> object_typed strict g id (h o).2) -> fabric_typed strict (on_object id h f).2.
Proof.
  intros Hf Hh. apply (typed_objects strict f); [done| |apply on_object_gens|apply on_object_stored; [apply Hh|apply Hf]].
  unfold on_object. destruct (_ !! _) as [o|]; [|done]. by destruct (h o).
Qed.

Lemma set_if_wf (s : Id128 -> WarmthObject -> WarmthObject) x o :
  (forall o, object_wf o -> forall i, Id128_wf i -> object_wf (s i o)) -> opt_id_wf x -> object_wf o -> object_wf (set_if s x o).
Proof. intros Hs Hx Ho. destruct x as [i|]; [by apply Hs|done]. Qed.

Lemma registered_typed strict f cat owner m a r e : fabric_typed strict f ->
  call_typed strict (CRegister cat owner m a r e) f -> fabric_typed strict (register_object cat owner m a r e f).2.
Proof.
  intros Hf (Hs & Hm & Ha & Hr & He). apply (typed_objects strict f); [done..|]. pose proof Hf as [[? ? ? ? ? ?] ? ? ? ? Ho].
  apply map_Forall_insert_2; [|exact Ho]. constructor; [by destruct m, a, r, e| | |by destruct m, a, r, e].
  - apply set_warmth_generation_wf; [|done].
    apply set_if_wf; [apply set_engine_wf|done|]. apply set_if_wf; [apply set_replica_wf|done|].
    apply set_if_wf; [apply set_artifact_wf|done|]. apply set_if_wf; [apply set_model_wf|done|].
    apply set_logical_owner_wf; [apply new_object_wf; try done; apply derive_wf|done].
  - intros _. destruct m, a, r, e; apply (bool_decide_unpack _); vm_compute; exact I.
Qed.

Lemma recover_fabric_typed strict snap f : snapshot_wf snap -> finite_snapshot snap -> fabric_typed strict f -> fabric_typed strict (recover snap f).
Proof.
  intros Hs [Hfp Hfo] [[? ? ? ? ? ?] ? ? ? ? ?]. destruct Hs as [_ _ Hw Hd Hpg Hp Ho Hids _].
  constructor; cbn [recover cfg_ gen_ g_warmth g_dependency g_policy].
  - by constructor.
  - by apply next_wf.
  - unfold next, gen_wf, uint in *. cbn. case Z.eqb_spec; lia.
  - by apply next_wf.
  - apply next_wf. rewrite <- Hpg. apply Hp.
  - intros id o. cbn. rewrite recover_fold by done. destruct (List.find _ _) as [o'|] eqn:E; [|by rewrite lookup_empty].
    intros [= <-]. apply find_some in E as [Hin Hk%bool_decide_eq_true]. apply recover_typed.
    rewrite Forall_forall in Ho, Hfo. apply list_elem_of_In in Hin. destruct (Ho _ Hin). constructor; [done..|intros _; by apply Hfo|].
    intros _. eapply Z.le_trans; [eassumption|apply next_le].
Qed.

Lemma apply_call_typed strict c f : call_typed strict c f -> fabric_typed strict f -> fabric_typed strict (apply_call c f).
Proof.
  intros Hc Hf. destruct c; cbn [apply_call call_typed] in *; try (apply on_object_typed; [done|]; intros g o' Ho'; cbn [snd]; auto with typed).
  - by apply registered_typed.
  - apply (typed_objects strict f); [done..|]. by apply map_Forall_insert_2; [|apply Hf].
  - apply (typed_objects strict f); [done..|]. apply decay_stored; [|apply Hf]. auto with typed.
  - destruct Hf. by constructor; try apply next_wf.
  - destruct Hf as [? ? ? ? ? Ho]. constructor; try done; cbn [bump_warmth_generation with_gens gen_ g_warmth].
    + by apply next_wf.
    + pose proof (next_le (g_warmth (gen_ f))). lia.
    + intros i o Hi. eapply object_typed_le; [apply next_le|by apply Ho].
  - destruct Hc. by apply recover_fabric_typed.
Qed.

Lemma warm_begin_typed strict id f : fabric_typed strict f -> fabric_typed strict (warm_begin id f).2.
Proof.
  intros Hf. unfold warm_begin. destruct (objects_ f !! id) as [o|] eqn:Ho; [|done].
  destruct (reserve DEVICE_MEMORY _ _ _) as [[res e1] b1]. destruct (res =? 0); [by apply (typed_objects strict f); try apply Hf|].
  destruct (reserve CONCURRENT_WARMING_OPS _ _ _) as [[op e2] b2].
  destruct (negb _); cbn [snd]; [by apply (typed_objects strict f); try apply Hf|]. apply (typed_objects strict f); [done..|].
  apply map_Forall_insert_2; [|apply Hf]. apply transition_typed; [short_text|]. by apply (ft_objects _ _ Hf).
Qed.

Lemma warm_end_typed strict id rs s d n t1 t2 f : uint 64 d -> (strict = true -> finite d) -> uint 64 n -> sint64 t1 -> sint64 t2 ->
  fabric_typed strict f -> fabric_typed strict (warm_end id rs (s, d, n) t1 t2 f).2.
Proof.
  intros ? ? ? ? ? Hf. unfold warm_end. destruct rs as [r1 r2]. apply on_object_typed; [by destruct Hf; constructor|].
  intros g o Ho. auto with typed.
Qed.

Lemma fabric_new_typed strict cfg : config_typed strict cfg -> fabric_typed strict (fabric_new cfg).
Proof. intros Hc. constructor; try done. apply (ct_policy _ _ Hc). Qed.

Lemma fabric_step_typed strict f f' : fabric_step strict f f' -> fabric_typed strict f -> fabric_typed strict f'.
Proof. destruct 1; auto using apply_call_typed, warm_begin_typed, warm_end_typed. Qed.

(** ** Properties *)

(** C27: type safety of the fabric.  However calls, overlapping warms and
    recoveries are interleaved, with any arguments of their types, every member
    stays in the range of its C++ type and every object is stored under its own
    id.  Two things that a snapshot needs besides are not enforced by [upsert]
    and [warm], but kept by everything else: if the objects handed to [upsert]
    have finite doubles and no warmth generation later than the fabric's, and
    the measured durations are finite, then so it is for every stored object. *)
Theorem fabric_type_safety (cfg : Config) (f : WarmthFabric) :
  (config_typed false cfg -> rtc (fabric_step false) (fabric_new cfg) f -> fabric_typed false f) /\
  (config_typed true cfg -> rtc (fabric_step true) (fabric_new cfg) f -> fabric_typed true f).
Proof.
  assert (forall strict, config_typed strict cfg -> rtc (fabric_step strict) (fabric_new cfg) f -> fabric_typed strict f) as H;
    [|split; apply H].
  intros strict Hc Hf. apply fabric_new_typed in Hc. revert Hc. induction Hf as [|f1 f2 f3 Hs Hf IH]; [done|].
  intros H1. apply IH. by eapply fabric_step_typed.
Qed.

(** Of its type, but not a number: what [upsert] may store. *)
Definition nan_object : WarmthObject := set_observed_ttr_ms (9221120237041090560) sample_object.

Lemma cfg_example_typed strict : config_typed strict cfg_example.
Proof. constructor; [short_text..| |intros _]; split_and!; short_text. Qed.

Lemma fabric_warming_steps strict : rtc (fabric_step strict) (fabric_new cfg_example) fabric_warming.
Proof.
  eapply rtc_l; [apply (fs_call _ (CRegister MODEL_WEIGHTS "m" None None None None))|apply rtc_once, fs_begin].
  split_and!; [short_text|exact I..].
Qed.

Lemma nan_object_typed g : object_typed false g (id_ nan_object) nan_object.
Proof.
  constructor; [reflexivity| |discriminate..].
  unfold nan_object. apply set_observed_ttr_ms_wf; [apply sample_object_wf|by apply (bool_decide_unpack _); vm_compute].
Qed.

Lemma fabric_type_safety_witness :
  fabric_typed true fabric_warming /\ fabric_typed false (apply_call (CUpsert nan_object) fabric_warming) /\
  ~ finite_object nan_object.
Proof.
  split; [|split].
  - exact (proj2 (fabric_type_safety cfg_example fabric_warming) (cfg_example_typed true) (fabric_warming_steps true)).
  - refine (proj1 (fabric_type_safety cfg_example (apply_call (CUpsert nan_object) fabric_warming)) (cfg_example_typed false) _).
    refine (rtc_r _ _ _ (fabric_warming_steps false) _). exact (fs_call false (CUpsert nan_object) _ (nan_object_typed _)).
  - intros (_ & [H _] & _). vm_compute in H. discriminate H.
Defined.
