(* ===== verification/Storage.v ===== *)
(** * persistence.cpp, fabric.cpp: snapshots in files

    [save_snapshot_file] and [load_snapshot_file] on a disk, and the fabric's
    [save] and [recover] over them.  What the file streams do is part of the
    disk: which paths open, whether a stream reports an error, and what a file
    holds once the stream that wrote it is destroyed. *)

From Stdlib Require Import ZArith Lia String.
From stdpp Require Import base list numbers strings gmap fin_maps relations sorting.
From S2P Require Import Prelude Float64 Identity State Object Decay Budget Ledger Cost Policy Scheduler Explanation Codec Wire Persistence Fabric Typing.
Local Open Scope Z_scope.
Local Open Scope warmth_scope.

(** ** The disk *)

Record Disk := mkDisk {
  files : gmap string bytes;
  may_write : string -> bool;             (* [ofstream] with [trunc] opens *)
  write_good : string -> bytes -> bool;   (* the stream is good after [write] *)
  kept : string -> bytes -> bytes;        (* the file after the destructor *)
  may_read : string -> bool;              (* [ifstream] opens an existing file *)
  tells : string -> bool;                 (* [tellg] gives the size *)
  read_good : string -> bool              (* the stream is good after [read] *) }.

Definition with_file (path : string) (bs : bytes) (d : Disk) : Disk :=
  mkDisk (<[path := bs]> (files d)) (may_write d) (write_good d) (kept d) (may_read d) (tells d) (read_good d).

(** The encoder throws before the file is opened; opening it truncates it. *)
Definition save_snapshot_file (path : string) (snapshot : Snapshot) (d : Disk) : result unit * Disk :=
  match encode_snapshot snapshot with
  | None => (Err "persist: NaN/Inf not allowed", d)
  | Some bs =>
      if negb (may_write d path) then (Err ("cannot open " +:+ path), d)
      else
        let d' := with_file path (kept d path bs) d in
        if negb (write_good d path bs) then (Err "write failed", d') else (Ok tt, d')
  end.

Definition load_snapshot_file (path : string) (d : Disk) : result Snapshot :=
  match (if may_read d path then files d !! path else None) with
  | None => Err ("cannot open " +:+ path)
  | Some bs =>
      if negb (tells d path) then Err "tell failed"
      else if negb (read_good d path) && bool_decide (bs <> []) then Err "read failed"
      else decode_snapshot bs
  end.

(** [WarmthFabric::save]: [snapshot()] under the mutex, then the file. *)
Definition save (path : string) (d : Disk) : locked (result unit * Disk) := fun held f =>
  match snapshot held f with
  | Some (snap, f) => Some (save_snapshot_file path snap d, f)
  | None => None
  end.

(** [WarmthFabric::recover]. *)
Definition recover_file (path : string) (d : Disk) (f : WarmthFabric) : result unit * WarmthFabric :=
  match load_snapshot_file path d with
  | Err e => (Err e, f)
  | Ok snap => (Ok tt, recover snap f)
  end.

(** ** Lemmas *)

(** The streams do what they are asked to for this path. *)
Record reliable (d : Disk) (path : string) : Prop := mkReliable {
  rl_write : may_write d path = true;
  rl_good : forall bs, write_good d path bs = true;
  rl_kept : forall bs, kept d path bs = bs;
  rl_read : may_read d path = true;
  rl_tells : tells d path = true;
  rl_read_good : read_good d path = true }.

Lemma save_reliable path snap d : reliable d path ->
  save_snapshot_file path snap d =
    match encode_snapshot snap with
    | Some bs => (Ok tt, with_file path bs d)
    | None => (Err "persist: NaN/Inf not allowed", d)
    end.
Proof.
  intros [Hw Hg Hk _ _ _]. unfold save_snapshot_file. destruct (encode_snapshot snap); [|done]. by rewrite Hw, Hg, Hk.
Qed.

Lemma load_reliable path bs d : reliable d path -> load_snapshot_file path (with_file path bs d) = decode_snapshot bs.
Proof.
  intros [_ _ _ Hr Ht Hg]. unfold load_snapshot_file. cbn [with_file may_read files tells read_good].
  by rewrite Hr, lookup_insert_eq, Ht, Hg.
Qed.

Definition snapshot_size (s : Snapshot) : Z := Z.of_nat (length (payload_bytes s)).

Lemma save_load path snap d : reliable d path -> snapshot_wf snap -> finite_snapshot snap -> snapshot_size snap < 2 ^ 32 ->
  exists d', save_snapshot_file path snap d = (Ok tt, d') /\ load_snapshot_file path d' = Ok (snapshot_norm snap) /\
    forall other, other <> path -> files d' !! other = files d !! other.
Proof.
  intros Hd Hs Hf Hl. pose proof (fun bs => decode_encode_snapshot snap bs Hs Hl) as Hdec.
  destruct (encode_snapshot snap) as [bs|] eqn:E; [|by rewrite encode_snapshot_spec, decide_True in E].
  exists (with_file path bs d). rewrite save_reliable, E, load_reliable by done. split_and!; [done|by apply Hdec|].
  intros other Ho. cbn. by rewrite lookup_insert_ne.
Qed.

Lemma find_norm id l : List.find (fun o => bool_decide (id_ o = id)) (map wire_norm l) =
  wire_norm <$> List.find (fun o => bool_decide (id_ o = id)) l.
Proof. induction l as [|o l IH]; [done|]. cbn [map List.find]. rewrite wire_norm_id. by case_bool_decide. Qed.

Lemma load_snapshot_sound path d snap : map_Forall (fun _ bs => bytes_ok bs) (files d) ->
  load_snapshot_file path d = Ok snap -> snapshot_wf snap /\ finite_snapshot snap.
Proof.
  intros Hd. unfold load_snapshot_file. destruct (may_read d path); [|done].
  destruct (files d !! path) as [bs|] eqn:Hb; [|done]. destruct (negb (tells d path)); [done|].
  destruct (_ && _); [done|]. intros H. apply (decode_snapshot_yields bs). exact (Hd path bs Hb). exact H.
Qed.

(** ** Properties *)

(** C28: a restart through a file.  Take a snapshot of which every part has its
    type and the relations that the decoder checks hold (distinct ids, no object
    ahead of it, a policy of its policy generation), with finite doubles and a
    payload below 2^32 bytes, and streams that do what they are asked to for this
    path.  Saving it changes no other file, and any fabric that recovers from the
    file holds exactly the snapshot's objects, in the form the file keeps and
    after the revalidation step, under the policy of the snapshot with its
    budgets, with all three generations one further than the snapshot's, no
    reservation, and its own workload, node, device and backend. *)
Theorem restart_from_file (s : Snapshot) (g : WarmthFabric) (path : string) (d : Disk) :
  snapshot_wf s -> finite_snapshot s -> snapshot_size s < 2 ^ 32 -> reliable d path ->
  exists d' g',
    save_snapshot_file path s d = (Ok tt, d') /\
    (forall other, other <> path -> files d' !! other = files d !! other) /\
    recover_file path d' g = (Ok tt, g') /\
    (forall id, get id g' =
      (fun o => recover_object (wire_norm o)) <$> List.find (fun o => bool_decide (id_ o = id)) (Persistence.objects s)) /\
    cfg_ g' = mkConfig (cfg_workload (cfg_ g)) (cfg_node (cfg_ g)) (cfg_device (cfg_ g)) (cfg_backend (cfg_ g))
                (policy s) (default_model_bytes (cfg_ g)) /\
    budgets_balanced g' = true /\ limits_ (budget_ g') = budgets (policy s) /\
    gen_ g' = mkGens (next (warmth_generation s)) (next (dependency_generation s)) (next (snap_policy_generation s)).
Proof.
  intros Hs Hfin Hl Hd. destruct (save_load path s d Hd Hs Hfin Hl) as (d' & Hsave & Hload & Hother).
  eexists d', _. split_and!; [exact Hsave|exact Hother|unfold recover_file; by rewrite Hload|..]; try done.
  intros id. unfold get. cbn [recover objects_ snapshot_norm Persistence.objects].
  rewrite recover_fold, find_norm.
  - by destruct (List.find _ _).
  - rewrite map_map. rewrite (map_ext _ id_) by apply wire_norm_id. apply (sw_ids _ Hs).
Qed.

Definition disk_example : Disk :=
  mkDisk (<["other" := [1; 2; 3]]> ∅) (fun _ => true) (fun _ _ => true) (fun _ bs => bs) (fun _ => true) (fun _ => true) (fun _ => true).

Lemma restart_from_file_witness : exists d' g',
  recover_file "snapshot.wfbin" d' (fabric_new cfg_example) = (Ok tt, g') /\ files d' !! "other" = Some [1; 2; 3] /\
  budgets_balanced g' = true.
Proof.
  destruct (restart_from_file snapshot_example (fabric_new cfg_example) "snapshot.wfbin" disk_example)
    as (d' & g' & _ & Ho & Hr & _ & _ & Hb & _).
  - apply snapshot_example_wf.
  - apply (bool_decide_unpack _). vm_compute. exact I.
  - vm_compute. reflexivity.
  - constructor; reflexivity.
  - exists d', g'. split; [exact Hr|split; [|exact Hb]]. rewrite Ho; [reflexivity|]. intros [=].
Defined.

(** C31: recovery from any file.  Whatever bytes a file holds and however its
    stream fails, recovery either reports an error and leaves the fabric as it
    was, or leaves it in a typed state in which no object is execution-ready
    but one that was HOT in the file. *)
Theorem recover_file_safe (path : string) (d : Disk) (f : WarmthFabric) :
  fabric_typed true f -> map_Forall (fun _ bs => bytes_ok bs) (files d) ->
  match recover_file path d f with
  | (Err _, f') => f' = f
  | (Ok _, f') => fabric_typed true f' /\
      forall id o, get id f' = Some o -> execution_ready o = true -> state_ o = HOT
  end.
Proof.
  intros Hf Hd. unfold recover_file. destruct (load_snapshot_file path d) as [snap|e] eqn:E; [|done].
  destruct (load_snapshot_sound path d snap Hd E) as [Hs Hfin]. split; [by apply recover_fabric_typed|].
  intros id o. unfold get. cbn [recover objects_]. rewrite recover_fold by apply (sw_ids _ Hs).
  destruct (List.find _ _) as [o'|]; [|by rewrite lookup_empty]. intros [= <-]. unfold execution_ready.
  rewrite recover_object_state. case_decide as Hw; [done|]. by destruct (state_ o').
Qed.

Lemma fabric_registered_typed : fabric_typed true fabric_registered.
Proof.
  apply (apply_call_typed _ (CRegister MODEL_WEIGHTS "m" None None None None)); [split_and!; [short_text|exact I..]|].
  apply fabric_new_typed, cfg_example_typed.
Qed.

Lemma recover_file_safe_witness : recover_file "other" disk_example fabric_registered = (Err "truncated header", fabric_registered).
Proof.
  pose proof (recover_file_safe "other" disk_example fabric_registered fabric_registered_typed) as H.
  unfold recover_file in *. change (load_snapshot_file "other" disk_example) with (@Err Snapshot "truncated header") in *.
  cbn iota in H. rewrite H; [reflexivity|]. apply map_Forall_insert_2; [|apply map_Forall_empty].
  apply (bool_decide_unpack _). vm_compute. exact I.
Defined.

(** how saving fails.  A snapshot with a NaN or an infinity is refused before
    the file is touched; when the file cannot be opened nothing changes either;
    a write error is reported after the old contents are gone.  The fabric's
    own [save] never gets as far: it blocks on its own mutex. *)
Theorem save_failures (path : string) (snap : Snapshot) (d : Disk) :
  (~ finite_snapshot snap <-> save_snapshot_file path snap d = (Err "persist: NaN/Inf not allowed", d)) /\
  (finite_snapshot snap ->
     (may_write d path = false -> save_snapshot_file path snap d = (Err ("cannot open " +:+ path), d)) /\
     (may_write d path = true -> exists bs, encode_snapshot snap = Some bs /\
        save_snapshot_file path snap d =
          (if write_good d path bs then Ok tt else Err "write failed", with_file path (kept d path bs) d))) /\
  (forall held f, save path d held f = None).
Proof.
  unfold save_snapshot_file. rewrite encode_snapshot_spec. split_and!.
  - destruct (decide (finite_snapshot snap)) as [Hf|Hf]; [|done]. split; [done|].
    destruct (may_write d path); cbn [negb]; [destruct (write_good d path _)|]; done.
  - intros Hf. rewrite decide_True by done. split; intros ->; cbn [negb]; [done|]. eexists. split; [done|].
    by destruct (write_good d path _).
  - by intros [] f.
Qed.
