(* ===== verification/Coordinator.v ===== *)
(** * coordinator.hpp, coordinator.cpp: the authority

    The coordinator's metadata, its handling of every frame, disconnection,
    epoch rolls and the two halves of [issue_warm].  A connection state is
    shared by its thread and the worker table, so connections live in a heap
    and the table holds handles.  A critical section is one function on the
    state; a handler also gives the frame it sends back.  Readings of the
    clock come from [clock]. *)

From Stdlib Require Import ZArith Lia String.
From stdpp Require Import base list numbers strings gmap fin_maps sets sorting.
From S2P Require Import Prelude Float64 Identity State Object Decay Budget Ledger Policy Scheduler Codec Protocol Wire Messages.
Local Open Scope Z_scope.
Local Open Scope warmth_scope.

Definition kDefaultWarmBytes : Z := Z.shiftl 1 30.

Definition reach_warm (why : string) (o : WarmthObject) : WarmthObject :=
  if decide (state_ o = WARM \/ state_ o = HOT) then o
  else
    let o := match transition PREPARING why o with
             | (true, o) => o
             | (false, o) => transition_ PREPARING why (transition_ COLD why o)
             end in
    transition_ WARM why o.

Record AttemptInfo := mkAttempt {
  at_object : WarmthObjectId;
  at_worker : WorkerId;
  reservation_id : Z;
  op_reservation_id : Z }.

Record ConnState := mkConn {
  conn_id : WorkerId;
  conn_boot : WorkerBootId;
  conn_node : NodeId;
  registered : bool;
  conn_backend : string }.
Definition conn_new : ConnState := mkConn Id128_zero Id128_zero Id128_zero false "".

(** A [std::shared_ptr<ConnState>]. *)
Abbreviation handle := nat.

Record Coordinator := mkCoord {
  epoch_ : CoordinatorEpoch;
  warmth_gen_value_ : Z;
  dep_gen_value_ : Z;
  policy_gen_ : PolicyGeneration;
  policy_ : WarmthPolicy;
  objects_ : gmap WarmthObjectId WarmthObject;
  workers_ : gmap WorkerId handle;
  last_boot_ : gmap WorkerId WorkerBootId;
  worker_objects_ : gmap WorkerId (gset WarmthObjectId);
  budget_ : BudgetTracker;
  in_flight_ : gmap Z AttemptInfo;
  in_flight_count_ : Z;
  attempt_counter_ : Z;
  conns : gmap handle ConnState }.

Definition coordinator_new : Coordinator :=
  mkCoord initial 0 0 (Gen 1) (defaults (Gen 1)) ∅ ∅ ∅ ∅ (budget_new limits_default) ∅ 0 1 ∅.

(** Member updates. *)
Definition set_objects m (c : Coordinator) : Coordinator :=
  mkCoord (epoch_ c) (warmth_gen_value_ c) (dep_gen_value_ c) (policy_gen_ c) (policy_ c) m (workers_ c) (last_boot_ c)
    (worker_objects_ c) (budget_ c) (in_flight_ c) (in_flight_count_ c) (attempt_counter_ c) (conns c).
Definition set_workers m (c : Coordinator) : Coordinator :=
  mkCoord (epoch_ c) (warmth_gen_value_ c) (dep_gen_value_ c) (policy_gen_ c) (policy_ c) (objects_ c) m (last_boot_ c)
    (worker_objects_ c) (budget_ c) (in_flight_ c) (in_flight_count_ c) (attempt_counter_ c) (conns c).
Definition set_last_boot m (c : Coordinator) : Coordinator :=
  mkCoord (epoch_ c) (warmth_gen_value_ c) (dep_gen_value_ c) (policy_gen_ c) (policy_ c) (objects_ c) (workers_ c) m
    (worker_objects_ c) (budget_ c) (in_flight_ c) (in_flight_count_ c) (attempt_counter_ c) (conns c).
Definition set_worker_objects m (c : Coordinator) : Coordinator :=
  mkCoord (epoch_ c) (warmth_gen_value_ c) (dep_gen_value_ c) (policy_gen_ c) (policy_ c) (objects_ c) (workers_ c)
    (last_boot_ c) m (budget_ c) (in_flight_ c) (in_flight_count_ c) (attempt_counter_ c) (conns c).
Definition set_conns m (c : Coordinator) : Coordinator :=
  mkCoord (epoch_ c) (warmth_gen_value_ c) (dep_gen_value_ c) (policy_gen_ c) (policy_ c) (objects_ c) (workers_ c)
    (last_boot_ c) (worker_objects_ c) (budget_ c) (in_flight_ c) (in_flight_count_ c) (attempt_counter_ c) m.
Definition set_flight b m n (c : Coordinator) : Coordinator :=
  mkCoord (epoch_ c) (warmth_gen_value_ c) (dep_gen_value_ c) (policy_gen_ c) (policy_ c) (objects_ c) (workers_ c)
    (last_boot_ c) (worker_objects_ c) b m n (attempt_counter_ c) (conns c).
Definition set_attempts n (c : Coordinator) : Coordinator :=
  mkCoord (epoch_ c) (warmth_gen_value_ c) (dep_gen_value_ c) (policy_gen_ c) (policy_ c) (objects_ c) (workers_ c)
    (last_boot_ c) (worker_objects_ c) (budget_ c) (in_flight_ c) (in_flight_count_ c) n (conns c).
Definition set_generations e w d (c : Coordinator) : Coordinator :=
  mkCoord e w d (policy_gen_ c) (policy_ c) (objects_ c) (workers_ c) (last_boot_ c) (worker_objects_ c) (budget_ c)
    (in_flight_ c) (in_flight_count_ c) (attempt_counter_ c) (conns c).

(** ** Generations *)
Definition bump_dependency_generation (c : Coordinator) : Coordinator :=
  set_generations (epoch_ c) (warmth_gen_value_ c) (u64 (dep_gen_value_ c + 1)) c.
Definition bump_warmth_generation (c : Coordinator) : Coordinator :=
  set_generations (epoch_ c) (u64 (warmth_gen_value_ c + 1)) (dep_gen_value_ c) c.

(** The four device-local dimensions, set to one status. *)
Definition set_device_dims (s : DimensionStatus) (o : WarmthObject) : WarmthObject :=
  set_dimension AllocatorReadiness s (set_dimension GraphReadiness s
    (set_dimension KernelReadiness s (set_dimension CudaContextReadiness s o))).

(** The body shared by the epoch roll and the boot change. *)
Definition lose_authority (why reason : string) (o : WarmthObject) : WarmthObject :=
  let o := if is_live_warm_state (state_ o) || bool_decide (state_ o = STALE)
           then transition_ INVALIDATED why o else o in
  set_device_dims D_COLD (set_invalidation_reason reason o).

(** The attempts in the order of their ids. *)
Definition attempt_le (a b : Z * AttemptInfo) : Prop := a.1 <= b.1.
#[export] Instance attempt_le_dec : RelDecision attempt_le.
Proof. intros a b. unfold attempt_le. apply _. Defined.
Definition attempts_in_order (m : gmap Z AttemptInfo) : list (Z * AttemptInfo) := merge_sort attempt_le (map_to_list m).

Definition release_attempt (i : AttemptInfo) (b : BudgetTracker) : BudgetTracker :=
  let b := release_ (reservation_id i) b in
  if op_reservation_id i =? 0 then b else release_ (op_reservation_id i) b.

Definition roll_epoch (c : Coordinator) : Coordinator :=
  let c := set_generations (next (epoch_ c)) (u64 (warmth_gen_value_ c + 1)) (u64 (dep_gen_value_ c + 1)) c in
  let c := set_objects (lose_authority "authority roll" "coordinator_epoch_rolled" <$> objects_ c) c in
  let b := fold_left (fun b kv => release_attempt kv.2 b) (attempts_in_order (in_flight_ c)) (budget_ c) in
  let n := if decide (in_flight_ c = ∅) then in_flight_count_ c else 0 in
  set_flight b ∅ n c.

(** ** Views *)
Definition object_count (c : Coordinator) : nat := size (objects_ c).
Definition objects (c : Coordinator) : list WarmthObject := map snd (in_order (objects_ c)).
Definition outstanding_budget (c : Coordinator) : nat := outstanding (budget_ c).
Definition in_flight_attempts (c : Coordinator) : nat := size (in_flight_ c).
Definition registered_workers (c : Coordinator) : nat := size (workers_ c).
Definition coord_balanced (c : Coordinator) : bool := bool_decide (outstanding (budget_ c) = 0%nat).
Definition find_object (id : WarmthObjectId) (c : Coordinator) : option WarmthObject := objects_ c !! id.

(** ** Objects a worker announces *)

(** An object the coordinator does not know yet. *)
Definition observed_copy (o : WarmthObject) : WarmthObject :=
  let o := if is_execution_ready (state_ o) then transition_ DISCOVERED "observed-not-live" o else o in
  set_provenance P_REPORTED o.

(** [worker_objects_[w].insert(id)]. *)
Definition own (w : WorkerId) (id : WarmthObjectId) (c : Coordinator) : Coordinator :=
  set_worker_objects (<[w := {[id]} ∪ default ∅ (worker_objects_ c !! w)]> (worker_objects_ c)) c.

Definition hello_object (w : WorkerId) (o : WarmthObject) (c : Coordinator) : Coordinator :=
  let c := match objects_ c !! id_ o with
           | None => set_objects (<[id_ o := observed_copy o]> (objects_ c)) c
           | Some _ => c
           end in
  own w (id_ o) c.

(** The update of a known object from a report. *)
Definition refresh (now : Z) (o cur : WarmthObject) : WarmthObject :=
  let cur := set_dimensions (dims_ o) cur in
  let cur := mark_used now cur in
  let cur := set_observed_ttr_ms (observed_ttr_ms_ o) cur in
  let cur := set_residency (residency_ o) cur in
  let cur := set_provenance P_REPORTED cur in
  if is_execution_ready (state_ o) && negb (is_execution_ready (state_ cur))
  then transition_ DISCOVERED "observed-not-live" cur else cur.

Definition report_object (w : WorkerId) (now : Z) (o : WarmthObject) (c : Coordinator) : Coordinator :=
  let c := match objects_ c !! id_ o with
           | None => set_objects (<[id_ o := observed_copy o]> (objects_ c)) c
           | Some cur => set_objects (<[id_ o := refresh now o cur]> (objects_ c)) c
           end in
  own w (id_ o) c.

(** The loops over a set of ids that change the stored objects in place. *)
Definition on_objects (ids : gset WarmthObjectId) (h : WarmthObjectId -> WarmthObject -> WarmthObject) (c : Coordinator)
  : Coordinator :=
  set_objects (map_imap (fun id o => Some (if decide (id ∈ ids) then h id o else o)) (objects_ c)) c.

Definition invalidate_worker_objects_locked (w : WorkerId) (c : Coordinator) : Coordinator :=
  match worker_objects_ c !! w with
  | None => c
  | Some ids =>
      let c := on_objects ids (fun _ => lose_authority "worker_boot_changed" "worker_boot_changed") c in
      set_worker_objects (<[w := ∅]> (worker_objects_ c)) c
  end.

(** ** Frames *)

(** What is sent back on the connection, if anything. *)
Abbreviation reply := (option Frame).
Definition frame_plain (t : MessageType) : Frame := mkFrame t 0 [].
Definition frame_ack (a : HelloAck) : Frame := mkFrame HELLO_ACK 0 (encode_hello_ack a).

(** [boot] of the connection that the worker table holds for [w]. *)
Definition live_boot (w : WorkerId) (c : Coordinator) : option WorkerBootId :=
  h ← workers_ c !! w; conn_boot <$> conns c !! h.

(** The code reads the generations of the answer right after the critical
    section, from the atomics; here they are read at its end. *)
Definition handle_hello (cs : handle) (h : Hello) (c : Coordinator) : reply * Coordinator :=
  if negb (protocol_version h =? kProtocolVersion) then
    (Some (frame_ack (mkHelloAck false "protocol version mismatch" 0 0 0 0)), c)
  else
    let ack a r c := Some (frame_ack (mkHelloAck a r (value (epoch_ c)) (warmth_gen_value_ c) (dep_gen_value_ c)
                                        (value (policy_gen_ c)))) in
    let w := hello_worker h in
    if bool_decide (is_Some (live_boot w c)) && negb (bool_decide (live_boot w c = Some (hello_boot h))) then
      (ack false "stale boot (worker already registered)" c, c)
    else
      let c := match last_boot_ c !! w with
               | Some b => if decide (b = hello_boot h) then c else invalidate_worker_objects_locked w c
               | None => c
               end in
      let c := set_last_boot (<[w := hello_boot h]> (last_boot_ c)) c in
      let c := set_conns (<[cs := mkConn w (hello_boot h) (hello_node h) true (hello_backend h)]> (conns c)) c in
      let c := set_workers (<[w := cs]> (workers_ c)) c in
      let c := fold_left (fun c o => hello_object w o c) (observed h) c in
      (ack true "" c, c).

(** The authority test shared by reports and results. *)
Definition current_authority (s : ConnState) (boot : WorkerBootId) (epoch wg dg : Z) (c : Coordinator) : bool :=
  registered s && bool_decide (conn_boot s = boot) && (epoch =? value (epoch_ c)) &&
  (wg =? warmth_gen_value_ c) && (dg =? dep_gen_value_ c).

Definition handle_report (cs : handle) (p : ReportPayload) (clock : nat -> Z) (c : Coordinator) : reply * Coordinator :=
  let s := default conn_new (conns c !! cs) in
  if negb (current_authority s (report_boot p) (report_epoch p) (report_warmth_gen p) (report_dep_gen p) c) then
    (Some (frame_plain ERROR), c)
  else
    (None, (fold_left (fun ic o => (S ic.1, report_object (conn_id s) (clock ic.1) o ic.2)) (report_objects p) (0%nat, c)).2).

(** The result applied to a known and to an unknown object. *)
Definition completed (wg : Z) (r : WarmResult) (t1 t2 : Z) (o : WarmthObject) : WarmthObject :=
  let o := reach_warm "warm_completed" o in
  let o := set_warmth_generation (Gen wg) o in
  let o := set_measured_cost_bytes (result_bytes r) o in
  let o := set_observed_ttr_ms (duration_ms r) o in
  let o := mark_used t2 (mark_prepared t1 o) in
  let o := set_provenance P_MEASURED o in
  set_residency R_DEVICE_RESIDENT o.
Definition revived (o : WarmthObject) : WarmthObject :=
  if decide (state_ o = INVALIDATED)
  then clear_invalidation_reason (transition_ DISCOVERED "invalidated" o) else o.

Definition apply_result (w : WorkerId) (r : WarmResult) (t1 t2 : Z) (c : Coordinator) : Coordinator :=
  let id := result_object r in
  if success r then
    let o := match objects_ c !! id with
             | None => new_object id APPLICATION_DEFINED Id128_zero Id128_zero "cuda:0" "cuda"
             | Some o => revived o
             end in
    own w id (set_objects (<[id := completed (warmth_gen_value_ c) r t1 t2 o]> (objects_ c)) c)
  else
    match objects_ c !! id with
    | None => c
    | Some o => set_objects (<[id := transition_ FAILED (error r) o]> (objects_ c)) c
    end.

(** [in_flight_.erase], the count and the two releases. *)
Definition settle (a : Z) (i : AttemptInfo) (c : Coordinator) : Coordinator :=
  set_flight (release_attempt i (budget_ c)) (delete a (in_flight_ c))
    (if 0 <? in_flight_count_ c then in_flight_count_ c - 1 else in_flight_count_ c) c.

Definition handle_warm_result (cs : handle) (r : WarmResult) (clock : nat -> Z) (c : Coordinator) : reply * Coordinator :=
  let s := default conn_new (conns c !! cs) in
  if negb (current_authority s (result_boot r) (result_epoch r) (result_warmth_gen r) (result_dep_gen r) c) then (None, c)
  else
    match in_flight_ c !! result_attempt r with
    | None => (None, c)
    | Some i =>
        if decide (at_worker i = conn_id s /\ at_object i = result_object r) then
          (None, settle (result_attempt r) i (apply_result (conn_id s) r (clock 0%nat) (clock 1%nat) c))
        else (None, c)
    end.

Definition handle_frame (cs : handle) (f : Frame) (clock : nat -> Z) (c : Coordinator) : reply * Coordinator :=
  match type f with
  | HELLO =>
      match decode_hello (payload f) with
      | Ok (h, _) => handle_hello cs h c
      | Err _ => (Some (frame_plain ERROR), c)
      end
  | REPORT =>
      match decode_report (payload f) with
      | Ok (p, _) => handle_report cs p clock c
      | Err _ => (None, c)
      end
  | WARM_RESULT =>
      match decode_warm_result (payload f) with
      | Ok (r, _) => handle_warm_result cs r clock c
      | Err _ => (None, c)
      end
  | PING => (Some (frame_plain PONG), c)
  | _ => (None, c)
  end.

(** The decay on disconnection; the clock is read once per object. *)
Definition disconnected (p : DecayPolicy) (now : Z) (o : WarmthObject) : WarmthObject :=
  let next := decay_object o p now false false false true in
  let o := if dr_changed next then transition_ (dr_state next) "worker_disconnect" o else o in
  set_device_dims D_SUSPECT o.

Definition on_disconnect (cs : handle) (clock : WarmthObjectId -> Z) (c : Coordinator) : Coordinator :=
  let s := default conn_new (conns c !! cs) in
  if negb (registered s) then c
  else
    let c := if bool_decide (workers_ c !! conn_id s = Some cs)
             then set_workers (delete (conn_id s) (workers_ c)) c else c in
    match worker_objects_ c !! conn_id s with
    | None => c
    | Some ids => on_objects ids (fun id => disconnected (decay (policy_ c)) (clock id)) c
    end.

(** ** issue_warm *)

(** The worker the command goes to. *)
Definition pick_worker (preferred : option WorkerId) (c : Coordinator) : option handle :=
  match preferred with
  | Some w => workers_ c !! w
  | None => snd <$> head (in_order (workers_ c))
  end.

(** The first half: the attempt, the connection and the message to send. *)
Definition issue_begin (object : WarmthObjectId) (action : WarmthAction) (preferred : option WorkerId) (c : Coordinator)
  : option (Z * handle * WarmTopic) * Coordinator :=
  match pick_worker preferred c with
  | None => (None, c)
  | Some h =>
      let s := default conn_new (conns c !! h) in
      if negb (registered s) then (None, c)
      else
        let '(reservation, _, b) := reserve DEVICE_MEMORY kDefaultWarmBytes "warm" (budget_ c) in
        if reservation =? 0 then (None, set_flight b (in_flight_ c) (in_flight_count_ c) c)
        else
          let '(op_reservation, _, b) := reserve CONCURRENT_WARMING_OPS 1 "warm" b in
          let attempt := attempt_counter_ c in
          let c := set_attempts (u64 (attempt_counter_ c + 1)) c in
          let info := mkAttempt object (conn_id s) reservation op_reservation in
          let c := set_flight b (<[attempt := info]> (in_flight_ c)) (u64 (in_flight_count_ c + 1)) c in
          let topic := mkTopic (value (epoch_ c)) (warmth_gen_value_ c) [mkCmd object (enum_code action) attempt] in
          (Some (attempt, h, topic), c)
  end.

(** The second half when the send failed. *)
Definition issue_failed (attempt : Z) (c : Coordinator) : Coordinator :=
  match in_flight_ c !! attempt with
  | None => c
  | Some i => settle attempt i c
  end.

(** The whole call, with the outcome of the send. *)
Definition issue_warm (object : WarmthObjectId) (action : WarmthAction) (preferred : option WorkerId)
    (sent : handle -> WarmTopic -> bool) (c : Coordinator) : bool * Coordinator :=
  match issue_begin object action preferred c with
  | (None, c) => (false, c)
  | (Some (attempt, h, topic), c) => if sent h topic then (true, c) else (false, issue_failed attempt c)
  end.

(** The condition [wait_until_settled] waits for. *)
Definition settled (c : Coordinator) : bool := in_flight_count_ c =? 0.

(** ** A connection's thread

    The loop of [process_connection] on everything the peer will ever send:
    the replies in order and the state after the disconnection.  [clock n] is
    the clock during turn [n].  Each turn takes at least the sixteen bytes of
    an empty frame off the stream, so fuel above the length of the stream is
    enough; [None] is running out of it. *)
Fixpoint process_connection (fuel turn : nat) (cs : handle) (clock : nat -> nat -> Z) (gone : WarmthObjectId -> Z)
    (stream : bytes) (c : Coordinator) : option (list Frame * Coordinator) :=
  match fuel with
  | O => None
  | S fuel =>
      match read stream with
      | Err _ => Some ([], on_disconnect cs gone c)
      | Ok (f, rest) =>
          let '(r, c) := handle_frame cs f (clock turn) c in
          match process_connection fuel (S turn) cs clock gone rest c with
          | Some (rs, c) => Some (option_list r ++ rs, c)
          | None => None
          end
      end
  end.

(** ** Histories *)

(** The counters have room for one more attempt. *)
Definition coord_room (c : Coordinator) : Prop :=
  next_id_ (budget_ c) + 2 < 2 ^ 64 /\ usage (budget_ c) DEVICE_MEMORY + kDefaultWarmBytes < 2 ^ 64 /\
  usage (budget_ c) CONCURRENT_WARMING_OPS + 1 < 2 ^ 64 /\ attempt_counter_ c + 1 < 2 ^ 64.
#[export] Instance coord_room_dec c : Decision (coord_room c).
Proof. unfold coord_room. apply _. Defined.

Inductive coord_step : Coordinator -> Coordinator -> Prop :=
  | cs_frame cs f clock c : coord_step c (handle_frame cs f clock c).2
  | cs_disconnect cs clock c : coord_step c (on_disconnect cs clock c)
  | cs_bump_dependency c : coord_step c (bump_dependency_generation c)
  | cs_bump_warmth c : coord_step c (bump_warmth_generation c)
  | cs_roll c : coord_step c (roll_epoch c)
  | cs_issue object action preferred c : coord_room c -> coord_step c (issue_begin object action preferred c).2
  | cs_send_failed attempt c : coord_step c (issue_failed attempt c).

Definition coord_reach : Coordinator -> Prop := rtc coord_step coordinator_new.

(** ** Lemmas: frame conditions *)

(** The part of the state that admission and settlement work on. *)
Definition flight (c : Coordinator) : BudgetTracker * gmap Z AttemptInfo * Z * Z :=
  (budget_ c, in_flight_ c, in_flight_count_ c, attempt_counter_ c).

Lemma fold_left_keep {A S T} (g : S -> T) (h : S -> A -> S) l s : (forall s a, g (h s a) = g s) -> g (fold_left h l s) = g s.
Proof. intros H. revert s. induction l as [|a l IH]; intros s; [done|]. cbn. by rewrite IH. Qed.

Lemma hello_object_flight w o c : flight (hello_object w o c) = flight c.
Proof. unfold hello_object. by destruct (_ !! _). Qed.

Lemma report_object_flight w now o c : flight (report_object w now o c) = flight c.
Proof. unfold report_object. by destruct (_ !! _). Qed.

Lemma invalidate_worker_flight w c : flight (invalidate_worker_objects_locked w c) = flight c.
Proof. unfold invalidate_worker_objects_locked. by destruct (_ !! _). Qed.

Lemma apply_result_flight w r t1 t2 c : flight (apply_result w r t1 t2 c) = flight c.
Proof. unfold apply_result. destruct (success r); [done|]. by destruct (_ !! _). Qed.

Lemma handle_hello_flight cs h c : flight (handle_hello cs h c).2 = flight c.
Proof.
  unfold handle_hello. destruct (negb _); [done|]. destruct (_ && _); [done|]. cbn zeta. cbn [snd].
  rewrite (fold_left_keep flight) by (intros; apply hello_object_flight).
  destruct (last_boot_ c !! hello_worker h) as [b|]; [destruct (decide (b = hello_boot h))|]; try done.
  by rewrite <- (invalidate_worker_flight (hello_worker h) c).
Qed.

Lemma handle_report_flight cs p clock c : flight (handle_report cs p clock c).2 = flight c.
Proof.
  unfold handle_report. destruct (negb _); [done|]. cbn [snd].
  rewrite (fold_left_keep (fun ic : nat * Coordinator => flight ic.2)); [done|].
  intros [i s] a. apply report_object_flight.
Qed.

Lemma on_disconnect_flight cs clock c : flight (on_disconnect cs clock c) = flight c.
Proof.
  unfold on_disconnect. destruct (negb _); [done|]. destruct (bool_decide _); by destruct (_ !! _).
Qed.

(** ** Lemmas: what is in flight *)

(** The reservations that an attempt holds. *)
Definition attempt_entries (i : AttemptInfo) : ledger :=
  (reservation_id i, mkRes DEVICE_MEMORY kDefaultWarmBytes "warm") ::
  if op_reservation_id i =? 0 then [] else [(op_reservation_id i, mkRes CONCURRENT_WARMING_OPS 1 "warm")].
Definition attempts_ledger (l : list (Z * AttemptInfo)) : ledger := concat (map (fun kv => attempt_entries kv.2) l).
Definition flight_ledger (m : gmap Z AttemptInfo) : ledger := attempts_ledger (map_to_list m).

Lemma attempts_ledger_perm l l' : l ≡ₚ l' -> attempts_ledger l ≡ₚ attempts_ledger l'.
Proof.
  unfold attempts_ledger. induction 1 as [|x l l' H IH|x y l|l l' l'' H1 IH1 H2 IH2]; cbn [map concat].
  - done.
  - by rewrite IH.
  - rewrite !app_assoc. by rewrite (Permutation_app_comm (attempt_entries y.2)).
  - by rewrite IH1.
Qed.

Lemma flight_ledger_insert m a i : m !! a = None -> flight_ledger (<[a := i]> m) ≡ₚ attempt_entries i ++ flight_ledger m.
Proof. intros Hn. unfold flight_ledger. by rewrite (attempts_ledger_perm _ _ (map_to_list_insert m a i Hn)). Qed.

Lemma flight_ledger_delete m a i : m !! a = Some i -> flight_ledger m ≡ₚ attempt_entries i ++ flight_ledger (delete a m).
Proof.
  intros Hs. rewrite <- (insert_delete_id m a i Hs) at 1. apply flight_ledger_insert, lookup_delete_eq.
Qed.

Lemma release_attempt_holds i b l : holds b (attempt_entries i ++ l) -> holds (release_attempt i b) l.
Proof.
  unfold release_attempt, attempt_entries. intros Hb. apply holds_release in Hb.
  destruct (op_reservation_id i =? 0); [done|]. by apply holds_release in Hb.
Qed.

Lemma release_attempts_holds l b : holds b (attempts_ledger l) ->
  holds (fold_left (fun b kv => release_attempt kv.2 b) l b) [].
Proof.
  revert b. induction l as [|kv l IH]; intros b Hb; [done|]. cbn [fold_left]. apply IH.
  apply release_attempt_holds. exact Hb.
Qed.

Lemma attempts_in_order_perm m : attempts_in_order m ≡ₚ map_to_list m.
Proof. apply merge_sort_Permutation. Qed.

(** The accounting invariant.  The coordinator never sets a limit. *)
Record coord_inv (c : Coordinator) : Prop := {
  ci_holds : holds (budget_ c) (flight_ledger (in_flight_ c));
  ci_limits : limits_ (budget_ c) = limits_default;
  ci_ops : forall a i, in_flight_ c !! a = Some i -> op_reservation_id i <> 0;
  ci_count : in_flight_count_ c = Z.of_nat (size (in_flight_ c));
  ci_fresh : forall a i, in_flight_ c !! a = Some i -> 0 < a < attempt_counter_ c;
  ci_range : in_flight_count_ c < attempt_counter_ c < 2 ^ 64 }.

Lemma coord_inv_flight c c' : flight c' = flight c -> coord_inv c -> coord_inv c'.
Proof. unfold flight. intros [= Hb Hf Hn Ha] [H1 H2 H3 H4 H5 H6]. constructor; rewrite ?Hb, ?Hf, ?Hn, ?Ha; done. Qed.

Lemma coord_inv_new : coord_inv coordinator_new.
Proof. constructor; [apply holds_new|done..]. Qed.

Lemma unlimited_admits b k a : limits_ b = limits_default -> ~ over_limit b k a.
Proof. unfold over_limit. intros ->. by destruct k; intros []. Qed.

Lemma release_attempt_limits i b : limits_ (release_attempt i b) = limits_ b.
Proof. unfold release_attempt. destruct (op_reservation_id i =? 0); by rewrite !release_limits. Qed.

Lemma settle_inv a i c : coord_inv c -> in_flight_ c !! a = Some i -> coord_inv (settle a i c).
Proof.
  intros [Hb Hlim Hops Hn Hf Hr] Ha. pose proof (map_size_delete_Some a (in_flight_ c) (mk_is_Some _ _ Ha)) as Hs.
  assert (size (in_flight_ c) <> 0)%nat as Hne.
  { intros E. apply map_size_empty_iff in E. rewrite E in Ha. done. }
  assert (in_flight_count_ (settle a i c) = in_flight_count_ c - 1) as Hc.
  { cbn. rewrite (proj2 (Z.ltb_lt _ _)) by lia. done. }
  constructor; cbn [settle set_flight in_flight_ budget_ attempt_counter_] in *.
  - apply release_attempt_holds. eapply holds_perm; [|exact Hb]. by apply flight_ledger_delete.
  - by rewrite release_attempt_limits.
  - intros a' i' [_ Hl]%lookup_delete_Some. by apply (Hops a' i').
  - rewrite Hc, Hs. lia.
  - intros a' i' [_ Hl]%lookup_delete_Some. by apply (Hf a' i').
  - rewrite Hc. lia.
Qed.

(** With no limits both reservations of an attempt succeed. *)
Lemma reserve_pair b l : holds b l -> limits_ b = limits_default ->
  next_id_ b + 2 < 2 ^ 64 -> usage b DEVICE_MEMORY + kDefaultWarmBytes < 2 ^ 64 ->
  usage b CONCURRENT_WARMING_OPS + 1 < 2 ^ 64 ->
  let '(res, _, b1) := reserve DEVICE_MEMORY kDefaultWarmBytes "warm" b in
  let '(op, _, b2) := reserve CONCURRENT_WARMING_OPS 1 "warm" b1 in
  0 < res /\ 0 < op /\ limits_ b2 = limits_default /\
  forall object w, holds b2 (attempt_entries (mkAttempt object w res op) ++ l).
Proof.
  intros Hb Hlim Hn Hu Hc.
  assert (op_fine (BReserve DEVICE_MEMORY kDefaultWarmBytes "warm") b) as Hf1 by (split_and!; [done|lia|lia]).
  pose proof (holds_reserve _ _ Hb DEVICE_MEMORY kDefaultWarmBytes "warm" Hf1 eq_refl) as H1.
  destruct (reserve DEVICE_MEMORY _ _ _) as [[res e1] b1].
  destruct H1 as [(_ & _ & Ho)|(Hres & _ & Hb1 & Hn1 & Hl1 & _)]; [by apply unlimited_admits in Ho|].
  assert (usage b1 CONCURRENT_WARMING_OPS = usage b CONCURRENT_WARMING_OPS) as Hu1
    by by rewrite (holds_usage _ _ Hb1), (holds_usage _ _ Hb).
  assert (op_fine (BReserve CONCURRENT_WARMING_OPS 1 "warm") b1) as Hf2 by (split_and!; [done|lia|lia]).
  pose proof (holds_reserve _ _ Hb1 CONCURRENT_WARMING_OPS 1 "warm" Hf2 ltac:(lia)) as H2.
  destruct (reserve CONCURRENT_WARMING_OPS _ _ b1) as [[op e2] b2].
  destruct H2 as [(_ & _ & Ho)|(Hop & _ & Hb2 & _ & Hl2 & _)]; [apply unlimited_admits in Ho; [done|congruence]|].
  split_and!; [done|done|congruence|]. intros object w. unfold attempt_entries. cbn [reservation_id op_reservation_id].
  rewrite (proj2 (Z.eqb_neq op 0)) by lia. eapply holds_perm; [apply perm_swap|exact Hb2].
Qed.

(** What [issue_begin] does when the chosen worker is registered. *)
Lemma issue_begin_admits object action preferred h c : coord_inv c -> coord_room c ->
  pick_worker preferred c = Some h -> registered (default conn_new (conns c !! h)) = true ->
  exists b i, at_object i = object /\ at_worker i = conn_id (default conn_new (conns c !! h)) /\
    issue_begin object action preferred c =
      (Some (attempt_counter_ c, h,
             mkTopic (value (epoch_ c)) (warmth_gen_value_ c) [mkCmd object (enum_code action) (attempt_counter_ c)]),
       set_flight b (<[attempt_counter_ c := i]> (in_flight_ c)) (in_flight_count_ c + 1)
         (set_attempts (attempt_counter_ c + 1) c)) /\
    in_flight_ c !! attempt_counter_ c = None /\ op_reservation_id i <> 0 /\ limits_ b = limits_default /\
    holds b (attempt_entries i ++ flight_ledger (in_flight_ c)).
Proof.
  intros [Hb Hlim _ Hcnt Hf Hr] (Hn & Hu & Hc & Ha) Hp Hreg. unfold issue_begin. rewrite Hp. cbn zeta. rewrite Hreg.
  pose proof (reserve_pair _ _ Hb Hlim Hn Hu Hc) as H. cbn [negb].
  destruct (reserve DEVICE_MEMORY _ _ _) as [[res e1] b1]. destruct (reserve CONCURRENT_WARMING_OPS _ _ b1) as [[op e2] b2].
  destruct H as (Hres & Hop & Hl2 & Hb2). rewrite (proj2 (Z.eqb_neq res 0)) by lia.
  assert (in_flight_ c !! attempt_counter_ c = None) as Hnone.
  { destruct (in_flight_ c !! attempt_counter_ c) eqn:E; [|done]. apply Hf in E. lia. }
  exists b2, (mkAttempt object (conn_id (default conn_new (conns c !! h))) res op).
  cbn [attempt_counter_ set_attempts set_flight epoch_ warmth_gen_value_ in_flight_ in_flight_count_].
  rewrite (wrap_small 64 (attempt_counter_ c + 1)), (wrap_small 64 (in_flight_count_ c + 1)) by (unfold uint; lia).
  split_and!; try done. cbn. lia.
Qed.

Lemma issue_begin_inv object action preferred c : coord_inv c -> coord_room c ->
  coord_inv (issue_begin object action preferred c).2.
Proof.
  intros Hi Hroom. destruct (pick_worker preferred c) as [h|] eqn:Hp; [|by unfold issue_begin; rewrite Hp].
  destruct (registered (default conn_new (conns c !! h))) eqn:Hreg;
    [|by unfold issue_begin; rewrite Hp; cbn zeta; rewrite Hreg].
  destruct (issue_begin_admits object action preferred h c Hi Hroom Hp Hreg)
    as (b & i & _ & _ & -> & Hnone & Hop & Hlim & Hb).
  pose proof Hi as [_ _ Hops Hcnt Hf Hr]. destruct Hroom as (_ & _ & _ & Ha).
  constructor; cbn [snd set_flight set_attempts in_flight_ budget_ attempt_counter_ in_flight_count_].
  - eapply holds_perm; [|exact Hb]. by rewrite flight_ledger_insert.
  - done.
  - intros a j [[_ <-]|[_ Hl]]%lookup_insert_Some; [done|by apply Hops in Hl].
  - rewrite map_size_insert_None by done. lia.
  - intros a j [[<- _]|[_ Hl]]%lookup_insert_Some; [lia|]. apply Hf in Hl. lia.
  - lia.
Qed.

Lemma roll_epoch_inv c : coord_inv c -> coord_inv (roll_epoch c).
Proof.
  intros [Hb Hlim _ Hn Hf Hr]. assert ((if decide (in_flight_ c = ∅) then in_flight_count_ c else 0) = 0) as E.
  { destruct (decide _) as [E|]; [|done]. rewrite Hn, E. by rewrite map_size_empty. }
  constructor; cbn [roll_epoch set_flight set_objects set_generations in_flight_ budget_ attempt_counter_ in_flight_count_];
    rewrite ?E; try done.
  - apply release_attempts_holds. eapply holds_perm; [|exact Hb].
    symmetry. apply attempts_ledger_perm, attempts_in_order_perm.
  - rewrite (fold_left_keep limits_); [done|]. intros. apply release_attempt_limits.
  - lia.
Qed.

Lemma coord_step_inv c c' : coord_step c c' -> coord_inv c -> coord_inv c'.
Proof.
  intros H Hi. destruct H as [cs f clock c|cs clock c|c|c|c|object action preferred c Hr|attempt c].
  - unfold handle_frame. destruct (type f); try done.
    + destruct (decode_hello _) as [[h ?]|]; [|done]. by eapply coord_inv_flight; [apply handle_hello_flight|].
    + destruct (decode_report _) as [[p ?]|]; [|done]. by eapply coord_inv_flight; [apply handle_report_flight|].
    + destruct (decode_warm_result _) as [[r ?]|]; [|done]. unfold handle_warm_result.
      destruct (negb _); [done|]. destruct (in_flight_ c !! _) as [i|] eqn:Hl; [|done].
      destruct (decide _); [|done]. cbn [snd].
      pose proof (apply_result_flight (conn_id (default conn_new (conns c !! cs))) r (clock 0%nat) (clock 1%nat) c) as Hfl.
      apply settle_inv; [by eapply coord_inv_flight|].
      unfold flight in Hfl. injection Hfl as _ Hm _ _. by rewrite Hm.
  - by eapply coord_inv_flight; [apply on_disconnect_flight|].
  - by apply (coord_inv_flight c).
  - by apply (coord_inv_flight c).
  - by apply roll_epoch_inv.
  - by apply issue_begin_inv.
  - unfold issue_failed. destruct (in_flight_ c !! attempt) as [i|] eqn:Hl; [|done]. by apply settle_inv.
Qed.

Lemma coord_reach_inv c : coord_reach c -> coord_inv c.
Proof.
  intros H. pose proof coord_inv_new as Hi. revert Hi. unfold coord_reach in H. induction H; [done|].
  intros Hi. apply IHrtc. by eapply coord_step_inv.
Qed.

(** ** Lemmas: the worker table *)

Definition table (c : Coordinator) : gmap WorkerId handle * gmap handle ConnState := (workers_ c, conns c).
Definition registered_table (c : Coordinator) : Prop :=
  forall w h, workers_ c !! w = Some h -> registered (default conn_new (conns c !! h)) = true.

Lemma registered_table_eq c c' : table c' = table c -> registered_table c -> registered_table c'.
Proof. unfold table, registered_table. by intros [= -> ->]. Qed.

Lemma hello_object_table w o c : table (hello_object w o c) = table c.
Proof. unfold hello_object. by destruct (_ !! _). Qed.
Lemma report_object_table w now o c : table (report_object w now o c) = table c.
Proof. unfold report_object. by destruct (_ !! _). Qed.
Lemma invalidate_worker_table w c : table (invalidate_worker_objects_locked w c) = table c.
Proof. unfold invalidate_worker_objects_locked. by destruct (_ !! _). Qed.

Lemma handle_report_table cs p clock c : table (handle_report cs p clock c).2 = table c.
Proof.
  unfold handle_report. destruct (negb _); [done|]. cbn [snd].
  rewrite (fold_left_keep (fun ic : nat * Coordinator => table ic.2)); [done|].
  intros [i s] a. apply report_object_table.
Qed.

Lemma handle_warm_result_table cs r clock c : table (handle_warm_result cs r clock c).2 = table c.
Proof.
  unfold handle_warm_result. destruct (negb _); [done|]. destruct (in_flight_ c !! _); [|done].
  destruct (decide _); [|done]. unfold apply_result. cbn [snd]. destruct (success r); [done|]. by destruct (objects_ c !! _).
Qed.

(** The table after an accepted registration. *)
Lemma handle_hello_table cs h c :
  table (handle_hello cs h c).2 = table c \/
  table (handle_hello cs h c).2 =
    (<[hello_worker h := cs]> (workers_ c),
     <[cs := mkConn (hello_worker h) (hello_boot h) (hello_node h) true (hello_backend h)]> (conns c)).
Proof.
  unfold handle_hello. destruct (negb _); [by left|]. destruct (_ && _); [by left|]. right. cbn zeta. cbn [snd].
  rewrite (fold_left_keep table) by (intros; apply hello_object_table).
  pose proof (invalidate_worker_table (hello_worker h) c) as E. unfold table in *. injection E as E1 E2.
  destruct (last_boot_ c !! hello_worker h) as [b|]; [destruct (decide (b = hello_boot h))|]; cbn; by rewrite ?E1, ?E2.
Qed.

Lemma on_disconnect_workers cs clock c :
  conns (on_disconnect cs clock c) = conns c /\
  forall w h, workers_ (on_disconnect cs clock c) !! w = Some h -> workers_ c !! w = Some h.
Proof.
  unfold on_disconnect. destruct (negb _); [done|]. destruct (bool_decide _).
  - destruct (_ !! _); (split; [done|]); cbn; intros w h Hl; by apply lookup_delete_Some in Hl as [_ Hl].
  - by destruct (_ !! _).
Qed.

Lemma coord_step_registered c c' : coord_step c c' -> registered_table c -> registered_table c'.
Proof.
  intros H Hi. destruct H as [cs f clock c|cs clock c|c|c|c|object action preferred c Hr|attempt c].
  - unfold handle_frame. destruct (type f); try done.
    + destruct (decode_hello _) as [[h ?]|]; [|done].
      destruct (handle_hello_table cs h c) as [E|E]; [by eapply registered_table_eq|].
      unfold table in E. injection E as E1 E2. intros w k. rewrite E1, E2. intros Hl.
      destruct (decide (k = cs)) as [->|Hne]; [by rewrite lookup_insert_eq|].
      rewrite lookup_insert_ne by done. apply lookup_insert_Some in Hl as [[_ ?]|[_ Hl]]; [done|by apply (Hi w)].
    + destruct (decode_report _) as [[p ?]|]; [|done]. eapply registered_table_eq; [apply handle_report_table|done].
    + destruct (decode_warm_result _) as [[r ?]|]; [|done].
      eapply registered_table_eq; [apply handle_warm_result_table|done].
  - intros w h. destruct (on_disconnect_workers cs clock c) as [-> Hw]. intros Hl%Hw. by apply (Hi w).
  - done.
  - done.
  - done.
  - unfold issue_begin. destruct (pick_worker preferred c) as [h|]; [|done]. cbn zeta. destruct (negb _); [done|].
    destruct (reserve _ _ _ _) as [[? ?] b]. destruct (_ =? 0); [done|]. by destruct (reserve _ _ _ b) as [[? ?] ?].
  - unfold issue_failed. by destruct (_ !! _).
Qed.

Lemma coord_reach_registered c : coord_reach c -> registered_table c.
Proof.
  intros H. assert (registered_table coordinator_new) as Hi by done. revert Hi. unfold coord_reach in H.
  induction H; [done|]. intros Hi. apply IHrtc. by eapply coord_step_registered.
Qed.

Lemma pick_worker_in preferred c h : pick_worker preferred c = Some h -> exists w, workers_ c !! w = Some h.
Proof.
  unfold pick_worker. destruct preferred as [w|]; [by exists w|]. intros Hh.
  destruct (head (in_order (workers_ c))) as [[w k]|] eqn:E; [|done]. injection Hh as <-. exists w.
  apply elem_of_map_to_list. rewrite <- (merge_sort_Permutation key_le (map_to_list (workers_ c))). fold (in_order (workers_ c)).
  destruct (in_order (workers_ c)); [done|]. injection E as ->. by left.
Qed.
