(* ===== verification/Authority.v ===== *)
(** * What the coordinator guarantees

    The theorems about [Coordinator]: the accounting of attempts, the
    monotone authority, who can make an object execution-ready, and what a
    roll, a boot change and a disconnection leave behind. *)

From Stdlib Require Import ZArith Lia String.
From stdpp Require Import base list numbers strings gmap fin_maps sets sorting.
From S2P Require Import Prelude Float64 Identity State Object Decay Budget Ledger Policy Scheduler Codec Protocol Wire Messages Coordinator.
Local Open Scope Z_scope.
Local Open Scope warmth_scope.

(** ** Accounting *)

Lemma attempts_ledger_sum l : Forall (fun kv => op_reservation_id kv.2 <> 0) l ->
  length (attempts_ledger l) = (2 * length l)%nat /\
  ledger_sum DEVICE_MEMORY (attempts_ledger l) = kDefaultWarmBytes * Z.of_nat (length l) /\
  ledger_sum CONCURRENT_WARMING_OPS (attempts_ledger l) = Z.of_nat (length l).
Proof.
  induction 1 as [|[a i] l Hop Hl (IH1 & IH2 & IH3)]; [done|]. cbn [snd] in Hop.
  unfold attempts_ledger in *. cbn [map concat]. rewrite length_app, !ledger_sum_app, IH1, IH2, IH3.
  unfold attempt_entries. rewrite (proj2 (Z.eqb_neq _ 0)) by done.
  cbn [snd length ledger_sum fold_right res_share res_kind res_amount]. unfold res_share.
  rewrite !Nat2Z.inj_succ. cbn [snd res_kind res_amount]. rewrite !decide_True, !decide_False by done.
  rewrite (decide_True (P := CONCURRENT_WARMING_OPS = CONCURRENT_WARMING_OPS)) by done. lia.
Qed.

Lemma coord_inv_accounting c : coord_inv c ->
  outstanding_budget c = (2 * in_flight_attempts c)%nat /\
  usage (budget_ c) DEVICE_MEMORY = kDefaultWarmBytes * Z.of_nat (in_flight_attempts c) /\
  usage (budget_ c) CONCURRENT_WARMING_OPS = Z.of_nat (in_flight_attempts c).
Proof.
  intros [Hb _ Hops _ _ _]. unfold outstanding_budget, in_flight_attempts.
  rewrite (holds_outstanding _ _ Hb), !(holds_usage _ _ Hb). unfold flight_ledger.
  rewrite <- length_map_to_list. apply attempts_ledger_sum, Forall_forall.
  intros [a i] Hin%elem_of_map_to_list. by apply (Hops a).
Qed.

(** C9: accounting.  In every state that the coordinator can reach, each attempt
    in flight holds exactly two live reservations (the device memory and the
    concurrency slot) and nothing else is reserved, whatever the workers
    sent; the atomic counter that [wait_until_settled] waits for is the size of
    the attempt table; and the budget is balanced exactly when nothing is in
    flight. *)
Theorem coord_accounting (c : Coordinator) :
  coord_reach c ->
  outstanding_budget c = (2 * in_flight_attempts c)%nat /\
  usage (budget_ c) DEVICE_MEMORY = kDefaultWarmBytes * Z.of_nat (in_flight_attempts c) /\
  usage (budget_ c) CONCURRENT_WARMING_OPS = Z.of_nat (in_flight_attempts c) /\
  in_flight_count_ c = Z.of_nat (in_flight_attempts c) /\
  coord_balanced c = settled c /\ (settled c = true <-> in_flight_ c = ∅).
Proof.
  intros Hi%coord_reach_inv. destruct (coord_inv_accounting c Hi) as (Ho & Hd & Hc). pose proof (ci_count _ Hi) as Hn.
  assert (settled c = true <-> in_flight_ c = ∅) as Hs.
  { unfold settled. rewrite Z.eqb_eq, Hn, <- map_size_empty_iff. lia. }
  split_and!; try done. unfold coord_balanced, settled, outstanding_budget in *. rewrite Ho, Hn. unfold in_flight_attempts.
  destruct (size (in_flight_ c)); done.
Qed.

(** A worker registers and is given one command. *)
Definition w_example : WorkerId := mkId 7 7.
Definition boot_example : WorkerBootId := mkId 7 8.
Definition o_example : WarmthObjectId := mkId 9 9.
Definition hello_frame (boot : WorkerBootId) (observed : list WarmthObject) : Frame :=
  mkFrame HELLO 0 (encode_hello (mkHello 1 w_example boot (mkId 7 9) 0 "cuda" ["cuda:0"] [1] observed)).
Definition clock0 (n : nat) : Z := 1000 + Z.of_nat n.
Definition c_registered : Coordinator := (handle_frame 0 (hello_frame boot_example []) clock0 coordinator_new).2.
Definition c_issued : Coordinator := (issue_begin o_example INIT_ENGINE None c_registered).2.

Lemma c_registered_reach : coord_reach c_registered.
Proof. apply rtc_once. constructor. Qed.

Lemma c_issued_reach : coord_reach c_issued.
Proof.
  eapply rtc_r; [apply c_registered_reach|]. apply cs_issue. apply (bool_decide_unpack _). vm_compute. exact I.
Qed.

Lemma coord_accounting_witness : outstanding_budget c_issued = 2%nat /\ settled c_issued = false.
Proof.
  destruct (coord_accounting c_issued c_issued_reach) as (H & _ & _ & _ & _ & _). split; [|vm_compute; reflexivity].
  rewrite H. vm_compute. reflexivity.
Defined.

(** C18: [issue_warm].  Without a worker to send to, nothing changes.  With
    one, the command is always admitted, carries the object, the action and a
    fresh attempt id under the current authority, and the outcome is that of
    the send: on success exactly this attempt is added, bound to the object
    and the target; on failure the attempt, both reservations and the
    count are rolled back. Metadata never changes. *)
Theorem issue_warm_spec (object : WarmthObjectId) (action : WarmthAction) (preferred : option WorkerId)
    (sent : handle -> WarmTopic -> bool) (c : Coordinator) :
  coord_reach c -> coord_room c ->
  let '(ok, c') := issue_warm object action preferred sent c in
  match pick_worker preferred c with
  | None => ok = false /\ c' = c
  | Some h =>
      let a := attempt_counter_ c in
      in_flight_ c !! a = None /\ attempt_counter_ c' = a + 1 /\ objects_ c' = objects_ c /\ table c' = table c /\
      ok = sent h (mkTopic (value (epoch_ c)) (warmth_gen_value_ c) [mkCmd object (enum_code action) a]) /\
      (ok = true -> exists i, in_flight_ c' = <[a := i]> (in_flight_ c) /\ at_object i = object /\
         at_worker i = conn_id (default conn_new (conns c !! h)) /\
         outstanding_budget c' = (outstanding_budget c + 2)%nat) /\
      (ok = false -> in_flight_ c' = in_flight_ c /\ in_flight_count_ c' = in_flight_count_ c /\
         outstanding_budget c' = outstanding_budget c /\
         forall k, k = DEVICE_MEMORY \/ k = CONCURRENT_WARMING_OPS -> usage (budget_ c') k = usage (budget_ c) k)
  end.
Proof.
  intros Hc Hroom. pose proof (coord_reach_inv c Hc) as Hi. unfold issue_warm.
  destruct (pick_worker preferred c) as [h|] eqn:Hp; [|by unfold issue_begin; rewrite Hp].
  assert (registered (default conn_new (conns c !! h)) = true) as Hreg.
  { destruct (pick_worker_in _ _ _ Hp) as [w Hw]. by eapply coord_reach_registered. }
  pose proof (issue_begin_inv object action preferred c Hi Hroom) as Hi'.
  destruct (issue_begin_admits object action preferred h c Hi Hroom Hp Hreg)
    as (b & i & Eo & Ew & E & Hnone & Hop & Hlim & Hb).
  rewrite E in *. cbn [snd] in Hi'. set (topic := mkTopic _ _ _) in *. set (c1 := set_flight _ _ _ _) in *.
  destruct (coord_inv_accounting c Hi) as (A1 & A2 & A3).
  destruct (sent h topic) eqn:Hs.
  - split_and!; try done. intros _. exists i. split_and!; try done.
    destruct (coord_inv_accounting c1 Hi') as (B1 & _ & _). rewrite B1, A1.
    unfold in_flight_attempts, c1. cbn [in_flight_ set_flight]. rewrite map_size_insert_None by done. lia.
  - assert (in_flight_ c1 !! attempt_counter_ c = Some i) as Hl by apply lookup_insert_eq.
    unfold issue_failed. rewrite Hl. pose proof (settle_inv _ _ _ Hi' Hl) as Hi2.
    assert (in_flight_ (settle (attempt_counter_ c) i c1) = in_flight_ c) as Ef by (cbn; by apply delete_insert_id).
    destruct (coord_inv_accounting _ Hi2) as (B1 & B2 & B3).
    assert (in_flight_attempts (settle (attempt_counter_ c) i c1) = in_flight_attempts c) as En
      by (unfold in_flight_attempts; by rewrite Ef).
    split_and!; try done. intros _. split_and!; [done| |congruence|].
    + rewrite (ci_count _ Hi2), (ci_count _ Hi). by rewrite Ef.
    + intros k [-> | ->]; congruence.
Qed.

Lemma issue_warm_spec_witness :
  (issue_warm o_example INIT_ENGINE None (fun _ _ => false) c_registered).1 = false /\
  outstanding_budget (issue_warm o_example INIT_ENGINE None (fun _ _ => false) c_registered).2 = 0%nat.
Proof.
  pose proof (issue_warm_spec o_example INIT_ENGINE None (fun _ _ => false) c_registered c_registered_reach
    ltac:(apply (bool_decide_unpack _); vm_compute; exact I)) as H.
  assert (pick_worker None c_registered = Some 0%nat) as E by (vm_compute; reflexivity). rewrite E in H. clear E.
  destruct (issue_warm _ _ _ _ _) as [ok c']. cbn [fst snd]. destruct H as (_ & _ & _ & _ & Hok & _ & Hf).
  split; [exact Hok|]. destruct (Hf Hok) as (_ & _ & Ho & _). rewrite Ho. vm_compute. reflexivity.
Defined.

(** ** The authority only moves forward *)

Lemma next_mono {tag} (g : BasicGeneration tag) : value g <= value (next g).
Proof. unfold next. cbn. case Z.eqb_spec; lia. Qed.

(** How a frame changes the attempts and the epoch. *)
Lemma handle_frame_settles cs f clock c : let c' := (handle_frame cs f clock c).2 in
  (flight c' = flight c \/
   exists r i, in_flight_ c !! result_attempt r = Some i /\ in_flight_ c' = delete (result_attempt r) (in_flight_ c) /\
     attempt_counter_ c' = attempt_counter_ c).
Proof.
  cbn zeta. unfold handle_frame. destruct (type f); try by left.
  - destruct (decode_hello _) as [[h ?]|]; [|by left]. left. apply handle_hello_flight.
  - destruct (decode_report _) as [[p ?]|]; [|by left]. left. apply handle_report_flight.
  - destruct (decode_warm_result _) as [[r ?]|]; [|by left]. unfold handle_warm_result. destruct (negb _); [by left|].
    destruct (in_flight_ c !! _) as [i|] eqn:Hl; [|by left]. destruct (decide _); [|by left]. right. exists r, i. cbn [snd].
    pose proof (apply_result_flight (conn_id (default conn_new (conns c !! cs))) r (clock 0%nat) (clock 1%nat) c) as Hfl.
    unfold flight in Hfl. injection Hfl as _ Hm _ Ha. split_and!; [done| |done]. cbn. by rewrite Hm.
Qed.

(** Attempt ids are never reused: one that is not in flight stays out. *)
Lemma coord_step_attempts c c' : coord_step c c' -> coord_inv c ->
  attempt_counter_ c <= attempt_counter_ c' /\
  forall a, a < attempt_counter_ c -> in_flight_ c !! a = None -> in_flight_ c' !! a = None.
Proof.
  intros H Hi. destruct H as [cs f clock c|cs clock c|c|c|c|object action preferred c Hr|attempt c].
  - destruct (handle_frame_settles cs f clock c) as [E|(r & i & _ & E & Ea)].
    + unfold flight in E. injection E as _ -> _ ->. done.
    + rewrite Ea. split; [lia|]. intros a _ Hn. rewrite E. apply lookup_delete_None. by right.
  - pose proof (on_disconnect_flight cs clock c) as E. unfold flight in E. injection E as _ -> _ ->. done.
  - done.
  - done.
  - split; [done|]. intros. apply lookup_empty.
  - destruct (pick_worker preferred c) as [h|] eqn:Hp; [|by unfold issue_begin; rewrite Hp].
    destruct (registered (default conn_new (conns c !! h))) eqn:Hreg;
      [|by unfold issue_begin; rewrite Hp; cbn zeta; rewrite Hreg].
    destruct (issue_begin_admits object action preferred h c Hi Hr Hp Hreg) as (b & i & _ & _ & -> & _).
    cbn [snd set_flight set_attempts attempt_counter_ in_flight_]. split; [lia|].
    intros a Ha Hn. rewrite lookup_insert_ne by lia. done.
  - unfold issue_failed. destruct (in_flight_ c !! attempt) as [i|]; [|done]. split; [done|].
    intros a _ Hn. apply lookup_delete_None. by right.
Qed.

Lemma coord_steps_attempts c c' : rtc coord_step c c' -> coord_inv c ->
  coord_inv c' /\ forall a, a < attempt_counter_ c -> in_flight_ c !! a = None -> in_flight_ c' !! a = None.
Proof.
  induction 1 as [c|c d c' Hs Hr IH]; intros Hi; [done|].
  destruct (coord_step_attempts _ _ Hs Hi) as [Hle Hn]. destruct IH as [Hi' IH]; [by eapply coord_step_inv|].
  split; [done|]. intros a Ha Hna. apply IH; [lia|by apply Hn].
Qed.

Definition authority (c : Coordinator) : CoordinatorEpoch * Z * Z * WarmthPolicy :=
  (epoch_ c, warmth_gen_value_ c, dep_gen_value_ c, policy_ c).

Lemma hello_object_authority w o c : authority (hello_object w o c) = authority c.
Proof. unfold hello_object. by destruct (_ !! _). Qed.
Lemma report_object_authority w now o c : authority (report_object w now o c) = authority c.
Proof. unfold report_object. by destruct (_ !! _). Qed.

(** No frame changes the generations or the policy. *)
Lemma handle_frame_authority cs f clock c : authority (handle_frame cs f clock c).2 = authority c.
Proof.
  unfold handle_frame. destruct (type f); try done.
  - destruct (decode_hello _) as [[h ?]|]; [|done]. unfold handle_hello.
    destruct (negb _); [done|]. destruct (_ && _); [done|]. cbn zeta. cbn [snd].
    rewrite (fold_left_keep authority) by (intros; apply hello_object_authority).
    destruct (last_boot_ c !! _) as [b|]; [destruct (decide (b = hello_boot h))|]; try done.
    unfold invalidate_worker_objects_locked. by destruct (worker_objects_ c !! _).
  - destruct (decode_report _) as [[p ?]|]; [|done]. unfold handle_report. destruct (negb _); [done|]. cbn [snd].
    rewrite (fold_left_keep (fun ic : nat * Coordinator => authority ic.2)); [done|].
    intros [i s] a. apply report_object_authority.
  - destruct (decode_warm_result _) as [[r ?]|]; [|done]. unfold handle_warm_result. destruct (negb _); [done|].
    destruct (in_flight_ c !! _); [|done]. destruct (decide _); [|done]. unfold apply_result. cbn [snd].
    destruct (success r); [done|]. by destruct (objects_ c !! _).
Qed.

Lemma coord_step_epoch c c' : coord_step c c' -> value (epoch_ c) <= value (epoch_ c').
Proof.
  intros H. destruct H as [cs f clock c|cs clock c|c|c|c|object action preferred c Hr|attempt c]; try done.
  - pose proof (handle_frame_authority cs f clock c) as E. unfold authority in E. injection E as -> _ _ _. done.
  - unfold on_disconnect. destruct (negb _); [done|]. destruct (bool_decide _); by destruct (_ !! _).
  - apply next_mono.
  - unfold issue_begin. destruct (pick_worker preferred c) as [h|]; [|done]. cbn zeta. destruct (negb _); [done|].
    destruct (reserve _ _ _ _) as [[? ?] b]. destruct (_ =? 0); [done|]. by destruct (reserve _ _ _ b) as [[? ?] ?].
  - unfold issue_failed. by destruct (_ !! _).
Qed.

Lemma coord_step_policy c c' : coord_step c c' -> policy_ c' = policy_ c.
Proof.
  intros H. destruct H as [cs f clock c|cs clock c|c|c|c|object action preferred c Hr|attempt c]; try done.
  - pose proof (handle_frame_authority cs f clock c) as E. unfold authority in E. by injection E.
  - unfold on_disconnect. destruct (negb _); [done|]. destruct (bool_decide _); by destruct (_ !! _).
  - unfold issue_begin. destruct (pick_worker preferred c) as [h|]; [|done]. cbn zeta. destruct (negb _); [done|].
    destruct (reserve _ _ _ _) as [[? ?] b]. destruct (_ =? 0); [done|]. by destruct (reserve _ _ _ b) as [[? ?] ?].
  - unfold issue_failed. by destruct (_ !! _).
Qed.

Lemma coord_reach_policy c : coord_reach c -> policy_ c = defaults (Gen 1).
Proof.
  intros H. change (defaults (Gen 1)) with (policy_ coordinator_new). unfold coord_reach in H.
  induction H as [|c d c' Hs Hr IH]; [done|]. rewrite IH. by apply coord_step_policy.
Qed.

Lemma coord_steps_epoch c c' : rtc coord_step c c' -> value (epoch_ c) <= value (epoch_ c').
Proof. induction 1 as [|c d c' Hs Hr IH]; [done|]. apply coord_step_epoch in Hs. lia. Qed.

Lemma stale_epoch s boot e wg dg c : e <> value (epoch_ c) -> current_authority s boot e wg dg c = false.
Proof. intros He. unfold current_authority. rewrite (proj2 (Z.eqb_neq _ _) He). by rewrite andb_false_r. Qed.

(** C11: authority that was rolled never returns.  Whatever happens after a roll
    of the epoch, a report or a result that was made under the old epoch (or
    an older one) is refused: no state changes, and the report is answered
    with an error. *)
Theorem rolled_authority_never_returns (c c' : Coordinator) (cs : handle) (clock : nat -> Z) :
  value (epoch_ c) < 2 ^ 64 - 1 -> rtc coord_step (roll_epoch c) c' ->
  (forall r, result_epoch r <= value (epoch_ c) -> handle_warm_result cs r clock c' = (None, c')) /\
  (forall p, report_epoch p <= value (epoch_ c) -> handle_report cs p clock c' = (Some (frame_plain ERROR), c')).
Proof.
  intros Hlt Hs%coord_steps_epoch.
  assert (value (epoch_ c) < value (epoch_ c')) as He.
  { change (epoch_ (roll_epoch c)) with (next (epoch_ c)) in Hs. unfold next in Hs. cbn [value] in Hs.
    rewrite (proj2 (Z.eqb_neq _ _)) in Hs by lia. lia. }
  split; intros m Hm.
  - unfold handle_warm_result. rewrite stale_epoch by lia. done.
  - unfold handle_report. rewrite stale_epoch by lia. done.
Qed.

Definition result_example : WarmResult := mkResult boot_example 0 0 0 o_example 6 1 true (dlit 1 2) 4096 "".

Lemma rolled_authority_never_returns_witness :
  handle_warm_result 0 result_example clock0 (roll_epoch c_issued) = (None, roll_epoch c_issued).
Proof.
  destruct (rolled_authority_never_returns c_issued (roll_epoch c_issued) 0 clock0) as [H _];
    [vm_compute; reflexivity|apply rtc_refl|].
  apply H, Z.leb_le. vm_compute. reflexivity.
Defined.

(** A result that the coordinator acts on. *)
Definition accepts (cs : handle) (r : WarmResult) (c : Coordinator) : Prop :=
  let s := default conn_new (conns c !! cs) in
  current_authority s (result_boot r) (result_epoch r) (result_warmth_gen r) (result_dep_gen r) c = true /\
  exists i, in_flight_ c !! result_attempt r = Some i /\ at_worker i = conn_id s /\ at_object i = result_object r.

#[export] Instance accepts_dec cs r c : Decision (accepts cs r c).
Proof.
  unfold accepts. apply and_dec; [apply _|]. destruct (in_flight_ c !! result_attempt r) as [i|].
  - destruct (decide (at_worker i = conn_id (default conn_new (conns c !! cs)) /\ at_object i = result_object r)) as [Hd|Hn].
    + left. by exists i.
    + right. intros (j & [= ->] & Hj). done.
  - right. by intros (j & Hj & _).
Defined.

Lemma handle_result_accepted cs r clock c i :
  accepts cs r c -> in_flight_ c !! result_attempt r = Some i ->
  handle_warm_result cs r clock c =
    (None, settle (result_attempt r) i
       (apply_result (conn_id (default conn_new (conns c !! cs))) r (clock 0%nat) (clock 1%nat) c)).
Proof.
  intros (Ha & j & Hj & Hw & Ho) Hi. unfold handle_warm_result. rewrite Ha. cbn [negb]. rewrite Hi.
  rewrite Hj in Hi. injection Hi as ->. by rewrite decide_True.
Qed.

Lemma handle_result_refused cs r clock c : ~ accepts cs r c -> handle_warm_result cs r clock c = (None, c).
Proof.
  intros Hn. unfold handle_warm_result. destruct (current_authority _ _ _ _ _ _) eqn:Ha; [|done]. cbn [negb].
  destruct (in_flight_ c !! result_attempt r) as [i|] eqn:Hl; [|done]. destruct (decide _) as [[Hw Ho]|]; [|done].
  destruct Hn. split; [done|]. by exists i.
Qed.

(** C12: a result is applied at most once.  After a result settled an attempt,
    whatever happens next, no result for that attempt, the same one replayed
    or another one, from any connection, has any effect. *)
Theorem result_applied_once (c c' : Coordinator) (cs : handle) (r : WarmResult) (clock : nat -> Z) :
  coord_reach c -> accepts cs r c -> rtc coord_step (handle_warm_result cs r clock c).2 c' ->
  in_flight_attempts c = S (in_flight_attempts (handle_warm_result cs r clock c).2) /\
  forall cs' r' clock', result_attempt r' = result_attempt r -> handle_warm_result cs' r' clock' c' = (None, c').
Proof.
  intros Hi%coord_reach_inv Ha. pose proof Ha as (_ & i & Hl & _). rewrite (handle_result_accepted _ _ _ _ i Ha Hl).
  set (c0 := apply_result _ _ _ _ _). cbn [snd].
  assert (flight c0 = flight c) as Hfl by apply apply_result_flight.
  assert (in_flight_ c0 = in_flight_ c /\ attempt_counter_ c0 = attempt_counter_ c) as [Ef Ec]
    by (unfold flight in Hfl; injection Hfl as _ -> _ ->; done).
  assert (coord_inv (settle (result_attempt r) i c0)) as Hi1
    by (apply settle_inv; [by eapply coord_inv_flight|by rewrite Ef]).
  intros Hs. destruct (coord_steps_attempts _ _ Hs Hi1) as [_ Hn]. split.
  - unfold in_flight_attempts. cbn [settle set_flight in_flight_]. rewrite Ef.
    pose proof (map_size_delete_Some (result_attempt r) (in_flight_ c) (mk_is_Some _ _ Hl)) as Hsz.
    assert (size (in_flight_ c) <> 0)%nat; [|lia]. intros E%map_size_empty_iff. by rewrite E in Hl.
  - intros cs' r' clock' Er. apply handle_result_refused. intros (_ & j & Hj & _). rewrite Er in Hj.
    rewrite Hn in Hj; [done| |apply lookup_delete_eq].
    change (result_attempt r < attempt_counter_ c0). rewrite Ec. by apply (ci_fresh _ Hi _ i).
Qed.

Lemma accepts_example : accepts 0 result_example c_issued.
Proof. split; [vm_compute; reflexivity|]. eexists. split; [vm_compute; reflexivity|by split]. Qed.

Lemma result_applied_once_witness :
  let c' := (handle_warm_result 0 result_example clock0 c_issued).2 in
  settled c' = true /\ handle_warm_result 0 result_example clock0 c' = (None, c').
Proof.
  split; [vm_compute; reflexivity|].
  destruct (result_applied_once c_issued _ 0 result_example clock0 c_issued_reach accepts_example (rtc_refl _ _)) as [_ H].
  by apply H.
Defined.

(** ** Who can make an object execution-ready *)

Definition ready_at (id : WarmthObjectId) (c : Coordinator) : Prop :=
  exists o, find_object id c = Some o /\ execution_ready o = true.

(** The objects that a frame announces. *)
Definition announced (f : Frame) : list WarmthObject :=
  match type f with
  | HELLO => match decode_hello (payload f) with Ok (h, _) => observed h | Err _ => [] end
  | REPORT => match decode_report (payload f) with Ok (p, _) => report_objects p | Err _ => [] end
  | _ => []
  end.

Lemma observed_copy_ready o : execution_ready (observed_copy o) = true -> state_ o = HOT.
Proof.
  unfold observed_copy, execution_ready. change (state_ (set_provenance ?p ?x)) with (state_ x).
  destruct (is_execution_ready (state_ o)) eqn:E; [|congruence]. rewrite transition_state. by destruct (state_ o).
Qed.

Lemma refresh_ready now o cur : execution_ready (refresh now o cur) = execution_ready cur.
Proof.
  unfold refresh, execution_ready. cbn zeta. set (cur' := set_provenance _ _).
  destruct (is_execution_ready (state_ o) && negb (is_execution_ready (state_ cur'))) eqn:B; [|done].
  bool_simpl. rewrite transition_state. change (state_ cur') with (state_ cur) in *.
  destruct (transition_allowed _ _); [|done]. by rewrite H0.
Qed.

(** What one announcement may change: [N] holds the announced objects. *)
Definition unpromoted (N : list WarmthObject) (c c' : Coordinator) : Prop :=
  forall id, ready_at id c' ->
    ready_at id c \/ (find_object id c = None /\ exists o, o ∈ N /\ id_ o = id /\ state_ o = HOT).

Lemma unpromoted_fold {S} (g : S -> Coordinator) (h : S -> WarmthObject -> S) (l : list WarmthObject) :
  (forall s o id, find_object id (g (h s o)) = None -> find_object id (g s) = None) ->
  (forall s o, unpromoted [o] (g s) (g (h s o))) ->
  forall s, unpromoted l (g s) (g (fold_left h l s)).
Proof.
  intros Hk Hs. induction l as [|o l IH]; intros s id; cbn [fold_left]; [by left|].
  intros [Hr|(Hn & o' & Hin & Ho)]%IH.
  - apply Hs in Hr as [Hr|(Hn & o' & Hin & Ho)]; [by left|]. right. split; [done|].
    exists o'. apply list_elem_of_singleton in Hin as ->. split; [by left|done].
  - right. split; [by eapply Hk|]. exists o'. split; [by right|done].
Qed.

(** Storing one object. *)
Lemma ready_insert id i o c c' : objects_ c' = <[i := o]> (objects_ c) ->
  ready_at id c' -> (id = i /\ execution_ready o = true) \/ ready_at id c.
Proof.
  intros E (o' & Hf & Hr). unfold find_object in Hf. rewrite E in Hf.
  apply lookup_insert_Some in Hf as [[<- <-]|[_ Hf]]; [by left|]. right. by exists o'.
Qed.

Lemma find_insert_None id i o c c' : objects_ c' = <[i := o]> (objects_ c) -> find_object id c' = None -> find_object id c = None.
Proof. unfold find_object. intros ->. by intros [Hn _]%lookup_insert_None. Qed.

Lemma hello_object_unpromoted w o c :
  (forall id, find_object id (hello_object w o c) = None -> find_object id c = None) /\
  unpromoted [o] c (hello_object w o c).
Proof.
  unfold hello_object. destruct (objects_ c !! id_ o) as [cur|] eqn:E.
  - split; [done|]. intros id Hr. left. exact Hr.
  - split.
    + intros id. by apply (find_insert_None id (id_ o) (observed_copy o)).
    + intros id Hr. apply (ready_insert id (id_ o) (observed_copy o) c) in Hr as [[-> Hr]|Hr]; [|by left|done].
      right. split; [done|]. exists o. split_and!; [by left|done|by apply observed_copy_ready].
Qed.

Lemma report_object_unpromoted w now o c :
  (forall id, find_object id (report_object w now o c) = None -> find_object id c = None) /\
  unpromoted [o] c (report_object w now o c).
Proof.
  unfold report_object. destruct (objects_ c !! id_ o) as [cur|] eqn:E.
  - split.
    + intros id. by apply (find_insert_None id (id_ o) (refresh now o cur)).
    + intros id Hr. apply (ready_insert id (id_ o) (refresh now o cur) c) in Hr as [[-> Hr]|Hr]; [|by left|done].
      left. exists cur. split; [done|]. by rewrite refresh_ready in Hr.
  - split.
    + intros id. by apply (find_insert_None id (id_ o) (observed_copy o)).
    + intros id Hr. apply (ready_insert id (id_ o) (observed_copy o) c) in Hr as [[-> Hr]|Hr]; [|by left|done].
      right. split; [done|]. exists o. split_and!; [by left|done|by apply observed_copy_ready].
Qed.

(** Changing stored objects in place without promoting any. *)
Lemma on_objects_find ids h c id : find_object id (on_objects ids h c) =
  (fun o => if decide (id ∈ ids) then h id o else o) <$> find_object id c.
Proof.
  unfold find_object, on_objects. cbn [objects_ set_objects]. rewrite map_lookup_imap.
  by destruct (objects_ c !! id).
Qed.

Lemma on_objects_ready ids h c id : (forall i o, execution_ready (h i o) = true -> execution_ready o = true) ->
  ready_at id (on_objects ids h c) -> ready_at id c.
Proof.
  intros Hh (o & Hf & Hr). rewrite on_objects_find in Hf. destruct (find_object id c) as [o'|] eqn:E; [|done].
  injection Hf as <-. exists o'. split; [done|]. destruct (decide _); [by apply Hh in Hr|done].
Qed.

Lemma set_device_dims_state s o : state_ (set_device_dims s o) = state_ o.
Proof. done. Qed.

Lemma lose_authority_state why reason o :
  state_ (lose_authority why reason o) =
    (if is_live_warm_state (state_ o) || bool_decide (state_ o = STALE) then INVALIDATED else state_ o).
Proof.
  unfold lose_authority. rewrite set_device_dims_state. change (state_ (set_invalidation_reason ?r ?x)) with (state_ x).
  destruct (_ || _) eqn:E; [|done]. rewrite transition_state. by destruct (state_ o).
Qed.

Lemma lose_authority_not_ready why reason o : execution_ready (lose_authority why reason o) = false.
Proof. unfold execution_ready. rewrite lose_authority_state. by destruct (state_ o). Qed.

Lemma disconnected_ready p now o : execution_ready (disconnected p now o) = true -> execution_ready o = true.
Proof.
  unfold disconnected, execution_ready. rewrite set_device_dims_state.
  destruct (decay_object_step o p now false false false true) as [[-> Hs]|[-> _]]; [|done].
  rewrite transition_state, (decay_step_allowed _ _ Hs). intros Hr.
  destruct (decay_step_not_ready _ _ Hs Hr) as [-> _]. done.
Qed.

Lemma invalidate_worker_ready w c id : ready_at id (invalidate_worker_objects_locked w c) -> ready_at id c.
Proof.
  unfold invalidate_worker_objects_locked. destruct (worker_objects_ c !! w) as [ids|]; [|done].
  intros Hr. apply (on_objects_ready ids (fun _ => lose_authority "worker_boot_changed" "worker_boot_changed")); [|exact Hr].
  intros i o. by rewrite lose_authority_not_ready.
Qed.

Lemma invalidate_worker_find w c id : find_object id (invalidate_worker_objects_locked w c) = None <-> find_object id c = None.
Proof.
  unfold invalidate_worker_objects_locked. destruct (worker_objects_ c !! w) as [ids|]; [|done].
  change (find_object id (set_worker_objects ?m ?x)) with (find_object id x). rewrite on_objects_find. apply fmap_None.
Qed.

Lemma handle_hello_unpromoted cs h c : unpromoted (observed h) c (handle_hello cs h c).2.
Proof.
  unfold handle_hello. destruct (negb _); [by left|]. destruct (_ && _); [by left|]. cbn zeta. cbn [snd].
  set (c1 := match last_boot_ c !! hello_worker h with
             | Some b => if decide (b = hello_boot h) then c else invalidate_worker_objects_locked (hello_worker h) c
             | None => c
             end).
  assert ((forall id, ready_at id c1 -> ready_at id c) /\ forall id, find_object id c1 = None <-> find_object id c = None)
    as [H1 H2].
  { unfold c1. destruct (last_boot_ c !! _) as [b|]; [|done]. destruct (decide (b = hello_boot h)); [done|].
    split; intros id; [apply invalidate_worker_ready|apply invalidate_worker_find]. }
  set (c2 := set_workers _ _). intros id Hr.
  apply (unpromoted_fold (fun c => c) (fun c o => hello_object (hello_worker h) o c)) in Hr.
  - destruct Hr as [Hr|(Hn & Ho)]; [left; by apply H1|right; split; [by apply H2|done]].
  - intros. by eapply hello_object_unpromoted.
  - intros. apply hello_object_unpromoted.
Qed.

Lemma handle_report_unpromoted cs p clock c : unpromoted (report_objects p) c (handle_report cs p clock c).2.
Proof.
  unfold handle_report. destruct (negb _); [by left|]. cbn [snd].
  apply (unpromoted_fold (fun ic : nat * Coordinator => ic.2)).
  - intros [n s] o id. by apply report_object_unpromoted.
  - intros [n s] o. apply report_object_unpromoted.
Qed.

Lemma reach_warm_state why o : state_ o <> INVALIDATED ->
  state_ (reach_warm why o) = (if decide (state_ o = HOT) then HOT else WARM).
Proof.
  intros Hn. unfold reach_warm, transition_, transition.
  destruct (state_ o) eqn:E; cbn; rewrite ?E; cbn; rewrite ?E; done.
Qed.

Lemma reach_warm_reason why o : invalidation_reason_ (reach_warm why o) = invalidation_reason_ o.
Proof.
  unfold reach_warm. destruct (decide _); [done|]. rewrite transition_inv.
  pose proof (transition_inv PREPARING why o) as H. unfold transition_ in H.
  destruct (transition PREPARING why o) as [[] o']; [exact H|by rewrite !transition_inv].
Qed.

Lemma revived_state o : state_ (revived o) = (if decide (state_ o = INVALIDATED) then DISCOVERED else state_ o).
Proof.
  unfold revived. destruct (decide _) as [E|]; [|done]. change (state_ (clear_invalidation_reason ?x)) with (state_ x).
  by rewrite transition_state, E.
Qed.

Lemma completed_ready wg r t1 t2 o : state_ o <> INVALIDATED -> execution_ready (completed wg r t1 t2 o) = true.
Proof.
  intros Hn. unfold execution_ready, completed. cbn zeta.
  change (state_ (set_residency ?x1 (set_provenance ?x2 (mark_used ?x3 (mark_prepared ?x4 (set_observed_ttr_ms ?x5
    (set_measured_cost_bytes ?x6 (set_warmth_generation ?x7 ?y)))))))) with (state_ y).
  rewrite reach_warm_state by done. by destruct (decide _).
Qed.

Lemma apply_result_objects w r t1 t2 c :
  let id := result_object r in
  (success r = true -> exists o0, find_object id (apply_result w r t1 t2 c) = Some (completed (warmth_gen_value_ c) r t1 t2 o0) /\
     state_ o0 <> INVALIDATED /\
     invalidation_reason_ o0 = match find_object id c with
                               | Some o => if decide (state_ o = INVALIDATED) then None else invalidation_reason_ o
                               | None => None
                               end) /\
  (success r = false -> find_object id (apply_result w r t1 t2 c) = transition_ FAILED (error r) <$> find_object id c) /\
  (forall id', id' <> id -> find_object id' (apply_result w r t1 t2 c) = find_object id' c).
Proof.
  cbn zeta. unfold apply_result, find_object. split_and!.
  - intros ->. destruct (objects_ c !! result_object r) as [o|] eqn:E.
    + exists (revived o). cbn [own set_worker_objects set_objects objects_]. split_and!; [apply lookup_insert_eq| |].
      * rewrite revived_state. by destruct (decide _).
      * unfold revived. by destruct (decide _).
    + eexists (new_object _ _ _ _ _ _). split_and!; [apply lookup_insert_eq|done|done].
  - intros ->. destruct (objects_ c !! result_object r) as [o|] eqn:E; [apply lookup_insert_eq|by rewrite E].
  - intros id' Hne. destruct (success r).
    + cbn [own set_worker_objects set_objects objects_]. by rewrite lookup_insert_ne.
    + destruct (objects_ c !! result_object r); [|done]. cbn [set_objects objects_]. by rewrite lookup_insert_ne.
Qed.

Lemma failed_not_ready why o : execution_ready (transition_ FAILED why o) = true -> execution_ready o = true.
Proof. unfold execution_ready. rewrite transition_state. by destruct (state_ o). Qed.

Lemma frame_promotes cs f clock c id : ready_at id (handle_frame cs f clock c).2 ->
  ready_at id c \/
  (type f = WARM_RESULT /\ exists r rest, decode_warm_result (payload f) = Ok (r, rest) /\ accepts cs r c /\
     success r = true /\ result_object r = id) \/
  (find_object id c = None /\ exists o, o ∈ announced f /\ id_ o = id /\ state_ o = HOT).
Proof.
  intros Hr.
  assert (type f = WARM_RESULT \/ unpromoted (announced f) c (handle_frame cs f clock c).2) as [Ht|Hu].
  { unfold handle_frame, announced. destruct (type f); try (by left); right; try (by left).
    - destruct (decode_hello _) as [[h ?]|]; [apply handle_hello_unpromoted|by left].
    - destruct (decode_report _) as [[p ?]|]; [apply handle_report_unpromoted|by left]. }
  - pose proof Hr as Hr'. unfold handle_frame in Hr'. rewrite Ht in Hr'.
    destruct (decode_warm_result (payload f)) as [[r rest]|] eqn:Ed; [|by left].
    destruct (decide (accepts cs r c)) as [Ha|Hn]; [|rewrite handle_result_refused in Hr' by done; by left].
    pose proof Ha as (_ & i & Hi & _). rewrite (handle_result_accepted _ _ _ _ i Ha Hi) in Hr'.
    destruct Hr' as (o & Hf & Ho). set (w := conn_id _) in Hf.
    change (find_object id (apply_result w r (clock 0%nat) (clock 1%nat) c) = Some o) in Hf.
    destruct (apply_result_objects w r (clock 0%nat) (clock 1%nat) c) as (_ & Hfail & Hother).
    destruct (decide (id = result_object r)) as [->|Hne].
    + destruct (success r) eqn:Es; [right; left; split; [done|by exists r, rest]|]. rewrite Hfail in Hf by done.
      left. destruct (find_object _ c) as [o0|] eqn:E0; [|done]. injection Hf as <-. exists o0.
      split; [done|by apply failed_not_ready in Ho].
    + left. exists o. by rewrite Hother in Hf.
  - apply Hu in Hr as [Hr|(Hn & o & Hin & Hid & Hs)]; [by left|]. right. right. split; [done|]. by exists o.
Qed.

Lemma disconnect_promotes cs clock c id : ready_at id (on_disconnect cs clock c) -> ready_at id c.
Proof.
  unfold on_disconnect. destruct (negb _); [done|]. intros Hr.
  set (c1 := if bool_decide _ then _ else _) in Hr. assert (objects_ c1 = objects_ c) as E by (unfold c1; by destruct (bool_decide _)).
  assert (ready_at id c1 -> ready_at id c) as Hc by (unfold ready_at, find_object; by rewrite E).
  apply Hc. destruct (worker_objects_ c1 !! _) as [ids|]; [|done].
  apply on_objects_ready in Hr; [done|]. intros i o. apply disconnected_ready.
Qed.

Lemma roll_promotes c id : ~ ready_at id (roll_epoch c).
Proof.
  intros (o & Hf & Hr). unfold find_object, roll_epoch in Hf. cbn [set_flight set_objects objects_] in Hf.
  rewrite lookup_fmap in Hf. apply fmap_Some in Hf as (o' & Hf & ->). by rewrite lose_authority_not_ready in Hr.
Qed.

Lemma issue_objects object action preferred c : objects_ (issue_begin object action preferred c).2 = objects_ c.
Proof.
  unfold issue_begin. destruct (pick_worker preferred c) as [h|]; [|done]. cbn zeta.
  destruct (negb _); [done|]. destruct (reserve _ _ _ _) as [[? ?] b]. destruct (_ =? 0); [done|].
  by destruct (reserve _ _ _ b) as [[? ?] ?].
Qed.
Lemma issue_failed_objects a c : objects_ (issue_failed a c) = objects_ c.
Proof. unfold issue_failed. by destruct (_ !! _). Qed.

(** C10: only a completed attempt makes an object execution-ready.  In one step
    of the coordinator, an object that becomes ready either is the object of an
    accepted, successful result for an attempt that was in flight, or was
    unknown before and announced by a worker as HOT. *)
Theorem only_results_promote (c c' : Coordinator) (id : WarmthObjectId) :
  coord_step c c' -> ready_at id c' ->
  ready_at id c \/
  (exists cs f clock r rest, c' = (handle_frame cs f clock c).2 /\ type f = WARM_RESULT /\
     decode_warm_result (payload f) = Ok (r, rest) /\ accepts cs r c /\ success r = true /\ result_object r = id) \/
  (find_object id c = None /\ exists cs f clock o, c' = (handle_frame cs f clock c).2 /\ o ∈ announced f /\
     id_ o = id /\ state_ o = HOT).
Proof.
  intros H Hr. destruct H as [cs f clock c|cs clock c|c|c|c|object action preferred c Hroom|attempt c]; try by left.
  - destruct (frame_promotes cs f clock c id Hr) as [?|[(Ht & r & rest & H)|(Hn & o & H)]]; [by left|right; left|right; right].
    + by exists cs, f, clock, r, rest.
    + split; [done|]. by exists cs, f, clock, o.
  - left. by eapply disconnect_promotes.
  - by apply roll_promotes in Hr.
  - left. unfold ready_at, find_object in *. by rewrite issue_objects in Hr.
  - left. unfold ready_at, find_object in *. by rewrite issue_failed_objects in Hr.
Qed.

Definition result_frame : Frame := mkFrame WARM_RESULT 0 (encode_warm_result result_example).
Definition c_warmed : Coordinator := (handle_frame 0 result_frame clock0 c_issued).2.

Lemma c_warmed_reach : coord_reach c_warmed.
Proof. eapply rtc_r; [apply c_issued_reach|]. constructor. Qed.

Lemma only_results_promote_witness :
  ready_at o_example c_warmed /\
  exists cs f clock r rest, c_warmed = (handle_frame cs f clock c_issued).2 /\ type f = WARM_RESULT /\
    decode_warm_result (payload f) = Ok (r, rest) /\ accepts cs r c_issued /\ success r = true /\ result_object r = o_example.
Proof.
  assert (ready_at o_example c_warmed) as Hr by (eexists; split; [vm_compute; reflexivity|reflexivity]).
  split; [exact Hr|].
  destruct (only_results_promote c_issued c_warmed o_example (cs_frame 0 result_frame clock0 c_issued) Hr)
    as [(o & Hf & _)|[H|(_ & _)]].
  - vm_compute in Hf. discriminate Hf.
  - exact H.
  - exists 0%nat, result_frame, clock0, result_example, []. split_and!; [reflexivity|reflexivity| |apply accepts_example|reflexivity..].
    vm_compute. reflexivity.
Defined.

Lemma accepted_result (c : Coordinator) (cs : handle) (r : WarmResult) (clock : nat -> Z) :
  coord_inv c -> accepts cs r c ->
  let id := result_object r in
  let '(reply, c') := handle_warm_result cs r clock c in
  reply = None /\ in_flight_ c' = delete (result_attempt r) (in_flight_ c) /\
  outstanding_budget c = (outstanding_budget c' + 2)%nat /\
  (forall id', id' <> id -> find_object id' c' = find_object id' c) /\
  (success r = true -> exists o, find_object id c' = Some o /\ execution_ready o = true /\
     residency_ o = R_DEVICE_RESIDENT /\ provenance_ o = P_MEASURED /\ warmth_gen_ o = Gen (warmth_gen_value_ c) /\
     measured_cost_bytes_ o = result_bytes r /\ observed_ttr_ms_ o = duration_ms r /\
     invalidation_reason_ o = match find_object id c with
                              | Some o0 => if decide (state_ o0 = INVALIDATED) then None else invalidation_reason_ o0
                              | None => None
                              end) /\
  (success r = false -> find_object id c' = transition_ FAILED (error r) <$> find_object id c).
Proof.
  intros Hi Ha. cbn zeta. pose proof Ha as (_ & i & Hl & _).
  rewrite (handle_result_accepted _ _ _ _ i Ha Hl). set (w := conn_id _).
  destruct (apply_result_objects w r (clock 0%nat) (clock 1%nat) c) as (Hs & Hf & Ho).
  pose proof (apply_result_flight w r (clock 0%nat) (clock 1%nat) c) as Hfl. set (c0 := apply_result _ _ _ _ _) in *.
  assert (in_flight_ c0 = in_flight_ c) as Ef by (unfold flight in Hfl; injection Hfl as _ -> _ _; done).
  assert (coord_inv (settle (result_attempt r) i c0)) as Hi' by (apply settle_inv; [by eapply coord_inv_flight|by rewrite Ef]).
  split_and!; try done.
  - cbn. by rewrite Ef.
  - destruct (coord_inv_accounting _ Hi) as (-> & _ & _). destruct (coord_inv_accounting _ Hi') as (-> & _ & _).
    unfold in_flight_attempts. cbn [settle set_flight in_flight_]. rewrite Ef.
    pose proof (map_size_delete_Some (result_attempt r) (in_flight_ c) (mk_is_Some _ _ Hl)) as Hsz.
    assert (size (in_flight_ c) <> 0)%nat; [|lia]. intros E%map_size_empty_iff. by rewrite E in Hl.
  - intros Es. destruct (Hs Es) as (o0 & Hf0 & Hn0 & Hr0). eexists. split; [exact Hf0|].
    split_and!; try done; [by apply completed_ready|]. rewrite <- Hr0. apply reach_warm_reason.
Qed.

(** C17: an accepted result.  It settles exactly its attempt, frees both of its
    reservations and touches no other object.  On success the object exists,
    is execution-ready, device-resident and carries the reported
    measurements and the current warmth generation; its invalidation reason is
    cleared only if it was INVALIDATED, so an object revalidated after an epoch
    roll in another state stays ready with the reason of the roll.  On failure a
    known object is moved to FAILED by the guarded transition. *)
Theorem accepted_result_spec (c : Coordinator) (cs : handle) (r : WarmResult) (clock : nat -> Z) :
  coord_reach c -> accepts cs r c ->
  let id := result_object r in
  let '(reply, c') := handle_warm_result cs r clock c in
  reply = None /\ in_flight_ c' = delete (result_attempt r) (in_flight_ c) /\
  outstanding_budget c = (outstanding_budget c' + 2)%nat /\
  (forall id', id' <> id -> find_object id' c' = find_object id' c) /\
  (success r = true -> exists o, find_object id c' = Some o /\ execution_ready o = true /\
     residency_ o = R_DEVICE_RESIDENT /\ provenance_ o = P_MEASURED /\ warmth_gen_ o = Gen (warmth_gen_value_ c) /\
     measured_cost_bytes_ o = result_bytes r /\ observed_ttr_ms_ o = duration_ms r /\
     invalidation_reason_ o = match find_object id c with
                              | Some o0 => if decide (state_ o0 = INVALIDATED) then None else invalidation_reason_ o0
                              | None => None
                              end) /\
  (success r = false -> find_object id c' = transition_ FAILED (error r) <$> find_object id c).
Proof. intros Hc%coord_reach_inv. by apply accepted_result. Qed.

Lemma accepted_result_spec_witness : exists o,
  find_object o_example (handle_warm_result 0 result_example clock0 c_issued).2 = Some o /\
  execution_ready o = true /\ measured_cost_bytes_ o = 4096.
Proof.
  pose proof (accepted_result_spec c_issued 0 result_example clock0 c_issued_reach accepts_example) as H. cbn zeta in H.
  destruct (handle_warm_result _ _ _ _) as [rep c']. destruct H as (_ & _ & _ & _ & H & _).
  destruct (H eq_refl) as (o & Hf & Hr & _ & _ & _ & Hm & _). exists o. split_and!; done.
Defined.

(** ** Losing authority *)

Definition device_dims : list DimensionIndex := [CudaContextReadiness; KernelReadiness; GraphReadiness; AllocatorReadiness].

(** An object that may no longer be used without revalidation. *)
Definition dispossessed (reason : string) (o o' : WarmthObject) : Prop :=
  state_ o' = (if is_live_warm_state (state_ o) || bool_decide (state_ o = STALE) then INVALIDATED else state_ o) /\
  execution_ready o' = false /\ invalidation_reason_ o' = Some reason /\
  Forall (fun i => dimension o' i = D_COLD) device_dims /\
  Forall (fun i => i ∈ device_dims \/ dimension o' i = dimension o i) enum_all.

Lemma set_device_dims_get s o i :
  dimension (set_device_dims s o) i = if decide (i ∈ device_dims) then s else dimension o i.
Proof. destruct i; reflexivity. Qed.

Lemma lose_authority_spec why reason o : dispossessed reason o (lose_authority why reason o).
Proof.
  split_and!; [apply lose_authority_state|apply lose_authority_not_ready|reflexivity|by repeat constructor|].
  apply Forall_forall. intros i _. unfold lose_authority. rewrite set_device_dims_get. destruct (decide _) as [|Hn]; [by left|].
  right. change (dimension (set_invalidation_reason ?r ?x)) with (dimension x).
  destruct (_ || _); [|done]. unfold dimension. by rewrite transition_dims.
Qed.

(** C21: rolling the epoch leaves a clean slate: nothing is in flight, the
    budget is balanced, the three generations have moved on, and every object
    has lost its authority: a live or stale one is INVALIDATED, none is
    execution-ready, and its device-local dimensions are cold. *)
Theorem roll_epoch_spec (c : Coordinator) :
  coord_reach c ->
  let c' := roll_epoch c in
  in_flight_attempts c' = 0%nat /\ outstanding_budget c' = 0%nat /\ settled c' = true /\
  (value (epoch_ c) < 2 ^ 64 - 1 -> value (epoch_ c') = value (epoch_ c) + 1) /\
  warmth_gen_value_ c' = u64 (warmth_gen_value_ c + 1) /\ dep_gen_value_ c' = u64 (dep_gen_value_ c + 1) /\
  table c' = table c /\
  forall id, match find_object id c, find_object id c' with
             | Some o, Some o' => dispossessed "coordinator_epoch_rolled" o o'
             | None, None => True
             | _, _ => False
             end.
Proof.
  intros Hc. cbn zeta. pose proof (roll_epoch_inv _ (coord_reach_inv c Hc)) as Hi.
  assert (in_flight_attempts (roll_epoch c) = 0%nat) as H0 by apply map_size_empty.
  destruct (coord_inv_accounting _ Hi) as (Ho & _ & _). split_and!; try done.
  - unfold settled. rewrite (ci_count _ Hi). apply Z.eqb_eq. fold (in_flight_attempts (roll_epoch c)). by rewrite H0.
  - intros Hlt. change (epoch_ (roll_epoch c)) with (next (epoch_ c)). unfold next. cbn [value].
    rewrite (proj2 (Z.eqb_neq _ _)) by lia. done.
  - intros id. unfold find_object, roll_epoch. cbn [set_flight set_objects set_generations objects_].
    rewrite lookup_fmap. destruct (objects_ c !! id) as [o|]; [apply lose_authority_spec|done].
Qed.

Lemma roll_epoch_spec_witness :
  let c' := roll_epoch c_warmed in
  outstanding_budget c' = 0%nat /\ state_ <$> find_object o_example c' = Some INVALIDATED.
Proof.
  destruct (roll_epoch_spec c_warmed c_warmed_reach) as (_ & Ho & _). split; [exact Ho|vm_compute; reflexivity].
Defined.

Lemma hello_fold_keeps w l c id o : find_object id c = Some o ->
  find_object id (fold_left (fun c o => hello_object w o c) l c) = Some o.
Proof.
  revert c. induction l as [|a l IH]; intros c Hf; [done|]. cbn [fold_left]. apply IH.
  unfold hello_object. destruct (objects_ c !! id_ a) eqn:E; [done|].
  unfold find_object in *. cbn [own set_worker_objects set_objects objects_]. rewrite lookup_insert_ne; [done|congruence].
Qed.

Lemma hello_fold_authority w l c :
  let c' := fold_left (fun c o => hello_object w o c) l c in
  epoch_ c' = epoch_ c /\ warmth_gen_value_ c' = warmth_gen_value_ c /\ dep_gen_value_ c' = dep_gen_value_ c /\
  policy_gen_ c' = policy_gen_ c.
Proof.
  cbn zeta. assert (forall {T} (g : Coordinator -> T), (forall s a, g (hello_object w a s) = g s) ->
    g (fold_left (fun c o => hello_object w o c) l c) = g c) as H by (intros; by apply fold_left_keep).
  split_and!; apply H; intros s a; unfold hello_object; by destruct (_ !! _).
Qed.

Lemma hello_fold_own w l c :
  default ∅ (worker_objects_ (fold_left (fun c o => hello_object w o c) l c) !! w) =
  list_to_set (map id_ l) ∪ default ∅ (worker_objects_ c !! w).
Proof.
  revert c. induction l as [|a l IH]; intros c; [cbn; set_solver|]. cbn [fold_left map list_to_set]. rewrite IH.
  assert (default ∅ (worker_objects_ (hello_object w a c) !! w) = {[id_ a]} ∪ default ∅ (worker_objects_ c !! w)) as ->;
    [|set_solver].
  unfold hello_object. destruct (objects_ c !! id_ a); cbn [own set_worker_objects worker_objects_]; by rewrite lookup_insert_eq.
Qed.

(** C22: registration.  A HELLO for a worker id that is live under another boot
    is refused and changes nothing.  A worker that comes back with another
    boot is accepted, and every object that it had announced loses its
    authority, whatever it announces now; all other known objects are
    untouched, and the worker answers from then on for exactly the objects of
    this announcement. *)
Theorem boot_change_spec (c : Coordinator) (cs : handle) (h : Hello) (b : WorkerBootId) (ids : gset WarmthObjectId) :
  let w := hello_worker h in
  protocol_version h = kProtocolVersion -> last_boot_ c !! w = Some b -> b <> hello_boot h ->
  worker_objects_ c !! w = Some ids ->
  let '(reply, c') := handle_hello cs h c in
  let ack a r := Some (frame_ack (mkHelloAck a r (value (epoch_ c)) (warmth_gen_value_ c) (dep_gen_value_ c)
                                    (value (policy_gen_ c)))) in
  (forall b', live_boot w c = Some b' -> b' <> hello_boot h ->
     reply = ack false "stale boot (worker already registered)" /\ c' = c) /\
  (live_boot w c = None \/ live_boot w c = Some (hello_boot h) ->
     reply = ack true "" /\
     (forall id o, find_object id c = Some o -> exists o', find_object id c' = Some o' /\
        if decide (id ∈ ids) then dispossessed "worker_boot_changed" o o' else o' = o) /\
     default ∅ (worker_objects_ c' !! w) = list_to_set (map id_ (observed h))).
Proof.
  intros w Hv Hb Hne Hids. unfold handle_hello. rewrite Hv. cbn [Z.eqb kProtocolVersion Pos.eqb negb]. cbn zeta. fold w.
  destruct (bool_decide (is_Some (live_boot w c)) && negb (bool_decide (live_boot w c = Some (hello_boot h)))) eqn:E; bool_simpl.
  - split; [done|]. intros [E1|E1]; [rewrite E1 in *; by destruct H|done].
  - split.
    { intros b' E1 Hb'. apply andb_false_iff in E as [E|E]; bool_simpl.
      - rewrite E1 in E. destruct E. by eexists.
      - congruence. }
    intros _. rewrite Hb, decide_False by done. unfold invalidate_worker_objects_locked. rewrite Hids. split_and!.
    + match goal with |- context [fold_left _ (observed h) ?c0] => pose proof (hello_fold_authority w (observed h) c0) as Ea end.
      by destruct Ea as (-> & -> & -> & ->).
    + intros id o Hf.
      exists (if decide (id ∈ ids) then lose_authority "worker_boot_changed" "worker_boot_changed" o else o). split.
      * apply hello_fold_keeps. transitivity (find_object id (on_objects ids
          (fun _ => lose_authority "worker_boot_changed" "worker_boot_changed") c)). { reflexivity. }
        by rewrite on_objects_find, Hf.
      * destruct (decide _); [apply lose_authority_spec|done].
    + rewrite hello_fold_own. cbn. rewrite lookup_insert_eq. cbn. set_solver.
Qed.

(** The worker of the example goes away and comes back with a new boot. *)
Definition c_gone : Coordinator := on_disconnect 0 (fun _ => 5000) c_warmed.
Definition hello_again : Hello := mkHello 1 w_example (mkId 8 8) (mkId 7 9) 0 "cuda" ["cuda:0"] [1] [].

Lemma boot_change_spec_witness : exists o',
  find_object o_example (handle_hello 1 hello_again c_gone).2 = Some o' /\ state_ o' = INVALIDATED.
Proof.
  pose proof (boot_change_spec c_gone 1 hello_again boot_example {[o_example]} eq_refl) as H. cbn zeta in H.
  specialize (H ltac:(vm_compute; reflexivity) ltac:(vm_compute; discriminate) ltac:(vm_compute; reflexivity)).
  destruct (handle_hello 1 hello_again c_gone) as [rep c']. cbn [snd]. destruct H as [_ H].
  destruct H as (_ & H & _); [left; vm_compute; reflexivity|].
  destruct (find_object o_example c_gone) as [o|] eqn:E; [|vm_compute in E; discriminate E].
  destruct (H o_example o E) as (o' & Hf & Ho). exists o'. split; [exact Hf|].
  rewrite decide_True in Ho by set_solver. destruct Ho as [-> _].
  vm_compute in E. injection E as <-. vm_compute. reflexivity.
Defined.

Lemma disconnected_state p now o : decay_on_process_restart p = true ->
  state_ (disconnected p now o) = match state_ o with PREPARING | PARTIALLY_WARM | WARM | HOT => STALE | s => s end.
Proof.
  intros Hp. unfold disconnected. rewrite set_device_dims_state. unfold decay_object, decay_to_stale. rewrite Hp.
  destruct (state_ o) eqn:E; cbn [andb]; rewrite ?decide_True, ?decide_False by done; cbn;
    rewrite ?transition_state, ?E; reflexivity.
Qed.

Lemma disconnected_dims p now o i :
  dimension (disconnected p now o) i = if decide (i ∈ device_dims) then D_SUSPECT else dimension o i.
Proof.
  unfold disconnected. rewrite set_device_dims_get. destruct (decide _); [done|].
  destruct (dr_changed _); [|done]. unfold dimension. by rewrite transition_dims.
Qed.

(** C23: disconnection.  The objects that the worker answers for become STALE if
    they were live or being prepared, none stays execution-ready, their
    device-local dimensions are SUSPECT and everything else is unchanged.  The
    worker leaves the table only if the table still names this connection.  The
    attempts in flight on the connection are neither settled nor released, so
    a thread in [wait_until_settled] keeps waiting for a worker that is gone. *)
Theorem disconnect_spec (c : Coordinator) (cs : handle) (clock : WarmthObjectId -> Z) :
  let s := default conn_new (conns c !! cs) in
  coord_reach c -> registered s = true ->
  let c' := on_disconnect cs clock c in
  flight c' = flight c /\ settled c' = settled c /\
  workers_ c' = (if decide (workers_ c !! conn_id s = Some cs) then delete (conn_id s) (workers_ c) else workers_ c) /\
  forall id o, find_object id c = Some o -> exists o', find_object id c' = Some o' /\
    if decide (id ∈ default ∅ (worker_objects_ c !! conn_id s)) then
      (state_ o' = match state_ o with PREPARING | PARTIALLY_WARM | WARM | HOT => STALE | s => s end) /\
      execution_ready o' = false /\
      Forall (fun i => dimension o' i = (if decide (i ∈ device_dims) then D_SUSPECT else dimension o i)) enum_all
    else o' = o.
Proof.
  intros s Hc Hs. cbn zeta. pose proof (on_disconnect_flight cs clock c) as Hfl. split; [done|]. split.
  { unfold settled, flight in *. by injection Hfl as _ _ -> _. }
  unfold on_disconnect. fold s. rewrite Hs. cbn [negb].
  set (c1 := if bool_decide _ then _ else _).
  assert (workers_ c1 = (if decide (workers_ c !! conn_id s = Some cs) then delete (conn_id s) (workers_ c) else workers_ c) /\
    objects_ c1 = objects_ c /\ worker_objects_ c1 = worker_objects_ c /\ policy_ c1 = policy_ c) as (Ew & Eo & Ewo & Ep).
  { unfold c1. case_bool_decide; [rewrite decide_True by done|rewrite decide_False by done]; done. }
  rewrite Ewo. split; [by destruct (worker_objects_ c !! _)|]. intros id o Hf.
  assert (find_object id c1 = Some o) as Hf1 by (unfold find_object; by rewrite Eo).
  destruct (worker_objects_ c !! conn_id s) as [ids|]; cbn [default]; [|by exists o].
  rewrite on_objects_find, Hf1. eexists. split; [reflexivity|]. cbn beta. destruct (decide (id ∈ ids)) as [Hin|Hin].
  - rewrite decide_True by done. rewrite Ep, coord_reach_policy by done.
    assert (decay_on_process_restart (decay (defaults (Gen 1))) = true) as Hp by reflexivity.
    pose proof (disconnected_state _ (clock id) o Hp) as Hst. split_and!; [exact Hst| |].
    + unfold execution_ready. rewrite Hst. by destruct (state_ o).
    + apply Forall_forall. intros i _. apply disconnected_dims.
  - by rewrite decide_False.
Qed.

Lemma disconnect_spec_witness :
  settled (on_disconnect 0 (fun _ => 5000) c_issued) = false /\
  exists o', find_object o_example c_gone = Some o' /\ state_ o' = STALE.
Proof.
  split.
  - destruct (disconnect_spec c_issued 0 (fun _ => 5000) c_issued_reach) as (_ & -> & _); vm_compute; reflexivity.
  - destruct (disconnect_spec c_warmed 0 (fun _ => 5000) c_warmed_reach) as (_ & _ & _ & H); [vm_compute; reflexivity|].
    destruct (find_object o_example c_warmed) as [o|] eqn:E; [|vm_compute in E; discriminate E].
    destruct (H o_example o E) as (o' & Hf & Ho). exists o'. split; [exact Hf|].
    rewrite decide_True in Ho by (apply (bool_decide_unpack _); vm_compute; exact I). destruct Ho as [-> _].
    vm_compute in E. injection E as <-. reflexivity.
Defined.

(** A HELLO that is accepted. *)
Lemma handle_hello_accepts cs h c : protocol_version h = kProtocolVersion ->
  live_boot (hello_worker h) c = None \/ live_boot (hello_worker h) c = Some (hello_boot h) ->
  let c' := (handle_hello cs h c).2 in
  (handle_hello cs h c).1 = Some (frame_ack (mkHelloAck true "" (value (epoch_ c)) (warmth_gen_value_ c)
                                    (dep_gen_value_ c) (value (policy_gen_ c)))) /\
  authority c' = authority c /\ policy_gen_ c' = policy_gen_ c /\
  table c' = (<[hello_worker h := cs]> (workers_ c),
              <[cs := mkConn (hello_worker h) (hello_boot h) (hello_node h) true (hello_backend h)]> (conns c)).
Proof.
  intros Hv Hl. cbn zeta. unfold handle_hello. rewrite Hv. cbn [Z.eqb kProtocolVersion Pos.eqb negb].
  assert (bool_decide (is_Some (live_boot (hello_worker h) c)) &&
          negb (bool_decide (live_boot (hello_worker h) c = Some (hello_boot h))) = false) as ->.
  { destruct Hl as [-> | ->]; [done|]. rewrite (bool_decide_eq_true_2 (Some _ = _)) by done. apply andb_false_r. }
  cbn zeta. cbn [fst snd].
  match goal with |- context [fold_left _ (observed h) ?c0] => set (c1 := c0) end.
  pose proof (fold_left_keep (fun c => (authority c, policy_gen_ c, table c))
    (fun c o => hello_object (hello_worker h) o c) (observed h) c1) as Hk.
  destruct (hello_fold_authority (hello_worker h) (observed h) c1) as (E1 & E2 & E3 & E4).
  assert (authority c1 = authority c /\ policy_gen_ c1 = policy_gen_ c /\
    table c1 = (<[hello_worker h := cs]> (workers_ c),
              <[cs := mkConn (hello_worker h) (hello_boot h) (hello_node h) true (hello_backend h)]> (conns c))) as (F1 & F2 & F3).
  { unfold c1. destruct (last_boot_ c !! hello_worker h) as [b|]; [|done]. destruct (decide (b = hello_boot h)); [done|].
    unfold invalidate_worker_objects_locked. by destruct (worker_objects_ c !! hello_worker h). }
  specialize (Hk ltac:(intros s a; unfold hello_object; by destruct (objects_ s !! id_ a))). clearbody c1.
  pose proof F1 as F1'. unfold authority in F1'. injection F1' as G1 G2 G3 _.
  rewrite E1, E2, E3, E4, F2, G1, G2, G3. pose proof (f_equal (fun p => p.1.1) Hk) as K1. pose proof (f_equal snd Hk) as K2.
  cbn [fst snd] in K1, K2. split_and!; [done|congruence|done|congruence].
Qed.

(** ** A connection's thread *)

(** The reference: the frames of the stream, handled once each in order, then
    the disconnection. *)
Fixpoint serve (turn : nat) (cs : handle) (clock : nat -> nat -> Z) (gone : WarmthObjectId -> Z) (fs : list Frame)
    (c : Coordinator) : list Frame * Coordinator :=
  match fs with
  | [] => ([], on_disconnect cs gone c)
  | f :: fs =>
      let '(r, c) := handle_frame cs f (clock turn) c in
      let '(rs, c) := serve (S turn) cs clock gone fs c in
      (option_list r ++ rs, c)
  end.

Lemma serve_reach turn cs clock gone fs c : coord_reach c -> coord_reach (serve turn cs clock gone fs c).2.
Proof.
  revert turn c. induction fs as [|f fs IH]; intros turn c Hc; cbn [serve].
  - eapply rtc_r; [exact Hc|constructor].
  - assert (coord_reach (handle_frame cs f (clock turn) c).2) as H1 by (eapply rtc_r; [exact Hc|constructor]).
    destruct (handle_frame cs f (clock turn) c) as [r c1]. cbn [snd] in H1. apply (IH (S turn)) in H1.
    by destruct (serve (S turn) cs clock gone fs c1).
Qed.

(** C19: a connection's thread always comes to an end, and does exactly this:
    every stream splits into the frames that the reader accepts and a rest
    that it does not; each frame is handled once, in order, then the
    connection is given up, whatever the peer sent.  Fuel above the length of
    the stream is enough, and the state it leaves is a reachable one. *)
Theorem process_connection_total (cs : handle) (clock : nat -> nat -> Z) (gone : WarmthObjectId -> Z) (stream : bytes)
    (c : Coordinator) (fuel : nat) :
  (length stream < fuel)%nat ->
  exists fs rest e, read_frames (length fs) stream = Ok (fs, rest) /\ read rest = Err e /\
    process_connection fuel 0 cs clock gone stream c = Some (serve 0 cs clock gone fs c) /\
    (coord_reach c -> coord_reach (serve 0 cs clock gone fs c).2).
Proof.
  intros Hf.
  assert (exists fs rest e, read_frames (length fs) stream = Ok (fs, rest) /\ read rest = Err e /\
    process_connection fuel 0 cs clock gone stream c = Some (serve 0 cs clock gone fs c)) as (fs & rest & e & H1 & H2 & H3);
    [|exists fs, rest, e; split_and!; try done; apply serve_reach].
  unfold read_frames. generalize 0%nat at 2 3 as turn. generalize 0%nat as i. revert fuel stream c Hf.
  induction fuel as [|fuel IH]; intros stream c Hf i turn; [lia|]. cbn [process_connection].
  destruct (read stream) as [[f rest]|e] eqn:E; [|by exists [], stream, e].
  apply read_consumes in E as Hr.
  destruct (handle_frame cs f (clock turn) c) as [r c1] eqn:Eh.
  destruct (IH rest c1 ltac:(lia) (S i) (S turn)) as (fs & rest' & e & H1 & H2 & H3).
  exists (f :: fs), rest', e. cbn [length get_many serve]. unfold rbind. rewrite E, H1, Eh, H3. split_and!; [done|done|].
  by destruct (serve (S turn) cs clock gone fs c1).
Qed.

Lemma process_connection_total_witness : exists stream rs c',
  write_all [hello_frame boot_example []; mkFrame PING 0 []] = Some stream /\
  process_connection 200 0 0 (fun _ => clock0) (fun _ => 5000) (stream ++ [1; 2]) coordinator_new = Some (rs, c') /\
  registered_workers c' = 0%nat.
Proof.
  destruct (write_all [hello_frame boot_example []; mkFrame PING 0 []]) as [stream|] eqn:E; [|vm_compute in E; discriminate E].
  destruct (process_connection_total 0 (fun _ => clock0) (fun _ => 5000) (stream ++ [1; 2]) coordinator_new 200)
    as (fs & rest & e & H1 & H2 & H3 & _).
  { vm_compute in E. injection E as <-. apply Nat.ltb_lt. vm_compute. reflexivity. }
  destruct (serve 0 0 (fun _ => clock0) (fun _ => 5000) fs coordinator_new) as [rs c'].
  exists stream, rs, c'. split_and!; [reflexivity|exact H3|].
  clear H1 H2. vm_compute in E. injection E as <-. vm_compute in H3. injection H3 as _ <-. reflexivity.
Defined.
