(* ===== verification/Settlement.v ===== *)
(** * coordinator.cpp: waiting for the attempts in flight

    [wait_until_settled] sleeps until the counter of attempts is zero.  Here:
    which answers of the workers make that happen, in whatever order and mixed
    with whatever other results they arrive. *)

From Stdlib Require Import ZArith Lia String.
From stdpp Require Import base list numbers strings gmap fin_maps relations.
From S2P Require Import Prelude Float64 Identity State Object Decay Budget Ledger Policy Scheduler Codec Protocol Wire Messages Coordinator Authority.
Local Open Scope Z_scope.
Local Open Scope warmth_scope.

(** A result that arrives on a connection, with the clock of its turn. *)
Record Answer := mkAnswer { via : handle; result_of : WarmResult; at_clock : nat -> Z }.

Definition respond (c : Coordinator) (x : Answer) : Coordinator := (handle_warm_result (via x) (result_of x) (at_clock x) c).2.
Definition attempt_of (x : Answer) : Z := result_attempt (result_of x).
Definition accepted_by (c : Coordinator) (x : Answer) : Prop := accepts (via x) (result_of x) c.

(** Every attempt in flight has an answer among these that would be accepted. *)
Definition answered (xs : list Answer) (c : Coordinator) : Prop :=
  forall a i, in_flight_ c !! a = Some i -> exists x, x ∈ xs /\ attempt_of x = a /\ accepted_by c x.

(** ** Lemmas *)

Lemma apply_result_conns w r t1 t2 c : conns (apply_result w r t1 t2 c) = conns c.
Proof. unfold apply_result. destruct (success r); [done|]. by destruct (_ !! _). Qed.
Lemma apply_result_standing w r t1 t2 c : authority (apply_result w r t1 t2 c) = authority c.
Proof. unfold apply_result. destruct (success r); [done|]. by destruct (_ !! _). Qed.

(** What a result does not touch. *)
Lemma respond_keeps c x : conns (respond c x) = conns c /\ authority (respond c x) = authority c.
Proof.
  unfold respond. destruct (decide (accepted_by c x)) as [Ha|Hn]; [|by rewrite handle_result_refused].
  pose proof Ha as (_ & i & Hi & _). rewrite (handle_result_accepted _ _ _ _ i Ha Hi).
  split; [apply apply_result_conns|apply apply_result_standing].
Qed.

Lemma respond_flight c x :
  in_flight_ (respond c x) = if decide (accepted_by c x) then delete (attempt_of x) (in_flight_ c) else in_flight_ c.
Proof.
  unfold respond. destruct (decide (accepted_by c x)) as [Ha|Hn]; [|by rewrite handle_result_refused].
  pose proof Ha as (_ & i & Hi & _). rewrite (handle_result_accepted _ _ _ _ i Ha Hi). cbn [snd settle set_flight in_flight_].
  set (c0 := apply_result _ _ _ _ _). assert (flight c0 = flight c) as Hf by apply apply_result_flight.
  unfold flight in Hf. by injection Hf as _ -> _ _.
Qed.

Lemma respond_inv c x : coord_inv c -> coord_inv (respond c x).
Proof.
  intros Hc. unfold respond. destruct (decide (accepted_by c x)) as [Ha|Hn]; [|by rewrite handle_result_refused].
  pose proof Ha as (_ & i & Hi & _). rewrite (handle_result_accepted _ _ _ _ i Ha Hi). cbn [snd].
  set (c0 := apply_result _ _ _ _ _). assert (flight c0 = flight c) as Hf by apply apply_result_flight.
  apply settle_inv; [by eapply coord_inv_flight|]. unfold flight in Hf. by injection Hf as _ -> _ _.
Qed.

(** Acceptance depends on the connections, the authority and the attempt. *)
Lemma accepted_by_frame c c' x : conns c' = conns c -> authority c' = authority c ->
  in_flight_ c' !! attempt_of x = in_flight_ c !! attempt_of x -> accepted_by c x -> accepted_by c' x.
Proof.
  unfold accepted_by, accepts, current_authority, attempt_of, authority. intros -> Ha ->. by injection Ha as -> -> -> _.
Qed.

Lemma answered_respond x xs c : answered (x :: xs) c -> answered xs (respond c x).
Proof.
  intros Hx a i Hi. destruct (respond_keeps c x) as [Hk Ha]. pose proof (respond_flight c x) as Hf. rewrite Hf in Hi.
  assert (in_flight_ c !! a = Some i /\ ~ (accepted_by c x /\ attempt_of x = a)) as [Hc Hno].
  { destruct (decide (accepted_by c x)) as [Hacc|Hacc]; [|by split; [|intros []]].
    apply lookup_delete_Some in Hi as [Hne Hi]. split; [done|]. by intros []. }
  destruct (Hx a i Hc) as (y & [->|Hy]%elem_of_cons & <- & Hacc); [by destruct Hno|].
  exists y. split_and!; [done|done|]. apply (accepted_by_frame c); [done..| |done]. rewrite Hf, Hc. exact Hi.
Qed.

Lemma answered_settle xs c : coord_inv c -> answered xs c ->
  coord_inv (fold_left respond xs c) /\ in_flight_ (fold_left respond xs c) = ∅.
Proof.
  revert c. induction xs as [|x xs IH]; intros c Hc Hx.
  - split; [done|]. apply map_eq. intros a. rewrite lookup_empty. apply eq_None_not_Some. intros [i Hi].
    by destruct (Hx a i Hi) as (y & ?%not_elem_of_nil & _).
  - apply IH; [by apply respond_inv|by apply answered_respond].
Qed.

(** ** Properties *)

(** settlement.  If every attempt in flight gets an answer that its registered
    worker sends under the current authority, then, whatever the order and
    whatever stale, forged or repeated results arrive in between, the counter
    that [wait_until_settled] waits for reaches zero, all reservations are
    given back, and it stays so for any further results. *)
Theorem answers_settle (c : Coordinator) (xs more : list Answer) :
  coord_reach c -> answered xs c ->
  let c' := fold_left respond (xs ++ more) c in
  settled c' = true /\ in_flight_attempts c' = 0%nat /\ outstanding_budget c' = 0%nat /\ coord_balanced c' = true.
Proof.
  intros Hc%coord_reach_inv Hx. cbn zeta. rewrite fold_left_app. destruct (answered_settle xs c Hc Hx) as [H1 H2].
  destruct (answered_settle more (fold_left respond xs c) H1) as [Hi He].
  { intros a i. by rewrite H2, lookup_empty. }
  destruct (coord_inv_accounting _ Hi) as (Ho & _). set (c' := fold_left respond more _) in *.
  assert (size (in_flight_ c') = 0%nat) as Hz by (rewrite He; apply map_size_empty).
  unfold settled, coord_balanced, outstanding_budget, in_flight_attempts in *. rewrite (ci_count _ Hi), Ho, Hz. done.
Qed.

(** A stale result, then the answer, twice. *)
Definition answers_example : list Answer :=
  [mkAnswer 0 (mkResult boot_example 99 1 1 o_example 6 1 true dzero 1 "") clock0;
   mkAnswer 0 result_example clock0; mkAnswer 0 result_example clock0].

Lemma answers_example_cover : answered answers_example c_issued.
Proof.
  intros a i Hi. exists (mkAnswer 0 result_example clock0). split; [right; left|].
  assert (exists i0, in_flight_ c_issued = {[attempt_of (mkAnswer 0 result_example clock0) := i0]}) as [i0 E]
    by (eexists; vm_compute; reflexivity).
  rewrite E in Hi. apply lookup_singleton_Some in Hi as [<- _]. split; [done|apply accepts_example].
Qed.

Lemma answers_settle_witness :
  settled c_issued = false /\ settled (fold_left respond (answers_example ++ []) c_issued) = true.
Proof.
  split; [vm_compute; reflexivity|].
  destruct (answers_settle c_issued answers_example [] c_issued_reach answers_example_cover) as (H & _). exact H.
Defined.
