(* ===== verification/Server.v ===== *)
(** * coordinator.cpp: accepting connections and stopping

    The part of [Coordinator] around its metadata: [start], the accept loop,
    one thread per connection, and [stop], which closes the listener and the
    registered connections and then joins every thread.  A thread is the handle
    of the connection it serves; its turns are steps, so that frames,
    disconnections and the call of [stop] interleave freely.  A peer may be
    silent for ever: what happens without its help is the subject here. *)

From Stdlib Require Import ZArith Lia String.
From stdpp Require Import base list numbers strings gmap fin_maps sets relations.
From S2P Require Import Prelude Float64 Identity State Object Decay Budget Ledger Policy Scheduler Codec Protocol Wire Messages Coordinator Authority.
Local Open Scope Z_scope.
Local Open Scope warmth_scope.

Record Server := mkServer {
  coord : Coordinator;
  listening : bool;             (* [listener_] holds a socket *)
  stopping_ : bool;
  threads_ : list handle;       (* joinable threads, by the connection they serve *)
  running : gset handle;        (* threads that are still in [process_connection] *)
  closed : gset handle;         (* connections closed on this side *)
  hung_up : gset handle }.      (* connections whose peer ended the stream *)

Definition server_new : Server := mkServer coordinator_new false false [] ∅ ∅ ∅.

(** [start]: the outcome of [listener_.listen]. *)
Definition start (ok : bool) (s : Server) : bool * Server :=
  (ok, mkServer (coord s) ok (stopping_ s) (threads_ s) (running s) (closed s) (hung_up s)).

(** [on_connection]: a new [ConnState] and a thread on it.  Pushing the thread
    and its start are one step: nobody looks at it in between. *)
Definition on_connection (h : handle) (s : Server) : Server :=
  mkServer (set_conns (<[h := conn_new]> (conns (coord s))) (coord s)) (listening s) (stopping_ s)
    (threads_ s ++ [h]) ({[h]} ∪ running s) (closed s) (hung_up s).

(** [handle_one_connection] and [run_accept_loop] on what [accept] answers and
    on the reading of [stop] in front of each turn and after a failed accept.
    The handle of an accepted connection is one that is not in use. *)
Definition handle_one_connection (accepted : option handle) (s : Server) : Server :=
  match accepted with None => s | Some h => on_connection h s end.

Fixpoint run_accept_loop (turns : list (bool * option handle * bool)) (s : Server) : Server :=
  match turns with
  | [] => s
  | (stop_before, accepted, stop_after) :: turns =>
      if (stop_before : bool) then s
      else match accepted with
           | None => if stop_after || stopping_ s then s else run_accept_loop turns s
           | Some h => run_accept_loop turns (on_connection h s)
           end
  end.

(** [stop] up to the joins; [false] when another call came first. *)
Definition stop_begin (s : Server) : bool * Server :=
  if stopping_ s then (false, s)
  else
    (true, mkServer (coord s) false true (threads_ s) (running s)
             (list_to_set (map snd (map_to_list (workers_ (coord s)))) ∪ closed s) (hung_up s)).

(** A frame that arrived on [h] is handled by the thread of [h]. *)
Definition turn (h : handle) (f : Frame) (clock : nat -> Z) (s : Server) : Server :=
  mkServer (handle_frame h f clock (coord s)).2 (listening s) (stopping_ s) (threads_ s) (running s) (closed s) (hung_up s).

(** [reader.read] returns [false]: [on_disconnect], and the thread is done. *)
Definition leave (h : handle) (clock : WarmthObjectId -> Z) (s : Server) : Server :=
  mkServer (on_disconnect h clock (coord s)) (listening s) (stopping_ s) (threads_ s) (running s ∖ {[h]}) (closed s) (hung_up s).

(** [t.join()] on the first thread that is left, once that thread is done. *)
Definition join (s : Server) : option Server :=
  match threads_ s with
  | [] => None
  | h :: l =>
      if decide (h ∈ running s) then None
      else Some (mkServer (coord s) (listening s) (stopping_ s) l (running s) (closed s) (hung_up s))
  end.

Definition hang_up (h : handle) (s : Server) : Server :=
  mkServer (coord s) (listening s) (stopping_ s) (threads_ s) (running s) (closed s) ({[h]} ∪ hung_up s).

(** Other critical sections of the coordinator (commands, rolls, bumps). *)
Definition on_coord (c : Coordinator) (s : Server) : Server :=
  mkServer c (listening s) (stopping_ s) (threads_ s) (running s) (closed s) (hung_up s).
Inductive command_step : Coordinator -> Coordinator -> Prop :=
  | cm_bump_dependency c : command_step c (bump_dependency_generation c)
  | cm_bump_warmth c : command_step c (bump_warmth_generation c)
  | cm_roll c : command_step c (roll_epoch c)
  | cm_issue object action preferred c : coord_room c -> command_step c (issue_begin object action preferred c).2
  | cm_send_failed attempt c : command_step c (issue_failed attempt c).

(** ** Steps

    [speaks h f] allows the peer of [h] to send [f] (and to hang up if it may
    send anything at all).  A connection accepted just before the listener was
    closed is served like any other, so accepting is always possible.  A thread
    whose connection is closed, or whose peer is gone, leaves. *)
Section steps.
Variable speaks : Coordinator -> handle -> Frame -> Prop.

Inductive server_step : Server -> Server -> Prop :=
  | ss_start ok s : server_step s (start ok s).2
  | ss_connection h s : conns (coord s) !! h = None -> server_step s (on_connection h s)
  | ss_stop s : server_step s (stop_begin s).2
  | ss_frame h f clock s : h ∈ running s -> speaks (coord s) h f -> server_step s (turn h f clock s)
  | ss_hang_up h f s : speaks (coord s) h f -> server_step s (hang_up h s)
  | ss_leave h clock s : h ∈ running s -> h ∈ closed s \/ h ∈ hung_up s -> server_step s (leave h clock s)
  | ss_join s s' : stopping_ s = true -> join s = Some s' -> server_step s s'
  | ss_command c s : command_step (coord s) c -> server_step s (on_coord c s).

Definition server_reach : Server -> Prop := rtc server_step server_new.
End steps.

(** Any peer may send anything. *)
Definition anyone (c : Coordinator) (h : handle) (f : Frame) : Prop := True.
(** Nobody sends anything on [h]. *)
Definition silent (h0 : handle) (c : Coordinator) (h : handle) (f : Frame) : Prop := h <> h0.
(** A registered peer does not say HELLO under another name. *)
Definition one_name (c : Coordinator) (h : handle) (f : Frame) : Prop :=
  registered (default conn_new (conns c !! h)) = true -> type f = HELLO ->
  forall m rest, decode_hello (payload f) = Ok (m, rest) -> hello_worker m = conn_id (default conn_new (conns c !! h)).

(** ** Lemmas: what a step keeps *)

(** Threads that still run can be joined; before [stop] nothing is closed here. *)
Definition server_inv (s : Server) : Prop :=
  (forall h, h ∈ running s -> h ∈ threads_ s) /\ (stopping_ s = false -> closed s = ∅) /\
  (forall w h, workers_ (coord s) !! w = Some h -> registered (default conn_new (conns (coord s) !! h)) = true).

(** Every entry of the worker table is a connection that is being served, and
    registered under that name. *)
Definition table_live (s : Server) : Prop :=
  forall w h, workers_ (coord s) !! w = Some h -> h ∈ running s /\ conn_id (default conn_new (conns (coord s) !! h)) = w.

Lemma command_is_step c c' : command_step c c' -> coord_step c c'.
Proof. destruct 1; by constructor. Qed.

Lemma command_step_table c c' : command_step c c' -> table c' = table c.
Proof.
  destruct 1 as [c|c|c|object action preferred c Hr|attempt c]; try done.
  - unfold issue_begin. destruct (pick_worker preferred c) as [h|]; [|done]. cbn zeta. destruct (negb _); [done|].
    destruct (reserve _ _ _ _) as [[? ?] b]. destruct (_ =? 0); [done|]. by destruct (reserve _ _ _ b) as [[? ?] ?].
  - unfold issue_failed. by destruct (_ !! _).
Qed.

(** A frame leaves the table alone or registers its own connection. *)
Lemma handle_frame_table h f clock c :
  table (handle_frame h f clock c).2 = table c \/
  exists m rest, type f = HELLO /\ decode_hello (payload f) = Ok (m, rest) /\
    table (handle_frame h f clock c).2 =
      (<[hello_worker m := h]> (workers_ c),
       <[h := mkConn (hello_worker m) (hello_boot m) (hello_node m) true (hello_backend m)]> (conns c)).
Proof.
  unfold handle_frame. destruct (type f) eqn:Ef; try by left.
  - destruct (decode_hello (payload f)) as [[m rest]|] eqn:Em; [|by left].
    destruct (handle_hello_table h m c) as [E|E]; [by left|right; eauto].
  - destruct (decode_report _) as [[p ?]|]; [|by left]. left. apply handle_report_table.
  - destruct (decode_warm_result _) as [[r ?]|]; [|by left]. left. apply handle_warm_result_table.
Qed.

(** A disconnection erases the entry of the connection's own name. *)
Lemma on_disconnect_erases h clock c :
  let n := default conn_new (conns c !! h) in
  registered n = true -> workers_ (on_disconnect h clock c) !! conn_id n <> Some h.
Proof.
  cbn zeta. intros Hr. unfold on_disconnect. rewrite Hr. cbn [negb]. case_bool_decide as Hw.
  - destruct (worker_objects_ _ !! _); cbn; by rewrite lookup_delete_eq.
  - by destruct (worker_objects_ _ !! _).
Qed.

(** The table after the disconnection of a connection it names. *)
Lemma on_disconnect_table h clock c :
  let n := default conn_new (conns c !! h) in
  registered n = true -> workers_ c !! conn_id n = Some h ->
  table (on_disconnect h clock c) = (delete (conn_id n) (workers_ c), conns c).
Proof.
  cbn zeta. intros Hr Hw. unfold on_disconnect. rewrite Hr, Hw, bool_decide_true by done. cbn [negb].
  by destruct (worker_objects_ _ !! _).
Qed.

(** A HELLO with another boot than that of the worker's live connection. *)
Lemma handle_hello_stale h m c b : protocol_version m = kProtocolVersion ->
  live_boot (hello_worker m) c = Some b -> hello_boot m <> b ->
  handle_hello h m c =
    (Some (frame_ack (mkHelloAck false "stale boot (worker already registered)" (value (epoch_ c)) (warmth_gen_value_ c)
                        (dep_gen_value_ c) (value (policy_gen_ c)))), c).
Proof.
  intros Hv Hl Hb. unfold handle_hello. rewrite Hv, Hl. cbn [Z.eqb kProtocolVersion Pos.eqb negb].
  rewrite bool_decide_true by done. by rewrite bool_decide_false by congruence.
Qed.

Lemma server_step_mono (p q : Coordinator -> handle -> Frame -> Prop) s s' :
  (forall c h f, p c h f -> q c h f) -> server_step p s s' -> server_step q s s'.
Proof. intros Hpq H. destruct H;
    [apply ss_start|by apply ss_connection|apply ss_stop|apply ss_frame; auto|eapply ss_hang_up; eauto
    |by apply ss_leave|by apply ss_join|by apply ss_command]. Qed.

Lemma join_spec s s' : join s = Some s' -> exists h,
  threads_ s = h :: threads_ s' /\ h ∉ running s /\ coord s' = coord s /\ running s' = running s /\
  closed s' = closed s /\ hung_up s' = hung_up s /\ stopping_ s' = stopping_ s.
Proof.
  unfold join. destruct (threads_ s) as [|h l]; [done|]. destruct (decide _); [done|]. intros [= <-].
  by exists h.
Qed.

Lemma server_step_inv speaks s s' : server_step speaks s s' -> server_inv s -> server_inv s'.
Proof.
  intros H (Hr & Hc & Ht). destruct H as [ok s|h s Hn|s|h f clock s Hh Hsp|h f s Hsp|h clock s Hh Hgone|s s' Hs Hj|c s Hcm].
  - done.
  - split_and!; cbn.
    + intros k. rewrite elem_of_union, elem_of_singleton, elem_of_app, list_elem_of_singleton. intros [->|Hk%Hr]; auto.
    + done.
    + intros w k Hk. specialize (Ht w k Hk). destruct (decide (k = h)) as [->|Hne]; [by rewrite Hn in Ht|].
      by rewrite lookup_insert_ne.
  - unfold stop_begin. destruct (stopping_ s) eqn:E; cbn [snd]; [|by split_and!]. unfold server_inv. rewrite E. by split_and!.
  - split_and!; [done|done|]. intros w k Hk.
    eapply (coord_step_registered (coord s)); [apply cs_frame|exact Ht|exact Hk].
  - done.
  - split_and!; cbn.
    + intros k [Hk _]%elem_of_difference. by apply Hr.
    + done.
    + intros w k. destruct (on_disconnect_workers h clock (coord s)) as [-> Hw]. intros Hk%Hw. by apply (Ht w).
  - apply join_spec in Hj as (h & Eh & Hnot & Ec & Er & Ecl & _ & Es). unfold server_inv. rewrite Ec, Er, Ecl, Es.
    split_and!; [|done|done]. intros k Hk. specialize (Hr k Hk). rewrite Eh in Hr.
    apply elem_of_cons in Hr as [->|]; done.
  - split_and!; [done|done|]. intros w k. cbn [on_coord coord]. apply (coord_step_registered (coord s)); [by apply command_is_step|exact Ht].
Qed.

Lemma server_reach_inv speaks s : server_reach speaks s -> server_inv s.
Proof.
  intros H. assert (server_inv server_new) as Hi by done. revert Hi. unfold server_reach in H.
  induction H as [|s1 s2 s3 H12 _ IH]; [done|]. intros Hi. by eapply IH, server_step_inv.
Qed.

Lemma server_step_live s s' : server_step one_name s s' -> server_inv s -> table_live s -> table_live s'.
Proof.
  intros H (Hr & Hc & Ht) Hl.
  destruct H as [ok s|h s Hn|s|h f clock s Hh Hsp|h f s Hsp|h clock s Hh Hgone|s s' Hs Hj|c s Hcm]; try done.
  - intros w k Hk. destruct (Hl w k Hk) as [Hk1 Hk2]. cbn. split; [set_solver|].
    specialize (Ht w k Hk). rewrite lookup_insert_ne; [done|]. intros <-. by rewrite Hn in Ht.
  - unfold stop_begin. by destruct (stopping_ s).
  - unfold table_live, turn. cbn. destruct (handle_frame_table h f clock (coord s)) as [E|(m & rest & Ef & Em & E)];
      unfold table in E; injection E as E1 E2; rewrite E1, E2; [done|].
    intros w k [[<- <-]|[Hne Hk]]%lookup_insert_Some; [by rewrite lookup_insert_eq|].
    destruct (Hl w k Hk) as [Hk1 Hk2]. split; [done|]. destruct (decide (k = h)) as [->|Hkh]; [|by rewrite lookup_insert_ne].
    destruct Hne. rewrite <- Hk2. by eapply (Hsp (Ht w h Hk) Ef).
  - intros w k. unfold leave. cbn. destruct (on_disconnect_workers h clock (coord s)) as [-> Hw]. intros Hk.
    destruct (Hl w k (Hw w k Hk)) as [Hk1 Hk2]. split; [|done]. apply elem_of_difference. split; [done|].
    intros ->%elem_of_singleton. pose proof (Ht w h (Hw w h Hk)) as Hreg.
    apply (on_disconnect_erases h clock (coord s) Hreg). by rewrite Hk2.
  - apply join_spec in Hj as (h & _ & _ & Ec & Er & _). unfold table_live. by rewrite Ec, Er.
  - pose proof (command_step_table _ _ Hcm) as E. unfold table in E. injection E as E1 E2. unfold table_live. cbn.
    by rewrite E1, E2.
Qed.

Lemma one_name_live s s' : rtc (server_step one_name) s s' -> server_inv s -> table_live s -> server_inv s' /\ table_live s'.
Proof.
  induction 1 as [|s1 s2 s3 H12 _ IH]; [done|]. intros Hi Hl.
  apply IH; [by eapply server_step_inv|by apply (server_step_live s1)].
Qed.

(** ** Lemmas: stopping *)

(** The steps that end a thread or join one, and those that may come in between:
    peers send and hang up, and others call [start], [stop] and the commands.  No
    connection is accepted any more. *)
Inductive stop_turn : Server -> Server -> Prop :=
  | st_leave h clock s : h ∈ running s -> h ∈ closed s \/ h ∈ hung_up s -> stop_turn s (leave h clock s)
  | st_join s s' : stopping_ s = true -> join s = Some s' -> stop_turn s s'.
Inductive meanwhile (speaks : Coordinator -> handle -> Frame -> Prop) : Server -> Server -> Prop :=
  | mw_start ok s : meanwhile speaks s (start ok s).2
  | mw_stop s : meanwhile speaks s (stop_begin s).2
  | mw_frame h f clock s : h ∈ running s -> speaks (coord s) h f -> meanwhile speaks s (turn h f clock s)
  | mw_hang_up h f s : speaks (coord s) h f -> meanwhile speaks s (hang_up h s)
  | mw_command c s : command_step (coord s) c -> meanwhile speaks s (on_coord c s).

(** A run with [n] turns of the first kind. *)
Inductive winding (speaks : Coordinator -> handle -> Frame -> Prop) : nat -> Server -> Server -> Prop :=
  | wi_refl s : winding speaks 0 s s
  | wi_turn n s1 s2 s3 : stop_turn s1 s2 -> winding speaks n s2 s3 -> winding speaks (S n) s1 s3
  | wi_meanwhile n s1 s2 s3 : meanwhile speaks s1 s2 -> winding speaks n s2 s3 -> winding speaks n s1 s3.

(** The turns that are left, and what keeps them possible. *)
Definition stop_work (s : Server) : nat := size (running s) + length (threads_ s).
Definition going (s : Server) : Prop :=
  stopping_ s = true /\ (forall h, h ∈ running s -> h ∈ threads_ s) /\
  (forall h, h ∈ running s -> h ∈ closed s \/ h ∈ hung_up s).

Lemma meanwhile_step speaks s s' : meanwhile speaks s s' -> server_step speaks s s'.
Proof. destruct 1; [apply ss_start|apply ss_stop|by apply ss_frame|by eapply ss_hang_up|by apply ss_command]. Qed.
Lemma stop_turn_step speaks s s' : stop_turn s s' -> server_step speaks s s'.
Proof. destruct 1; [by apply ss_leave|by apply ss_join]. Qed.

Lemma winding_steps speaks n s s' : winding speaks n s s' -> rtc (server_step speaks) s s'.
Proof. induction 1; [done|eapply rtc_l; [by apply stop_turn_step|done]|eapply rtc_l; [by apply meanwhile_step|done]]. Qed.

Lemma meanwhile_going speaks s s' : meanwhile speaks s s' -> going s -> going s' /\ stop_work s' = stop_work s.
Proof.
  intros H (Hs & Ht & Hg). destruct H as [ok s|s|h f clock s Hh Hsp|h f s Hsp|c s Hc]; try by repeat split.
  - unfold stop_begin. by rewrite Hs.
  - repeat split; [done..|]. intros k [?|?]%Hg; cbn; set_solver.
Qed.

Lemma stop_turn_going s s' : stop_turn s s' -> going s -> going s' /\ S (stop_work s') = stop_work s.
Proof.
  intros H (Hs & Ht & Hg). destruct H as [h clock s Hh Hgone|s s' _ Hj].
  - repeat split; cbn [leave stopping_ running threads_ closed hung_up]; try set_solver.
    unfold stop_work. cbn [leave running threads_].
    assert (size (running s) = S (size (running s ∖ {[h]}))) as ->; [|done].
    rewrite (size_difference (running s) {[h]}), size_singleton by set_solver.
    assert (size (running s) <> 0%nat) by (intros E%size_empty_inv; set_solver). lia.
  - apply join_spec in Hj as (h & Eh & Hnot & _ & Er & Ec & Eu & Es). unfold going, stop_work. rewrite Er, Ec, Eu, Es, Eh.
    repeat split; [done| |done|cbn [length]; lia]. intros k Hk. specialize (Ht k Hk). rewrite Eh in Ht.
    apply elem_of_cons in Ht as [->|]; done.
Qed.

Lemma winding_going speaks n s s' : winding speaks n s s' -> going s -> going s' /\ (n + stop_work s' = stop_work s)%nat.
Proof.
  induction 1 as [s|n s1 s2 s3 H _ IH|n s1 s2 s3 H _ IH]; [done|..]; intros Hg.
  - destruct (stop_turn_going _ _ H Hg) as [H2 E]. destruct (IH H2). split; [done|lia].
  - destruct (meanwhile_going _ _ _ H Hg) as [H2 E]. destruct (IH H2). split; [done|lia].
Qed.

(** As long as a thread is left, some thread can take its next turn. *)
Lemma going_on s : going s -> threads_ s <> [] -> exists s', stop_turn s s'.
Proof.
  intros (Hs & Ht & Hg) Hn. destruct (threads_ s) as [|h l] eqn:E; [done|]. destruct (decide (h ∈ running s)) as [Hh|Hh].
  - eexists. apply (st_leave h (fun _ => 0)); auto.
  - eexists. apply st_join; [done|]. unfold join. by rewrite E, decide_False.
Qed.

Lemma stop_closes s w h : stopping_ s = false -> workers_ (coord s) !! w = Some h -> h ∈ closed (stop_begin s).2.
Proof.
  intros Hs Hw. unfold stop_begin. rewrite Hs. cbn. apply elem_of_union_l, elem_of_list_to_set.
  apply list_elem_of_fmap. exists (w, h). split; [done|]. by apply elem_of_map_to_list.
Qed.

Lemma live_empty s : server_inv s -> table_live s -> threads_ s = [] -> registered_workers (coord s) = 0%nat.
Proof.
  intros (Hr & _) Hl Ht. unfold registered_workers. apply map_size_empty_iff, map_empty. intros w.
  apply eq_None_not_Some. intros [h [Hh _]%Hl]. apply Hr in Hh. rewrite Ht in Hh. by apply not_elem_of_nil in Hh.
Qed.

Lemma silent_keeps h s s' : server_step (silent h) s s' ->
  stopping_ s = true /\ h ∈ threads_ s /\ h ∈ running s /\ h ∉ closed s /\ h ∉ hung_up s ->
  stopping_ s' = true /\ h ∈ threads_ s' /\ h ∈ running s' /\ h ∉ closed s' /\ h ∉ hung_up s'.
Proof.
  intros H (Hs & Ht & Hr & Hc & Hu).
  destruct H as [ok s|k s Hn|s|k f clock s Hh Hsp|k f s Hsp|k clock s Hh Hgone|s s' Hst Hj|c s Hcm]; cbn; try done.
  - split_and!; set_solver.
  - unfold stop_begin. by rewrite Hs.
  - unfold silent in Hsp. split_and!; set_solver.
  - split_and!; try done. apply elem_of_difference. split; [done|]. intros ->%elem_of_singleton. tauto.
  - apply join_spec in Hj as (k & Ek & Hk & _ & -> & -> & -> & ->). split_and!; try done.
    rewrite Ek in Ht. apply elem_of_cons in Ht as [->|]; done.
Qed.

(** The accept loop only takes connection steps, as long as each accepted
    connection gets a handle of its own. *)
Definition accepted_in (turns : list (bool * option handle * bool)) : list handle := omap (fun t => t.1.2) turns.

Lemma run_accept_loop_steps speaks turns s :
  NoDup (accepted_in turns) -> (forall h, h ∈ accepted_in turns -> conns (coord s) !! h = None) ->
  rtc (server_step speaks) s (run_accept_loop turns s).
Proof.
  revert s. induction turns as [|[[stop1 a] stop2] turns IH]; intros s Hnd Hnew; cbn [run_accept_loop]; [done|].
  destruct stop1; [done|]. destruct a as [h|]; cbn [accepted_in omap list_omap fst snd] in Hnd, Hnew.
  - apply NoDup_cons in Hnd as [Hh Hnd]. eapply rtc_l; [apply ss_connection, Hnew; by left|]. apply IH; [done|].
    intros k Hk. cbn. rewrite lookup_insert_ne by (by intros ->). apply Hnew. by right.
  - destruct (stop2 || stopping_ s); [done|]. by apply IH.
Qed.

(** A worker that registers, and a connection that stays silent. *)
Definition s_registered : Server := turn 0 (hello_frame boot_example []) clock0 (on_connection 0 server_new).
Definition s_unregistered : Server := on_connection 1 server_new.
Definition second_name : Hello := mkHello 1 (mkId 5 5) (mkId 5 6) (mkId 7 9) 0 "cuda" ["cuda:0"] [1] [].

Lemma s_registered_reach : server_reach one_name s_registered.
Proof.
  eapply rtc_l; [by apply (ss_connection _ 0%nat)|]. apply rtc_once. apply ss_frame; [set_solver|]. by intros ?.
Qed.

(** ** Properties *)

(** C24: stop returns when nothing else holds a thread.  Suppose that at the call
    of [stop] every thread still running serves a registered connection, or one
    whose peer is gone, and that no connection is accepted any more.  Then
    whatever the peers send and other callers do in the meantime, in every run
    the threads leave and are joined in as many turns as there are running
    threads and entries of [threads_]: after fewer turns some thread can take
    its next one, and after the last nothing is left to join, so that [stop]
    returns.  If moreover no connection ever says HELLO under two names, the
    worker table is empty then. *)
Theorem stop_returns (speaks : Coordinator -> handle -> Frame -> Prop) (s : Server) :
  server_reach speaks s -> stopping_ s = false ->
  (forall h, h ∈ running s -> h ∈ hung_up s \/ exists w, workers_ (coord s) !! w = Some h) ->
  forall n s', winding speaks n (stop_begin s).2 s' ->
    (n + stop_work s' = size (running s) + length (threads_ s))%nat /\
    (threads_ s' <> [] -> exists s'', stop_turn s' s'') /\
    (threads_ s' = [] -> running s' = ∅ /\
      ((forall c h f, speaks c h f -> one_name c h f) -> registered_workers (coord s') = 0%nat)).
Proof.
  intros Hreach Hs Hheld n s' Hw. pose proof (server_reach_inv _ _ Hreach) as (Hr & _). set (s0 := (stop_begin s).2) in *.
  assert (running s0 = running s /\ threads_ s0 = threads_ s /\ hung_up s0 = hung_up s /\ stopping_ s0 = true)
    as (Er & Et & Eu & Es) by (unfold s0, stop_begin; by rewrite Hs).
  assert (going s0) as H0.
  { split_and!; [done|by rewrite Er, Et|]. rewrite Er, Eu. intros h Hh.
    destruct (Hheld h Hh) as [|[w Hwh]]; [by right|left]. by apply (stop_closes s w). }
  destruct (winding_going _ _ _ _ Hw H0) as [H1 E]. split_and!; [|by apply going_on|].
  { rewrite E. unfold stop_work. by rewrite Er, Et. }
  intros Hnil. pose proof H1 as (_ & Ht & _). rewrite Hnil in Ht. split.
  { apply leibniz_equiv, elem_of_equiv_empty. by intros h ?%Ht%not_elem_of_nil. }
  intros Hone. destruct (one_name_live server_new s') as [Hi Hl]; [|done..|by apply live_empty].
  eapply rtc_subrel; [intros x y; by apply (server_step_mono speaks)|].
  eapply rtc_trans; [exact Hreach|]. eapply rtc_l; [apply ss_stop|by eapply winding_steps].
Qed.

Definition s_stopped : Server := leave 0 (fun _ => 0) (stop_begin s_registered).2.

Lemma stop_returns_witness : (1 + stop_work s_stopped = 2)%nat /\ exists s', stop_turn s_stopped s'.
Proof.
  destruct (stop_returns one_name s_registered s_registered_reach eq_refl) with (n := 1%nat) (s' := s_stopped) as (E & Hn & _).
  - intros h Hh. right. exists w_example. assert (h = 0%nat) as -> by (cbn in Hh; set_solver). vm_compute. reflexivity.
  - eapply wi_turn; [|apply wi_refl]. apply st_leave; [vm_compute; reflexivity|]. left. vm_compute. reflexivity.
  - split; [exact E|]. apply Hn. vm_compute. discriminate.
Defined.

(** C25: stop waits for a connection it does not close.  The loop of [stop]
    closes what the worker table names.  A thread on any other connection (one
    that has not said HELLO yet, or whose worker registered again elsewhere) is
    left in its read: as long as that peer neither sends nor hangs up, the
    thread stays among those to join in every later state, so [stop], and
    with it the destructor, does not return. *)
Theorem stop_waits (s s' : Server) (h : handle) : server_reach anyone s -> stopping_ s = false ->
  h ∈ running s -> h ∉ hung_up s -> (forall w, workers_ (coord s) !! w <> Some h) ->
  rtc (server_step (silent h)) (stop_begin s).2 s' ->
  h ∈ threads_ s' /\ h ∈ running s'.
Proof.
  intros (Hr & Hc & _)%server_reach_inv Hs Hh Hu Hw Hrun.
  assert (stopping_ (stop_begin s).2 = true /\ h ∈ threads_ (stop_begin s).2 /\ h ∈ running (stop_begin s).2 /\
          h ∉ closed (stop_begin s).2 /\ h ∉ hung_up (stop_begin s).2) as H0.
  { unfold stop_begin. rewrite Hs. cbn. split_and!; auto. rewrite Hc by done.
    rewrite elem_of_union, elem_of_list_to_set, list_elem_of_fmap. intros [([w k] & -> & Hk)|Hk]; [|set_solver].
    apply elem_of_map_to_list in Hk. by apply (Hw w). }
  revert H0. induction Hrun as [|s1 s2 s3 H12 _ IH]; [tauto|]. intros H0. by apply IH, (silent_keeps h s1).
Qed.

Lemma stop_waits_witness : 1%nat ∈ threads_ (stop_begin s_unregistered).2.
Proof.
  refine (proj1 (stop_waits s_unregistered (stop_begin s_unregistered).2 1%nat _ eq_refl _ _ _ (rtc_refl _ _))).
  - apply rtc_once. by apply (ss_connection _ 1%nat).
  - cbn. set_solver.
  - cbn. set_solver.
  - intros w H. vm_compute in H. discriminate H.
Defined.

(** a name that stays behind.  A connection that says HELLO for one worker
    and then for another is removed from the table only under the second name
    when it ends.  The first worker stays registered on a dead connection, and
    every later HELLO for it with a boot other than the second's is refused as
    stale. *)
Theorem ghost_registration (c : Coordinator) (h : handle) (m1 m2 : Hello) (clock : WarmthObjectId -> Z) :
  protocol_version m1 = kProtocolVersion -> protocol_version m2 = kProtocolVersion ->
  workers_ c !! hello_worker m1 = None -> workers_ c !! hello_worker m2 = None -> hello_worker m1 <> hello_worker m2 ->
  let c' := on_disconnect h clock (handle_hello h m2 (handle_hello h m1 c).2).2 in
  workers_ c' !! hello_worker m1 = Some h /\ workers_ c' !! hello_worker m2 = None /\
  forall h' m, protocol_version m = kProtocolVersion -> hello_worker m = hello_worker m1 -> hello_boot m <> hello_boot m2 ->
    exists a, handle_hello h' m c' = (Some (frame_ack a), c') /\ accepted a = false.
Proof.
  intros Hv1 Hv2 Hn1 Hn2 Hne. cbn zeta. set (c1 := (handle_hello h m1 c).2). set (c2 := (handle_hello h m2 c1).2).
  destruct (handle_hello_accepts h m1 c Hv1) as (_ & _ & _ & E1); [left; unfold live_boot; by rewrite Hn1|].
  fold c1 in E1. unfold table in E1. injection E1 as Ew1 Ec1.
  assert (workers_ c1 !! hello_worker m2 = None) as Hn2' by (by rewrite Ew1, lookup_insert_ne).
  destruct (handle_hello_accepts h m2 c1 Hv2) as (_ & _ & _ & E2); [left; unfold live_boot; by rewrite Hn2'|].
  fold c2 in E2. unfold table in E2. injection E2 as Ew2 Ec2.
  pose proof (on_disconnect_table h clock c2) as E3. cbn zeta in E3.
  rewrite Ec2, lookup_insert_eq in E3. cbn [default conn_id registered] in E3. rewrite <- Ec2 in E3.
  specialize (E3 eq_refl). rewrite Ew2, lookup_insert_eq in E3. specialize (E3 eq_refl). unfold table in E3.
  injection E3 as Ew3 Ec3. set (c3 := on_disconnect h clock c2) in *.
  assert (workers_ c3 !! hello_worker m1 = Some h) as Hw.
  { by rewrite Ew3, lookup_delete_ne, lookup_insert_ne, Ew1, lookup_insert_eq. }
  split_and!; [exact Hw|by rewrite Ew3, lookup_delete_eq|].
  intros h' m Hv Hm Hb. eexists. rewrite (handle_hello_stale h' m c3 (hello_boot m2)); [by split|done| |done].
  unfold live_boot. rewrite Hm, Hw. cbn. by rewrite Ec3, Ec2, lookup_insert_eq.
Qed.

Lemma ghost_registration_witness :
  workers_ (on_disconnect 0 (fun _ => 0) (handle_hello 0 second_name (handle_hello 0 hello_again coordinator_new).2).2)
    !! w_example = Some 0%nat.
Proof.
  refine (proj1 (ghost_registration coordinator_new 0 hello_again second_name (fun _ => 0) eq_refl eq_refl eq_refl eq_refl _)).
  discriminate.
Defined.
