(* ===== verification/Worker.v ===== *)
(** * worker.hpp, worker.cpp: a worker

    The registration handshake, the command loop and the synthetic hook.  The
    application's [WarmHook] is an argument: its answer may depend on the
    number of the call as well as on the command.  What is sent on the socket
    is a result; what arrives is an argument. *)

From Stdlib Require Import ZArith Lia String.
From stdpp Require Import base list numbers strings gmap fin_maps sorting.
From S2P Require Import Prelude Float64 Identity State Object Scheduler Codec Protocol Wire Messages.
Local Open Scope Z_scope.
Local Open Scope warmth_scope.

(** [WarmHook::execute]: success, duration and bytes.  The action is the byte
    that arrived. *)
Definition WarmHook : Type := WarmthObjectId -> Z -> bool * double * Z.

Definition SyntheticWarmHook : WarmHook := fun _ action =>
  (true, dadd (dlit 1 2) (dmul (dlit 1 4) (d_of_Z action)), Z.shiftl 1 28).

Record Config := mkWorkerConfig {
  worker_id : WorkerId;
  boot : WorkerBootId;
  node : NodeId;
  workload : WorkloadId;
  backend : string;
  cfg_devices : list string;
  cfg_actions : list Z }.

Record Worker := mkWorker {
  cfg_ : Config;
  observed_ : gmap WarmthObjectId WarmthObject;
  epoch_ : Z;
  warmth_gen_ : Z;
  dep_gen_ : Z;
  policy_gen_ : Z;
  shutdown_requested_ : bool }.

Definition worker_new (cfg : Config) : Worker := mkWorker cfg ∅ 0 0 0 0 false.
Definition set_observed m (w : Worker) : Worker :=
  mkWorker (cfg_ w) m (epoch_ w) (warmth_gen_ w) (dep_gen_ w) (policy_gen_ w) (shutdown_requested_ w).
Definition set_shutdown (w : Worker) : Worker :=
  mkWorker (cfg_ w) (observed_ w) (epoch_ w) (warmth_gen_ w) (dep_gen_ w) (policy_gen_ w) true.

(** ** Registration *)
Definition hello_of (w : Worker) : Hello :=
  let c := cfg_ w in
  mkHello kProtocolVersion (worker_id c) (boot c) (node c) 0 (backend c) (cfg_devices c) (cfg_actions c)
    (map snd (in_order (observed_ w))).
Definition hello_frame (w : Worker) : Frame := mkFrame HELLO 0 (encode_hello (hello_of w)).

(** The answer to the HELLO. *)
Definition adopt (f : Frame) (w : Worker) : bool * Worker :=
  if negb (bool_decide (type f = HELLO_ACK)) then (false, w)
  else
    match decode_hello_ack (payload f) with
    | Err _ => (false, w)
    | Ok (a, _) =>
        if negb (accepted a) then (false, w)
        else (true, mkWorker (cfg_ w) (observed_ w) (ack_epoch a) (ack_warmth_gen a) (ack_dep_gen a) (ack_policy_gen a)
                      (shutdown_requested_ w))
    end.

(** [valid] is the outcome of [net::connect]; the bytes sent are returned. *)
Definition connect (valid : bool) (incoming : bytes) (w : Worker) : bool * bytes * Worker :=
  if negb valid then (false, [], w)
  else
    match write (hello_frame w) with
    | None => (false, [], w)
    | Some bs =>
        match read incoming with
        | Err _ => (false, bs, w)
        | Ok (f, _) => let '(r, w) := adopt f w in (r, bs, w)
        end
    end.

(** ** Commands *)

(** What the worker notes about an object it has warmed: a new entry and an
    update of an entry. *)
Definition observe_new (cfg : Config) (wg : Z) (object : WarmthObjectId) (d : double) (n t1 t2 : Z) : WarmthObject :=
  let o := new_object object APPLICATION_DEFINED (workload cfg) (node cfg) "cuda:0" (backend cfg) in
  let o := transition_ WARM "warm_completed" o in
  let o := set_warmth_generation (Gen wg) o in
  let o := set_measured_cost_bytes n o in
  let o := set_observed_ttr_ms d o in
  let o := mark_used t2 (mark_prepared t1 o) in
  let o := set_provenance P_MEASURED o in
  set_residency R_DEVICE_RESIDENT o.
Definition observe_again (d : double) (n t : Z) (o : WarmthObject) : WarmthObject :=
  let o := transition_ WARM "warm_completed" o in
  let o := set_measured_cost_bytes n o in
  let o := set_observed_ttr_ms d o in
  let o := mark_used t o in
  set_provenance P_MEASURED o.

Definition observe (object : WarmthObjectId) (d : double) (n : Z) (clock : nat -> Z) (w : Worker) : Worker :=
  set_observed
    (<[object := match observed_ w !! object with
                 | None => observe_new (cfg_ w) (warmth_gen_ w) object d n (clock 0%nat) (clock 1%nat)
                 | Some o => observe_again d n (clock 0%nat) o
                 end]> (observed_ w)) w.

(** One turn of the loop over the commands of a topic. *)
Definition run_cmd (cmd : WarmCmd) (hook : WarmHook) (clock : nat -> Z) (w : Worker) : WarmResult * Worker :=
  let '(success, duration, nbytes) := hook (cmd_object cmd) (cmd_action cmd) in
  let res := mkResult (boot (cfg_ w)) (epoch_ w) (warmth_gen_ w) (dep_gen_ w) (cmd_object cmd) (cmd_action cmd)
               (cmd_attempt cmd) success duration nbytes (if success then "" else "warming_hook_failed") in
  (res, if success then observe (cmd_object cmd) duration nbytes clock w else w).

Fixpoint run_cmds (n : nat) (l : list WarmCmd) (hook : nat -> WarmHook) (clock : nat -> nat -> Z) (w : Worker)
  : list WarmResult * Worker :=
  match l with
  | [] => ([], w)
  | cmd :: l =>
      let '(res, w) := run_cmd cmd (hook n) (clock n) w in
      let '(rs, w) := run_cmds (S n) l hook clock w in
      (res :: rs, w)
  end.

Definition result_frame (r : WarmResult) : Frame := mkFrame WARM_RESULT 0 (encode_warm_result r).

(** The frames it sends, and the worker afterwards. *)
Definition handle_frame (f : Frame) (hook : nat -> WarmHook) (clock : nat -> nat -> Z) (w : Worker)
  : list Frame * Worker :=
  match type f with
  | WARM_TOPIC =>
      match decode_warm_topic (payload f) with
      | Err _ => ([], w)
      | Ok (topic, _) => let '(rs, w) := run_cmds 0 (cmds topic) hook clock w in (map result_frame rs, w)
      end
  | PING => ([mkFrame PONG 0 []], w)
  | SHUTDOWN => ([], set_shutdown w)
  | _ => ([], w)
  end.

(** [request_shutdown] on a valid connection. *)
Definition request_shutdown (w : Worker) : list Frame * Worker := ([mkFrame SHUTDOWN 0 []], set_shutdown w).

(** [run] on everything that will ever arrive: the frames it sends, what it has
    left unread and the worker; [None] is running out of fuel. *)
Fixpoint run (fuel turn : nat) (hook : nat -> nat -> WarmHook) (clock : nat -> nat -> nat -> Z) (stream : bytes)
    (w : Worker) : option (list Frame * bytes * Worker) :=
  match fuel with
  | O => None
  | S fuel =>
      match read stream with
      | Err _ => Some ([], stream, w)
      | Ok (f, rest) =>
          let '(sent, w) := handle_frame f (hook turn) (clock turn) w in
          if shutdown_requested_ w then Some (sent, rest, w)
          else match run fuel (S turn) hook clock rest w with
               | Some (fs, rest, w) => Some (sent ++ fs, rest, w)
               | None => None
               end
      end
  end.

(** ** Lemmas *)

(** The configuration and the authority a worker adopted. *)
Definition standing (w : Worker) : Config * Z * Z * Z := (cfg_ w, epoch_ w, warmth_gen_ w, dep_gen_ w).

Lemma run_cmd_standing cmd hook clock w : standing (run_cmd cmd hook clock w).2 = standing w.
Proof. unfold run_cmd. destruct (hook _ _) as [[[] d] n]; done. Qed.

Lemma run_cmds_standing n l hook clock w : standing (run_cmds n l hook clock w).2 = standing w.
Proof.
  revert n w. induction l as [|cmd l IH]; intros n w; [done|]. cbn [run_cmds].
  pose proof (run_cmd_standing cmd (hook n) (clock n) w) as H1. destruct (run_cmd _ _ _ _) as [r w1].
  pose proof (IH (S n) w1) as H2. destruct (run_cmds _ _ _ _ _) as [rs w2]. cbn [snd] in *. congruence.
Qed.

Lemma handle_frame_standing f hook clock w : standing (handle_frame f hook clock w).2 = standing w.
Proof.
  unfold handle_frame. destruct (type f); try done. destruct (decode_warm_topic _) as [[t ?]|]; [|done].
  pose proof (run_cmds_standing 0 (cmds t) hook clock w) as H. by destruct (run_cmds _ _ _ _ _).
Qed.

(** The results answer the commands one to one, under the adopted authority. *)
Definition answers (w : Worker) (cmd : WarmCmd) (r : WarmResult) : Prop :=
  result_boot r = boot (cfg_ w) /\ result_epoch r = epoch_ w /\ result_warmth_gen r = warmth_gen_ w /\
  result_dep_gen r = dep_gen_ w /\ result_object r = cmd_object cmd /\ result_action r = cmd_action cmd /\
  result_attempt r = cmd_attempt cmd.

Lemma answers_standing w w' cmd r : standing w' = standing w -> answers w' cmd r -> answers w cmd r.
Proof. unfold standing, answers. by intros [= -> -> -> ->]. Qed.

Lemma run_cmds_answers n l hook clock w : Forall2 (answers w) l (run_cmds n l hook clock w).1.
Proof.
  revert n w. induction l as [|cmd l IH]; intros n w; [constructor|]. cbn [run_cmds].
  pose proof (run_cmd_standing cmd (hook n) (clock n) w) as H1.
  assert (answers w cmd (run_cmd cmd (hook n) (clock n) w).1) as Ha
    by (unfold run_cmd; destruct (hook n _ _) as [[s d] b]; by split_and!).
  destruct (run_cmd _ _ _ _) as [r w1]. specialize (IH (S n) w1).
  destruct (run_cmds _ _ _ _ _) as [rs w2]. cbn [fst snd] in *. constructor; [done|].
  eapply Forall2_impl; [exact IH|]. intros x y. by apply answers_standing.
Qed.

(** What [handle_frame] and [run] can leave in the table. *)
Definition all_cold (w : Worker) : Prop := forall id o, observed_ w !! id = Some o -> state_ o = COLD.

Lemma run_cmds_cold n l hook clock w : all_cold w -> all_cold (run_cmds n l hook clock w).2.
Proof.
  revert n w. induction l as [|cmd l IH]; intros n w Hw; [done|]. cbn [run_cmds].
  assert (all_cold (run_cmd cmd (hook n) (clock n) w).2) as H1.
  { unfold run_cmd. destruct (hook n _ _) as [[[] d] b]; [|done]. intros id o. cbn [snd observe set_observed observed_].
    intros [[_ <-]|[_ Hl]]%lookup_insert_Some; [|by apply (Hw id)].
    destruct (observed_ w !! cmd_object cmd) as [o|] eqn:E; [|reflexivity].
    apply Hw in E. unfold observe_again. cbn zeta. change (state_ (transition_ WARM "warm_completed" o) = COLD).
    by rewrite transition_state, E. }
  destruct (run_cmd _ _ _ _) as [r w1]. pose proof (IH (S n) w1 H1) as H2. by destruct (run_cmds _ _ _ _ _).
Qed.

Lemma handle_frame_cold f hook clock w : all_cold w -> all_cold (handle_frame f hook clock w).2.
Proof.
  intros Hw. unfold handle_frame. destruct (type f); try done. destruct (decode_warm_topic _) as [[t ?]|]; [|done].
  pose proof (run_cmds_cold 0 (cmds t) hook clock w Hw) as H. by destruct (run_cmds _ _ _ _ _).
Qed.

(** The loop ends. *)
Lemma run_total (hook : nat -> nat -> WarmHook) (clock : nat -> nat -> nat -> Z) (stream : bytes) (w : Worker)
    (fuel : nat) :
  (length stream < fuel)%nat -> shutdown_requested_ w = false ->
  exists n fs rest sent w', read_frames n stream = Ok (fs, rest) /\
    run fuel 0 hook clock stream w = Some (sent, rest, w') /\ standing w' = standing w /\
    ((exists e, read rest = Err e) \/ shutdown_requested_ w' = true).
Proof.
  intros Hf Hs. unfold read_frames. generalize 0%nat at 2 as turn. generalize 0%nat as i. revert stream w Hf Hs.
  induction fuel as [|fuel IH]; intros stream w Hf Hs i turn; [lia|]. cbn [run].
  destruct (read stream) as [[f rest]|e] eqn:E.
  - apply read_consumes in E as Hr. pose proof (handle_frame_standing f (hook turn) (clock turn) w) as H1.
    destruct (handle_frame f (hook turn) (clock turn) w) as [sent w1]. cbn [snd] in H1.
    destruct (shutdown_requested_ w1) eqn:Hs1.
    + exists 1%nat, [f], rest, sent, w1. cbn [get_many]. unfold rbind, rret. rewrite E. split_and!; [done..|by right].
    + destruct (IH rest w1 ltac:(lia) Hs1 (S i) (S turn)) as (n & fs & rest' & sent' & w' & G1 & G2 & G3 & G4).
      exists (S n), (f :: fs), rest', (sent ++ sent'), w'. cbn [get_many]. unfold rbind, rret.
      rewrite E, G1, G2. split_and!; [done|done|congruence|done].
  - exists 0%nat, [], stream, [], w. split_and!; [done..|]. left. by exists e.
Qed.

(** ** Properties *)

(** A worker answers every command of a topic with exactly one result, in
    order: each names the command's object, action and attempt, under the
    worker's boot and the authority it adopted on registration; the worker
    keeps that authority, and to anything but a topic it sends no result. *)
Theorem worker_answers_commands (t : WarmTopic) (hook : nat -> WarmHook) (clock : nat -> nat -> Z) (w : Worker) :
  warm_topic_ok t ->
  let f := mkFrame WARM_TOPIC 0 (encode_warm_topic t) in
  standing (handle_frame f hook clock w).2 = standing w /\
  (exists rs, (handle_frame f hook clock w).1 = map result_frame rs /\ Forall2 (answers w) (cmds t) rs) /\
  forall g, type g <> WARM_TOPIC -> Forall (fun h => type h <> WARM_RESULT) (handle_frame g hook clock w).1.
Proof.
  intros Ht. cbn zeta. split; [apply handle_frame_standing|]. split.
  - unfold handle_frame. cbn [type payload].
    pose proof (message_reads t Ht []) as Hr. rewrite app_nil_r in Hr. cbn [decode encode WarmTopic_message message_norm] in Hr.
    rewrite Hr. pose proof (run_cmds_answers 0 (cmds t) hook clock w) as Ha.
    destruct (run_cmds _ _ _ _ _) as [rs w']. by exists rs.
  - intros g Hg. unfold handle_frame. destruct (type g); by repeat constructor.
Qed.

Definition worker_cfg_example : Config := mkWorkerConfig (mkId 7 7) (mkId 7 8) (mkId 7 9) (mkId 1 1) "cuda" ["cuda:0"] [1; 2].
Definition topic_example : WarmTopic := mkTopic 0 0 [mkCmd (mkId 9 9) 6 1; mkCmd (mkId 9 8) 2 2].

Lemma worker_answers_commands_witness : exists r1 r2,
  (handle_frame (mkFrame WARM_TOPIC 0 (encode_warm_topic topic_example)) (fun _ => SyntheticWarmHook) (fun _ _ => 10)
     (worker_new worker_cfg_example)).1 = [result_frame r1; result_frame r2] /\ result_attempt r1 = 1 /\ result_attempt r2 = 2.
Proof.
  destruct (worker_answers_commands topic_example (fun _ => SyntheticWarmHook) (fun _ _ => 10) (worker_new worker_cfg_example))
    as (_ & (rs & E & H) & _).
  - split_and!; [done|done|repeat constructor|]; unfold uint; cbn; lia.
  - rewrite E. inversion H as [|c1 r1 l1 l1' A1 H1]; subst. inversion H1 as [|c2 r2 l2 l2' A2 H2]; subst.
    inversion H2; subst. exists r1, r2. split; [reflexivity|]. split; [apply A1|apply A2].
Defined.

(** the objects a worker observes never become warm: an entry is created
    COLD and the table forbids COLD to WARM, so whatever commands it executes
    successfully, every object it announces on its next registration is COLD. *)
Theorem worker_observations_stay_cold (cfg : Config) (fs : list (Frame * (nat -> WarmHook) * (nat -> nat -> Z))) :
  let w := fold_left (fun w x => (handle_frame x.1.1 x.1.2 x.2 w).2) fs (worker_new cfg) in
  Forall (fun o => state_ o = COLD /\ execution_ready o = false) (observed (hello_of w)).
Proof.
  cbn zeta. assert (forall w, all_cold w -> all_cold (fold_left (fun w x => (handle_frame x.1.1 x.1.2 x.2 w).2) fs w)) as H.
  { induction fs as [|x fs IH]; intros w Hw; [done|]. apply IH. by apply handle_frame_cold. }
  specialize (H (worker_new cfg) ltac:(done)). set (w := fold_left _ _ _) in *. cbn [hello_of observed].
  apply Forall_map, Forall_forall. intros [id o] Hin.
  unfold in_order in Hin. rewrite merge_sort_Permutation in Hin. apply elem_of_map_to_list in Hin. apply H in Hin.
  cbn [snd]. split; [done|]. unfold execution_ready. by rewrite Hin.
Qed.

(** a worker's loop always comes to an end, however many frames arrive: fuel
    above the length of the stream is enough.  It stops early only because a
    shutdown was asked for, and it never changes the authority it adopted. *)
Theorem worker_run_total (hook : nat -> nat -> WarmHook) (clock : nat -> nat -> nat -> Z) (stream : bytes) (w : Worker)
    (fuel : nat) :
  (length stream < fuel)%nat -> shutdown_requested_ w = false ->
  exists n fs rest sent w', read_frames n stream = Ok (fs, rest) /\
    run fuel 0 hook clock stream w = Some (sent, rest, w') /\ standing w' = standing w /\
    ((exists e, read rest = Err e) \/ shutdown_requested_ w' = true).
Proof. apply run_total. Qed.

Lemma worker_run_total_witness : exists sent rest w',
  run 20 0 (fun _ _ => SyntheticWarmHook) (fun _ _ _ => 10) [1; 2; 3] (worker_new worker_cfg_example) = Some (sent, rest, w').
Proof.
  destruct (worker_run_total (fun _ _ => SyntheticWarmHook) (fun _ _ _ => 10) [1; 2; 3] (worker_new worker_cfg_example) 20)
    as (_ & _ & rest & sent & w' & _ & H & _); [cbn; lia|reflexivity|]. by exists sent, rest, w'.
Defined.
