(* ===== verification/System.v ===== *)
(** * The coordinator and a worker together

    The two halves of the protocol composed over the frames they exchange:
    what registration establishes, what a command achieves from [issue_warm]
    to the settled attempt, and what breaks the agreement for good. *)

From Stdlib Require Import ZArith Lia String.
From stdpp Require Import base list numbers strings gmap fin_maps sets sorting.
From S2P Require Import Prelude Float64 Identity State Object Scheduler Codec Protocol Wire Messages Worker Coordinator Authority.
Local Open Scope Z_scope.
Local Open Scope warmth_scope.

(** The values that the machine types hold. *)
Record coord_words (c : Coordinator) : Prop := {
  cw_epoch : gen_wf (epoch_ c);
  cw_warmth : uint 64 (warmth_gen_value_ c);
  cw_dep : uint 64 (dep_gen_value_ c);
  cw_policy : gen_wf (policy_gen_ c) }.

(** Connection [h] and worker [w] agree on who the worker is and on the
    authority in force. *)
Record in_step (h : handle) (w : Worker) (c : Coordinator) : Prop := {
  is_registered : registered (default conn_new (conns c !! h)) = true;
  is_worker : conn_id (default conn_new (conns c !! h)) = worker_id (cfg_ w);
  is_boot : conn_boot (default conn_new (conns c !! h)) = boot (cfg_ w);
  is_epoch : Worker.epoch_ w = value (epoch_ c);
  is_warmth : warmth_gen_ w = warmth_gen_value_ c;
  is_dep : dep_gen_ w = dep_gen_value_ c }.

(** What a worker may announce. *)
Definition announces (w : Worker) : Prop := hello_ok (hello_of w).

Lemma decode_message {M} `{Message M} (m : M) : message_ok m -> decode (encode m) = Ok (message_norm m, []).
Proof. intros Hm. pose proof (message_reads m Hm []) as Hr. by rewrite app_nil_r in Hr. Qed.

#[local] Strategy 1000 [decode_hello encode_hello decode_hello_ack encode_hello_ack decode_warm_topic encode_warm_topic
  decode_warm_result encode_warm_result].
Lemma hello_arrives h : hello_ok h -> decode_hello (encode_hello h) = Ok (hello_norm h, []).
Proof. intros H. pose proof (decode_message h H) as E. cbn [decode encode message_norm Hello_message] in E. exact E. Qed.
Lemma ack_arrives a : hello_ack_ok a -> decode_hello_ack (encode_hello_ack a) = Ok (a, []).
Proof. intros H. pose proof (decode_message a H) as E. cbn [decode encode message_norm HelloAck_message] in E. exact E. Qed.
Lemma topic_arrives t : warm_topic_ok t -> decode_warm_topic (encode_warm_topic t) = Ok (t, []).
Proof. intros H. pose proof (decode_message t H) as E. cbn [decode encode message_norm WarmTopic_message] in E. exact E. Qed.
Lemma topic_yields : yields decode_warm_topic warm_topic_ok.
Proof. pose proof (message_yields (M := WarmTopic)) as E. cbn [decode message_ok WarmTopic_message] in E. exact E. Qed.
Lemma result_arrives r : warm_result_ok r -> decode_warm_result (encode_warm_result r) = Ok (r, []).
Proof. intros H. pose proof (decode_message r H) as E. cbn [decode encode message_norm WarmResult_message] in E. exact E. Qed.

(** ** Registration *)

Lemma length_accept e wg dg pg : Z.of_nat (length (payload (frame_ack (mkHelloAck true "" e wg dg pg)))) <= kMaxPayload.
Proof.
  cbn [payload frame_ack]. unfold encode_hello_ack, put_bool, put_u8, put_str, put_u64, put_u32.
  cbn [accepted ack_reason ack_epoch ack_warmth_gen ack_dep_gen ack_policy_gen string_bytes list_ascii_of_string map].
  rewrite !length_app, !length_be_digits. by apply Z.leb_le.
Qed.

(** registration over the wire.  When no other boot of the worker is live,
    the HELLO that the worker writes is read back by the coordinator as it was
    written, is accepted, and the answer makes [connect] succeed; after the
    exchange both sides agree on the worker's identity and boot and on all
    three generations, and the worker table names this connection. *)
Theorem registration (c : Coordinator) (h : handle) (w : Worker) (clock : nat -> Z) :
  announces w -> Z.of_nat (length (encode_hello (hello_of w))) <= kMaxPayload -> coord_words c ->
  live_boot (worker_id (cfg_ w)) c = None \/ live_boot (worker_id (cfg_ w)) c = Some (boot (cfg_ w)) ->
  exists sent reply ack w' c',
    write (Worker.hello_frame w) = Some sent /\ read sent = Ok (Worker.hello_frame w, []) /\
    handle_frame h (Worker.hello_frame w) clock c = (Some reply, c') /\ write reply = Some ack /\
    connect true ack w = (true, sent, w') /\ in_step h w' c' /\ cfg_ w' = cfg_ w /\
    workers_ c' !! worker_id (cfg_ w) = Some h.
Proof.
  intros Ha Hlen [He Hw Hd Hp] Hl. assert (frame_wf (Worker.hello_frame w)) as Hwf by (split; [done|exact (message_bytes (hello_of w) Ha)]).
  destruct (write (Worker.hello_frame w)) as [sent|] eqn:Es; [|by rewrite write_some in Es].
  pose proof (read_write _ _ Hwf Es []) as Hrd. rewrite app_nil_r in Hrd.
  destruct (handle_hello_accepts h (hello_norm (hello_of w)) c eq_refl Hl) as (Hr & Hau & Hpg & Ht).
  set (a := mkHelloAck true "" _ _ _ _) in Hr. set (c' := (handle_hello h (hello_norm (hello_of w)) c).2) in *.
  assert (hello_ack_ok a) as Hok by (split_and!; done).
  assert (frame_wf (frame_ack a)) as Hwfa by (split; [done|exact (message_bytes a Hok)]).
  destruct (write (frame_ack a)) as [ack|] eqn:Ea; [|rewrite write_some in Ea; [done|exact (length_accept _ _ _ _)]].
  pose proof (read_write _ _ Hwfa Ea []) as Hrda. rewrite app_nil_r in Hrda.
  eexists sent, (frame_ack a), ack, _, c'. split_and!; [done|done| |done| |..].
  - unfold handle_frame. cbn [type payload Worker.hello_frame]. rewrite hello_arrives by exact Ha. unfold c'. rewrite <- Hr. by destruct (handle_hello _ _ _).
  - unfold connect. cbn [negb]. rewrite Es, Hrda. unfold adopt. cbn [type frame_ack payload].
    rewrite bool_decide_true by done. cbn [negb]. by rewrite ack_arrives by exact Hok.
  - unfold table in Ht. injection Ht as Hwk Hcn. unfold authority in Hau. injection Hau as E1 E2 E3 _.
    constructor; cbn [a ack_epoch ack_warmth_gen ack_dep_gen Worker.epoch_ warmth_gen_ dep_gen_ cfg_];
      rewrite ?Hcn, ?lookup_insert_eq; by rewrite ?E1, ?E2, ?E3.
  - done.
  - unfold table in Ht. injection Ht as Hwk _. rewrite Hwk. apply lookup_insert_eq.
Qed.

(** A worker and a coordinator that have shaken hands. *)
Definition w_new : Worker := worker_new worker_cfg_example.
Definition w_up : Worker :=
  mkWorker worker_cfg_example ∅ 0 0 0 1 false.

Lemma announces_example : announces w_new.
Proof.
  unfold announces, hello_ok, short, w_new. cbn [hello_of protocol_version hello_worker hello_boot hello_node epoch_guess
    hello_backend devices actions observed worker_new cfg_ worker_cfg_example worker_id boot node backend cfg_devices
    cfg_actions observed_].
  split_and!; try (by apply (bool_decide_unpack _); vm_compute). constructor.
Qed.

Lemma coord_words_example : coord_words coordinator_new.
Proof. constructor; apply (bool_decide_unpack _); vm_compute; exact I. Qed.

Lemma registration_witness : exists sent ack c',
  connect true ack w_new = (true, sent, w_up) /\ in_step 0 w_up c'.
Proof.
  destruct (registration coordinator_new 0 w_new clock0 announces_example) as (sent & reply & ack & w' & c' & H1 & H2 & H3 & H4 & H5 & H6 & _).
  - apply Z.leb_le. vm_compute. reflexivity.
  - apply coord_words_example.
  - left. reflexivity.
  - exists sent, ack, c'.
    assert (w' = w_up) as ->; [|by split].
    vm_compute in H3. injection H3 as <- _. vm_compute in H4. injection H4 as <-.
    vm_compute in H5. injection H5 as _ <-. reflexivity.
Defined.

(** ** One command, end to end *)

Lemma run_cmd_ok cmd hook clock w :
  cmd_ok cmd -> Id128_wf (boot (cfg_ w)) -> uint 64 (Worker.epoch_ w) -> uint 64 (warmth_gen_ w) -> uint 64 (dep_gen_ w) ->
  uint 64 (hook (cmd_object cmd) (cmd_action cmd)).1.2 -> uint 64 (hook (cmd_object cmd) (cmd_action cmd)).2 ->
  warm_result_ok (run_cmd cmd hook clock w).1.
Proof.
  intros (Ho & Ha & Ht) Hb He Hw Hd. unfold run_cmd. destruct (hook _ _) as [[[] d] n]; cbn [fst snd]; intros Hdu Hn;
    split_and!; try done; apply (bool_decide_unpack _); vm_compute; exact I.
Qed.

Lemma in_step_standing h w w' c : standing w' = standing w -> in_step h w c -> in_step h w' c.
Proof. unfold standing. intros [= E1 E2 E3 E4] [H1 H2 H3 H4 H5 H6]. constructor; congruence. Qed.

Lemma in_step_authority h w c c' : authority c' = authority c -> table c' = table c -> in_step h w c -> in_step h w c'.
Proof.
  unfold authority, table. intros [= E1 E2 E3 _] [= _ E5] [H1 H2 H3 H4 H5 H6].
  constructor; rewrite ?E1, ?E2, ?E3, ?E5; done.
Qed.

Lemma in_step_words h w c : coord_words c -> in_step h w c ->
  uint 64 (Worker.epoch_ w) /\ uint 64 (warmth_gen_ w) /\ uint 64 (dep_gen_ w).
Proof. intros [He Hw Hd _] [_ _ _ -> -> ->]. split_and!; done. Qed.

(** C1: one command from end to end.  When the target of [issue_warm] agrees
    with its worker on the authority, the command that is sent makes the worker
    run its hook once and answer with one frame; that frame settles the attempt:
    attempts and reservations are again what they were before the command, both
    sides still agree, and if the hook succeeded, the object is known,
    execution-ready and carries what the hook measured; if it failed, a known
    object has gone through the guarded transition to FAILED. *)
Theorem warm_round_trip (c : Coordinator) (h : handle) (w : Worker) (object : WarmthObjectId) (action : WarmthAction)
    (preferred : option WorkerId) (hook : WarmHook) (clock : nat -> nat -> Z) (clock' : nat -> Z) :
  coord_reach c -> coord_room c -> coord_words c -> in_step h w c -> pick_worker preferred c = Some h ->
  Id128_wf object -> Id128_wf (boot (cfg_ w)) ->
  let '(ok, d, n) := hook object (enum_code action) in
  uint 64 d -> uint 64 n ->
  exists topic c1 frame w' c2,
    issue_begin object action preferred c = (Some (attempt_counter_ c, h, topic), c1) /\
    Worker.handle_frame (mkFrame WARM_TOPIC 0 (encode_warm_topic topic)) (fun _ => hook) clock w = ([frame], w') /\
    handle_frame h frame clock' c1 = (None, c2) /\ in_step h w' c2 /\
    in_flight_ c2 = in_flight_ c /\ outstanding_budget c2 = outstanding_budget c /\
    (ok = true -> exists o, find_object object c2 = Some o /\ execution_ready o = true /\
       residency_ o = R_DEVICE_RESIDENT /\ measured_cost_bytes_ o = n /\ observed_ttr_ms_ o = d) /\
    (ok = false -> find_object object c2 = transition_ FAILED "warming_hook_failed" <$> find_object object c).
Proof.
  intros Hc Hroom Hw Hs Hp Ho Hb. destruct (hook object (enum_code action)) as [[ok d] n] eqn:Ehook. intros Hd Hn.
  pose proof (coord_reach_inv c Hc) as Hi. destruct (in_step_words h w c Hw Hs) as (We & Ww & Wd).
  destruct (issue_begin_admits object action preferred h c Hi Hroom Hp (is_registered _ _ _ Hs))
    as (b & i & Eo & Ew & E & Hnone & Hop & _).
  set (a := attempt_counter_ c) in *. set (cmd := mkCmd object (enum_code action) a) in *.
  set (topic := mkTopic _ _ [cmd]) in *. pose proof (issue_begin_inv object action preferred c Hi Hroom) as Hi1.
  rewrite E in Hi1. cbn [snd] in Hi1. set (c1 := set_flight _ _ _ _) in *.
  assert (cmd_ok cmd) as Hcmd.
  { split_and!; [done|apply enum_u8|]. destruct Hroom as (_ & _ & _ & Ha). pose proof (ci_range _ Hi).
    pose proof (ci_count _ Hi). unfold uint. cbn [cmd cmd_attempt]. unfold a. lia. }
  assert (warm_topic_ok topic) as Htop by (split_and!; [apply (cw_epoch _ Hw)|apply (cw_warmth _ Hw)|by apply Forall_singleton|done]).
  destruct (run_cmd cmd hook (clock 0%nat) w) as [r w'] eqn:Er.
  assert (r = mkResult (boot (cfg_ w)) (Worker.epoch_ w) (warmth_gen_ w) (dep_gen_ w) object (enum_code action) a ok d n
    (if ok then "" else "warming_hook_failed")) as Hr.
  { unfold run_cmd in Er. cbn [cmd cmd_object cmd_action cmd_attempt] in Er. rewrite Ehook in Er. congruence. }
  assert (standing w' = standing w) as Hst by (pose proof (run_cmd_standing cmd hook (clock 0%nat) w) as H; by rewrite Er in H).
  assert (warm_result_ok r) as Hrok.
  { pose proof (run_cmd_ok cmd hook (clock 0%nat) w Hcmd Hb We Ww Wd) as H. cbn [cmd cmd_object cmd_action] in H.
    rewrite Ehook in H. fold cmd in H. rewrite Er in H. by apply H. }
  assert (accepts h r c1) as Hacc.
  { pose proof Hs as [S1 S2 S3 S4 S5 S6]. split.
    - unfold current_authority. rewrite Hr. cbn [result_boot result_epoch result_warmth_gen result_dep_gen].
      change (conns c1) with (conns c). rewrite S1, S3, S4, S5, S6, bool_decide_true by done. cbn. by rewrite !Z.eqb_refl.
    - exists i. rewrite Hr. cbn [result_attempt result_object]. split_and!; [apply lookup_insert_eq|by rewrite Ew|done]. }
  pose proof (accepted_result c1 h r clock' Hi1 Hacc) as Hfin. cbn zeta in Hfin.
  pose proof (handle_frame_authority h (Worker.result_frame r) clock' c1) as Hau.
  pose proof (handle_warm_result_table h r clock' c1) as Htab.
  assert (handle_frame h (Worker.result_frame r) clock' c1 = handle_warm_result h r clock' c1) as Ehf.
  { unfold handle_frame. cbn [type payload Worker.result_frame]. by rewrite result_arrives. }
  rewrite Ehf in Hau. destruct (handle_warm_result h r clock' c1) as [rep c2]. cbn [snd] in Hau, Htab.
  destruct Hfin as (-> & Hfl & Hout & Hother & Hsucc & Hfail).
  exists topic, c1, (Worker.result_frame r), w', c2. split_and!; [done| |done| | | |..].
  - unfold Worker.handle_frame. cbn [type payload]. rewrite topic_arrives by done. cbn [topic cmds run_cmds]. by rewrite Er.
  - eapply in_step_standing; [exact Hst|]. by apply (in_step_authority h w c).
  - rewrite Hfl, Hr. cbn [result_attempt c1 set_flight in_flight_]. by apply delete_insert_id.
  - destruct (coord_inv_accounting _ Hi) as (A1 & _). destruct (coord_inv_accounting _ Hi1) as (A2 & _).
    rewrite A2 in Hout. rewrite A1. unfold in_flight_attempts in *. cbn [c1 set_flight in_flight_] in Hout.
    rewrite map_size_insert_None in Hout by done. lia.
  - intros ->. rewrite Hr in Hsucc. destruct (Hsucc eq_refl) as (o & Hf & H1 & H2 & _ & _ & H3 & H4 & _). exists o. by split_and!.
  - intros ->. rewrite Hr in Hfail. by apply Hfail.
Qed.

Lemma in_step_example : in_step 0 w_up c_registered.
Proof. constructor; vm_compute; reflexivity. Qed.

Lemma coord_words_registered : coord_words c_registered.
Proof. constructor; apply (bool_decide_unpack _); vm_compute; exact I. Qed.

Lemma warm_round_trip_witness : exists frame w' c2 o,
  Worker.handle_frame (mkFrame WARM_TOPIC 0 (encode_warm_topic (mkTopic 0 0 [mkCmd o_example (enum_code INIT_ENGINE) 1])))
    (fun _ => SyntheticWarmHook) (fun _ => clock0) w_up = ([frame], w') /\
  handle_frame 0 frame clock0 (issue_begin o_example INIT_ENGINE None c_registered).2 = (None, c2) /\
  find_object o_example c2 = Some o /\ execution_ready o = true /\ measured_cost_bytes_ o = 268435456.
Proof.
  pose proof (warm_round_trip c_registered 0 w_up o_example INIT_ENGINE None SyntheticWarmHook (fun _ => clock0) clock0
    c_registered_reach ltac:(apply (bool_decide_unpack _); vm_compute; exact I) coord_words_registered in_step_example
    ltac:(vm_compute; reflexivity) ltac:(apply (bool_decide_unpack _); vm_compute; exact I)
    ltac:(apply (bool_decide_unpack _); vm_compute; exact I)) as H.
  unfold SyntheticWarmHook at 1 in H. cbn beta iota in H.
  destruct H as (topic & c1 & frame & w' & c2 & H1 & H2 & H3 & _ & _ & _ & H4 & _);
    [apply (bool_decide_unpack _); vm_compute; exact I..|].
  destruct (H4 eq_refl) as (o & Hf & Hr & _ & Hm & _). exists frame, w', c2, o.
  assert (topic = mkTopic 0 0 [mkCmd o_example (enum_code INIT_ENGINE) 1]) as ->.
  { apply (f_equal fst) in H1. vm_compute in H1. injection H1 as <-. vm_compute. reflexivity. }
  assert (c1 = (issue_begin o_example INIT_ENGINE None c_registered).2) as -> by (by rewrite H1).
  split_and!; [exact H2|exact H3|exact Hf|exact Hr|]. rewrite Hm. vm_compute. reflexivity.
Defined.

(** ** Falling out of step *)

Lemma run_cmds_ok n l hook clock w : Forall cmd_ok l -> Id128_wf (boot (cfg_ w)) ->
  uint 64 (Worker.epoch_ w) -> uint 64 (warmth_gen_ w) -> uint 64 (dep_gen_ w) ->
  (forall n id a, uint 64 (hook n id a).1.2 /\ uint 64 (hook n id a).2) ->
  Forall (fun r => warm_result_ok r /\ result_epoch r = Worker.epoch_ w) (run_cmds n l hook clock w).1.
Proof.
  intros Hl. revert n w. induction Hl as [|cmd l Hc Hl IH]; intros n w Hb He Hw Hd Hh; [constructor|]. cbn [run_cmds].
  destruct (Hh n (cmd_object cmd) (cmd_action cmd)) as [H1 H2].
  pose proof (run_cmd_ok cmd (hook n) (clock n) w Hc Hb He Hw Hd H1 H2) as Hr.
  assert (result_epoch (run_cmd cmd (hook n) (clock n) w).1 = Worker.epoch_ w) as Hre
    by (unfold run_cmd; by destruct (hook n _ _) as [[s d] b]).
  pose proof (run_cmd_standing cmd (hook n) (clock n) w) as Hst. destruct (run_cmd _ _ _ _) as [r w1]. cbn [fst snd] in *.
  unfold standing in Hst. injection Hst as E1 E2 E3 E4.
  specialize (IH (S n) w1). rewrite E1, E2, E3, E4 in IH. specialize (IH Hb He Hw Hd Hh).
  destruct (run_cmds _ _ _ _ _) as [rs w2]. cbn [fst] in *. by constructor.
Qed.

(** C40: a roll leaves the connected workers behind for good.  A worker
    adopts its authority only on registration, so after a roll of the epoch
    nothing that it answers, to whatever it is sent and whatever else happens,
    is accepted on any connection: the attempts that are issued to it
    afterwards never settle by its results. *)
Theorem roll_strands_workers (c c' : Coordinator) (h h' : handle) (w : Worker) (f : Frame) (hook : nat -> WarmHook)
    (clock : nat -> nat -> Z) (clock' : nat -> Z) :
  coord_words c -> value (epoch_ c) < 2 ^ 64 - 1 -> in_step h w c -> Id128_wf (boot (cfg_ w)) -> bytes_ok (payload f) ->
  (forall n id a, uint 64 (hook n id a).1.2 /\ uint 64 (hook n id a).2) ->
  rtc coord_step (roll_epoch c) c' ->
  let '(frames, w') := Worker.handle_frame f hook clock w in
  standing w' = standing w /\
  Forall (fun g => (handle_frame h' g clock' c').2 = c') frames.
Proof.
  intros Hw Hlt Hs Hb Hf Hh Hsteps. destruct (in_step_words h w c Hw Hs) as (We & Ww & Wd).
  pose proof (handle_frame_standing f hook clock w) as Hst.
  assert (Forall (fun g => (handle_frame h' g clock' c').2 = c') (Worker.handle_frame f hook clock w).1) as H;
    [|by destruct (Worker.handle_frame f hook clock w)].
  unfold Worker.handle_frame. destruct (type f); try (by repeat constructor).
  destruct (decode_warm_topic (payload f)) as [[t rest]|] eqn:Ed; [|constructor].
  destruct (topic_yields (payload f) t rest Hf Ed) as [(_ & _ & Hcmds & _) _].
  pose proof (run_cmds_ok 0 (cmds t) hook clock w Hcmds Hb We Ww Wd Hh) as Hr.
  destruct (run_cmds _ _ _ _ _) as [rs w']. cbn [fst] in *. apply Forall_map. eapply Forall_impl; [exact Hr|].
  intros r [Hok Hre]. cbn beta. unfold handle_frame. cbn [type payload Worker.result_frame]. rewrite result_arrives by done.
  apply coord_steps_epoch in Hsteps. change (epoch_ (roll_epoch c)) with (next (epoch_ c)) in Hsteps. unfold next in Hsteps.
  cbn [value] in Hsteps. rewrite (proj2 (Z.eqb_neq _ _)) in Hsteps by lia.
  unfold handle_warm_result. rewrite stale_epoch; [done|]. rewrite Hre, (is_epoch _ _ _ Hs). lia.
Qed.

Definition hook_example : WarmHook := fun _ _ => (true, dlit 1 2, 4096).
Definition topic_after_roll : Frame := mkFrame WARM_TOPIC 0 (encode_warm_topic (mkTopic 1 1 [mkCmd o_example 1 1])).
Definition c_stranded : Coordinator := (issue_begin o_example INIT_ENGINE None (roll_epoch c_registered)).2.

Lemma roll_strands_workers_witness :
  length (Worker.handle_frame topic_after_roll (fun _ => hook_example) (fun _ => clock0) w_up).1 = 1%nat /\
  Forall (fun g => (handle_frame 0 g clock0 c_stranded).2 = c_stranded)
    (Worker.handle_frame topic_after_roll (fun _ => hook_example) (fun _ => clock0) w_up).1.
Proof.
  split; [vm_compute; reflexivity|].
  pose proof (roll_strands_workers c_registered c_stranded 0 0 w_up topic_after_roll (fun _ => hook_example) (fun _ => clock0)
    clock0 coord_words_registered ltac:(vm_compute; reflexivity) in_step_example
    ltac:(apply (bool_decide_unpack _); vm_compute; exact I) ltac:(apply (bool_decide_unpack _); vm_compute; exact I)) as H.
  destruct (Worker.handle_frame _ _ _ _) as [frames w']. apply H.
  - intros n id a. split; apply (bool_decide_unpack _); vm_compute; exact I.
  - apply rtc_once. apply cs_issue. apply (bool_decide_unpack _). vm_compute. exact I.
Defined.
