(* ===== verification/Network.v ===== *)
(** * Coordinator, workers and the network between them

    The whole distributed half: one coordinator, any number of workers that
    come, break off and come back, strangers that send whatever they like, and
    the frames in transit.  Each thread takes its steps on its own: a connection's
    thread of the coordinator handles a frame in its critical section and sends
    the answer afterwards; a caller of [issue_warm] registers the attempt and
    sends the command afterwards; a worker reads a frame and answers it.  Frames
    on one connection stay in order ([Transport] and [Protocol] get them across
    the byte stream).  A log, which no code reads, records what the hooks did.

    Here: what the coordinator takes for a completed command was carried out,
    once, by the worker it was sent to.  [Delivery] has the progress half. *)

From Stdlib Require Import ZArith Lia String.
From stdpp Require Import base list numbers strings gmap fin_maps sets relations sorting.
From S2P Require Import Prelude Float64 Identity State Object Decay Budget Ledger Policy Scheduler Codec Protocol Wire Messages Worker Coordinator Authority System.
Local Open Scope Z_scope.
Local Open Scope warmth_scope.

(** A worker's process: in [connect], in [run], or given up. *)
Inductive Phase := Connecting | Serving | Failed.
#[export] Instance Phase_eq_dec : EqDecision Phase.
Proof. solve_decision. Defined.

(** A connection: the process at its other end ([None] for a stranger), the
    frames in transit in both directions, and the answer that the connection's
    thread has not sent yet.  [broken]: no more frames will come. *)
Record Link := mkLink {
  proc : option Worker;
  phase : Phase;
  down : list Frame;
  up : list Frame;
  replying : list Frame;
  broken : bool }.

(** One execution of a hook: where, the command, and the result made of it. *)
Record Run := mkRun { run_link : handle; run_of : WarmCmd; run_result : WarmResult }.

(** A caller of [issue_warm] between its critical section and the send. *)
Record Sending := mkSending { send_attempt : Z; send_link : handle; send_topic : WarmTopic }.

Record Network := mkNetwork {
  hub : Coordinator;
  links : gmap handle Link;
  sending : list Sending;
  log : list Run;
  issued : gmap Z (handle * WarmCmd) }.

Definition network_new : Network := mkNetwork coordinator_new ∅ [] [] ∅.

Definition topic_frame (t : WarmTopic) : Frame := mkFrame WARM_TOPIC 0 (encode_warm_topic t).

Definition set_hub (c : Coordinator) (n : Network) : Network := mkNetwork c (links n) (sending n) (log n) (issued n).
Definition set_link (h : handle) (L : Link) (n : Network) : Network :=
  mkNetwork (hub n) (<[h := L]> (links n)) (sending n) (log n) (issued n).

(** ** What can happen *)

(** [on_connection] with a worker's [connect], which has sent its HELLO, or
    with a stranger. *)
Definition join_link (h : handle) (L : Link) (n : Network) : option Network :=
  match links n !! h, conns (hub n) !! h with
  | None, None => Some (set_link h L (set_hub (set_conns (<[h := conn_new]> (conns (hub n))) (hub n)) n))
  | _, _ => None
  end.
Definition link_worker (w : Worker) : Link := mkLink (Some w) Connecting [] [Worker.hello_frame w] [] false.
Definition link_stranger : Link := mkLink None Failed [] [] [] false.

Definition inject (h : handle) (f : Frame) (n : Network) : option Network :=
  L ← links n !! h;
  match proc L, broken L with
  | None, false => Some (set_link h (mkLink None (phase L) (down L) (up L ++ [f]) (replying L) false) n)
  | _, _ => None
  end.

(** What is written to a broken connection is lost, whether or not the sender
    is told. *)
Definition carry (fs : list Frame) (L : Link) : Link :=
  if broken L then L else mkLink (proc L) (phase L) (down L ++ fs) (up L) (replying L) false.

(** The thread of [h] handles the next frame ... *)
Definition handle_next (h : handle) (clock : nat -> Z) (n : Network) : option Network :=
  L ← links n !! h;
  match up L, replying L with
  | f :: rest, [] =>
      let '(r, c) := handle_frame h f clock (hub n) in
      Some (set_link h (mkLink (proc L) (phase L) (down L) rest (option_list r) (broken L)) (set_hub c n))
  | _, _ => None
  end.
(** ... and sends the answer. *)
Definition send_reply (h : handle) (n : Network) : option Network :=
  L ← links n !! h;
  match replying L with
  | [] => None
  | fs => Some (set_link h (carry fs (mkLink (proc L) (phase L) (down L) (up L) [] (broken L))) n)
  end.

(** [issue_warm]: the critical section, and the send or its failure. *)
Definition issue (object : WarmthObjectId) (action : WarmthAction) (preferred : option WorkerId) (n : Network) : option Network :=
  match issue_begin object action preferred (hub n) with
  | (None, c) => Some (set_hub c n)
  | (Some (a, h, t), c) =>
      Some (mkNetwork c (links n) (sending n ++ [mkSending a h t]) (log n)
             (<[a := (h, mkCmd object (enum_code action) a)]> (issued n)))
  end.
Definition send_command (k : nat) (n : Network) : option Network :=
  s ← sending n !! k;
  L ← links n !! send_link s;
  Some (mkNetwork (hub n) (<[send_link s := carry [topic_frame (send_topic s)] L]> (links n))
          (delete k (sending n)) (log n) (issued n)).
Definition send_fails (k : nat) (n : Network) : option Network :=
  s ← sending n !! k;
  Some (mkNetwork (issue_failed (send_attempt s) (hub n)) (links n) (delete k (sending n)) (log n) (issued n)).

(** The commands of a frame and the runs of the hook they cause. *)
Definition frame_cmds (f : Frame) : list WarmCmd :=
  match type f with
  | WARM_TOPIC => match decode_warm_topic (payload f) with Ok (t, _) => cmds t | Err _ => [] end
  | _ => []
  end.
Definition ran (h : handle) (f : Frame) (hook : nat -> WarmHook) (clock : nat -> nat -> Z) (w : Worker) : list Run :=
  zip_with (mkRun h) (frame_cmds f) (run_cmds 0 (frame_cmds f) hook clock w).1.

(** The process at the other end of [h] reads its next frame. *)
Definition deliver (h : handle) (hook : nat -> WarmHook) (clock : nat -> nat -> Z) (n : Network) : option Network :=
  L ← links n !! h;
  match down L with
  | [] => None
  | f :: rest =>
      match proc L, phase L with
      | Some w, Connecting =>
          let '(ok, w) := adopt f w in
          Some (set_link h (mkLink (Some w) (if ok : bool then Serving else Failed) rest (up L) (replying L) (broken L)) n)
      | Some w, Serving =>
          let '(fs, w') := Worker.handle_frame f hook clock w in
          Some (mkNetwork (hub n)
                 (<[h := mkLink (Some w') (if shutdown_requested_ w' then Failed else Serving) rest (up L ++ fs)
                           (replying L) (broken L)]> (links n))
                 (sending n) (log n ++ ran h f hook clock w) (issued n))
      | _, _ => Some (set_link h (mkLink (proc L) (phase L) rest (up L) (replying L) (broken L)) n)
      end
  end.

(** [request_shutdown]: the loop ends after the next frame. *)
Definition quit (h : handle) (n : Network) : option Network :=
  L ← links n !! h;
  match proc L, phase L with
  | Some w, Serving =>
      let '(fs, w') := request_shutdown w in
      Some (set_link h (mkLink (Some w') Serving (down L) (up L ++ fs) (replying L) (broken L)) n)
  | _, _ => None
  end.

(** The connection breaks: the coordinator may still read [k] frames, the
    process reads nothing more; and the thread that notices. *)
Definition break_link (h : handle) (k : nat) (n : Network) : option Network :=
  L ← links n !! h; Some (set_link h (mkLink (proc L) Failed [] (take k (up L)) (replying L) true) n).
Definition leave_link (h : handle) (clock : WarmthObjectId -> Z) (n : Network) : option Network :=
  L ← links n !! h;
  match broken L, up L, replying L with
  | true, [], [] => Some (mkNetwork (on_disconnect h clock (hub n)) (delete h (links n)) (sending n) (log n) (issued n))
  | _, _, _ => None
  end.

Inductive action :=
  | Join (h : handle) (w : Worker)
  | Stranger (h : handle)
  | Inject (h : handle) (f : Frame)
  | Handle (h : handle) (clock : nat -> Z)
  | Reply (h : handle)
  | Issue (object : WarmthObjectId) (a : WarmthAction) (preferred : option WorkerId)
  | Send (k : nat)
  | SendFails (k : nat)
  | Deliver (h : handle) (hook : nat -> WarmHook) (clock : nat -> nat -> Z)
  | Quit (h : handle)
  | Break (h : handle) (k : nat)
  | Leave (h : handle) (clock : WarmthObjectId -> Z)
  | Roll
  | BumpDependency
  | BumpWarmth.

Definition perform (a : action) (n : Network) : option Network :=
  match a with
  | Join h w => join_link h (link_worker w) n
  | Stranger h => join_link h link_stranger n
  | Inject h f => inject h f n
  | Handle h clock => handle_next h clock n
  | Reply h => send_reply h n
  | Issue object a preferred => issue object a preferred n
  | Send k => send_command k n
  | SendFails k => send_fails k n
  | Deliver h hook clock => deliver h hook clock n
  | Quit h => quit h n
  | Break h k => break_link h k n
  | Leave h clock => leave_link h clock n
  | Roll => Some (set_hub (roll_epoch (hub n)) n)
  | BumpDependency => Some (set_hub (bump_dependency_generation (hub n)) n)
  | BumpWarmth => Some (set_hub (bump_warmth_generation (hub n)) n)
  end.

Fixpoint performs (l : list action) (n : Network) : option Network :=
  match l with [] => Some n | a :: l => n ← perform a n; performs l n end.

(** Arguments have their types: ids and hook answers are words, a worker that
    joins (a new process, or an old one that connects again) announces what fits
    into a HELLO and knows only what [Worker] can put into its table, and the
    counters have room. *)
Definition worker_words (w : Worker) : Prop :=
  Id128_wf (boot (cfg_ w)) /\ uint 64 (Worker.epoch_ w) /\ uint 64 (warmth_gen_ w) /\ uint 64 (dep_gen_ w).
Definition hook_words (hook : nat -> WarmHook) : Prop :=
  forall k id (x : WarmthAction), uint 64 (hook k id (enum_code x)).1.2 /\ uint 64 (hook k id (enum_code x)).2.
Definition permitted (a : action) (n : Network) : Prop :=
  match a with
  | Join h w => announces w /\ worker_words w /\ all_cold w
  | Issue object _ _ => coord_room (hub n) /\ Id128_wf object
  | Deliver h hook _ => hook_words hook
  | _ => True
  end.

(** Steps by the allowed actions, and what they reach. *)
Definition network_step (allowed : action -> Prop) (n n' : Network) : Prop :=
  exists a, allowed a /\ permitted a n /\ perform a n = Some n'.
Definition network_reach (allowed : action -> Prop) : Network -> Prop := rtc (network_step allowed) network_new.
Definition any_action : action -> Prop := fun _ => True.
Definition no_stranger (a : action) : Prop := match a with Stranger _ => False | _ => True end.

(** ** The invariant *)

(** Answers of a connection's thread. *)
Definition answer_ok (f : Frame) : Prop :=
  f = frame_plain ERROR \/ f = frame_plain PONG \/ exists a, hello_ack_ok a /\ f = frame_ack a.
(** A frame on the way to a process on [h]: an answer, or one issued command. *)
Definition command_frame (h : handle) (n : Network) (cmd : WarmCmd) (t : WarmTopic) : Prop :=
  cmds t = [cmd] /\ warm_topic_ok t /\ issued n !! cmd_attempt cmd = Some (h, cmd).
Definition downward (h : handle) (n : Network) (f : Frame) : Prop :=
  answer_ok f \/ exists cmd t, command_frame h n cmd t /\ f = topic_frame t.

Definition attempts_down (L : Link) : list Z := map cmd_attempt (concat (map frame_cmds (down L))).
Definition attempts_sending (n : Network) : list Z := map send_attempt (sending n).
Definition attempts_run (n : Network) : list Z := map (fun x => cmd_attempt (run_of x)) (log n).

(** A run is of an issued command, on the link it was sent to, and its result
    names the command. *)
Definition run_ok (n : Network) (x : Run) : Prop :=
  issued n !! cmd_attempt (run_of x) = Some (run_link x, run_of x) /\ warm_result_ok (run_result x) /\
  result_attempt (run_result x) = cmd_attempt (run_of x) /\ result_object (run_result x) = cmd_object (run_of x).

(** A connection: the process holds machine words, its results in transit are
    those of runs, what comes down are answers and issued commands, and no
    command is on the way twice, waiting to be sent, or already run. *)
Record link_honest (n : Network) (h : handle) (L : Link) : Prop := mkLinkHonest {
  lh_worker : forall w, proc L = Some w -> worker_words w;
  lh_up : is_Some (proc L) -> forall f, f ∈ up L -> type f = WARM_RESULT ->
    exists x, x ∈ log n /\ run_link x = h /\ f = Worker.result_frame (run_result x);
  lh_down : Forall (downward h n) (down L);
  lh_reply : Forall answer_ok (replying L);
  lh_once : NoDup (attempts_down L);
  lh_apart : forall a, a ∈ attempts_down L -> a ∉ attempts_sending n /\ a ∉ attempts_run n }.

Record honest (n : Network) : Prop := mkHonest {
  ho_inv : coord_inv (hub n);
  ho_table : registered_table (hub n);
  ho_words : coord_words (hub n);
  ho_link : forall h L, links n !! h = Some L -> link_honest n h L;
  ho_sending : forall s, s ∈ sending n -> exists cmd, command_frame (send_link s) n cmd (send_topic s) /\
    cmd_attempt cmd = send_attempt s;
  ho_log : Forall (run_ok n) (log n);
  ho_issued : forall a x, issued n !! a = Some x -> cmd_attempt x.2 = a /\ a < attempt_counter_ (hub n) /\
    exists y : WarmthAction, cmd_action x.2 = enum_code y;
  ho_flight : forall a i, in_flight_ (hub n) !! a = Some i ->
    exists h cmd, issued n !! a = Some (h, cmd) /\ cmd_object cmd = at_object i;
  ho_once_sending : NoDup (attempts_sending n);
  ho_once_run : NoDup (attempts_run n);
  ho_apart : forall a, a ∈ attempts_sending n -> a ∉ attempts_run n }.

(** *** What the coordinator answers *)

Lemma hello_object_policy w o c : policy_gen_ (hello_object w o c) = policy_gen_ c.
Proof. unfold hello_object. by destruct (_ !! _). Qed.

Lemma handle_frame_answers h f clock c r c' : coord_words c -> handle_frame h f clock c = (r, c') ->
  Forall answer_ok (option_list r).
Proof.
  intros Hw. assert (forall a, hello_ack_ok a -> Forall answer_ok [frame_ack a]) as Hack.
  { intros a Ha. apply Forall_singleton. right. right. by exists a. }
  assert (Forall answer_ok [frame_plain ERROR] /\ Forall answer_ok [frame_plain PONG]) as [Her Hpo].
  { split; apply Forall_singleton; [by left|by right; left]. }
  unfold handle_frame. destruct (type f); try (by intros [= <- _]).
  - destruct (decode_hello (payload f)) as [[m ?]|]; [|by intros [= <- _]].
    pose proof (handle_frame_authority h f clock c) as Hau. unfold handle_hello.
    destruct (negb _); [intros [= <- _]; by apply Hack|]. destruct Hw as [He Hg Hd Hp].
    destruct (_ && _); [intros [= <- _]; by apply Hack|].
    cbn zeta. match goal with |- context [fold_left ?g ?l ?c0] => set (c1 := fold_left g l c0) end.
    intros [= <- _]. apply Hack.
    assert (authority c1 = authority c /\ policy_gen_ c1 = policy_gen_ c) as [E1 E2].
    { unfold c1. rewrite (fold_left_keep authority) by (intros; apply hello_object_authority).
      rewrite (fold_left_keep policy_gen_) by (intros; apply hello_object_policy).
      destruct (last_boot_ c !! _) as [b|]; [destruct (decide _)|]; try done.
      unfold invalidate_worker_objects_locked. by destruct (worker_objects_ c !! _). }
    unfold authority in E1. injection E1 as -> -> -> _. rewrite E2. by split_and!.
  - destruct (decode_report _) as [[p ?]|]; [|by intros [= <- _]]. unfold handle_report.
    by destruct (negb _); intros [= <- _].
  - destruct (decode_warm_result _) as [[x ?]|]; [|by intros [= <- _]]. unfold handle_warm_result.
    destruct (negb _); [by intros [= <- _]|]. destruct (in_flight_ c !! _); [|by intros [= <- _]].
    destruct (decide _); by intros [= <- _].
Qed.

(** *** The machine words of the authority *)
Lemma coord_words_eq c c' : authority c' = authority c -> policy_gen_ c' = policy_gen_ c -> coord_words c -> coord_words c'.
Proof. unfold authority. intros [= E1 E2 E3 _] E4 [H1 H2 H3 H4]. constructor; by rewrite ?E1, ?E2, ?E3, ?E4. Qed.

Lemma handle_frame_policy h f clock c : policy_gen_ (handle_frame h f clock c).2 = policy_gen_ c.
Proof.
  unfold handle_frame. destruct (type f); try done.
  - destruct (decode_hello _) as [[m ?]|]; [|done]. unfold handle_hello.
    destruct (negb _); [done|]. destruct (_ && _); [done|]. cbn zeta. cbn [snd].
    rewrite (fold_left_keep policy_gen_) by (intros; apply hello_object_policy).
    destruct (last_boot_ c !! _) as [b|]; [destruct (decide _)|]; try done.
    unfold invalidate_worker_objects_locked. by destruct (worker_objects_ c !! _).
  - destruct (decode_report _) as [[p ?]|]; [|done]. unfold handle_report. destruct (negb _); [done|]. cbn [snd].
    rewrite (fold_left_keep (fun ic : nat * Coordinator => policy_gen_ ic.2)); [done|].
    intros [i s] a. unfold report_object. by destruct (objects_ _ !! _).
  - destruct (decode_warm_result _) as [[r ?]|]; [|done]. unfold handle_warm_result. destruct (negb _); [done|].
    destruct (in_flight_ c !! _); [|done]. destruct (decide _); [|done]. unfold apply_result. cbn [snd].
    destruct (success r); [done|]. by destruct (objects_ c !! _).
Qed.

Lemma on_disconnect_authority h clock c :
  authority (on_disconnect h clock c) = authority c /\ policy_gen_ (on_disconnect h clock c) = policy_gen_ c.
Proof. unfold on_disconnect. destruct (negb _); [done|]. destruct (bool_decide _); by destruct (_ !! _). Qed.

Lemma issue_failed_authority a c :
  authority (issue_failed a c) = authority c /\ policy_gen_ (issue_failed a c) = policy_gen_ c.
Proof. unfold issue_failed. by destruct (_ !! _). Qed.

Lemma coord_words_roll c : coord_words c -> coord_words (roll_epoch c).
Proof. intros [H1 H2 H3 H4]. constructor; [by apply next_wf|by apply wrap_uint..|done]. Qed.
Lemma coord_words_bump c : coord_words c -> coord_words (bump_dependency_generation c) /\ coord_words (bump_warmth_generation c).
Proof. intros [H1 H2 H3 H4]. split; constructor; try done; by apply wrap_uint. Qed.

(** *** What a process sends and runs *)

Lemma frame_cmds_topic t : warm_topic_ok t -> frame_cmds (topic_frame t) = cmds t.
Proof. intros Ht. unfold frame_cmds. cbn [type payload topic_frame]. by rewrite topic_arrives. Qed.

Lemma frame_cmds_answer f : answer_ok f -> frame_cmds f = [] /\ type f <> WARM_TOPIC.
Proof. intros [->|[->|(a & _ & ->)]]; by split. Qed.

Lemma downward_cmds h n f : downward h n f ->
  frame_cmds f = [] \/ exists cmd, frame_cmds f = [cmd] /\ issued n !! cmd_attempt cmd = Some (h, cmd) /\ cmd_ok cmd.
Proof.
  intros [Ha|(cmd & t & (Hc & Ht & Hi) & ->)]; [left; by apply frame_cmds_answer|right].
  exists cmd. rewrite frame_cmds_topic, Hc by done. split_and!; try done. destruct Ht as (_ & _ & Hall & _).
  rewrite Hc in Hall. by apply (proj1 (Forall_singleton _ _)) in Hall.
Qed.

(** The results of a worker for the commands of a frame. *)
Lemma handle_frame_results f hook clock w g : g ∈ (Worker.handle_frame f hook clock w).1 -> type g = WARM_RESULT ->
  exists r, r ∈ (run_cmds 0 (frame_cmds f) hook clock w).1 /\ g = Worker.result_frame r.
Proof.
  unfold Worker.handle_frame, frame_cmds. destruct (type f); cbn [fst]; try (by intros ?%not_elem_of_nil).
  - destruct (decode_warm_topic _) as [[t ?]|]; [|by intros ?%not_elem_of_nil].
    destruct (run_cmds _ _ _ _ _) as [rs w']. cbn [fst]. intros (r & -> & Hr)%list_elem_of_fmap _. eauto.
  - by intros ->%list_elem_of_singleton.
Qed.

(** The state a worker is left in. *)
Lemma worker_words_standing w w' : standing w' = standing w -> worker_words w -> worker_words w'.
Proof. unfold standing, worker_words. by intros [= -> -> -> ->]. Qed.

Lemma adopt_words f w : answer_ok f \/ type f = WARM_TOPIC -> worker_words w -> worker_words (adopt f w).2.
Proof.
  intros Hf (Hb & Hw). unfold adopt. case_bool_decide as Ht; [|done]. cbn [negb].
  destruct Hf as [[->|[->|(a & Ha & ->)]]|Hf]; [done|done| |by rewrite Hf in Ht].
  cbn [payload frame_ack]. rewrite ack_arrives by done. destruct (negb _); [done|]. cbn [snd].
  destruct Ha as (_ & ? & ? & ? & _). by split_and!.
Qed.

Lemma run_one cmd hook clock w :
  (run_cmds 0 [cmd] hook clock w).1 = [(run_cmd cmd (hook 0%nat) (clock 0%nat) w).1].
Proof. cbn [run_cmds]. by destruct (run_cmd _ _ _ _). Qed.

(** *** Changes that keep the invariant *)

Lemma downward_mono h n n' f : issued n ⊆ issued n' -> downward h n f -> downward h n' f.
Proof.
  intros Hi [Ha|(cmd & t & (Hc & Ht & Hl) & ->)]; [by left|right]. exists cmd, t. split; [|done].
  split_and!; [done..|]. by eapply lookup_weaken.
Qed.

Lemma run_ok_mono n n' x : issued n ⊆ issued n' -> run_ok n x -> run_ok n' x.
Proof. intros Hi (Hl & Hr). split; [by eapply lookup_weaken|done]. Qed.

Lemma down_issued n h L a : link_honest n h L -> a ∈ attempts_down L -> exists cmd, issued n !! a = Some (h, cmd).
Proof.
  intros [_ _ Hd _ _ _]. unfold attempts_down. intros (cmd & -> & Hc)%list_elem_of_fmap.
  apply list_elem_of_In, in_concat in Hc as (l & Hl & Hc). apply in_map_iff in Hl as (f & <- & Hf).
  rewrite Forall_forall in Hd. apply list_elem_of_In in Hf. destruct (downward_cmds h n f (Hd f Hf)) as [E|(c & E & Hi & _)].
  - by rewrite E in Hc.
  - rewrite E in Hc. destruct Hc as [<-|[]]. eauto.
Qed.

Lemma link_honest_mono n n' h L : log n ⊆ log n' -> issued n ⊆ issued n' ->
  (forall a, a ∈ attempts_down L -> (a ∈ attempts_sending n' -> a ∈ attempts_sending n) /\ (a ∈ attempts_run n' -> a ∈ attempts_run n)) ->
  link_honest n h L -> link_honest n' h L.
Proof.
  intros Hl Hi Ha [H1 H2 H3 H4 H5 H6]. split; try done.
  - intros Hp f Hf Ht. destruct (H2 Hp f Hf Ht) as (x & Hx & E). exists x. split; [by apply Hl|done].
  - eapply Forall_impl; [exact H3|]. intros f. by apply downward_mono.
  - intros a Hd. destruct (Ha a Hd) as [Hs Hr]. destruct (H6 a Hd). tauto.
Qed.

(** The coordinator's state changes without a new attempt. *)
Lemma honest_hub c n : coord_inv c -> registered_table c -> coord_words c ->
  attempt_counter_ c = attempt_counter_ (hub n) -> (forall a i, in_flight_ c !! a = Some i -> in_flight_ (hub n) !! a = Some i) ->
  honest n -> honest (set_hub c n).
Proof.
  intros Hi Ht Hw Ha Hf [H1 H2 H3 H4 H5 H6 H7 H8 H9 H10 H11]. split; try done.
  - intros h L Hl. by eapply (link_honest_mono n); [..|by apply H4].
  - intros a x Hx. cbn. rewrite Ha. by apply H7.
  - intros a i Hx. apply (H8 a i). by apply Hf.
Qed.

(** One connection changes. *)
Lemma honest_link h L n : link_honest n h L -> honest n -> honest (set_link h L n).
Proof.
  intros HL [H1 H2 H3 H4 H5 H6 H7 H8 H9 H10 H11]. split; try done.
  intros h' L'. cbn [links set_link]. intros [[<- <-]|[_ Hl]]%lookup_insert_Some; eapply (link_honest_mono n); try done.
  by apply H4.
Qed.

(** A connection that is read from, or that breaks. *)
Lemma link_honest_less n h L L' : link_honest n h L ->
  (proc L' = proc L \/ exists w, proc L' = Some w /\ worker_words w /\ is_Some (proc L)) ->
  (forall f, f ∈ up L' -> f ∈ up L) -> down L' `sublist_of` down L -> Forall answer_ok (replying L') -> link_honest n h L'.
Proof.
  intros [H1 H2 H3 H4 H5 H6] Hp Hu Hd Hr.
  assert (attempts_down L' `sublist_of` attempts_down L) as Hs.
  { unfold attempts_down. apply fmap_sublist. clear -Hd. induction Hd as [|f l1 l2 _ IH|f l1 l2 _ IH]; cbn; [done| |].
    - by apply sublist_app.
    - by apply sublist_inserts_l. }
  assert (is_Some (proc L') -> is_Some (proc L)) as Hsome by (destruct Hp as [->|(w & _ & _ & ?)]; done).
  split; try done.
  - intros w Hw. destruct Hp as [E|(w' & E & Hww & _)]; [apply H1; congruence|]. rewrite E in Hw. by injection Hw as <-.
  - intros HS f Hf. by apply H2; [apply Hsome|apply Hu].
  - apply Forall_forall. intros f Hf. rewrite Forall_forall in H3. apply H3. by eapply elem_of_sublist.
  - by eapply sublist_NoDup.
  - intros a Ha. apply H6. by eapply elem_of_sublist.
Qed.

(** *** The steps *)

Lemma attempts_down_app p ph d f u r b :
  attempts_down (mkLink p ph (d ++ f) u r b) = attempts_down (mkLink p ph d u r b) ++ map cmd_attempt (concat (map frame_cmds f)).
Proof. unfold attempts_down. cbn [down]. by rewrite map_app, concat_app, map_app. Qed.

Lemma answers_no_cmds fs : Forall answer_ok fs -> concat (map frame_cmds fs) = [].
Proof.
  induction 1 as [|f fs Hf _ IH]; [done|]. cbn. rewrite IH. by destruct (frame_cmds_answer f Hf) as [-> _].
Qed.

Lemma join_honest h L n n' : honest n -> down L = [] -> replying L = [] ->
  (forall w, proc L = Some w -> worker_words w) -> Forall (fun f => type f <> WARM_RESULT) (up L) ->
  join_link h L n = Some n' -> honest n'.
Proof.
  intros Hn Hd Hr Hw Hu. unfold join_link. destruct (links n !! h); [done|]. destruct (conns (hub n) !! h) eqn:Hc; [done|].
  intros [= <-]. apply honest_link; [|apply honest_hub; try done].
  - split; try done.
    + intros _ f Hf Ht. rewrite Forall_forall in Hu. by destruct (Hu f Hf).
    + by rewrite Hd.
    + by rewrite Hr.
    + unfold attempts_down. rewrite Hd. constructor.
    + unfold attempts_down. rewrite Hd. by intros a ?%not_elem_of_nil.
  - by apply (coord_inv_flight (hub n)), (ho_inv n Hn).
  - intros w k Hk. pose proof (ho_table n Hn w k Hk) as Hreg. cbn. destruct (decide (k = h)) as [->|Hne].
    + by rewrite Hc in Hreg.
    + by rewrite lookup_insert_ne.
  - apply (coord_words_eq (hub n)); try done. apply (ho_words n Hn).
Qed.

Lemma inject_honest h f n n' : honest n -> inject h f n = Some n' -> honest n'.
Proof.
  intros Hn. unfold inject. destruct (links n !! h) as [L|] eqn:Hl; [|done]. cbn. destruct (proc L) as [w|] eqn:Hp; [done|].
  destruct (broken L); [done|]. intros [= <-]. apply honest_link; [|done]. destruct (ho_link n Hn h L Hl) as [H1 H2 H3 H4 H5 H6]. split; try done.
  by intros [w ?].
Qed.

Lemma handle_frame_flight h f clock c : attempt_counter_ (handle_frame h f clock c).2 = attempt_counter_ c /\
  forall a i, in_flight_ (handle_frame h f clock c).2 !! a = Some i -> in_flight_ c !! a = Some i.
Proof.
  destruct (handle_frame_settles h f clock c) as [E|(r & i & _ & E & Ea)].
  - unfold flight in E. by injection E as _ -> _ ->.
  - split; [done|]. intros a j. rewrite E. by intros [_ Hj]%lookup_delete_Some.
Qed.

Lemma handle_hub h f clock n : honest n -> honest (set_hub (handle_frame h f clock (hub n)).2 n).
Proof.
  intros Hn. destruct (handle_frame_flight h f clock (hub n)) as [Ha Hf]. apply honest_hub; try done.
  - apply (coord_step_inv (hub n)); [constructor|apply (ho_inv n Hn)].
  - apply (coord_step_registered (hub n)); [constructor|apply (ho_table n Hn)].
  - apply (coord_words_eq (hub n)); [apply handle_frame_authority|apply handle_frame_policy|apply (ho_words n Hn)].
Qed.

Lemma handle_honest h clock n n' : honest n -> handle_next h clock n = Some n' -> honest n'.
Proof.
  intros Hn. unfold handle_next. destruct (links n !! h) as [L|] eqn:Hl; [|done]. cbn.
  destruct (up L) as [|f rest] eqn:Hu; [done|]. destruct (replying L); [|done].
  pose proof (handle_hub h f clock n Hn) as H. pose proof (handle_frame_answers h f clock (hub n)) as Hans.
  destruct (handle_frame h f clock (hub n)) as [r c]. intros [= <-]. cbn [snd] in H. apply honest_link; [|done].
  apply (link_honest_less _ h L); [by apply (ho_link _ H)|by left| |done|].
  - intros g Hg. rewrite Hu. by right.
  - eapply Hans; [apply (ho_words n Hn)|done].
Qed.

Lemma link_honest_carry n h L fs : Forall answer_ok fs -> link_honest n h L -> link_honest n h (carry fs L).
Proof.
  intros Hf HL. unfold carry. destruct (broken L); [done|]. destruct HL as [H1 H2 H3 H4 H5 H6].
  assert (attempts_down (mkLink (proc L) (phase L) (down L ++ fs) (up L) (replying L) false) = attempts_down L) as E.
  { rewrite attempts_down_app, answers_no_cmds, app_nil_r by done. done. }
  split; try done.
  - apply Forall_app. split; [done|]. eapply Forall_impl; [exact Hf|]. by left.
  - by rewrite E.
  - by rewrite E.
Qed.

Lemma reply_honest h n n' : honest n -> send_reply h n = Some n' -> honest n'.
Proof.
  intros Hn. unfold send_reply. destruct (links n !! h) as [L|] eqn:Hl; [|done]. cbn.
  pose proof (ho_link n Hn h L Hl) as HL. destruct (replying L) as [|f fs] eqn:Hr; [done|]. intros [= <-].
  apply honest_link; [|done]. apply link_honest_carry; [rewrite <- Hr; apply HL|]. by apply (link_honest_less n h L); [|left|..].
Qed.

Lemma issue_honest object action preferred n n' : honest n -> coord_room (hub n) -> Id128_wf object ->
  issue object action preferred n = Some n' -> honest n'.
Proof.
  intros Hn Hroom Hid. unfold issue. destruct (pick_worker preferred (hub n)) as [h|] eqn:Hp.
  2: { unfold issue_begin. rewrite Hp. intros [= <-]. by destruct n. }
  assert (registered (default conn_new (conns (hub n) !! h)) = true) as Hreg.
  { destruct (pick_worker_in _ _ _ Hp) as [w Hw]. by apply (ho_table n Hn w). }
  pose proof (issue_begin_inv object action preferred (hub n) (ho_inv n Hn) Hroom) as Hinv.
  destruct (issue_begin_admits object action preferred h (hub n) (ho_inv n Hn) Hroom Hp Hreg) as (b & i & Ho & _ & E & _).
  rewrite E in Hinv |- *. cbn [snd] in Hinv. set (c := set_flight _ _ _ _) in *. set (a := attempt_counter_ (hub n)) in *.
  set (cmd := mkCmd _ _ a). set (t := mkTopic _ _ _). intros [= <-].
  destruct Hn as [H1 H2 H3 H4 H5 H6 H7 H8 H9 H10 H11].
  assert (issued n !! a = None) as Hnew.
  { destruct (issued n !! a) as [x|] eqn:Hx; [|done]. apply H7 in Hx as (_ & Hx & _). unfold a in Hx. lia. }
  assert (issued n ⊆ <[a := (h, cmd)]> (issued n)) as Hsub by by apply insert_subseteq.
  assert (command_frame h (mkNetwork c (links n) (sending n ++ [mkSending a h t]) (log n) (<[a := (h, cmd)]> (issued n))) cmd t) as Hcmd.
  { split_and!; [done| |by apply lookup_insert_eq]. split_and!; [apply (cw_epoch _ H3)|apply (cw_warmth _ H3)| |done].
    apply Forall_singleton. split_and!; [done|apply enum_u8|]. pose proof (ci_range _ H1). pose proof (ci_count _ H1).
    destruct Hroom as (_ & _ & _ & Hr). unfold uint. cbn. unfold a. lia. }
  split; cbn [hub links sending log issued]; try done.
  - by constructor; destruct H3.
  - intros h' L Hl. eapply (link_honest_mono n); [done|done| |by apply H4]. intros k Hk. split; [|done].
    unfold attempts_sending. cbn [sending]. rewrite map_app, elem_of_app. intros [|Hx%list_elem_of_singleton]; [done|].
    cbn in Hx. destruct (down_issued n h' L k (H4 h' L Hl) Hk) as [y Hy]. congruence.
  - intros s [Hs| ->%list_elem_of_singleton]%elem_of_app.
    + destruct (H5 s Hs) as (x & (Hc & Ht & Hi) & Ha). exists x. split; [|done]. split_and!; [done..|]. by eapply lookup_weaken.
    + by exists cmd.
  - eapply Forall_impl; [exact H6|]. intros x. by apply run_ok_mono.
  - intros k x. cbn [c set_flight set_attempts attempt_counter_]. fold a.
    intros [[<- <-]|[_ Hx]]%lookup_insert_Some; [split_and!; [done|lia|by exists action]|].
    apply H7 in Hx as (? & Hlt & ?). split_and!; [done|unfold a; lia|done].
  - intros k j. cbn [c set_flight set_attempts in_flight_].
    intros [[<- <-]|[Hne Hj]]%lookup_insert_Some; [exists h, cmd; by rewrite lookup_insert_eq|].
    destruct (H8 k j Hj) as (h' & x & Hx & Ex). exists h', x. by rewrite lookup_insert_ne.
  - unfold attempts_sending. cbn [sending]. rewrite map_app. apply NoDup_app. split_and!; [done| |apply NoDup_singleton].
    intros k Hk Hx%list_elem_of_singleton. cbn in Hx. subst k.
    apply list_elem_of_fmap in Hk as (s & Es & Hs). destruct (H5 s Hs) as (x & (_ & _ & Hi) & Ea).
    rewrite Ea, <- Es in Hi. congruence.
  - intros k. unfold attempts_sending, attempts_run. cbn [sending log]. rewrite map_app, elem_of_app.
    intros [Hk|Hx%list_elem_of_singleton]; [by apply H11|]. cbn in Hx. subst k. intros (x & Ea & Hx)%list_elem_of_fmap.
    rewrite Forall_forall in H6. destruct (H6 x Hx) as (Hi & _). congruence.
Qed.

Lemma delete_sending k s n : sending n !! k = Some s ->
  attempts_sending n ≡ₚ send_attempt s :: map send_attempt (delete k (sending n)).
Proof. intros Hs. exact (Permutation_map send_attempt (delete_Permutation (sending n) k s Hs)). Qed.

(** A caller of [issue_warm] is done: nothing else needs its attempt. *)
Lemma honest_unsend c k s n : honest n -> sending n !! k = Some s ->
  coord_inv c -> registered_table c -> coord_words c ->
  attempt_counter_ c = attempt_counter_ (hub n) -> (forall a i, in_flight_ c !! a = Some i -> in_flight_ (hub n) !! a = Some i) ->
  honest (mkNetwork c (links n) (delete k (sending n)) (log n) (issued n)).
Proof.
  intros Hn Hs Hi Ht Hw Ha Hf. pose proof (honest_hub c n Hi Ht Hw Ha Hf Hn) as H.
  pose proof (delete_sending k s n Hs) as Hperm. set (n' := mkNetwork _ _ _ _ _).
  assert (forall a, a ∈ attempts_sending n' -> a ∈ attempts_sending n) as Hsub by (intros a; rewrite Hperm; by right).
  destruct H as [H1 H2 H3 H4 H5 H6 H7 H8 H9 H10 H11]. split; try done.
  - intros h L Hl. eapply (link_honest_mono (set_hub c n)); [done|done| |by apply H4].
    intros a _. by split; [apply Hsub|].
  - intros s' Hs'. apply H5. exact (elem_of_sublist _ _ _ Hs' (sublist_delete _ _)).
  - change (attempts_sending n) with (attempts_sending (set_hub c n)) in Hperm. rewrite Hperm in H9. exact (proj2 (proj1 (NoDup_cons _ _) H9)).
  - intros a Hx. by apply H11, Hsub.
Qed.

Lemma send_fails_honest k n n' : honest n -> send_fails k n = Some n' -> honest n'.
Proof.
  intros Hn. unfold send_fails. destruct (sending n !! k) as [s|] eqn:Hs; [|done]. cbn. intros [= <-].
  eapply honest_unsend; try done.
  - apply (coord_step_inv (hub n)); [constructor|apply (ho_inv n Hn)].
  - apply (coord_step_registered (hub n)); [constructor|apply (ho_table n Hn)].
  - apply (coord_words_eq (hub n)); [apply issue_failed_authority|apply issue_failed_authority|apply (ho_words n Hn)].
  - unfold issue_failed. by destruct (in_flight_ _ !! _).
  - intros a i. unfold issue_failed. destruct (in_flight_ _ !! send_attempt s); [|done]. cbn. by intros [_ ?]%lookup_delete_Some.
Qed.

Lemma send_command_honest k n n' : honest n -> send_command k n = Some n' -> honest n'.
Proof.
  intros Hn. unfold send_command. destruct (sending n !! k) as [s|] eqn:Hs; [|done]. cbn.
  destruct (links n !! send_link s) as [L|] eqn:Hl; [|done]. cbn. intros [= <-].
  pose proof (honest_unsend (hub n) k s n Hn Hs (ho_inv n Hn) (ho_table n Hn) (ho_words n Hn) eq_refl ltac:(done)) as Hn'.
  pose proof (delete_sending k s n Hs) as Hperm. set (n' := mkNetwork (hub n) (links n) _ _ _) in *.
  change (honest (set_link (send_link s) (carry [topic_frame (send_topic s)] L) n')).
  apply honest_link; [|done]. pose proof (ho_link n' Hn' _ _ Hl) as HL'. unfold carry. destruct (broken L); [done|].
  destruct (ho_sending n Hn s) as (cmd & Hcmd & Ha); [by eapply list_elem_of_lookup_2|]. pose proof Hcmd as (Hc & Ht & Hi).
  assert (attempts_down (mkLink (proc L) (phase L) (down L ++ [topic_frame (send_topic s)]) (up L) (replying L) false) =
    attempts_down L ++ [send_attempt s]) as E.
  { rewrite attempts_down_app. cbn [map concat]. by rewrite frame_cmds_topic, Hc, app_nil_r, <- Ha. }
  pose proof (ho_once_sending n Hn) as Hnd. rewrite Hperm in Hnd. apply NoDup_cons in Hnd as [Hfresh _].
  destruct HL' as [G1 G2 G3 G4 G5 G6]. split; try done.
  - apply Forall_app. split; [done|]. apply Forall_singleton. right. by exists cmd, (send_topic s).
  - rewrite E. apply NoDup_app. split_and!; [done| |apply NoDup_singleton]. intros a Hd ->%list_elem_of_singleton.
    destruct (lh_apart _ _ _ (ho_link n Hn _ _ Hl) _ Hd) as [Hno _]. apply Hno. rewrite Hperm. left.
  - intros a. rewrite E, elem_of_app, list_elem_of_singleton. intros [Hd| ->]; [by apply G6|]. split; [done|].
    apply (ho_apart n Hn). rewrite Hperm. left.
Qed.

(** The runs of a frame that came down, and the frames that report them. *)
Lemma ran_downward n h f hook clock w : honest n -> downward h n f -> worker_words w ->
  hook_words hook ->
  map (fun x => cmd_attempt (run_of x)) (ran h f hook clock w) = map cmd_attempt (frame_cmds f) /\
  Forall (run_ok n) (ran h f hook clock w) /\
  forall g, g ∈ (Worker.handle_frame f hook clock w).1 -> type g = WARM_RESULT ->
    exists x, x ∈ ran h f hook clock w /\ run_link x = h /\ g = Worker.result_frame (run_result x).
Proof.
  intros Hn Hd (Hb & He & Hw & Hg) Hh. pose proof (handle_frame_results f hook clock w) as Hres. unfold ran in *.
  destruct (downward_cmds h n f Hd) as [E|(cmd & E & Hi & Hc)]; rewrite E in *.
  { split_and!; [done..|]. intros g Hg' Ht. destruct (Hres g Hg' Ht) as (r & Hr & _). by apply not_elem_of_nil in Hr. }
  rewrite run_one in *. destruct (ho_issued n Hn _ _ Hi) as (_ & _ & x & Ex). cbn [snd] in Ex.
  destruct (Hh 0%nat (cmd_object cmd) x) as [U1 U2]. rewrite <- Ex in U1, U2.
  split_and!; [done| |].
  - apply Forall_singleton. split_and!; [done|by apply run_cmd_ok|..];
      unfold run_cmd; by destruct (hook 0%nat _ _) as [[? ?] ?].
  - intros g Hg' Ht. destruct (Hres g Hg' Ht) as (r & Hr & ->). apply list_elem_of_singleton in Hr as ->.
    eexists. split; [left|done].
Qed.

Lemma deliver_honest h hook clock n n' : honest n ->
  hook_words hook ->
  deliver h hook clock n = Some n' -> honest n'.
Proof.
  intros Hn Hh. unfold deliver. destruct (links n !! h) as [L|] eqn:Hl; [|done]. cbn.
  pose proof (ho_link n Hn h L Hl) as HL. destruct (down L) as [|f rest] eqn:Hd; [done|].
  pose proof (lh_down n h L HL) as Hf. rewrite Hd in Hf. apply Forall_cons in Hf as [Hf Hrest].
  assert (forall w ph u, (forall g, g ∈ u -> g ∈ up L) -> (w = proc L \/ exists w', w = Some w' /\ worker_words w' /\ is_Some (proc L)) ->
    honest (set_link h (mkLink w ph rest u (replying L) (broken L)) n)) as Hless.
  { intros w ph u Hu Hw. apply honest_link; [|done]. apply (link_honest_less n h L); try done; [|apply HL].
    cbn. rewrite Hd. by apply sublist_cons. }
  destruct (proc L) as [w|] eqn:Hp; [|intros [= <-]; apply Hless; [done|by left]].
  pose proof (lh_worker n h L HL w Hp) as Hw. destruct (phase L); [|clear Hless|intros [= <-]; apply Hless; [done|by left]].
  - pose proof (adopt_words f w) as Ha. destruct (adopt f w) as [ok w']. intros [= <-]. apply Hless; [done|].
    right. exists w'. split_and!; [done| |done]. apply Ha; [|done]. destruct Hf as [?|(? & ? & _ & ->)]; [by left|by right].
  - destruct (ran_downward n h f hook clock w Hn Hf Hw Hh) as (Hrun & Hok & Hup).
    pose proof (handle_frame_standing f hook clock w) as Hst. destruct (Worker.handle_frame f hook clock w) as [fs w'].
    intros [= <-]. cbn [fst snd] in *. set (n' := mkNetwork _ _ _ _ _).
    assert (attempts_run n' = attempts_run n ++ map cmd_attempt (frame_cmds f)) as Erun.
    { unfold attempts_run. cbn [n' log]. by rewrite map_app, Hrun. }
    assert (attempts_down L = map cmd_attempt (frame_cmds f) ++ map cmd_attempt (concat (map frame_cmds rest))) as Edown.
    { unfold attempts_down. rewrite Hd. cbn. by rewrite map_app. }
    pose proof (lh_once n h L HL) as Honce. rewrite Edown in Honce. apply NoDup_app in Honce as (Hn1 & Hn2 & Hn3).
    assert (forall a, a ∈ map cmd_attempt (frame_cmds f) -> a ∈ attempts_down L) as Hin by (intros a; rewrite Edown, elem_of_app; by left).
    pose proof Hn as [H1 H2 H3 H4 H5 H6 H7 H8 H9 H10 H11]. split; try done.
    + intros h' L'. cbn [links n']. intros [[<- <-]|[Hne Hl']]%lookup_insert_Some.
      * split; cbn [proc up down replying]; try done.
        -- intros w0 [= <-]. by eapply worker_words_standing.
        -- intros _ g [Hg|Hg]%elem_of_app Ht.
           ++ destruct (lh_up n h L HL) with (f := g) as (x & Hx & E); [by rewrite Hp|done..|]. exists x. split; [|done].
              cbn [n' log]. apply elem_of_app. by left.
           ++ destruct (Hup g Hg Ht) as (x & Hx & E). exists x. split; [|done]. cbn [n' log]. apply elem_of_app. by right.
        -- apply HL.
        -- intros a Ha. assert (a ∈ attempts_down L) as Hina by (rewrite Edown, elem_of_app; by right).
           destruct (lh_apart n h L HL a Hina) as [Hs Hr]. split; [done|]. rewrite Erun, elem_of_app.
           intros [?|Hx]; [done|]. by apply (Hn2 a).
      * eapply (link_honest_mono n); [|done| |by apply H4].
        -- intros x Hx. cbn [n' log]. apply elem_of_app. by left.
        -- intros a Ha. split; [done|]. rewrite Erun, elem_of_app. intros [?|Hx]; [done|].
           destruct (down_issued n h' L' a (H4 h' L' Hl') Ha) as [c1 E1].
           destruct (down_issued n h L a HL (Hin a Hx)) as [c2 E2]. rewrite E1 in E2. by injection E2.
    + apply Forall_app. by split.
    + rewrite Erun. apply NoDup_app. split_and!; [done| |done]. intros a Ha Hx. by destruct (lh_apart n h L HL a (Hin a Hx)).
    + intros a Ha. rewrite Erun, elem_of_app. intros [?|Hx]; [by apply (H11 a)|].
      by destruct (lh_apart n h L HL a (Hin a Hx)).
Qed.

Lemma quit_honest h n n' : honest n -> quit h n = Some n' -> honest n'.
Proof.
  intros Hn. unfold quit. destruct (links n !! h) as [L|] eqn:Hl; [|done]. cbn.
  pose proof (ho_link n Hn h L Hl) as [H1 H2 H3 H4 H5 H6]. destruct (proc L) as [w|] eqn:Hp; [|done].
  destruct (phase L); try done. intros [= <-]. apply honest_link; [|done]. split; try done.
  - intros w' [= <-]. by apply (worker_words_standing w), H1.
  - intros _ f [Hf|Hf%list_elem_of_singleton]%elem_of_app Ht; [by apply H2|by subst f].
Qed.

Lemma break_honest h k n n' : honest n -> break_link h k n = Some n' -> honest n'.
Proof.
  intros Hn. unfold break_link. destruct (links n !! h) as [L|] eqn:Hl; [|done]. cbn. intros [= <-].
  pose proof (ho_link n Hn h L Hl) as HL. apply honest_link; [|done].
  apply (link_honest_less n h L); [done|by left| |apply sublist_nil_l|apply HL].
  intros f Hf. eapply elem_of_sublist; [exact Hf|]. apply sublist_take.
Qed.

Lemma leave_honest h clock n n' : honest n -> leave_link h clock n = Some n' -> honest n'.
Proof.
  intros Hn. unfold leave_link. destruct (links n !! h) as [L|] eqn:Hl; [|done]. cbn.
  destruct (broken L), (up L), (replying L); try done. intros [= <-].
  pose proof (on_disconnect_flight h clock (hub n)) as E. unfold flight in E. injection E as _ E1 _ E2.
  assert (honest (set_hub (on_disconnect h clock (hub n)) n)) as H.
  { apply honest_hub; try done.
    - apply (coord_step_inv (hub n)); [constructor|apply (ho_inv n Hn)].
    - apply (coord_step_registered (hub n)); [constructor|apply (ho_table n Hn)].
    - apply (coord_words_eq (hub n)); [apply on_disconnect_authority..|apply (ho_words n Hn)].
    - by rewrite E1. }
  destruct H as [H1 H2 H3 H4 H5 H6 H7 H8 H9 H10 H11]. split; try done.
  intros h' L'. cbn [links]. intros [_ Hl']%lookup_delete_Some. eapply (link_honest_mono (set_hub (on_disconnect h clock (hub n)) n)); [done..|by apply H4].
Qed.

(** A step of the coordinator alone that leaves the attempts as they are or
    settles some. *)
Lemma honest_step c n : coord_step (hub n) c -> coord_words c -> attempt_counter_ c = attempt_counter_ (hub n) ->
  in_flight_ c ⊆ in_flight_ (hub n) -> honest n -> honest (set_hub c n).
Proof.
  intros Hs Hw Ha Hf Hn. apply honest_hub; try done.
  - eapply coord_step_inv; [exact Hs|apply (ho_inv n Hn)].
  - eapply coord_step_registered; [exact Hs|apply (ho_table n Hn)].
  - intros a i Hi. by eapply lookup_weaken.
Qed.

Lemma network_step_honest allowed n n' : honest n -> network_step allowed n n' -> honest n'.
Proof.
  intros Hn (a & _ & Hp & Ha). destruct a; cbn [perform permitted] in *.
  - destruct Hp as (_ & Hw & _). eapply join_honest; [done| | | | |exact Ha]; try done.
    + by intros ? [= <-].
    + by apply Forall_singleton.
  - by eapply join_honest; [done| | | | |exact Ha].
  - by eapply inject_honest.
  - by eapply handle_honest.
  - by eapply reply_honest.
  - destruct Hp. by eapply issue_honest.
  - by eapply send_command_honest.
  - by eapply send_fails_honest.
  - by eapply deliver_honest.
  - by eapply quit_honest.
  - by eapply break_honest.
  - by eapply leave_honest.
  - injection Ha as <-. apply honest_step; [constructor|apply coord_words_roll, Hn|done|apply map_empty_subseteq|done].
  - injection Ha as <-. apply honest_step; [constructor|apply coord_words_bump, Hn|done..].
  - injection Ha as <-. apply honest_step; [constructor|apply coord_words_bump, Hn|done..].
Qed.

Lemma network_new_honest : honest network_new.
Proof.
  constructor; cbn; try (by constructor); try (by intros ? ?%not_elem_of_nil); try (by intros; simplify_map_eq).
  apply coord_inv_new.
Qed.

Lemma network_reach_honest allowed n : network_reach allowed n -> honest n.
Proof.
  intros H. apply (rtc_ind_r (R := network_step allowed) honest network_new); [apply network_new_honest| |exact H].
  intros y z _ Hs Hy. by eapply network_step_honest.
Qed.

(** ** Completed means executed *)

Lemma run_unique n x y : honest n -> x ∈ log n -> y ∈ log n -> cmd_attempt (run_of x) = cmd_attempt (run_of y) -> x = y.
Proof.
  intros Hn Hx Hy E. apply list_elem_of_lookup in Hx as [i Hi]. apply list_elem_of_lookup in Hy as [j Hj].
  assert (forall k z, log n !! k = Some z -> attempts_run n !! k = Some (cmd_attempt (run_of z))) as Hm.
  { intros k z Hk. unfold attempts_run. rewrite list_lookup_fmap. by rewrite Hk. }
  assert (i = j) as ->; [|congruence].
  eapply NoDup_lookup; [apply (ho_once_run n Hn)|by apply Hm|]. rewrite E. by apply Hm.
Qed.

(** A result that a process sent is the result of a run on its connection. *)
Lemma result_has_run n h L f r rest : honest n -> links n !! h = Some L -> is_Some (proc L) -> f ∈ up L ->
  type f = WARM_RESULT -> decode_warm_result (payload f) = Ok (r, rest) ->
  exists x, x ∈ log n /\ run_ok n x /\ run_link x = h /\ r = run_result x.
Proof.
  intros Hn Hl Hp Hf Ht Hd. destruct (lh_up n h L (ho_link n Hn h L Hl) Hp f Hf Ht) as (x & Hx & Eh & ->).
  pose proof (ho_log n Hn) as Hlog. rewrite Forall_forall in Hlog. pose proof (Hlog x Hx) as Hok.
  destruct Hok as (_ & Hr & _). cbn [payload Worker.result_frame] in Hd. rewrite result_arrives in Hd by done.
  injection Hd as <- _. exists x. split_and!; [done|by apply Hlog|done..].
Qed.

(** C5: Completed means executed, once.  Whatever workers and strangers
    have done, and however their steps interleave: when the coordinator is about to accept
    a result that a worker process sent, then a hook was run for that attempt,
    by the process at the other end of this connection, on the object that the
    attempt was issued for; the result is the one this run made; and it is the
    only run of the attempt anywhere. *)
Theorem completed_was_executed (n : Network) (h : handle) (L : Link) (f : Frame) (r : WarmResult) (rest : bytes) :
  network_reach any_action n -> links n !! h = Some L -> is_Some (proc L) -> f ∈ up L -> type f = WARM_RESULT ->
  decode_warm_result (payload f) = Ok (r, rest) -> accepts h r (hub n) ->
  exists x i, x ∈ log n /\ run_result x = r /\ run_link x = h /\
    issued n !! result_attempt r = Some (h, run_of x) /\ cmd_attempt (run_of x) = result_attempt r /\
    in_flight_ (hub n) !! result_attempt r = Some i /\ cmd_object (run_of x) = at_object i /\ result_object r = at_object i /\
    forall y, y ∈ log n -> cmd_attempt (run_of y) = result_attempt r -> y = x.
Proof.
  intros Hn%network_reach_honest Hl Hp Hf Ht Hd (_ & i & Hi & _ & Ho).
  destruct (result_has_run n h L f r rest Hn Hl Hp Hf Ht Hd) as (x & Hx & (Hiss & _ & Ha & Hob) & <- & ->).
  exists x, i. rewrite Ha in *. split_and!; try done; [congruence|].
  intros y Hy E. by apply (run_unique n).
Qed.

(** ** Ready means warmed *)

(** Nobody announces what is not cold, and what the coordinator holds as ready,
    a hook has warmed. *)
Record truthful (n : Network) : Prop := mkTruthful {
  tr_link : forall h L, links n !! h = Some L -> exists w, proc L = Some w /\ all_cold w /\
    forall f, f ∈ up L -> Forall (fun o => state_ o = COLD) (announced f);
  tr_ready : forall id, ready_at id (hub n) ->
    exists x, x ∈ log n /\ success (run_result x) = true /\ result_object (run_result x) = id }.

Lemma hello_announces_cold w : announces w -> all_cold w -> Forall (fun o => state_ o = COLD) (announced (Worker.hello_frame w)).
Proof.
  intros Ha Hc. unfold announced. cbn [type payload Worker.hello_frame]. rewrite hello_arrives by exact Ha.
  cbn [hello_norm observed hello_of]. apply Forall_map, Forall_map, Forall_forall. intros [id o] Hin.
  unfold in_order in Hin. rewrite merge_sort_Permutation in Hin. apply elem_of_map_to_list in Hin. exact (Hc id o Hin).
Qed.

Lemma handle_frame_announces f hook clock w g : g ∈ (Worker.handle_frame f hook clock w).1 -> announced g = [].
Proof.
  unfold Worker.handle_frame. destruct (type f); cbn [fst]; try (by intros ?%not_elem_of_nil).
  - destruct (decode_warm_topic _) as [[t ?]|]; [|by intros ?%not_elem_of_nil].
    destruct (run_cmds _ _ _ _ _) as [rs w']. by intros (r & -> & _)%list_elem_of_fmap.
  - by intros ->%list_elem_of_singleton.
Qed.

Lemma adopt_cold f w : all_cold w -> all_cold (adopt f w).2.
Proof.
  intros Hc. unfold adopt. destruct (negb _); [done|]. destruct (decode_hello_ack _) as [[a ?]|]; [|done].
  by destruct (negb _).
Qed.

Lemma truthful_link h w ph d u r b n : all_cold w ->
  (forall f, f ∈ u -> Forall (fun o => state_ o = COLD) (announced f)) -> truthful n ->
  truthful (set_link h (mkLink (Some w) ph d u r b) n).
Proof.
  intros Hw Hu [H1 H2]. split; [|done]. intros h' L'. cbn [links set_link].
  intros [[_ <-]|[_ Hl]]%lookup_insert_Some; [by exists w|by apply (H1 h')].
Qed.

Lemma truthful_hub c n : (forall id, ready_at id c -> ready_at id (hub n)) -> truthful n -> truthful (set_hub c n).
Proof. intros Hc [H1 H2]. split; [done|]. intros id Hid. apply H2. by apply Hc. Qed.

Lemma handle_truthful h clock n n' : honest n -> truthful n -> handle_next h clock n = Some n' -> truthful n'.
Proof.
  intros Hh Ht. unfold handle_next. destruct (links n !! h) as [L|] eqn:Hl; [|done]. cbn.
  destruct (up L) as [|f rest] eqn:Hu; [done|]. destruct (replying L); [|done].
  destruct (tr_link n Ht h L Hl) as (w & Hp & Hw & Hup). rewrite Hu in Hup.
  pose proof (frame_promotes h f clock (hub n)) as Hpr. destruct (handle_frame h f clock (hub n)) as [r c].
  cbn [snd] in Hpr. intros [= <-]. rewrite Hp. apply truthful_link; [done|intros g Hg; apply Hup; by right|].
  destruct Ht as [H1 H2]. split; [done|]. intros id Hid. destruct (Hpr id Hid) as [?|[(Ht & x & t & Hd & Ha & Hs & Ho)|(_ & o & Hin & _ & Hs)]].
  - by apply H2.
  - destruct (result_has_run n h L f x t Hh Hl) as (y & Hy & _ & _ & ->); try done; [rewrite Hu; left|].
    by exists y.
  - specialize (Hup f ltac:(left)). rewrite Forall_forall in Hup. specialize (Hup o Hin). congruence.
Qed.

Lemma network_step_truthful n n' : honest n -> network_step no_stranger n n' -> truthful n -> truthful n'.
Proof.
  intros Hh (a & Hno & Hp & Ha) Ht. destruct a; cbn [perform permitted no_stranger] in *; try done.
  - destruct Hp as (Han & _ & Hc). unfold join_link in Ha. destruct (links n !! h); [done|]. destruct (conns (hub n) !! h); [done|].
    injection Ha as <-. apply truthful_link; [done| |by apply truthful_hub].
    intros f ->%list_elem_of_singleton. by apply hello_announces_cold.
  - unfold inject in Ha. destruct (links n !! h) as [L|] eqn:Hl; [|done]. cbn in Ha.
    destruct (tr_link n Ht h L Hl) as (w & E & _). by rewrite E in Ha.
  - by eapply handle_truthful.
  - unfold send_reply in Ha. destruct (links n !! h) as [L|] eqn:Hl; [|done]. cbn in Ha. destruct (tr_link n Ht h L Hl) as (w & E & Hc & Hu).
    destruct (replying L); [done|]. injection Ha as <-. unfold carry. cbn [broken]. rewrite E.
    by destruct (broken L); apply truthful_link.
  - unfold issue in Ha. pose proof (issue_objects object a preferred (hub n)) as Eo.
    assert (forall c s i, objects_ c = objects_ (hub n) -> truthful (mkNetwork c (links n) s (log n) i)) as Hany.
    { intros c s i E. destruct Ht as [H1 H2]. split; [done|]. intros id. unfold ready_at, find_object. cbn [hub]. rewrite E. apply H2. }
    destruct (issue_begin object a preferred (hub n)) as [[[[k h] t]|] c]; injection Ha as <-; by apply Hany.
  - unfold send_command in Ha. destruct (sending n !! k) as [s|]; [|done]. cbn in Ha.
    destruct (links n !! send_link s) as [L|] eqn:Hl; [|done]. cbn in Ha. injection Ha as <-.
    destruct (tr_link n Ht _ L Hl) as (w & E & Hc & Hu). unfold carry. rewrite E.
    assert (truthful (mkNetwork (hub n) (links n) (delete k (sending n)) (log n) (issued n))) as Ht' by by destruct Ht.
    destruct (broken L) eqn:Hb.
    + destruct L as [p ph d u r b]. cbn in E, Hb. subst p b. exact (truthful_link (send_link s) w ph d u r true _ Hc Hu Ht').
    + exact (truthful_link (send_link s) w _ _ _ _ false _ Hc Hu Ht').
  - unfold send_fails in Ha. destruct (sending n !! k) as [s|]; [|done]. cbn in Ha. injection Ha as <-.
    destruct Ht as [H1 H2]. split; [done|]. intros id. unfold ready_at, find_object. cbn [hub].
    rewrite issue_failed_objects. apply H2.
  - unfold deliver in Ha. destruct (links n !! h) as [L|] eqn:Hl; [|done]. cbn in Ha. destruct (tr_link n Ht h L Hl) as (w & E & Hc & Hu).
    destruct (down L) as [|f rest]; [done|]. rewrite E in Ha. destruct (phase L).
    + pose proof (adopt_cold f w Hc) as Hc'. destruct (adopt f w) as [ok w']. injection Ha as <-. by apply truthful_link.
    + pose proof (handle_frame_cold f hook clock w Hc) as Hc'. pose proof (handle_frame_announces f hook clock w) as Han.
      destruct (Worker.handle_frame f hook clock w) as [fs w']. cbn [fst snd] in *. injection Ha as <-.
      assert (truthful (mkNetwork (hub n) (links n) (sending n) (log n ++ ran h f hook clock w) (issued n))) as Ht'.
      { destruct Ht as [H1 H2]. split; [done|]. intros id Hid. destruct (H2 id Hid) as (x & Hx & Ex). exists x.
        split; [|done]. cbn [log]. apply elem_of_app. by left. }
      refine (truthful_link h w' _ rest (up L ++ fs) (replying L) (broken L) _ Hc' _ Ht').
      intros g [Hg|Hg]%elem_of_app; [by apply Hu|by rewrite (Han g Hg)].
    + injection Ha as <-. by apply truthful_link.
  - unfold quit in Ha. destruct (links n !! h) as [L|] eqn:Hl; [|done]. cbn in Ha. destruct (tr_link n Ht h L Hl) as (w & E & Hc & Hu).
    rewrite E in Ha. destruct (phase L); try done. injection Ha as <-. apply truthful_link; [done| |done].
    intros g [Hg| ->%list_elem_of_singleton]%elem_of_app; [by apply Hu|constructor].
  - unfold break_link in Ha. destruct (links n !! h) as [L|] eqn:Hl; [|done]. cbn in Ha. destruct (tr_link n Ht h L Hl) as (w & E & Hc & Hu).
    injection Ha as <-. rewrite E. apply truthful_link; [done| |done]. intros g Hg. apply Hu.
    exact (elem_of_sublist _ _ _ Hg (sublist_take _ _)).
  - unfold leave_link in Ha. destruct (links n !! h) as [L|] eqn:Hl; [|done]. cbn in Ha.
    destruct (broken L), (up L), (replying L); try done. injection Ha as <-. destruct Ht as [H1 H2]. split.
    + intros h' L'. cbn [links]. intros [_ Hl']%lookup_delete_Some. by apply (H1 h').
    + intros id Hid. by apply H2, (disconnect_promotes h clock).
  - injection Ha as <-. apply truthful_hub; [|done]. by intros id ?%roll_promotes.
  - injection Ha as <-. by apply truthful_hub.
  - injection Ha as <-. by apply truthful_hub.
Qed.

Lemma network_reach_truthful n : network_reach no_stranger n -> honest n /\ truthful n.
Proof.
  intros Hn. apply (rtc_ind_r (R := network_step no_stranger) (fun z => honest z /\ truthful z) network_new); [| |exact Hn].
  - split; [apply network_new_honest|]. split; [by intros|]. intros i (o & Hf & _). by unfold find_object in Hf.
  - intros y z _ Hs [H1 H2]. split; [by eapply network_step_honest|by eapply network_step_truthful].
Qed.

(** C4: Ready means warmed.  As long as only workers connect, whatever breaks, is
    lost, rolls or is answered twice: an object that the coordinator holds as
    execution-ready was warmed by a hook that some worker ran for it and
    that succeeded, and this run was of a command that the coordinator issued
    to that worker for this object, under this attempt. *)
Theorem ready_was_warmed (n : Network) (id : WarmthObjectId) :
  network_reach no_stranger n -> ready_at id (hub n) ->
  exists x, x ∈ log n /\ success (run_result x) = true /\ cmd_object (run_of x) = id /\
    issued n !! cmd_attempt (run_of x) = Some (run_link x, run_of x).
Proof.
  intros [Hh Ht]%network_reach_truthful Hr.
  destruct (tr_ready n Ht id Hr) as (x & Hx & Hs & <-). pose proof (ho_log n Hh) as Hlog. rewrite Forall_forall in Hlog.
  destruct (Hlog x Hx) as (Hi & _ & _ & ->). by exists x.
Qed.

(** ** An example *)

Definition act (a : action) (n : Network) : Network := default n (perform a n).
Lemma act_step (allowed : action -> Prop) a n : allowed a -> permitted a n -> is_Some (perform a n) -> network_step allowed n (act a n).
Proof. intros Hal Hp [n' E]. exists a. unfold act. by rewrite E. Qed.
Lemma act_reach allowed a n : network_reach allowed n -> allowed a -> permitted a n -> is_Some (perform a n) ->
  network_reach allowed (act a n).
Proof. intros Hn Hal Hp Ha. eapply rtc_r; [exact Hn|by apply act_step]. Qed.

Definition net_joined : Network := act (Deliver 0 (fun _ => hook_example) (fun _ => clock0)) (act (Reply 0) (act (Handle 0 clock0) (act (Join 0 w_new) network_new))).
Definition net_issued : Network := act (Send 0) (act (Issue o_example INIT_ENGINE None) net_joined).
Definition net_answered : Network := act (Deliver 0 (fun _ => hook_example) (fun _ => clock0)) net_issued.
Definition net_warmed : Network := act (Handle 0 clock0) net_answered.

Lemma w_new_cold : all_cold w_new.
Proof. intros id o. cbn. by rewrite lookup_empty. Qed.
Lemma w_new_words : worker_words w_new.
Proof. apply (bool_decide_unpack _). vm_compute. exact I. Qed.
Lemma hook_example_words : hook_words (fun _ => hook_example).
Proof. intros k id x. apply (bool_decide_unpack _). vm_compute. exact I. Qed.

Lemma act_is_some a n : bool_decide (is_Some (perform a n)) = true -> is_Some (perform a n).
Proof. apply bool_decide_eq_true. Qed.

Ltac happens := apply act_is_some; vm_compute; reflexivity.

Lemma net_warmed_reach : network_reach no_stranger net_answered /\ network_reach no_stranger net_warmed.
Proof.
  assert (network_reach no_stranger net_joined) as H.
  { repeat apply act_reach; try exact I; try happens; try apply hook_example_words.
    - constructor.
    - split_and!; [apply announces_example|apply w_new_words|apply w_new_cold]. }
  assert (network_reach no_stranger net_answered) as H'.
  { refine (act_reach _ _ _ (act_reach _ _ _ (act_reach _ _ _ H _ _ _) _ _ _) _ _ _); try exact I; try happens; try apply hook_example_words.
    apply (bool_decide_unpack _). vm_compute. exact I. }
  split; [done|]. by apply act_reach; [|exact I|exact I|happens].
Qed.

Lemma network_reach_any allowed n : network_reach allowed n -> network_reach any_action n.
Proof. apply rtc_subrel. intros x y (a & _ & H). by exists a. Qed.

Definition net_result : WarmResult :=
  mkResult boot_example 0 0 0 o_example (enum_code INIT_ENGINE) 1 true (dlit 1 2) 4096 "".
Lemma net_answered_link : exists w ph d f u a b rest, links net_answered !! 0%nat = Some (mkLink (Some w) ph d (f :: u) a b) /\
  type f = WARM_RESULT /\ decode_warm_result (payload f) = Ok (net_result, rest).
Proof. do 8 eexists. split; [vm_compute; reflexivity|]. split; vm_compute; reflexivity. Qed.

Lemma completed_was_executed_witness : exists x i,
  x ∈ log net_answered /\ run_result x = net_result /\ run_link x = 0%nat /\
  in_flight_ (hub net_answered) !! 1 = Some i /\ cmd_object (run_of x) = at_object i.
Proof.
  destruct net_answered_link as (w & ph & d & f & u & a & b & rest & El & Ht & Ed).
  destruct (completed_was_executed net_answered 0 _ f net_result rest
    (network_reach_any _ _ (proj1 net_warmed_reach)) El (ex_intro _ w eq_refl) ltac:(left) Ht Ed) as (x & i & Hx & Er & Eh & _ & _ & Hi & Ho & _).
  - apply (bool_decide_unpack _). vm_compute. exact I.
  - exists x, i. by split_and!.
Defined.

Lemma ready_was_warmed_witness : exists x, x ∈ log net_warmed /\ cmd_object (run_of x) = o_example /\ success (run_result x) = true.
Proof.
  destruct (ready_was_warmed net_warmed o_example) as (x & Hx & Hs & Ho & _).
  - apply net_warmed_reach.
  - destruct (find_object o_example (hub net_warmed)) as [o|] eqn:E; [|vm_compute in E; done].
    exists o. split; [done|]. vm_compute in E. injection E as <-. reflexivity.
  - by exists x.
Defined.
