(* ===== verification/Delivery.v ===== *)
(** * Commands that the network loses

    An attempt can be lost for good: one whose command can no longer run stays
    in flight, whatever the network of [Network] does, until the authority
    rolls, and [wait_until_settled] does not return.  A command can be lost
    without any failure, when it overtakes the answer to the HELLO.  [Quiet]
    shows that nothing else is lost when nothing breaks. *)

From Stdlib Require Import ZArith Lia String.
From stdpp Require Import base list numbers strings gmap fin_maps sets relations sorting.
From S2P Require Import Prelude Float64 Identity State Object Decay Budget Ledger Policy Scheduler Codec Protocol Wire Messages Worker Coordinator Authority System Network.
Local Open Scope Z_scope.
Local Open Scope warmth_scope.

(** ** Commands that are lost *)

(** Attempt [a] is in flight, its command is not waiting to be sent, has not
    been run, and is on the way only to processes that have given up. *)
Definition lost (a : Z) (n : Network) : Prop :=
  is_Some (in_flight_ (hub n) !! a) /\ a ∉ attempts_sending n /\ a ∉ attempts_run n /\
  forall h L, links n !! h = Some L -> a ∈ attempts_down L -> phase L = Failed.

(** Only workers connect, and the authority does not roll. *)
Definition no_roll (a : action) : Prop := match a with Stranger _ | Roll => False | _ => True end.

(** A frame settles an attempt only with a result that names it. *)
Lemma frame_settles_named h f clock c a : is_Some (in_flight_ c !! a) ->
  is_Some (in_flight_ (handle_frame h f clock c).2 !! a) \/
  (type f = WARM_RESULT /\ exists r rest, decode_warm_result (payload f) = Ok (r, rest) /\ result_attempt r = a).
Proof.
  intros Ha. unfold handle_frame. destruct (type f) eqn:Ht; try by left.
  - destruct (decode_hello _) as [[m ?]|]; [|by left]. pose proof (handle_hello_flight h m c) as E. unfold flight in E.
    injection E as _ E _ _. left. by rewrite E.
  - destruct (decode_report _) as [[p ?]|]; [|by left]. pose proof (handle_report_flight h p clock c) as E. unfold flight in E.
    injection E as _ E _ _. left. by rewrite E.
  - destruct (decode_warm_result _) as [[r rest]|] eqn:Ed; [|by left].
    destruct (decide (result_attempt r = a)) as [Ea|Hne]; [right; split; [done|]; by exists r, rest|left].
    destruct (decide (accepts h r c)) as [Hacc|Hn]; [|by rewrite handle_result_refused].
    pose proof Hacc as (_ & i & Hi & _). rewrite (handle_result_accepted _ _ _ _ i Hacc Hi). cbn [snd settle set_flight in_flight_].
    rewrite lookup_delete_ne by done. pose proof (apply_result_flight (conn_id (default conn_new (conns c !! h))) r (clock 0%nat) (clock 1%nat) c) as E.
    unfold flight in E. injection E as _ -> _ _. done.
Qed.

Lemma lost_link a h L L' n : lost a n -> (a ∈ attempts_down L' -> a ∈ attempts_down L \/ phase L' = Failed) ->
  links n !! h = Some L -> (phase L = Failed -> phase L' = Failed) -> lost a (set_link h L' n).
Proof.
  intros (Hf & Hs & Hr & Hd) Hdown Hl Hph. split_and!; try done. intros h' K. cbn [links set_link].
  intros [[<- <-]|[_ Hk]]%lookup_insert_Some Ha; [|by eapply Hd]. destruct (Hdown Ha) as [?|?]; [|done]. by eapply Hph, Hd.
Qed.

Lemma lost_hub a c n : is_Some (in_flight_ c !! a) -> lost a n -> lost a (set_hub c n).
Proof. intros Hc (_ & H). by split. Qed.

(** What a connection's thread and a process put on the wire carries no new
    attempts. *)
Lemma carry_attempts fs L : Forall answer_ok fs -> attempts_down (carry fs L) = attempts_down L /\ phase (carry fs L) = phase L.
Proof.
  intros Hf. unfold carry. destruct (broken L); [done|]. split; [|done]. destruct L as [p ph d u r b].
  change (attempts_down (mkLink p ph (d ++ fs) u r false) = attempts_down (mkLink p ph d u r false)).
  by rewrite attempts_down_app, answers_no_cmds, app_nil_r.
Qed.

Lemma handle_lost a h clock n n' : honest n -> truthful n -> lost a n -> handle_next h clock n = Some n' -> lost a n'.
Proof.
  intros Hh Ht Hlost. unfold handle_next. destruct (links n !! h) as [L|] eqn:Hl; [|done]. cbn.
  destruct (up L) as [|f rest] eqn:Hu; [done|]. destruct (replying L); [|done].
  destruct Hlost as (Hf & Hs & Hr & Hd). destruct (tr_link n Ht h L Hl) as (w & Hp & _).
  destruct (frame_settles_named h f clock (hub n) a Hf) as [Hf'|(Ety & r & t & Ed & Ea)]; cycle 1.
  { destruct (result_has_run n h L f r t Hh Hl) as (x & Hx & (_ & _ & Er & _) & _ & ->); try done; [rewrite Hu; left|].
    destruct Hr. apply list_elem_of_fmap. exists x. split; [by rewrite <- Ea|done]. }
  destruct (handle_frame h f clock (hub n)) as [r c]. cbn [snd] in Hf'. intros [= <-].
  apply (lost_link a h L); [apply lost_hub; [done|by split_and!]|by left|done|done].
Qed.

Lemma deliver_lost a h hook clock n n' : honest n -> lost a n -> deliver h hook clock n = Some n' -> lost a n'.
Proof.
  intros Hh Hlost. unfold deliver. destruct (links n !! h) as [L|] eqn:Hl; [|done]. cbn.
  destruct (down L) as [|f rest] eqn:Ed; [done|].
  assert (forall p ph u, a ∈ attempts_down (mkLink p ph rest u (replying L) (broken L)) -> a ∈ attempts_down L) as Hsub.
  { intros p ph u. unfold attempts_down. rewrite Ed. cbn. rewrite map_app, elem_of_app. by right. }
  assert (forall ph p u, (phase L = Failed -> ph = Failed) -> lost a (set_link h (mkLink p ph rest u (replying L) (broken L)) n)) as Hgo.
  { intros ph p u Hph. eapply (lost_link a h L); [done|left; by eapply Hsub|done|done]. }
  destruct (proc L) as [w|] eqn:Ep; [|intros [= <-]; by apply Hgo]. destruct (phase L) eqn:Eph; [| |intros [= <-]; by apply Hgo].
  - destruct (adopt f w) as [ok w']. intros [= <-]. by apply Hgo.
  - pose proof (ran_downward n h f hook clock w Hh) as Hran. destruct (Worker.handle_frame f hook clock w) as [fs w']. intros [= <-].
    pose proof Hlost as (Hf & Hs & Hr & Hd).
    specialize (Hgo (if shutdown_requested_ w' then Failed else Serving) (Some w') (up L ++ fs) ltac:(done)).
    destruct Hgo as (G1 & G2 & G3 & G4). split_and!; try done. unfold attempts_run. cbn [log]. rewrite map_app, elem_of_app.
    intros [?|Hin]; [done|]. apply list_elem_of_fmap in Hin as (x & -> & Hx). unfold ran in Hx.
    apply elem_of_zip_with in Hx as (cmd & res & -> & Hc & _). cbn [run_of] in *.
    enough (Serving = Failed) by done. rewrite <- Eph. apply (Hd h L Hl). unfold attempts_down. rewrite Ed. cbn.
    rewrite map_app, elem_of_app. left. apply list_elem_of_fmap. by exists cmd.
Qed.

Lemma flight_issued n a : honest n -> is_Some (in_flight_ (hub n) !! a) -> a < attempt_counter_ (hub n).
Proof. intros Hh [i Hi]. destruct (ho_flight n Hh a i Hi) as (h & cmd & Hx & _). by apply (ho_issued n Hh) in Hx as (_ & ? & _). Qed.

Lemma issue_lost a object action preferred n n' : honest n -> coord_room (hub n) -> lost a n ->
  issue object action preferred n = Some n' -> lost a n'.
Proof.
  intros Hh Hroom Hlost. pose proof (flight_issued n a Hh (proj1 Hlost)) as Hlt. unfold issue.
  destruct (pick_worker preferred (hub n)) as [h|] eqn:Hp.
  2: { unfold issue_begin. rewrite Hp. intros [= <-]. by apply lost_hub; [apply Hlost|]. }
  destruct (pick_worker_in _ _ _ Hp) as [w Hw]. pose proof (ho_table n Hh w h Hw) as Hreg.
  destruct (issue_begin_admits object action preferred h (hub n) (ho_inv n Hh) Hroom Hp Hreg) as (b & i & _ & _ & E & _).
  rewrite E. intros [= <-]. destruct Hlost as (Hf & Hs & Hr & Hd). split_and!; try done.
  - cbn [hub set_flight set_attempts in_flight_]. by rewrite lookup_insert_ne by lia.
  - unfold attempts_sending. cbn [sending]. rewrite map_app, elem_of_app. intros [?|Ea%list_elem_of_singleton]; [done|cbn in Ea; lia].
Qed.

Lemma unsend_lost a k s n c : sending n !! k = Some s -> lost a n -> is_Some (in_flight_ c !! a) ->
  lost a (mkNetwork c (links n) (delete k (sending n)) (log n) (issued n)).
Proof.
  intros Hk (_ & Hs & Hr & Hd) Hf. split_and!; try done. intros Ha. apply Hs. rewrite (delete_sending k s n Hk). by right.
Qed.

Lemma network_step_lost a n n' : honest n -> truthful n -> network_step no_roll n n' -> lost a n -> lost a n'.
Proof.
  intros Hh Ht (act & Hno & Hp & Ha) Hlost. destruct act; cbn [perform permitted no_roll] in *; try done.
  - unfold join_link in Ha. destruct (links n !! h) eqn:El; [done|]. destruct (conns (hub n) !! h); [done|]. injection Ha as <-.
    destruct Hlost as (Hf & Hs & Hr & Hd). split_and!; try done. intros h' L'. cbn [links set_link].
    intros [[_ <-]|[_ Hk]]%lookup_insert_Some; [by intros ?%not_elem_of_nil|by eapply Hd].
  - unfold inject in Ha. destruct (links n !! h) as [L|] eqn:El; [|done]. cbn in Ha.
    destruct (tr_link n Ht h L El) as (w & E & _). by rewrite E in Ha.
  - by eapply handle_lost.
  - unfold send_reply in Ha. destruct (links n !! h) as [L|] eqn:El; [|done]. cbn in Ha.
    pose proof (lh_reply n h L (ho_link n Hh h L El)) as Hre. destruct (replying L) as [|g gs] eqn:Er; [done|]. injection Ha as <-.
    destruct (carry_attempts (g :: gs) (mkLink (proc L) (phase L) (down L) (up L) [] (broken L)) Hre) as [E1 E2].
    apply (lost_link a h L); [done|left; by rewrite E1 in *|done|by rewrite E2].
  - destruct Hp as [Hroom _]. by eapply issue_lost.
  - unfold send_command in Ha. destruct (sending n !! k) as [s|] eqn:Hk; [|done]. cbn in Ha.
    destruct (links n !! send_link s) as [L|] eqn:El; [|done]. cbn in Ha. injection Ha as <-.
    pose proof (unsend_lost a k s n (hub n) Hk Hlost (proj1 Hlost)) as Hl'.
    apply (lost_link a (send_link s) L _ (mkNetwork (hub n) (links n) _ (log n) (issued n)) Hl'); [|done|unfold carry; by destruct (broken L)].
    unfold carry. destruct (broken L); [by left|]. destruct L as [p ph d u r b]. cbn [proc phase down up replying].
    rewrite attempts_down_app, elem_of_app. intros [?|Hin]; [by left|]. destruct Hlost as (_ & Hs & _). destruct Hs.
    destruct (ho_sending n Hh s) as (cmd & (Hc & Hok & _) & Ea); [by eapply list_elem_of_lookup_2|].
    cbn [map concat] in Hin. rewrite frame_cmds_topic, Hc in Hin by done. cbn in Hin. apply list_elem_of_singleton in Hin as ->.
    rewrite Ea. apply list_elem_of_fmap. exists s. split; [done|by eapply list_elem_of_lookup_2].
  - unfold send_fails in Ha. destruct (sending n !! k) as [s|] eqn:Hk; [|done]. cbn in Ha. injection Ha as <-.
    apply (unsend_lost a k s); [done|done|]. assert (send_attempt s <> a) as Hne.
    { intros <-. destruct Hlost as (_ & Hs & _). apply Hs, list_elem_of_fmap. exists s. split; [done|by eapply list_elem_of_lookup_2]. }
    unfold issue_failed. destruct (in_flight_ (hub n) !! send_attempt s); [|apply Hlost]. cbn [settle set_flight in_flight_].
    rewrite lookup_delete_ne by done. apply Hlost.
  - by eapply deliver_lost.
  - unfold quit in Ha. destruct (links n !! h) as [L|] eqn:El; [|done]. cbn in Ha. destruct (proc L), (phase L) eqn:Eph; try done.
    injection Ha as <-. apply (lost_link a h L); [done|by left|done|congruence].
  - unfold break_link in Ha. destruct (links n !! h) as [L|] eqn:El; [|done]. cbn in Ha. injection Ha as <-.
    apply (lost_link a h L); [done|by right|done|done].
  - unfold leave_link in Ha. destruct (links n !! h) as [L|] eqn:El; [|done]. cbn in Ha. destruct (broken L), (up L), (replying L); try done.
    injection Ha as <-. destruct Hlost as (Hf & Hs & Hr & Hd). split_and!; try done.
    + cbn [hub]. pose proof (on_disconnect_flight h clock (hub n)) as E. unfold flight in E. injection E as _ -> _ _. done.
    + intros h' L'. cbn [links]. intros [_ Hk]%lookup_delete_Some. by eapply Hd.
  - injection Ha as <-. by apply lost_hub; [apply Hlost|].
  - injection Ha as <-. by apply lost_hub; [apply Hlost|].
Qed.

Lemma no_roll_no_stranger n n' : network_step no_roll n n' -> network_step no_stranger n n'.
Proof. intros (a & Hno & H). exists a. split; [|done]. by destruct a. Qed.

(** C7: A lost command keeps its attempt for good.  Once the command of an attempt
    can no longer run - the process it was sent to has given up, and no sender
    still holds it - then as long as only workers connect, nothing but a roll of
    the epoch ends it: in every network that can follow, the attempt is still in
    flight, so [wait_until_settled] does not return and its two reservations
    stay taken; that the worker's disconnection is noticed, or that it connects
    again, does not help. *)
Theorem lost_command_never_settles (n n' : Network) (a : Z) :
  network_reach no_stranger n -> lost a n -> rtc (network_step no_roll) n n' ->
  is_Some (in_flight_ (hub n') !! a) /\ a ∉ attempts_run n' /\ settled (hub n') = false /\ coord_balanced (hub n') = false.
Proof.
  intros Hn Hlost Hs. assert (network_reach no_stranger n' /\ lost a n') as [Hn' Hl'].
  { revert Hn Hlost. induction Hs as [|x y z Hxy _ IH]; intros Hx Hl; [done|]. destruct (network_reach_truthful x Hx) as [Hh Ht].
    apply IH; [eapply rtc_r; [exact Hx|by apply no_roll_no_stranger]|by eapply network_step_lost]. }
  destruct (network_reach_truthful n' Hn') as [Hh _]. destruct Hl' as (Hf & _ & Hr & _). split_and!; try done.
  - pose proof (ci_count _ (ho_inv n' Hh)) as Hc. destruct Hf as [i Hi]. unfold settled. apply Z.eqb_neq.
    rewrite Hc. intros E. assert (size (in_flight_ (hub n')) = 0%nat) as E' by lia. apply map_size_empty_iff in E'. by rewrite E' in Hi.
  - destruct (coord_inv_accounting _ (ho_inv n' Hh)) as (Ho & _). unfold coord_balanced, outstanding_budget in *. rewrite Ho.
    apply bool_decide_eq_false. intros E. assert (size (in_flight_ (hub n')) = 0%nat) as E' by (unfold in_flight_attempts in E; lia).
    apply map_size_empty_iff in E'. destruct Hf as [i Hi]. by rewrite E' in Hi.
Qed.

(** C20: A command overtakes the answer to the HELLO.  [handle_hello] enters the
    worker into the table inside the critical section and answers after it, so
    [issue_warm] can choose the worker and send to it in between.  Then the
    frame that [connect] reads is the command; it gives up, and the attempt is
    lost, although nothing failed and both sides followed the protocol. *)
Theorem topic_overtakes_ack (n : Network) (h : handle) (L : Link) (w : Worker) (k : nat) (s : Sending)
    (hook : nat -> WarmHook) (clock : nat -> nat -> Z) :
  network_reach no_stranger n -> links n !! h = Some L -> proc L = Some w -> phase L = Connecting -> down L = [] -> broken L = false ->
  sending n !! k = Some s -> send_link s = h -> is_Some (in_flight_ (hub n) !! send_attempt s) ->
  exists n', performs [Send k; Deliver h hook clock] n = Some n' /\ lost (send_attempt s) n' /\
    (exists L', links n' !! h = Some L' /\ phase L' = Failed /\ replying L' = replying L).
Proof.
  intros Hn Hl Hp Hph Hd Hb Hk <- Hf. destruct (network_reach_truthful n Hn) as [Hh _].
  cbn [performs perform]. unfold send_command. rewrite Hk. cbn. rewrite Hl. cbn. unfold carry. rewrite Hb, Hd. cbn [app].
  unfold deliver. cbn [links]. rewrite lookup_insert_eq. cbn. rewrite Hp, Hph. unfold adopt.
  rewrite bool_decide_false by discriminate. cbn [negb]. eexists. split; [done|]. unfold set_link. cbn [links hub sending log issued].
  assert (send_attempt s ∈ attempts_sending n) as Hs.
  { apply list_elem_of_fmap. exists s. split; [done|by eapply list_elem_of_lookup_2]. }
  split; [|eexists; split; [apply lookup_insert_eq|done]]. split_and!; [done| |by apply (ho_apart n Hh)|].
  - pose proof (ho_once_sending n Hh) as Hnd. rewrite (delete_sending k s n Hk) in Hnd. by apply NoDup_cons in Hnd as [? _].
  - intros h' L'. cbn [links]. intros [[_ <-]|[Hne Hk']]%lookup_insert_Some Ha; [done|].
    apply lookup_insert_Some in Hk' as [[E _]|[_ Hk']]; [done|]. by destruct (lh_apart _ _ _ (ho_link n Hh h' L' Hk') _ Ha).
Qed.

Definition net_greeted : Network := act (Issue o_example INIT_ENGINE None) (act (Handle 0 clock0) (act (Join 0 w_new) network_new)).
Definition net_overtaken : Network := act (Deliver 0 (fun _ => hook_example) (fun _ => clock0)) (act (Send 0) net_greeted).

Lemma performs_two a b n n' : performs [a; b] n = Some n' -> act b (act a n) = n'.
Proof.
  cbn. unfold act. destruct (perform a n) as [m|]; [|done]. cbn. destruct (perform b m); [|done]. by intros [= ->].
Qed.

Lemma net_greeted_reach : network_reach no_stranger net_greeted.
Proof.
  repeat apply act_reach; try exact I; try happens.
  - apply rtc_refl.
  - split_and!; [apply announces_example|apply w_new_words|apply w_new_cold].
  - apply (bool_decide_unpack _). vm_compute. exact I.
Qed.

Lemma topic_overtakes_ack_witness : lost 1 net_overtaken.
Proof.
  assert (exists ph L s, links net_greeted !! 0%nat = Some (mkLink (Some w_new) ph [] [] L false) /\ ph = Connecting /\
    sending net_greeted !! 0%nat = Some (mkSending 1 0 s)) as (ph & L & s & E1 & E2 & E3).
  { do 3 eexists. split; [vm_compute; reflexivity|]. split; vm_compute; reflexivity. }
  destruct (topic_overtakes_ack net_greeted 0 _ w_new 0 _ (fun _ => hook_example) (fun _ => clock0) net_greeted_reach E1 eq_refl E2
    eq_refl eq_refl E3 eq_refl) as (n' & Hn & Hl & _).
  - apply (bool_decide_unpack _). vm_compute. exact I.
  - unfold net_overtaken. by rewrite (performs_two _ _ _ _ Hn).
Defined.

(** The worker's socket is closed and its disconnection noticed. *)
Definition net_abandoned : Network := act (Leave 0 (fun _ => 5000)) (act (Break 0 0) (act (Reply 0) net_overtaken)).
Lemma lost_command_never_settles_witness :
  links net_abandoned = ∅ /\ registered_workers (hub net_abandoned) = 0%nat /\ settled (hub net_abandoned) = false.
Proof.
  split; [vm_compute; reflexivity|]. split; [vm_compute; reflexivity|].
  assert (network_reach no_stranger net_overtaken) as Hn.
  { refine (act_reach _ (Deliver 0 (fun _ => hook_example) (fun _ => clock0)) _ (act_reach _ (Send 0) _ net_greeted_reach I I _) I _ _);
      try happens. apply hook_example_words. }
  refine (proj1 (proj2 (proj2 (lost_command_never_settles net_overtaken net_abandoned 1 Hn _ _)))).
  - split_and!; [apply (bool_decide_unpack _); vm_compute; exact I..|].
    change (map_Forall (fun _ L => 1 ∈ attempts_down L -> phase L = Failed) (links net_overtaken)).
    apply (bool_decide_unpack _). vm_compute. exact I.
  - assert (forall a n, no_roll a -> permitted a n -> is_Some (perform a n) -> rtc (network_step no_roll) net_overtaken n ->
      rtc (network_step no_roll) net_overtaken (act a n)) as Hgo by (intros a n H1 H2 H3 H; eapply rtc_r; [exact H|by apply act_step]).
    apply Hgo; [exact I|exact I|happens|]. apply Hgo; [exact I|exact I|happens|]. apply Hgo; [exact I|exact I|happens|]. apply rtc_refl.
Defined.
