(* ===== verification/Quiet.v ===== *)
(** * Networks in which nothing breaks

    The progress half of [Network]: when no connection breaks, no authority
    changes and only workers connect, what is in transit drains.  Every way of
    moving the frames on ends, within a number of steps known from the start,
    and if every worker is through its registration, it ends with every issued
    command run exactly once, every result accepted and all budget back. *)

From Stdlib Require Import ZArith Lia String.
From stdpp Require Import base list numbers strings gmap fin_maps sets relations sorting.
From S2P Require Import Prelude Float64 Identity State Object Decay Budget Ledger Policy Scheduler Codec Protocol Wire Messages Worker Coordinator Authority System Network.
Local Open Scope Z_scope.
Local Open Scope warmth_scope.

Definition quiet (a : action) : Prop :=
  match a with
  | Join _ w => shutdown_requested_ w = false
  | Handle _ _ | Reply _ | Issue _ _ _ | Send _ | Deliver _ _ _ => True
  | _ => False
  end.
(** The steps that move frames on. *)
Definition drains (a : action) : Prop :=
  match a with Handle _ _ | Reply _ | Send _ | Deliver _ _ _ => True | _ => False end.

Definition idle (n : Network) : Prop :=
  sending n = [] /\ forall h L, links n !! h = Some L -> down L = [] /\ up L = [] /\ replying L = [].
Definition all_serving (n : Network) : Prop := forall h L, links n !! h = Some L -> phase L = Serving.

(** *** The stages of a connection *)

Definition conn_of (h : handle) (c : Coordinator) : ConnState := default conn_new (conns c !! h).
Definition is_topic (f : Frame) : Prop := type f = WARM_TOPIC.

(** What the answer to the HELLO promises the worker. *)
Definition promises (c : Coordinator) (h : handle) (w : Worker) (a : HelloAck) : Prop :=
  hello_ack_ok a /\ (accepted a = true -> in_step h (adopt (frame_ack a) w).2 c).

(** The HELLO is on its way; or it is handled, and the answer is on its way,
    perhaps with commands before or behind it; or the worker serves; or it has
    given up. *)
Inductive stage (c : Coordinator) (h : handle) : Link -> Prop :=
  | st_greeting w : announces w -> shutdown_requested_ w = false -> registered (conn_of h c) = false ->
      stage c h (link_worker w)
  | st_answering w a d : shutdown_requested_ w = false -> promises c h w a -> Forall is_topic d ->
      stage c h (mkLink (Some w) Connecting d [] [frame_ack a] false)
  | st_answered w a d1 d2 : shutdown_requested_ w = false -> promises c h w a -> Forall is_topic (d1 ++ d2) ->
      stage c h (mkLink (Some w) Connecting (d1 ++ frame_ack a :: d2) [] [] false)
  | st_serving w d u : shutdown_requested_ w = false -> in_step h w c -> Forall is_topic d ->
      Forall (fun f => exists r cmd, f = Worker.result_frame r /\ warm_result_ok r /\ answers w cmd r) u ->
      stage c h (mkLink (Some w) Serving d u [] false)
  | st_failed L : phase L = Failed -> Forall (fun f => type f = WARM_RESULT) (up L) -> stage c h L.

(** The command of attempt [a] is waiting, on its way, or run; if the attempt is
    still in flight after the run, the result is on its way. *)
Definition covered (n : Network) (a : Z) (L : Link) (h : handle) (cmd : WarmCmd) : Prop :=
  phase L = Failed \/ a ∈ attempts_sending n \/ a ∈ attempts_down L \/
  exists x, x ∈ log n /\ run_of x = cmd /\ run_link x = h /\
    (is_Some (in_flight_ (hub n) !! a) -> Worker.result_frame (run_result x) ∈ up L).

Record calm (n : Network) : Prop := mkCalm {
  ca_honest : honest n;
  ca_stage : forall h L, links n !! h = Some L -> stage (hub n) h L;
  ca_conns : forall h, is_Some (conns (hub n) !! h) -> is_Some (links n !! h);
  ca_issued : forall a h cmd, issued n !! a = Some (h, cmd) -> registered (conn_of h (hub n)) = true /\
    (forall i, in_flight_ (hub n) !! a = Some i -> at_worker i = conn_id (conn_of h (hub n))) /\
    exists L, links n !! h = Some L /\ covered n a L h cmd }.

(** *** Lemmas on stages *)

Lemma stage_same c c' h L : authority c' = authority c -> conns c' !! h = conns c !! h -> stage c h L -> stage c' h L.
Proof.
  intros Ha Hc H. assert (conn_of h c' = conn_of h c) as E by (unfold conn_of; by rewrite Hc).
  assert (forall w, in_step h w c -> in_step h w c') as Hs.
  { intros w [H1 H2 H3 H4 H5 H6]. unfold authority in Ha. injection Ha as E1 E2 E3 _. unfold conn_of in E.
    constructor; rewrite ?E, ?E1, ?E2, ?E3; done. }
  assert (forall w a, promises c h w a -> promises c' h w a) as Hp by (intros w a [Hok Hst]; split; [done|]; auto).
  destruct H; [constructor; [done|done|by rewrite E]|constructor; auto..].
Qed.

Lemma handle_hello_answer cs m c :
  protocol_version m = kProtocolVersion -> coord_words c ->
  exists a, (handle_hello cs m c).1 = Some (frame_ack a) /\ hello_ack_ok a /\
    (accepted a = true -> ack_epoch a = value (epoch_ c) /\ ack_warmth_gen a = warmth_gen_value_ c /\ ack_dep_gen a = dep_gen_value_ c /\
       conns (handle_hello cs m c).2 = <[cs := mkConn (hello_worker m) (hello_boot m) (hello_node m) true (hello_backend m)]> (conns c)) /\
    (accepted a = false -> (handle_hello cs m c).2 = c).
Proof.
  intros Hv Hw. destruct (live_boot (hello_worker m) c) as [b|] eqn:Hl; [destruct (decide (b = hello_boot m)) as [->|Hne]|].
  2: { unfold handle_hello. rewrite Hv, Hl. cbn [Z.eqb kProtocolVersion Pos.eqb negb].
    rewrite (bool_decide_eq_true_2 (is_Some _)) by done. rewrite bool_decide_eq_false_2 by congruence.
    eexists. split; [done|]. destruct Hw. by split_and!. }
  all: destruct (handle_hello_accepts cs m c Hv) as (Hr & Hau & Hpg & Ht); [by auto|];
    eexists; split; [exact Hr|]; destruct Hw; split; [by split_and!|]; split; [|done]; intros _;
    unfold table in Ht; injection Ht as _ Ht; by split_and!.
Qed.

(** *** Steps on one connection *)

Lemma calm_update n n' h L L' : calm n -> honest n' -> links n !! h = Some L -> links n' = <[h := L']> (links n) ->
  stage (hub n') h L' -> authority (hub n') = authority (hub n) ->
  (conns (hub n') = conns (hub n) \/
     registered (conn_of h (hub n)) = false /\ exists s, conns (hub n') = <[h := s]> (conns (hub n))) ->
  issued n' = issued n -> (forall a i, in_flight_ (hub n') !! a = Some i -> in_flight_ (hub n) !! a = Some i) ->
  (forall a cmd, issued n !! a = Some (h, cmd) -> covered n a L h cmd -> covered n' a L' h cmd) ->
  (forall a h' cmd K, h' <> h -> issued n !! a = Some (h', cmd) -> covered n a K h' cmd -> covered n' a K h' cmd) ->
  calm n'.
Proof.
  intros [_ H2 H3 H4] Hh Hl El Hst Ha Hc Ei Hf Hown Hother.
  assert (forall h', h' <> h \/ registered (conn_of h' (hub n)) = true -> conns (hub n') !! h' = conns (hub n) !! h') as Hsame.
  { intros h' Hh'. destruct Hc as [->|[Hr [s ->]]]; [done|]. destruct (decide (h' = h)) as [->|Hne]; [|by rewrite lookup_insert_ne].
    destruct Hh' as [?|?]; congruence. }
  split; [done| | |].
  - rewrite El. intros h' K [[<- <-]|[Hne Hk]]%lookup_insert_Some; [done|]. apply (stage_same (hub n)); [done| |by apply H2].
    apply Hsame. by left.
  - intros h'. rewrite El. destruct (decide (h' = h)) as [->|Hne]; [by rewrite lookup_insert_eq|].
    rewrite lookup_insert_ne by done. rewrite Hsame by (by left). apply H3.
  - intros a h' cmd. rewrite Ei. intros Hi. destruct (H4 a h' cmd Hi) as (Hr & Hw & K & Hk & Hcov).
    unfold conn_of in *. rewrite Hsame by (right; exact Hr). split_and!; [done|by eauto|]. rewrite El.
    destruct (decide (h' = h)) as [->|Hne].
    + rewrite Hl in Hk. injection Hk as <-. rewrite lookup_insert_eq. eauto.
    + rewrite lookup_insert_ne by done. eauto.
Qed.

(** What is said about a connection's attempts depends on little. *)
Lemma covered_same n n' a L L' h cmd : (phase L = Failed -> phase L' = Failed) ->
  (a ∈ attempts_sending n -> a ∈ attempts_sending n') -> (a ∈ attempts_down L -> a ∈ attempts_down L') -> log n ⊆ log n' ->
  (forall i, in_flight_ (hub n') !! a = Some i -> in_flight_ (hub n) !! a = Some i) -> (forall f, f ∈ up L -> f ∈ up L') ->
  covered n a L h cmd -> covered n' a L' h cmd.
Proof.
  intros Hp Hs Hd Hl Hf Hu [?|[?|[?|(x & Hx & Ec & Eh & Hr)]]]; [left; by auto|right; left; by auto|right; right; left; by auto|].
  right. right. right. exists x. split_and!; [by apply Hl|done|done|]. intros [i Hi]. apply Hu, Hr. exists i. by apply Hf.
Qed.

Lemma reply_calm h n n' : calm n -> send_reply h n = Some n' -> calm n'.
Proof.
  intros Hc Ha. pose proof (reply_honest h n n' (ca_honest n Hc) Ha) as Hh. unfold send_reply in Ha.
  destruct (links n !! h) as [L|] eqn:Hl; [|done]. cbn in Ha. destruct (replying L) as [|f fs] eqn:Hr; [done|]. injection Ha as <-.
  pose proof (lh_reply n h L (ho_link n (ca_honest n Hc) h L Hl)) as Hans. rewrite Hr in Hans.
  set (L' := carry _ _) in *.
  assert (attempts_down L' = attempts_down L /\ phase L' = phase L /\ up L' = up L) as (E1 & E2 & E3).
  { unfold L', carry. cbn [broken]. destruct (broken L); [done|]. split; [|done]. destruct L as [p ph d u r b]. cbn [proc phase down up].
    rewrite attempts_down_app, answers_no_cmds, app_nil_r by done. done. }
  refine (calm_update n _ h L L' Hc Hh Hl eq_refl _ eq_refl (or_introl eq_refl) eq_refl _ _ _); [|done| |].
  - cbn [hub set_link]. destruct (ca_stage n Hc h L Hl) as [| w a d H1 H2 H3| | |L H1 H2]; try done.
    + injection Hr as <- <-. by apply (st_answered _ h w a d []); rewrite ?app_nil_r.
    + apply st_failed; congruence.
  - intros a cmd _. apply covered_same; rewrite ?E1, ?E2, ?E3; done.
  - intros a h' cmd K _ _. by apply covered_same.
Qed.

Lemma stage_carry c h L f : registered (conn_of h c) = true -> is_topic f -> stage c h L -> stage c h (carry [f] L).
Proof.
  intros Hr Hf H. assert (Forall is_topic [f]) as Hf1 by by apply Forall_singleton. unfold carry.
  destruct H as [w H1 H2 H3|w a d H1 H2 H3|w a d1 d2 H1 H2 H3|w d u H1 H2 H3 H4|L H1 H2]; cbn [broken proc phase down up replying link_worker].
  - congruence.
  - apply st_answering; [done|done|]. by apply Forall_app.
  - rewrite <- app_assoc, <- app_comm_cons. apply st_answered; [done|done|]. rewrite app_assoc. by apply Forall_app.
  - apply st_serving; [done|done| |done]. by apply Forall_app.
  - destruct (broken L); by apply st_failed.
Qed.

Lemma send_calm k n n' : calm n -> send_command k n = Some n' -> calm n'.
Proof.
  intros Hc Ha. pose proof (ca_honest n Hc) as Hh0. pose proof (send_command_honest k n n' Hh0 Ha) as Hh. unfold send_command in Ha.
  destruct (sending n !! k) as [s|] eqn:Hk; [|done]. cbn in Ha.
  destruct (links n !! send_link s) as [L|] eqn:Hl; [|done]. cbn in Ha. injection Ha as <-.
  destruct (ho_sending n Hh0 s) as (cmd & (Hcmd & Hok & Hi) & Ea); [by eapply list_elem_of_lookup_2|].
  destruct (ca_issued n Hc _ _ _ Hi) as (Hreg & _). set (L' := carry _ _) in *. pose proof (delete_sending k s n Hk) as Hperm.
  assert ((phase L = Failed -> phase L' = Failed) /\ (forall f, f ∈ up L -> f ∈ up L') /\
    (forall a, a ∈ attempts_down L -> a ∈ attempts_down L') /\ (broken L = false -> send_attempt s ∈ attempts_down L')) as (E1 & E2 & E3 & E4).
  { unfold L', carry. destruct (broken L) eqn:Hb; [done|]. cbn [phase up]. split_and!; [done|done| |]; destruct L as [p ph d u r b];
      cbn [proc phase down up replying].
    - intros a. rewrite attempts_down_app, elem_of_app. by left.
    - intros _. rewrite attempts_down_app, elem_of_app. right. cbn [map concat].
      rewrite frame_cmds_topic, Hcmd, app_nil_r, <- Ea by done. left. }
  refine (calm_update n _ (send_link s) L L' Hc Hh Hl eq_refl _ eq_refl (or_introl eq_refl) eq_refl _ _ _); [|done| |].
  - apply stage_carry; [done|done|]. by apply (ca_stage n Hc).
  - intros a x Hx Hcov. destruct (decide (a = send_attempt s)) as [->|Hne].
    + destruct (ca_stage n Hc _ L Hl) as [| | | |L H1 H2]; [try (right; right; left; by apply E4)..|left; by apply E1].
    + destruct Hcov as [?|[Hs|[?|(y & Hy & Ec & Eh & Hr)]]]; [left; by auto| |right; right; left; by auto|].
      * right. left. rewrite Hperm in Hs. by apply elem_of_cons in Hs as [?|?].
      * right. right. right. exists y. split_and!; [done..|]. intros Hf. by apply E2, Hr.
  - intros a h' x K Hne Hx [?|[Hs|[?|Hrun]]]; [by left| |by right; right; left|by right; right; right].
    right. left. rewrite Hperm in Hs. apply elem_of_cons in Hs as [->|?]; [|done].
    rewrite <- Ea in Hx. rewrite Hi in Hx. by injection Hx as <- _.
Qed.

(** The HELLO of a worker is handled. *)
Lemma greeting_handled h w clock c : coord_words c -> announces w -> shutdown_requested_ w = false -> 
  exists a, handle_frame h (Worker.hello_frame w) clock c = (Some (frame_ack a), (handle_frame h (Worker.hello_frame w) clock c).2) /\
    promises (handle_frame h (Worker.hello_frame w) clock c).2 h w a /\
    (conns (handle_frame h (Worker.hello_frame w) clock c).2 = conns c \/
     exists s, conns (handle_frame h (Worker.hello_frame w) clock c).2 = <[h := s]> (conns c)).
Proof.
  intros Hw Ha Hsd. pose proof (handle_frame_authority h (Worker.hello_frame w) clock c) as Hau.
  assert (handle_frame h (Worker.hello_frame w) clock c = handle_hello h (hello_norm (hello_of w)) c) as E.
  { unfold handle_frame. cbn [type payload Worker.hello_frame]. by rewrite hello_arrives. }
  rewrite E in *. destruct (handle_hello_answer h (hello_norm (hello_of w)) c eq_refl Hw) as (a & Hr & Hok & Hacc & Hrej).
  exists a. destruct (handle_hello h (hello_norm (hello_of w)) c) as [r c'] eqn:Eh. cbn [fst snd] in *. subst r.
  split; [done|]. destruct (accepted a) eqn:Ea; [|rewrite Hrej by done; split; [split; [done|congruence]|by left]].
  destruct (Hacc eq_refl) as (A1 & A2 & A3 & A4). split; [split; [done|]|right; by eexists]. intros _.
  unfold adopt. cbn [type frame_ack payload]. rewrite bool_decide_true by done. cbn [negb]. rewrite ack_arrives by done. rewrite Ea.
  cbn [negb snd]. unfold authority in Hau. injection Hau as B1 B2 B3 _.
  constructor; cbn [cfg_ Worker.epoch_ warmth_gen_ dep_gen_]; rewrite ?A4, ?lookup_insert_eq, ?A1, ?A2, ?A3; try done; congruence.
Qed.

(** The result of a serving worker is accepted if its attempt is in flight. *)
Lemma result_handled n h w r cmd0 cmd i clock : calm n -> in_step h w (hub n) -> answers w cmd0 r -> warm_result_ok r ->
  result_object r = cmd_object cmd -> in_flight_ (hub n) !! result_attempt r = Some i -> issued n !! result_attempt r = Some (h, cmd) ->
  in_flight_ (handle_frame h (Worker.result_frame r) clock (hub n)).2 = delete (result_attempt r) (in_flight_ (hub n)).
Proof.
  intros Hc [S1 S2 S3 S4 S5 S6] (A1 & A2 & A3 & A4 & _) Hok A5 Hi Hiss.
  destruct (ca_issued n Hc _ _ _ Hiss) as (_ & Hw & _). destruct (ho_flight n (ca_honest n Hc) _ i Hi) as (h' & cmd' & Hiss' & Eo).
  rewrite Hiss in Hiss'. injection Hiss' as <- <-.
  assert (accepts h r (hub n)) as Hacc.
  { split; [|exists i; split_and!; [done|by apply Hw|congruence]].
    unfold current_authority. rewrite S1, S3, A1, A2, A3, A4, S4, S5, S6, bool_decide_true by done. cbn. by rewrite !Z.eqb_refl. }
  unfold handle_frame. cbn [type payload Worker.result_frame]. rewrite result_arrives by done.
  rewrite (handle_result_accepted _ _ _ _ i Hacc Hi). cbn [snd settle set_flight in_flight_].
  pose proof (apply_result_flight (conn_id (default conn_new (conns (hub n) !! h))) r (clock 0%nat) (clock 1%nat) (hub n)) as E.
  unfold flight in E. by injection E as _ -> _ _.
Qed.

Lemma result_frame_inj r r' : warm_result_ok r -> warm_result_ok r' -> Worker.result_frame r = Worker.result_frame r' -> r = r'.
Proof.
  intros Hr Hr' E%(f_equal payload). cbn [payload Worker.result_frame] in E. pose proof (result_arrives r Hr) as E1.
  rewrite E, result_arrives in E1 by done. by injection E1.
Qed.

Lemma result_frame_table h f clock c : type f = WARM_RESULT -> table (handle_frame h f clock c).2 = table c /\
  option_list (handle_frame h f clock c).1 = [].
Proof.
  intros Ht. unfold handle_frame. rewrite Ht. destruct (decode_warm_result _) as [[r ?]|]; [|done].
  split; [apply handle_warm_result_table|]. unfold handle_warm_result. destruct (negb _); [done|].
  destruct (in_flight_ c !! _); [|done]. by destruct (decide _).
Qed.

(** The next result of a serving worker: whatever becomes of it, no other
    attempt is affected. *)
Lemma result_covered n n' h w d u r b clock ph cmd0 a cmd :
  let L := mkLink (Some w) ph d (Worker.result_frame r :: u) [] b in
  calm n -> links n !! h = Some L -> in_step h w (hub n) -> warm_result_ok r -> answers w cmd0 r -> issued n !! a = Some (h, cmd) ->
  hub n' = (handle_frame h (Worker.result_frame r) clock (hub n)).2 -> sending n' = sending n -> log n' = log n ->
  covered n a L h cmd -> covered n' a (mkLink (Some w) ph d u [] b) h cmd.
Proof.
  cbn zeta. intros Hc Hl Hs Hok Hans Hi Ehub Es El [?|[?|[?|(x & Hx & Ec & Eh & Hr)]]].
  - by left.
  - right. left. unfold attempts_sending in *. by rewrite Es.
  - by right; right; left.
  - right. right. right. exists x. rewrite El, Ehub. split_and!; [done..|]. intros [i Hi'].
    destruct (handle_frame_flight h (Worker.result_frame r) clock (hub n)) as [_ Hfl].
    pose proof (Hr ltac:(exists i; by apply Hfl)) as Hin. cbn [up] in *. apply elem_of_cons in Hin as [E|?]; [exfalso|done].
    pose proof (ho_log n (ca_honest n Hc)) as Hlog. rewrite Forall_forall in Hlog. destruct (Hlog x Hx) as (_ & Hxok & _).
    apply result_frame_inj in E; [|done|done]. subst r. destruct (Hlog x Hx) as (_ & _ & Ex & Eo).
    pose proof (ho_issued n (ca_honest n Hc) a _ Hi) as (Ea & _). cbn [snd] in Ea. rewrite Ec in Ex, Eo. rewrite Ea in Ex. subst a.
    destruct (in_flight_ (hub n) !! result_attempt (run_result x)) as [j|] eqn:Ej.
    + rewrite (result_handled n h w _ cmd0 cmd j clock Hc Hs Hans Hok Eo Ej) in Hi' by congruence. by rewrite lookup_delete_eq in Hi'.
    + apply Hfl in Hi'. congruence.
Qed.

Lemma handle_calm h clock n n' : calm n -> handle_next h clock n = Some n' -> calm n'.
Proof.
  intros Hc Ha. pose proof (ca_honest n Hc) as Hh0. pose proof (handle_honest h clock n n' Hh0 Ha) as Hh.
  unfold handle_next in Ha. destruct (links n !! h) as [L|] eqn:Hl; [|done]. cbn in Ha.
  destruct (up L) as [|f rest] eqn:Hu; [done|]. destruct (replying L) eqn:Hre; [|done].
  pose proof (handle_frame_authority h f clock (hub n)) as Hau. destruct (handle_frame_flight h f clock (hub n)) as [_ Hfl].
  pose proof (result_frame_table h f clock (hub n)) as Htab. pose proof (ca_stage n Hc h L Hl) as Hst.
  destruct (handle_frame h f clock (hub n)) as [rep c] eqn:Ehf. injection Ha as <-. cbn [fst snd] in *.
  assert (forall a h' cmd K L0, covered n a K h' cmd -> covered (set_link h L0 (set_hub c n)) a K h' cmd) as Hother
    by (intros a h' cmd K L0; apply covered_same; try done; intros i; apply Hfl).
  destruct Hst as [w H1 H2 H3|w a d H1 H2 H3|w a d1 d2 H1 H2 H3|w d u H1 H2 H3 H4|L H1 H2]; try done.
  - injection Hu as <- <-. destruct (greeting_handled h w clock (hub n) (ho_words n Hh0) H1 H2) as (a & Er & Hp & Hcn).
    rewrite Ehf in Er, Hp, Hcn. cbn [snd] in *. injection Er as ->. eapply (calm_update n); try done.
    + by apply (st_answering c h w a []).
    + destruct Hcn as [?|?]; [by left|right; by split].
    + intros a' cmd Hi. destruct (ca_issued n Hc _ _ _ Hi) as (Hr & _). congruence.
    + intros a' h' cmd K _ _. apply Hother.
  - cbn [up] in Hu. subst u. apply Forall_cons in H4 as [(r & cmd0 & -> & Hok & Hans) H4].
    destruct (Htab eq_refl) as [Et Erep]. rewrite Erep in Hh |- *. pose proof Et as Et'. unfold table in Et'. injection Et' as _ Ecn.
    eapply (calm_update n); try done.
    + apply st_serving; [done| |done|done]. by apply (in_step_authority h w (hub n)).
    + by left.
    + intros a cmd Hi Hcov. eapply (result_covered n _ h w d rest r false clock Serving cmd0 a cmd); try done. cbn [hub set_link set_hub]. by rewrite Ehf.
    + intros a' h' cmd K _ _. apply Hother.
  - rewrite Hu in H2. apply Forall_cons in H2 as [Ht H2]. destruct (Htab Ht) as [Et Erep]. unfold table in Et. injection Et as _ Ecn.
    eapply (calm_update n); try done.
    + by apply st_failed.
    + by left.
    + intros a cmd _ _. by left.
    + intros a' h' cmd K _ _. apply Hother.
Qed.

Lemma ack_not_topic a : ~ is_topic (frame_ack a).
Proof. done. Qed.

Lemma adopt_topic f w : is_topic f -> adopt f w = (false, w).
Proof. unfold adopt, is_topic. intros ->. done. Qed.

Lemma adopt_shutdown f w : shutdown_requested_ (adopt f w).2 = shutdown_requested_ w.
Proof. unfold adopt. destruct (negb _); [done|]. destruct (decode_hello_ack _) as [[a ?]|]; [|done]. by destruct (negb _). Qed.

Lemma adopt_ack a w : hello_ack_ok a -> (adopt (frame_ack a) w).1 = accepted a.
Proof.
  intros Ha. unfold adopt. cbn [type frame_ack payload]. rewrite bool_decide_true by done. cbn [negb].
  rewrite ack_arrives by done. by destruct (accepted a).
Qed.

Lemma run_cmd_shutdown cmd hook clock w : shutdown_requested_ (run_cmd cmd hook clock w).2 = shutdown_requested_ w.
Proof. unfold run_cmd. destruct (hook _ _) as [[[] d] n]; done. Qed.

(** A serving worker reads the one command of a frame, runs it and answers. *)
Lemma serve_topic n h f hook clock w : honest n -> downward h n f -> is_topic f -> worker_words w ->
  hook_words hook ->
  exists cmd r w', frame_cmds f = [cmd] /\ issued n !! cmd_attempt cmd = Some (h, cmd) /\
    Worker.handle_frame f hook clock w = ([Worker.result_frame r], w') /\ ran h f hook clock w = [mkRun h cmd r] /\
    standing w' = standing w /\ shutdown_requested_ w' = shutdown_requested_ w /\ warm_result_ok r /\ answers w cmd r.
Proof.
  intros Hh [Ha|(cmd & t & (Hc & Ht & Hi) & ->)] Hf Hw Hhook.
  { apply frame_cmds_answer in Ha as [_ Ha]. by rewrite Hf in Ha. }
  destruct (ran_downward n h (topic_frame t) hook clock w Hh) as (_ & Hok & _); [right; by exists cmd, t|done|done|].
  assert (frame_cmds (topic_frame t) = [cmd]) as Ef by (by rewrite frame_cmds_topic).
  unfold ran in *. rewrite Ef in Hok |- *. rewrite run_one in Hok |- *. apply (proj1 (Forall_singleton _ _)) in Hok. destruct Hok as (_ & Hok & _).
  exists cmd, (run_cmd cmd (hook 0%nat) (clock 0%nat) w).1, (run_cmd cmd (hook 0%nat) (clock 0%nat) w).2. split_and!; try done.
  - unfold Worker.handle_frame. cbn [type payload topic_frame]. rewrite topic_arrives, Hc by done. cbn [run_cmds].
    by destruct (run_cmd _ _ _ _).
  - apply run_cmd_standing.
  - apply run_cmd_shutdown.
  - pose proof (run_cmds_answers 0 [cmd] hook clock w) as Han. rewrite run_one in Han. by inversion Han.
Qed.

Lemma deliver_calm h hook clock n n' : calm n ->
  hook_words hook -> deliver h hook clock n = Some n' -> calm n'.
Proof.
  intros Hc Hhook Ha. pose proof (ca_honest n Hc) as Hh0. pose proof (deliver_honest h hook clock n n' Hh0 Hhook Ha) as Hh.
  unfold deliver in Ha. destruct (links n !! h) as [L|] eqn:Hl; [|done]. cbn in Ha.
  pose proof (ho_link n Hh0 h L Hl) as HL. destruct (down L) as [|f rest] eqn:Hd; [done|].
  assert (forall a h' cmd K L0, covered n a K h' cmd -> covered (set_link h L0 n) a K h' cmd) as Hother
    by (intros a h' cmd K L0; by apply covered_same).
  assert (forall L', stage (hub n) h L' -> honest (set_link h L' n) ->
    (forall a cmd, issued n !! a = Some (h, cmd) -> covered n a L h cmd -> covered (set_link h L' n) a L' h cmd) -> calm (set_link h L' n)) as Hgo.
  { intros L' Hst Hh' Hcov. eapply (calm_update n _ h L L'); try done; by left. }
  destruct (ca_stage n Hc h L Hl) as [w H1 H2 H3|w a d H1 H2 H3|w a d1 d2 H1 H2 H3|w d u H1 H2 H3 H4|L H1 H2]; cbn [down proc phase up replying broken link_worker] in *.
  - done.
  - subst d. apply Forall_cons in H3 as [Hf H3]. rewrite adopt_topic in Ha by done. injection Ha as <-. apply Hgo; [by apply st_failed|done|].
    intros; by left.
  - destruct d1 as [|g d1]; cbn [app] in *; injection Hd as <- <-.
    + destruct H2 as [Hok Hin]. pose proof (adopt_ack a w Hok) as E1. pose proof (adopt_shutdown (frame_ack a) w) as E2.
      destruct (adopt (frame_ack a) w) as [ok w']. cbn [fst snd] in *. subst ok. injection Ha as <-.
      destruct (accepted a); apply Hgo; try done.
      * apply st_serving; [congruence|by apply Hin|done|done].
      * intros k cmd _. by apply covered_same.
      * by apply st_failed.
      * intros; by left.
    + apply Forall_cons in H3 as [Hf H3]. rewrite adopt_topic in Ha by done. injection Ha as <-. apply Hgo; [by apply st_failed|done|].
      intros; by left.
  - subst d. apply Forall_cons in H3 as [Hf H3]. pose proof (lh_down _ _ _ HL) as Hdn. cbn [down] in Hdn. apply Forall_cons in Hdn as [Hdn _].
    destruct (serve_topic n h f hook clock w Hh0 Hdn Hf (lh_worker _ _ _ HL w eq_refl) Hhook) as (cmd & r & w' & Ef & Hi & Ew & Er & Hst & Hsd & Hok & Hans).
    rewrite Ew, Er, Hsd, H1 in Ha. injection Ha as <-. eapply (calm_update n); try done.
    + apply st_serving; [congruence|by eapply in_step_standing|done|]. apply Forall_app. split.
      * eapply Forall_impl; [exact H4|]. intros g (r' & cmd' & E & Hok' & Hans'). exists r', cmd'. split_and!; [done..|].
        by eapply answers_standing.
      * apply Forall_singleton. exists r, cmd. split_and!; [done..|]. by eapply answers_standing.
    + by left.
    + intros a x Hx [?|[?|[Hin|(y & Hy & Ec & Eh & Hr)]]]; [done|by right; left| |].
      * unfold attempts_down in Hin. cbn [down map concat] in Hin. rewrite Ef in Hin. apply elem_of_cons in Hin as [->|?]; [|by right; right; left].
        rewrite Hi in Hx. injection Hx as <-. right. right. right. exists (mkRun h cmd r). cbn [log up]. split_and!; [|done|done|].
        -- apply elem_of_app. right. by left.
        -- intros _. apply elem_of_app. right. by left.
      * right. right. right. exists y. cbn [log up]. split_and!; [apply elem_of_app; by left|done|done|].
        intros Hfl. apply elem_of_app. left. by apply Hr.
    + intros a h' x K _ _. apply covered_same; try done. cbn [log]. intros y Hy. apply elem_of_app. by left.
  - assert (n' = set_link h (mkLink (proc L) (phase L) rest (up L) (replying L) (broken L)) n) as ->.
    { rewrite H1 in *. destruct (proc L); by injection Ha. }
    apply Hgo; [by apply st_failed|done|]. intros; by left.
Qed.

Lemma join_calm h w n n' : calm n -> announces w -> worker_words w -> all_cold w -> shutdown_requested_ w = false ->
  join_link h (link_worker w) n = Some n' -> calm n'.
Proof.
  intros Hc Han Hw Hcold Hsd Ha. pose proof Hc as [H1 H2 H3 H4].
  assert (honest n') as Hh.
  { eapply network_step_honest; [exact H1|]. exists (Join h w). split; [exact (I : any_action _)|]. by split_and!. }
  unfold join_link in Ha. destruct (links n !! h) eqn:El; [done|]. destruct (conns (hub n) !! h) eqn:Ec; [done|]. injection Ha as <-.
  split; [done| | |].
  - intros h' K. cbn [links set_link hub set_hub].
    intros [[<- <-]|[Hne Hk]]%lookup_insert_Some.
    + apply st_greeting; [done|done|]. unfold conn_of. cbn. by rewrite lookup_insert_eq.
    + apply (stage_same (hub n)); [done|cbn; by rewrite lookup_insert_ne|by apply H2].
  - intros h'. cbn [links set_link hub set_hub conns set_conns]. destruct (decide (h' = h)) as [->|Hne]; [intros _; by rewrite lookup_insert_eq|].
    rewrite !lookup_insert_ne by done. apply H3.
  - intros a h' cmd Hi. destruct (H4 a h' cmd Hi) as (Hr & Hwk & K & Hk & Hcov). assert (h' <> h) as Hne by congruence.
    unfold conn_of in *. cbn [hub set_link set_hub set_conns conns links]. rewrite lookup_insert_ne by done. split_and!; [done|done|].
    exists K. rewrite lookup_insert_ne by done. split; [done|]. by apply (covered_same n _ a K).
Qed.

Lemma issue_calm object action preferred n n' : calm n -> coord_room (hub n) -> Id128_wf object ->
  issue object action preferred n = Some n' -> calm n'.
Proof.
  intros Hc Hroom Hid Ha. pose proof Hc as [H1 H2 H3 H4]. pose proof (issue_honest object action preferred n n' H1 Hroom Hid Ha) as Hh.
  unfold issue in Ha. destruct (pick_worker preferred (hub n)) as [h|] eqn:Hp.
  2: { unfold issue_begin in Ha. rewrite Hp in Ha. injection Ha as <-. by destruct n. }
  destruct (pick_worker_in _ _ _ Hp) as [w Hw]. pose proof (ho_table n H1 w h Hw) as Hreg.
  destruct (issue_begin_admits object action preferred h (hub n) (ho_inv n H1) Hroom Hp Hreg) as (b & i & Eo & Ew & E & _).
  rewrite E in Ha. set (c := set_flight _ _ _ _) in *. set (a := attempt_counter_ (hub n)) in *. injection Ha as <-.
  assert (issued n !! a = None) as Hnew.
  { destruct (issued n !! a) as [x|] eqn:Hx; [|done]. apply (ho_issued n H1) in Hx as (_ & Hx & _). unfold a in Hx. lia. }
  assert (is_Some (links n !! h)) as [L HL].
  { apply H3. by destruct (conns (hub n) !! h). }
  split; [done| |exact H3|].
  - intros h' K Hk. apply (stage_same (hub n)); [done|done|by apply H2].
  - intros k h' cmd. cbn [issued hub links]. intros [[<- [= <- <-]]|[Hne Hi]]%lookup_insert_Some.
    + split; [done|]. split; [intros j; cbn [c set_flight in_flight_]; rewrite lookup_insert_eq; by intros [= <-]|].
      exists L. split; [done|]. right. left. unfold attempts_sending. cbn [sending]. rewrite map_app, elem_of_app. right. by left.
    + destruct (H4 k h' cmd Hi) as (Hr & Hwk & K & Hk & Hcov). split; [done|]. split.
      * intros j. cbn [c set_flight set_attempts in_flight_]. rewrite lookup_insert_ne by done. apply Hwk.
      * exists K. split; [done|]. destruct Hcov as [?|[?|[?|(x & Hx & Ex & Ehx & Hrx)]]]; [by left| |by right; right; left|].
        -- right. left. unfold attempts_sending. cbn [sending]. rewrite map_app, elem_of_app. by left.
        -- right. right. right. exists x. split_and!; [done..|]. cbn [hub c set_flight set_attempts in_flight_].
           by rewrite lookup_insert_ne.
Qed.

Lemma network_step_calm n n' : calm n -> network_step quiet n n' -> calm n'.
Proof.
  intros Hc (a & Hq & Hp & Ha). destruct a; cbn [perform permitted quiet] in *; try done.
  - destruct Hp as (? & ? & ?). by eapply join_calm.
  - by eapply handle_calm.
  - by eapply reply_calm.
  - destruct Hp. by eapply issue_calm.
  - by eapply send_calm.
  - by eapply deliver_calm.
Qed.

Lemma network_reach_calm n : network_reach quiet n -> calm n.
Proof.
  intros H. apply (rtc_ind_r (R := network_step quiet) calm network_new); [| |exact H].
  - split; [apply network_new_honest|done| |done]. intros h [s Hs]. done.
  - intros y z _ Hs Hy. by eapply network_step_calm.
Qed.

(** ** Draining *)

(** What is still to be moved: a command waiting to be sent causes at most five
    further steps, and so on down to an answer on its way to the worker. *)
Definition frame_load (f : Frame) : nat := match type f with WARM_TOPIC => 5 | _ => 1 end.
Definition link_load (L : Link) : nat :=
  sum_list_with frame_load (down L) + 3 * length (up L) + 2 * length (replying L).
Definition links_load (m : gmap handle Link) : nat := sum_list_with (fun kv => link_load kv.2) (map_to_list m).
Definition load (n : Network) : nat := 6 * length (sending n) + links_load (links n).
#[local] Arguments load : simpl never.

Definition drain_ok (a : action) : Prop :=
  drains a /\ match a with Deliver _ hook _ => hook_words hook | _ => True end.

Lemma links_load_insert m h L L' : m !! h = Some L ->
  (links_load (<[h := L']> m) + link_load L = links_load m + link_load L')%nat.
Proof.
  intros Hl. unfold links_load. rewrite <- insert_delete_eq.
  rewrite (sum_list_with_Permutation_proper _ _ _ (map_to_list_insert (delete h m) h L' (lookup_delete_eq m h))).
  rewrite <- (sum_list_with_Permutation_proper _ _ _ (map_to_list_delete m h L Hl)). cbn. lia.
Qed.

Lemma answers_load fs : Forall answer_ok fs -> sum_list_with frame_load fs = length fs.
Proof.
  induction 1 as [|f fs Hf _ IH]; [done|]. cbn. rewrite IH. destruct Hf as [->|[->|(a & _ & ->)]]; done.
Qed.

Lemma drain_load a n n' : calm n -> drain_ok a -> perform a n = Some n' -> (load n' < load n)%nat.
Proof.
  intros Hc [Hd Hp] Ha. pose proof (ca_honest n Hc) as Hh. destruct a; cbn [perform drains] in *; try done.
  - unfold handle_next in Ha. destruct (links n !! h) as [L|] eqn:Hl; [|done]. cbn in Ha. destruct (up L) as [|f rest] eqn:Hu; [done|].
    destruct (replying L) eqn:Hr; [|done]. destruct (handle_frame h f clock (hub n)) as [rep c]. injection Ha as <-.
    unfold load. cbn [sending links set_link set_hub]. pose proof (links_load_insert (links n) h L
      (mkLink (proc L) (phase L) (down L) rest (option_list rep) (broken L)) Hl) as E.
    assert (link_load (mkLink (proc L) (phase L) (down L) rest (option_list rep) (broken L)) < link_load L)%nat; [|lia].
    unfold link_load. cbn [down up replying]. rewrite Hu, Hr. destruct rep; cbn; lia.
  - unfold send_reply in Ha. destruct (links n !! h) as [L|] eqn:Hl; [|done]. cbn in Ha.
    pose proof (lh_reply n h L (ho_link n Hh h L Hl)) as Hans. destruct (replying L) as [|f fs] eqn:Hr; [done|]. injection Ha as <-.
    unfold load. cbn [sending links set_link]. set (L' := carry _ _). pose proof (links_load_insert (links n) h L L' Hl) as E.
    assert (link_load L' < link_load L)%nat; [|lia]. pose proof (answers_load _ Hans) as Es. unfold L', carry, link_load. rewrite Hr.
    cbn [broken]. destruct (broken L); cbn [down up replying]; [cbn; lia|]. rewrite sum_list_with_app, Es. cbn. lia.
  - unfold send_command in Ha. destruct (sending n !! k) as [s|] eqn:Hk; [|done]. cbn in Ha.
    destruct (links n !! send_link s) as [L|] eqn:Hl; [|done]. cbn in Ha. injection Ha as <-.
    pose proof (links_load_insert (links n) (send_link s) L (carry [topic_frame (send_topic s)] L) Hl) as E.
    pose proof (Permutation_length (delete_Permutation (sending n) k s Hk)) as El. unfold load. cbn [sending links] in *. cbn in El.
    assert (link_load (carry [topic_frame (send_topic s)] L) <= link_load L + 5)%nat; [|lia].
    unfold carry, link_load. destruct (broken L); [lia|]. cbn [down up replying]. rewrite sum_list_with_app. cbn. lia.
  - unfold deliver in Ha. destruct (links n !! h) as [L|] eqn:Hl; [|done]. cbn in Ha. destruct (down L) as [|f rest] eqn:Edn; [done|].
    pose proof (fun L' => links_load_insert (links n) h L L' Hl) as E.
    assert (forall p ph, (link_load (mkLink p ph rest (up L) (replying L) (broken L)) < link_load L)%nat) as Hless.
    { intros p ph. unfold link_load. cbn [down up replying]. rewrite Edn. cbn. unfold frame_load. destruct (type f); lia. }
    pose proof (ca_stage n Hc h L Hl) as Hst. destruct (proc L) as [w|] eqn:Ep.
    2: { injection Ha as <-. unfold load. cbn [sending links set_link]. specialize (E (mkLink None (phase L) rest (up L) (replying L) (broken L))).
      specialize (Hless None (phase L)). lia. }
    destruct (phase L) eqn:Eph.
    + destruct (adopt f w) as [ok w']. injection Ha as <-. unfold load. cbn [sending links set_link].
      match goal with |- context [<[h := ?L']> _] => specialize (E L') end. specialize (Hless (Some w') (if ok then Serving else Failed)). lia.
    + destruct Hst as [w0 H1 H2 H3|w0 a d H1 H2 H3|w0 a d1 d2 H1 H2 H3|w0 d u H1 H2 H3 H4|L H1 H2];
        cbn [down proc up replying broken phase link_worker] in *; try done; [|congruence]. subst d. injection Ep as ->.
      apply Forall_cons in H3 as [Hf H3]. pose proof (ho_link n Hh h _ Hl) as HL. pose proof (lh_down _ _ _ HL) as Hdn. cbn [down] in Hdn.
      apply Forall_cons in Hdn as [Hdn _].
      destruct (serve_topic n h f hook clock w Hh Hdn Hf (lh_worker _ _ _ HL w eq_refl) Hp) as (cmd & r & w' & _ & _ & Ew & _ & _ & Hsd & _).
      rewrite Ew, Hsd, H1 in Ha. injection Ha as <-. unfold load. cbn [sending links].
      match goal with |- context [<[h := ?L']> _] => specialize (E L') end. unfold link_load in E. cbn [down up replying] in E.
      cbn [sum_list_with] in E. unfold is_topic in Hf. unfold frame_load at 1 in E. rewrite Hf in E. rewrite length_app in E. cbn in E. lia.
    + injection Ha as <-. unfold load. cbn [sending links set_link].
      match goal with |- context [<[h := ?L']> _] => specialize (E L') end. specialize (Hless (Some w) Failed). lia.
Qed.

(** Serving workers keep serving. *)
Lemma set_link_serving h L n : all_serving n -> phase L = Serving -> all_serving (set_link h L n).
Proof. intros Hs Hp h' K. cbn [links set_link]. intros [[_ <-]|[_ Hk]]%lookup_insert_Some; [done|by eapply Hs]. Qed.

Lemma carry_phase fs L : phase (carry fs L) = phase L.
Proof. unfold carry. by destruct (broken L). Qed.

Lemma drain_serving a n n' : calm n -> all_serving n -> drain_ok a -> perform a n = Some n' -> all_serving n' /\ issued n' = issued n.
Proof.
  intros Hc Hs [Hd Hp] Ha. destruct a; cbn [perform drains] in *; try done.
  - unfold handle_next in Ha. destruct (links n !! h) as [L|] eqn:Hl; [|done]. cbn in Ha. destruct (up L); [done|].
    destruct (replying L); [|done]. destruct (handle_frame _ _ _ _). injection Ha as <-. split; [|done].
    apply (set_link_serving h _ n); [done|]. by apply (Hs h L).
  - unfold send_reply in Ha. destruct (links n !! h) as [L|] eqn:Hl; [|done]. cbn in Ha. destruct (replying L); [done|]. injection Ha as <-.
    split; [|done]. apply set_link_serving; [done|]. rewrite carry_phase. by apply (Hs h L).
  - unfold send_command in Ha. destruct (sending n !! k) as [s|]; [|done]. cbn in Ha.
    destruct (links n !! send_link s) as [L|] eqn:Hl; [|done]. cbn in Ha. injection Ha as <-. split; [|done].
    apply (set_link_serving _ _ n); [done|]. rewrite carry_phase. by eapply Hs.
  - unfold deliver in Ha. destruct (links n !! h) as [L|] eqn:Hl; [|done]. cbn in Ha. destruct (down L) as [|f rest] eqn:Edn; [done|].
    pose proof (Hs h L Hl) as Eph. pose proof (ca_stage n Hc h L Hl) as Hst. pose proof (ca_honest n Hc) as Hh.
    destruct Hst as [w H1 H2 H3|w a d H1 H2 H3|w a d1 d2 H1 H2 H3|w d u H1 H2 H3 H4|L H1 H2];
      cbn [down proc up replying broken phase link_worker] in *; try done; [|congruence]. subst d.
    apply Forall_cons in H3 as [Hf H3]. pose proof (ho_link n Hh h _ Hl) as HL. pose proof (lh_down _ _ _ HL) as Hdn. cbn [down] in Hdn.
    apply Forall_cons in Hdn as [Hdn _].
    destruct (serve_topic n h f hook clock w Hh Hdn Hf (lh_worker _ _ _ HL w eq_refl) Hp) as (cmd & r & w' & _ & _ & Ew & _ & _ & Hsd & _).
    rewrite Ew, Hsd, H1 in Ha. injection Ha as <-. split; [|done]. by apply (set_link_serving h _ n).
Qed.

Lemma drain_calm a n n' : calm n -> drain_ok a -> perform a n = Some n' -> calm n'.
Proof.
  intros Hc [Hd Hp] Ha. apply (network_step_calm n); [done|]. exists a. destruct a; cbn [drains] in *; done.
Qed.

(** What is not idle can move on. *)
Definition quiet_link (L : Link) : bool := match down L, up L, replying L with [], [], [] => true | _, _, _ => false end.

Lemma drain_progress n : calm n -> idle n \/ exists a n', drain_ok a /\ perform a n = Some n'.
Proof.
  intros Hc. destruct (sending n) as [|s rest] eqn:Es.
  2: { right. destruct (ho_sending n (ca_honest n Hc) s) as (cmd & (_ & _ & Hi) & _); [rewrite Es; by left|].
    destruct (ca_issued n Hc _ _ _ Hi) as (_ & _ & L & Hl & _). exists (Send 0). eexists. split; [done|]. cbn [perform].
    unfold send_command. rewrite Es. cbn. rewrite Hl. done. }
  destruct (decide (map_Forall (fun _ L => quiet_link L = true) (links n))) as [Hq|Hq].
  - left. split; [done|]. intros h L Hl. specialize (Hq h L Hl). unfold quiet_link in Hq. by destruct (down L), (up L), (replying L).
  - right. apply map_not_Forall in Hq as (h & L & Hl & Hq); [|apply _]. unfold quiet_link in Hq.
    destruct (down L) as [|f d] eqn:Ed; [destruct (replying L) as [|g r] eqn:Er; [destruct (up L) as [|f u] eqn:Eu; [done|]|]|].
    + exists (Handle h clock0). cbn [perform]. unfold handle_next. rewrite Hl. cbn. rewrite Eu, Er.
      destruct (handle_frame h f clock0 (hub n)) as [rep c]. eexists. by split.
    + exists (Reply h). cbn [perform]. unfold send_reply. rewrite Hl. cbn. rewrite Er. eexists. by split.
    + exists (Deliver h (fun _ => hook_example) (fun _ => clock0)).
      assert (drain_ok (Deliver h (fun _ => hook_example) (fun _ => clock0))) as Hok by (split; [done|apply hook_example_words]).
      cbn [perform]. unfold deliver. rewrite Hl. cbn. rewrite Ed.
      destruct (proc L) as [w|]; [|eexists; by split]. destruct (phase L); [|destruct (Worker.handle_frame _ _ _ w)|]; [destruct (adopt f w)|..]; eexists; by split.
Qed.

(** An idle network of serving workers has done everything. *)
Lemma idle_done n a h cmd : calm n -> all_serving n -> idle n -> issued n !! a = Some (h, cmd) ->
  in_flight_ (hub n) !! a = None /\ exists x, x ∈ log n /\ run_of x = cmd /\ run_link x = h.
Proof.
  intros Hc Hs [Es Hq] Hi. destruct (ca_issued n Hc a h cmd Hi) as (_ & _ & L & Hl & Hcov). destruct (Hq h L Hl) as (Ed & Eu & _).
  destruct Hcov as [Hf|[Hin|[Hin|(x & Hx & Ec & Eh & Hr)]]].
  - rewrite (Hs h L Hl) in Hf. done.
  - unfold attempts_sending in Hin. rewrite Es in Hin. by apply not_elem_of_nil in Hin.
  - unfold attempts_down in Hin. rewrite Ed in Hin. by apply not_elem_of_nil in Hin.
  - split; [|by exists x]. destruct (in_flight_ (hub n) !! a); [|done]. specialize (Hr ltac:(done)). rewrite Eu in Hr. by apply not_elem_of_nil in Hr.
Qed.

(** Draining steps, taken one after another. *)
Lemma drains_keep l n n' : calm n -> all_serving n -> Forall drain_ok l -> performs l n = Some n' ->
  calm n' /\ all_serving n' /\ issued n' = issued n /\ (length l + load n' <= load n)%nat.
Proof.
  intros Hc Hs Hl. revert n Hc Hs. induction Hl as [|a l Ha _ IH]; intros n Hc Hs; cbn [performs].
  - intros [= ->]. split_and!; [done..|]. cbn. lia.
  - destruct (perform a n) as [m|] eqn:E; [|done]. cbn. intros Hp. destruct (drain_serving a n m Hc Hs Ha E) as [Hs' Ei].
    pose proof (drain_load a n m Hc Ha E). destruct (IH m (drain_calm a n m Hc Ha E) Hs' Hp) as (? & ? & ? & ?).
    split_and!; [done|done|congruence|cbn [length]; lia].
Qed.

Lemma drains_end n : calm n -> exists l n', Forall drain_ok l /\ performs l n = Some n' /\ idle n'.
Proof.
  remember (load n) as m eqn:Em. revert n Em. induction m as [m IH] using lt_wf_ind. intros n -> Hc.
  destruct (drain_progress n Hc) as [Hi|(a & n1 & Ha & E)]; [exists [], n; by split_and!|].
  destruct (IH (load n1) (drain_load a n n1 Hc Ha E) n1 eq_refl (drain_calm a n n1 Hc Ha E)) as (l & n' & Hl & Hp & Hi).
  exists (a :: l), n'. split_and!; [by constructor| |done]. cbn [performs]. by rewrite E.
Qed.

(** C6: A quiet network settles, and every command is carried out exactly once.
    Workers have joined and commands were issued, in any interleaving, nothing
    broke, the authority stood still, and every worker is through its
    registration.  Then, whatever order the frames now move in: no more than
    [load] steps can be taken; until nothing is in transit a step is possible;
    and when nothing is, no attempt is in flight, [wait_until_settled] returns,
    all budget is released, and every issued command has been run exactly once,
    by the worker that it was sent to. *)
Theorem quiet_network_settles (n : Network) (l : list action) (n' : Network) :
  network_reach quiet n -> all_serving n -> Forall drain_ok l -> performs l n = Some n' ->
  (length l <= load n)%nat /\ (idle n' \/ exists a n'', drain_ok a /\ perform a n' = Some n'') /\
  (exists l' n'', Forall drain_ok l' /\ performs l' n' = Some n'' /\ idle n'') /\
  (idle n' -> in_flight_ (hub n') = ∅ /\ settled (hub n') = true /\ coord_balanced (hub n') = true /\
     issued n' = issued n /\
     forall a h cmd, issued n !! a = Some (h, cmd) ->
       exists x, x ∈ log n' /\ run_of x = cmd /\ run_link x = h /\
         forall y, y ∈ log n' -> cmd_attempt (run_of y) = a -> y = x).
Proof.
  intros Hn%network_reach_calm Hs Hl Hp. destruct (drains_keep l n n' Hn Hs Hl Hp) as (Hc & Hs' & Ei & Hload).
  split; [lia|]. split; [by apply drain_progress|]. split; [by apply drains_end|]. intros Hi. pose proof (ca_honest n' Hc) as Hh.
  assert (in_flight_ (hub n') = ∅) as Ef.
  { apply map_empty. intros a. destruct (in_flight_ (hub n') !! a) as [i|] eqn:E; [|done].
    destruct (ho_flight n' Hh a i E) as (h & cmd & Hx & _). destruct (idle_done n' a h cmd Hc Hs' Hi Hx) as [E' _]. congruence. }
  split; [done|]. pose proof (ci_count _ (ho_inv n' Hh)) as Hcnt. destruct (coord_inv_accounting _ (ho_inv n' Hh)) as (Hob & _).
  unfold in_flight_attempts in Hob. rewrite Ef, map_size_empty in *. split_and!.
  - unfold settled. rewrite Hcnt. done.
  - unfold coord_balanced, outstanding_budget in *. by rewrite Hob.
  - done.
  - intros a h cmd Hx. rewrite <- Ei in Hx. destruct (idle_done n' a h cmd Hc Hs' Hi Hx) as (_ & x & Hin & Ec & Eh).
    exists x. split_and!; [done..|]. intros y Hy Ey. apply (run_unique n'); [done..|]. rewrite Ec. apply (ho_issued n' Hh) in Hx as (Ea & _).
    cbn in Ea. congruence.
Qed.

Definition net_commanded : Network := act (Issue o_example INIT_ENGINE None) net_joined.
Definition drain_example : list action := [Send 0; Deliver 0 (fun _ => hook_example) (fun _ => clock0); Handle 0 clock0].

Lemma net_commanded_reach : network_reach quiet net_commanded.
Proof.
  repeat apply act_reach; try exact I; try happens; try apply hook_example_words.
  - apply rtc_refl.
  - reflexivity.
  - split_and!; [apply announces_example|apply w_new_words|apply w_new_cold].
  - apply (bool_decide_unpack _). vm_compute. exact I.
Qed.

Lemma idle_check n : sending n = [] -> bool_decide (map_Forall (fun _ L => quiet_link L = true) (links n)) = true -> idle n.
Proof.
  intros Es Hq%bool_decide_eq_true. split; [done|]. intros h L Hl. specialize (Hq h L Hl). unfold quiet_link in Hq.
  by destruct (down L), (up L), (replying L).
Qed.

Definition net_drained : Network := default net_commanded (performs drain_example net_commanded).
Lemma net_drained_eq : performs drain_example net_commanded = Some net_drained.
Proof.
  assert (bool_decide (is_Some (performs drain_example net_commanded)) = true) as H by (vm_compute; reflexivity).
  apply bool_decide_eq_true in H as [n' E]. unfold net_drained. by rewrite E.
Qed.

Lemma quiet_network_settles_witness : performs drain_example net_commanded = Some net_drained /\
  settled (hub net_commanded) = false /\ settled (hub net_drained) = true /\ length (log net_drained) = 1%nat.
Proof.
  destruct (quiet_network_settles net_commanded drain_example net_drained net_commanded_reach) as (_ & _ & _ & H).
  - change (map_Forall (fun _ L => phase L = Serving) (links net_commanded)). apply (bool_decide_unpack _). vm_compute. exact I.
  - apply Forall_cons. split; [done|]. apply Forall_cons. split; [split; [done|apply hook_example_words]|].
    by apply Forall_singleton.
  - exact net_drained_eq.
  - destruct H as (_ & Hs & _); [apply idle_check; vm_compute; reflexivity|].
    split; [exact net_drained_eq|]. split; [vm_compute; reflexivity|]. split; [exact Hs|vm_compute; reflexivity].
Defined.
