(* ===== verification/Service.v ===== *)
(** * The service that the network provides

    What a user of the coordinator has to know, without connections, frames,
    epochs, budgets or threads: a table of jobs, one per issued command, and the
    set of objects that may be executed.  A job is opened when it is submitted,
    may be executed, at most once, and may be closed, at most once, by being
    completed with what its execution answered or by being abandoned.  An object
    becomes executable only when a job for it is completed with success.

    [service_of] reads this state off a network; every step of the network is
    matched by the events that its action may cause. *)

From Stdlib Require Import ZArith Lia String.
From stdpp Require Import base list numbers strings gmap fin_maps sets relations.
From S2P Require Import Prelude Float64 Identity State Object Decay Budget Ledger Policy Scheduler Codec Protocol Wire Messages Worker Coordinator Authority System Network.
Local Open Scope Z_scope.
Local Open Scope warmth_scope.

(** ** The specification *)

(** A job: the connection and the command, what its execution answered, and
    whether the submitter still waits for it. *)
Record Job := mkJob { job_link : handle; job_cmd : WarmCmd; job_run : option WarmResult; job_open : bool }.
Record Service := mkService { jobs : gmap Z Job; hot : gset WarmthObjectId }.

Definition service_new : Service := mkService ∅ ∅.

Inductive event :=
  | Submit (a : Z) (h : handle) (cmd : WarmCmd)
  | Execute (a : Z) (r : WarmResult)
  | Complete (a : Z)
  | Abandon (A : gset Z)
  | Cool (H : gset WarmthObjectId).

Definition close (j : Job) : Job := mkJob (job_link j) (job_cmd j) (job_run j) false.
Definition executed (r : WarmResult) (j : Job) : Job := mkJob (job_link j) (job_cmd j) (Some r) (job_open j).
Definition lapse (A : gset Z) (m : gmap Z Job) : gmap Z Job :=
  map_imap (fun a j => Some (if decide (a ∈ A) then close j else j)) m.

(** What an event does, or [None] where it cannot happen. *)
Definition happen (e : event) (s : Service) : option Service :=
  match e with
  | Submit a h cmd =>
      if decide (jobs s !! a = None) then Some (mkService (<[a := mkJob h cmd None true]> (jobs s)) (hot s)) else None
  | Execute a r =>
      j ← jobs s !! a;
      match job_run j with
      | None => Some (mkService (<[a := executed r j]> (jobs s)) (hot s))
      | Some _ => None
      end
  | Complete a =>
      j ← jobs s !! a;
      match job_run j, job_open j with
      | Some r, true =>
          Some (mkService (<[a := close j]> (jobs s))
                 (if success r then {[ cmd_object (job_cmd j) ]} ∪ hot s else hot s))
      | _, _ => None
      end
  | Abandon A => Some (mkService (lapse A (jobs s)) (hot s))
  | Cool H => Some (mkService (jobs s) (hot s ∖ H))
  end.
Fixpoint happens_all (es : list event) (s : Service) : option Service :=
  match es with [] => Some s | e :: es => s ← happen e s; happens_all es s end.

Lemma happens_all_app es1 es2 s : happens_all (es1 ++ es2) s = (s' ← happens_all es1 s; happens_all es2 s').
Proof. revert s. induction es1 as [|e es1 IH]; intros s; [done|]. cbn. destruct (happen e s); [apply IH|done]. Qed.

(** A job's history only grows. *)
Definition later (j j' : Job) : Prop :=
  job_link j' = job_link j /\ job_cmd j' = job_cmd j /\ (forall r, job_run j = Some r -> job_run j' = Some r) /\
  (job_open j' = true -> job_open j = true).

#[export] Instance later_preorder : PreOrder later.
Proof.
  unfold later. split; [by intros j|]. intros x y z (A1 & A2 & A3 & A4) (B1 & B2 & B3 & B4).
  rewrite A1 in B1. rewrite A2 in B2. split; [done|]. split; [done|]. split; auto.
Qed.

Lemma lapse_lookup A m a : lapse A m !! a = (fun j => if decide (a ∈ A) then close j else j) <$> m !! a.
Proof. unfold lapse. rewrite map_lookup_imap. by destruct (m !! a). Qed.

Lemma happen_later e s s' a j : happen e s = Some s' -> jobs s !! a = Some j ->
  exists j', jobs s' !! a = Some j' /\ later j j'.
Proof.
  assert (exists j', Some j = Some j' /\ later j j') as Hsame by (by exists j).
  intros He Hj. destruct e as [b h cmd|b r|b|A|H]; cbn [happen] in He.
  - case_decide as Hb; [|done]. injection He as <-. cbn [jobs]. rewrite lookup_insert_ne by congruence. by rewrite Hj.
  - destruct (jobs s !! b) as [j0|] eqn:Hb; [|done]. cbn in He. destruct (job_run j0) eqn:Hr; [done|]. injection He as <-. cbn [jobs].
    destruct (decide (b = a)) as [->|Hne]; [|by rewrite lookup_insert_ne, Hj].
    rewrite lookup_insert_eq. rewrite Hb in Hj. injection Hj as <-. exists (executed r j0). split; [done|].
    split_and!; try done. intros r0. by rewrite Hr.
  - destruct (jobs s !! b) as [j0|] eqn:Hb; [|done]. cbn in He. destruct (job_run j0), (job_open j0); try done.
    injection He as <-. cbn [jobs]. destruct (decide (b = a)) as [->|Hne]; [|by rewrite lookup_insert_ne, Hj].
    rewrite lookup_insert_eq. rewrite Hb in Hj. injection Hj as <-. by exists (close j0).
  - injection He as <-. cbn [jobs]. rewrite lapse_lookup, Hj. cbn. case_decide; [by exists (close j)|done].
  - injection He as <-. cbn [jobs]. by rewrite Hj.
Qed.

Lemma happens_later es s s' a j : happens_all es s = Some s' -> jobs s !! a = Some j ->
  exists j', jobs s' !! a = Some j' /\ later j j'.
Proof.
  revert s j. induction es as [|e es IH]; intros s j; [intros [= <-]; by exists j|]. cbn.
  destruct (happen e s) as [s1|] eqn:He; [|done]. cbn. intros Hs Hj.
  destruct (happen_later e s s1 a j He Hj) as (j1 & Hj1 & L1). destruct (IH s1 j1 Hs Hj1) as (j2 & Hj2 & L2).
  exists j2. split; [done|]. by transitivity j1.
Qed.

(** The contract: an executable object has a closed job that was executed with
    success. *)
Definition earned_by (s : Service) (id : WarmthObjectId) : Prop :=
  exists a j r, jobs s !! a = Some j /\ cmd_object (job_cmd j) = id /\ job_run j = Some r /\ success r = true /\ job_open j = false.
Definition earned (s : Service) : Prop := forall id, id ∈ hot s -> earned_by s id.

Lemma happen_earned_by e s s' id : happen e s = Some s' -> earned_by s id -> earned_by s' id.
Proof.
  intros He (a & j & r & Ha & Ho & Hr & Hs & Hc). destruct (happen_later e s s' a j He Ha) as (j' & Ha' & _ & E2 & E3 & E4).
  exists a, j', r. split_and!; try done; [congruence|by apply E3|].
  destruct (job_open j') eqn:E; [|done]. rewrite E4 in Hc; done.
Qed.

(** Only a completion with success makes an object executable. *)
Lemma happen_hot e s s' id : happen e s = Some s' -> id ∈ hot s' ->
  id ∈ hot s \/ exists a j r, e = Complete a /\ jobs s !! a = Some j /\ cmd_object (job_cmd j) = id /\ job_run j = Some r /\
    success r = true /\ job_open j = true.
Proof.
  intros He Hid. destruct e as [b h cmd|b r|b|A|H]; cbn [happen] in He.
  - case_decide; [|done]. injection He as <-. by left.
  - destruct (jobs s !! b) as [j0|]; [|done]. cbn in He. destruct (job_run j0); [done|]. injection He as <-. by left.
  - destruct (jobs s !! b) as [j0|] eqn:Hb; [|done]. cbn in He. destruct (job_run j0) as [r|] eqn:Hr, (job_open j0) eqn:Ho; try done.
    injection He as <-. cbn [hot] in Hid. destruct (success r) eqn:Es; [|by left].
    apply elem_of_union in Hid as [E%elem_of_singleton|Hid]; [right|by left]. by exists b, j0, r.
  - injection He as <-. by left.
  - injection He as <-. left. by apply elem_of_difference in Hid as [? _].
Qed.

Lemma happen_earned e s s' : happen e s = Some s' -> earned s -> earned s'.
Proof.
  intros He Hs id Hid. destruct (happen_hot e s s' id He Hid) as [H|(a & j & r & -> & Ha & Ho & Hr & Hsu & Hop)].
  - by apply (happen_earned_by e s), Hs.
  - cbn [happen] in He. rewrite Ha in He. cbn in He. rewrite Hr, Hop, Hsu in He. injection He as <-.
    exists a, (close j), r. split_and!; try done. apply lookup_insert_eq.
Qed.

Lemma happens_earned es s s' : happens_all es s = Some s' -> earned s -> earned s'.
Proof.
  revert s. induction es as [|e es IH]; intros s; [by intros [= <-]|]. cbn.
  destruct (happen e s) as [s1|] eqn:He; [|done]. cbn. intros Hs Hok. by eapply IH, happen_earned.
Qed.

(** ** The network as a service *)

Definition answer_of (a : Z) (l : list Run) : option WarmResult :=
  run_result <$> List.find (fun x => cmd_attempt (run_of x) =? a) l.
Definition job_of (n : Network) (a : Z) (x : handle * WarmCmd) : Job :=
  mkJob x.1 x.2 (answer_of a (log n)) (bool_decide (is_Some (in_flight_ (hub n) !! a))).
Definition hot_objects (c : Coordinator) : gset WarmthObjectId :=
  dom (filter (fun kv : WarmthObjectId * WarmthObject => execution_ready kv.2 = true) (objects_ c)).
Definition service_of (n : Network) : Service :=
  mkService (map_imap (fun a x => Some (job_of n a x)) (issued n)) (hot_objects (hub n)).

(** The events that an action of the network may cause. *)
Definition may (x : action) (e : event) : Prop :=
  match x, e with
  | Issue object act _, Submit a _ cmd => cmd = mkCmd object (enum_code act) a
  | Deliver h _ _, Execute _ _ => True
  | Handle _ _, Complete _ | Handle _ _, Cool _ | Leave _ _, Cool _ => True
  | SendFails _, Abandon A => (size A <= 1)%nat
  | Roll, Abandon _ | Roll, Cool _ => True
  | _, _ => False
  end.

Lemma hot_ready id c : id ∈ hot_objects c <-> ready_at id c.
Proof.
  unfold hot_objects, ready_at, find_object. rewrite elem_of_dom. split.
  - intros [o [Ho Hr]%map_lookup_filter_Some]. by exists o.
  - intros (o & Ho & Hr). exists o. by apply map_lookup_filter_Some.
Qed.

Lemma job_lookup n a : jobs (service_of n) !! a = job_of n a <$> issued n !! a.
Proof. cbn [service_of jobs]. rewrite map_lookup_imap. by destruct (issued n !! a). Qed.

Lemma service_eq s s' : (forall a, jobs s !! a = jobs s' !! a) -> (forall id, id ∈ hot s <-> id ∈ hot s') -> s = s'.
Proof. destruct s, s'. cbn. intros H1 H2. f_equal; [by apply map_eq|by apply set_eq]. Qed.

Lemma answer_run n x : honest n -> x ∈ log n -> answer_of (cmd_attempt (run_of x)) (log n) = Some (run_result x).
Proof.
  intros Hn Hx. unfold answer_of. destruct (List.find _ _) as [y|] eqn:Hf.
  - apply List.find_some in Hf as [Hy E%Z.eqb_eq]. apply list_elem_of_In in Hy. by rewrite (run_unique n y x).
  - apply list_elem_of_In in Hx. by pose proof (proj1 (Z.eqb_neq _ _) (List.find_none _ _ Hf x Hx)).
Qed.

Lemma answer_none a l : a ∉ map (fun x => cmd_attempt (run_of x)) l -> answer_of a l = None.
Proof.
  intros Hn. unfold answer_of. destruct (List.find _ _) as [y|] eqn:Hf; [|done]. destruct Hn.
  apply List.find_some in Hf as [Hy E%Z.eqb_eq]. apply list_elem_of_fmap. exists y. split; [done|by apply list_elem_of_In].
Qed.

Lemma answer_snoc a l x :
  answer_of a (l ++ [x]) = match answer_of a l with
                           | Some r => Some r
                           | None => if decide (a = cmd_attempt (run_of x)) then Some (run_result x) else None
                           end.
Proof.
  unfold answer_of. induction l as [|y l IH]; cbn [app List.find].
  - case_decide as E; [by rewrite (proj2 (Z.eqb_eq _ _) (eq_sym E))|]. by rewrite (proj2 (Z.eqb_neq _ _)).
  - by destruct (_ =? a).
Qed.

(** *** What each kind of step does *)

(** The events of a step: allowed by its action, and leading from the one
    service to the other. *)
Definition matched (x : action) (n n' : Network) : Prop :=
  exists es, Forall (may x) es /\ happens_all es (service_of n) = Some (service_of n').

Lemma same_jobs n n' : issued n' = issued n -> log n' = log n -> in_flight_ (hub n') = in_flight_ (hub n) ->
  jobs (service_of n') = jobs (service_of n).
Proof. intros E1 E2 E3. apply map_eq. intros a. rewrite !job_lookup. unfold job_of. by rewrite E1, E2, E3. Qed.

Lemma same_service n n' x : issued n' = issued n -> log n' = log n -> in_flight_ (hub n') = in_flight_ (hub n) ->
  objects_ (hub n') = objects_ (hub n) -> matched x n n'.
Proof.
  intros E1 E2 E3 E4. exists []. split; [done|]. cbn. f_equal. apply service_eq.
  - intros a. by rewrite (same_jobs n n').
  - intros id. cbn. unfold hot_objects. by rewrite E4.
Qed.

Definition lost (c c' : Coordinator) : gset WarmthObjectId := hot_objects c ∖ hot_objects c'.

Lemma cools m n n' x : (forall id, ready_at id (hub n') -> ready_at id (hub n)) -> jobs (service_of n') = m ->
  happen (Cool (lost (hub n) (hub n'))) (mkService m (hot_objects (hub n))) = Some (service_of n') /\
  (may x (Cool ∅) -> may x (Cool (lost (hub n) (hub n')))).
Proof.
  intros Hr E. split; [|by destruct x]. cbn [happen jobs hot]. f_equal. apply service_eq; cbn [jobs hot]; [by rewrite E|].
  intros id. unfold lost. cbn [service_of hot]. rewrite !elem_of_difference, !hot_ready. split.
  - intros [H1 H2]. destruct (decide (id ∈ hot_objects (hub n'))) as [H|H]; [by apply hot_ready|].
    destruct H2. by rewrite hot_ready in H.
  - intros H. split; [by apply Hr|]. tauto.
Qed.

(** Objects lose what made them executable, and the attempts are kept. *)
Lemma step_cools n n' x : may x (Cool ∅) -> issued n' = issued n -> log n' = log n ->
  in_flight_ (hub n') = in_flight_ (hub n) -> (forall id, ready_at id (hub n') -> ready_at id (hub n)) -> matched x n n'.
Proof.
  intros Hm E1 E2 E3 Hr. destruct (cools (jobs (service_of n)) n n' x Hr (same_jobs n n' E1 E2 E3)) as [Hc Hx].
  exists [Cool (lost (hub n) (hub n'))]. split; [by apply Forall_singleton, Hx|]. cbn [happens_all].
  change (service_of n) with (mkService (jobs (service_of n)) (hot_objects (hub n))). by rewrite Hc.
Qed.

Definition flying (c : Coordinator) : gset Z := dom (in_flight_ c).

Lemma lapse_jobs A n n' : issued n' = issued n -> log n' = log n ->
  (forall a, in_flight_ (hub n') !! a = if decide (a ∈ A) then None else in_flight_ (hub n) !! a) ->
  lapse A (jobs (service_of n)) = jobs (service_of n').
Proof.
  intros E1 E2 E3. apply map_eq. intros a. rewrite lapse_lookup, !job_lookup. unfold job_of. rewrite E1, E2, E3.
  destruct (issued n !! a) as [y|]; [|done]. cbn. by case_decide.
Qed.

Lemma issue_matched object act preferred n n' : honest n -> coord_room (hub n) ->
  issue object act preferred n = Some n' -> matched (Issue object act preferred) n n'.
Proof.
  intros Hn Hroom. unfold issue. destruct (pick_worker preferred (hub n)) as [h|] eqn:Hp.
  2: { unfold issue_begin. rewrite Hp. intros [= <-]. by apply same_service. }
  assert (registered (default conn_new (conns (hub n) !! h)) = true) as Hreg.
  { destruct (pick_worker_in _ _ _ Hp) as [w Hw]. by apply (ho_table n Hn w). }
  destruct (issue_begin_admits object act preferred h (hub n) (ho_inv n Hn) Hroom Hp Hreg) as (b & i & Ho & _ & E & Hnone & _).
  rewrite E. intros [= <-]. set (a := attempt_counter_ (hub n)) in *. set (cmd := mkCmd object _ a).
  assert (issued n !! a = None) as Hnew.
  { destruct (issued n !! a) as [y|] eqn:Hy; [|done]. apply (ho_issued n Hn) in Hy as (_ & Hy & _). unfold a in Hy. lia. }
  exists [Submit a h cmd]. split; [by apply Forall_singleton|]. cbn [happens_all happen].
  rewrite decide_True by (rewrite job_lookup, Hnew; done). cbn. f_equal. apply service_eq; [|done].
  intros k. cbn [jobs]. rewrite job_lookup. cbn [issued]. destruct (decide (a = k)) as [<-|Hne].
  - rewrite !lookup_insert_eq. cbn. unfold job_of. cbn [fst snd hub log in_flight_ set_flight set_attempts]. f_equal. f_equal.
    + symmetry. apply answer_none. intros (y & Ey & Hy)%list_elem_of_fmap. pose proof (ho_log n Hn) as Hl.
      rewrite Forall_forall in Hl. destruct (Hl y Hy) as [Hi _]. congruence.
    + symmetry. apply bool_decide_eq_true_2. by rewrite lookup_insert_eq.
  - rewrite !lookup_insert_ne by done. transitivity (jobs (service_of n) !! k); [done|].
    rewrite job_lookup. unfold job_of. cbn [hub log in_flight_ set_flight set_attempts]. by rewrite lookup_insert_ne.
Qed.

Lemma fails_matched k n n' : honest n -> send_fails k n = Some n' -> matched (SendFails k) n n'.
Proof.
  intros Hn. unfold send_fails. destruct (sending n !! k) as [s|]; [|done]. cbn. intros [= <-].
  exists [Abandon {[ send_attempt s ]}]. split; [apply Forall_singleton; cbn; by rewrite size_singleton|].
  set (n' := mkNetwork _ _ _ _ _). assert (lapse {[ send_attempt s ]} (jobs (service_of n)) = jobs (service_of n')) as El.
  { apply lapse_jobs; [done..|]. intros a. cbn [n' hub]. unfold issue_failed.
    destruct (in_flight_ (hub n) !! send_attempt s) as [i|] eqn:Hi.
    - cbn [settle set_flight in_flight_]. case_decide as Ha; [apply elem_of_singleton in Ha as ->; apply lookup_delete_eq|].
      rewrite lookup_delete_ne; [done|]. set_solver.
    - case_decide as Ha; [by apply elem_of_singleton in Ha as ->|done]. }
  cbn [happens_all happen mbind option_bind]. rewrite El. f_equal. apply service_eq; [done|].
  intros id. cbn [hot service_of n' hub]. unfold hot_objects. by rewrite issue_failed_objects.
Qed.

Lemma roll_matched n : matched Roll n (set_hub (roll_epoch (hub n)) n).
Proof.
  set (n' := set_hub _ n). assert (lapse (flying (hub n)) (jobs (service_of n)) = jobs (service_of n')) as El.
  { apply lapse_jobs; [done..|]. intros a. cbn. rewrite lookup_empty. case_decide as Ha; [done|].
    unfold flying in Ha. by rewrite not_elem_of_dom in Ha. }
  destruct (cools _ n n' Roll (fun id H => False_ind _ (roll_promotes (hub n) id H)) eq_refl) as [Hc _].
  exists [Abandon (flying (hub n)); Cool (lost (hub n) (hub n'))]. split; [by repeat constructor|].
  cbn [happens_all]. cbn [happen mbind option_bind]. cbn [happen jobs hot] in Hc. rewrite El. exact Hc.
Qed.

(** A process runs the command of a frame, which nobody ran before. *)
Lemma deliver_matched h hook clock n n' : honest n -> hook_words hook ->
  deliver h hook clock n = Some n' -> matched (Deliver h hook clock) n n'.
Proof.
  intros Hn Hh. unfold deliver. destruct (links n !! h) as [L|] eqn:Hl; [|done]. cbn [mbind option_bind].
  pose proof (ho_link n Hn h L Hl) as HL. destruct (down L) as [|f rest] eqn:Hd; [done|].
  destruct (proc L) as [w|] eqn:Hp; [|intros [= <-]; by apply same_service].
  destruct (phase L); [|clear Hp|intros [= <-]; by apply same_service].
  { destruct (adopt f w) as [ok w']. intros [= <-]. by apply same_service. }
  pose proof (lh_down n h L HL) as Hf. rewrite Hd in Hf. apply Forall_cons in Hf as [Hf _].
  destruct (Worker.handle_frame f hook clock w) as [fs w'] eqn:Ew. intros [= <-]. set (n' := mkNetwork _ _ _ _ _).
  destruct (downward_cmds h n f Hf) as [E|(cmd & E & Hi & _)].
  { apply same_service; try done. cbn [n' log]. unfold ran. by rewrite E, app_nil_r. }
  set (r := (run_cmd cmd (hook 0%nat) (clock 0%nat) w).1).
  assert (ran h f hook clock w = [mkRun h cmd r]) as Er by (unfold ran; by rewrite E, run_one).
  assert (answer_of (cmd_attempt cmd) (log n) = None) as Hnone.
  { apply answer_none. destruct (lh_apart n h L HL (cmd_attempt cmd)) as [_ H]; [|exact H].
    unfold attempts_down. rewrite Hd. cbn [map concat]. rewrite E. left. }
  exists [Execute (cmd_attempt cmd) r]. split; [by apply Forall_singleton|]. cbn [happens_all happen].
  rewrite job_lookup, Hi. cbn [fmap option_fmap option_map mbind option_bind]. unfold job_of at 1. cbn [job_run]. rewrite Hnone.
  cbn [mbind option_bind]. f_equal. apply service_eq; [|done]. intros a. cbn [jobs]. rewrite (job_lookup n'). cbn [n' issued].
  destruct (decide (cmd_attempt cmd = a)) as [<-|Hne].
  - rewrite lookup_insert_eq, Hi. cbn [fmap option_fmap option_map]. unfold job_of, executed. cbn [n' hub log]. f_equal. f_equal.
    rewrite Er, answer_snoc, Hnone. cbn [run_of]. by rewrite decide_True.
  - rewrite lookup_insert_ne by done. transitivity (jobs (service_of n) !! a); [done|]. rewrite job_lookup.
    destruct (issued n !! a) as [y|]; [|done]. cbn. unfold job_of. cbn [n' hub log]. f_equal. f_equal.
    rewrite Er, answer_snoc. cbn [run_of]. rewrite decide_False by done. by destruct (answer_of a (log n)).
Qed.

(** A frame either completes an attempt with the answer of its run, or settles
    nothing and makes nothing executable. *)
Lemma handle_cases h f clock n L rest : honest n -> truthful n -> links n !! h = Some L -> up L = f :: rest ->
  let c' := (handle_frame h f clock (hub n)).2 in
  (in_flight_ c' = in_flight_ (hub n) /\ forall id, ready_at id c' -> ready_at id (hub n)) \/
  exists x i, x ∈ log n /\ let a := cmd_attempt (run_of x) in
    issued n !! a = Some (h, run_of x) /\ in_flight_ (hub n) !! a = Some i /\ in_flight_ c' = delete a (in_flight_ (hub n)) /\
    (success (run_result x) = true -> ready_at (cmd_object (run_of x)) c') /\
    forall id, ready_at id c' -> ready_at id (hub n) \/ (success (run_result x) = true /\ id = cmd_object (run_of x)).
Proof.
  intros Hn Ht Hl Hu. cbn zeta. destruct (tr_link n Ht h L Hl) as (w & Hp & _ & Hup).
  assert (f ∈ up L) as Hin by (rewrite Hu; left). specialize (Hup f Hin). rewrite Forall_forall in Hup.
  assert ((exists r t, type f = WARM_RESULT /\ decode_warm_result (payload f) = Ok (r, t) /\ accepts h r (hub n)) \/
    flight (handle_frame h f clock (hub n)).2 = flight (hub n) /\ ~ exists r t, type f = WARM_RESULT /\
      decode_warm_result (payload f) = Ok (r, t) /\ accepts h r (hub n)) as [(r & t & Hty & Hd & Ha)|[Hfl Hno]].
  { destruct (decide (type f = WARM_RESULT)) as [Hty|Hty].
    - unfold handle_frame. rewrite Hty. destruct (decode_warm_result (payload f)) as [[r t]|] eqn:Hd; [|right; split; [done|]].
      + destruct (decide (accepts h r (hub n))) as [Ha|Ha]; [left; by exists r, t|right].
        rewrite handle_result_refused by done. split; [done|]. intros (? & ? & _ & [= <- <-] & ?). done.
      + by intros (? & ? & _ & ? & _).
    - right. split; [|by intros (? & ? & ? & _)]. unfold handle_frame. destruct (type f); try done.
      + destruct (decode_hello _) as [[m ?]|]; [apply handle_hello_flight|done].
      + destruct (decode_report _) as [[m ?]|]; [apply handle_report_flight|done]. }
  - right. destruct (result_has_run n h L f r t Hn Hl) as (x & Hx & (Hi & _ & Ea & Eo) & <- & ->); try done.
    pose proof Ha as (_ & i & Hfl & _ & Eat). exists x, i. split; [done|].
    pose proof (frame_promotes (run_link x) f clock (hub n)) as Hpr.
    pose proof (accepted_result (hub n) (run_link x) (run_result x) clock (ho_inv n Hn) Ha) as Hacc. cbn zeta in Hacc.
    unfold handle_frame in Hpr |- *. rewrite Hty, Hd in Hpr |- *. rewrite Ea, Eo in *.
    destruct (handle_warm_result _ _ _ _) as [rep c']. cbn [snd] in *. destruct Hacc as (_ & Hf' & _ & _ & Hs & _).
    split_and!; try done.
    + intros Es. destruct (Hs Es) as (o & Ho & Hr & _). by exists o.
    + intros id Hid. destruct (Hpr id Hid) as [?|[(_ & r' & t' & E & _ & Es & Ho)|(_ & o & Ho & _ & Hhot)]]; [by left| |].
      * injection E as <- _. right. by rewrite Eo in Ho.
      * specialize (Hup o Ho). congruence.
  - left. unfold flight in Hfl. injection Hfl as _ E _ _. split; [done|]. intros id Hid.
    destruct (frame_promotes _ _ _ _ _ Hid) as [?|[(Hty & r & t & Hd & Ha & _)|(_ & o & Ho & _ & Hhot)]]; [done| |].
    + destruct Hno. by exists r, t.
    + specialize (Hup o Ho). congruence.
Qed.

Lemma handle_matched h clock n n' : honest n -> truthful n -> handle_next h clock n = Some n' -> matched (Handle h clock) n n'.
Proof.
  intros Hn Ht. unfold handle_next. destruct (links n !! h) as [L|] eqn:Hl; [|done]. cbn [mbind option_bind].
  destruct (up L) as [|f rest] eqn:Hu; [done|]. destruct (replying L); [|done].
  pose proof (handle_cases h f clock n L rest Hn Ht Hl Hu) as H. cbn zeta in H. destruct (handle_frame h f clock (hub n)) as [rep c].
  cbn [snd] in H. intros [= <-]. set (n' := set_link _ _ _).
  destruct H as [[Ef Hr]|(x & i & Hx & Hi & Hf & Ef & Hs & Hr)]; [by apply step_cools|].
  set (a := cmd_attempt (run_of x)) in *. set (j := mkJob h (run_of x) (Some (run_result x)) true).
  assert (jobs (service_of n) !! a = Some j) as Hj.
  { rewrite job_lookup, Hi. cbn. unfold job_of, j, a. rewrite answer_run by done. cbn [fst snd]. do 2 f_equal.
    apply bool_decide_eq_true_2. fold a. by rewrite Hf. }
  assert (jobs (service_of n') = <[a := close j]> (jobs (service_of n))) as Ej.
  { apply map_eq. intros k. rewrite job_lookup. cbn [n' issued set_link set_hub]. destruct (decide (a = k)) as [<-|Hne].
    - rewrite lookup_insert_eq, Hi. cbn. unfold job_of, close, j, a. cbn [n' log set_link set_hub]. rewrite answer_run by done.
      cbn [n' hub set_link set_hub fst snd job_link job_cmd job_run]. do 2 f_equal. apply bool_decide_eq_false_2. rewrite Ef, lookup_delete_eq. by intros [? ?].
    - rewrite lookup_insert_ne by done. rewrite job_lookup. unfold job_of. cbn [n' log hub set_link set_hub]. rewrite Ef, lookup_delete_ne by done. done. }
  set (hot1 := if success (run_result x) then {[ cmd_object (run_of x) ]} ∪ hot_objects (hub n) else hot_objects (hub n)).
  exists [Complete a; Cool (hot1 ∖ hot_objects c)]. split; [by repeat constructor|]. cbn [happens_all happen]. rewrite Hj.
  cbn [mbind option_bind j job_run job_open job_cmd jobs hot]. f_equal. apply service_eq; [by rewrite Ej|].
  intros id. cbn [hot service_of n' set_link set_hub hub]. fold hot1.
  assert (id ∈ hot_objects c -> id ∈ hot1) as Hsub.
  { rewrite hot_ready. intros [H|[E ->]]%Hr; unfold hot1; [|rewrite E; set_solver].
    apply hot_ready in H. destruct (success _); [set_solver|done]. }
  change (hot (service_of n)) with (hot_objects (hub n)). rewrite !elem_of_difference.
  destruct (decide (id ∈ hot_objects c)); tauto.
Qed.

Lemma leave_matched h clock n n' : leave_link h clock n = Some n' -> matched (Leave h clock) n n'.
Proof.
  unfold leave_link. destruct (links n !! h) as [L|]; [|done]. cbn [mbind option_bind].
  destruct (broken L), (up L), (replying L); try done. intros [= <-].
  pose proof (on_disconnect_flight h clock (hub n)) as E. unfold flight in E. injection E as _ E _ _.
  apply step_cools; try done. intros id. apply disconnect_promotes.
Qed.

Lemma step_matched a n n' : honest n -> truthful n -> no_stranger a -> permitted a n -> perform a n = Some n' -> matched a n n'.
Proof.
  intros Hn Ht Hno Hp. destruct a; cbn [perform permitted no_stranger] in *; try done.
  - unfold join_link. destruct (links n !! h), (conns (hub n) !! h); try done. intros [= <-]. by apply same_service.
  - unfold inject. destruct (links n !! h) as [L|]; [|done]. cbn [mbind option_bind]. destruct (proc L), (broken L); try done.
    intros [= <-]. by apply same_service.
  - by apply handle_matched.
  - unfold send_reply. destruct (links n !! h) as [L|]; [|done]. cbn [mbind option_bind]. destruct (replying L); [done|].
    intros [= <-]. by apply same_service.
  - destruct Hp. by apply issue_matched.
  - unfold send_command. destruct (sending n !! k) as [s|]; [|done]. cbn [mbind option_bind].
    destruct (links n !! send_link s); [|done]. intros [= <-]. by apply same_service.
  - by apply fails_matched.
  - by apply deliver_matched.
  - unfold quit. destruct (links n !! h) as [L|]; [|done]. cbn [mbind option_bind]. destruct (proc L), (phase L); try done.
    intros [= <-]. by apply same_service.
  - unfold break_link. destruct (links n !! h) as [L|]; [|done]. cbn [mbind option_bind]. intros [= <-]. by apply same_service.
  - apply leave_matched.
  - intros [= <-]. apply roll_matched.
  - intros [= <-]. by apply same_service.
  - intros [= <-]. by apply same_service.
Qed.

(** ** The refinement *)

(** Actions that happen one after the other, without strangers. *)
Fixpoint follows (l : list action) (n n' : Network) : Prop :=
  match l with
  | [] => n' = n
  | a :: l => no_stranger a /\ permitted a n /\ exists n1, perform a n = Some n1 /\ follows l n1 n'
  end.

Lemma follows_reach l n n' : network_reach no_stranger n -> follows l n n' -> network_reach no_stranger n'.
Proof.
  revert n. induction l as [|a l IH]; intros n Hn; cbn; [by intros ->|]. intros (Ha & Hp & n1 & E & Hl).
  apply (IH n1); [|done]. eapply rtc_r; [exact Hn|]. by exists a.
Qed.

Lemma service_of_new : service_of network_new = service_new.
Proof. apply service_eq; [|done]. intros a. rewrite job_lookup. by cbn. Qed.

Lemma follows_matched l n n' : network_reach no_stranger n -> follows l n n' ->
  exists ess, Forall2 (fun x es => Forall (may x) es) l ess /\ happens_all (concat ess) (service_of n) = Some (service_of n').
Proof.
  revert n. induction l as [|a l IH]; intros n Hn; cbn [follows]; [intros ->; by exists []|]. intros (Ha & Hp & n1 & E & Hl).
  destruct (network_reach_truthful n Hn) as [Hh Ht]. destruct (step_matched a n n1 Hh Ht Ha Hp E) as (es & Hm & Hs).
  destruct (IH n1) as (ess & Hms & Hss); [eapply rtc_r; [exact Hn|]; by exists a|done|].
  exists (es :: ess). split; [by constructor|]. cbn [concat]. by rewrite happens_all_app, Hs.
Qed.

Lemma reach_earned n : network_reach no_stranger n -> earned (service_of n).
Proof.
  intros Hn. apply (rtc_ind_r (R := network_step no_stranger)
    (fun z => network_reach no_stranger z /\ earned (service_of z)) network_new); [| |exact Hn].
  - split; [apply rtc_refl|by intros id ?%not_elem_of_empty].
  - intros y z _ (a & Hno & Hp & E) [Hy Hok]. split; [eapply rtc_r; [exact Hy|]; by exists a|].
    destruct (network_reach_truthful y Hy) as [Hh Ht]. destruct (step_matched a y z Hh Ht Hno Hp E) as (es & _ & Hs).
    by eapply happens_earned.
Qed.

(** C2: The network refines the service.  Whatever the coordinator, the workers, the
    callers and the connections do, in whatever order, from a reachable state
    on: read through [service_of], it is a run of the service, in which each
    action causes only the events that belong to it.  Jobs are submitted by
    [issue_warm] alone and under fresh ids, executed by workers at most once,
    completed by the coordinator's handling of a frame, at most once, with what
    their execution answered, and abandoned by an epoch roll or a failed send;
    and nothing but a completion with success makes an object executable. *)
Theorem network_refines_service (n : Network) (l : list action) (n' : Network) :
  network_reach no_stranger n -> follows l n n' ->
  exists ess, Forall2 (fun x es => Forall (may x) es) l ess /\
    happens_all (concat ess) (service_of n) = Some (service_of n').
Proof. apply follows_matched. Qed.

(** C3: What a user may rely on in a network whose peers are all workers
    ([no_stranger]).  A job that was ever submitted stays, for the same
    connection and command; an answer once made is never replaced and an attempt
    once closed is never opened again; and an object that may be executed has
    a closed job for it that was executed with success.  (The last fails with
    another peer: an object that it announces as HOT is executable with no job.) *)
Theorem service_contract (n : Network) (l : list action) (n' : Network) :
  network_reach no_stranger n -> follows l n n' ->
  earned (service_of n') /\
  forall a j, jobs (service_of n) !! a = Some j -> exists j', jobs (service_of n') !! a = Some j' /\ later j j'.
Proof.
  intros Hn Hl. split; [by eapply reach_earned, follows_reach|].
  destruct (follows_matched l n n' Hn Hl) as (ess & _ & Hs). intros a j. by apply (happens_later (concat ess)).
Qed.

(** A command issued, run and completed, and the epoch rolled. *)
Definition service_actions : list action :=
  [Issue o_example INIT_ENGINE None; Send 0; Deliver 0 (fun _ => hook_example) (fun _ => clock0); Handle 0 clock0; Roll].

Lemma net_joined_reach : network_reach no_stranger net_joined.
Proof.
  repeat apply act_reach; try exact I; try happens; try apply hook_example_words.
  - apply rtc_refl.
  - split_and!; [apply announces_example|apply w_new_words|apply w_new_cold].
Qed.

Lemma follows_act a l n n' : no_stranger a -> permitted a n -> is_Some (perform a n) -> follows l (act a n) n' -> follows (a :: l) n n'.
Proof. intros Ha Hp [n1 E] Hl. split_and!; [done..|]. exists n1. split; [done|]. unfold act in Hl. by rewrite E in Hl. Qed.

Definition net_rolled : Network := act Roll (act (Handle 0 clock0) (act (Deliver 0 (fun _ => hook_example) (fun _ => clock0))
  (act (Send 0) (act (Issue o_example INIT_ENGINE None) net_joined)))).

Lemma service_actions_follow : follows service_actions net_joined net_rolled.
Proof.
  repeat apply follows_act; try exact I; try happens; try apply hook_example_words; [|done].
  apply (bool_decide_unpack _). vm_compute. exact I.
Qed.

Lemma network_refines_service_witness :
  (exists es, happens_all es (service_of net_joined) = Some (service_of net_rolled)) /\
  jobs (service_of net_joined) = ∅ /\ job_open <$> jobs (service_of net_rolled) !! 1 = Some false.
Proof.
  split.
  - destruct (network_refines_service _ _ _ net_joined_reach service_actions_follow) as (ess & _ & Hs). by exists (concat ess).
  - split; vm_compute; reflexivity.
Defined.

Lemma service_contract_witness : earned (service_of net_warmed) /\ hot (service_of net_warmed) = {[ o_example ]}.
Proof.
  split; [|vm_compute; reflexivity].
  exact (proj1 (service_contract net_warmed [] net_warmed (proj2 net_warmed_reach) eq_refl)).
Defined.
