(* ===== verification/Console.v ===== *)
(** * The console programs run on

    A command of the tool is a program over a state (for most of them the
    console: what was printed, the disk, the frames sent) that ends with a
    value, blocks for ever, is aborted or runs into undefined behaviour.  Also
    here: what printf does with its arguments, and the program arguments. *)

From Stdlib Require Import ZArith Lia Ascii String.
From stdpp Require Import base list numbers strings gmap fin_maps.
From S2P Require Import Prelude Float64 Number Json Identity Protocol Worker Explanation Fabric Storage.
Local Open Scope Z_scope.
Local Open Scope warmth_scope.

(** ** Programs *)

Record Console := mkConsole { stdout : string; stderr : string; disk : Disk; sent : list Frame }.

(** The ways a program on a state [S] can end.  [Aborts] is [std::terminate]. *)
Inductive outcome (S A : Type) := Done (a : A) (s : S) | Blocks (s : S) | Aborts (s : S) | Undefined.
Arguments Done {S A} _ _.
Arguments Blocks {S A} _.
Arguments Aborts {S A} _.
Arguments Undefined {S A}.

Definition program (S A : Type) : Type := S -> outcome S A.
Definition cli_ret {S A} (a : A) : program S A := fun s => Done a s.
Definition cli_bind {S A B} (m : program S A) (k : A -> program S B) : program S B := fun s =>
  match m s with Done a s => k a s | Blocks s => Blocks s | Aborts s => Aborts s | Undefined => Undefined end.
Definition blocks {S A} : program S A := fun s => Blocks s.
Definition undefined {S A} : program S A := fun _ => Undefined.
Declare Scope cli_scope.
Notation "x <- m ;; k" := (cli_bind m (fun x => k)) (at level 100, m at next level, right associativity) : cli_scope.
Local Open Scope cli_scope.

Abbreviation cli := (program Console).

Definition print (s : string) : cli unit := fun c => Done tt (mkConsole (stdout c +:+ s) (stderr c) (disk c) (sent c)).
Definition eprint (s : string) : cli unit := fun c => Done tt (mkConsole (stdout c) (stderr c +:+ s) (disk c) (sent c)).
Definition emit (fs : list Frame) : cli unit := fun c => Done tt (mkConsole (stdout c) (stderr c) (disk c) (sent c ++ fs)).
Definition get_disk : cli Disk := fun c => Done (disk c) c.
Definition put_disk (d : Disk) : cli unit := fun c => Done tt (mkConsole (stdout c) (stderr c) d (sent c)).
(** An error message and the exit code. *)
Definition die (msg : string) : cli Z := _ <- eprint (msg +:+ newline) ;; cli_ret 1.

(** A method that takes the mutex of a fabric no other thread knows. *)
Definition call_locked {A} (m : locked A) (f : WarmthFabric) : cli A :=
  match m false f with Some (a, _) => cli_ret a | None => blocks end.
(** [operator->] of an optional. *)
Definition deref {S A} (o : option A) : program S A := match o with Some a => cli_ret a | None => undefined end.

(** *** What printf does with its arguments *)

(** ["%s"] of [c_str()]: up to the first NUL. *)
Fixpoint c_str (s : string) : string :=
  match s with
  | EmptyString => ""
  | String a s => if decide (a = Ascii.zero) then "" else String a (c_str s)
  end.
(** ["%-<n>s"]. *)
Definition pad_right (n : nat) (s : string) : string := s +:+ spaces (n - String.length s).
(** ["%g"]. *)
Definition g6 : double -> string := g_format 6.
Definition yes_no (b : bool) : string := if b then "yes" else "no".

(** [std::atoi]; [None] where the value is not representable. *)
Fixpoint skip_space (s : string) : string :=
  match s with
  | EmptyString => ""
  | String a s' => let n := byte_of_ascii a in if ((9 <=? n) && (n <=? 13)) || (n =? 32) then skip_space s' else s
  end.
Definition atoi (s : string) : option Z :=
  let s := skip_space s in
  let neg := bool_decide (peek s = "-"%char) in
  let s := if neg || bool_decide (peek s = "+"%char) then skip1 s else s in
  let v := dec_value 0 (span_digits s).1 in
  let v := if neg then - v else v in
  if (- 2 ^ 31 <=? v) && (v <? 2 ^ 31) then Some v else None.

(** *** Arguments *)
Fixpoint getarg (a : list string) (key def : string) : string :=
  match a with
  | x :: (y :: _) as a' => if decide (x = key) then y else getarg a' key def
  | _ => def
  end.
Definition hasarg (a : list string) (key : string) : bool := existsb (fun s => bool_decide (s = key)) a.

(** What a worker process makes of its arguments. *)
Definition worker_config (a : list string) : Worker.Config :=
  mkWorkerConfig
    (default (derive "worker") (from_string (getarg a "--worker-id" "")))
    (default (derive "boot") (from_string (getarg a "--boot" "")))
    (derive (getarg a "--node" "node")) (derive (getarg a "--workload" "workload"))
    "cuda" ["cuda:0"] [0; 1; 2; 3; 4; 5; 6; 7; 8; 9; 10; 11; 12; 13].
