(* ===== verification/Multiprocess.v ===== *)
(** * tools/warmth_cli.cpp: the multiprocess restart proof (Windows)

    [run_multiprocess] starts a coordinator and two worker processes, warms an
    object, kills a worker and rolls the epoch, lets the worker come back with a
    new boot, tries the old authority, and warms again.  It is a program over
    the console and the network of [Network]: what the main thread does itself
    are steps of that network, and between any two of them the other threads and
    processes take whatever steps the environment gives.  Windows answers
    (whether processes start, connections open, sends succeed) are arguments.

    Every failing return comes after [accept_thread] was started and before it
    is joined, so the destructor of the thread calls [std::terminate]. *)

From Stdlib Require Import ZArith Lia Ascii String.
From stdpp Require Import base list numbers strings gmap fin_maps sets relations sorting.
From S2P Require Import Prelude Float64 Number Identity State Object Decay Budget Ledger Policy Scheduler Explanation Codec Protocol Wire Messages Worker.
From S2P Require Import Coordinator Authority System Network Console.
From S2P Require Storage.
Local Open Scope Z_scope.
Local Open Scope warmth_scope.
Local Open Scope cli_scope.

(** What Windows and the rest of the world do.  The numbers count the turns of
    the main thread; [others] is what everybody else does before a turn. *)
Record Windows := mkWindows {
  exe_path : string;                     (* GetModuleFileNameW *)
  listens : option Z;                    (* Coordinator::start: the port *)
  creates : nat -> string -> bool;       (* CreateProcessW *)
  sends : nat -> bool;                   (* whether a send of issue_warm succeeds *)
  dials : nat -> bool;                   (* net::connect *)
  kept : handle -> nat;                  (* frames still readable from a killed process *)
  others : nat -> list action;
  horizon : nat;                         (* turns after which a wait counts as endless *)
  exit_status : string -> option (option Z)  (* of a program that starts: its exit code, if it ever ends *) }.

Record World := mkWorld { con : Console; net : Network; turn : nat }.
Abbreviation mp := (program World).

Definition on_console {A} (m : cli A) : mp A := fun s =>
  match m (con s) with
  | Done a c => Done a (mkWorld c (net s) (turn s))
  | Blocks c => Blocks (mkWorld c (net s) (turn s))
  | Aborts c => Aborts (mkWorld c (net s) (turn s))
  | Undefined => Undefined
  end.
Definition say (text : string) : mp unit := on_console (print (text +:+ newline)).
(** [return] of an error while [accept_thread] is joinable. *)
Definition abandon {A} (msg : string) : mp A := _ <- on_console (eprint (msg +:+ newline)) ;; fun s => Aborts s.

Section scenario.
Variable w : Windows.

(** *** Steps of the main thread *)

(** The others move, and time passes. *)
Definition pause : mp unit := fun s => Done tt (mkWorld (con s) (fold_left (fun n a => act a n) (others w (turn s)) (net s)) (S (turn s))).
(** A method of the coordinator that only reads. *)
Definition call {A} (get : Coordinator -> A) : mp A := _ <- pause ;; fun s => Done (get (hub (net s))) s.
Definition take_steps (l : Network -> list action) : mp unit := fun s =>
  Done tt (mkWorld (con s) (fold_left (fun n a => act a n) (l (net s)) (net s)) (turn s)).

(** [roll_epoch]. *)
Definition roll : mp unit := _ <- pause ;; take_steps (fun _ => [Roll]).

(** [issue_warm] on a worker: the critical section, then the send, which fails
    on a connection that is gone. *)
Definition issue_enter (object : WarmthObjectId) (action : WarmthAction) (worker : WorkerId) : mp (option Z) := fun s =>
  let n := net s in
  Done ((fun x => x.1.1) <$> (issue_begin object action (Some worker) (hub n)).1)
    (mkWorld (con s) (act (Issue object action (Some worker)) n) (turn s)).
Definition issue_send (attempt : Z) : mp bool := fun s =>
  let n := net s in
  match list_find (fun x => send_attempt x = attempt) (sending n) with
  | Some (k, x) =>
      if sends w (turn s) && bool_decide (is_Some (links n !! send_link x))
      then Done true (mkWorld (con s) (act (Send k) n) (turn s))
      else Done false (mkWorld (con s) (act (SendFails k) n) (turn s))
  | None => Done false s
  end.
Definition issue_on (object : WarmthObjectId) (action : WarmthAction) (worker : WorkerId) : mp bool :=
  _ <- pause ;; a <- issue_enter object action worker ;;
  match a with None => cli_ret false | Some a => _ <- pause ;; issue_send a end.

(** [wait_until_settled]. *)
Fixpoint wait_settled (fuel : nat) : mp unit :=
  ok <- call settled ;;
  if ok : bool then cli_ret tt else match fuel with O => blocks | S fuel => wait_settled fuel end.

(** [for (i < turns && more(registered_workers)) sleep]. *)
Fixpoint poll (turns : nat) (more : nat -> bool) : mp unit :=
  match turns with
  | O => cli_ret tt
  | S turns => k <- call registered_workers ;; if more k then _ <- pause ;; poll turns more else cli_ret tt
  end.

(** *** Processes *)

(** The text given to [CreateProcessW]. *)
Definition double_quote : string := bytes_string [34].
Definition quote (s : string) : string := double_quote +:+ s +:+ double_quote.
Definition command_line (exe : string) (args : list string) : string :=
  fold_left (fun l a => l +:+ " " +:+ quote a) args (quote exe).
Definition spawn_child (args : list string) : mp bool := _ <- pause ;; fun s => Done (creates w (turn s) (command_line (exe_path w) args)) s.

Definition worker_args (port : Z) (id boot : Id128) : list string :=
  ["--worker"; "--coordinator-port"; dec_string port; "--worker-id"; to_string id; "--boot"; to_string boot;
   "--node"; "node-0"; "--workload"; "workload-0"].

(** [terminate_child]: the connections of the process break. *)
Definition connections_of (b : WorkerBootId) (n : Network) : list handle :=
  map fst (List.filter (fun kv : handle * Link => bool_decide ((fun p => boot (cfg_ p)) <$> proc kv.2 = Some b)) (map_to_list (links n))).
Definition terminate_child (b : WorkerBootId) : mp unit :=
  _ <- pause ;; take_steps (fun n => map (fun h => Break h (kept w h)) (connections_of b n)).

(** *** A connection of the main thread *)
Definition next_handle (n : Network) : handle :=
  S (foldr Nat.max O (map fst (map_to_list (links n)) ++ map fst (map_to_list (conns (hub n))))).
Definition dial_in : mp (option handle) :=
  _ <- pause ;;
  fun s => if dials w (turn s)
           then let h := next_handle (net s) in Done (Some h) (mkWorld (con s) (act (Stranger h) (net s)) (turn s))
           else Done None s.
Definition send_on (h : handle) (f : Frame) : mp unit := _ <- pause ;; take_steps (fun _ => [Inject h f]).
Definition hang_up_on (h : handle) : mp unit := _ <- pause ;; take_steps (fun n => [Break h (length (default [] (up <$> links n !! h)))]).
(** Nothing runs at this end of the connection. *)
Definition no_hook : nat -> WarmHook := fun _ _ _ => (false, dzero, 0).
(** [FrameReader::read]; [None] is the end of the connection. *)
Fixpoint read_on (fuel : nat) (h : handle) : mp (option Frame) :=
  _ <- pause ;;
  fun s =>
    match links (net s) !! h with
    | None => Done None s
    | Some L =>
        match down L with
        | f :: _ => Done (Some f) (mkWorld (con s) (act (Deliver h no_hook (fun _ => clock0)) (net s)) (turn s))
        | [] => if broken L then Done None s else match fuel with O => Blocks s | S fuel => read_on fuel h s end
        end
    end.

(** *** The proof *)
Definition workerA : WorkerId := derive "worker-A".
Definition workerB : WorkerId := derive "worker-B".
Definition bootA1 : WorkerBootId := derive "boot-A-1".
Definition bootB : WorkerBootId := derive "boot-B".
Definition bootA2 : WorkerBootId := derive "boot-A-2".
Definition object_X : WarmthObjectId := derive "object-X".

(** An error return: the children that run are terminated.  The code prints the
    message first; that is another part of the state. *)
Definition fail_with {A} (children : list WorkerBootId) (msg : string) : mp A :=
  _ <- fold_right (fun b m => _ <- terminate_child b ;; m) (cli_ret tt) children ;; abandon msg.
Definition ready (o : option WarmthObject) : bool := match o with Some o => execution_ready o | None => false end.

(** Both workers are started and have registered. *)
Definition start_workers (port : Z) : mp unit :=
  ok <- spawn_child (worker_args port workerA bootA1) ;;
  if negb ok then abandon "spawn worker A failed" else
  ok <- spawn_child (worker_args port workerB bootB) ;;
  if negb ok then abandon "spawn worker B failed" else
  _ <- poll 400 (fun k => (k <? 2)%nat) ;;
  k <- call registered_workers ;;
  if (k <? 2)%nat then fail_with [bootA1; bootB] "workers did not register" else cli_ret tt.

(** [issue_warm] on worker A, and what it must have done. *)
Definition warm_on_A (children : list WorkerBootId) (not_issued not_ready : string) : mp (option WarmthObject) :=
  ok <- issue_on object_X LOAD_MODEL workerA ;;
  if negb ok then fail_with children not_issued else
  _ <- wait_settled (horizon w) ;;
  o <- call (find_object object_X) ;;
  if negb (ready o) then fail_with children not_ready else cli_ret o.

(** Worker A dies and the authority rolls. *)
Definition kill_and_roll : mp unit :=
  _ <- roll ;;
  _ <- terminate_child bootA1 ;;
  _ <- poll 200 (fun k => (2 <=? k)%nat) ;;
  o <- call (find_object object_X) ;;
  _ <- say ("after kill+roll: object state=" +:+ match o with Some o => state_name (state_ o) | None => "absent" end +:+
            " ready=" +:+ yes_no (ready o)) ;;
  if ready o then fail_with [bootB] "recovered warmth resurrected" else cli_ret tt.

(** Worker A comes back with a new boot. *)
Definition restart_A (port : Z) : mp unit :=
  ok <- spawn_child (worker_args port workerA bootA2) ;;
  if negb ok then fail_with [bootB] "spawn worker A v2 failed" else
  _ <- poll 400 (fun k => (k <? 2)%nat) ;;
  k <- call registered_workers ;;
  if (k <? 2)%nat then fail_with [bootA2; bootB] "worker A v2 not registered" else cli_ret tt.

(** A HELLO of the old boot, and a report under the old authority. *)
Definition stale_hello (epoch0 : Z) : Frame :=
  mkFrame HELLO 0 (encode_hello (mkHello kProtocolVersion workerA bootA1 (derive "node-0") epoch0 "cuda" [] [] [])).
Definition stale_object : WarmthObject :=
  transition_ WARM "stale" (new_object object_X MODEL_WEIGHTS (derive "wl") (derive "n") "cuda:0" "cuda").
Definition stale_report (epoch0 wgen0 dgen0 : Z) : Frame :=
  mkFrame REPORT 0 (encode_report (mkReport bootA1 epoch0 wgen0 dgen0 [stale_object])).

Definition rejected (reply : option Frame) : bool :=
  match reply with
  | Some f =>
      if decide (type f = HELLO_ACK)
      then match decode_hello_ack (payload f) with Ok (a, _) => negb (accepted a) | Err _ => true end
      else true
  | None => true
  end.

Definition try_stale (epoch0 wgen0 dgen0 : Z) : mp unit :=
  conn <- dial_in ;;
  stale_rejected <- match conn with
                    | None => cli_ret true
                    | Some h => _ <- send_on h (stale_hello epoch0) ;; r <- read_on (horizon w) h ;; cli_ret (rejected r)
                    end ;;
  conn2 <- dial_in ;;
  _ <- match conn2 with
       | None => cli_ret tt
       | Some h => _ <- send_on h (stale_report epoch0 wgen0 dgen0) ;; _ <- read_on (horizon w) h ;; hang_up_on h
       end ;;
  _ <- match conn with None => cli_ret tt | Some h => hang_up_on h end ;;
  o <- call (find_object object_X) ;;
  if negb (stale_rejected && negb (ready o)) then fail_with [bootA2; bootB] "stale authority not rejected"
  else say "stale boot/epoch/generation authority rejected".

(** [stop] joins the threads of all connections. *)
Fixpoint wait_stopped (fuel : nat) : mp unit :=
  _ <- pause ;;
  fun s => if decide (links (net s) = ∅) then Done tt s else match fuel with O => Blocks s | S fuel => wait_stopped fuel s end.

Definition proof_body (port : Z) : mp Z :=
  _ <- start_workers port ;;
  _ <- warm_on_A [bootA1; bootB] "issue_warm A failed" "warm on A not ready" ;;
  epoch0 <- call (fun c => value (epoch_ c)) ;; wgen0 <- call warmth_gen_value_ ;; dgen0 <- call dep_gen_value_ ;;
  _ <- say ("warmed object on A under epoch " +:+ dec_string epoch0 +:+ ", warm-gen " +:+ dec_string wgen0 +:+
            ", dep-gen " +:+ dec_string dgen0) ;;
  _ <- kill_and_roll ;;
  _ <- restart_A port ;;
  _ <- try_stale epoch0 wgen0 dgen0 ;;
  o <- warm_on_A [bootA2; bootB] "fresh issue_warm failed" "fresh warm not ready" ;;
  o <- deref o ;;
  _ <- say ("fresh warming under current authority accepted: state=" +:+ state_name (state_ o)) ;;
  ok <- call coord_balanced ;;
  if negb ok then fail_with [bootA2; bootB] "budget not balanced" else
  k <- call outstanding_budget ;;
  _ <- say ("budget accounting returns to zero (outstanding=" +:+ dec_string (Z.of_nat k) +:+ ")") ;;
  _ <- terminate_child bootA2 ;; _ <- terminate_child bootB ;;
  _ <- wait_stopped (horizon w) ;;
  _ <- say "atomic multiprocess restart proof PASSED" ;;
  cli_ret 0.

Definition run_multiprocess : cli Z := fun c =>
  match listens w with
  | None => die "coordinator start failed" c
  | Some port =>
      match proof_body port (mkWorld c network_new O) with
      | Done a s => Done a (con s)
      | Blocks s => Blocks (con s)
      | Aborts s => Aborts (con s)
      | Undefined => Undefined
      end
  end.

(** [run_cuda_demo]: another program, next to this one; its exit code. *)
Definition find_last_backslash (s : string) : option nat :=
  snd (fold_left (fun (st : nat * option nat) a => (S st.1, if decide (a = ascii_of_byte 92) then Some st.1 else st.2))
         (list_ascii_of_string s) (O, None)).
Definition directory_of (exe : string) : string :=
  match find_last_backslash exe with Some k => String.substring 0 k exe | None => exe end.
Definition cuda_exe : string := directory_of (exe_path w) +:+ String (ascii_of_byte 92) "warmth_cuda_demo.exe".
Definition run_cuda_demo : cli Z :=
  match exit_status w (command_line cuda_exe []) with
  | None => die ("CUDA demo not available (" +:+ c_str cuda_exe +:+ ")")
  | Some None => blocks
  | Some (Some code) => cli_ret code
  end.
End scenario.

(** ** A run that passes *)

(** The processes that [spawn_child] starts, with the arguments it gives. *)
Definition child (port : Z) (id boot : Id128) : Worker := worker_new (worker_config (worker_args port id boot)).

(** Everybody does what there is to do, again and again. *)
Definition serve_all (hs : list handle) : list action :=
  concat (map (fun h => [Deliver h (fun _ => SyntheticWarmHook) (fun _ => clock0); Handle h clock0; Reply h; Leave h (fun _ => 5000)]) hs).
Definition fair_others (k : nat) : list action :=
  match k with
  | 1%nat => [Join 0 (child 4242 workerA bootA1)]
  | 2%nat => [Join 1 (child 4242 workerB bootB)]
  | 30%nat => [Join 2 (child 4242 workerA bootA2)]
  | _ => []
  end ++ serve_all [0; 1; 2]%nat ++ [Handle 3 clock0; Reply 3; Leave 3 (fun _ => 5000); Handle 4 clock0; Reply 4; Leave 4 (fun _ => 5000)].
Definition fair_windows : Windows :=
  mkWindows "C:\warmth\warmth_cli.exe" (Some 4242) (fun _ _ => true) (fun _ => true) (fun _ => true) (fun _ => 0%nat) fair_others 50 (fun _ => Some (Some 0)).

(** ** What can go wrong, and what cannot *)

(** The others: workers come, serve and go; nobody else uses the coordinator. *)
Definition bystander (a : action) : Prop :=
  match a with
  | Join _ w => announces w /\ worker_words w /\ all_cold w
  | Deliver _ hook _ => hook_words hook
  | Handle _ _ | Reply _ | Quit _ | Break _ _ | Leave _ _ => True
  | _ => False
  end.

(** At most [j] commands have been issued so far. *)
Record counted (j : Z) (n : Network) : Prop := mkCounted {
  co_next : next_id_ (budget_ (hub n)) <= 1 + 2 * j;
  co_attempt : attempt_counter_ (hub n) <= 1 + j;
  co_size : Z.of_nat (size (in_flight_ (hub n))) <= j }.

Lemma settle_next a i c : next_id_ (budget_ (settle a i c)) = next_id_ (budget_ c).
Proof. cbn. unfold release_attempt. destruct (_ =? 0); by rewrite ?release_next. Qed.

(** Settling only. *)
Definition only_settles (c c' : Coordinator) : Prop :=
  next_id_ (budget_ c') = next_id_ (budget_ c) /\ attempt_counter_ c' = attempt_counter_ c /\ in_flight_ c' ⊆ in_flight_ c.

Lemma only_settles_flight c c' : flight c' = flight c -> only_settles c c'.
Proof. unfold flight, only_settles. by intros [= -> -> _ ->]. Qed.

Lemma handle_frame_only_settles h f clock c : only_settles c (handle_frame h f clock c).2.
Proof.
  unfold handle_frame. destruct (type f); try by apply only_settles_flight.
  - destruct (decode_hello _) as [[m ?]|]; apply only_settles_flight; [apply handle_hello_flight|done].
  - destruct (decode_report _) as [[p ?]|]; apply only_settles_flight; [apply handle_report_flight|done].
  - destruct (decode_warm_result _) as [[r ?]|]; [|by apply only_settles_flight].
    destruct (decide (accepts h r c)) as [Ha|Hn]; [|rewrite handle_result_refused by done; by apply only_settles_flight].
    pose proof Ha as (_ & i & Hi & _). rewrite (handle_result_accepted _ _ _ _ i Ha Hi). cbn [snd]. unfold only_settles. rewrite settle_next.
    pose proof (apply_result_flight (conn_id (default conn_new (conns c !! h))) r (clock 0%nat) (clock 1%nat) c) as E.
    unfold flight in E. injection E as Eb Ef _ Ea. cbn [settle set_flight in_flight_ attempt_counter_]. rewrite Eb, Ef, Ea.
    split_and!; [done..|]. apply delete_subseteq.
Qed.

Lemma only_settles_counted j n n' : only_settles (hub n) (hub n') -> counted j n -> counted j n'.
Proof.
  intros (E1 & E2 & E3) [H1 H2 H3]. constructor; [by rewrite E1|by rewrite E2|]. pose proof (map_subseteq_size _ _ E3). lia.
Qed.

(** Nothing is ready. *)
Definition nothing_ready (c : Coordinator) : Prop := forall id, ~ ready_at id c.

Lemma handle_next_hub h clock n n' : handle_next h clock n = Some n' ->
  exists L f rest, links n !! h = Some L /\ up L = f :: rest /\ hub n' = (handle_frame h f clock (hub n)).2.
Proof.
  unfold handle_next. destruct (links n !! h) as [L|]; [|done]. cbn. destruct (up L) as [|f rest] eqn:Hu; [done|].
  destruct (replying L); [|done]. destruct (handle_frame h f clock (hub n)) as [r c] eqn:E. intros [= <-]. exists L, f, rest.
  rewrite E. done.
Qed.

Lemma bystander_hub a n n' : bystander a -> perform a n = Some n' ->
  hub n' = hub n \/ (exists m, hub n' = set_conns m (hub n)) \/ (exists h clock, hub n' = on_disconnect h clock (hub n)) \/
  (exists h clock, a = Handle h clock).
Proof.
  intros Hb Ha. destruct a; cbn [perform bystander] in *; try done.
  - unfold join_link in Ha. destruct (links n !! h), (conns (hub n) !! h); try done. injection Ha as <-. right. left. by eexists.
  - right. right. right. by eexists _, _.
  - left. unfold send_reply in Ha. destruct (links n !! h) as [L|]; [|done]. cbn in Ha. destruct (replying L); [done|]. by injection Ha as <-.
  - left. unfold deliver in Ha. destruct (links n !! h) as [L|]; [|done]. cbn in Ha. destruct (down L); [done|].
    destruct (proc L), (phase L); try (by injection Ha as <-); [destruct (adopt _ _)|destruct (Worker.handle_frame _ _ _ _)]; by injection Ha as <-.
  - left. unfold quit in Ha. destruct (links n !! h) as [L|]; [|done]. cbn in Ha. destruct (proc L), (phase L); try done. by injection Ha as <-.
  - left. unfold break_link in Ha. destruct (links n !! h) as [L|]; [|done]. cbn in Ha. by injection Ha as <-.
  - right. right. left. unfold leave_link in Ha. destruct (links n !! h) as [L|]; [|done]. cbn in Ha.
    destruct (broken L), (up L), (replying L); try done. injection Ha as <-. by eexists _, _.
Qed.

Lemma bystander_settles a n n' : bystander a -> perform a n = Some n' -> only_settles (hub n) (hub n').
Proof.
  intros Hb Ha. destruct (bystander_hub a n n' Hb Ha) as [E|[[m E]|[(h & clock & E)|(h & clock & ->)]]].
  - rewrite E. by apply only_settles_flight.
  - rewrite E. by apply only_settles_flight.
  - rewrite E. apply only_settles_flight, on_disconnect_flight.
  - destruct (handle_next_hub h clock n n' Ha) as (L & f & rest & _ & _ & ->). apply handle_frame_only_settles.
Qed.

Lemma bystander_permitted a n : bystander a -> permitted a n /\ no_stranger a.
Proof. intros Hb. by destruct a. Qed.

Lemma bystander_cold a n n' : bystander a -> truthful n -> perform a n = Some n' -> in_flight_ (hub n) = ∅ ->
  nothing_ready (hub n) -> nothing_ready (hub n').
Proof.
  intros Hb Ht Ha Hf Hn id Hr. apply (Hn id). destruct (bystander_hub a n n' Hb Ha) as [E|[[m E]|[(h & clock & E)|(h & clock & ->)]]].
  - by rewrite E in Hr.
  - by rewrite E in Hr.
  - rewrite E in Hr. by eapply disconnect_promotes.
  - destruct (handle_next_hub h clock n n' Ha) as (L & f & rest & Hl & Hu & E). rewrite E in Hr.
    destruct (frame_promotes _ _ _ _ _ Hr) as [?|[(_ & r & t & _ & (_ & i & Hi & _) & _)|(_ & o & Hin & _ & Hs)]]; [done| |].
    + rewrite Hf in Hi. by rewrite lookup_empty in Hi.
    + destruct (tr_link n Ht h L Hl) as (w & _ & _ & Hup). specialize (Hup f ltac:(rewrite Hu; left)).
      rewrite Forall_forall in Hup. specialize (Hup o Hin). congruence.
Qed.

Definition failures : list string :=
  ["spawn worker A failed"; "spawn worker B failed"; "workers did not register"; "issue_warm A failed"; "warm on A not ready";
   "spawn worker A v2 failed"; "worker A v2 not registered"; "stale authority not rejected"; "fresh issue_warm failed";
   "fresh warm not ready"].

(** What a part of the proof makes of the network, and what it prints to the
    error stream: nothing, or one of the failures on the way to an abort. *)
Definition ensures {A} (m : mp A) (P : Network -> Prop) (Q : A -> Network -> Prop) : Prop := forall s, P (net s) ->
  match m s with
  | Done a s' => Q a (net s') /\ stderr (con s') = stderr (con s)
  | Blocks s' => stderr (con s') = stderr (con s)
  | Aborts s' => exists msg, msg ∈ failures /\ stderr (con s') = stderr (con s) +:+ msg +:+ newline
  | Undefined => False
  end.

Lemma ensures_ret {A} (a : A) P (Q : A -> Network -> Prop) : (forall n, P n -> Q a n) -> ensures (cli_ret a) P Q.
Proof. intros H s Hs. split; [by apply H|done]. Qed.

Lemma ensures_bind {A B} (m : mp A) (k : A -> mp B) P R Q :
  ensures m P R -> (forall a, ensures (k a) (R a) Q) -> ensures (cli_bind m k) P Q.
Proof.
  intros Hm Hk s Hs. specialize (Hm s Hs). unfold cli_bind. destruct (m s) as [a s'|s'|s'|]; try done. destruct Hm as [Ha E].
  specialize (Hk a s' Ha). destruct (k a s') as [b s''|s''|s''|]; [|congruence| |done].
  - destruct Hk as [? ?]. split; [done|congruence].
  - destruct Hk as (msg & Hin & E'). exists msg. split; [done|congruence].
Qed.

Lemma ensures_weaken {A} (m : mp A) (P P' : Network -> Prop) (Q Q' : A -> Network -> Prop) :
  ensures m P Q -> (forall n, P' n -> P n) -> (forall a n, Q a n -> Q' a n) -> ensures m P' Q'.
Proof. intros Hm HP HQ s Hs. specialize (Hm s (HP _ Hs)). destruct (m s); try done. destruct Hm. split; [by apply HQ|done]. Qed.

Lemma ensures_if {A} (b : bool) (m m' : mp A) P Q : ensures m P Q -> ensures m' P Q -> ensures (if b then m else m') P Q.
Proof. by destruct b. Qed.

Lemma ensures_say text P : ensures (say text) P (fun _ => P).
Proof. intros s Hs. done. Qed.

Lemma ensures_abandon {A} msg P (Q : A -> Network -> Prop) : msg ∈ failures -> ensures (abandon msg) P Q.
Proof. intros Hm s Hs. by exists msg. Qed.

(** What the others leave as it is. *)
Definition kept_by_others (P : Network -> Prop) : Prop := forall a n, bystander a -> P n -> P (act a n).

Section windows.
Variable w : Windows.
Hypothesis others_bystand : forall k, Forall bystander (others w k).

Lemma acts_keep P l n : kept_by_others P -> Forall bystander l -> P n -> P (fold_left (fun n a => act a n) l n).
Proof. intros HP Hl. revert n. induction Hl as [|a l Ha _ IH]; intros n Hn; [done|]. apply IH. by apply HP. Qed.

Lemma ensures_pause P : kept_by_others P -> ensures (pause w) P (fun _ => P).
Proof. intros HP s Hs. split; [|done]. by apply acts_keep. Qed.

Lemma ensures_call {A} (get : Coordinator -> A) P : kept_by_others P -> ensures (call w get) P (fun a n => P n /\ a = get (hub n)).
Proof. intros HP. apply (ensures_bind _ _ _ (fun _ => P)); [by apply ensures_pause|]. intros _ s Hs. by split. Qed.

Lemma ensures_called {A} (get : Coordinator -> A) P : kept_by_others P -> ensures (call w get) P (fun _ => P).
Proof. intros HP. eapply ensures_weaken; [exact (ensures_call get P HP)|done|by intros a n [? _]]. Qed.

Lemma ensures_steps l P Q : (forall n, P n -> Q (fold_left (fun n a => act a n) (l n) n)) -> ensures (take_steps l) P (fun _ => Q).
Proof. intros H s Hs. split; [by apply H|done]. Qed.

Lemma ensures_poll k more P : kept_by_others P -> ensures (poll w k more) P (fun _ => P).
Proof.
  intros HP. induction k as [|k IH]; cbn [poll]; [by apply ensures_ret|]. eapply ensures_bind; [by apply ensures_call|].
  intros r. apply ensures_if; [|apply ensures_ret; tauto]. apply (ensures_bind _ _ _ (fun _ => P)); [|intros _; exact IH].
  eapply ensures_weaken; [by apply ensures_pause|tauto|done].
Qed.

Lemma ensures_kill b P : kept_by_others P -> ensures (terminate_child w b) P (fun _ => P).
Proof.
  intros HP. apply (ensures_bind _ _ _ (fun _ => P)); [by apply ensures_pause|]. intros _. apply ensures_steps. intros n Hn. apply acts_keep; [done| |done].
  apply Forall_map, Forall_forall. done.
Qed.

Lemma ensures_fail {A} children msg P (Q : A -> Network -> Prop) : kept_by_others P -> msg ∈ failures -> ensures (fail_with w children msg) P Q.
Proof.
  intros HP Hm. unfold fail_with. apply (ensures_bind _ _ _ (fun _ => P)); [|intros _; by apply ensures_abandon].
  induction children as [|b l IH]; cbn [fold_right]; [by apply ensures_ret|]. apply (ensures_bind _ _ _ (fun _ => P)); [by apply ensures_kill|]. intros _. exact IH.
Qed.

Lemma ensures_wait fuel P : kept_by_others P -> ensures (wait_settled w fuel) P (fun _ n => P n /\ settled (hub n) = true).
Proof.
  intros HP. induction fuel as [|fuel IH]; cbn [wait_settled]; (eapply ensures_bind; [by apply ensures_call|]); intros [];
    try (by apply ensures_ret; intros n [Hn E]; split; [exact Hn|by symmetry]).
  - intros s Hs. done.
  - eapply ensures_weaken; [exact IH|tauto|done].
Qed.

(** *** What holds while the proof runs *)

(** At most [j] commands so far; only workers have connected if [only]. *)
Definition running (only : bool) (j : Z) (n : Network) : Prop :=
  honest n /\ counted j n /\ (only = true -> truthful n).
(** After the roll nothing is ready and nothing in flight. *)
Definition rolled (n : Network) : Prop := running true 1 n /\ in_flight_ (hub n) = ∅ /\ nothing_ready (hub n).
Definition all_settled (only : bool) (j : Z) (n : Network) : Prop := running only j n /\ in_flight_ (hub n) = ∅.

Lemma kept_by_steps P : (forall a n n', bystander a -> perform a n = Some n' -> P n -> P n') -> kept_by_others P.
Proof. intros H a n Hb Hn. unfold act. destruct (perform a n) as [n'|] eqn:E; [by eapply H|done]. Qed.

Lemma running_kept only j : kept_by_others (running only j).
Proof.
  apply kept_by_steps. intros a n n' Hb Ha (Hh & Hc & Ht). destruct (bystander_permitted a n Hb) as [Hp Hno]. split_and!.
  - apply (network_step_honest any_action n); [done|]. by exists a.
  - eapply only_settles_counted; [by eapply bystander_settles|done].
  - intros Ho. apply (network_step_truthful n); [done| |by apply Ht]. by exists a.
Qed.

Lemma settles_empty c c' : only_settles c c' -> in_flight_ c = ∅ -> in_flight_ c' = ∅.
Proof.
  intros (_ & _ & Hs) E. rewrite E in Hs. apply map_empty. intros a. destruct (in_flight_ c' !! a) as [i|] eqn:Hi; [|done].
  by apply (lookup_weaken _ _ _ _ Hi) in Hs.
Qed.

Lemma rolled_kept : kept_by_others rolled.
Proof.
  apply kept_by_steps. intros a n n' Hb Ha (Hr & Hf & Hn). split_and!.
  - pose proof (running_kept true 1 a n Hb Hr) as H. unfold act in H. by rewrite Ha in H.
  - eapply settles_empty; [by eapply bystander_settles|done].
  - eapply bystander_cold; [done|by apply Hr|done|done|done].
Qed.

Lemma all_settled_kept only j : kept_by_others (all_settled only j).
Proof.
  apply kept_by_steps. intros a n n' Hb Ha (Hr & Hf). split.
  - pose proof (running_kept only j a n Hb Hr) as H. unfold act in H. by rewrite Ha in H.
  - eapply settles_empty; [by eapply bystander_settles|done].
Qed.

Lemma settled_empty n : honest n -> settled (hub n) = true -> in_flight_ (hub n) = ∅.
Proof.
  intros Hh Hs%Z.eqb_eq. rewrite (ci_count _ (ho_inv n Hh)) in Hs. apply map_size_empty_iff. lia.
Qed.

(** *** The two commands *)
Lemma running_room only j n : running only j n -> j <= 1 -> coord_room (hub n).
Proof.
  intros (Hh & [H1 H2 H3] & _) Hj. destruct (coord_inv_accounting _ (ho_inv n Hh)) as (_ & Hd & Ho).
  unfold in_flight_attempts in *. unfold coord_room. rewrite Hd, Ho. unfold kDefaultWarmBytes. change (Z.shiftl 1 30) with (2 ^ 30).
  split_and!; lia.
Qed.

Lemma reserve_budget_next object action preferred c : 0 < next_id_ (budget_ c) -> next_id_ (budget_ c) + 2 < 2 ^ 64 ->
  next_id_ (budget_ (issue_begin object action preferred c).2) <= next_id_ (budget_ c) + 2.
Proof.
  intros Hp Hlt. unfold issue_begin. destruct (pick_worker preferred c) as [h|]; [|cbn; lia]. cbn zeta. destruct (negb _); [cbn; lia|].
  pose proof (reserve_next DEVICE_MEMORY kDefaultWarmBytes "warm" (budget_ c) Hp ltac:(lia)) as H1.
  destruct (reserve DEVICE_MEMORY _ _ _) as [[res e1] b1]. cbn [snd] in H1. destruct (res =? 0); [cbn; lia|].
  pose proof (reserve_next CONCURRENT_WARMING_OPS 1 "warm" b1 ltac:(lia) ltac:(lia)) as H2.
  destruct (reserve CONCURRENT_WARMING_OPS _ _ _) as [[op e2] b2]. cbn [snd] in *. cbn. lia.
Qed.

Lemma issue_counted object action preferred j n n' : honest n -> counted j n -> coord_room (hub n) -> 0 <= j <= 1 ->
  issue object action preferred n = Some n' -> counted (j + 1) n'.
Proof.
  intros Hh [H1 H2 H3] Hroom Hj E. assert (0 < next_id_ (budget_ (hub n))) as Hp by apply (ho_inv n Hh).
  pose proof (reserve_budget_next object action preferred (hub n) Hp ltac:(apply Hroom)) as Hn.
  assert (hub n' = (issue_begin object action preferred (hub n)).2) as Ehub.
  { unfold issue in E. by destruct (issue_begin object action preferred (hub n)) as [[[[? ?] ?]|] ?]; injection E as <-. }
  constructor; rewrite Ehub; [lia|..]; (destruct (pick_worker preferred (hub n)) as [h|] eqn:Hpk; [|unfold issue_begin; rewrite Hpk; cbn; lia]);
    destruct (pick_worker_in _ _ _ Hpk) as [w' Hw]; pose proof (ho_table n Hh w' h Hw) as Hreg;
    destruct (issue_begin_admits object action preferred h (hub n) (ho_inv n Hh) Hroom Hpk Hreg) as (b & i & _ & _ & -> & Hnone & _);
    cbn [snd set_flight set_attempts attempt_counter_ in_flight_]; [lia|]. rewrite map_size_insert_None by done. lia.
Qed.

Lemma issue_running only j object action worker n : running only j n -> 0 <= j <= 1 -> Id128_wf object ->
  running only (j + 1) (act (Issue object action (Some worker)) n).
Proof.
  intros Hr Hj Hid. pose proof Hr as (Hh & Hc & Ht). pose proof (running_room _ _ _ Hr (proj2 Hj)) as Hroom.
  unfold act. cbn [perform]. destruct (issue object action (Some worker) n) as [n'|] eqn:E;
    [|unfold issue in E; by destruct (issue_begin _ _ _ _) as [[[[? ?] ?]|] ?]].
  cbn [default from_option id]. split_and!.
  - by eapply issue_honest.
  - by eapply issue_counted.
  - intros Ho. apply (network_step_truthful n); [done| |by apply Ht]. exists (Issue object action (Some worker)). by split_and!.
Qed.

Lemma send_running only j k n : running only j n -> running only j (act (Send k) n) /\ running only j (act (SendFails k) n).
Proof.
  intros (Hh & Hc & Ht).
  assert (forall a, permitted a n -> no_stranger a -> (forall n', perform a n = Some n' -> only_settles (hub n) (hub n')) -> running only j (act a n)) as Hgo.
  { intros a Hp Hno Hset. unfold act. destruct (perform a n) as [n'|] eqn:E; [|by split_and!]. cbn [default from_option id]. split_and!.
    - apply (network_step_honest any_action n); [done|]. by exists a.
    - eapply only_settles_counted; [by apply Hset|done].
    - intros Ho. apply (network_step_truthful n); [done| |by apply Ht]. by exists a. }
  split; apply Hgo; try done; intros n'; cbn [perform].
  - unfold send_command. destruct (sending n !! k) as [s|]; [|done]. cbn. destruct (links n !! send_link s); [|done]. intros [= <-].
    by apply only_settles_flight.
  - unfold send_fails. destruct (sending n !! k) as [s|]; [|done]. cbn. intros [= <-]. unfold issue_failed, only_settles. cbn [hub].
    destruct (in_flight_ (hub n) !! send_attempt s); [|done]. rewrite settle_next. split_and!; [done..|]. cbn [settle set_flight in_flight_].
    apply delete_subseteq.
Qed.

Lemma ensures_issue only j object action worker : 0 <= j <= 1 -> Id128_wf object ->
  ensures (issue_on w object action worker) (running only j) (fun _ => running only (j + 1)).
Proof.
  intros Hj Hid. apply (ensures_bind _ _ _ (fun _ => running only j)); [apply ensures_pause, running_kept|]. intros _.
  apply (ensures_bind _ _ _ (fun _ => running only (j + 1))).
  - intros s Hs. split; [by apply issue_running|done].
  - intros [a|]; [|by apply ensures_ret]. apply (ensures_bind _ _ _ (fun _ => running only (j + 1))); [apply ensures_pause, running_kept|].
    intros _ s Hs. unfold issue_send. destruct (list_find _ _) as [[k x]|]; [|by split].
    destruct (_ && _); (split; [by apply send_running|done]).
Qed.

(** *** The phases *)

Lemma ensures_start port : ensures (start_workers w port) (running true 0) (fun _ => running true 0).
Proof.
  pose proof (running_kept true 0) as HK.
  assert (forall args, ensures (spawn_child w args) (running true 0) (fun _ => running true 0)) as Hspawn.
  { intros args. apply (ensures_bind _ _ _ (fun _ => running true 0)); [by apply ensures_pause|]. intros _ s Hs. by split. }
  unfold start_workers. apply (ensures_bind _ _ _ (fun _ => running true 0)); [apply Hspawn|]. intros ok. apply ensures_if; [by apply ensures_abandon; set_solver|].
  apply (ensures_bind _ _ _ (fun _ => running true 0)); [apply Hspawn|]. intros ok'. apply ensures_if; [by apply ensures_abandon; set_solver|].
  apply (ensures_bind _ _ _ (fun _ => running true 0)); [by apply ensures_poll|]. intros _.
  eapply ensures_bind; [by apply ensures_call|]. intros k. apply (ensures_weaken _ (running true 0) _ (fun _ => running true 0)); [|tauto|done].
  apply ensures_if; [apply ensures_fail; [done|set_solver]|by apply ensures_ret].
Qed.

Lemma object_X_wf : Id128_wf object_X.
Proof. apply derive_wf. Qed.

Lemma ensures_warm only j children m1 m2 : 0 <= j <= 1 -> m1 ∈ failures -> m2 ∈ failures ->
  ensures (warm_on_A w children m1 m2) (running only j) (fun o n => all_settled only (j + 1) n /\ ready o = true).
Proof.
  intros Hj Hm1 Hm2. pose proof (running_kept only (j + 1)) as HK. pose proof (all_settled_kept only (j + 1)) as HS. unfold warm_on_A.
  apply (ensures_bind _ _ _ (fun _ => running only (j + 1))); [apply ensures_issue; [done|apply object_X_wf]|]. intros ok.
  apply ensures_if; [by apply ensures_fail|]. apply (ensures_bind _ _ _ (fun _ => all_settled only (j + 1))).
  - apply (ensures_weaken _ (running only (j + 1)) _ (fun _ n => running only (j + 1) n /\ settled (hub n) = true)); [by apply ensures_wait|done|]. intros _ n [Hn Hs]. split; [done|]. apply settled_empty; [apply Hn|done].
  - intros _. eapply ensures_bind; [by apply ensures_call|]. intros o. destruct (ready o) eqn:Er.
    + apply ensures_ret. intros n [Hn _]. by split.
    + apply (ensures_weaken _ (all_settled only (j + 1)) _ (fun o n => all_settled only (j + 1) n /\ ready o = true)); [by apply ensures_fail|tauto|done].
Qed.

Lemma roll_gives_rolled n : running true 1 n -> rolled (act Roll n).
Proof.
  intros (Hh & Hc & Ht). unfold act. cbn [perform default from_option id].
  assert (only_settles (hub n) (roll_epoch (hub n))) as Hs.
  { split_and!; [|done|apply map_empty_subseteq]. cbn [roll_epoch set_flight budget_]. apply (fold_left_keep next_id_).
    intros b kv. unfold release_attempt. destruct (_ =? 0); by rewrite ?release_next. }
  split_and!; [split_and!| |].
  - apply (network_step_honest any_action n); [done|]. by exists Roll.
  - by eapply only_settles_counted.
  - intros _. apply (network_step_truthful n); [done| |by apply Ht]. by exists Roll.
  - done.
  - intros id. apply roll_promotes.
Qed.

(** Nothing is ready after the roll, whatever the others do. *)
Lemma ensures_kill_and_roll : ensures (kill_and_roll w) (running true 1) (fun _ => running false 1).
Proof.
  pose proof rolled_kept as HK. unfold kill_and_roll.
  apply (ensures_bind _ _ _ (fun _ => rolled)).
  { apply (ensures_bind _ _ _ (fun _ => running true 1)); [apply ensures_pause, running_kept|]. intros _. apply ensures_steps.
    intros n Hn. by apply roll_gives_rolled. }
  intros _. apply (ensures_bind _ _ _ (fun _ => rolled)); [by apply ensures_kill|]. intros _.
  apply (ensures_bind _ _ _ (fun _ => rolled)); [by apply ensures_poll|]. intros _.
  eapply ensures_bind; [by apply ensures_call|]. intros o. eapply ensures_bind; [apply ensures_say|]. intros ?.
  intros s [(Hr & _ & Hn) ->]. unfold ready. destruct (find_object object_X (hub (net s))) as [x|] eqn:E; cycle 1.
  { split; [|done]. split_and!; [apply Hr..|done]. }
  destruct (execution_ready x) eqn:Ex; [destruct (Hn object_X); by exists x|]. split; [|done]. split_and!; [apply Hr..|done].
Qed.

(** What a connection of the main thread leaves as it is. *)
Definition kept_by_visits (P : Network -> Prop) : Prop :=
  forall a n, (exists h f, a = Inject h f) \/ (exists h, a = Stranger h) -> P n -> P (act a n).

Lemma visit_hub a n n' : (exists h f, a = Inject h f) \/ (exists h, a = Stranger h) -> perform a n = Some n' -> only_settles (hub n) (hub n').
Proof.
  intros [(h & f & ->)|(h & ->)] E; cbn [perform] in E.
  - unfold inject in E. destruct (links n !! h) as [L|]; [|done]. cbn in E. destruct (proc L), (broken L); try done. injection E as <-.
    by apply only_settles_flight.
  - unfold join_link in E. destruct (links n !! h), (conns (hub n) !! h); try done. injection E as <-. by apply only_settles_flight.
Qed.

Lemma visit_running j : kept_by_visits (running false j).
Proof.
  intros a n Ha (Hh & Hc & _). unfold act. destruct (perform a n) as [n'|] eqn:E; [|by split_and!]. cbn [default from_option id]. split_and!; [| |done].
  - apply (network_step_honest any_action n); [done|]. exists a. split_and!; [done| |done]. by destruct Ha as [(h & f & ->)|(h & ->)].
  - eapply only_settles_counted; [by eapply visit_hub|done].
Qed.

Lemma visit_settled j : kept_by_visits (all_settled false j).
Proof.
  intros a n Ha (Hr & Hf). split; [by apply visit_running|]. unfold act. destruct (perform a n) as [n'|] eqn:E; [|done].
  eapply settles_empty; [by eapply visit_hub|done].
Qed.

Lemma ensures_read fuel h j : ensures (read_on w fuel h) (running false j) (fun _ => running false j).
Proof.
  induction fuel as [|fuel IH]; cbn [read_on]; (apply (ensures_bind _ _ _ (fun _ => running false j)); [apply ensures_pause, running_kept|]);
    intros _ s Hs; (destruct (links (net s) !! h) as [L|]; [|by split]); (destruct (down L) as [|f fs];
      [destruct (broken L); [by split|]|split; [|done]; apply running_kept; [|done]; intros ? ? ?; apply (bool_decide_unpack _); vm_compute; exact I]).
  - done.
  - by apply IH.
Qed.

Lemma ensures_send h f P : kept_by_others P -> kept_by_visits P -> ensures (send_on w h f) P (fun _ => P).
Proof.
  intros HO HV. apply (ensures_bind _ _ _ (fun _ => P)); [by apply ensures_pause|]. intros _. apply ensures_steps. intros n Hn.
  apply HV; [left; by eexists _, _|done].
Qed.

Lemma ensures_dial P : kept_by_others P -> kept_by_visits P -> ensures (dial_in w) P (fun _ => P).
Proof.
  intros HO HV. apply (ensures_bind _ _ _ (fun _ => P)); [by apply ensures_pause|]. intros _ s Hs.
  destruct (dials w (turn s)); (split; [|done]); [|done]. apply HV; [right; by eexists|done].
Qed.

Lemma ensures_hang_up h P : kept_by_others P -> ensures (hang_up_on w h) P (fun _ => P).
Proof.
  intros HO. apply (ensures_bind _ _ _ (fun _ => P)); [by apply ensures_pause|]. intros _. apply ensures_steps. intros n Hn. by apply HO.
Qed.

Lemma ensures_restart port : ensures (restart_A w port) (running false 1) (fun _ => running false 1).
Proof.
  pose proof (running_kept false 1) as HK. unfold restart_A. apply (ensures_bind _ _ _ (fun _ => running false 1)).
  { apply (ensures_bind _ _ _ (fun _ => running false 1)); [by apply ensures_pause|]. intros _ s Hs. by split. }
  intros ok. apply ensures_if; [apply ensures_fail; [done|set_solver]|].
  apply (ensures_bind _ _ _ (fun _ => running false 1)); [by apply ensures_poll|]. intros _.
  eapply ensures_bind; [by apply ensures_call|]. intros k. apply (ensures_weaken _ (running false 1) _ (fun _ => running false 1)); [|tauto|done].
  apply ensures_if; [apply ensures_fail; [done|set_solver]|by apply ensures_ret].
Qed.

Lemma ensures_try_stale e g d : ensures (try_stale w e g d) (running false 1) (fun _ => running false 1).
Proof.
  pose proof (running_kept false 1) as HK. pose proof (visit_running 1) as HV. unfold try_stale.
  apply (ensures_bind _ _ _ (fun _ => running false 1)); [by apply ensures_dial|]. intros conn.
  apply (ensures_bind _ _ _ (fun _ => running false 1)).
  { destruct conn as [h|]; [|by apply ensures_ret]. apply (ensures_bind _ _ _ (fun _ => running false 1)); [by apply ensures_send|]. intros _.
    apply (ensures_bind _ _ _ (fun _ => running false 1)); [apply ensures_read|]. intros r. by apply ensures_ret. }
  intros rej. apply (ensures_bind _ _ _ (fun _ => running false 1)); [by apply ensures_dial|]. intros conn2.
  apply (ensures_bind _ _ _ (fun _ => running false 1)).
  { destruct conn2 as [h|]; [|by apply ensures_ret]. apply (ensures_bind _ _ _ (fun _ => running false 1)); [by apply ensures_send|]. intros _.
    apply (ensures_bind _ _ _ (fun _ => running false 1)); [apply ensures_read|]. intros r. by apply ensures_hang_up. }
  intros _. apply (ensures_bind _ _ _ (fun _ => running false 1)); [destruct conn; [by apply ensures_hang_up|by apply ensures_ret]|]. intros _.
  eapply ensures_bind; [by apply ensures_call|]. intros o. apply (ensures_weaken _ (running false 1) _ (fun _ => running false 1)); [|tauto|done].
  apply ensures_if; [apply ensures_fail; [done|set_solver]|apply ensures_say].
Qed.

Lemma ensures_stopped fuel P : kept_by_others P -> ensures (wait_stopped w fuel) P (fun _ => P).
Proof.
  intros HP. induction fuel as [|fuel IH]; cbn [wait_stopped]; (apply (ensures_bind _ _ _ (fun _ => P)); [by apply ensures_pause|]);
    intros _ s Hs; (destruct (decide _); [by split|]); [done|by apply IH].
Qed.

(** The balance of a coordinator with nothing in flight. *)
Lemma settled_balanced n : honest n -> in_flight_ (hub n) = ∅ -> coord_balanced (hub n) = true.
Proof.
  intros Hh E. destruct (coord_inv_accounting _ (ho_inv n Hh)) as (Ho & _). unfold coord_balanced, outstanding_budget, in_flight_attempts in *.
  rewrite E, map_size_empty in Ho. by rewrite Ho.
Qed.

Lemma ensures_proof port : ensures (proof_body w port) (running true 0) (fun rc n => rc = 0 /\ all_settled false 2 n).
Proof.
  pose proof (all_settled_kept true 1) as HK1. pose proof (all_settled_kept false 2) as HK2. unfold proof_body.
  apply (ensures_bind _ _ _ (fun _ => running true 0)); [apply ensures_start|]. intros _.
  apply (ensures_bind _ _ _ (fun _ => all_settled true 1)).
  { eapply ensures_weaken; [apply (ensures_warm true 0); [lia|set_solver..]|done|by intros ? ? [? _]]. }
  intros _. apply (ensures_bind _ _ _ (fun _ => all_settled true 1)); [by apply ensures_called|]. intros epoch0.
  apply (ensures_bind _ _ _ (fun _ => all_settled true 1)); [by apply ensures_called|]. intros wgen0.
  apply (ensures_bind _ _ _ (fun _ => all_settled true 1)); [by apply ensures_called|]. intros dgen0.
  apply (ensures_bind _ _ _ (fun _ => all_settled true 1)); [apply ensures_say|]. intros _.
  apply (ensures_bind _ _ _ (fun _ => running false 1)); [eapply ensures_weaken; [apply ensures_kill_and_roll|by intros ? [? _]|done]|]. intros _.
  apply (ensures_bind _ _ _ (fun _ => running false 1)); [apply ensures_restart|]. intros _.
  apply (ensures_bind _ _ _ (fun _ => running false 1)); [apply ensures_try_stale|]. intros _.
  eapply ensures_bind; [apply (ensures_warm false 1); [lia|set_solver..]|]. intros o.
  apply (ensures_bind _ _ _ (fun _ => all_settled false 2)).
  { intros s [Hs Ho]. by destruct o. }
  intros o'. apply (ensures_bind _ _ _ (fun _ => all_settled false 2)); [apply ensures_say|]. intros _.
  eapply ensures_bind; [by apply ensures_call|]. intros [].
  - cbn [negb]. apply (ensures_weaken _ (all_settled false 2) _ (fun rc n => rc = 0 /\ all_settled false 2 n)); [|by intros ? [? _]|done].
    apply (ensures_bind _ _ _ (fun _ => all_settled false 2)); [by apply ensures_called|].
    intros k. apply (ensures_bind _ _ _ (fun _ => all_settled false 2)); [apply ensures_say|]. intros _.
    apply (ensures_bind _ _ _ (fun _ => all_settled false 2)); [by apply ensures_kill|]. intros _.
    apply (ensures_bind _ _ _ (fun _ => all_settled false 2)); [by apply ensures_kill|]. intros _.
    apply (ensures_bind _ _ _ (fun _ => all_settled false 2)); [by apply ensures_stopped|]. intros _.
    apply (ensures_bind _ _ _ (fun _ => all_settled false 2)); [apply ensures_say|]. intros _. by apply ensures_ret.
  - intros s [[(Hh & _) Hf] E]. by rewrite (settled_balanced _ Hh Hf) in E.
Qed.

Lemma running_new : running true 0 network_new.
Proof.
  split_and!; [apply network_new_honest|constructor; by vm_compute|]. intros _. split; [done|]. intros i (o & Hf & _). by unfold find_object in Hf.
Qed.

(** C8: What the restart proof can end with.  Whatever worker processes do, and
    however the steps of all threads interleave, as long as nobody but workers
    and the proof itself uses the coordinator: it returns 0 with nothing on the
    error stream, or waits for ever, or aborts after one of ten messages.  So
    warmth from before the roll is never found alive ("recovered warmth
    resurrected" cannot appear), and the budget is never found out of balance;
    and no failure is ever reported through an exit code, since the accept
    thread is still joinable when [run_multiprocess] returns: 1 comes only from
    a coordinator that does not start. *)
Theorem multiprocess_outcomes (c : Console) :
  match run_multiprocess w c with
  | Done rc c' => (rc = 0 /\ is_Some (listens w) /\ stderr c' = stderr c) \/
                  (rc = 1 /\ listens w = None /\ stderr c' = stderr c +:+ ("coordinator start failed" +:+ newline))
  | Blocks c' => stderr c' = stderr c
  | Aborts c' => exists msg, msg ∈ failures /\ stderr c' = stderr c +:+ msg +:+ newline
  | Undefined => False
  end.
Proof.
  unfold run_multiprocess. destruct (listens w) as [port|]; [|right; by split_and!].
  pose proof (ensures_proof port (mkWorld c network_new 0) running_new) as H.
  destruct (proof_body w port (mkWorld c network_new 0)) as [rc s|s|s|]; try done. destruct H as [[-> _] E]. left. by split_and!.
Qed.
End windows.

(** *** In any environment *)

(** A program that touches nothing but the two output streams. *)
Definition only_prints {A} (m : mp A) (Q : A -> Prop) : Prop := forall s,
  match m s with
  | Done a s' => Q a /\ disk (con s') = disk (con s)
  | Blocks s' => disk (con s') = disk (con s)
  | Aborts s' => disk (con s') = disk (con s)
  | Undefined => False
  end.

Lemma op_bind {A B} (m : mp A) (k : A -> mp B) (R : A -> Prop) Q :
  only_prints m R -> (forall a, R a -> only_prints (k a) Q) -> only_prints (cli_bind m k) Q.
Proof.
  intros Hm Hk s. specialize (Hm s). unfold cli_bind. destruct (m s) as [a s'|s'|s'|]; try done. destruct Hm as [Ha E].
  specialize (Hk a Ha s'). by destruct (k a s') as [b s''|s''|s''|]; try destruct Hk; try split; rewrite <- ?E.
Qed.
(** [op_bind] where the value does not matter. *)
Lemma op_then {A B} (m : mp A) (k : A -> mp B) Q :
  only_prints m (fun _ => True) -> (forall a, only_prints (k a) Q) -> only_prints (cli_bind m k) Q.
Proof. intros Hm Hk. apply (op_bind _ _ (fun _ => True)); [done|by intros a _]. Qed.
Lemma op_ret {A} (a : A) (Q : A -> Prop) : Q a -> only_prints (cli_ret a) Q.
Proof. intros Ha s. done. Qed.
Lemma op_if {A} (b : bool) (m m' : mp A) Q : only_prints m Q -> only_prints m' Q -> only_prints (if b then m else m') Q.
Proof. by destruct b. Qed.
Lemma op_say text : only_prints (say text) (fun _ => True).
Proof. intros s. done. Qed.
Lemma op_abandon {A} msg (Q : A -> Prop) : only_prints (abandon msg) Q.
Proof. intros s. done. Qed.
Lemma op_pause w : only_prints (pause w) (fun _ => True).
Proof. intros s. done. Qed.
Lemma op_steps l : only_prints (take_steps l) (fun _ => True).
Proof. intros s. done. Qed.

Create HintDb mp.
#[local] Hint Resolve op_then op_ret op_if op_say op_abandon op_pause op_steps : mp.

Section any_windows.
Variable w : Windows.

Lemma op_call {A} (get : Coordinator -> A) : only_prints (call w get) (fun _ => True).
Proof. apply op_then; [apply op_pause|]. intros _ s. done. Qed.
Lemma op_spawn args : only_prints (spawn_child w args) (fun _ => True).
Proof. apply op_then; [apply op_pause|]. intros _ s. done. Qed.
Lemma op_kill b : only_prints (terminate_child w b) (fun _ => True).
Proof. unfold terminate_child. auto with mp. Qed.
Lemma op_fail {A} children msg (Q : A -> Prop) : only_prints (fail_with w children msg) Q.
Proof.
  apply op_then; [|intros _; apply op_abandon]. induction children as [|b l IH]; cbn [fold_right]; [by apply op_ret|].
  apply op_then; [apply op_kill|done].
Qed.
Lemma op_poll k more : only_prints (poll w k more) (fun _ => True).
Proof.
  induction k as [|k IH]; cbn [poll]; [by apply op_ret|]. apply op_then; [apply op_call|]. intros r. auto with mp.
Qed.
Lemma op_wait fuel : only_prints (wait_settled w fuel) (fun _ => True).
Proof.
  induction fuel as [|fuel IH]; cbn [wait_settled]; (apply op_then; [apply op_call|]); intros []; auto with mp. intros s. done.
Qed.
Lemma op_issue object action worker : only_prints (issue_on w object action worker) (fun _ => True).
Proof.
  apply op_then; [apply op_pause|]. intros _. apply op_then; [intros s; done|]. intros [a|]; [|by apply op_ret].
  apply op_then; [apply op_pause|]. intros _ s. unfold issue_send. destruct (list_find _ _) as [[k x]|]; [|done]. by destruct (_ && _).
Qed.
Lemma op_read fuel h : only_prints (read_on w fuel h) (fun _ => True).
Proof.
  induction fuel as [|fuel IH]; cbn [read_on]; (apply op_then; [apply op_pause|]); intros _ s; (destruct (links (net s) !! h) as [L|]; [|done]);
    (destruct (down L); [destruct (broken L); [done|]|done]); [done|apply IH].
Qed.
Lemma op_dial : only_prints (dial_in w) (fun _ => True).
Proof. apply op_then; [apply op_pause|]. intros _ s. by destruct (dials w (turn s)). Qed.
Lemma op_stopped fuel : only_prints (wait_stopped w fuel) (fun _ => True).
Proof.
  induction fuel as [|fuel IH]; cbn [wait_stopped]; (apply op_then; [apply op_pause|]); intros _ s; (destruct (decide _); [done|]); [done|apply IH].
Qed.
Lemma op_warm children m1 m2 : only_prints (warm_on_A w children m1 m2) (fun o => ready o = true).
Proof.
  unfold warm_on_A. apply op_then; [apply op_issue|]. intros ok. apply op_if; [apply op_fail|]. apply op_then; [apply op_wait|]. intros _.
  apply op_then; [apply op_call|]. intros o. destruct (ready o) eqn:E; [by apply op_ret|apply op_fail].
Qed.
#[local] Hint Resolve op_call op_spawn op_kill op_fail op_poll op_wait op_issue op_read op_dial op_stopped : mp.

Lemma op_start port : only_prints (start_workers w port) (fun _ => True).
Proof. unfold start_workers. auto 20 with mp. Qed.
Lemma op_kill_and_roll : only_prints (kill_and_roll w) (fun _ => True).
Proof. unfold kill_and_roll, roll. auto 20 with mp. Qed.
Lemma op_restart port : only_prints (restart_A w port) (fun _ => True).
Proof. unfold restart_A. auto 20 with mp. Qed.
Lemma op_try_stale e g d : only_prints (try_stale w e g d) (fun _ => True).
Proof.
  assert (forall h f, only_prints (send_on w h f) (fun _ => True)) by (intros; unfold send_on; auto with mp).
  assert (forall h, only_prints (hang_up_on w h) (fun _ => True)) by (intros; unfold hang_up_on; auto with mp).
  unfold try_stale. apply op_then; [apply op_dial|]. intros conn. apply op_then; [destruct conn; auto 20 with mp|]. intros rej.
  apply op_then; [apply op_dial|]. intros conn2. apply op_then; [destruct conn2; auto 20 with mp|]. intros _.
  apply op_then; [destruct conn; auto with mp|]. auto 20 with mp.
Qed.

Lemma op_proof port : only_prints (proof_body w port) (fun rc => rc = 0).
Proof.
  unfold proof_body. apply op_then; [apply op_start|]. intros _.
  apply (op_bind _ _ (fun o => ready o = true)); [apply op_warm|]. intros _ _.
  do 3 (apply op_then; [apply op_call|]; intros ?). apply op_then; [apply op_say|]. intros _.
  apply op_then; [apply op_kill_and_roll|]. intros _. apply op_then; [apply op_restart|]. intros _.
  apply op_then; [apply op_try_stale|]. intros _. apply (op_bind _ _ (fun o => ready o = true)); [apply op_warm|]. intros [o|] Ho; [|done].
  apply op_then; [intros s; done|]. auto 20 with mp.
Qed.

(** Whatever happens: 0 or 1, and no file is touched. *)
Lemma multiprocess_prints c :
  match run_multiprocess w c with
  | Done rc c' => (rc = 0 \/ rc = 1) /\ disk c' = disk c
  | Blocks c' => disk c' = disk c
  | Aborts c' => disk c' = disk c
  | Undefined => False
  end.
Proof.
  unfold run_multiprocess. destruct (listens w) as [port|]; [|split; [by right|done]].
  pose proof (op_proof port (mkWorld c network_new 0)) as H. destruct (proof_body w port _) as [rc s|s|s|]; try done.
  destruct H as [-> E]. split; [by left|done].
Qed.
End any_windows.

(** *** The run that passes *)

Definition disk_empty : Storage.Disk :=
  Storage.mkDisk ∅ (fun _ => true) (fun _ _ => true) (fun _ bs => bs) (fun _ => true) (fun _ => true) (fun _ => true).

(** What the hook of a worker process answers fits into the message. *)
Lemma SyntheticWarmHook_words : hook_words (fun _ => SyntheticWarmHook).
Proof.
  assert (Forall (fun x : WarmthAction => uint 64 (SyntheticWarmHook Id128_zero (enum_code x)).1.2 /\
    uint 64 (SyntheticWarmHook Id128_zero (enum_code x)).2) enum_all) as H by (apply (bool_decide_unpack _); vm_compute; exact I).
  intros k id x. rewrite Forall_forall in H. exact (H x (enum_complete x)).
Qed.

(** The three processes join as they should. *)
Lemma child_bystands h id boot : announces (child 4242 id boot) -> worker_words (child 4242 id boot) ->
  bystander (Join h (child 4242 id boot)).
Proof. intros Ha Hw. split_and!; [done|done|]. intros o x. cbn. by rewrite lookup_empty. Qed.

Lemma child_announces port id boot : Id128_wf (worker_id (cfg_ (child port id boot))) -> Id128_wf (Worker.boot (cfg_ (child port id boot))) ->
  Id128_wf (node (cfg_ (child port id boot))) -> announces (child port id boot).
Proof.
  intros Hi Hb Hn. unfold announces, hello_ok. cbn [hello_of protocol_version hello_worker hello_boot hello_node epoch_guess
    hello_backend devices actions observed].
  split_and!; try done; try (apply (bool_decide_unpack _); vm_compute; exact I).
Qed.

(** What has to be evaluated of a child, in one go. *)
Definition child_words (w : Worker) : Prop :=
  Id128_wf (worker_id (cfg_ w)) /\ Id128_wf (Worker.boot (cfg_ w)) /\ Id128_wf (node (cfg_ w)) /\ worker_words w.
#[local] Instance child_words_dec w : Decision (child_words w).
Proof. unfold child_words, worker_words. apply _. Defined.
Lemma child_joins h id boot : bool_decide (child_words (child 4242 id boot)) = true -> Forall bystander [Join h (child 4242 id boot)].
Proof.
  intros H. apply bool_decide_eq_true in H as (Hi & Hb & Hn & Hw). apply Forall_singleton, child_bystands; [apply child_announces; assumption|exact Hw].
Qed.

Lemma fair_others_bystand k : Forall bystander (fair_others k).
Proof.
  unfold fair_others. apply Forall_app. split.
  - destruct k as [|[|[|k]]]; [apply Forall_nil_2|apply child_joins; vm_compute; reflexivity|apply child_joins; vm_compute; reflexivity|].
    do 27 (destruct k as [|k]; [apply Forall_nil_2|]). destruct k as [|k]; [apply child_joins; vm_compute; reflexivity|apply Forall_nil_2].
  - apply Forall_app. split; [|by repeat (apply Forall_cons; split; [exact I|]); apply Forall_nil].
    unfold serve_all. cbn [map concat app]. repeat (apply Forall_cons; split; [first [exact I|exact SyntheticWarmHook_words]|]). by apply Forall_nil.
Qed.

Definition transcript : string :=
  "warmed object on A under epoch 0, warm-gen 0, dep-gen 0" +:+ newline +:+
  "after kill+roll: object state=INVALIDATED ready=no" +:+ newline +:+
  "stale boot/epoch/generation authority rejected" +:+ newline +:+
  "fresh warming under current authority accepted: state=WARM" +:+ newline +:+
  "budget accounting returns to zero (outstanding=0)" +:+ newline +:+
  "atomic multiprocess restart proof PASSED" +:+ newline.

Lemma multiprocess_outcomes_witness : exists c',
  run_multiprocess fair_windows (mkConsole "" "" disk_empty []) = Done 0 c' /\ stdout c' = transcript /\ stderr c' = "".
Proof.
  pose proof (multiprocess_outcomes fair_windows fair_others_bystand (mkConsole "" "" disk_empty [])) as H.
  assert (match run_multiprocess fair_windows (mkConsole "" "" disk_empty []) with Done _ c' => stdout c' = transcript | _ => False end) as Ht
    by (vm_compute; reflexivity).
  destruct (run_multiprocess fair_windows (mkConsole "" "" disk_empty [])) as [rc c'|c'|c'|]; try done.
  destruct H as [(-> & _ & E)|(_ & E & _)]; [|done]. by exists c'.
Defined.
