(* ===== verification/StaleExample.v ===== *)
(** * examples/example_stale_authority.cpp

    A coordinator and a worker in one process: an object is warmed, a report
    under an epoch that does not exist is sent over a second connection, and the
    object is looked at again.  A program over the console and the network, with
    the steps of the other threads between its own, like [Multiprocess]. *)

From Stdlib Require Import ZArith Lia Ascii String.
From stdpp Require Import base list numbers strings gmap fin_maps.
From S2P Require Import Prelude Identity State Object Policy Scheduler Explanation Codec Protocol Wire Messages Worker.
From S2P Require Import Coordinator System Network Console Multiprocess.
Local Open Scope Z_scope.
Local Open Scope warmth_scope.
Local Open Scope cli_scope.

Definition example_worker : WorkerId := derive "example-worker".
Definition example_boot : WorkerBootId := derive "example-boot".
Definition example_object : WarmthObjectId := derive "example-object".
Definition example_wcfg : Worker.Config :=
  mkWorkerConfig example_worker example_boot (derive "n") (derive "wl") "cuda" ["cuda:0"] [0; 1].

(** The flag [connected]: [connect] of the worker has returned. *)
Definition is_connected (n : Network) : bool :=
  existsb (fun kv : handle * Link =>
      match phase kv.2, proc kv.2 with Serving, Some p => bool_decide (boot (cfg_ p) = example_boot) | _, _ => false end)
    (map_to_list (links n)).

Definition described (label : string) (o : option WarmthObject) : string :=
  label +:+ ": state=" +:+ match o with Some o => state_name (state_ o) | None => "absent" end +:+ " ready=" +:+ yes_no (ready o).

(** The report: the right boot and generations, and an epoch that is too high. *)
Definition impossible_object : WarmthObject :=
  restore_state WARM "stale" (new_object example_object MODEL_WEIGHTS (derive "wl") (derive "n") "cuda:0" "cuda").
Definition impossible_report (epoch wgen dgen : Z) : Frame :=
  mkFrame REPORT 0 (encode_report (mkReport example_boot (wrap 64 (epoch + 100)) wgen dgen [impossible_object])).

Section example.
Variable w : Windows.

Fixpoint await (turns : nat) : mp unit :=
  match turns with
  | O => cli_ret tt
  | S turns => fun s => if is_connected (net s) then Done tt s else (_ <- pause w ;; await turns) s
  end.

(** Everything up to the last line. *)
Definition stale_checks : mp bool :=
  _ <- await 400 ;;
  _ <- poll w 400 (fun k => (k <? 1)%nat) ;;
  _ <- issue_on w example_object LOAD_MODEL example_worker ;;
  _ <- wait_settled w (horizon w) ;;
  o <- call w (find_object example_object) ;;
  _ <- say (described "object warm under authority" o) ;;
  conn <- dial_in w ;;
  _ <- match conn with
       | None => cli_ret tt
       | Some h =>
           e <- call w (fun c => value (epoch_ c)) ;; wg <- call w warmth_gen_value_ ;; dg <- call w dep_gen_value_ ;;
           _ <- send_on w h (impossible_report e wg dg) ;; hang_up_on w h
       end ;;
  o <- call w (find_object example_object) ;;
  _ <- say (described "after stale-epoch report" o +:+ " (must still be ready)") ;;
  _ <- wait_stopped w (horizon w) ;;
  call w coord_balanced.
Definition stale_body : mp Z :=
  ok <- stale_checks ;;
  _ <- say ("stale authority rejected; accounting balanced=" +:+ yes_no ok) ;;
  cli_ret 0.

Definition example_stale_authority : cli Z := fun c =>
  match listens w with
  | None => Done 1 c
  | Some _ =>
      match stale_body (mkWorld c network_new O) with
      | Done a s => Done a (con s)
      | Blocks s => Blocks (con s)
      | Aborts s => Aborts (con s)
      | Undefined => Undefined
      end
  end.
End example.

(** ** What it shows *)
Section outcomes.
Variable w : Windows.
Hypothesis others_bystand : forall k, Forall bystander (others w k).

Lemma ensures_await k P : kept_by_others P -> ensures (await w k) P (fun _ => P).
Proof.
  intros HP. induction k as [|k IH]; cbn [await]; [by apply ensures_ret|]. intros s Hs. destruct (is_connected (net s)); [by split|].
  apply (ensures_bind _ _ P (fun _ => P) (fun _ => P)); [by apply ensures_pause|intros _; exact IH|done].
Qed.

Lemma ensures_checks : ensures (stale_checks w) (running false 0) (fun ok n => ok = true /\ all_settled false 1 n).
Proof.
  pose proof (running_kept false 0) as HK0. pose proof (running_kept false 1) as HK1. unfold stale_checks.
  apply (ensures_bind _ _ _ (fun _ => running false 0)); [by apply ensures_await|]. intros _.
  apply (ensures_bind _ _ _ (fun _ => running false 0)); [by apply ensures_poll|]. intros _.
  apply (ensures_bind _ _ _ (fun _ => running false 1)); [apply ensures_issue; [done|done|apply derive_wf]|]. intros _.
  pose proof (all_settled_kept false 1) as HS. pose proof (visit_settled 1) as HV.
  apply (ensures_bind _ _ _ (fun _ => all_settled false 1)).
  { apply (ensures_weaken _ (running false 1) _ (fun _ n => running false 1 n /\ settled (hub n) = true)); [by apply ensures_wait|done|].
    intros _ n [Hn Hs]. split; [done|]. apply settled_empty; [apply Hn|done]. }
  intros _. apply (ensures_bind _ _ _ (fun _ => all_settled false 1)); [by apply ensures_called|]. intros o.
  apply (ensures_bind _ _ _ (fun _ => all_settled false 1)); [apply ensures_say|]. intros _.
  apply (ensures_bind _ _ _ (fun _ => all_settled false 1)); [by apply ensures_dial|]. intros conn.
  apply (ensures_bind _ _ _ (fun _ => all_settled false 1)).
  { destruct conn as [h|]; [|by apply ensures_ret]. do 3 (apply (ensures_bind _ _ _ (fun _ => all_settled false 1)); [by apply ensures_called|]; intros ?).
    apply (ensures_bind _ _ _ (fun _ => all_settled false 1)); [by apply ensures_send|]. intros _. by apply ensures_hang_up. }
  intros _. apply (ensures_bind _ _ _ (fun _ => all_settled false 1)); [by apply ensures_called|]. intros o'.
  apply (ensures_bind _ _ _ (fun _ => all_settled false 1)); [apply ensures_say|]. intros _.
  apply (ensures_bind _ _ _ (fun _ => all_settled false 1)); [by apply ensures_stopped|]. intros _.
  eapply ensures_weaken; [exact (ensures_call w others_bystand coord_balanced (all_settled false 1) HS)|done|].
  intros ok n [Hn ->]. split; [|done]. destruct Hn as [(Hh & _) Hf]. by apply settled_balanced.
Qed.

Lemma running_fresh : running false 0 network_new.
Proof. destruct running_new as (Hh & Hc & _). by split_and!. Qed.

(** Nothing in it aborts. *)
Definition returns {A} (m : mp A) : Prop := forall s, match m s with Aborts _ => False | _ => True end.
Lemma returns_bind {A B} (m : mp A) (k : A -> mp B) : returns m -> (forall a, returns (k a)) -> returns (cli_bind m k).
Proof. intros Hm Hk s. specialize (Hm s). unfold cli_bind. destruct (m s); try done. apply Hk. Qed.
Lemma returns_done {A} (m : mp A) : (forall s, exists a s', m s = Done a s') -> returns m.
Proof. intros Hm s. destruct (Hm s) as (a & s' & ->). done. Qed.
Lemma returns_ret {A} (a : A) : returns (cli_ret a).
Proof. done. Qed.
Lemma returns_call {A} (get : Coordinator -> A) : returns (call w get).
Proof. apply returns_done. intros s. by eexists _, _. Qed.
Lemma returns_wait fuel : returns (wait_settled w fuel).
Proof.
  induction fuel as [|fuel IH]; cbn [wait_settled]; (apply returns_bind; [apply returns_call|]); intros []; first [apply returns_ret|exact IH|by intros s].
Qed.
Lemma returns_poll k more : returns (poll w k more).
Proof.
  induction k as [|k IH]; cbn [poll]; [done|]. apply returns_bind; [apply returns_call|]. intros r.
  destruct (more r); [apply returns_bind; [by intros s|intros _; exact IH]|by intros s].
Qed.
Lemma returns_await k : returns (await w k).
Proof. induction k as [|k IH]; [done|]. intros s. cbn [await]. destruct (is_connected (net s)); [done|apply IH]. Qed.
Lemma returns_stopped fuel : returns (wait_stopped w fuel).
Proof.
  induction fuel as [|fuel IH]; intros s; cbn [wait_stopped]; cbv [cli_bind pause]; destruct (decide _); try done. apply IH.
Qed.
Lemma returns_issue object action worker : returns (issue_on w object action worker).
Proof.
  intros s. cbv [issue_on cli_bind pause issue_enter]. cbn [con net turn]. destruct (_ <$> _) as [a|]; [|done]. unfold issue_send. cbn [con net turn].
  destruct (list_find _ _) as [[k x]|]; [|done]. by destruct (_ && _).
Qed.
Lemma returns_dial : returns (dial_in w).
Proof. intros s. cbv [dial_in cli_bind pause]. cbn [turn]. by destruct (dials w _). Qed.

Lemma returns_checks : returns (stale_checks w).
Proof.
  apply returns_bind; [apply returns_await|]. intros _. apply returns_bind; [apply returns_poll|]. intros _.
  apply returns_bind; [apply returns_issue|]. intros _. apply returns_bind; [apply returns_wait|]. intros _.
  apply returns_bind; [apply returns_call|]. intros o. apply returns_bind; [done|]. intros _.
  apply returns_bind; [apply returns_dial|]. intros conn. apply returns_bind; [by destruct conn|]. intros _.
  apply returns_bind; [apply returns_call|]. intros o'. apply returns_bind; [done|]. intros _.
  apply returns_bind; [apply returns_stopped|]. intros _. apply returns_call.
Qed.

(** The accounting is balanced whenever the example gets to its last line,
    however the threads interleave and whatever becomes of the report. *)
Theorem stale_example_balanced (c : Console) :
  match example_stale_authority w c with
  | Done rc c' =>
      (rc = 0 /\ exists t, stdout c' = t +:+ "stale authority rejected; accounting balanced=yes" +:+ newline) \/
      (rc = 1 /\ listens w = None /\ c' = c)
  | Blocks c' => stderr c' = stderr c
  | _ => False
  end.
Proof.
  unfold example_stale_authority. destruct (listens w) as [p|]; [|by right].
  pose proof (ensures_checks (mkWorld c network_new 0) running_fresh) as H.
  pose proof (returns_checks (mkWorld c network_new 0)) as Hr. unfold stale_body, cli_bind at 1.
  destruct (stale_checks w (mkWorld c network_new 0)) as [ok s|s|s|]; [|done..].
  destruct H as [[-> _] _]. left. split; [done|]. by eexists.
Qed.
End outcomes.

(** Everybody does what there is to do; [stop] closes the worker's connection. *)
Definition stale_others (k : nat) : list action :=
  match k with 1%nat => [Join 0 (worker_new example_wcfg)] | 30%nat => [Break 0 0] | _ => [] end ++ serve_all [0; 1; 2]%nat.
Definition stale_environment : Windows :=
  mkWindows "" (Some 4242) (fun _ _ => true) (fun _ => true) (fun _ => true) (fun _ => 0%nat) stale_others 50 (fun _ => None).

Lemma plain_worker_announces id boot node wl : Id128_wf id -> Id128_wf boot -> Id128_wf node ->
  announces (worker_new (mkWorkerConfig id boot node wl "cuda" ["cuda:0"] [0; 1])).
Proof.
  intros Hi Hb Hn. unfold announces, hello_ok. cbn [hello_of worker_new cfg_ protocol_version hello_worker hello_boot hello_node epoch_guess
    hello_backend devices actions observed].
  split_and!; try done; try (apply (bool_decide_unpack _); vm_compute; exact I).
Qed.
Lemma plain_worker_bystands h id boot node wl : Id128_wf id -> Id128_wf boot -> Id128_wf node ->
  bystander (Join h (worker_new (mkWorkerConfig id boot node wl "cuda" ["cuda:0"] [0; 1]))).
Proof.
  intros Hi Hb Hn. split; [by apply plain_worker_announces|]. split; [split_and!; try done; apply (bool_decide_unpack _); vm_compute; exact I|].
  intros o x. cbn. by rewrite lookup_empty.
Qed.
Lemma stale_others_bystand k : Forall bystander (stale_others k).
Proof.
  unfold stale_others. apply Forall_app. split.
  - destruct k as [|[|k]]; [by apply Forall_nil|apply Forall_singleton|].
    + apply plain_worker_bystands; apply derive_wf.
    + do 29 (destruct k as [|k]; [first [by apply Forall_nil|by apply Forall_singleton]|]). by apply Forall_nil.
  - unfold serve_all. cbn [map concat app]. repeat (apply Forall_cons; split; [first [exact I|exact SyntheticWarmHook_words]|]). by apply Forall_nil.
Qed.

(** The run in which everybody does what there is to do. *)
Lemma stale_example_balanced_witness : exists c',
  example_stale_authority stale_environment (mkConsole "" "" disk_empty []) = Done 0 c' /\
  stdout c' = "object warm under authority: state=WARM ready=yes" +:+ newline +:+
              "after stale-epoch report: state=WARM ready=yes (must still be ready)" +:+ newline +:+
              "stale authority rejected; accounting balanced=yes" +:+ newline.
Proof.
  pose proof (stale_example_balanced stale_environment stale_others_bystand (mkConsole "" "" disk_empty [])) as H.
  assert (match example_stale_authority stale_environment (mkConsole "" "" disk_empty []) with
          | Done _ c' => stdout c' = "object warm under authority: state=WARM ready=yes" +:+ newline +:+
              "after stale-epoch report: state=WARM ready=yes (must still be ready)" +:+ newline +:+
              "stale authority rejected; accounting balanced=yes" +:+ newline
          | _ => False end) as Ht by (vm_compute; reflexivity).
  destruct (example_stale_authority stale_environment _) as [rc c'|c'|c'|]; try done.
  destruct H as [[-> _]|(_ & E & _)]; [|done]. by exists c'.
Defined.
