(* ===== verification/Examples.v ===== *)
(** * examples/, consumer/: the example programs

    The programs that show how the library is used, over the console, with the
    readings of the clock as an argument, and what each of them prints. *)

From Stdlib Require Import ZArith Lia Ascii String.
From stdpp Require Import base list numbers strings gmap fin_maps.
From S2P Require Import Prelude Float64 Number Identity State Object Decay Budget Cost Policy Scheduler Explanation Codec Wire Persistence Fabric Storage Console.
Local Open Scope Z_scope.
Local Open Scope warmth_scope.
Local Open Scope cli_scope.

(** [cfg.workload] and [cfg.node]; the rest has its defaults. *)
Definition config_for (workload node : string) : Config :=
  mkConfig (derive workload) (derive node) "cuda:0" "cuda" (defaults (Gen 1)) (Z.shiftl 1 30).
Definition example_config : Config := config_for "example" "node".

(** [f.register_object(category, owner)]. *)
Definition register (category : WarmthCategory) (owner : string) (f : WarmthFabric) : WarmthObjectId * WarmthFabric :=
  register_object category owner None None None None f.
(** A line made of [*f.get(id)]. *)
Definition line (id : WarmthObjectId) (f : WarmthFabric) (text : WarmthObject -> string) : cli unit :=
  o <- deref (get id f) ;; print (text o +:+ newline).
Definition state_of (o : WarmthObject) : string := state_name (state_ o).
Definition ready_of (o : WarmthObject) : string := yes_no (execution_ready o).
(** [o ? to_string(o->state()).data() : "absent"] and the like. *)
Definition state_or_absent (o : option WarmthObject) : string := from_option state_of "absent" o.
Definition ready_or_no (o : option WarmthObject) : string := from_option ready_of "no" o.

Section examples.
Variable now : nat -> Z.    (* readings of [now_ms()] *)

Definition example_lifecycle : cli Z :=
  let '(id, f) := register MODEL_WEIGHTS "model.weights" (fabric_new example_config) in
  _ <- line id f (fun o => "COLD: state=" +:+ state_of o +:+ " ready=" +:+ ready_of o) ;;
  let r := warm_run LOAD_MODEL f in
  let '(ok, f) := warm id LOAD_MODEL (now 0) (now 1) f in
  _ <- line id f (fun o => "WARM: state=" +:+ state_of o +:+ " ready=" +:+ ready_of o +:+ " measured=" +:+
                           g6 (if ok then r.1.2 else dzero) +:+ "ms") ;;
  let f := (invalidate id MODEL_REVISION_CHANGE f).2 in
  _ <- line id f (fun o => "INVALIDATED: state=" +:+ state_of o) ;;
  let f := (warm id INIT_ENGINE (now 2) (now 3) f).2 in
  _ <- line id f (fun o => "REWARMED: state=" +:+ state_of o +:+ " ready=" +:+ ready_of o +:+ " balanced=" +:+ yes_no (budgets_balanced f)) ;;
  cli_ret 0.

Definition example_decay_invalidation : cli Z :=
  let '(id, f) := register MODEL_WEIGHTS "model.weights" (fabric_new example_config) in
  let f := (warm id LOAD_MODEL (now 0) (now 1) f).2 in
  _ <- line id f (fun o => "setup: state=" +:+ state_of o) ;;
  let f := fab_decay (now 2) false true false false f in
  _ <- line id f (fun o => "after dep change: state=" +:+ state_of o +:+ " ready=" +:+ ready_of o) ;;
  let f := fab_decay (now 3 + 3 * 3600 * 1000) false false false false f in
  _ <- line id f (fun o => "after idle: state=" +:+ state_of o) ;;
  let f := (warm id INIT_ENGINE (now 4) (now 5) f).2 in
  _ <- line id f (fun o => "rewarmed: state=" +:+ state_of o) ;;
  let f := fab_decay (now 6) true false false false f in
  _ <- line id f (fun o => "after memory pressure: state=" +:+ state_of o) ;;
  cli_ret 0.

(** A device memory budget of 1 GiB, and one warm at a time. *)
Definition budget_policy : WarmthPolicy :=
  let p := defaults (Gen 1) in
  mkPolicy (generation p) (decay p) (limits_set CONCURRENT_WARMING_OPS 1 (limits_set DEVICE_MEMORY (Z.shiftl 1 30) (budgets p)))
    (weight_predicted_reuse p) (weight_arrival_probability p) (weight_latency_class p) (weight_priority p)
    (weight_tenant_fairness p) (weight_warming_cost p) (weight_memory_cost p) (weight_transfer_cost p) (weight_eviction_risk p)
    (weight_dependency_availability p) (weight_current_partial_warmth p) (weight_expected_benefit p).
Definition budget_config : Config := mkConfig (derive "example") (derive "node") "cuda:0" "cuda" budget_policy (Z.shiftl 1 30).
Definition budget_line (name : string) (ok : bool) (f : WarmthFabric) : cli unit :=
  print ("warm " +:+ name +:+ ": " +:+ (if ok then "ok" else "infeasible") +:+ " (budget usage=" +:+
         dec_string (budget_usage DEVICE_MEMORY f) +:+ ")" +:+ newline).
Definition example_budget_schedule : cli Z :=
  let '(a, f) := register MODEL_WEIGHTS "a.model" (fabric_new budget_config) in
  let '(b, f) := register MODEL_WEIGHTS "b.model" f in
  let '(wa, f) := warm a LOAD_MODEL (now 0) (now 1) f in
  _ <- budget_line "a" wa f ;;
  let '(wb, f) := warm b LOAD_MODEL (now 2) (now 3) f in
  _ <- budget_line "b" wb f ;;
  p <- deref (explain_plan f) ;;
  _ <- print (c_str (plan_to_text p)) ;;
  _ <- print ("balanced after all=" +:+ yes_no (budgets_balanced f) +:+ newline) ;;
  cli_ret 0.

Definition readiness_dims : WarmthDimensions :=
  dims_set LocalDependencyReadiness D_VALID (dims_set ArtifactValidation D_VALID
    (dims_set ArtifactAvailability D_VALID (dims_set ModelResidency D_PARTIAL dims_default))).
Definition rule : string := "====================" +:+ newline.
Definition example_readiness : cli Z :=
  let '(id, f) := register MODEL_WEIGHTS "model.weights" (fabric_new example_config) in
  let f := (fab_set_dimensions id readiness_dims f).2 in
  e <- deref (explain id f) ;;
  _ <- print rule ;; _ <- print (c_str (readiness_to_text e)) ;; _ <- print rule ;;
  p <- deref (explain_plan f) ;;
  _ <- print (c_str (plan_to_text p)) ;;
  cli_ret 0.

(** [save], then [recover] into a second fabric. *)
Definition example_persistence : cli Z :=
  let '(id, f) := register MODEL_WEIGHTS "model.weights" (fabric_new example_config) in
  let f := (warm id LOAD_MODEL (now 0) (now 1) f).2 in
  let path := "example.wfbin" in
  d <- get_disk ;;
  r <- call_locked (save path d) f ;;
  let '(res, d) := r in
  _ <- put_disk d ;;
  match res with
  | Err err => _ <- print ("save failed: " +:+ c_str err +:+ newline) ;; cli_ret 1
  | Ok _ =>
      _ <- print ("saved snapshot: " +:+ dec_string (Z.of_nat (object_count f)) +:+ " objects" +:+ newline) ;;
      match recover_file path d (fabric_new example_config) with
      | (Err err, _) => _ <- print ("recover failed: " +:+ c_str err +:+ newline) ;; cli_ret 1
      | (Ok _, f2) =>
          _ <- print ("recovered: " +:+ dec_string (Z.of_nat (object_count f2)) +:+
                      " objects; live dims must be revalidated" +:+ newline) ;;
          let o := get id f2 in
          _ <- print ("recovered object state=" +:+ state_or_absent o +:+ " ready=" +:+ ready_or_no o +:+
                      " (ephemeral revalidation required)" +:+ newline) ;;
          _ <- put_disk (mkDisk (delete path (files d)) (may_write d) (write_good d) (kept d) (may_read d) (tells d) (read_good d)) ;;
          cli_ret 0
      end
  end.

Definition consumer_main : cli Z :=
  let '(id, f) := register MODEL_WEIGHTS "consumer.model" (fabric_new (config_for "consumer" "node")) in
  let f := (warm id LOAD_MODEL (now 0) (now 1) f).2 in
  let o := get id f in
  _ <- print ("downstream consumer: state=" +:+ state_or_absent o +:+ " ready=" +:+ ready_or_no o +:+ " balanced=" +:+
              yes_no (budgets_balanced f) +:+ newline) ;;
  cli_ret 0.
End examples.

(** ** What they print *)

Definition fresh_console (d : Disk) : Console := mkConsole "" "" d [].
Definition printed (lines : list string) : string := fold_left (fun t l => t +:+ l +:+ newline) lines "".
Definition prints (m : cli Z) (lines : list string) : Prop :=
  forall d, m (fresh_console d) = Done 0 (mkConsole (printed lines) "" d []).

(** The plan of a workload "example", in which every object has the same score. *)
Definition plan_lines (steps : list string) : list string :=
  ["workload: " +:+ to_string (derive "example"); "replica: 00000000000000000000000000000000"; "policy_generation: 1";
   "tie_break: score_desc_then_id_asc"] ++ steps.
Definition weights_id (owner : string) : string := to_string (derive (owner +:+ "|MODEL_WEIGHTS")).

(** The example programs print what they are meant to show, whatever the clock
    says: a warm object is ready and one that was invalidated is not, nor is one
    with partial dimensions; both warms fit the budget, since each gives back
    what it took.  The persistence example does not get that far: it blocks in
    [save] before it prints anything. *)
Theorem example_transcripts (now : nat -> Z) :
  prints (example_lifecycle now)
    ["COLD: state=COLD ready=no"; "WARM: state=WARM ready=yes measured=0.75ms"; "INVALIDATED: state=INVALIDATED";
     "REWARMED: state=WARM ready=yes balanced=yes"] /\
  prints (example_budget_schedule now)
    (["warm a: ok (budget usage=0)"; "warm b: ok (budget usage=0)"] ++
     plan_lines (map (fun owner => "  " +:+ weights_id owner +:+
       " TRANSFER_HOST_DEVICE score=6.750000 cost_ms=2882.059652 (reuse=0.500000 prob=0.800000 priority=0.800000 benefit=0.900000)")
       ["b.model"; "a.model"]) ++
     ["balanced after all=yes"]) /\
  prints example_readiness
    (["===================="; "object: " +:+ weights_id "model.weights"; "state: COLD"; "composite: DISCOVERED"; "execution_ready: false";
      "  dimension artifact_availability = VALID"; "  dimension artifact_validation = VALID"; "  dimension model_residency = PARTIAL";
      "  dimension adapter_residency = COLD"; "  dimension tokenizer_readiness = COLD"; "  dimension cuda_context_readiness = COLD";
      "  dimension kernel_readiness = COLD"; "  dimension graph_readiness = COLD"; "  dimension allocator_readiness = COLD";
      "  dimension prefix_kv_reuse = COLD"; "  dimension engine_readiness = COLD"; "  dimension local_dependency_readiness = VALID";
      "expected_ttfu_ms: 6830.000000"; "bytes_to_transfer: 0"; "chosen_action: PREPARE_KERNEL";
      "missing_preparation:  model_weights kernels graphs cuda_context allocator engine"; "===================="] ++
     plan_lines ["  " +:+ weights_id "model.weights" +:+
       " PREPARE_KERNEL score=6.000000 cost_ms=6830.000000 (reuse=0.500000 prob=0.300000 priority=0.800000 benefit=0.300000)"]) /\
  (forall d, example_persistence now (fresh_console d) = Blocks (fresh_console d)) /\
  prints (consumer_main now) ["downstream consumer: state=WARM ready=yes balanced=yes"].
Proof. unfold prints. split_and!; try intros d; vm_compute; reflexivity. Qed.

(** With a clock that advances by a millisecond between readings: a change of a
    dependency makes the object stale, three idle hours invalidate it, and
    memory pressure takes part of its warmth. *)
Theorem example_decay_transcript :
  prints (example_decay_invalidation Z.of_nat)
    ["setup: state=WARM"; "after dep change: state=STALE ready=no"; "after idle: state=INVALIDATED"; "rewarmed: state=WARM";
     "after memory pressure: state=PARTIALLY_WARM"].
Proof. intros d. vm_compute. reflexivity. Qed.
