(* ===== verification/Tests.v ===== *)
(** * tests/, benchmarks/: the test programs and the benchmark

    [wtest.hpp] with its output and exit code; [test_concurrency], in which
    threads call one fabric until they are told to stop, for every schedule of
    their critical sections; [test_property], a long random sequence of calls
    with checks after each; the cases of [test_core] and of [test_persistence];
    and the benchmark, which gets as far as its snapshot. *)

From Stdlib Require Import ZArith Lia String.
From stdpp Require Import base list numbers strings gmap fin_maps fin_sets sets.
From S2P Require Import Prelude Float64 Number Identity State Object Decay Budget Ledger Cost Policy Scheduler Explanation Codec Persistence Fabric Storage Console Examples.
Local Open Scope Z_scope.
Local Open Scope warmth_scope.

(** ** wtest.hpp *)

(** A test case and the checks that it made, in order: the line and whether it held. *)
Record Case := mkCase { case_name : string; checks : list (Z * bool) }.
Definition failures (l : list (Z * bool)) : list Z := map fst (List.filter (fun c => negb c.2) l).

Section harness.
Variables (file : string) (source : Z -> string).    (* __FILE__, and the text of the condition on a line *)

Definition fail_line (line : Z) : string :=
  "FAIL " +:+ file +:+ ":" +:+ dec_string line +:+ ": " +:+ source line +:+ newline.
Definition run_case (c : Case) : string :=
  "[RUN] " +:+ case_name c +:+ newline +:+ String.concat "" (map fail_line (failures (checks c))).
Definition count_failures (cs : list Case) : nat := length (concat (map (fun c => failures (checks c)) cs)).

(** What is printed, and the exit code. *)
Definition run_all (cs : list Case) : string * Z :=
  let ran := String.concat "" (map run_case cs) in
  match count_failures cs with
  | O => (ran +:+ "ALL TESTS PASSED" +:+ newline, 0)
  | n => (ran +:+ dec_string (Z.of_nat n) +:+ " FAILURES" +:+ newline, 1)
  end.
End harness.

(** All checks of a list hold. *)
Definition passes (l : list (Z * bool)) : Prop := Forall (fun c => c.2 = true) l.

Lemma all_passes l : forallb snd l = true -> passes l.
Proof. intros H. apply Forall_forall. intros c Hc. exact (proj1 (forallb_forall snd l) H c (proj1 (list_elem_of_In _ _) Hc)). Qed.

Lemma passes_failures l : passes l -> failures l = [].
Proof. induction 1 as [|[n b] l Hb _ IH]; [done|]. cbn in Hb. subst b. exact IH. Qed.

(** Exit code zero, and the transcript of a success. *)
Definition succeeds (cs : list Case) : Prop := forall file source,
  run_all file source cs =
    (String.concat "" (map (fun c => "[RUN] " +:+ case_name c +:+ newline) cs) +:+ "ALL TESTS PASSED" +:+ newline, 0).

Lemma passes_succeeds cs : Forall (fun c => passes (checks c)) cs -> succeeds cs.
Proof.
  intros H file source. unfold run_all, count_failures.
  assert (map (fun c => failures (checks c)) cs = map (fun _ => []) cs /\
    map (run_case file source) cs = map (fun c => "[RUN] " +:+ case_name c +:+ newline) cs) as [-> ->].
  { induction H as [|c cs Hc _ [IH1 IH2]]; [done|]. cbn [map]. unfold run_case at 1.
    rewrite (passes_failures _ Hc), IH1, IH2. by split. }
  replace (length (concat (map (fun _ => []) cs))) with 0%nat; [done|]. clear H. induction cs; [done|exact IHcs].
Qed.

(** ** test_concurrency.cpp *)

Section contention.
Variables objects threads : nat.    (* N and T *)

Definition cc_config : Config := config_for "cc" "n".
Definition cc_id (i : nat) : WarmthObjectId := derive ("cc-" +:+ dec_string (Z.of_nat i) +:+ "|" +:+ category_name MODEL_WEIGHTS).

(** The registration of the objects: their ids and the fabric. *)
Definition register_next (category : WarmthCategory) (owner : nat -> string) (s : list WarmthObjectId * WarmthFabric) (i : nat)
  : list WarmthObjectId * WarmthFabric :=
  let '(ids, f) := s in
  let '(id, f) := register category (owner i) f in (ids ++ [id], f).
Definition registered (category : WarmthCategory) (owner : nat -> string) (n : nat) (cfg : Config)
  : list WarmthObjectId * WarmthFabric :=
  fold_left (register_next category owner) (seq 0 n) ([], fabric_new cfg).
Definition cc_registered := registered MODEL_WEIGHTS (fun i => "cc-" +:+ dec_string (Z.of_nat i)) objects cc_config.

(** A thread: its seed, and the [warm] it is in, between the two critical
    sections. *)
Record Thread := mkThread { seed : Z; warming : option pending }.
Record Contention := mkContention { fabric : WarmthFabric; crew : list Thread }.

Definition cc_start : Contention :=
  mkContention cc_registered.2 (map (fun t => mkThread (u32 (1234567 + Z.of_nat t)) None) (seq 0 threads)).

Definition next_seed (seed : Z) : Z := u32 (seed * 1103515245 + 12345).

(** The body of the loop up to the end of its first critical section. *)
Definition loop_body (seed : Z) (now : Z) (f : WarmthFabric) : option pending * WarmthFabric :=
  let idx := Z.to_nat (Z.shiftr seed 8 mod Z.of_nat objects) in
  match cc_registered.1 !! idx with
  | None => (None, f)
  | Some id =>
      match Z.shiftr seed 16 mod 6 with
      | 0 => (None, f)
      | 1 => match warm_begin id f with
             | (Some (res, op), f) => (Some (mkPending id res op), f)
             | (None, f) => (None, f)
             end
      | 2 => (None, (invalidate id MODEL_REVISION_CHANGE f).2)
      | 3 => (None, (demote id f).2)
      | 4 => (None, (evict id f).2)
      | _ => (None, (fab_mark_used id now f).2)
      end
  end.

(** Thread [t] runs up to the end of its next critical section; a warm takes
    two readings of the clock in its second one. *)
Definition cc_turn (t : nat) (now1 now2 : Z) (s : Contention) : Contention :=
  match crew s !! t with
  | None => s
  | Some th =>
      match warming th with
      | Some p =>
          mkContention (warm_end (p_id p) (p_res p, p_op p) (warm_run INIT_ENGINE (fabric s)) now1 now2 (fabric s)).2
            (<[t := mkThread (seed th) None]> (crew s))
      | None =>
          let sd := next_seed (seed th) in
          let '(w, f) := loop_body sd now1 (fabric s) in
          mkContention f (<[t := mkThread sd w]> (crew s))
      end
  end.

(** After [stop.store(true)]: every thread leaves the call that it is in, and
    the loop. *)
Definition cc_finish (now : nat -> Z) (s : Contention) : Contention :=
  fold_left (fun s t => match crew s !! t with
                        | Some (mkThread _ (Some _)) => cc_turn t (now (2 * t)%nat) (now (2 * t + 1)%nat) s
                        | _ => s
                        end) (seq 0 threads) s.

(** The schedule says whose turn it is, and what the clock says. *)
Definition cc_run (schedule : list (nat * (Z * Z))) : Contention :=
  fold_left (fun s '(t, (now1, now2)) => cc_turn t now1 now2 s) schedule cc_start.

Definition concurrency_high_contention (schedule : list (nat * (Z * Z))) (now : nat -> Z) : Case :=
  let f := fabric (cc_finish now (cc_run schedule)) in
  mkCase "concurrency_high_contention"
    [(43, budgets_balanced f); (45, bool_decide (object_count f = objects))].
End contention.

(** *** Registration, and a fabric in use *)

Lemma lifecycle_fits c ps : lifecycle_call c -> call_fits c ps.
Proof. by destruct c. Qed.

Lemma register_next_reach category owner n cfg : let '(ids, f) := registered category owner n cfg in
  length ids = n /\ fab_reach lifecycle_call cfg f [] /\ dom (objects_ f) = list_to_set ids /\ budget_ f = budget_ (fabric_new cfg).
Proof.
  unfold registered. induction n as [|n IH]; [split_and!; [done|constructor|done|done]|].
  rewrite seq_S, fold_left_app. cbn [fold_left Nat.add]. destruct (fold_left _ _ _) as [ids f]. destruct IH as (Hl & Hr & Hd & Hb).
  cbn [register_next]. unfold register. set (R := register_object category (owner n) None None None None f).
  change R with (R.1, R.2). cbn [fst snd]. split_and!.
  - rewrite length_app. cbn. lia.
  - exact (fr_call lifecycle_call cfg f [] (CRegister category (owner n) None None None None) Hr I (lifecycle_fits (CRegister category (owner n) None None None None) [] I)).
  - unfold R, register_object. cbn [fst snd with_objects objects_]. rewrite dom_insert_L, Hd, list_to_set_app_L. set_solver.
  - done.
Qed.

(** What the tests keep true of the fabric: a history of the lifecycle calls
    with the warms [ps] in progress, the objects that were registered, and a
    counter that has moved by at most two for each of [k] steps. *)
Record in_use (cfg : Config) (ids : list WarmthObjectId) (k : Z) (ps : list pending) (f : WarmthFabric) : Prop := mkInUse {
  iu_reach : fab_reach lifecycle_call cfg f ps;
  iu_dom : dom (objects_ f) = list_to_set ids;
  iu_next : 0 < next_id_ (budget_ f) <= 1 + 2 * k }.

Lemma in_use_more cfg ids k k' ps f : k <= k' -> in_use cfg ids k ps f -> in_use cfg ids k' ps f.
Proof. intros Hk [H1 H2 H3]. constructor; [done..|lia]. Qed.

Lemma in_use_call cfg ids k ps f id h c : (forall g, apply_call c g = (on_object id h g).2) -> lifecycle_call c ->
  in_use cfg ids k ps f -> in_use cfg ids k ps (on_object id h f).2.
Proof.
  intros Hc Hl [H1 H2 H3]. constructor; [rewrite <- Hc; by constructor; [..|apply lifecycle_fits]|by rewrite on_object_dom|by rewrite on_object_budget].
Qed.

Lemma in_use_room cfg ids k ps f : in_use cfg ids k ps f -> Z.of_nat (length ps) < 2 ^ 32 -> k < 2 ^ 62 -> room (budget_ f).
Proof.
  intros [H1 _ H3] Hps Hk. destruct (fab_reach_holds _ _ _ _ H1) as (Hb & _). unfold room.
  rewrite !(holds_usage _ _ Hb), !warm_ledger_sum. unfold kDefaultWarmBytes. change (Z.shiftl 1 30) with (2 ^ 30).
  pose proof (filter_length_le (fun p => negb (p_op p =? 0)) ps). split_and!; lia.
Qed.

Lemma warm_begin_next id f : 0 < next_id_ (budget_ f) -> next_id_ (budget_ f) + 2 < 2 ^ 64 ->
  next_id_ (budget_ f) <= next_id_ (budget_ (warm_begin id f).2) <= next_id_ (budget_ f) + 2.
Proof.
  intros Hp Hlt. unfold warm_begin. destruct (objects_ f !! id) as [o|]; [|cbn; lia].
  pose proof (reserve_next DEVICE_MEMORY kDefaultWarmBytes "warm" (budget_ f) Hp ltac:(lia)) as H1.
  destruct (reserve DEVICE_MEMORY _ _ _) as [[res e1] b1]. cbn [snd] in H1. destruct (res =? 0); [cbn; lia|].
  pose proof (reserve_next CONCURRENT_WARMING_OPS 1 "warm" b1 ltac:(lia) ltac:(lia)) as H2.
  destruct (reserve CONCURRENT_WARMING_OPS _ _ _) as [[op e2] b2]. cbn [snd] in *.
  destruct (negb _); [|cbn; lia]. cbn. destruct (op =? 0); rewrite ?release_next; lia.
Qed.

Lemma in_use_begin cfg ids k ps f id : in_use cfg ids k ps f -> Z.of_nat (length ps) < 2 ^ 32 -> k < 2 ^ 62 ->
  match warm_begin id f with
  | (Some (res, op), f') => in_use cfg ids (k + 1) (mkPending id res op :: ps) f'
  | (None, f') => in_use cfg ids (k + 1) ps f'
  end.
Proof.
  intros Hf Hps Hk. pose proof (in_use_room _ _ _ _ _ Hf Hps Hk) as Hroom. destruct Hf as [H1 H2 H3].
  pose proof (warm_begin_next id f ltac:(lia) ltac:(lia)) as Hn. destruct (fab_reach_holds _ _ _ _ H1) as (Hb & _).
  pose proof (warm_begin_budget id f _ Hb Hroom) as Hs.
  destruct (warm_begin id f) as [[[res op]|] f'] eqn:Hw; cbn [snd] in Hn.
  - destruct Hs as ((_ & _ & o & Ho & _ & E) & _). constructor; [by eapply fr_begin| |lia].
    rewrite E, dom_insert_L, <- H2. apply elem_of_dom_2 in Ho. set_solver.
  - destruct Hs as ((_ & E) & _). constructor; [by eapply fr_refused|by rewrite E|lia].
Qed.

Lemma in_use_end cfg ids k ps ps' p r t1 t2 f : ps ≡ₚ p :: ps' -> in_use cfg ids k ps f ->
  exists ps1, ps1 ≡ₚ ps' /\ in_use cfg ids k ps1 (warm_end (p_id p) (p_res p, p_op p) r t1 t2 f).2.
Proof.
  intros Hp [H1 H2 H3]. assert (p ∈ ps) as Hin by (rewrite Hp; left). apply list_elem_of_split in Hin as (l1 & l2 & ->).
  exists (l1 ++ l2). split; [by apply (Permutation_app_inv _ _ [] ps' p)|]. constructor.
  - by apply fr_end.
  - unfold warm_end. destruct r as [[s d] n]. by rewrite on_object_dom.
  - unfold warm_end. destruct r as [[s d] n]. rewrite on_object_budget. cbn [with_budget budget_].
    destruct (p_op p =? 0); by rewrite ?release_next.
Qed.

(** *** The threads *)
Section contended.
Variables objects threads : nat.
Hypothesis few : Z.of_nat threads < 2 ^ 32.
Let ids := (cc_registered objects).1.
Local Notation cc_turn := (cc_turn objects).

(** The warms in progress are those of the threads. *)
Definition contended (k : Z) (s : Contention) : Prop :=
  length (crew s) = threads /\ exists ps, ps ≡ₚ omap warming (crew s) /\ in_use cc_config ids k ps (fabric s).

Lemma omap_insert_warming (l : list Thread) t th th' : l !! t = Some th ->
  exists l1 l2, omap warming l = l1 ++ option_list (warming th) ++ l2 /\
    omap warming (<[t := th']> l) = l1 ++ option_list (warming th') ++ l2.
Proof.
  intros Ht. exists (omap warming (take t l)), (omap warming (drop (S t) l)).
  assert (forall (x : Thread) a b, omap warming (a ++ x :: b) = omap warming a ++ option_list (warming x) ++ omap warming b) as Hm.
  { intros x a b. rewrite omap_app. cbn. by destruct (warming x). }
  split; rewrite <- Hm; [by rewrite take_drop_middle|]. rewrite insert_take_drop; [done|]. by eapply lookup_lt_Some.
Qed.

Lemma loop_body_in_use k ps sd now f : in_use cc_config ids k ps f -> Z.of_nat (length ps) < 2 ^ 32 -> k < 2 ^ 62 ->
  in_use cc_config ids (k + 1) (option_list (loop_body objects sd now f).1 ++ ps) (loop_body objects sd now f).2.
Proof.
  intros Hf Hps Hk. pose proof (in_use_more _ _ k (k + 1) _ _ ltac:(lia) Hf) as Hm. unfold loop_body.
  destruct (_ !! _) as [id|]; [|done].
  destruct (Z.shiftr sd 16 mod 6) as [|p|p]; [done| |by eapply (in_use_call _ _ _ _ _ _ _ (CMarkUsed id now))].
  destruct p as [[p|p|]|[p|[p|p|]|]|]; cbn [fst snd option_list app];
    try (by eapply (in_use_call _ _ _ _ _ _ _ (CMarkUsed id now))).
  - by eapply (in_use_call _ _ _ _ _ _ _ (CDemote id)).
  - by eapply (in_use_call _ _ _ _ _ _ _ (CEvict id)).
  - by eapply (in_use_call _ _ _ _ _ _ _ (CInvalidate id MODEL_REVISION_CHANGE)).
  - pose proof (in_use_begin _ _ _ _ _ id Hf Hps Hk) as Hb. by destruct (warm_begin id f) as [[[res op]|] f'].
Qed.

Lemma warming_few s : length (crew s) = threads -> Z.of_nat (length (omap warming (crew s))) < 2 ^ 32.
Proof.
  intros Hl. assert (length (omap warming (crew s)) <= length (crew s))%nat; [|lia].
  clear. induction (crew s) as [|th l IH]; [done|]. cbn. destruct (warming th); cbn; lia.
Qed.

Lemma end_contended k s t sd p now1 now2 : contended k s -> crew s !! t = Some (mkThread sd (Some p)) ->
  contended k (cc_turn t now1 now2 s).
Proof.
  intros (Hl & ps & Hps & Hf) Ht. unfold Tests.cc_turn. rewrite Ht. cbn [warming seed]. split; cbn [crew]; [by rewrite length_insert|].
  destruct (omap_insert_warming (crew s) t _ (mkThread sd None) Ht) as (l1 & l2 & E1 & E2).
  destruct (in_use_end cc_config ids k ps (l1 ++ l2) p (warm_run INIT_ENGINE (fabric s)) now1 now2 (fabric s)) as (ps1 & Hps1 & Hf1); [|done|].
  - rewrite Hps, E1. cbn. by rewrite <- Permutation_middle.
  - exists ps1. cbn [crew fabric]. rewrite E2. by split.
Qed.

Lemma turn_contended k s t now1 now2 : k < 2 ^ 62 -> contended k s -> contended (k + 1) (cc_turn t now1 now2 s).
Proof.
  intros Hk Hs. pose proof Hs as (Hl & ps & Hps & Hf). assert (contended (k + 1) s) as Hs'.
  { split; [done|]. exists ps. split; [done|]. eapply in_use_more; [|done]. lia. }
  destruct (crew s !! t) as [[sd [p|]]|] eqn:Ht.
  - by eapply end_contended.
  - unfold Tests.cc_turn. rewrite Ht. cbn [warming seed].
    pose proof (loop_body_in_use k ps (next_seed sd) now1 (fabric s) Hf) as Hb.
    destruct (loop_body objects (next_seed sd) now1 (fabric s)) as [w f]. cbn [fst snd] in Hb. split; cbn [crew]; [by rewrite length_insert|].
    destruct (omap_insert_warming (crew s) t _ (mkThread (next_seed sd) w) Ht) as (l1 & l2 & E1 & E2). cbn in E1.
    exists (option_list w ++ ps). split; [|apply Hb; [rewrite Hps; by apply warming_few|done]].
    cbn [crew fabric]. rewrite E2, Hps, E1. cbn [warming]. destruct w; cbn; [by rewrite Permutation_middle|done].
  - unfold Tests.cc_turn. by rewrite Ht.
Qed.

Lemma start_contended : contended 0 (cc_start objects threads).
Proof.
  split; [unfold cc_start; cbn [crew]; by rewrite length_map, length_seq|]. exists []. cbn [cc_start crew fabric]. split.
  - generalize (seq 0 threads). intros l. by induction l.
  - pose proof (register_next_reach MODEL_WEIGHTS (fun i => "cc-" +:+ dec_string (Z.of_nat i)) objects cc_config) as H.
    unfold ids, cc_registered. destruct (registered _ _ _ _) as [l f]. cbn [fst snd]. destruct H as (_ & Hr & Hd & Hb).
    constructor; [done..|]. rewrite Hb. cbn. lia.
Qed.

Lemma run_contended schedule : Z.of_nat (length schedule) < 2 ^ 62 ->
  contended (Z.of_nat (length schedule)) (cc_run objects threads schedule).
Proof.
  induction schedule as [|[t [now1 now2]] l IH] using rev_ind; [intros _; apply start_contended|]. rewrite length_app. cbn [length]. intros Hk.
  unfold cc_run. rewrite fold_left_app. cbn [fold_left]. rewrite Nat2Z.inj_add. apply turn_contended; [lia|]. apply IH. lia.
Qed.

(** Finishing: the first [n] threads are out of their calls. *)
Definition out_of_calls (n : nat) (s : Contention) : Prop := forall t th, (t < n)%nat -> crew s !! t = Some th -> warming th = None.

Lemma finish_contended now k s : contended k s ->
  contended k (cc_finish objects threads now s) /\ out_of_calls threads (cc_finish objects threads now s).
Proof.
  intros Hs. unfold cc_finish. match goal with |- context [fold_left ?g (seq 0 threads) s] => set (leave := g) end.
  enough (forall n, contended k (fold_left leave (seq 0 n) s) /\ out_of_calls n (fold_left leave (seq 0 n) s)) as H by apply H.
  intros n. induction n as [|n [IH1 IH2]]; [split; [done|intros ? ? ?; lia]|].
  rewrite seq_S, fold_left_app. cbn [fold_left Nat.add]. set (s1 := fold_left leave _ s) in *. unfold leave.
  assert (forall s2, (forall t, t <> n -> crew s2 !! t = crew s1 !! t) -> (forall th, crew s2 !! n = Some th -> warming th = None) ->
    out_of_calls (S n) s2) as Hout.
  { intros s2 Ho Hn t th Ht Hth. destruct (decide (t = n)) as [->|Hne]; [by apply Hn|]. rewrite Ho in Hth by done. apply (IH2 t); [lia|done]. }
  destruct (crew s1 !! n) as [[sd [p|]]|] eqn:Hn.
  - split; [by eapply end_contended|]. unfold Tests.cc_turn. rewrite Hn. cbn [warming seed]. apply Hout; cbn [crew].
    + intros t Ht. by apply list_lookup_insert_ne.
    + intros th. rewrite list_lookup_insert_eq by (by eapply lookup_lt_Some). by intros [= <-].
  - split; [done|]. apply Hout; [done|]. intros th. rewrite Hn. by intros [= <-].
  - split; [done|]. apply Hout; [done|]. intros th. by rewrite Hn.
Qed.

Lemma out_of_calls_none s : length (crew s) = threads -> out_of_calls threads s -> omap warming (crew s) = [].
Proof.
  intros Hl Ho. assert (Forall (fun th => warming th = None) (crew s)) as H.
  { apply Forall_lookup. intros t th Ht. apply (Ho t); [|done]. rewrite <- Hl. by eapply lookup_lt_Some. }
  clear Hl Ho. induction H as [|th l E _ IH]; [done|]. cbn. by rewrite E, IH.
Qed.

End contended.

(** C33: The concurrency test passes, on every schedule.  Any number of threads below
    2^32 run their random calls on one fabric, interleaved in any way at the
    granularity of the critical sections, with a warm's operation outside of
    them, for fewer than 2^62 turns, and then finish.  If the ids of the objects
    do not collide, both checks hold, whatever the clock said: no reservation
    is left and every object is there. *)
Theorem concurrency_test_passes (objects threads : nat) (schedule : list (nat * (Z * Z))) (now : nat -> Z) :
  Z.of_nat threads < 2 ^ 32 -> Z.of_nat (length schedule) < 2 ^ 62 -> NoDup (cc_registered objects).1 ->
  succeeds [concurrency_high_contention objects threads schedule now].
Proof.
  intros Ht Hk Hids. apply passes_succeeds, Forall_singleton. cbn [concurrency_high_contention checks].
  destruct (finish_contended objects threads now _ _ (run_contended objects threads Ht schedule Hk)) as [(Hl & ps & Hps & [H1 H2 H3]) Ho].
  rewrite (out_of_calls_none _ _ Hl Ho) in Hps. apply Permutation_nil_r in Hps as ->.
  destruct (fab_reach_holds _ _ _ _ H1) as (Hb & _). apply Forall_cons. cbn [snd]. split; [|apply Forall_singleton; cbn [snd]].
  - unfold budgets_balanced. by apply (holds_balanced _ _ Hb).
  - apply bool_decide_eq_true. unfold object_count. rewrite <- size_dom, H2, size_list_to_set by done.
    pose proof (register_next_reach MODEL_WEIGHTS (fun i => "cc-" +:+ dec_string (Z.of_nat i)) objects cc_config) as H.
    unfold cc_registered. destruct (registered _ _ _ _). by destruct H.
Qed.

(** One object and two threads, which are both warming it: it was invalidated in
    between. *)
Definition cc_schedule : list (nat * (Z * Z)) := map (fun t => (t, (1000, 1001))) [1; 1; 0; 0; 0; 0; 0; 0]%nat.

Lemma cc_one_distinct : NoDup (cc_registered 1).1.
Proof. apply NoDup_singleton. Qed.

Lemma concurrency_test_passes_witness :
  succeeds [concurrency_high_contention 1 2 cc_schedule Z.of_nat] /\
  map (fun th => bool_decide (is_Some (warming th))) (crew (cc_run 1 2 cc_schedule)) = [true; true].
Proof.
  split.
  - apply (concurrency_test_passes 1 2 cc_schedule Z.of_nat); [done|done|exact cc_one_distinct].
  - vm_compute. reflexivity.
Defined.

(** ** test_property.cpp *)

Definition all_states : list WarmthState := enum_all.
Definition property_state_machine_reachable : Case :=
  mkCase "property_state_machine_reachable"
    (concat (map (fun from => concat (map (fun to =>
       if transition_allowed from to then
         let o := new_object (derive "p") MODEL_WEIGHTS (derive "w") (derive "n") "cuda:0" "cuda" in
         [(24, (transition to "test" (restore_state from "setup" o)).1)]
       else []) all_states)) all_states) ++
     [(28, transition_allowed WARM WARM); (29, negb (transition_allowed COLD HOT)); (30, transition_allowed COLD PREPARING);
      (31, transition_allowed PREPARING WARM)]).

Section property.
Variables (objects steps : nat) (now : nat -> Z).    (* 64 and 4000 *)

Definition prop_config : Config := config_for "prop" "n".
Definition prop_registered := registered APPLICATION_DEFINED (fun i => "prop-" +:+ dec_string (Z.of_nat i)) objects prop_config.
Definition next_u64 (s : Z) : Z := u64 (s * 6364136223846793005 + 1442695040888963407).

(** One call, chosen by the next number; [i] is the number of the step. *)
Definition prop_call (i : nat) (choice : Z) (id : WarmthObjectId) (f : WarmthFabric) : WarmthFabric :=
  match Z.shiftr choice 16 mod 7 with
  | 0 => f
  | 1 => (warm id INIT_ENGINE (now (2 * i)) (now (2 * i + 1)) f).2
  | 2 => (invalidate id MODEL_REVISION_CHANGE f).2
  | 3 => (demote id f).2
  | 4 => (evict id f).2
  | 5 => (warm_to_ready id f).2
  | _ => (fab_mark_used id (now (2 * i)) f).2
  end.

(** The checks after a call, without the line printed about a failing one. *)
Definition invariant_checks (o : option WarmthObject) : list (Z * bool) :=
  (55, bool_decide (is_Some o)) ::
  match o with
  | Some o =>
      if execution_ready o then
        [(57, bool_decide (state_ o <> INVALIDATED)); (58, bool_decide (state_ o <> STALE));
         (63, bool_decide (invalidation_reason_ o = None))]
      else []
  | None => []
  end.

Definition prop_step (s : Z * WarmthFabric * list (Z * bool)) (i : nat) : Z * WarmthFabric * list (Z * bool) :=
  let '(seed, f, l) := s in
  let seed := next_u64 seed in
  match prop_registered.1 !! Z.to_nat (Z.shiftr seed 8 mod Z.of_nat (length prop_registered.1)) with
  | None => s
  | Some id =>
      let seed := next_u64 seed in
      let f := prop_call i seed id f in
      (seed, f, l ++ invariant_checks (get id f))
  end.

Definition property_active_roundtrip_invariants (seed : Z) : Case :=
  let '(_, f, l) := fold_left prop_step (seq 0 steps) (seed, prop_registered.2, []) in
  mkCase "property_active_roundtrip_invariants" (l ++ [(67, budgets_balanced f)]).

Let ids := prop_registered.1.

Lemma warm_in_use k id a t1 t2 f : in_use prop_config ids k [] f -> k < 2 ^ 62 ->
  in_use prop_config ids (k + 1) [] (warm id a t1 t2 f).2.
Proof.
  intros Hf Hk. pose proof (in_use_begin _ _ _ _ _ id Hf ltac:(done) Hk) as Hb. unfold warm.
  destruct (warm_begin id f) as [[[res op]|] f']; [|done].
  destruct (in_use_end _ _ _ _ [] (mkPending id res op) (warm_run a f') t1 t2 f' (Permutation_refl _) Hb) as (ps & ->%Permutation_nil_r & H).
  exact H.
Qed.

Lemma prop_call_in_use k i choice id f : in_use prop_config ids k [] f -> k < 2 ^ 62 ->
  in_use prop_config ids (k + 1) [] (prop_call i choice id f).
Proof.
  intros Hf Hk. pose proof (in_use_more _ _ k (k + 1) _ _ ltac:(lia) Hf) as Hm. unfold prop_call.
  destruct (Z.shiftr choice 16 mod 7) as [|p|p]; [done| |by eapply (in_use_call _ _ _ _ _ _ _ (CMarkUsed id _))].
  destruct p as [[p|p|]|[p|[p|p|]|]|]; try (by eapply (in_use_call _ _ _ _ _ _ _ (CMarkUsed id _))).
  - destruct p; try (by eapply (in_use_call _ _ _ _ _ _ _ (CMarkUsed id _))). by eapply (in_use_call _ _ _ _ _ _ _ (CWarmToReady id)).
  - by eapply (in_use_call _ _ _ _ _ _ _ (CDemote id)).
  - by eapply (in_use_call _ _ _ _ _ _ _ (CEvict id)).
  - by eapply (in_use_call _ _ _ _ _ _ _ (CInvalidate id MODEL_REVISION_CHANGE)).
  - by apply warm_in_use.
Qed.

Lemma in_use_checks cfg k ps f id : in_use cfg ids k ps f -> id ∈ ids -> passes (invariant_checks (get id f)).
Proof.
  intros [H1 H2 _] Hid. assert (is_Some (get id f)) as [o Ho] by (apply elem_of_dom; rewrite H2; by apply elem_of_list_to_set).
  rewrite Ho. unfold invariant_checks. apply Forall_cons. split; [by apply bool_decide_eq_true|].
  destruct (execution_ready o) eqn:Hr; [|constructor]. pose proof (fab_reach_clean _ _ _ H1 id o Ho Hr) as Hn.
  unfold execution_ready in Hr. repeat (apply Forall_cons; split; [cbn [snd]; apply bool_decide_eq_true|]); [by intros E; rewrite E in Hr..|done|constructor].
Qed.
End property.

(** The random test keeps its invariant for as long as it runs. *)
Lemma prop_fold_in_use objects now seed n : Z.of_nat n < 2 ^ 62 ->
  let '(_, f, l) := fold_left (prop_step objects now) (seq 0 n) (seed, (prop_registered objects).2, []) in
  in_use prop_config (prop_registered objects).1 (Z.of_nat n) [] f /\ passes l.
Proof.
  induction n as [|n IH]; intros Hn.
  - pose proof (register_next_reach APPLICATION_DEFINED (fun i => "prop-" +:+ dec_string (Z.of_nat i)) objects prop_config) as H.
    unfold prop_registered. destruct (registered _ _ _ _) as [ids f]. destruct H as (_ & Hr & Hd & Hb). cbn [fold_left seq fst snd].
    split; [constructor; [done..|]|constructor]. rewrite Hb. cbn. lia.
  - rewrite seq_S, fold_left_app. cbn [fold_left Nat.add]. specialize (IH ltac:(lia)).
    destruct (fold_left _ _ _) as [[sd f] l]. destruct IH as [Hf Hl]. unfold prop_step.
    destruct (_ !! _) as [id|] eqn:Hid; [|split; [by eapply in_use_more; [|exact Hf]; lia|done]].
    pose proof (prop_call_in_use objects now _ n (next_u64 (next_u64 sd)) id f Hf ltac:(lia)) as Hc.
    replace (Z.of_nat (S n)) with (Z.of_nat n + 1) by lia. split; [done|]. apply Forall_app. split; [done|].
    eapply in_use_checks; [exact Hc|]. by eapply list_elem_of_lookup_2.
Qed.

(** The property test passes, whatever the seed, the clock, the number of objects
    and the number of steps (below 2^62): every transition that the table allows
    succeeds; after each random call the object is there and, when it is
    execution-ready, carries no reason for an invalidation; and at the end the
    budget is balanced. *)
Theorem property_tests_pass (objects steps : nat) (now : nat -> Z) (seed : Z) :
  Z.of_nat steps < 2 ^ 62 ->
  succeeds [property_state_machine_reachable; property_active_roundtrip_invariants objects steps now seed].
Proof.
  intros Hn. apply passes_succeeds, Forall_cons. split; [|apply Forall_singleton].
  - apply all_passes. lazy. reflexivity.
  - unfold property_active_roundtrip_invariants. pose proof (prop_fold_in_use objects now seed steps Hn) as H.
    destruct (fold_left _ _ _) as [[sd f] l]. destruct H as [[H1 _ _] Hl]. apply Forall_app. split; [done|].
    apply Forall_singleton. cbn [snd]. destruct (fab_reach_holds _ _ _ _ H1) as (Hb & _). by apply (holds_balanced _ _ Hb).
Qed.

Lemma property_tests_pass_witness :
  succeeds [property_state_machine_reachable; property_active_roundtrip_invariants 64 4000 Z.of_nat 0x9E3779B97F4A7C15].
Proof. apply property_tests_pass. lia. Defined.

(** ** test_core.cpp *)

Definition test_object (owner : string) : WarmthObject :=
  new_object (derive owner) MODEL_WEIGHTS (derive "w") (derive "n") "cuda:0" "cuda".
(** The state of an object, or the failure of the dereference. *)
Definition got (o : option WarmthObject) (p : WarmthObject -> bool) : bool := from_option p false o.
Definition state_is (s : WarmthState) (o : WarmthObject) : bool := bool_decide (state_ o = s).

Definition identity_roundtrip : Case :=
  let a := derive "hello" in
  let s := to_string a in
  let b := from_string s in
  mkCase "identity_roundtrip"
    [(21, is_valid a); (23, bool_decide (String.length s = 32%nat)); (25, bool_decide (is_Some b));
     (26, from_option (fun b => hi_ b =? hi_ a) false b); (27, from_option (fun b => lo_ b =? lo_ a) false b);
     (28, from_option (fun b => bool_decide (to_string b = s)) false b);
     (30, bool_decide (derive "a" <> derive "b")); (32, negb (is_valid Id128_zero));
     (34, value (next (Gen 5 : WarmthGeneration)) =? 6); (35, value (Gen 1 : WarmthGeneration) <? value (Gen 2 : WarmthGeneration))].

Definition transitions_guarded : Case :=
  let o0 := test_object "t" in
  let '(r1, o1) := transition WARM "" o0 in
  let '(r2, o2) := transition PREPARING "" o1 in
  let '(r3, o3) := transition WARM "" o2 in
  let '(r4, o4) := transition STALE "" o3 in
  let '(r5, o5) := transition INVALIDATED "" o4 in
  let '(r6, o6) := transition PREPARING "" o5 in
  mkCase "transitions_guarded"
    [(40, state_is COLD o0); (42, negb r1); (43, state_is COLD o1); (44, r2); (45, r3); (46, execution_ready o3);
     (47, r4); (48, negb (execution_ready o4)); (49, r5); (50, r6);
     (51, transition_allowed HOT WARM); (52, negb (transition_allowed COLD HOT))].

Definition dimensions_composite : Case :=
  let d := dims_all_valid in
  let d' := mkDims D_VALID D_VALID D_VALID D_VALID D_VALID D_VALID D_VALID D_VALID D_COLD D_VALID D_VALID D_VALID in
  mkCase "dimensions_composite"
    [(57, bool_decide (composite_level dims_default = C_COLD)); (58, negb (all_ready dims_default)); (65, all_ready d);
     (66, bool_decide (composite_level d = C_HOT)); (68, negb (all_ready d'))].

Section core.
Variable now : nat -> Z.

Definition decay_deterministic : Case :=
  let p := decay_policy_default in
  let warmed owner := transition_ WARM "warm" (transition_ PREPARING "p" (test_object owner)) in
  let o := mark_used (now 0) (warmed "d") in
  let r0 := decay_object o p (now 1) false false false false in
  let r1 := decay_object o p (now 2) false true false false in
  let h := mark_used (now 3) (transition_ HOT "hot" (warmed "h")) in
  let r2 := decay_object h p (now 4) true false false false in
  let r3 := decay_object o p (now 5) false true false false in
  let w2 := mark_used (now 6 - 2000 * 1000) (warmed "w2") in
  let r4 := decay_object w2 p (now 7) false false false false in
  let to s r := bool_decide (dr_state r = s) in
  mkCase "decay_deterministic"
    [(79, negb (dr_changed r0)); (80, to WARM r0); (83, dr_changed r1); (83, to STALE r1); (90, dr_changed r2); (90, to WARM r2);
     (93, to (dr_state r1) r3); (93, bool_decide (decay_reason_name (dr_reason r3) = decay_reason_name (dr_reason r1)));
     (99, dr_changed r4); (99, to STALE r4)].

Definition invalidation_soft_hard : Case :=
  let inv := evaluate_invalidation WARM in
  mkCase "invalidation_soft_hard"
    [(104, ir_changed inv); (104, bool_decide (ir_state inv = INVALIDATED)); (106, negb (ir_changed (evaluate_invalidation INVALIDATED)));
     (107, bool_decide (invalidation_reason_name MODEL_REVISION_CHANGE = "MODEL_REVISION_CHANGE"))].

Definition cost_model_explainable : Case :=
  let cost := estimate (set_dimensions dims_default (test_object "c")) (Z.shiftl 1 30) in
  mkCase "cost_model_explainable"
    [(117, 0 <? bytes_to_transfer (estimated cost)); (118, 0 <? kernels_to_prepare (estimated cost));
     (119, dgt (expected_ttfu_ms cost) dzero); (120, bool_decide (cost_kind_name (cost_kind cost) = cost_kind_name CK_ESTIMATED));
     (121, negb (has_measurement cost))].

(** A candidate with three preferences, and one with a priority only. *)
Definition test_candidate (id : WarmthObjectId) (reuse probability priority : double) : Candidate :=
  let p := pref_default in
  mkCand id (mkPref reuse probability (latency_class p) priority (tenant_fairness p) (warming_cost_normalized p)
    (memory_cost_normalized p) (transfer_cost_normalized p) (eviction_risk p) (dependency_availability p)
    (current_partial_warmth p) (expected_benefit p) (available_capacity p) (pref_id p)) dzero INIT_ENGINE.

(** The object of a step, compared; a plan that is not defined passes no check. *)
Definition planned (p : option WarmthPlan) (k : nat) (o : option WarmthObjectId) : bool :=
  bool_decide ((fun p => step_object <$> steps p !! k) <$> p = Some o).
Definition in_two_steps (p : option WarmthPlan) : bool := bool_decide ((fun p => length (steps p)) <$> p = Some 2%nat).

(** The case, given the derived ids. *)
Definition scheduler_case (wl obj1 obj2 zzz aaa : Id128) : Case :=
  let plan l := build (defaults (Gen 1)) wl Id128_zero l in
  let half := dlit 1 2 in
  let p1 := plan [test_candidate obj1 (dlit 9 10) (dlit 9 10) done1; test_candidate obj2 (dlit 1 10) (dlit 1 10) dzero] in
  let p2 := plan [test_candidate zzz dzero dzero half; test_candidate aaa dzero dzero half] in
  let p3 := plan [test_candidate zzz dzero dzero half; test_candidate aaa dzero dzero half] in
  mkCase "scheduler_plan_deterministic"
    [(134, in_two_steps p1); (136, planned p1 0 (Some obj1)); (137, planned p1 1 (Some obj2)); (146, in_two_steps p2);
     (147, planned p2 0 (p ← p3; step_object <$> steps p !! 0%nat)); (148, planned p2 1 (p ← p3; step_object <$> steps p !! 1%nat));
     (149, bool_decide (tie_break <$> p2 = Some "score_desc_then_id_asc"))].
Definition scheduler_plan_deterministic : Case :=
  scheduler_case (derive "wl") (derive "obj1") (derive "obj2") (derive "zzz") (derive "aaa").

(** [text.find(needle) != npos]. *)
Definition contains (needle text : string) : bool := bool_decide (is_Some (String.index 0 needle text)).

Definition explanation_json : Case :=
  let '(id, f) := register MODEL_WEIGHTS "e.model" (fabric_new (config_for "e" "n")) in
  let e := explain id f in
  mkCase "explanation_json"
    [(157, from_option (fun e => negb (re_execution_ready e)) false e);
     (158, from_option (fun e => bool_decide (length (re_dimensions e) = 12%nat)) false e);
     (160, from_option (fun e => match readiness_to_json e with Json.Object _ => true | _ => false end) false e);
     (161, from_option (fun e => bool_decide (is_Some (Json.find "object" (readiness_to_json e)))) false e);
     (163, from_option (fun e => contains "state: COLD" (readiness_to_text e)) false e)].

Definition budget_accounting_to_zero : Case :=
  let t0 := budget_new limits_default in
  let '(r1, _, t1) := reserve DEVICE_MEMORY 100 "a" t0 in
  let '(r2, _, t2) := reserve CONCURRENT_WARMING_OPS 1 "b" t1 in
  let '(e1, t3) := release r1 t2 in
  let '(e2, t4) := release r1 t3 in
  let '(e3, t5) := release r2 t4 in
  let '(ok, _, l1) := reserve DEVICE_MEMORY 100 "" (set_limit DEVICE_MEMORY 50 (budget_new limits_default)) in
  let '(ok2, _, _) := reserve DEVICE_MEMORY 30 "" l1 in
  let says e x := bool_decide (budget_error_name e = budget_error_name x) in
  mkCase "budget_accounting_to_zero"
    [(168, balanced t0); (171, negb (r1 =? 0)); (171, negb (r2 =? 0)); (172, negb (balanced t2)); (173, usage t2 DEVICE_MEMORY =? 100);
     (175, says e1 BE_NONE); (176, says e2 DOUBLE_RELEASE); (177, says e3 BE_NONE); (178, balanced t5); (179, bool_decide (outstanding t5 = 0%nat));
     (184, ok =? 0); (186, negb (ok2 =? 0))].

Definition fabric_cold_warm_invalidate_rewarm : Case :=
  let '(id, f0) := register MODEL_WEIGHTS "f.model" (fabric_new (config_for "f" "n")) in
  let '(r1, f1) := warm_to_ready id f0 in
  let '(r2, f2) := fab_mark_used id (now 0) f1 in
  let '(r3, f3) := invalidate id MODEL_REVISION_CHANGE f2 in
  let '(r4, f4) := warm id INIT_ENGINE (now 1) (now 2) f3 in
  mkCase "fabric_cold_warm_invalidate_rewarm"
    [(193, got (get id f0) (fun o => negb (execution_ready o))); (194, r1); (195, got (get id f1) execution_ready); (196, r2); (197, r3);
     (198, got (get id f3) (fun o => negb (execution_ready o)));
     (199, got (get id f3) (fun o => bool_decide (is_Some (invalidation_reason_ o)))); (202, r4);
     (203, got (get id f4) execution_ready); (205, budgets_balanced f4)].

Definition fabric_evict_demote : Case :=
  let '(id, f0) := register MODEL_WEIGHTS "f2.model" (fabric_new (config_for "f2" "n")) in
  let '(r1, f1) := warm_to_ready id f0 in
  let '(r2, f2) := demote id f1 in
  let '(r3, f3) := warm_to_ready id f2 in
  let '(r4, f4) := evict id f3 in
  mkCase "fabric_evict_demote"
    [(212, r1); (213, r2); (214, got (get id f2) (state_is PARTIALLY_WARM)); (215, r3); (216, r4); (217, got (get id f4) (state_is EVICTED));
     (218, got (get id f4) (fun o => bool_decide (residency_ o = R_HOST_ONLY)))].

Definition generation_relations : Case :=
  let g1 : WarmthGeneration := Gen 10 in
  let g2 : WarmthGeneration := Gen 20 in
  mkCase "generation_relations" [(224, value g1 <? value g2); (225, value (next g1) =? 11); (226, value g1 <? value g2)].

(** In the order in which the cases are registered. *)
Definition core_tests : list Case :=
  [identity_roundtrip; transitions_guarded; dimensions_composite; decay_deterministic; invalidation_soft_hard; cost_model_explainable;
   scheduler_plan_deterministic; explanation_json; budget_accounting_to_zero; fabric_cold_warm_invalidate_rewarm; fabric_evict_demote;
   generation_relations].
End core.

(** A clock that advances by a millisecond between readings. *)
Definition test_clock (i : nat) : Z := 1700000000000 + Z.of_nat i.

Lemma identity_passes : passes (checks identity_roundtrip).
Proof. apply all_passes. vm_compute. reflexivity. Qed.
Definition plan_ids : list Id128 := Eval vm_compute in map derive ["wl"; "obj1"; "obj2"; "zzz"; "aaa"].
Lemma plan_ids_derived : map derive ["wl"; "obj1"; "obj2"; "zzz"; "aaa"] = plan_ids.
Proof. vm_compute. reflexivity. Qed.
Lemma scheduler_passes : passes (checks scheduler_plan_deterministic).
Proof.
  assert (scheduler_plan_deterministic = let id k := nth k plan_ids Id128_zero in scheduler_case (id 0%nat) (id 1%nat) (id 2%nat) (id 3%nat) (id 4%nat)) as ->
    by (rewrite <- plan_ids_derived; reflexivity).
  apply all_passes. vm_compute. reflexivity.
Qed.
Lemma explanation_passes : passes (checks explanation_json).
Proof. apply all_passes. vm_compute. reflexivity. Qed.
Lemma rewarm_passes : passes (checks (fabric_cold_warm_invalidate_rewarm test_clock)).
Proof. apply all_passes. vm_compute. reflexivity. Qed.
Lemma evict_passes : passes (checks fabric_evict_demote).
Proof. apply all_passes. vm_compute. reflexivity. Qed.

Lemma transitions_passes : passes (checks transitions_guarded).
Proof. apply all_passes. vm_compute. reflexivity. Qed.
Lemma dimensions_passes : passes (checks dimensions_composite).
Proof. apply all_passes. vm_compute. reflexivity. Qed.
Lemma decay_passes : passes (checks (decay_deterministic test_clock)).
Proof. apply all_passes. vm_compute. reflexivity. Qed.
Lemma invalidation_passes : passes (checks invalidation_soft_hard).
Proof. apply all_passes. vm_compute. reflexivity. Qed.
Lemma cost_passes : passes (checks cost_model_explainable).
Proof. apply all_passes. vm_compute. reflexivity. Qed.
Lemma budget_passes : passes (checks budget_accounting_to_zero).
Proof. apply all_passes. vm_compute. reflexivity. Qed.
Lemma generation_passes : passes (checks generation_relations).
Proof. apply all_passes. vm_compute. reflexivity. Qed.

(** The core tests pass: each of the twelve cases, with all of its checks. *)
Theorem core_tests_pass : succeeds (core_tests test_clock).
Proof.
  apply passes_succeeds. unfold core_tests.
  apply Forall_cons_2; [exact identity_passes|].
  apply Forall_cons_2; [exact transitions_passes|].
  apply Forall_cons_2; [exact dimensions_passes|].
  apply Forall_cons_2; [exact decay_passes|].
  apply Forall_cons_2; [exact invalidation_passes|].
  apply Forall_cons_2; [exact cost_passes|].
  apply Forall_cons_2; [exact scheduler_passes|].
  apply Forall_cons_2; [exact explanation_passes|].
  apply Forall_cons_2; [exact budget_passes|].
  apply Forall_cons_2; [exact rewarm_passes|].
  apply Forall_cons_2; [exact evict_passes|].
  apply Forall_cons_2; [exact generation_passes|].
  constructor.
Qed.

(** ** test_persistence.cpp *)

(** [make_snapshot], given the derived ids. *)
Definition make_snapshot_of (id1 id2 wl n : Id128) : Snapshot :=
  let o := new_object id1 MODEL_WEIGHTS wl n "cuda:0" "cuda" in
  let o := restore_state WARM "warm" (set_logical_owner "model.weights" o) in
  let o := set_measured_cost_bytes 4096 (mark_used 200 (mark_prepared 100 o)) in
  let o := set_residency R_DEVICE_RESIDENT (set_observed_ttr_ms (dlit 25 2) o) in
  let o := set_dependency_generation DK_MODEL (Gen 11) (set_warmth_generation (Gen 7) o) in
  let o := set_provenance P_MEASURED (set_freshness (dlit 8 10) (set_confidence (dlit 9 10) o)) in
  let o2 := transition_ COLD "cold" (new_object id2 APPLICATION_DEFINED wl n "cpu" "cpu") in
  mkSnapshot 1 (Gen 3) (Gen 7) (Gen 11) (Gen 2) (defaults (Gen 2)) [o; o2].
Definition make_snapshot : Snapshot := make_snapshot_of (derive "snap-object") (derive "snap-obj2") (derive "wl") (derive "n").

Definition with_objects (l : list WarmthObject) (s : Snapshot) : Snapshot :=
  mkSnapshot (format_version s) (snap_epoch s) (warmth_generation s) (dependency_generation s) (snap_policy_generation s) (policy s) l.
Definition with_generation (g : WarmthGeneration) (s : Snapshot) : Snapshot :=
  mkSnapshot (format_version s) (snap_epoch s) g (dependency_generation s) (snap_policy_generation s) (policy s) (Persistence.objects s).

(** The bytes of a snapshot (the encoder throws: none), and what the decoder
    makes of them. *)
Definition encoded (s : Snapshot) : bytes := default [] (encode_snapshot s).
Definition loaded (r : result Snapshot) (p : Snapshot -> bool) : bool := match r with Ok s => p s | Err _ => false end.
Definition rejected (r : result Snapshot) : bool := match r with Ok _ => false | Err _ => true end.
Definition error_has (needle : string) (r : result Snapshot) : bool := match r with Ok _ => false | Err e => contains needle e end.

Definition quiet_NaN : double := 0x7FF8000000000000.

Section persistence.
Variables (snap : Snapshot) (disk : Disk).    (* make_snapshot(), and the disk *)

Definition persistence_roundtrip : Case :=
  let bs := encoded snap in
  let back := decode_snapshot bs in
  let object k p := loaded back (fun s => got (Persistence.objects s !! k) p) in
  mkCase "persistence_roundtrip"
    [(39, negb (bool_decide (bs = []))); (42, loaded back (fun _ => true)); (43, loaded back (fun s => bool_decide (length (Persistence.objects s) = 2%nat)));
     (44, object 0%nat (fun o => bool_decide (id_ o = derive "snap-object"))); (45, object 0%nat (state_is WARM));
     (46, object 0%nat (fun o => measured_cost_bytes_ o =? 4096)); (47, object 0%nat (fun o => deq (observed_ttr_ms_ o) (dlit 25 2)));
     (48, object 1%nat (state_is COLD)); (49, loaded back (fun s => value (snap_epoch s) =? 3)); (50, loaded back (fun s => value (warmth_generation s) =? 7))].

Definition persistence_truncation_rejected : Case :=
  let bs := encoded snap in
  let r := decode_snapshot (take (length bs - 3) bs) in
  mkCase "persistence_truncation_rejected"
    [(58, rejected r); (59, error_has "truncated" r || error_has "trailing" r || error_has "checksum" r)].

(** [bytes[i] = f(bytes[i])]. *)
Definition changed (i : nat) (f : Z -> Z) : bytes := let bs := encoded snap in take i bs ++ map f (take 1 (drop i bs)) ++ drop (S i) bs.
Definition persistence_checksum_rejected : Case :=
  mkCase "persistence_checksum_rejected" [(66, rejected (decode_snapshot (changed 20 (fun b => Z.lxor b 255))))].
Definition persistence_bad_magic_rejected : Case :=
  mkCase "persistence_bad_magic_rejected" [(73, rejected (decode_snapshot ([0; 0; 0; 0] ++ drop 4 (encoded snap))))].
Definition persistence_bad_version_rejected : Case :=
  mkCase "persistence_bad_version_rejected" [(80, rejected (decode_snapshot (changed 4 (fun _ => 255))))].

Definition persistence_trailing_garbage_rejected : Case :=
  let r := decode_snapshot (encoded snap ++ [66; 67]) in
  mkCase "persistence_trailing_garbage_rejected" [(88, rejected r); (89, error_has "trailing" r)].

Definition persistence_duplicate_id_rejected : Case :=
  let dups := match Persistence.objects snap with o :: _ => [set_warmth_generation (Gen 7) o] | [] => [] end in
  let r := decode_snapshot (encoded (with_objects (Persistence.objects snap ++ dups) snap)) in
  mkCase "persistence_duplicate_id_rejected" [(100, rejected r); (101, error_has "duplicate" r)].

Definition persistence_nan_rejected_encode : Case :=
  let objs := match Persistence.objects snap with o :: l => set_confidence quiet_NaN o :: l | [] => [] end in
  mkCase "persistence_nan_rejected_encode" [(109, bool_decide (encode_snapshot (with_objects objs snap) = None))].

Definition persistence_invalid_generation_relation : Case :=
  let r := decode_snapshot (encoded (with_generation (Gen 2) snap)) in
  mkCase "persistence_invalid_generation_relation" [(118, rejected r); (119, error_has "generation" r)].

Definition persistence_file_roundtrip : Case :=
  let path := "wtest_snapshot.wfbin" in
  let '(saved, d) := save_snapshot_file path snap disk in
  let back := load_snapshot_file path d in
  mkCase "persistence_file_roundtrip"
    [(126, match saved with Ok _ => true | Err _ => false end); (128, loaded back (fun _ => true));
     (129, loaded back (fun s => bool_decide (length (Persistence.objects s) = 2%nat)))].

Definition persistence_tests : list Case :=
  [persistence_roundtrip; persistence_truncation_rejected; persistence_checksum_rejected; persistence_bad_magic_rejected;
   persistence_bad_version_rejected; persistence_trailing_garbage_rejected; persistence_duplicate_id_rejected;
   persistence_nan_rejected_encode; persistence_invalid_generation_relation; persistence_file_roundtrip].
End persistence.

(** The ids, computed once. *)
Definition snap_ids : list Id128 := Eval vm_compute in map derive ["snap-object"; "snap-obj2"; "wl"; "n"].
Definition snap_id (k : nat) : Id128 := nth k snap_ids Id128_zero.
Definition snap_known : Snapshot := make_snapshot_of (snap_id 0) (snap_id 1) (snap_id 2) (snap_id 3).

Lemma snap_ids_derived : map derive ["snap-object"; "snap-obj2"; "wl"; "n"] = snap_ids.
Proof. vm_compute. reflexivity. Qed.
Lemma make_snapshot_known : make_snapshot = snap_known /\ derive "snap-object" = snap_id 0.
Proof.
  pose proof snap_ids_derived as H. unfold make_snapshot, snap_known, snap_id. cbn [map] in H. rewrite <- H. by split.
Qed.

Lemma roundtrip_passes : passes (checks (persistence_roundtrip snap_known)).
Proof.
  unfold persistence_roundtrip. rewrite (proj2 make_snapshot_known). apply all_passes. vm_compute. reflexivity.
Qed.
Lemma damage_passes : Forall (fun c => passes (checks c))
  [persistence_truncation_rejected snap_known; persistence_checksum_rejected snap_known; persistence_bad_magic_rejected snap_known;
   persistence_bad_version_rejected snap_known; persistence_trailing_garbage_rejected snap_known].
Proof. do 5 (apply Forall_cons_2; [apply all_passes; vm_compute; reflexivity|]). constructor. Qed.
Lemma rejection_passes : Forall (fun c => passes (checks c))
  [persistence_duplicate_id_rejected snap_known; persistence_nan_rejected_encode snap_known; persistence_invalid_generation_relation snap_known].
Proof. do 3 (apply Forall_cons_2; [apply all_passes; vm_compute; reflexivity|]). constructor. Qed.

Lemma file_roundtrip_passes d : reliable d "wtest_snapshot.wfbin" -> passes (checks (persistence_file_roundtrip snap_known d)).
Proof.
  intros Hd. unfold persistence_file_roundtrip. rewrite save_reliable by done.
  assert (exists bs, encode_snapshot snap_known = Some bs /\ loaded (decode_snapshot bs) (fun s => bool_decide (length (Persistence.objects s) = 2%nat)) = true)
    as (bs & -> & Hb) by (eexists; split; [vm_compute; reflexivity|vm_compute; reflexivity]).
  rewrite load_reliable by done. destruct (decode_snapshot bs) as [s|]; [|done]. cbn [loaded] in Hb. cbn [checks loaded].
  by repeat apply Forall_cons_2.
Qed.

(** The persistence tests pass, where the file system does what it is told for
    the one path that they use. *)
Theorem persistence_tests_pass (d : Disk) :
  reliable d "wtest_snapshot.wfbin" -> succeeds (persistence_tests make_snapshot d).
Proof.
  intros Hd. apply passes_succeeds. rewrite (proj1 make_snapshot_known). unfold persistence_tests.
  apply Forall_cons_2; [apply roundtrip_passes|].
  apply (Forall_app_2 _ [_; _; _; _; _] _ damage_passes), (Forall_app_2 _ [_; _; _] _ rejection_passes).
  apply Forall_cons_2; [by apply file_roundtrip_passes|constructor].
Qed.

Lemma disk_example_tests : reliable disk_example "wtest_snapshot.wfbin".
Proof. by constructor. Qed.
Lemma persistence_tests_pass_witness : succeeds (persistence_tests make_snapshot disk_example).
Proof. exact (persistence_tests_pass disk_example disk_example_tests). Defined.

(** ** benchmarks/benchmark_warmth.cpp *)

Section benchmark.
Local Open Scope cli_scope.
Variables (count : nat) (elapsed : nat -> double) (now : nat -> Z).    (* N, the stop watch in milliseconds, [now_ms] *)

(** ["%.2f"]: the exact value rounded half to even at two decimals. *)
Definition f2 (b : double) : string :=
  let sign := if d_sign b then "-" else "" in
  match to_sf b with
  | SpecFloat.S754_nan => sign +:+ "nan"
  | SpecFloat.S754_infinity _ => sign +:+ "inf"
  | SpecFloat.S754_zero _ => sign +:+ "0.00"
  | SpecFloat.S754_finite _ m e =>
      let n := round_half_even (Zpos m * 100) (- e) in
      let cents := dec_string (n mod 100) in
      sign +:+ dec_string (n / 100) +:+ "." +:+ (if decide (String.length cents = 1%nat) then "0" +:+ cents else cents)
  end.

Definition bench_line (what : string) (ops : Z) (watch : nat) : string :=
  what +:+ ": " +:+ dec_string ops +:+ " ops in " +:+ f2 (elapsed watch) +:+ " ms" +:+ newline.

(** The calls of [get], [plan] and [explain], also those of the four and eight
    threads, leave the fabric as it is and their results are dropped. *)
Definition benchmark_main : cli Z :=
  let n := Z.of_nat count in
  let '(ids, f) := registered APPLICATION_DEFINED (fun i => "o" +:+ dec_string (Z.of_nat i)) count (config_for "bench" "n") in
  _ <- print (bench_line "fabric creation" n 0) ;;
  _ <- print (bench_line "readiness queries" (5 * n) 1) ;;
  _ <- print (bench_line "plan generation" n 2) ;;
  _ <- print (bench_line "explanation" n 3) ;;
  let f := fold_left (fun f '(i, id) => (fab_mark_used id (now i) f).2) (zip (seq 0 (3 * count)) (ids ++ ids ++ ids)) f in
  _ <- print (bench_line "1-thread mutation" (3 * n) 4) ;;
  _ <- print (bench_line "4-thread mutation" (3 * n) 5) ;;
  _ <- print (bench_line "8-thread mutation" (3 * n) 6) ;;
  snap <- call_locked snapshot f ;;
  match encode_snapshot snap with
  | None => undefined    (* nobody catches the exception *)
  | Some bs =>
      let objects s := dec_string (Z.of_nat (length (Persistence.objects s))) in
      _ <- print ("persistence encode: " +:+ objects snap +:+ " objects (" +:+ dec_string (Z.of_nat (length bs)) +:+ " bytes) in " +:+
                  f2 (elapsed 7) +:+ " ms" +:+ newline) ;;
      let back := decode_snapshot bs in
      _ <- print ("persistence decode: " +:+ (match back with Ok s => objects s | Err _ => "0" end) +:+ " objects in " +:+ f2 (elapsed 8) +:+
                  " ms, valid=" +:+ (match back with Ok _ => "1" | Err _ => "0" end) +:+ newline) ;;
      cli_ret 0
  end.

(** The benchmark never gets to the persistence part: it prints its first seven
    lines and blocks in [snapshot]. *)
Theorem benchmark_blocks (d : Disk) :
  let n := Z.of_nat count in
  benchmark_main (fresh_console d) =
    Blocks (mkConsole (fold_left (fun t l => t +:+ bench_line l.1.1 l.1.2 l.2)
      [("fabric creation", n, 0%nat); ("readiness queries", 5 * n, 1%nat); ("plan generation", n, 2%nat); ("explanation", n, 3%nat);
       ("1-thread mutation", 3 * n, 4%nat); ("4-thread mutation", 3 * n, 5%nat); ("8-thread mutation", 3 * n, 6%nat)] "") "" d []).
Proof. cbn zeta. unfold benchmark_main. by destruct (registered _ _ _ _) as [ids f]. Qed.
End benchmark.

Example f2_text : map f2 [dlit 1 10; dlit 12345 1000; dlit 999999 1000; dzero] = ["0.10"; "12.35"; "1000.00"; "0.00"].
Proof. vm_compute. reflexivity. Qed.
