(* ===== verification/Float32.v ===== *)
(** * IEEE 754 binary32: the C++ [float]

    What a CUDA kernel and its host program compute with [float]s, on
    [SpecFloat] at 24 bits, and bounds that keep results away from the
    infinities. *)

From Stdlib Require Import ZArith Lia Floats.SpecFloat.
From stdpp Require Import base numbers.
From S2P Require Import Prelude.
Local Open Scope Z_scope.

Abbreviation float := spec_float.

Definition fadd : float -> float -> float := SFadd 24 128.
Definition fmul : float -> float -> float := SFmul 24 128.
(** [!=] *)
Definition fne (x y : float) : bool := negb (SFeqb x y).
(** [static_cast<float>] of an [int], and a literal [n * 2^k]. *)
Definition f_of_int (z : Z) : float := binary_normalize 24 128 z 0 false.
Definition flit (n k : Z) : float := binary_normalize 24 128 n k false.

(** ** Bounds

    [within k x]: finite, and below [2^k] in magnitude. *)
Definition within (k : Z) (x : float) : Prop :=
  match x with
  | S754_zero _ => True
  | S754_finite _ m e => Zdigits2 (Zpos m) + e <= k
  | _ => False
  end.

Lemma within_weaken k k' x : within k x -> k <= k' -> within k' x.
Proof. destruct x; cbn; lia. Qed.
Lemma within_eq k x : within k x -> SFeqb x x = true.
Proof.
  destruct x as [s|s| |s m e]; try done. intros _. unfold SFeqb, SFcompare. rewrite Z.compare_refl.
  change (Pos.compare_cont Eq m m) with (Pos.compare m m). rewrite Pos.compare_refl. by destruct s.
Qed.

(** *** Digits *)
Lemma digits2_pos_spec p : 2 ^ (Zpos (digits2_pos p) - 1) <= Zpos p < 2 ^ Zpos (digits2_pos p).
Proof.
  assert (forall q, 2 ^ Zpos q = 2 * 2 ^ (Zpos q - 1)) as Hq.
  { intros q. rewrite <- Z.pow_succ_r by lia. f_equal. lia. }
  induction p as [p IH|p IH|]; cbn [digits2_pos]; [| |done];
    rewrite ?Pos2Z.inj_succ; replace (Z.succ _ - 1) with (Zpos (digits2_pos p)) by lia; rewrite Z.pow_succ_r by lia; specialize (Hq (digits2_pos p)); lia.
Qed.

Lemma Zdigits2_nonneg z : 0 <= Zdigits2 z.
Proof. by destruct z. Qed.
Lemma Zdigits2_le z k : 0 <= k -> (Zdigits2 z <= k <-> Z.abs z < 2 ^ k).
Proof.
  intros Hk. destruct z as [|p|p]; cbn [Zdigits2 Z.abs]; [split; [|done]; intros _; by apply Z.pow_pos_nonneg| |];
    pose proof (digits2_pos_spec p) as [Hl Hu].
  all: split; [intros Hd; pose proof (Z.pow_le_mono_r 2 _ _ (eq_refl : 0 < 2) Hd); lia|]; intros Hp.
  all: destruct (Z.le_gt_cases (Zpos (digits2_pos p)) k) as [|Hgt]; [done|].
  all: pose proof (Z.pow_le_mono_r 2 k (Zpos (digits2_pos p) - 1) (eq_refl : 0 < 2) ltac:(lia)); lia.
Qed.
Lemma Zdigits2_lt z : Z.abs z < 2 ^ Zdigits2 z.
Proof. apply Zdigits2_le; [apply Zdigits2_nonneg|lia]. Qed.

Lemma Zdigits2_opp s z : Zdigits2 (cond_Zopp s z) = Zdigits2 z.
Proof. destruct s, z; done. Qed.
Lemma Zdigits2_add k a b : 0 <= k -> Zdigits2 a <= k -> Zdigits2 b <= k -> Zdigits2 (a + b) <= k + 1.
Proof.
  intros Hk Ha Hb. apply Zdigits2_le; [lia|]. apply Zdigits2_le in Ha, Hb; [|lia..]. rewrite Z.add_1_r, Z.pow_succ_r by lia. lia.
Qed.
Lemma Zdigits2_mul a b : Zdigits2 (a * b) <= Zdigits2 a + Zdigits2 b.
Proof.
  pose proof (Zdigits2_nonneg a). pose proof (Zdigits2_nonneg b). apply Zdigits2_le; [lia|]. rewrite Z.abs_mul, Z.pow_add_r by lia.
  pose proof (Zdigits2_lt a). pose proof (Zdigits2_lt b). apply Z.mul_lt_mono_nonneg; lia.
Qed.
Lemma Zdigits2_shl p d : Zdigits2 (Zpos (Pos.iter xO p d)) = Zdigits2 (Zpos p) + Zpos d.
Proof.
  induction d as [|d IH] using Pos.peano_ind; [cbn; lia|]. rewrite Pos.iter_succ. cbn [Zdigits2 digits2_pos] in *. lia.
Qed.

(** *** Rounding *)

(** A significand [m * 2^e] below [2^k]. *)
Definition fits (k m e : Z) : Prop := 0 <= m /\ e <= k /\ Zdigits2 m + e <= k.

Lemma iter_pos_iter {A} (f : A -> A) p x : SpecFloat.iter_pos f p x = Pos.iter f x p.
Proof.
  revert x. induction p as [p IH|p IH|]; intros x; cbn [SpecFloat.iter_pos Pos.iter]; rewrite ?IH; [|done|done].
  by rewrite <- !Pos.iter_swap.
Qed.

Lemma shr_1_digits r : 0 <= shr_m r -> 0 <= shr_m (shr_1 r) /\ Zdigits2 (shr_m (shr_1 r)) = Z.max 0 (Zdigits2 (shr_m r) - 1).
Proof. destruct r as [[|[p|p|]|p] a b]; cbn; intros H; lia. Qed.

Lemma shr_digits r p : 0 <= shr_m r ->
  0 <= shr_m (SpecFloat.iter_pos shr_1 p r) /\ Zdigits2 (shr_m (SpecFloat.iter_pos shr_1 p r)) = Z.max 0 (Zdigits2 (shr_m r) - Zpos p).
Proof.
  intros Hr. rewrite iter_pos_iter. induction p as [|p [H1 H2]] using Pos.peano_ind; [by apply shr_1_digits|].
  rewrite Pos.iter_succ. destruct (shr_1_digits _ H1) as [H3 H4]. split; [done|]. lia.
Qed.

Lemma shr_fexp_fits k m e l : -149 <= k -> fits k m e ->
  let '(r, e') := shr_fexp 24 128 m e l in fits k (shr_m r) e'.
Proof.
  intros Hk (Hm & He & Hd). unfold shr_fexp, shr.
  assert (shr_m (shr_record_of_loc m l) = m) as Hs by (by destruct l as [|[]]).
  set (j := fexp 24 128 (Zdigits2 m + e) - e). assert (j = Z.max (Zdigits2 m + e - 24) (-149) - e) as Hj by reflexivity. clearbody j.
  destruct j as [|p|p]; unfold fits; rewrite ?Hs; [done| |done].
  destruct (shr_digits (shr_record_of_loc m l) p) as [H1 H2]; [by rewrite Hs|]. rewrite Hs in H2. pose proof (Zdigits2_nonneg m). lia.
Qed.

Lemma round_fits k m e l : fits k m e -> fits (k + 1) (round_nearest_even m l) e.
Proof.
  intros (Hm & He & Hd). assert (Zdigits2 (m + 1) <= Zdigits2 m + 1) as H1.
  { pose proof (Zdigits2_nonneg m). apply Zdigits2_le; [lia|]. rewrite Z.pow_add_r by lia. pose proof (Zdigits2_lt m). lia. }
  destruct l as [|[]]; cbn [round_nearest_even]; unfold fits; try (lia || (destruct (Z.even m); lia)).
Qed.

Lemma round_aux_within k s m e l : -149 <= k <= 103 -> fits k m e -> within (k + 1) (binary_round_aux 24 128 s m e l).
Proof.
  intros Hk Hf. unfold binary_round_aux. pose proof (shr_fexp_fits k m e l ltac:(lia) Hf) as H1.
  destruct (shr_fexp 24 128 m e l) as [r e']. apply (round_fits _ _ _ (loc_of_shr_record r)) in H1.
  pose proof (shr_fexp_fits (k + 1) _ _ loc_Exact ltac:(lia) H1) as H2. destruct (shr_fexp _ _ _ _ loc_Exact) as [r' e''].
  destruct H2 as (H2 & H3 & H4). destruct (shr_m r') as [|p|p]; [done| |lia].
  destruct (Z.leb_spec e'' (128 - 24)) as [_|]; [exact H4|lia].
Qed.

Lemma shl_align_fits k p e e' : fits k (Zpos p) e ->
  let '(q, f) := shl_align p e e' in fits k (Zpos q) f.
Proof.
  intros (Hm & He & Hd). unfold shl_align. destruct (e' - e) as [|d|d] eqn:E; [done|done|].
  unfold fits. rewrite Zdigits2_shl. pose proof (Zdigits2_nonneg (Zpos p)). lia.
Qed.
Lemma shl_align_digits p e e' : e' <= e -> Zdigits2 (Zpos (shl_align p e e').1) + e' = Zdigits2 (Zpos p) + e.
Proof.
  intros He. unfold shl_align. destruct (e' - e) as [|d|d] eqn:E; cbn [fst]; rewrite ?Zdigits2_shl; lia.
Qed.

Lemma normalize_within k z e s : -149 <= k <= 103 -> e <= k -> Zdigits2 z + e <= k -> within (k + 1) (binary_normalize 24 128 z e s).
Proof.
  intros Hk He Hd. destruct z as [|p|p]; cbn [binary_normalize]; [done| |]; unfold binary_round;
    match goal with |- context [shl_align p e ?x] => pose proof (shl_align_fits k p e x ltac:(split; [done|split; [exact He|exact Hd]])) as Hf; destruct (shl_align p e x) end;
    by apply round_aux_within.
Qed.

(** *** Operations *)
Lemma fadd_within k x y : -149 <= k <= 102 -> within k x -> within k y -> within (k + 2) (fadd x y).
Proof.
  intros Hk Hx Hy. destruct x as [[]|[]| |s m e], y as [[]|[]| |s' m' e']; try done;
    try (eapply within_weaken; [first [exact Hx|exact Hy]|lia]).
  unfold fadd, SFadd. cbv zeta. cbn [within] in Hx, Hy. set (ez := Z.min e e').
  replace (k + 2) with (k + 1 + 1) by lia.
  pose proof (shl_align_digits m e ez ltac:(lia)). pose proof (shl_align_digits m' e' ez ltac:(lia)).
  pose proof (Zdigits2_nonneg (Zpos m)). pose proof (Zdigits2_nonneg (Zpos m')).
  apply normalize_within; [lia|lia|].
  pose proof (Zdigits2_add (k - ez) (cond_Zopp s (Zpos (shl_align m e ez).1)) (cond_Zopp s' (Zpos (shl_align m' e' ez).1))) as Hadd.
  rewrite !Zdigits2_opp in Hadd. lia.
Qed.

Lemma fmul_within k k' x y : -149 <= k + k' <= 103 -> within k x -> within k' y -> within (k + k' + 1) (fmul x y).
Proof.
  intros Hk Hx Hy. destruct x as [[]|[]| |s m e], y as [[]|[]| |s' m' e']; try done.
  unfold fmul, SFmul. cbn [within] in Hx, Hy. apply round_aux_within; [lia|].
  pose proof (Zdigits2_mul (Zpos m) (Zpos m')) as Hm. change (Zpos m * Zpos m') with (Zpos (m * m')) in Hm.
  pose proof (eq_refl : Zdigits2 (Zpos m) = Zpos (digits2_pos m)). pose proof (eq_refl : Zdigits2 (Zpos m') = Zpos (digits2_pos m')). split; lia.
Qed.

Lemma f_of_int_within k z : 0 <= k <= 103 -> Z.abs z < 2 ^ k -> within (k + 1) (f_of_int z).
Proof. intros Hk Hz. apply normalize_within; [lia|lia|]. rewrite Z.add_0_r. apply Zdigits2_le; lia. Qed.
