(* ===== verification/Cuda.v ===== *)
(** * cuda/warmth_cuda.cu: the GPU validation program

    The kernel, as what one thread does to device memory; the host program, over
    a runtime whose operations are the CUDA calls it makes.  The runtime is not
    part of this program: [Runtime] lists its operations, [Lawful] what its
    documentation promises about device memory when a call succeeds.  Any call
    may fail.  [Lossy] is a runtime that works until the device is reset and
    then refuses everything. *)

From Stdlib Require Import ZArith Lia String Floats.SpecFloat.
From stdpp Require Import base numbers strings pretty list gmap fin_maps.
From S2P Require Import Prelude Float64 Explanation Console Float32.
Local Open Scope Z_scope.
Local Open Scope warmth_scope.
Local Open Scope cli_scope.

(** ** Device code *)
Abbreviation ptr := nat.
Abbreviation Memory := (gmap ptr (list float)).

(** [None] is an access out of bounds. *)
Definition load (p : option ptr) (i : Z) (m : Memory) : option float :=
  q ← p; l ← m !! q; if i <? 0 then None else l !! Z.to_nat i.
Definition store (p : option ptr) (i : Z) (x : float) (m : Memory) : option Memory :=
  q ← p; l ← m !! q; if (0 <=? i) && (i <? Z.of_nat (length l)) then Some (<[q := <[Z.to_nat i := x]> l]> m) else None.

(** An [unsigned int] converted to [int]. *)
Definition as_int (z : Z) : Z := if z <? 2 ^ 31 then z else z - 2 ^ 32.

(** What the thread [threadIdx] of the block [blockIdx] does. *)
Definition saxpy_kernel (out a b : option ptr) (n blockDim blockIdx threadIdx : Z) (m : Memory) : option Memory :=
  let i := as_int (wrap 32 (wrap 32 (blockIdx * blockDim) + threadIdx)) in
  if i <? n then x ← load a i m; y ← load b i m; store out i (fadd x y) m else Some m.

(** A launch: the grid, the block and the code of a thread. *)
Record Launch := mkLaunch { grid : Z; block : Z; thread : Z -> Z -> Memory -> option Memory }.
Definition threads (k : Launch) : list (Z * Z) := b ← seqZ 0 (grid k); (b,.) <$> seqZ 0 (block k).
Fixpoint run_threads (k : Launch) (order : list (Z * Z)) (m : Memory) : option Memory :=
  match order with [] => Some m | (b, t) :: order => m ← thread k b t m; run_threads k order m end.
(** The threads run in an order nobody knows. *)
Definition ran (k : Launch) (m m' : Memory) : Prop := exists order, order ≡ₚ threads k /\ run_threads k order m = Some m'.

Definition saxpy (out a b : option ptr) (n : Z) : Launch := mkLaunch ((n + 255) / 256) 256 (saxpy_kernel out a b n 256).

(** ** The CUDA runtime *)
Class Runtime (D : Type) := {
  stream : Type; graph : Type; exec : Type;
  memory : D -> Memory;                                   (* what the buffers hold *)
  set_device : D -> bool * D;
  properties : D -> option (string * Z * Z * Z);          (* name, major, minor, memory *)
  mem_info : D -> option Z * D;                           (* free bytes *)
  malloc : Z -> D -> option ptr * D;
  to_device : option ptr -> list float -> D -> bool * D;
  from_device : option ptr -> Z -> D -> option (list float) * D;
  launch : option stream -> Launch -> D -> D;
  device_sync : D -> bool * D;
  stream_sync : option stream -> D -> bool * D;
  stream_create : D -> option stream * D;
  begin_capture : stream -> D -> bool * D;
  end_capture : stream -> D -> option graph * D;
  instantiate : graph -> D -> option exec * D;
  graph_launch : exec -> stream -> D -> bool * D;
  exec_destroy : exec -> D -> D;
  graph_destroy : graph -> D -> D;
  stream_destroy : stream -> D -> D;
  free : option ptr -> D -> D;
  reset : D -> D }.

Class Lawful {D : Type} (R : Runtime D) := {
  malloc_spec k d p d' : malloc (4 * Z.of_nat k) d = (Some p, d') ->
    memory d !! p = None /\ exists l, length l = k /\ memory d' = <[p := l]> (memory d);
  to_device_spec p l l0 d d' : to_device (Some p) l d = (true, d') -> memory d !! p = Some l0 -> length l0 = length l ->
    memory d' = <[p := l]> (memory d);
  from_device_spec p l l0 d d' : from_device (Some p) (4 * Z.of_nat (length l0)) d = (Some l, d') -> memory d !! p = Some l0 ->
    l = l0 /\ memory d' = memory d;
  device_sync_spec k d d' : device_sync (launch None k d) = (true, d') -> ran k (memory d) (memory d');
  stream_sync_spec k d d' : stream_sync None (launch None k d) = (true, d') -> ran k (memory d) (memory d');
  stream_create_spec d : memory (stream_create d).2 = memory d;
  replay_spec s g x k d d1 d2 d3 d4 d5 : begin_capture s d = (true, d1) -> end_capture s (launch (Some s) k d1) = (Some g, d2) ->
    instantiate g d2 = (Some x, d3) -> graph_launch x s d3 = (true, d4) -> stream_sync (Some s) d4 = (true, d5) ->
    ran k (memory d) (memory d5) }.

(** ** The host program *)

(** [init_data] and [verify]. *)
Definition init_a (n : nat) : list float := (fun i => fmul (f_of_int (Z.of_nat i)) (flit 1 (-1))) <$> seq 0 n.
Definition init_b (n : nat) : list float := (fun i => fmul (f_of_int (Z.of_nat i)) (flit (-1) (-2))) <$> seq 0 n.
Fixpoint verify (out a b : list float) : bool :=
  match out, a, b with
  | o :: out, x :: a, y :: b => if fne o (fadd x y) then false else verify out a b
  | _, _, _ => true
  end.

Definition kIters : nat := 32.

Record Process (D : Type) := mkProcess { out : string; dev : D }.
Arguments mkProcess {D} _ _.
Arguments out {D} _.
Arguments dev {D} _.

Section demo.
Context {D : Type} `{R : Runtime D}.
Abbreviation gpu := (program (Process D)).

Definition say (text : string) : gpu unit := fun s => Done tt (mkProcess (out s +:+ text +:+ newline) (dev s)).
Definition ask {A} (op : D -> A * D) : gpu A := fun s => Done (op (dev s)).1 (mkProcess (out s) (op (dev s)).2).
Definition tell (op : D -> D) : gpu unit := fun s => Done tt (mkProcess (out s) (op (dev s))).
Definition fail (msg : string) : gpu Z := _ <- say msg ;; cli_ret 1.

Variable host_memory : bool.  (* whether [std::malloc] finds memory *)
Variable clock : nat -> Z.    (* readings of the clock, in nanoseconds *)
Variable n : nat.             (* [kNum] *)

Definition bytes : Z := 4 * Z.of_nat n.
Definition ms_between (i j : nat) : string := pretty (Z.quot (clock j - clock i) 1000000).
Definition mib (b : Z) : string := pretty (Z.shiftr b 20).
Definition ha : list float := init_a n.
Definition hb : list float := init_b n.
Definition kernel (dout da db : option ptr) : Launch := saxpy dout da db (Z.of_nat n).

(** Steps 2 to 9.  [k] is the rest of the program. *)
Definition cold (k : option ptr -> option ptr -> option ptr -> list float -> gpu Z) : gpu Z :=
  dout <- ask (malloc bytes) ;; if negb (bool_decide (is_Some dout)) then fail "cudaMalloc failed" else
  da <- ask (malloc bytes) ;; if negb (bool_decide (is_Some da)) then fail "cudaMalloc failed" else
  db <- ask (malloc bytes) ;; if negb (bool_decide (is_Some db)) then fail "cudaMalloc failed" else
  ok <- ask (to_device da ha) ;; if negb ok then fail "H2D failed" else
  ok <- ask (to_device db hb) ;; if negb ok then fail "H2D failed" else
  _ <- tell (launch None (kernel dout da db)) ;;
  ok <- ask device_sync ;; if negb ok then fail "kernel/sync failed" else
  r <- ask (from_device dout bytes) ;;
  match r with
  | None => fail "D2H failed"
  | Some hout =>
      if negb (verify hout ha hb) then fail "COLD verification FAILED" else
      _ <- say ("COLD: allocated, transferred, ran, verified in " +:+ ms_between 0 1 +:+ " ms") ;; k dout da db hout
  end.

(** Steps 10 and 11. *)
Fixpoint reuse (i : nat) (dout da db : option ptr) (k : gpu Z) : gpu Z :=
  match i with
  | O => k
  | S i =>
      _ <- tell (launch None (kernel dout da db)) ;;
      ok <- ask (stream_sync None) ;; if negb ok then fail "warm sync failed" else reuse i dout da db k
  end.
Definition warm (dout da db : option ptr) (k : gpu Z) : gpu Z :=
  reuse kIters dout da db
    (_ <- say ("WARM: " +:+ pretty (Z.of_nat kIters) +:+ " retained executions in " +:+ ms_between 2 3 +:+ " ms") ;; k).

(** The graph: a step that fails is skipped, with what depends on it. *)
Definition replay (s : stream) (x : exec) (dout : option ptr) (hout : list float) (k : list float -> gpu Z) : gpu Z :=
  ok <- ask (graph_launch x s) ;; if negb ok then k hout else
  ok <- ask (stream_sync (Some s)) ;; if negb ok then k hout else
  r <- ask (from_device dout bytes) ;;
  let hout := default hout r in
  if negb (verify hout ha hb) then fail "GRAPH verification FAILED" else
  _ <- say "GRAPH: capture/instantiate/replay verified" ;; k hout.
Definition capture (dout da db : option ptr) (hout : list float) (k : stream -> list float -> gpu Z) : gpu Z :=
  s <- ask stream_create ;;
  s <- deref s ;;
  ok <- ask (begin_capture s) ;; if negb ok then k s hout else
  _ <- tell (launch (Some s) (kernel dout da db)) ;;
  g <- ask (end_capture s) ;;
  match g with
  | None => k s hout
  | Some g =>
      x <- ask (instantiate g) ;;
      match x with
      | None => _ <- tell (graph_destroy g) ;; k s hout
      | Some x => replay s x dout hout (fun hout => _ <- tell (exec_destroy x) ;; _ <- tell (graph_destroy g) ;; k s hout)
      end
  end.

(** Steps 12 and 13.  [free0] is what the variable [freeB] holds. *)
Definition teardown (free0 : Z) (dout da db : option ptr) (k : Z -> gpu Z) : gpu Z :=
  r <- ask mem_info ;;
  let before := default free0 r in
  _ <- tell (free dout) ;; _ <- tell (free da) ;; _ <- tell (free db) ;; _ <- tell reset ;;
  r <- ask mem_info ;;
  let after := default before r in
  _ <- say ("INVALIDATE: free memory " +:+ mib before +:+ " -> " +:+ mib after +:+ " MiB (warmth fell)") ;; k after.

(** Steps 14 and 15: the results of the calls are not looked at. *)
Definition rewarm (hout : list float) (k : option ptr -> option ptr -> option ptr -> gpu Z) : gpu Z :=
  ok <- ask set_device ;; if negb ok then fail "re-set device failed" else
  dout <- ask (malloc bytes) ;; da <- ask (malloc bytes) ;; db <- ask (malloc bytes) ;;
  _ <- ask (to_device da ha) ;; _ <- ask (to_device db hb) ;;
  _ <- tell (launch None (kernel dout da db)) ;;
  _ <- ask device_sync ;;
  r <- ask (from_device dout bytes) ;;
  let hout := default hout r in
  if negb (verify hout ha hb) then fail "REWARM verification FAILED" else
  _ <- say ("REWARM: fresh readiness verified in " +:+ ms_between 4 5 +:+ " ms") ;; k dout da db.

(** Steps 16 and 17. *)
Definition memory_recovered (baseline final : Z) : bool := baseline <=? wrap 64 (final + Z.shiftl 64 20).
Definition cleanup (baseline after : Z) (s : stream) (dout da db : option ptr) : gpu Z :=
  _ <- tell (free dout) ;; _ <- tell (free da) ;; _ <- tell (free db) ;; _ <- tell (stream_destroy s) ;; _ <- tell reset ;;
  r <- ask mem_info ;;
  let final := default after r in
  _ <- say ("CLEANUP: free memory " +:+ mib after +:+ " -> " +:+ mib final +:+ " MiB (baseline " +:+ mib baseline +:+ ")") ;;
  let ok := memory_recovered baseline final in
  _ <- say ("cold=" +:+ ms_between 0 1 +:+ "ms warm=" +:+ ms_between 2 3 +:+ "ms rewarm=" +:+ ms_between 4 5 +:+
            "ms memory_recovered=" +:+ (if ok then "1" else "0")) ;;
  if negb ok then fail "CUDA memory did not recover" else
  _ <- say "CUDA cold->warm->invalidate->rewarm proof PASSED" ;; cli_ret 0.

Definition demo : gpu Z :=
  ok <- ask set_device ;; if negb ok then fail "cudaSetDevice failed" else
  p <- ask (fun d => (properties d, d)) ;;
  p <- deref p ;;
  let '(name, major, minor, total) := p in
  _ <- say ("device: " +:+ c_str name +:+ " (compute " +:+ pretty major +:+ "." +:+ pretty minor +:+ ", global " +:+
            mib total +:+ " MiB)") ;;
  r <- ask mem_info ;;
  let baseline := default 0 r in
  if negb host_memory then undefined else
  cold (fun dout da db hout =>
  warm dout da db (
  capture dout da db hout (fun s hout =>
  teardown baseline dout da db (fun after =>
  rewarm hout (fun dout da db =>
  cleanup baseline after s dout da db))))).
End demo.

Definition kNum : nat := Z.to_nat (Z.shiftl 1 20).
Definition main {D} `{R : Runtime D} (host_memory : bool) (clock : nat -> Z) : program (Process D) Z := demo host_memory clock kNum.

(** ** The data *)
Definition expected (n : nat) : list float := zip_with fadd (init_a n) (init_b n).

Lemma init_a_length n : length (init_a n) = n.
Proof. unfold init_a. by rewrite length_fmap, length_seq. Qed.
Lemma init_b_length n : length (init_b n) = n.
Proof. unfold init_b. by rewrite length_fmap, length_seq. Qed.
Lemma expected_length n : length (expected n) = n.
Proof. unfold expected. rewrite length_zip_with, init_a_length, init_b_length. lia. Qed.

(** No sum is a NaN, so each equals itself. *)
Lemma element_within i : (i < 2 ^ 20)%Z -> 0 <= i ->
  within 24 (fadd (fmul (f_of_int i) (flit 1 (-1))) (fmul (f_of_int i) (flit (-1) (-2)))).
Proof.
  intros Hi Hi0. pose proof (f_of_int_within 20 i ltac:(lia) ltac:(lia)) as H.
  apply (fadd_within 22); [lia|..]; [apply (fmul_within 21 0)|apply (fmul_within 21 0)]; try lia; try done.
Qed.

Lemma verify_sums {A} (f g : A -> float) (l : list A) : (forall x, x ∈ l -> SFeqb (fadd (f x) (g x)) (fadd (f x) (g x)) = true) ->
  verify (zip_with fadd (f <$> l) (g <$> l)) (f <$> l) (g <$> l) = true.
Proof.
  induction l as [|x l IH]; intros H; [done|]. cbn. unfold fne. rewrite H by (by left). apply IH. intros y Hy. apply H. by right.
Qed.

Lemma verify_expected n : Z.of_nat n <= 2 ^ 20 -> verify (expected n) (init_a n) (init_b n) = true.
Proof.
  intros Hn. apply verify_sums. intros i Hi. apply elem_of_seq in Hi. eapply within_eq, element_within; lia.
Qed.

(** ** The kernel *)
Section kernel.
Variables (n : nat) (po pa pb : ptr) (la lb : list float) (m : Memory).

Abbreviation K := (saxpy (Some po) (Some pa) (Some pb) (Z.of_nat n)).

Definition index (x : Z * Z) : Z := x.1 * 256 + x.2.
Lemma threads_index x : Z.of_nat n + 255 < 2 ^ 31 -> x ∈ threads K -> 0 <= index x < 2 ^ 31.
Proof.
  unfold threads. intros Hn (b & Hx & Hb)%list_elem_of_bind. apply list_elem_of_fmap in Hx as (t & -> & Ht).
  apply elem_of_seqZ in Hb, Ht. cbn [grid block saxpy] in *. unfold index. cbn [fst snd].
  pose proof (Z.mul_div_le (Z.of_nat n + 255) 256 ltac:(lia)). lia.
Qed.
Lemma index_covers i : (i < n)%nat -> exists x, x ∈ threads K /\ index x = Z.of_nat i.
Proof.
  pose proof (Z.div_mod (Z.of_nat i) 256 ltac:(done)) as Hdm. pose proof (Z.mod_pos_bound (Z.of_nat i) 256 ltac:(done)).
  intros Hi. exists (Z.of_nat i / 256, Z.of_nat i mod 256). split; [|unfold index; cbn [fst snd]; lia].
  unfold threads. apply list_elem_of_bind. exists (Z.of_nat i / 256). cbn [grid block saxpy]. split.
  - apply list_elem_of_fmap. eexists. split; [reflexivity|]. apply elem_of_seqZ. lia.
  - apply elem_of_seqZ. split; [lia|]. apply (Z.mul_lt_mono_pos_l 256); [done|]. pose proof (Z.mul_succ_div_gt (Z.of_nat n + 255) 256 ltac:(done)). lia.
Qed.

Hypothesis a_there : m !! pa = Some la.
Hypothesis b_there : m !! pb = Some lb.
Hypothesis apart : po <> pa /\ po <> pb.
Hypothesis lengths : length la = n /\ length lb = n.

(** One thread. *)
Definition updated (i : Z) (o : list float) : list float :=
  match zip_with fadd la lb !! Z.to_nat i with Some x => <[Z.to_nat i := x]> o | None => o end.

Lemma load_at p l i o : m !! p = Some l -> po <> p -> 0 <= i -> load (Some p) i (<[po := o]> m) = l !! Z.to_nat i.
Proof.
  intros Hp Hne Hi. unfold load. cbn [mbind option_bind]. rewrite lookup_insert_ne, Hp by done. cbn [mbind option_bind]. by destruct (Z.ltb_spec i 0); [lia|].
Qed.

Lemma saxpy_thread b t o : 0 <= index (b, t) < 2 ^ 31 -> length o = n ->
  thread K b t (<[po := o]> m) = Some (<[po := updated (index (b, t)) o]> m).
Proof.
  intros Hi Ho. cbn [thread saxpy]. unfold saxpy_kernel. set (i := index (b, t)) in *.
  assert (as_int (wrap 32 (wrap 32 (b * 256) + t)) = i) as ->.
  { unfold wrap. rewrite Z.add_mod_idemp_l by done. change (b * 256 + t) with i. rewrite Z.mod_small by lia.
    unfold as_int. by destruct (Z.ltb_spec i (2 ^ 31)); [|lia]. }
  unfold updated. destruct (Z.ltb_spec i (Z.of_nat n)) as [Hlt|Hge].
  - destruct (lookup_lt_is_Some_2 la (Z.to_nat i)) as [x Hx]; [lia|]. destruct (lookup_lt_is_Some_2 lb (Z.to_nat i)) as [y Hy]; [lia|].
    rewrite (load_at pa la), Hx by (done || lia || tauto). cbn [mbind option_bind].
    rewrite (load_at pb lb), Hy by (done || lia || tauto). cbn [mbind option_bind].
    assert (zip_with fadd la lb !! Z.to_nat i = Some (fadd x y)) as -> by (apply lookup_zip_with_Some; eauto).
    unfold store. cbn [mbind option_bind]. rewrite lookup_insert_eq. cbn [mbind option_bind].
    destruct (Z.leb_spec 0 i); [|lia]. destruct (Z.ltb_spec i (Z.of_nat (length o))); [|lia]. cbn [andb]. by rewrite insert_insert_eq.
  - rewrite (proj2 (lookup_ge_None _ _)); [done|]. rewrite length_zip_with. lia.
Qed.

Lemma updated_length i o : length (updated i o) = length o.
Proof. unfold updated. destruct (zip_with _ _ _ !! _); [apply length_insert|done]. Qed.

(** Many threads: the places they are responsible for are written. *)
Lemma saxpy_threads order o : Forall (fun x => 0 <= index x < 2 ^ 31) order -> length o = n ->
  exists o', run_threads K order (<[po := o]> m) = Some (<[po := o']> m) /\ length o' = n /\
    forall i, o' !! i = zip_with fadd la lb !! i \/ (o' !! i = o !! i /\ Z.of_nat i ∉ index <$> order).
Proof.
  revert o. induction order as [|[b t] order IH]; intros o Hall Ho.
  { exists o. split_and!; [done|done|]. intros i. right. split; [done|]. apply not_elem_of_nil. }
  apply Forall_cons in Hall as [Hx Hall].
  destruct (IH (updated (index (b, t)) o)) as (o' & Hrun & Hlen & Hat); [done|by rewrite updated_length|].
  exists o'. cbn [run_threads]. rewrite saxpy_thread by done. cbn [mbind option_bind]. split_and!; [done|done|].
  intros i. destruct (Hat i) as [E|[E Hni]]; [by left|]. cbn [fmap list_fmap]. rewrite not_elem_of_cons, E. unfold updated in *.
  destruct (decide (Z.of_nat i = index (b, t))) as [Heq|Hne].
  - left. rewrite <- Heq, Nat2Z.id. destruct (zip_with fadd la lb !! i) eqn:Ez.
    + rewrite list_lookup_insert_eq; [done|]. apply lookup_lt_Some in Ez. rewrite length_zip_with in Ez. lia.
    + apply lookup_ge_None_2. apply lookup_ge_None in Ez. rewrite length_zip_with in Ez. lia.
  - right. split; [|done]. destruct (zip_with _ _ _ !! _); [|done]. rewrite list_lookup_insert_ne; [done|]. lia.
Qed.
End kernel.

(** In any order the launch adds the vectors. *)
Lemma saxpy_runs (n : nat) (po pa pb : ptr) (lo la lb : list float) (m : Memory) (order : list (Z * Z)) :
  Z.of_nat n + 255 < 2 ^ 31 ->
  m !! po = Some lo -> m !! pa = Some la -> m !! pb = Some lb -> po <> pa /\ po <> pb ->
  length lo = n /\ length la = n /\ length lb = n ->
  order ≡ₚ threads (saxpy (Some po) (Some pa) (Some pb) (Z.of_nat n)) ->
  run_threads (saxpy (Some po) (Some pa) (Some pb) (Z.of_nat n)) order m = Some (<[po := zip_with fadd la lb]> m).
Proof.
  intros Hn Ho Ha Hb Hne (Hlo & Hla & Hlb) Hord.
  destruct (saxpy_threads n po pa pb la lb m Ha Hb Hne (conj Hla Hlb) order lo) as (o' & Hrun & Hlen & Hat); [|done|].
  { rewrite Hord. apply Forall_forall. intros x Hx. by eapply threads_index. }
  rewrite (insert_id m) in Hrun by done. rewrite Hrun. do 2 f_equal. apply list_eq. intros i. destruct (Hat i) as [|[E Hni]]; [done|].
  destruct (decide (i < n)%nat) as [Hi|Hi].
  - destruct (index_covers n po pa pb i Hi) as (x & Hx & Hix). destruct Hni. apply list_elem_of_fmap. exists x. split; [done|]. by rewrite Hord.
  - rewrite !lookup_ge_None_2; [done|rewrite length_zip_with; lia|lia].
Qed.

(** No two threads are responsible for one element. *)
Lemma index_inj n po pa pb x y : x ∈ threads (saxpy (Some po) (Some pa) (Some pb) (Z.of_nat n)) ->
  y ∈ threads (saxpy (Some po) (Some pa) (Some pb) (Z.of_nat n)) -> index x = index y -> x = y.
Proof.
  unfold threads. intros (b & Hx & _)%list_elem_of_bind (b' & Hy & _)%list_elem_of_bind.
  apply list_elem_of_fmap in Hx as (u & -> & Hu), Hy as (u' & -> & Hu'). apply elem_of_seqZ in Hu, Hu'.
  unfold index. cbn [fst snd block saxpy] in *. intros E. f_equal; lia.
Qed.

(** C36: The kernel computes the sum.  Whatever order the threads of a launch run
    in, none of them reads or writes out of bounds and no index overflows; what
    is left in device memory is the vector sum in [out] and everything else as
    it was.  So the launch is equivalent to adding the vectors, although the
    grid has more threads than the vectors have elements; and each element is
    the business of exactly one thread, so that no order is a race. *)
Theorem saxpy_any_order (n : nat) (po pa pb : ptr) (lo la lb : list float) (m : Memory) :
  let k := saxpy (Some po) (Some pa) (Some pb) (Z.of_nat n) in
  Z.of_nat n + 255 < 2 ^ 31 ->
  m !! po = Some lo -> m !! pa = Some la -> m !! pb = Some lb -> po <> pa /\ po <> pb ->
  length lo = n /\ length la = n /\ length lb = n ->
  (forall order, order ≡ₚ threads k -> run_threads k order m = Some (<[po := zip_with fadd la lb]> m)) /\
  (forall i, (i < n)%nat -> exists! x, x ∈ threads k /\ index x = Z.of_nat i).
Proof.
  intros k Hn Ho Ha Hb Hne Hlen. split; [intros order; by apply (saxpy_runs n po pa pb lo)|].
  intros i Hi. destruct (index_covers n po pa pb i Hi) as (x & Hx & E). exists x. split; [done|].
  intros y [Hy E']. apply (index_inj n po pa pb); [done..|congruence].
Qed.

Definition sample (x y : Z) : list float := [f_of_int x; f_of_int y].
Definition sample_memory : Memory := <[0%nat := sample 0 0]> (<[1%nat := sample 1 2]> {[2%nat := sample 10 20]}).
Lemma saxpy_any_order_witness : let k := saxpy (Some 0%nat) (Some 1%nat) (Some 2%nat) 2 in
  run_threads k (reverse (threads k)) sample_memory = Some (<[0%nat := sample 11 22]> sample_memory).
Proof.
  exact (proj1 (saxpy_any_order 2 0 1 2 (sample 0 0) (sample 1 2) (sample 10 20) sample_memory eq_refl eq_refl eq_refl eq_refl
    (conj (Nat.neq_0_succ 0) (Nat.neq_0_succ 1)) (conj eq_refl (conj eq_refl eq_refl))) _ (reverse_Permutation _)).
Defined.

(** ** The host program *)

(** The buffers of the program hold the vectors, and [dout] their sum. *)
Record computed (n : nat) (dout da db : option ptr) (m : Memory) : Prop := mkComputed {
  com_out : exists po, dout = Some po /\ m !! po = Some (expected n) /\ da <> Some po /\ db <> Some po;
  com_a : exists pa, da = Some pa /\ m !! pa = Some (init_a n);
  com_b : exists pb, db = Some pb /\ m !! pb = Some (init_b n) }.

(** One launch on three buffers. *)
Lemma kernel_computes n po pa pb lo m m' : Z.of_nat n <= 2 ^ 20 ->
  m !! po = Some lo -> length lo = n -> m !! pa = Some (init_a n) -> m !! pb = Some (init_b n) -> po <> pa -> po <> pb ->
  ran (kernel n (Some po) (Some pa) (Some pb)) m m' -> computed n (Some po) (Some pa) (Some pb) m'.
Proof.
  intros Hn Ho Hlo Ha Hb Hoa Hob (order & Hord & Hrun). unfold kernel in *.
  rewrite (saxpy_runs n po pa pb lo (init_a n) (init_b n) m order) in Hrun;
    [|lia|done|done|done|done|by rewrite init_a_length, init_b_length|done].
  injection Hrun as <-. constructor.
  - exists po. rewrite lookup_insert_eq. by split_and!; [..|intros [= ->]|intros [= ->]].
  - exists pa. by rewrite lookup_insert_ne.
  - exists pb. by rewrite lookup_insert_ne.
Qed.

Lemma computed_again n dout da db m m' : Z.of_nat n <= 2 ^ 20 ->
  computed n dout da db m -> ran (kernel n dout da db) m m' -> computed n dout da db m'.
Proof.
  intros Hn [(po & -> & Ho & Hoa & Hob) (pa & -> & Ha) (pb & -> & Hb)]. apply (kernel_computes n po pa pb (expected n)); try done;
    [apply expected_length|congruence..].
Qed.

(** The messages a run can end with.  The verifications of the cold path and of
    the graph are not among them. *)
Definition cuda_errors : list string :=
  ["cudaSetDevice failed"; "cudaMalloc failed"; "H2D failed"; "kernel/sync failed"; "D2H failed"; "warm sync failed";
   "re-set device failed"; "REWARM verification FAILED"; "CUDA memory did not recover"].
Definition cuda_passed : string := "CUDA cold->warm->invalidate->rewarm proof PASSED".
Definition ends_with (text msg : string) : Prop := exists t, text = t +:+ msg +:+ newline.

Section lawful.
Context {D : Type} {R : Runtime D} {L : Lawful R}.
Variables (host_memory : bool) (clock : nat -> Z) (n : nat).
Hypothesis n_small : Z.of_nat n <= 2 ^ 20.

(** How a run may end. *)
Definition good (o : outcome (Process D) Z) : Prop :=
  match o with
  | Done rc s => (rc = 0 /\ ends_with (out s) cuda_passed) \/ (rc = 1 /\ exists msg, msg ∈ cuda_errors /\ ends_with (out s) msg)
  | Undefined => host_memory = false \/ (exists d, properties d = None) \/ (exists d, (stream_create d).1 = None)
  | _ => False
  end.

Lemma good_fail msg s : msg ∈ cuda_errors -> good (fail msg s).
Proof. intros Hm. right. split; [done|]. exists msg. split; [done|]. by exists (out s). Qed.
Lemma good_check (ok : bool) msg (m : program (Process D) Z) s : msg ∈ cuda_errors ->
  (ok = true -> good (m s)) -> good ((if negb ok then fail msg else m) s).
Proof. intros Hm Hk. destruct ok; [by apply Hk|by apply good_fail]. Qed.
Lemma ask_then {A} (op : D -> A * D) (k : A -> program (Process D) Z) s :
  (forall a d, op (dev s) = (a, d) -> good (k a (mkProcess (out s) d))) -> good ((x <- ask op ;; k x) s).
Proof. intros Hk. apply (Hk (op (dev s)).1 (op (dev s)).2). by destruct (op (dev s)). Qed.
Lemma tell_then (op : D -> D) (m : program (Process D) Z) s :
  good (m (mkProcess (out s) (op (dev s)))) -> good ((_ <- tell op ;; m) s).
Proof. done. Qed.
Lemma say_then text (m : program (Process D) Z) s :
  good (m (mkProcess (out s +:+ text +:+ newline) (dev s))) -> good ((_ <- say text ;; m) s).
Proof. done. Qed.

Lemma good_cold k : (forall dout da db s, computed n dout da db (memory (dev s)) -> good (k dout da db (expected n) s)) ->
  forall s, good (cold clock n k s).
Proof.
  intros Hk s. unfold cold.
  apply ask_then. intros o1 d1 E1. apply good_check; [set_solver|]. intros H1. apply bool_decide_eq_true in H1 as [po ->].
  apply ask_then. intros o2 d2 E2. apply good_check; [set_solver|]. intros H2. apply bool_decide_eq_true in H2 as [pa ->].
  apply ask_then. intros o3 d3 E3. apply good_check; [set_solver|]. intros H3. apply bool_decide_eq_true in H3 as [pb ->].
  apply ask_then. intros ok4 d4 E4. apply good_check; [set_solver|]. intros ->.
  apply ask_then. intros ok5 d5 E5. apply good_check; [set_solver|]. intros ->.
  apply tell_then. apply ask_then. intros ok6 d6 E6. apply good_check; [set_solver|]. intros ->.
  cbn [dev] in *. apply malloc_spec in E1 as (F1 & l1 & Hl1 & M1), E2 as (F2 & l2 & Hl2 & M2), E3 as (F3 & l3 & Hl3 & M3). unfold bytes in *.
  rewrite M1 in *. apply lookup_insert_None in F2 as [F2 N2]. rewrite M2 in *. apply lookup_insert_None in F3 as [F3 N3].
  apply lookup_insert_None in F3 as [F3 N3'].
  apply (to_device_spec _ _ l2) in E4; [|rewrite M3; by simplify_map_eq|unfold ha; rewrite init_a_length; lia]. rewrite M3 in E4.
  apply (to_device_spec _ _ l3) in E5; [|rewrite E4; by simplify_map_eq|unfold hb; rewrite init_b_length; lia]. rewrite E4 in E5.
  apply device_sync_spec in E6. rewrite E5 in E6. unfold ha, hb in *.
  apply (kernel_computes n po pa pb l1) in E6; [|done|by simplify_map_eq|lia|by simplify_map_eq|by simplify_map_eq|done|done].
  apply ask_then. intros r d7 E7. cbn [dev] in E7. destruct r as [hout|]; [|apply good_fail; set_solver].
  pose proof E6 as [(po' & [= <-] & Ho & _) _ _]. unfold bytes in E7. rewrite <- (expected_length n) in E7 at 1.
  apply (from_device_spec _ _ (expected n)) in E7 as [-> E7]; [|done].
  unfold ha, hb. rewrite verify_expected by done. cbn [negb]. apply say_then. apply Hk. cbn [dev]. by rewrite E7.
Qed.

Lemma good_reuse i dout da db (k : program (Process D) Z) :
  (forall s, computed n dout da db (memory (dev s)) -> good (k s)) ->
  forall s, computed n dout da db (memory (dev s)) -> good (reuse n i dout da db k s).
Proof.
  intros Hk. induction i as [|i IH]; intros s Hc; cbn [reuse]; [by apply Hk|].
  apply tell_then, ask_then. intros ok d E. apply good_check; [set_solver|]. intros ->. apply IH. cbn [dev] in *.
  apply stream_sync_spec in E. by eapply computed_again.
Qed.

(** What is copied back from [dout] is the sum; what is not copied back was. *)
Lemma copied dout da db d r d' : computed n dout da db (memory d) -> from_device dout (bytes n) d = (r, d') -> default (expected n) r = expected n.
Proof.
  intros [(po & -> & Ho & _) _ _] E. destruct r as [l|]; [|done]. unfold bytes in E. rewrite <- (expected_length n) in E at 1.
  by apply (from_device_spec _ _ (expected n)) in E as [-> _].
Qed.

Lemma good_capture dout da db (k : stream -> list float -> program (Process D) Z) :
  (forall x s, good (k x (expected n) s)) -> forall s, computed n dout da db (memory (dev s)) -> good (capture n dout da db (expected n) k s).
Proof.
  intros Hk s Hc. unfold capture. apply ask_then. intros [x|] d0 E0; [|right; right; exists (dev s); by rewrite E0].
  assert (memory d0 = memory (dev s)) as H0 by (rewrite <- (stream_create_spec (dev s)); by rewrite E0). rewrite <- H0 in Hc. clear E0 H0.
  change (good ((ok <- ask (begin_capture x) ;; if negb ok then k x (expected n) else
    _ <- tell (launch (Some x) (kernel n dout da db)) ;; g <- ask (end_capture x) ;;
    match g with None => k x (expected n) | Some g => e <- ask (instantiate g) ;;
      match e with None => _ <- tell (graph_destroy g) ;; k x (expected n)
      | Some e => replay n x e dout (expected n) (fun hout => _ <- tell (exec_destroy e) ;; _ <- tell (graph_destroy g) ;; k x hout) end end)
    (mkProcess (out s) d0))).
  apply ask_then. intros ok1 d1 E1. destruct ok1; [|apply Hk]. apply tell_then.
  apply ask_then. intros [g|] d2 E2; [|apply Hk]. apply ask_then. intros [e|] d3 E3; [|apply tell_then, Hk].
  unfold replay. apply ask_then. intros ok4 d4 E4. destruct ok4; [|do 2 apply tell_then; apply Hk].
  apply ask_then. intros ok5 d5 E5. destruct ok5; [|do 2 apply tell_then; apply Hk]. cbn [dev negb] in *.
  pose proof (replay_spec _ _ _ _ _ _ _ _ _ _ E1 E2 E3 E4 E5) as Hr. apply (computed_again n) in Hr; [|done|done].
  apply ask_then. intros r d6 E6. cbn [dev] in E6. rewrite (copied _ _ _ _ _ _ Hr E6). unfold ha, hb.
  rewrite verify_expected by done. apply say_then. do 2 apply tell_then. apply Hk.
Qed.

Lemma good_teardown free0 dout da db k : (forall x s, good (k x s)) -> forall s, good (teardown free0 dout da db k s).
Proof. intros Hk s. unfold teardown. apply ask_then. intros r d E. do 4 apply tell_then. apply ask_then. intros r' d' E'. apply say_then, Hk. Qed.

Lemma good_rewarm hout k : (forall x y z s, good (k x y z s)) -> forall s, good (rewarm clock n hout k s).
Proof.
  intros Hk s. unfold rewarm. apply ask_then. intros ok d E. apply good_check; [set_solver|]. intros _.
  do 5 (apply ask_then; intros ? ? _). apply tell_then. do 2 (apply ask_then; intros ? ? _).
  apply good_check; [set_solver|]. intros _. apply say_then, Hk.
Qed.

Lemma good_cleanup baseline after x dout da db s : good (cleanup clock baseline after x dout da db s).
Proof.
  unfold cleanup. do 5 apply tell_then. apply ask_then. intros r d E. do 2 apply say_then. apply good_check; [set_solver|]. intros _.
  left. split; [done|]. eexists. reflexivity.
Qed.

(** What the validation can report.  On any runtime that keeps its promises,
    whichever calls fail: the program ends with 0 after "PASSED" or with 1 after
    one of nine messages.  "COLD verification FAILED" and "GRAPH verification
    FAILED" are not among them: in both places the vector that is compared is
    the sum, so a failure there could only come from the device. *)
Theorem cuda_outcomes (s : Process D) : good (demo host_memory clock n s).
Proof.
  unfold demo. apply ask_then. intros ok d E. apply good_check; [set_solver|]. intros _.
  apply ask_then. intros p d1 [= <- <-]. cbn [dev]. destruct (properties d) as [[[[name major] minor] total]|] eqn:Ep; [|right; left; by exists d].
  apply (say_then _ (r <- ask mem_info ;; if negb host_memory then undefined else
    cold clock n (fun dout da db hout => warm clock n dout da db (capture n dout da db hout (fun s hout =>
      teardown (default 0 r) dout da db (fun after => rewarm clock n hout (fun dout da db => cleanup clock (default 0 r) after s dout da db))))))).
  apply ask_then. intros r d2 _. destruct (negb host_memory) eqn:Eh; [left; by apply negb_true_iff|]. apply good_cold. intros dout da db s' Hc. unfold warm. apply good_reuse; [|done]. clear Hc s'. intros s' Hc.
  apply say_then. apply good_capture; [|done]. intros x s''. apply good_teardown. intros after s3. apply good_rewarm. intros. apply good_cleanup.
Qed.
End lawful.

(** ** A device that is lost at the reset

    It works until then.  Afterwards it can be selected, and refuses everything
    else; memory is never given back. *)
Record Lossy := mkLossy { buffers : Memory; spent : Z; alive : bool; healthy : bool; captured : option Launch }.
Definition gpu_memory : Z := Z.shiftl 8 30.

Definition lossy_run (k : Launch) (d : Lossy) : Lossy :=
  if alive d
  then match run_threads k (threads k) (buffers d) with
       | Some m => mkLossy m (spent d) (alive d) (healthy d) (captured d)
       | None => mkLossy (buffers d) (spent d) (alive d) false (captured d)
       end
  else d.

#[export] Instance lossy : Runtime Lossy := {
  stream := unit; graph := Launch; exec := Launch;
  memory := buffers;
  set_device d := (true, d);
  properties d := Some ("GPU"%string, 12, 0, gpu_memory);
  mem_info d := (Some (gpu_memory - spent d), d);
  malloc b d :=
    if alive d
    then let p := fresh (dom (buffers d)) in
         (Some p, mkLossy (<[p := replicate (Z.to_nat (b / 4)) (S754_zero false)]> (buffers d)) (spent d + b) (alive d) (healthy d) (captured d))
    else (None, d);
  to_device p l d :=
    match p with
    | Some p => if alive d then (true, mkLossy (<[p := l]> (buffers d)) (spent d) (alive d) (healthy d) (captured d)) else (false, d)
    | None => (false, d)
    end;
  from_device p b d := (if alive d then p ≫= (fun p => buffers d !! p) else None, d);
  launch s k d :=
    match s with None => lossy_run k d | Some _ => mkLossy (buffers d) (spent d) (alive d) (healthy d) (Some k) end;
  device_sync d := (alive d && healthy d, d);
  stream_sync s d := (alive d && healthy d, d);
  stream_create d := (Some tt, d);
  begin_capture s d := (alive d, d);
  end_capture s d := (captured d, d);
  instantiate g d := (Some g, d);
  graph_launch x s d := (alive d, lossy_run x d);
  exec_destroy x d := d; graph_destroy g d := d; stream_destroy s d := d;
  free p d := d;
  reset d := mkLossy ∅ (spent d) false (healthy d) (captured d) }.

Lemma lossy_ran k d : alive (lossy_run k d) && healthy (lossy_run k d) = true -> ran k (buffers d) (buffers (lossy_run k d)).
Proof.
  intros H. unfold lossy_run in *. destruct (alive d) eqn:Ea; [|by rewrite Ea in H].
  destruct (run_threads k (threads k) (buffers d)) as [m|] eqn:E; [|by rewrite andb_false_r in H]. by exists (threads k).
Qed.

#[export] Instance lossy_lawful : Lawful lossy.
Proof.
  constructor.
  - intros k d p d' E. cbn [malloc lossy memory] in *. destruct (alive d); [|done]. injection E as <- <-. split.
    + apply not_elem_of_dom, is_fresh.
    + eexists. split; [|reflexivity]. rewrite length_replicate, Z.mul_comm, Z.div_mul by done. lia.
  - intros p l l0 d d' E _ _. cbn in *. destruct (alive d); [|done]. by injection E as <-.
  - intros p l l0 d d' E H. cbn in *. destruct (alive d); [|done]. rewrite H in E. by injection E as <- <-.
  - intros k d d' E. injection E as E <-. by apply lossy_ran.
  - intros k d d' E. injection E as E <-. by apply lossy_ran.
  - done.
  - intros s g x k d d1 d2 d3 d4 d5 E1 E2 E3 E4 E5. injection E1 as _ <-. injection E2 as <- <-. injection E3 as <- <-.
    injection E4 as _ <-. injection E5 as E5 <-. exact (lossy_ran k (mkLossy _ _ _ _ _) E5).
Qed.

(** *** The run on it *)
Definition lines (t : string) (l : list string) : string := fold_left (fun t l => t +:+ l +:+ newline) l t.

Section lost.
Variables (clock : nat -> Z) (n : nat).
Hypothesis n_small : Z.of_nat n <= 2 ^ 20.
Abbreviation up t m sp c := (mkProcess t (mkLossy m sp true true c)).

Lemma lossy_run_computed dout da db m sp c : computed n dout da db m ->
  lossy_run (kernel n dout da db) (mkLossy m sp true true c) = mkLossy m sp true true c.
Proof.
  intros [(po & -> & Ho & Hoa & Hob) (pa & -> & Ha) (pb & -> & Hb)]. unfold lossy_run. cbn [alive buffers].
  unfold kernel. rewrite (saxpy_runs n po pa pb (expected n) (init_a n) (init_b n));
    [|lia|done|done|done|by split; intros ->|by rewrite expected_length, init_a_length, init_b_length|done].
  fold (expected n). by rewrite insert_id.
Qed.

(** A call that succeeds. *)
Lemma malloc_step b msg (k : option ptr -> program (Process Lossy) Z) t m sp c :
  (x <- ask (malloc b) ;; if negb (bool_decide (is_Some x)) then fail msg else k x) (up t m sp c) =
  k (Some (fresh (dom m))) (up t (<[fresh (dom m) := replicate (Z.to_nat (b / 4)) (S754_zero false)]> m) (sp + b) c).
Proof. done. Qed.
Lemma check_step (op : Lossy -> bool * Lossy) msg (k : program (Process Lossy) Z) t d d' : op d = (true, d') ->
  (ok <- ask op ;; if negb ok then fail msg else k) (mkProcess t d) = k (mkProcess t d').
Proof. intros E. unfold cli_bind, ask. cbn [dev out]. by rewrite E. Qed.
Lemma ask_step {A} (op : Lossy -> A * Lossy) (k : A -> program (Process Lossy) Z) t d a d' : op d = (a, d') ->
  (x <- ask op ;; k x) (mkProcess t d) = k a (mkProcess t d').
Proof. intros E. unfold cli_bind, ask. cbn [dev out]. by rewrite E. Qed.
Lemma tell_step (op : Lossy -> Lossy) (k : program (Process Lossy) Z) t d : (_ <- tell op ;; k) (mkProcess t d) = k (mkProcess t (op d)).
Proof. done. Qed.
Lemma ret_step {A} (a : A) (k : A -> program (Process Lossy) Z) s : (x <- cli_ret a ;; k x) s = k a s.
Proof. done. Qed.
Lemma say_step (k : program (Process Lossy) Z) l t d : (_ <- say l ;; k) (mkProcess t d) = k (mkProcess (lines t [l]) d).
Proof. done. Qed.

Lemma lossy_cold k t sp c : exists dout da db m, computed n dout da db m /\
  cold clock n k (up t ∅ sp c) =
  k dout da db (expected n)
    (up (lines t ["COLD: allocated, transferred, ran, verified in " +:+ ms_between clock 0 1 +:+ " ms"]) m (sp + bytes n + bytes n + bytes n) c).
Proof.
  unfold cold. rewrite malloc_step. set (z := replicate (Z.to_nat (bytes n / 4)) (S754_zero false)).
  rewrite malloc_step. set (po := fresh (dom (∅ : Memory))). fold z. set (m1 := <[po := z]> (∅ : Memory)). rewrite malloc_step.
  set (pa := fresh (dom m1)). fold z. set (m2 := <[pa := z]> m1). set (pb := fresh (dom m2)).
  assert (length z = n) as Hz.
  { unfold z, bytes. rewrite length_replicate, Z.mul_comm, Z.div_mul by done. lia. }
  assert (m1 !! pa = None) as Fa by apply not_elem_of_dom, is_fresh. assert (m2 !! pb = None) as Fb by apply not_elem_of_dom, is_fresh.
  apply lookup_insert_None in Fa as [_ Na]. apply lookup_insert_None in Fb as [Fb Nb]. apply lookup_insert_None in Fb as [_ Nb'].
  clearbody po pa pb. set (m3 := <[pb := hb n]> (<[pa := ha n]> (<[pb := z]> m2))).
  assert (m3 !! po = Some z) as Ho by (unfold m3, m2, m1; by simplify_map_eq).
  assert (m3 !! pa = Some (init_a n)) as Ha by (unfold m3; by simplify_map_eq).
  assert (m3 !! pb = Some (init_b n)) as Hb by (unfold m3; by simplify_map_eq).
  set (K := kernel n (Some po) (Some pa) (Some pb)).
  assert (run_threads K (threads K) m3 = Some (<[po := expected n]> m3)) as Hrun.
  { apply (saxpy_runs n po pa pb z); [lia|done|done|done|done|by rewrite init_a_length, init_b_length|done]. }
  exists (Some po), (Some pa), (Some pb), (<[po := expected n]> m3). split.
  { apply (kernel_computes n po pa pb z m3); try done. by exists (threads K). }
  erewrite check_step by reflexivity. erewrite check_step by reflexivity. fold m3. rewrite tell_step.
  cbn [launch lossy]. unfold lossy_run. cbn [alive buffers]. fold m3. rewrite Hrun.
  erewrite check_step by reflexivity. erewrite ask_step by reflexivity. cbn [alive buffers mbind option_bind].
  rewrite lookup_insert_eq. unfold ha, hb. rewrite verify_expected by done. cbn [negb]. by rewrite say_step.
Qed.

Lemma lossy_reuse i dout da db (k : program (Process Lossy) Z) t m sp c : computed n dout da db m ->
  reuse n i dout da db k (up t m sp c) = k (up t m sp c).
Proof.
  intros Hc. induction i as [|i IH]; [done|]. cbn [reuse]. rewrite tell_step. cbn [launch lossy]. rewrite lossy_run_computed by done.
  by erewrite check_step by reflexivity.
Qed.

Lemma lossy_capture dout da db k t m sp c : computed n dout da db m -> exists c',
  capture n dout da db (expected n) k (up t m sp c) =
  k (tt : @stream _ lossy) (expected n) (up (lines t ["GRAPH: capture/instantiate/replay verified"]) m sp c').
Proof.
  intros Hc. exists (Some (kernel n dout da db)). unfold capture. erewrite ask_step by reflexivity. cbn [deref].
  rewrite ret_step. erewrite ask_step by reflexivity. cbn [negb alive]. rewrite tell_step. erewrite ask_step by reflexivity.
  cbn [launch lossy captured]. erewrite ask_step by reflexivity. unfold replay. erewrite ask_step by reflexivity. cbn [negb alive].
  cbn [buffers spent alive healthy]. rewrite lossy_run_computed by done. erewrite ask_step by reflexivity. cbn [negb alive healthy andb].
  erewrite ask_step by reflexivity. cbn [alive buffers]. destruct Hc as [(po & -> & Ho & _) _ _]. cbn [mbind option_bind]. rewrite Ho.
  cbn [from_option id]. unfold ha, hb. rewrite verify_expected by done. cbn [negb]. by rewrite say_step, !tell_step.
Qed.

(** The steps after the reset. *)
Abbreviation down t m sp c := (mkProcess t (mkLossy m sp false true c)).

Lemma lossy_teardown free0 dout da db k t m sp c :
  teardown free0 dout da db k (up t m sp c) =
  k (gpu_memory - sp)
    (down (lines t ["INVALIDATE: free memory " +:+ mib (gpu_memory - sp) +:+ " -> " +:+ mib (gpu_memory - sp) +:+ " MiB (warmth fell)"]) ∅ sp c).
Proof. done. Qed.

Lemma lossy_rewarm k t m sp c :
  rewarm clock n (expected n) k (down t m sp c) =
  k None None None (down (lines t ["REWARM: fresh readiness verified in " +:+ ms_between clock 4 5 +:+ " ms"]) m sp c).
Proof.
  unfold rewarm. erewrite check_step by reflexivity. do 5 (erewrite ask_step by reflexivity). rewrite tell_step.
  do 2 (erewrite ask_step by reflexivity). cbn [launch lossy]. unfold lossy_run. cbn [alive from_option id]. unfold ha, hb.
  rewrite verify_expected by done. cbn [negb]. by rewrite say_step.
Qed.

Lemma lossy_recovered sp : 0 <= sp <= Z.shiftl 64 20 -> memory_recovered gpu_memory (gpu_memory - sp) = true.
Proof.
  intros Hsp. unfold memory_recovered, wrap. rewrite Z.mod_small; [apply Z.leb_le; lia|]. unfold gpu_memory.
  change (Z.shiftl 8 30) with (8 * 2 ^ 30). change (Z.shiftl 64 20) with (2 ^ 26) in *. lia.
Qed.

Lemma lossy_cleanup free1 x t m sp c : 0 <= sp <= Z.shiftl 64 20 ->
  cleanup clock gpu_memory free1 x None None None (down t m sp c) =
  Done 0 (mkProcess (lines t
    ["CLEANUP: free memory " +:+ mib free1 +:+ " -> " +:+ mib (gpu_memory - sp) +:+ " MiB (baseline " +:+ mib gpu_memory +:+ ")";
     "cold=" +:+ ms_between clock 0 1 +:+ "ms warm=" +:+ ms_between clock 2 3 +:+ "ms rewarm=" +:+ ms_between clock 4 5 +:+
       "ms memory_recovered=1"; cuda_passed]) (mkLossy ∅ sp false true c)).
Proof.
  intros Hsp. unfold cleanup. rewrite !tell_step. erewrite ask_step by reflexivity.
  cbn [from_option id spent reset free stream_destroy lossy]. rewrite say_step, lossy_recovered by done. cbn [negb]. by rewrite !say_step.
Qed.
End lost.

Definition lossy_new : Lossy := mkLossy ∅ 0 true true None.
Definition refuses (d : Lossy) : Prop := forall b p l k,
  malloc b d = (None, d) /\ to_device p l d = (false, d) /\ from_device p b d = (None, d) /\ device_sync (launch None k d) = (false, d).
(** What is printed, when [used] bytes are gone. *)
Definition lossy_transcript (clock : nat -> Z) (used : Z) : string :=
  let left := mib (gpu_memory - used) in
  lines ""
    ["device: GPU (compute 12.0, global 8192 MiB)";
     "COLD: allocated, transferred, ran, verified in " +:+ ms_between clock 0 1 +:+ " ms";
     "WARM: 32 retained executions in " +:+ ms_between clock 2 3 +:+ " ms";
     "GRAPH: capture/instantiate/replay verified";
     "INVALIDATE: free memory " +:+ left +:+ " -> " +:+ left +:+ " MiB (warmth fell)";
     "REWARM: fresh readiness verified in " +:+ ms_between clock 4 5 +:+ " ms";
     "CLEANUP: free memory " +:+ left +:+ " -> " +:+ left +:+ " MiB (baseline 8192)";
     "cold=" +:+ ms_between clock 0 1 +:+ "ms warm=" +:+ ms_between clock 2 3 +:+ "ms rewarm=" +:+ ms_between clock 4 5 +:+
       "ms memory_recovered=1"; cuda_passed].

Lemma lossy_demo clock n : Z.of_nat n <= 2 ^ 20 -> exists c,
  demo true clock n (mkProcess "" lossy_new) =
  Done 0 (mkProcess (lossy_transcript clock (3 * bytes n)) (mkLossy ∅ (3 * bytes n) false true c)).
Proof.
  intros Hn. unfold demo. erewrite check_step by reflexivity. erewrite ask_step by reflexivity. cbn [properties lossy deref].
  rewrite ret_step. rewrite say_step. erewrite ask_step by reflexivity. cbn [negb from_option id spent lossy_new].
  match goal with |- context [cold clock n ?k (mkProcess ?t lossy_new)] => destruct (lossy_cold clock n Hn k t 0 None) as (dout & da & db & m & Hc & E) end.
  change (mkProcess ?t lossy_new) with (mkProcess t (mkLossy ∅ 0 true true None)). rewrite E. clear E.
  unfold warm. rewrite lossy_reuse by done. rewrite say_step. edestruct lossy_capture as [c ->]; [done|done|].
  rewrite lossy_teardown, lossy_rewarm by done. exists c.
  change (gpu_memory - 0) with gpu_memory.
  rewrite (lossy_cleanup clock n) by (unfold bytes; change (Z.shiftl 64 20) with (2 ^ 26); lia).
  replace (3 * bytes n) with (0 + bytes n + bytes n + bytes n) by lia. reflexivity.
Qed.

(** C37: The rewarm check can pass without a device.  There is a runtime that keeps
    its promises, on which every allocation, every copy and every kernel fails
    once the device has been reset, and which never gives memory back; on it
    the program verifies fresh readiness, finds its memory recovered and ends
    with "PASSED" and 0.  The vector compared after the reset is the one copied
    back before it, and the memory that may be missing at the end is five times
    what the program had allocated. *)
Theorem rewarm_verifies_nothing (clock : nat -> Z) :
  (forall d : Lossy, refuses (reset d)) /\
  exists d, main true clock (mkProcess "" lossy_new) = Done 0 (mkProcess (lossy_transcript clock (3 * bytes kNum)) d) /\ refuses d.
Proof.
  assert (forall m sp h c, refuses (mkLossy m sp false h c)) as H by (intros; intros b [p|] l k; done). split; [intros d; apply H|].
  destruct (lossy_demo clock kNum) as [c E]; [unfold kNum; by rewrite Z2Nat.id|]. eexists. split; [exact E|apply H].
Qed.

Lemma cuda_outcomes_witness :
  good true (demo true (fun _ => 0) 4 (mkProcess "" lossy_new)) /\
  match demo true (fun _ => 0) 4 (mkProcess "" lossy_new) with Done rc _ => rc = 0 | _ => False end.
Proof.
  assert (Z.of_nat 4 <= 2 ^ 20) as Hn by done. split; [exact (cuda_outcomes true (fun _ => 0) 4 Hn (mkProcess "" lossy_new))|].
  destruct (lossy_demo (fun _ => 0) 4 Hn) as [c ->]. done.
Defined.
