(* ===== verification/Cli.v ===== *)
(** * tools/warmth_cli.cpp: the command line

    [main] of the tool, as a program over a console (what was printed, and the
    disk) that ends with an exit code, blocks for ever, is aborted or runs into
    undefined behaviour.  The arguments do not include the program name.
    Sockets and clocks are part of the environment, and so is whether the tool
    runs on Windows, where it has two more commands ([Multiprocess]). *)

From Stdlib Require Import ZArith Lia Ascii String.
From stdpp Require Import base list numbers strings gmap fin_maps sorting.
From S2P Require Import Prelude Float64 Number Json Identity State Object Decay Codec Protocol Wire Messages Worker.
From S2P Require Import Budget Cost Policy Scheduler Explanation Persistence Fabric Storage Console Multiprocess.
Local Open Scope Z_scope.
Local Open Scope warmth_scope.

Local Open Scope cli_scope.

(** The other side of a connection: the bytes it sends, and whether it closes
    the connection after them or stays silent. *)
Record Peer := mkPeer { arrives : bytes; closes : bool }.

(** The environment. *)
Record Env := mkEnv {
  now : nat -> Z;                           (* readings of [now_ms()] *)
  worker_clock : nat -> nat -> nat -> Z;    (* those of a worker: per frame, command and reading *)
  elapsed : nat -> double;                  (* measured durations *)
  dial : string -> Z -> option Peer;        (* [net::connect] *)
  bind : Z -> option Z;                     (* [Coordinator::start]: the port *)
  windows : option Windows                  (* [_WIN32] *) }.

(** ** The sample fabric *)
Definition cli_config : Config :=
  mkConfig (derive "demo-workload") (derive "node-0") "cuda:0" "cuda" (defaults (Gen 1)) (Z.shiftl 1 30).

Definition sample_dims : WarmthDimensions :=
  dims_set LocalDependencyReadiness D_VALID (dims_set TokenizerReadiness D_VALID
    (dims_set ArtifactValidation D_VALID (dims_set ArtifactAvailability D_VALID
      (dims_set ModelResidency D_PARTIAL dims_default)))).

Definition build_sample_fabric : WarmthFabric :=
  let wm := Some (derive "demo-model") in
  let art := Some (derive "demo-artifact") in
  let repl := Some (derive "replica-0") in
  let eng := Some (derive "engine-0") in
  let f := fabric_new cli_config in
  let '(idw, f) := register_object MODEL_WEIGHTS "model.weights" wm art repl eng f in
  let '(ida, f) := register_object ADAPTERS "model.adapters" wm art repl eng f in
  let '(idk, f) := register_object KERNEL_ARTIFACTS "kernels" wm art repl eng f in
  let '(idg, f) := register_object EXECUTION_GRAPHS "graphs" wm art repl eng f in
  let '(ide, f) := register_object ENGINE_RUNTIME_PROCESS "engine" wm art repl eng f in
  let f := (fab_set_dimensions idw sample_dims f).2 in
  let f := (fab_set_dimension ida AdapterResidency D_COLD f).2 in
  let f := (fab_set_dimension idk KernelReadiness D_COLD f).2 in
  let f := (fab_set_dimension idg GraphReadiness D_COLD f).2 in
  (fab_set_dimension ide EngineReadiness D_COLD f).2.

#[local] Opaque build_sample_fabric.

(** ** Commands *)
Fixpoint print_lines (l : list string) : cli unit :=
  match l with [] => cli_ret tt | s :: l => _ <- print (s +:+ newline) ;; print_lines l end.

Definition cmd_help : cli unit :=
  print_lines
    ["warmth_cli - Warmth Fabric command line";
     "Usage: warmth_cli <command> [options]";
     "Commands:";
     "  list                         list warmth objects";
     "  inspect <id>                 inspect a warmth object";
     "  readiness                    show workload readiness";
     "  warm <id>                    warm an object";
     "  invalidate <id>              invalidate an object";
     "  demote <id>                  demote an object";
     "  evict <id>                   evict an object";
     "  explain <id>                 explain readiness for an object";
     "  plan                         explain the warming plan";
     "  budgets                      show budgets and usage";
     "  snapshot <path>              print/encode a snapshot";
     "  save <path>                  persist a snapshot to a file";
     "  recover <path>               recover a snapshot from a file";
     "  synthetic                    run the synthetic cold->warm demo";
     "  multiprocess                 run the atomic multiprocess restart proof";
     "  cuda                         run the CUDA cold/warm proof";
     "  benchmark                    run the microbenchmarks";
     "  --coordinator [--port N]     run as a coordinator process";
     "  --worker (options)           run as a worker process";
     "Options: --json                emit JSON where applicable"].

(** A document, on a line of its own. *)
Definition print_json (v : Value) : cli unit := text <- deref (dump 2 v) ;; print (c_str text +:+ newline).

(** The explanation that [print_objects] fills in itself. *)
Definition listed (o : WarmthObject) : ReadinessExplanation :=
  mkReadiness (id_ o) (category_ o) (state_ o) (object_composite_level o)
    (map (fun i => mkDimReadiness i (dimension o i)) enum_all) (estimate o (Z.shiftl 1 30)) (execution_ready o)
    "" "" (Gen 0) "" "" [] "" "" "" "" "" "" dzero dzero.

Definition object_line (o : WarmthObject) : string :=
  to_string (id_ o) +:+ "  " +:+ pad_right 18 (category_name (category_ o)) +:+ " " +:+ pad_right 8 (state_name (state_ o)) +:+
  " composite=" +:+ pad_right 10 (composite_name (object_composite_level o)) +:+ " ready=" +:+ yes_no (execution_ready o) +:+
  "  ttf=" +:+ g6 (expected_ttfu_ms (estimate o (Z.shiftl 1 30))) +:+ "ms".

Definition print_objects (f : WarmthFabric) (json : bool) : cli unit :=
  objs <- call_locked Fabric.objects f ;;
  if json then print_json (Array (map (fun o => readiness_to_json (listed o)) objs))
  else print_lines (map object_line objs).

Definition run_list (json : bool) : cli Z := _ <- print_objects build_sample_fabric json ;; cli_ret 0.

(** The explanation of an object; for an unknown id the enumerations of the
    default-constructed explanation are indeterminate, and printing reads them. *)
Definition run_explain_as (id : Id128) (json : bool) : cli Z :=
  e <- deref (explain id build_sample_fabric) ;;
  _ <- (if json then print_json (readiness_to_json e) else print (c_str (readiness_to_text e))) ;;
  cli_ret 0.
Definition run_inspect (a : list string) (json : bool) : cli Z :=
  match from_string (getarg a "inspect" "") with
  | None => die "invalid id"
  | Some id => run_explain_as id json
  end.
Definition run_explain (a : list string) (json : bool) : cli Z :=
  match from_string (getarg a "explain" "") with
  | None => cli_ret 1
  | Some id => run_explain_as id json
  end.

Definition run_readiness (json : bool) : cli Z :=
  objs <- call_locked Fabric.objects build_sample_fabric ;;
  let ready := Z.of_nat (length (List.filter execution_ready objs)) in
  let total := Z.of_nat (length objs) in
  _ <- (if json then
          print_json (object_of [("workload", Str "demo-workload"); ("total_objects", int_value total);
                                 ("execution_ready", int_value ready)])
        else print ("workload=demo-workload objects=" +:+ dec_string total +:+ " ready=" +:+ dec_string ready +:+ newline)) ;;
  cli_ret 0.

(** [*measured_ms] and [*measured_bytes], which start at 0, after [warm]. *)
Definition measured_by (ok : bool) (action : WarmthAction) (f : WarmthFabric) : double * Z :=
  if ok then ((warm_run action f).1.2, (warm_run action f).2) else (dzero, 0).
Definition measured_text (m : double * Z) : string := g6 m.1 +:+ " ms, " +:+ dec_string m.2 +:+ " bytes".

(** [const auto o = f.get(id); if (o) printf(...)]. *)
Definition print_object (id : Id128) (f : WarmthFabric) (text : WarmthObject -> string) : cli Z :=
  match get id f with
  | Some o => _ <- print (to_string id +:+ " -> " +:+ text o +:+ newline) ;; cli_ret 0
  | None => cli_ret 0
  end.
Definition reason_c_str (o : WarmthObject) : string := c_str (default "" (invalidation_reason_ o)).

(** The commands on one object, on a given fabric. *)
Definition run_warm_on (f : WarmthFabric) (e : Env) (a : list string) : cli Z :=
  match from_string (getarg a "warm" "") with
  | None => die "invalid id"
  | Some id =>
      let '(ok, f') := warm id TRANSFER_HOST_DEVICE (now e 0) (now e 1) f in
      if negb ok then die "warm failed"
      else print_object id f' (fun o =>
             state_name (state_ o) +:+ " (measured " +:+ measured_text (measured_by ok TRANSFER_HOST_DEVICE f) +:+ ")")
  end.

Definition run_warm : Env -> list string -> cli Z := run_warm_on build_sample_fabric.

Definition run_invalidate_on (f : WarmthFabric) (a : list string) : cli Z :=
  match from_string (getarg a "invalidate" "") with
  | None => cli_ret 1
  | Some id =>
      let '(ok, f) := invalidate id MODEL_REVISION_CHANGE f in
      if negb ok then die "invalidate failed"
      else print_object id f (fun o => state_name (state_ o) +:+ " (" +:+ reason_c_str o +:+ ")")
  end.

Definition run_invalidate : list string -> cli Z := run_invalidate_on build_sample_fabric.

(** [demote] and [evict] after [warm_to_ready]. *)
Definition run_after_warm_on (f : WarmthFabric) (key : string) (op : WarmthObjectId -> WarmthFabric -> bool * WarmthFabric)
    (text : WarmthObject -> string) (a : list string) : cli Z :=
  match from_string (getarg a key "") with
  | None => cli_ret 1
  | Some id =>
      let '(ok, f) := warm_to_ready id f in
      if negb ok then die "warm failed"
      else
        let '(ok, f) := op id f in
        if negb ok then die (key +:+ " failed") else print_object id f text
  end.
Definition run_demote : list string -> cli Z :=
  run_after_warm_on build_sample_fabric "demote" demote (fun o => state_name (state_ o)).
Definition run_evict : list string -> cli Z :=
  run_after_warm_on build_sample_fabric "evict" evict
    (fun o => state_name (state_ o) +:+ " (residency=" +:+ residency_name (residency_ o) +:+ ")").

Definition run_plan (json : bool) : cli Z :=
  pe <- deref (explain_plan build_sample_fabric) ;;
  _ <- (if json then print_json (plan_to_json pe) else print (c_str (plan_to_text pe))) ;; cli_ret 0.

Definition run_budgets (json : bool) : cli Z :=
  let f := build_sample_fabric in
  let outstanding := Z.of_nat (outstanding_reservations f) in
  _ <- (if json then
          print_json (object_of
            [("device_memory", int_value (budget_usage DEVICE_MEMORY f));
             ("concurrent_warming_ops", int_value (budget_usage CONCURRENT_WARMING_OPS f));
             ("outstanding_reservations", int_value outstanding); ("balanced", Bool (budgets_balanced f))])
        else print ("device_memory=" +:+ dec_string (budget_usage DEVICE_MEMORY f) +:+
                    " concurrent_ops=" +:+ dec_string (budget_usage CONCURRENT_WARMING_OPS f) +:+
                    " outstanding=" +:+ dec_string outstanding +:+ " balanced=" +:+ yes_no (budgets_balanced f) +:+ newline)) ;;
  cli_ret 0.

(** What follows [snapshot] is never reached, since it blocks. *)
Definition run_snapshot : cli Z :=
  snap <- call_locked snapshot build_sample_fabric ;;
  bytes <- deref (encode_snapshot snap) ;;
  _ <- print ("snapshot: " +:+ dec_string (Z.of_nat (length bytes)) +:+ " bytes, " +:+
              dec_string (Z.of_nat (length (Persistence.objects snap))) +:+ " objects" +:+ newline) ;;
  cli_ret 0.

Definition run_save (a : list string) : cli Z :=
  let path := getarg a "save" "snapshot.wfbin" in
  d <- get_disk ;;
  r <- call_locked (save path d) build_sample_fabric ;;
  let '(res, d') := r in
  _ <- put_disk d' ;;
  match res with
  | Err err => die ("save failed: " +:+ c_str err)
  | Ok _ => _ <- print ("saved " +:+ c_str path +:+ newline) ;; cli_ret 0
  end.

Definition run_recover (a : list string) : cli Z :=
  let path := getarg a "recover" "snapshot.wfbin" in
  d <- get_disk ;;
  match recover_file path d (fabric_new cli_config) with
  | (Err err, _) => die ("recover failed: " +:+ c_str err)
  | (Ok _, f) =>
      _ <- print ("recovered " +:+ dec_string (Z.of_nat (object_count f)) +:+
                  " objects (live dims must be revalidated)" +:+ newline) ;;
      cli_ret 0
  end.

Definition run_synthetic (e : Env) : cli Z :=
  let '(id, f) := register_object MODEL_WEIGHTS "model.weights" (Some (derive "demo-model")) None None None
                    (fabric_new cli_config) in
  o <- deref (get id f) ;;
  _ <- print ("cold: state=" +:+ state_name (state_ o) +:+ " composite=" +:+ composite_name (object_composite_level o) +:+ newline) ;;
  let '(ok, f1) := warm id TRANSFER_HOST_DEVICE (now e 0) (now e 1) f in
  let m := measured_by ok TRANSFER_HOST_DEVICE f in
  o <- deref (get id f1) ;;
  _ <- print ("warm: measured " +:+ g6 m.1 +:+ "ms, " +:+ dec_string m.2 +:+ " bytes, state=" +:+ state_name (state_ o) +:+
              " execution_ready=" +:+ yes_no (execution_ready o) +:+ newline) ;;
  let f2 := (invalidate id MODEL_REVISION_CHANGE f1).2 in
  o <- deref (get id f2) ;;
  _ <- print ("invalidated: state=" +:+ state_name (state_ o) +:+ " reason=" +:+ reason_c_str o +:+ newline) ;;
  let f3 := (warm id INIT_ENGINE (now e 2) (now e 3) f2).2 in
  o <- deref (get id f3) ;;
  _ <- print ("rewarmed: state=" +:+ state_name (state_ o) +:+ " ready=" +:+ yes_no (execution_ready o) +:+ newline) ;;
  _ <- print ("budgets_balanced=" +:+ yes_no (budgets_balanced f3) +:+ newline) ;;
  cli_ret 0.

Definition run_benchmark (e : Env) : cli Z :=
  let cfg := mkConfig (derive "bench") (derive "n") "cuda:0" "cuda" (defaults (Gen 1)) (Z.shiftl 1 30) in
  let '(ids, f) := fold_left (fun s i =>
      let '(id, f) := register_object APPLICATION_DEFINED ("bench-object-" +:+ dec_string (Z.of_nat i)) None None None None s.2 in
      (s.1 ++ [id], f)) (seq 0 2000) ([], fabric_new cfg) in
  let ready := length (List.filter (fun id => match get id f with Some o => execution_ready o | None => false end) ids) in
  _ <- print ("objects=2000 create_ms=" +:+ g6 (elapsed e 0) +:+ " query_ms=" +:+ g6 (elapsed e 1) +:+ " read3x_ms=" +:+
              g6 (elapsed e 2) +:+ " ready=" +:+ dec_string (Z.of_nat ready) +:+ newline) ;;
  cli_ret 0.

(** *** The two server modes *)
Definition port_of (s : string) : cli Z := v <- deref (atoi s) ;; cli_ret (u16 v).

(** A read of these bytes and nothing after them, on that connection. *)
Definition read_waits (p : Peer) (s : bytes) : bool := negb (closes p) && awaits s.

(** Registers and serves what arrives, until the stream ends or a SHUTDOWN; a
    coordinator that stays silent keeps it in [recv]. *)
Definition run_worker_mode (e : Env) (a : list string) : cli Z :=
  port <- port_of (getarg a "--coordinator-port" "0") ;;
  let w := worker_new (worker_config a) in
  match dial e (getarg a "--coordinator-host" "127.0.0.1") port with
  | None => die "worker connect failed"
  | Some p =>
      let '(ok, hello, w') := Worker.connect true (arrives p) w in
      _ <- emit (if decide (hello = []) then [] else [hello_frame w]) ;;
      if bool_decide (hello <> []) && read_waits p (arrives p) then blocks
      else if negb ok then die "worker connect failed"
      else
        let rest := match read (arrives p) with Ok (_, rest) => rest | Err _ => [] end in
        r <- deref (Worker.run (S (length rest)) 0 (fun _ _ => SyntheticWarmHook) (worker_clock e) rest w') ;;
        let '(fs, unread, w) := r in
        _ <- emit fs ;;
        if negb (shutdown_requested_ w) && read_waits p unread then blocks else cli_ret 0
  end.

(** Nothing sets the [stop] flag of the accept loop. *)
Definition run_coordinator_mode (e : Env) (a : list string) : cli Z :=
  port <- port_of (getarg a "--port" "0") ;;
  match bind e port with
  | None => die "coordinator bind failed"
  | Some p => _ <- print ("coordinator listening on " +:+ dec_string p +:+ newline) ;; blocks
  end.

(** ** main *)
Inductive Command :=
  | List | Inspect | Readiness | Warm | Invalidate | Demote | Evict | Explain | PlanCmd | Budgets | SnapshotCmd | Save
  | Recover | Synthetic | Benchmark | Multiprocess | Cuda | WorkerMode | CoordinatorMode | Help | Unknown.

(** The chain of comparisons. *)
Definition command_table : list (string * Command) :=
  [("list", List); ("inspect", Inspect); ("readiness", Readiness); ("warm", Warm); ("invalidate", Invalidate);
   ("demote", Demote); ("evict", Evict); ("explain", Explain); ("plan", PlanCmd); ("budgets", Budgets);
   ("snapshot", SnapshotCmd); ("save", Save); ("recover", Recover); ("synthetic", Synthetic); ("benchmark", Benchmark);
   ("multiprocess", Multiprocess); ("cuda", Cuda); ("--worker", WorkerMode); ("--coordinator", CoordinatorMode);
   ("help", Help); ("--help", Help); ("-h", Help)].
Definition command_of (s : string) : Command :=
  match List.find (fun kv => bool_decide (kv.1 = s)) command_table with Some kv => kv.2 | None => Unknown end.

Definition run_command (e : Env) (cmd : Command) (a : list string) (json : bool) : cli Z :=
  match cmd with
  | List => run_list json
  | Inspect => run_inspect a json
  | Readiness => run_readiness json
  | Warm => run_warm e a
  | Invalidate => run_invalidate a
  | Demote => run_demote a
  | Evict => run_evict a
  | Explain => run_explain a json
  | PlanCmd => run_plan json
  | Budgets => run_budgets json
  | SnapshotCmd => run_snapshot
  | Save => run_save a
  | Recover => run_recover a
  | Synthetic => run_synthetic e
  | Benchmark => run_benchmark e
  | Multiprocess => match windows e with Some w => run_multiprocess w | None => die "multiprocess requires Windows" end
  | Cuda => match windows e with Some w => run_cuda_demo w | None => die "cuda requires Windows" end
  | WorkerMode => run_worker_mode e a
  | CoordinatorMode => run_coordinator_mode e a
  | Help => _ <- cmd_help ;; cli_ret 0
  | Unknown => _ <- cmd_help ;; cli_ret 1
  end.

Definition main (e : Env) (a : list string) : cli Z :=
  match a with
  | [] => _ <- cmd_help ;; cli_ret 0
  | cmd :: _ => run_command e (command_of cmd) a (hasarg a "--json")
  end.

(** ** Lemmas *)

(** How a program ends: with a value in [Q], blocked if [B], in undefined
    behaviour if [U]; the disk is never written. *)
Definition ends {A} (m : cli A) (Q : A -> Prop) (B U : Prop) : Prop := forall c,
  match m c with
  | Done a c' => Q a /\ disk c' = disk c
  | Blocks c' => B /\ disk c' = disk c
  | Aborts c' => False
  | Undefined => U
  end.

Lemma ends_ret {A} (a : A) (Q : A -> Prop) B U : Q a -> ends (cli_ret a) Q B U.
Proof. done. Qed.
Lemma ends_print s (Q : unit -> Prop) B U : Q tt -> ends (print s) Q B U.
Proof. done. Qed.
Lemma ends_emit fs (Q : unit -> Prop) B U : Q tt -> ends (emit fs) Q B U.
Proof. done. Qed.
Lemma ends_blocks {A} (Q : A -> Prop) (B U : Prop) : B -> ends blocks Q B U.
Proof. done. Qed.
Lemma ends_disk (Q : Disk -> Prop) B U : (forall d, Q d) -> ends get_disk Q B U.
Proof. intros HQ c. split; [apply HQ|done]. Qed.
Lemma ends_die msg (Q : Z -> Prop) B U : Q 1 -> ends (die msg) Q B U.
Proof. done. Qed.

Lemma ends_bind {A C} (m : cli A) (k : A -> cli C) (P : A -> Prop) Q B U :
  ends m P B U -> (forall a, P a -> ends (k a) Q B U) -> ends (cli_bind m k) Q B U.
Proof.
  intros Hm Hk c. specialize (Hm c). unfold cli_bind. destruct (m c) as [a c'|c'|c'|]; [|done..].
  destruct Hm as [Ha Hd]. specialize (Hk a Ha c'). by rewrite <- Hd.
Qed.
Lemma ends_deref {A} (o : option A) (Q : A -> Prop) (B U : Prop) :
  (forall a, o = Some a -> Q a) -> (o = None -> U) -> ends (deref o) Q B U.
Proof. intros H1 H2 c. destruct o; cbn; auto. Qed.
Lemma ends_locked {A} (m : locked A) f (Q : A -> Prop) (B U : Prop) :
  (forall a g, m false f = Some (a, g) -> Q a) -> (m false f = None -> B) -> ends (call_locked m f) Q B U.
Proof. intros H1 H2 c. unfold call_locked. destruct (m false f) as [[a g]|]; cbn; eauto. Qed.

Lemma ends_lines l (Q : unit -> Prop) B U : Q tt -> ends (print_lines l) Q B U.
Proof.
  intros HQ. induction l as [|s l IH]; cbn [print_lines]; [by apply ends_ret|].
  apply (ends_bind _ _ (fun _ => True)); [by apply ends_print|done].
Qed.

(** A program whose text is printed and whose exit code is 0. *)
Lemma ends_print_0 {A} (m : cli A) (Q : Z -> Prop) B U :
  ends m (fun _ => True) B U -> Q 0 -> ends (_ <- m ;; cli_ret 0) Q B U.
Proof. intros Hm HQ. eapply ends_bind; [exact Hm|]. intros _ _. by apply ends_ret. Qed.

Lemma ends_object id f text (Q : Z -> Prop) B U : Q 0 -> ends (print_object id f text) Q B U.
Proof.
  intros HQ. unfold print_object. destruct (get id f); [|by apply ends_ret]. apply ends_print_0; [by apply ends_print|done].
Qed.

Lemma ends_done {A} (m : cli A) a (Q : A -> Prop) B U :
  (forall c, exists c', m c = Done a c' /\ disk c' = disk c) -> Q a -> ends m Q B U.
Proof. intros Hm HQ c. destruct (Hm c) as (c' & -> & Hd). done. Qed.

Definition exit_code (rc : Z) : Prop := rc = 0 \/ rc = 1.
Lemma exit_0 : exit_code 0. Proof. by left. Qed.
Lemma exit_1 : exit_code 1. Proof. by right. Qed.

Create HintDb cli.
#[export] Hint Constants Opaque : cli.
#[export] Hint Resolve ends_ret ends_print ends_emit ends_die ends_lines ends_print_0 ends_object exit_0 exit_1 : cli.

Lemma ends_if {A} (b : bool) (m m' : cli A) Q B U : ends m Q B U -> ends m' Q B U -> ends (if b then m else m') Q B U.
Proof. by destruct b. Qed.
#[export] Hint Resolve ends_if : cli.

Lemma ends_case {A} (b : bool) (m m' : cli A) Q B U : (b = true -> ends m Q B U) -> ends m' Q B U -> ends (if b then m else m') Q B U.
Proof. destruct b; auto. Qed.

Lemma ends_objects f (k : list WarmthObject -> cli Z) (Q : Z -> Prop) B U :
  (forall objs, ends (k objs) Q B U) -> ends (objs <- call_locked Fabric.objects f ;; k objs) Q B U.
Proof. intros Hk. apply (ends_bind _ _ (fun _ => True)); [by apply ends_locked|done]. Qed.

Lemma explain_none id f : explain id f = None -> get id f = None.
Proof. unfold explain, get. by destruct (objects_ f !! id). Qed.

(** The sample, evaluated once, and its objects. *)
Definition sample_fabric : WarmthFabric := Eval vm_compute in build_sample_fabric.
Lemma sample_fabric_eq : build_sample_fabric = sample_fabric.
Proof. vm_compute. reflexivity. Qed.
Definition sample_ids : list Id128 := Eval vm_compute in object_ids sample_fabric.

Lemma sample_known id : is_Some (get id build_sample_fabric) -> id ∈ sample_ids.
Proof.
  rewrite sample_fabric_eq. intros [o Ho]. change sample_ids with (object_ids sample_fabric).
  unfold object_ids. rewrite list_elem_of_fmap. exists (id, o). split; [done|].
  unfold in_order. rewrite merge_sort_Permutation. by apply elem_of_map_to_list.
Qed.

(** The plan of the sample, whose scores are numbers. *)
Definition sample_plan : PlanExplanation := Eval vm_compute in
  (fun p cs => mkPlanExpl (cfg_workload (cfg_ sample_fabric)) Id128_zero (generation p) "score_desc_then_id_asc"
     (map (plan_step p) (merge_sort (not_after (before p)) cs)))
  (cfg_policy (cfg_ sample_fabric)) (map (fun kv => fab_candidate sample_fabric kv.2) (in_order (objects_ sample_fabric))).
Lemma sample_plan_eq : explain_plan sample_fabric = Some sample_plan.
Proof.
  unfold explain_plan, plan, build. rewrite sort_scored; [vm_compute; reflexivity|].
  apply (bool_decide_unpack _). vm_compute. exact I.
Qed.

#[local] Opaque ends.
Section outcomes.
Variable e : Env.

(** The id an explanation command asks for is not one of the sample. *)
Definition unknown_id (key : string) (a : list string) : Prop :=
  exists id, from_string (getarg a key "") = Some id /\ get id build_sample_fabric = None.

(** A program that can be run: what is printed does not matter to how it ends. *)
Ltac runs := eapply (ends_done _ 0); [intros c; eexists; split; [rewrite ?sample_fabric_eq; vm_compute; reflexivity|reflexivity]|apply exit_0].

Lemma explain_as_ends id json (U : Prop) : (get id build_sample_fabric = None -> U) ->
  ends (run_explain_as id json) exit_code False U.
Proof.
  intros HU. destruct (get id build_sample_fabric) as [o|] eqn:Ho.
  - apply mk_is_Some, sample_known in Ho. unfold run_explain_as. rewrite sample_fabric_eq. unfold sample_ids in Ho.
    repeat (apply elem_of_cons in Ho as [->|Ho]); first [destruct (not_elem_of_nil _ Ho)|destruct json; runs].
  - assert (explain id build_sample_fabric = None) as E by (unfold explain, get in *; by rewrite Ho).
    unfold run_explain_as. revert E HU Ho. generalize build_sample_fabric. intros f E HU Ho.
    apply (ends_bind _ _ (fun _ => False)); [|intros x []]. apply ends_deref; [intros a Ha; congruence|auto].
Qed.

Lemma inspect_ends a json : ends (run_inspect a json) exit_code False (unknown_id "inspect" a).
Proof.
  unfold run_inspect. destruct (from_string _) as [id|] eqn:E; [|auto with cli].
  apply explain_as_ends. intros H. exists id. split; [exact E|exact H].
Qed.
Lemma explain_ends a json : ends (run_explain a json) exit_code False (unknown_id "explain" a).
Proof.
  unfold run_explain. destruct (from_string _) as [id|] eqn:E; [|auto with cli].
  apply explain_as_ends. intros H. exists id. split; [exact E|exact H].
Qed.

Lemma list_ends json : ends (run_list json) exit_code False False.
Proof. unfold run_list. destruct json; runs. Qed.
Lemma readiness_ends json : ends (run_readiness json) exit_code False False.
Proof. unfold run_readiness. destruct json; runs. Qed.
Lemma plan_ends json : ends (run_plan json) exit_code False False.
Proof. unfold run_plan. rewrite sample_fabric_eq, sample_plan_eq. destruct json; runs. Qed.
Lemma budgets_ends json : ends (run_budgets json) exit_code False False.
Proof. unfold run_budgets. destruct json; runs. Qed.

Lemma warm_ends a : ends (run_warm e a) exit_code False False.
Proof.
  unfold run_warm, run_warm_on. generalize build_sample_fabric. intros g. destruct (from_string _); [|auto with cli]. destruct (warm _ _ _ _ _) as [ok f]. auto with cli.
Qed.
Lemma invalidate_ends a : ends (run_invalidate a) exit_code False False.
Proof.
  unfold run_invalidate, run_invalidate_on. generalize build_sample_fabric. intros g. destruct (from_string _); [|auto with cli]. destruct (invalidate _ _ _) as [ok f]. auto with cli.
Qed.
Lemma after_warm_ends g key op text a : ends (run_after_warm_on g key op text a) exit_code False False.
Proof.
  unfold run_after_warm_on. destruct (from_string _); [|auto with cli]. destruct (warm_to_ready _ _) as [ok f].
  apply ends_if; [auto with cli|]. destruct (op _ _) as [ok' f']. auto with cli.
Qed.

Lemma snapshot_ends : ends run_snapshot exit_code True False.
Proof. unfold run_snapshot. by apply (ends_bind _ _ (fun _ => False)); [apply ends_locked|]. Qed.
Lemma save_ends a : ends (run_save a) exit_code True False.
Proof.
  unfold run_save. apply (ends_bind _ _ (fun _ => True)); [by apply ends_disk|]. intros d _. by apply (ends_bind _ _ (fun _ => False)); [apply ends_locked|].
Qed.
Lemma recover_ends a : ends (run_recover a) exit_code False False.
Proof.
  unfold run_recover. apply (ends_bind _ _ (fun _ => True)); [by apply ends_disk|]. intros d _. destruct (recover_file _ _ _) as [[] f]; auto with cli.
Qed.

(** The transcript of the demonstration. *)
Definition synthetic_lines : list string :=
  map (fun s => s +:+ newline)
    ["cold: state=COLD composite=COLD"; "warm: measured 1ms, 268435456 bytes, state=WARM execution_ready=yes";
     "invalidated: state=INVALIDATED reason=MODEL_REVISION_CHANGE"; "rewarmed: state=WARM ready=yes"; "budgets_balanced=yes"].

Lemma synthetic_done c :
  run_synthetic e c = Done 0 (mkConsole (fold_left String.append synthetic_lines (stdout c)) (stderr c) (disk c) (sent c)).
Proof. vm_compute. reflexivity. Qed.

Lemma synthetic_ends : ends (run_synthetic e) exit_code False False.
Proof. apply (ends_done _ 0); [|apply exit_0]. intros c. eexists. split; [apply synthetic_done|reflexivity]. Qed.

Lemma benchmark_ends : ends (run_benchmark e) exit_code False False.
Proof. unfold run_benchmark. destruct (fold_left _ _ _) as [ids f]. auto with cli. Qed.

(** A port argument that [atoi] cannot represent. *)
Definition bad_port (key : string) (a : list string) : Prop := atoi (getarg a key "0") = None.

Lemma port_ends key a (k : Z -> cli Z) Q B (U : Prop) : (forall p, ends (k p) Q B U) -> (bad_port key a -> U) ->
  ends (p <- port_of (getarg a key "0") ;; k p) Q B U.
Proof.
  intros Hk HU. apply (ends_bind _ _ (fun _ => True)); [|intros p _; apply Hk].
  unfold port_of. apply (ends_bind _ _ (fun _ => True)); [by apply ends_deref|]. intros v _. by apply ends_ret.
Qed.

Lemma coordinator_ends a : ends (run_coordinator_mode e a) exit_code True (bad_port "--port" a).
Proof.
  unfold run_coordinator_mode. apply port_ends; [|done]. intros p. destruct (bind e p); [|auto with cli].
  apply (ends_bind _ _ (fun _ => True)); [by apply ends_print|]. intros _ _. by apply ends_blocks.
Qed.

Lemma connect_shutdown ok incoming w : shutdown_requested_ (Worker.connect ok incoming w).2 = shutdown_requested_ w.
Proof.
  unfold Worker.connect. destruct (negb ok); [done|]. destruct (write _); [|done]. destruct (read incoming) as [[f r]|]; [|done].
  unfold adopt. repeat case_match; simplify_eq; done.
Qed.

(** The coordinator this run is pointed at keeps the connection open. *)
Definition patient_coordinator (a : list string) : Prop :=
  exists port p, dial e (getarg a "--coordinator-host" "127.0.0.1") port = Some p /\ closes p = false.

Lemma worker_ends a : ends (run_worker_mode e a) exit_code (patient_coordinator a) (bad_port "--coordinator-port" a).
Proof.
  unfold run_worker_mode. apply port_ends; [|done]. intros port. cbn zeta. set (w := worker_new (worker_config a)).
  destruct (dial e _ port) as [p|] eqn:Ed; [|auto with cli].
  assert (forall s, read_waits p s = true -> patient_coordinator a) as Hp.
  { intros s [Hc _]%andb_true_iff. exists port, p. split; [done|]. by apply negb_true_iff. }
  pose proof (connect_shutdown true (arrives p) w) as Hs.
  destruct (Worker.connect _ _ w) as [[ok hello] w']. cbn [snd] in Hs.
  apply (ends_bind _ _ (fun _ => True)); [by apply ends_emit|]. intros _ _.
  apply ends_case; [intros [_ Hw]%andb_true_iff; by eapply ends_blocks, Hp|]. apply ends_if; [auto with cli|].
  set (rest := match read _ with Ok _ => _ | Err _ => _ end).
  destruct (run_total (fun _ _ => SyntheticWarmHook) (worker_clock e) rest w' (S (length rest)) ltac:(lia) Hs)
    as (_ & _ & unread & fs & w2 & _ & Hr & _).
  apply (ends_bind _ _ (fun _ => True)); [apply ends_deref; [done|by rewrite Hr]|]. intros [[fs' un'] w3] _.
  apply (ends_bind _ _ (fun _ => True)); [by apply ends_emit|]. intros _ _.
  apply ends_case; [intros [_ Hw]%andb_true_iff; by eapply ends_blocks, Hp|]. auto with cli.
Qed.
End outcomes.

(** *** Commands on one object *)

Lemma warm_unknown id action t1 t2 f : get id f = None -> warm id action t1 t2 f = (false, f).
Proof. unfold get, warm, warm_begin. by intros ->. Qed.
Lemma on_unknown id h f : get id f = None -> on_object id h f = (false, f).
Proof. unfold get, on_object. by intros ->. Qed.

Lemma getarg_two key s : getarg [key; s] key "" = s.
Proof. cbn. by rewrite decide_True. Qed.

Definition console (d : Disk) : Console := mkConsole "" "" d [].
(** What a command on an object prints: for a malformed id, for one that is not
    an object of the sample, and on success after the id. *)
Definition object_commands : list (string * string * string * string) :=
  [("warm", "invalid id" +:+ newline, "warm failed" +:+ newline, "WARM (measured 1 ms, 268435456 bytes)");
   ("invalidate", "", "invalidate failed" +:+ newline, "INVALIDATED (MODEL_REVISION_CHANGE)");
   ("demote", "", "warm failed" +:+ newline, "PARTIALLY_WARM");
   ("evict", "", "warm failed" +:+ newline, "EVICTED (residency=HOST_ONLY)")].

Lemma main_as cmd e s a : command_of s = cmd -> main e (s :: a) = run_command e cmd (s :: a) (hasarg (s :: a) "--json").
Proof. by intros <-. Qed.

(** Picks a row of [object_commands] and dispatches to its command. *)
Ltac dispatch_row Hrow :=
  unfold object_commands in Hrow; repeat (apply elem_of_cons in Hrow as [->|Hrow]); [..|destruct (not_elem_of_nil _ Hrow)];
  cbn [fst snd];
  [rewrite (main_as Warm) by (vm_compute; reflexivity) | rewrite (main_as Invalidate) by (vm_compute; reflexivity)
  | rewrite (main_as Demote) by (vm_compute; reflexivity) | rewrite (main_as Evict) by (vm_compute; reflexivity)];
  cbn [run_command]; unfold run_warm, run_invalidate, run_demote, run_evict, run_warm_on, run_invalidate_on, run_after_warm_on; rewrite getarg_two.

(** The four commands on a malformed and on an unknown id. *)
Lemma object_command_malformed e d (row : string * string * string * string) s :
  row ∈ object_commands -> from_string s = None -> main e [row.1.1.1; s] (console d) = Done 1 (mkConsole "" row.1.1.2 d []).
Proof. intros Hrow Hs. dispatch_row Hrow; rewrite Hs; reflexivity. Qed.

Lemma object_command_unknown e d (row : string * string * string * string) s id :
  row ∈ object_commands -> from_string s = Some id -> get id build_sample_fabric = None ->
  main e [row.1.1.1; s] (console d) = Done 1 (mkConsole "" row.1.2 d []).
Proof.
  intros Hrow Hs. dispatch_row Hrow; rewrite Hs; generalize build_sample_fabric; intros f Hid;
    [rewrite warm_unknown by exact Hid|unfold invalidate|unfold warm_to_ready..]; rewrite ?on_unknown by exact Hid; reflexivity.
Qed.

Lemma object_command_known e d (row : string * string * string * string) s id :
  row ∈ object_commands -> from_string s = Some id -> id ∈ sample_ids ->
  main e [row.1.1.1; s] (console d) = Done 0 (mkConsole (to_string id +:+ " -> " +:+ row.2 +:+ newline) "" d []).
Proof.
  intros Hrow Hs Hid. dispatch_row Hrow; rewrite Hs, sample_fabric_eq; clear Hs; unfold sample_ids in Hid;
    repeat (apply elem_of_cons in Hid as [->|Hid]); first [destruct (not_elem_of_nil _ Hid) | vm_compute; reflexivity].
Qed.

Lemma ends_weaken {A} (m : cli A) (Q : A -> Prop) (B B' U U' : Prop) : ends m Q B U -> (B -> B') -> (U -> U') -> ends m Q B' U'.
Proof.
  #[local] Transparent ends.
  intros Hm HB HU c. specialize (Hm c). destruct (m c); [done|split; [apply HB|]; apply Hm|done|by apply HU].
  #[local] Opaque ends.
Qed.

(** ** Properties *)

Definition invoked (a : list string) : Command := match a with [] => Help | s :: _ => command_of s end.

(** Why a run has undefined behaviour. *)
Definition misuse (a : list string) : Prop :=
  (invoked a = Inspect /\ unknown_id "inspect" a) \/ (invoked a = Explain /\ unknown_id "explain" a) \/
  (invoked a = CoordinatorMode /\ bad_port "--port" a) \/ (invoked a = WorkerMode /\ bad_port "--coordinator-port" a).

(** The outcome of one command, widened to that of [main]. *)
Ltac ended lem := eapply ends_weaken; [exact lem|tauto..].

(** One of the two commands that only Windows has. *)
Definition windows_command (e : Env) (a : list string) (cmd : Command) : Prop := invoked a = cmd /\ is_Some (windows e).

#[export] Instance Command_eq_dec : EqDecision Command.
Proof. solve_decision. Defined.
#[export] Instance windows_command_dec e a cmd : Decision (windows_command e a cmd).
Proof. unfold windows_command. apply _. Defined.

Lemma main_invoked e a cmd : invoked a = cmd -> cmd <> Help -> main e a = run_command e cmd a (hasarg a "--json").
Proof. destruct a as [|s a]; intros <- H; [destruct H; reflexivity|reflexivity]. Qed.

Lemma main_ends e a : ~ windows_command e a Multiprocess -> ~ windows_command e a Cuda ->
  ends (main e a) exit_code (invoked a = SnapshotCmd \/ invoked a = Save \/ invoked a = CoordinatorMode \/
    (invoked a = WorkerMode /\ patient_coordinator e a)) (misuse a).
Proof.
  unfold misuse, windows_command. destruct a as [|s a]; [intros _ _; apply ends_print_0; [by apply ends_lines|apply exit_0]|].
  cbn [main invoked]. generalize (s :: a). clear a. intros a. generalize (hasarg a "--json"). intros json.
  destruct (command_of s) eqn:E; intros Hm Hc; cbn [run_command].
  - ended (list_ends json).
  - ended (inspect_ends a json).
  - ended (readiness_ends json).
  - ended (warm_ends e a).
  - ended (invalidate_ends a).
  - unfold run_demote. ended (after_warm_ends build_sample_fabric "demote" demote (fun o => state_name (state_ o)) a).
  - unfold run_evict. eapply ends_weaken; [apply after_warm_ends|tauto..].
  - ended (explain_ends a json).
  - ended (plan_ends json).
  - ended (budgets_ends json).
  - ended snapshot_ends.
  - ended (save_ends a).
  - ended (recover_ends a).
  - ended (synthetic_ends e).
  - ended (benchmark_ends e).
  - destruct (windows e) as [w|]; [destruct Hm; split; [reflexivity|by exists w]|apply ends_die, exit_1].
  - destruct (windows e) as [w|]; [destruct Hc; split; [reflexivity|by exists w]|apply ends_die, exit_1].
  - ended (worker_ends e a).
  - ended (coordinator_ends e a).
  - apply ends_print_0; [by apply ends_lines|apply exit_0].
  - apply (ends_bind _ _ (fun _ => True)); [by apply ends_lines|]. intros _ _. apply ends_ret, exit_1.
Qed.

(** C34: how a run of the command line ends.  For any arguments and environment it
    exits with 0 or 1 (on Windows [cuda] hands on the exit code of another
    program).  It may block for ever only in
    - [save], [snapshot] (on the mutex of their fabric) and the coordinator mode,
    - the worker mode, in a read from a coordinator that keeps the connection
      open and sends nothing more,
    - on Windows, [multiprocess], and [cuda] while the other program runs.
    Only [multiprocess] may be aborted, and undefined behaviour comes only from
    asking for the explanation of an unknown object or from a port that does not
    fit an [int].  No command changes a file, [save] included. *)
Theorem cli_outcomes (e : Env) (a : list string) (c : Console) :
  match main e a c with
  | Done rc c' => (rc = 0 \/ rc = 1 \/ windows_command e a Cuda) /\ disk c' = disk c
  | Blocks c' =>
      (invoked a = SnapshotCmd \/ invoked a = Save \/ invoked a = CoordinatorMode \/
       (invoked a = WorkerMode /\ patient_coordinator e a) \/
       windows_command e a Multiprocess \/ windows_command e a Cuda) /\ disk c' = disk c
  | Aborts c' => windows_command e a Multiprocess /\ disk c' = disk c
  | Undefined => misuse a
  end.
Proof.
  destruct (decide (windows_command e a Multiprocess)) as [Hm|Hm]; [|destruct (decide (windows_command e a Cuda)) as [Hc|Hc]].
  - pose proof Hm as [Hi [w Ew]]. rewrite (main_invoked e a Multiprocess) by done. cbn [run_command]. rewrite Ew.
    pose proof (multiprocess_prints w c) as H. destruct (run_multiprocess w c); tauto.
  - pose proof Hc as [Hi [w Ew]]. rewrite (main_invoked e a Cuda) by done. cbn [run_command]. rewrite Ew.
    unfold run_cuda_demo. destruct (exit_status w _) as [[]|]; cbn; tauto.
  - pose proof (main_ends e a Hm Hc c) as H. change (exit_code) with (fun rc => rc = 0 \/ rc = 1) in H.
    destruct (main e a c); tauto.
Qed.

(** What a row of the table promises for the argument [s]. *)
Definition promised (f : WarmthFabric) (d : Disk) (row : string * string * string * string) (s : string) : outcome Console Z :=
  let '(_, malformed, unknown, text) := row in
  match from_string s with
  | None => Done 1 (mkConsole "" malformed d [])
  | Some id =>
      match get id f with
      | None => Done 1 (mkConsole "" unknown d [])
      | Some _ => Done 0 (mkConsole (to_string id +:+ " -> " +:+ text +:+ newline) "" d [])
      end
  end.

(** The commands on one object.  A malformed id, an id that is not an object
    of the sample and a known one are told apart, for each of [warm],
    [invalidate], [demote] and [evict]: exit code, output and error output are
    those of the table, whatever the clock says. *)
Theorem cli_object_commands (e : Env) (d : Disk) (s : string) :
  Forall (fun row => main e [row.1.1.1; s] (console d) = promised build_sample_fabric d row s) object_commands.
Proof.
  apply Forall_forall. intros [[[cmd malformed] unknown] text] Hrow. unfold promised. destruct (from_string s) as [id|] eqn:Hs.
  - destruct (get id build_sample_fabric) as [o|] eqn:Ho.
    + exact (object_command_known e d _ s id Hrow Hs (sample_known id (mk_is_Some _ _ Ho))).
    + exact (object_command_unknown e d _ s id Hrow Hs Ho).
  - exact (object_command_malformed e d _ s Hrow Hs).
Qed.

(** The output is a document that parses, and exit code and errors are clean. *)
Definition prints_document (e : Env) (d : Disk) (a : list string) (v : Value) : Prop :=
  exists text, dump 2 v = Some text /\
    main e (a ++ ["--json"]) (console d) = Done 0 (mkConsole (text +:+ newline) "" d []) /\
    parse (text +:+ newline) = Some (inl v).

(** A command run on the evaluated sample, and its output read back. *)
Ltac document cmd body :=
  unfold prints_document; cbn [app]; eexists; split; [vm_compute; reflexivity|]; split;
  [rewrite (main_as cmd) by (vm_compute; reflexivity); cbn [run_command]; unfold body, run_explain_as;
   rewrite ?sample_fabric_eq, ?sample_plan_eq|];
  vm_compute; reflexivity.

(** The JSON output of the command line: [list], [readiness], [plan], [budgets]
    and [explain] of each object of the sample print one document each, and a
    JSON reader gets from it exactly what the code had put together. *)
Theorem cli_json_documents (e : Env) (d : Disk) :
  let f := build_sample_fabric in
  prints_document e d ["list"] (Array (map (fun o => readiness_to_json (listed o)) (map snd (in_order (objects_ f))))) /\
  prints_document e d ["readiness"]
    (object_of [("workload", Str "demo-workload"); ("total_objects", int_value 5); ("execution_ready", int_value 0)]) /\
  (exists p, explain_plan f = Some p /\ prints_document e d ["plan"] (plan_to_json p)) /\
  prints_document e d ["budgets"]
    (object_of [("device_memory", int_value 0); ("concurrent_warming_ops", int_value 0);
                ("outstanding_reservations", int_value 0); ("balanced", Bool true)]) /\
  Forall (fun id => exists x, explain id f = Some x /\
    prints_document e d ["explain"; to_string id] (readiness_to_json x)) (object_ids f).
Proof.
  cbn zeta. rewrite sample_fabric_eq. split_and!.
  - document List run_list.
  - document Readiness run_readiness.
  - exists sample_plan. split; [apply sample_plan_eq|]. document PlanCmd run_plan.
  - document Budgets run_budgets.
  - change (object_ids sample_fabric) with sample_ids. unfold sample_ids.
    rewrite !Forall_cons. split_and!; [..|by apply Forall_nil].
    all: eexists; split; [vm_compute; reflexivity|document Explain run_explain].
Qed.

(** The transcript of the cold-to-warm demonstration. *)
Theorem cli_synthetic (e : Env) (c : Console) :
  main e ["synthetic"] c = Done 0 (mkConsole (fold_left String.append synthetic_lines (stdout c)) (stderr c) (disk c) (sent c)).
Proof. apply synthetic_done. Qed.
